(* ===== verification/_CoqProject ===== *)
-Q . S2P
Prelude.v
Machine.v
Bytes.v
Fe.v
FeArith.v
FeBytes.v
FePow.v
Prime.v
FeTheorems.v
Sc.v
ScArith.v
Sha512.v
Sha512Correct.v
Edwards.v
Precomp.v
Ge.v
GeArith.v
GeCode.v
Limbs.v
GeTable.v
GeDigits.v
GeMult.v
GeTheorems.v
Ed25519.v
Ed25519Correct.v
Montgomery.v
KeyExchange.v
Cpp.v
Json.v
Lexer.v
Parser.v
Grammar.v
Serializer.v
JsonStrings.v
JsonText.v
Transaction.v
Wire.v
Node.v
Master.v
Voting.v
Blocks.v
Verification.v
Expression.v
Query.v
Search.v
Results.v
Accounts.v
Queue.v
Store.v
Documents.v
Commits.v
Compute.v
Packets.v
Changes.v
Tenants.v
Helpers.v
