(* ===== verification/Prelude.v ===== *)
(** * A verification library for the Sparkster Decentralized Cloud nodes

    The program is a network of four kinds of nodes, written in C and C++. Clients talk to master
    nodes over web sockets, nodes talk to each other over a distributed hash table (OpenDHT). A
    client signs a request to run a function; a master node stores it as a transaction and announces
    it to the others and to a verifier; verifiers run the function and publish the hashes of their
    results; when two thirds of the 21 master nodes' worth of results agree, the client gets its
    answer and the transaction waits for a block; every second the master node whose turn it is
    closes a block and sends it to a storage node; every hour the master nodes elect the next block
    producers. Storage nodes keep documents in IPFS and answer queries with filters. Signatures of
    clients are Ed25519, of which the repository has its own implementation.

    ** How the library follows the code

    The signature library (src/shared/ed25519/src), bottom up:
    - Machine, Bytes: the C integers with their wrap-around, byte strings;
    - Fe (fe.c) with FeArith, FeBytes, FePow, Prime and FeTheorems: the field of 2^255 - 19;
    - Sc (sc.c) with ScArith: scalars modulo the order of the group;
    - Sha512 (sha512.c) with Sha512Correct: the streaming hash against FIPS 180-4;
    - Edwards: the curve as an abstract group; Precomp (precomp_data.h), Ge (ge.c) with GeArith, GeCode,
      Limbs, GeTable, GeDigits, GeMult and GeTheorems: points, tables, scalar multiplication;
    - Ed25519 (keypair.c, sign.c, verify.c, add_scalar.c, key_exchange.c) with Ed25519Correct;
    - Montgomery and KeyExchange: the ladder of key_exchange.c on the coordinate u = (1 + y) / (1 - y).

    The nodes:
    - Cpp: exceptions, the state-and-exception monad, numbers as text; Json: the values of
      nlohmann/json.hpp and their order;
    - Lexer, Parser and Serializer (nlohmann/json.hpp): JSON text, read by json::parse and written by
      dump(). Grammar states the grammar of JSON as an inductive relation and proves the loop of the
      parser to be it; JsonStrings is about strings, JsonText about values and whole texts;
    - Transaction (BlockChainCommon/transaction.cpp): a transaction and its count of results;
    - Wire (BlockChainCommon/functions.cpp): the messages as text;
    - Node (functions.cpp, webSocketServer.cpp, blockChainNode.cpp): what every node does: tables of
      nodes, clients, dispatch of messages;
    - Accounts (functions.cpp): the keys and signatures of clients, over Ed25519;
    - Master (MasterNodeLib, BlockUtil.cpp, MasterNode/main.cpp): elections, transactions, blocks, every
      handler; its theorems are in Voting, Blocks and Verification;
    - Expression and Query (StorageNode/StorageNode.cpp): filters and the search for documents; their
      theorems are in Search and Results;
    - Queue (StorageNode.cpp, Command.cpp): the queues of state changes and their threads;
    - Store (StorageNode.cpp): what a storage node writes: every command of a state change, the trees of
      documents, templates, blocks and transactions in IPFS, their roots in the DHT, the queue of blocks.
      Documents has the theorems on an entity and its documents, Commits those on blocks: there the
      block that timeToCloseBlock of Master sends is read, stored and answered with its proof;
    - Compute (ComputeNode, ComputeNodeLib/JsProcessor.cpp): the table of requests, the text of a
      function with its inputs, its execution, what is published, the commands a computing node keeps;
    - Packets (functions.cpp, IncomingMessage.cpp): compression without nulls, fragments and their
      reassembly;
    - Changes: the way of a function's changes, from the text CommandBuilder.txt builds over Compute, Wire
      and Node to the queues of Queue;
    - Tenants: sequences of commands of all tenants against one abstract store;
    - Helpers (MasterNodeLib/Util.cpp, StorageNode/Block.cpp): two classes nothing uses.

    A C function is a function from the contents of its buffers to what it writes; a local variable
    that the code leaves uninitialised is an argument. A C++ function over globals runs in [M state]
    (file Cpp): it returns a value or throws, and the state changes before a [throw] stay, as in the
    code. Undefined behaviour (a read outside a buffer, [top] of an empty stack) is the exception
    [undefined], so that a theorem with an [Ok] result excludes it. What a node sends is the trace
    [out] of its state. Handlers run one after the other, as the mutexes make them, except where a
    lock is dropped in between: there the critical sections are separate definitions (registerVote,
    processStateUpdates).

    What the sources only call is an interface, a class whose laws state its documentation:
    [BoostStrings] (split, replace, join), [StdSort] (std::sort gives a sorted permutation), [JsonText]
    (parsing inverts dumping: the nodes are proved against this law, and the file JsonText proves it of
    the model of json.hpp), [Services] (hash functions, base 64, X.509 signatures), [Ipfs] (the links
    and the data of a node), [Merkle] (adding objects and patching their links), [Online] (an IPFS server
    that does not refuse them), [Dht] (the values of a key are listed in any order, since OpenDHT
    documents none; what was put last and what a reader gets are kept apart in Documents),
    [PriorityQueue] (std::priority_queue: a top that nothing precedes), [UnorderedMap] and [Begin] (the
    order of std::unordered_map), [Engine] (the JavaScript engine: a script is the tree of the calls it
    makes of the node's functions), [Zlib] (decompression undoes compression). Each has an instance at
    which the witnesses evaluate.

    ** What the theorems show

    - Signatures. Field, scalar and point functions compute what they should and no machine operation
      overflows inside the documented bounds; the hash is SHA-512 for every chunking; encodings
      round-trip; every precomputed entry is right; what ed25519_sign makes ed25519_verify accepts;
      verification decides the group equation, and accepts S + l as well as S; what a client signs
      with a generated account is accepted, and only then a request is stored; both sides of a key
      exchange get the same secret.
    - Messages. A message is read as it was written, a transaction too; a message is handled at most
      once per node; decompression undoes compression when zlib wrote a null; fragments put a packet
      together in any order.
    - JSON text. The parser accepts exactly the grammar and builds the value it describes; it ends on
      every text; what it builds is well formed; what dump writes it reads back, strings with escapes
      and surrogates included; dump accepts exactly UTF-8 (the automaton against the table of the
      Unicode standard), stays inside its buffers, and throws type_error otherwise; a null byte ends a
      text.
    - Elections. Nodes with the same ballots elect the same producers when no two ballots tie; the
      producer for a time is inside the list; a lone node elects itself, which the code excludes in a
      comment.
    - Transactions and blocks. Fourteen equal results are needed and enough; while the node
      remembers a transaction, it is in the blocks at most once and its client is answered at most
      once (invariants over runs of all handlers, votes, blocks and the cleanup; once it is removed
      from the table, late messages can queue it again);
      blocks are chained; closing takes the due transactions and no others; three ways in which a
      block or a transaction gets lost.
    - Queries. The reader of filters inverts writing; both searches end; on sorted documents that
      contain the value four of the six comparisons select exactly what they name, the two others do
      not, and without the value none does; union and intersection are those of sets; the text of a
      filter of the right comparisons is answered with exactly the documents that satisfy it.
    - State changes. Executed and queued commands are those that arrived, unless an older command
      arrives during an execution, and then it is lost.
    - Documents. An entity in IPFS stands for a map from identifiers to documents: adding a document,
      and updating or deleting the one that a filter names, are insertion and deletion (a refinement),
      a new template starts the empty map, and queries read the map. These theorems say what a command
      puts in the DHT, from what it read there, and assume nothing of the order in which the DHT lists
      values. Over sequences of commands of all tenants the node refines a store of templates,
      functions and such maps (Tenants; updates of templates and functions, which link twice under one
      name, left out), as long as no tenant has an underscore in its name and, a condition on the run,
      the DHT answers between the commands with the values put last: an older root loses an
      acknowledged document. A document that is not JSON, a missing one and one of a client that has
      left are not treated as the code means to.
    - Commits. A closed block is stored with all its transactions, and its proof sent on, when the DHT
      answers between its transactions with the values put last.
    - Computing. A request with a value is published once, by its hash, and forgotten; one that fails
      is reported and kept; the inputs are declared inside the body of the function and its name stays.
      Of the changes a function makes, a storage node queues the first, and none of the others, when no
      command holds a separator; a filter with an "or" does, and is lost.

    ** Bounds and fuel

    Loops over data are structural. [search] has fuel 64: the range of 2^32 indexes is halved each time,
    and Search proves that 64 is enough from every state it can reach, the wrapped range included. The
    loops around it have one more than the number of documents. The reader of filters has the length of the
    text, of which each turn takes a character. sha512_update has the number of bytes plus one, proved
    enough. Decimal conversions have the number of digits. A round over a JSON string takes a character and
    a round of the JSON parser a token, so the length of the text bounds both (parse_total); the digits
    of dump_integer have the size of the buffer. [memory] bounds the size of an array that
    [operator[]] extends; theorems that need a bound on it say so.

    ** Not modelled

    - seed.c: I/O.
    - Floating-point numbers in JSON: the value of one in a text is an argument of the parser, any
      function, and there are none in values. Of json.hpp also pretty-printing, the other error
      handlers, callbacks and binary formats, which the nodes do not use.
    - Starting, command lines, logging, key files, HTTP and NTP clients: pure I/O.
    - V8 inside [Engine], IPFS and OpenDHT themselves; of CommandBuilder.txt, a script in JavaScript, only
      how it adds a command to those before (in Compute its text is a parameter).
    - Interleavings of the threads that write documents of different queues: a command runs to its end.
    - gossip.cpp and wingetopts.cpp: disabled or vendored. *)

From Stdlib Require Import ZArith Lia List Bool Setoid Morphisms.
Import ListNotations.
#[global] Open Scope Z_scope.

(** Splits the visible conjunctions of the goal, without unfolding definitions. *)
Ltac splits := repeat lazymatch goal with |- _ /\ _ => split end.

(** ** Congruence modulo an integer *)

(** [eqm n a b]: the integers [a] and [b] are congruent modulo [n]. *)
Definition eqm (n a b : Z) : Prop := (n | a - b).

Notation "a =[ n ]= b" := (eqm n a b) (at level 70, n at level 200, no associativity).

(** Two integers are congruent when they differ by an explicit multiple of the modulus. *)
Lemma eqm_intro (n k a b : Z) : a = b + n * k -> a =[n]= b.
Proof. intros ->; exists k; ring. Qed.

Lemma eqm_elim (n a b : Z) : a =[n]= b -> exists k, a = b + n * k.
Proof. intros [k H]; exists k; lia. Qed.

#[export] Instance eqm_equiv (n : Z) : Equivalence (eqm n).
Proof.
  split; red; unfold eqm.
  - intros a; exists 0; ring.
  - intros a b [k H]; exists (- k); lia.
  - intros a b c [k H] [l K]; exists (k + l); lia.
Qed.

#[export] Instance eqm_add (n : Z) : Proper (eqm n ==> eqm n ==> eqm n) Z.add.
Proof. intros a b [k H] c d [l K]; exists (k + l); lia. Qed.

#[export] Instance eqm_opp (n : Z) : Proper (eqm n ==> eqm n) Z.opp.
Proof. intros a b [k H]; exists (- k); lia. Qed.

#[export] Instance eqm_sub (n : Z) : Proper (eqm n ==> eqm n ==> eqm n) Z.sub.
Proof. intros a b [k H] c d [l K]; exists (k - l); lia. Qed.

#[export] Instance eqm_mul (n : Z) : Proper (eqm n ==> eqm n ==> eqm n) Z.mul.
Proof.
  intros a b [k H] c d [l K]; exists (k * c + b * l).
  replace a with (b + k * n) by lia; replace c with (d + l * n) by lia; ring.
Qed.

Lemma eqm_iff_mod (n a b : Z) : 0 < n -> a =[n]= b <-> a mod n = b mod n.
Proof.
  intros Hn; unfold eqm; split.
  - intros [k H]; replace a with (b + k * n) by lia; apply Z_mod_plus_full.
  - intros H; exists (a / n - b / n).
    pose proof (Z_div_mod_eq_full a n); pose proof (Z_div_mod_eq_full b n); lia.
Qed.

Lemma eqm_mod (n a : Z) : a mod n =[n]= a.
Proof. exists (- (a / n)); pose proof (Z_div_mod_eq_full a n); lia. Qed.

Lemma eqm_small (n a b : Z) : a =[n]= b -> 0 <= a < n -> 0 <= b < n -> a = b.
Proof. intros H Ha Hb; apply eqm_iff_mod in H; [|lia]; now rewrite !Z.mod_small in H by assumption. Qed.

(** A representative in range is the remainder. *)
Lemma eqm_is_mod (n a b : Z) : a =[n]= b -> 0 <= a < n -> a = b mod n.
Proof. intros H Ha; apply eqm_iff_mod in H; [|lia]; now rewrite <- H, Z.mod_small. Qed.

Lemma eqm_pow (n a b : Z) : a =[n]= b -> forall k, a ^ k =[n]= b ^ k.
Proof.
  intros H k. destruct (Z.le_gt_cases 0 k) as [Hk|Hk].
  - revert k Hk; apply natlike_ind; [simpl; reflexivity|].
    intros k Hk IH; rewrite !Z.pow_succ_r by assumption; now apply eqm_mul.
  - now rewrite !Z.pow_neg_r by assumption.
Qed.

(** ** Shifts as division *)

Lemma shiftr_div (a n : Z) : 0 <= n -> Z.shiftr a n = a / 2 ^ n.
Proof. apply Z.shiftr_div_pow2. Qed.

Lemma shiftl_mul (a n : Z) : 0 <= n -> Z.shiftl a n = a * 2 ^ n.
Proof. apply Z.shiftl_mul_pow2. Qed.

(** Rounded and truncated carries: what remains after removing [c * m] from [h]. *)
Lemma div_remainder (h m r : Z) :
  0 < m -> - r <= h - (h + r) / m * m <= m - 1 - r.
Proof.
  intros Hm. pose proof (Z.div_mod (h + r) m ltac:(lia)).
  pose proof (Z.mod_pos_bound (h + r) m Hm). lia.
Qed.

Lemma div_interval (a m lo hi : Z) : 0 < m -> lo <= a <= hi -> lo / m <= a / m <= hi / m.
Proof. intros Hm [H1 H2]; split; apply Z.div_le_mono; lia. Qed.

(** ** Lists *)

Lemma forall_nth_default {A} (P : A -> Prop) (l : list A) (d : A) (n : nat) :
  P d -> Forall P l -> P (nth n l d).
Proof.
  intros Hd Hl; revert n; induction Hl as [|x l Hx Hl IH]; intros [|n]; simpl; auto.
Qed.

Lemma firstn_skipn_length {A} (l : list A) (n m : nat) :
  (n + m <= length l)%nat -> length (firstn m (skipn n l)) = m.
Proof. intros H; rewrite firstn_length_le; [reflexivity|]; rewrite length_skipn; lia. Qed.

Lemma map_nth_seq {A} (l : list A) (d : A) : map (fun i => nth i l d) (seq 0 (length l)) = l.
Proof.
  induction l as [|x l IH]; [reflexivity|].
  cbn [length seq map nth]; f_equal; now rewrite <- seq_shift, map_map.
Qed.

(** Assignment to an array cell (outside the array: nothing). *)
Fixpoint update {A} (l : list A) (n : nat) (x : A) : list A :=
  match l, n with
  | [], _ => []
  | _ :: l', O => x :: l'
  | y :: l', S n' => y :: update l' n' x
  end.

Lemma update_length {A} (l : list A) (n : nat) (x : A) : length (update l n x) = length l.
Proof. revert n; induction l as [|y l IH]; intros [|n]; cbn; auto. Qed.

Lemma update_app {A} (l m : list A) (y x : A) : update (l ++ y :: m) (length l) x = l ++ x :: m.
Proof. induction l as [|z l IH]; cbn; [reflexivity | now rewrite IH]. Qed.

Lemma skipn_cons {A} (l : list A) (n : nat) : (n < length l)%nat ->
  exists y, skipn n l = y :: skipn (S n) l.
Proof.
  revert n; induction l as [|x l IH]; intros n H; [cbn in H; lia|].
  destruct n as [|n]; [now exists x | apply (IH n); cbn in H; lia].
Qed.

(** A loop that writes [g 0], [g 1], ... from offset [off] on. *)
Lemma fold_update {A} (g : nat -> A) (off n : nat) (b : list A) : (off + n <= length b)%nat ->
  fold_left (fun b i => update b (off + i) (g i)) (seq 0 n) b
  = firstn off b ++ map g (seq 0 n) ++ skipn (off + n) b.
Proof.
  induction n as [|n IH]; intros H.
  - cbn [seq fold_left map app]; rewrite Nat.add_0_r; symmetry; apply firstn_skipn.
  - rewrite seq_S, fold_left_app, map_app, IH by lia; cbn [fold_left map].
    destruct (skipn_cons b (off + n)) as [y ->]; [lia|].
    rewrite app_assoc; replace (off + (0 + n))%nat with (length (firstn off b ++ map g (seq 0 n)))
      by (rewrite length_app, firstn_length_le, length_map, length_seq by lia; lia).
    rewrite update_app, <- !app_assoc, Nat.add_succ_r; reflexivity.
Qed.

Lemma map_nth_firstn {A} (l : list A) (d : A) (n : nat) : (n <= length l)%nat ->
  map (fun i => nth i l d) (seq 0 n) = firstn n l.
Proof.
  revert n; induction l as [|x l IH]; intros n H; destruct n as [|n]; try reflexivity; [cbn in H; lia|].
  cbn [seq map nth firstn]; rewrite <- seq_shift, map_map; f_equal; apply IH; cbn in H; lia.
Qed.

Lemma map_const_repeat {A B} (x : B) (l : list A) : map (fun _ => x) l = repeat x (length l).
Proof. induction l as [|a l IH]; [reflexivity | cbn; now rewrite IH]. Qed.

Lemma fold_left_ext {A B} (f g : A -> B -> A) (l : list B) (x : A) :
  (forall a b, f a b = g a b) -> fold_left f l x = fold_left g l x.
Proof. intros E; revert x; induction l as [|b l IH]; intros x; cbn; [reflexivity | rewrite E; apply IH]. Qed.

Lemma nth_app_cons {A} (l m : list A) (x d : A) : nth (length l) (l ++ x :: m) d = x.
Proof. now rewrite app_nth2, Nat.sub_diag by lia. Qed.

Lemma update_app_r {A} (l m : list A) (n : nat) (x : A) :
  update (l ++ m) (length l + n) x = l ++ update m n x.
Proof. induction l as [|y l IH]; cbn; [reflexivity | now rewrite IH]. Qed.

Lemma nth_app_r {A} (l m : list A) (n : nat) (d : A) : nth (length l + n) (l ++ m) d = nth n m d.
Proof. induction l as [|y l IH]; cbn; [reflexivity | exact IH]. Qed.

Lemma nth_update {A} (l : list A) (k j : nat) (x d : A) :
  nth j (update l k x) d = if Nat.eqb j k && Nat.ltb k (length l) then x else nth j l d.
Proof.
  revert k j; induction l as [|y l IH]; intros k j; [now rewrite andb_false_r|].
  destruct k as [|k], j as [|j]; try reflexivity; cbn [update nth]; rewrite IH; reflexivity.
Qed.

Lemma firstn_update {A} (l : list A) (k : nat) (x : A) : firstn k (update l k x) = firstn k l.
Proof.
  revert k; induction l as [|y l IH]; intros [|k]; try reflexivity; cbn [update firstn]; now rewrite IH.
Qed.

Lemma firstn_snoc {A} (l : list A) (n : nat) (d : A) : (n < length l)%nat ->
  firstn (S n) l = firstn n l ++ [nth n l d].
Proof.
  revert n; induction l as [|x l IH]; intros n H; [cbn in H; lia|]; destruct n as [|n]; [reflexivity|].
  cbn [firstn nth app]; f_equal; apply IH; cbn in H; lia.
Qed.
