(* ===== verification/Machine.v ===== *)
(** * Machine integers

    The fixed-width integers of the C sources: [uint8_t] (unsigned char), [uint64_t],
    [int32_t] (also [int]) and [int64_t].  A value is a [Z]; every arithmetic operation wraps
    its exact result to the width of its C type.  Signed overflow (undefined in C, two's
    complement on the compilers the project targets) is modelled as wrap-around; the
    bounds theorems of the client files show that it never happens there.

    The second half is the bound calculus: [rep x e lo hi] says that the machine value [x]
    is the exact integer [e] and lies in an interval, one lemma per operation composes such facts,
    and the tactic [steps] runs a straight-line chain of machine operations. *)

From Stdlib Require Import ZArith Lia List Bool.
From S2P Require Import Prelude.

(** ** The types and their operations *)

Definition u8 (z : Z) : Z := z mod 2 ^ 8.
Definition u32 (z : Z) : Z := z mod 2 ^ 32.
Definition u64 (z : Z) : Z := z mod 2 ^ 64.
Definition s8 (z : Z) : Z := (z + 2 ^ 7) mod 2 ^ 8 - 2 ^ 7.
Definition i32 (z : Z) : Z := (z + 2 ^ 31) mod 2 ^ 32 - 2 ^ 31.
Definition i64 (z : Z) : Z := (z + 2 ^ 63) mod 2 ^ 64 - 2 ^ 63.

Definition add32 (a b : Z) : Z := i32 (a + b).
Definition sub32 (a b : Z) : Z := i32 (a - b).
Definition mul32 (a b : Z) : Z := i32 (a * b).
Definition opp32 (a : Z) : Z := i32 (- a).
Definition shl32 (a n : Z) : Z := i32 (Z.shiftl a n).
Definition shr32 (a n : Z) : Z := Z.shiftr a n.

Definition add64 (a b : Z) : Z := i64 (a + b).
Definition sub64 (a b : Z) : Z := i64 (a - b).
Definition mul64 (a b : Z) : Z := i64 (a * b).
Definition shl64 (a n : Z) : Z := i64 (Z.shiftl a n).
Definition shr64 (a n : Z) : Z := Z.shiftr a n.

(* The operands of the notations below are read in the scope of the whole expression. *)
Arguments add32 : clear scopes.
Arguments sub32 : clear scopes.
Arguments mul32 : clear scopes.
Arguments opp32 : clear scopes.
Arguments shl32 : clear scopes.
Arguments shr32 : clear scopes.
Arguments add64 : clear scopes.
Arguments sub64 : clear scopes.
Arguments mul64 : clear scopes.
Arguments shl64 : clear scopes.
Arguments shr64 : clear scopes.

Declare Scope i32_scope.
Declare Scope i64_scope.
Delimit Scope i32_scope with i32.
Delimit Scope i64_scope with i64.
Infix "+" := add32 : i32_scope.
Infix "-" := sub32 : i32_scope.
Infix "*" := mul32 : i32_scope.
Notation "- a" := (opp32 a) : i32_scope.
Infix "<<" := shl32 (at level 30, no associativity) : i32_scope.
Infix ">>" := shr32 (at level 30, no associativity) : i32_scope.
Infix "+" := add64 : i64_scope.
Infix "-" := sub64 : i64_scope.
Infix "*" := mul64 : i64_scope.
Infix "<<" := shl64 (at level 30, no associativity) : i64_scope.
Infix ">>" := shr64 (at level 30, no associativity) : i64_scope.

(** ** No wrap inside the range *)

Lemma u8_small (z : Z) : 0 <= z < 2 ^ 8 -> u8 z = z.
Proof. apply Z.mod_small. Qed.

Lemma u64_small (z : Z) : 0 <= z < 2 ^ 64 -> u64 z = z.
Proof. apply Z.mod_small. Qed.

Lemma i32_small (z : Z) : - 2 ^ 31 <= z < 2 ^ 31 -> i32 z = z.
Proof. intros H; unfold i32; rewrite Z.mod_small; lia. Qed.

Lemma i64_small (z : Z) : - 2 ^ 63 <= z < 2 ^ 63 -> i64 z = z.
Proof. intros H; unfold i64; rewrite Z.mod_small; lia. Qed.

Lemma s8_small (z : Z) : - 2 ^ 7 <= z < 2 ^ 7 -> s8 z = z.
Proof. intros H; unfold s8; rewrite Z.mod_small; lia. Qed.

Lemma u8_range (z : Z) : 0 <= u8 z < 2 ^ 8.
Proof. apply Z.mod_pos_bound; reflexivity. Qed.

Lemma u64_range (z : Z) : 0 <= u64 z < 2 ^ 64.
Proof. apply Z.mod_pos_bound; reflexivity. Qed.

Lemma i32_range (z : Z) : - 2 ^ 31 <= i32 z < 2 ^ 31.
Proof. unfold i32; pose proof (Z.mod_pos_bound (z + 2 ^ 31) (2 ^ 32) eq_refl); lia. Qed.

(** ** The bound calculus *)

(** [bnd lo x hi] is [lo <= x <= hi], kept folded so that tactics find it by matching. *)
Definition bnd (lo x hi : Z) : Prop := lo <= x <= hi.

(** The machine value [x] equals the exact integer [e], which lies in [[lo, hi]]. *)
Definition rep (x e lo hi : Z) : Prop := x = e /\ bnd lo e hi.

Definition bndb (lo x hi : Z) : bool := (lo <=? x) && (x <=? hi).

Lemma bndb_spec (lo x hi : Z) : bndb lo x hi = true -> bnd lo x hi.
Proof. unfold bndb, bnd; rewrite andb_true_iff, !Z.leb_le; tauto. Qed.

Lemma bnd_weaken (lo hi lo' hi' x : Z) :
  bnd lo x hi -> (lo' <=? lo) && (hi <=? hi') = true -> bnd lo' x hi'.
Proof. unfold bnd; rewrite andb_true_iff, !Z.leb_le; lia. Qed.

Definition fits (m lo hi : Z) : bool := (- m <=? lo) && (hi <? m).

Lemma fits_spec (m lo hi x : Z) : fits m lo hi = true -> lo <= x <= hi -> - m <= x < m.
Proof. unfold fits; rewrite andb_true_iff, Z.leb_le, Z.ltb_lt; lia. Qed.

Lemma rep_var (x lo hi : Z) : bnd lo x hi -> rep x x lo hi.
Proof. now split. Qed.

Lemma rep_const (c : Z) : rep c c c c.
Proof. split; [reflexivity|]; unfold bnd; lia. Qed.

Section Calculus.
Context (x y a b la ha lb hb : Z) (Hx : rep x a la ha) (Hy : rep y b lb hb).

Lemma add_bound : bnd (la + lb) (a + b) (ha + hb).
Proof. destruct Hx as [_ ?], Hy as [_ ?]; unfold bnd in *; lia. Qed.

Lemma sub_bound : bnd (la - hb) (a - b) (ha - lb).
Proof. destruct Hx as [_ ?], Hy as [_ ?]; unfold bnd in *; lia. Qed.

Definition mul_lo : Z := Z.min (Z.min (la * lb) (la * hb)) (Z.min (ha * lb) (ha * hb)).
Definition mul_hi : Z := Z.max (Z.max (la * lb) (la * hb)) (Z.max (ha * lb) (ha * hb)).

Lemma mul_bound : bnd mul_lo (a * b) mul_hi.
Proof.
  destruct Hx as [_ [? ?]], Hy as [_ [? ?]]; unfold bnd, mul_lo, mul_hi.
  destruct (Z.le_gt_cases 0 b), (Z.le_gt_cases 0 la), (Z.le_gt_cases 0 ha); nia.
Qed.

Lemma rep_add32 : fits (2 ^ 31) (la + lb) (ha + hb) = true ->
  rep (add32 x y) (a + b) (la + lb) (ha + hb).
Proof.
  intros F; pose proof add_bound as B; destruct Hx as [-> _], Hy as [-> _].
  split; [|exact B]; apply i32_small; exact (fits_spec _ _ _ _ F B).
Qed.

Lemma rep_add64 : fits (2 ^ 63) (la + lb) (ha + hb) = true ->
  rep (add64 x y) (a + b) (la + lb) (ha + hb).
Proof.
  intros F; pose proof add_bound as B; destruct Hx as [-> _], Hy as [-> _].
  split; [|exact B]; apply i64_small; exact (fits_spec _ _ _ _ F B).
Qed.

Lemma rep_sub32 : fits (2 ^ 31) (la - hb) (ha - lb) = true ->
  rep (sub32 x y) (a - b) (la - hb) (ha - lb).
Proof.
  intros F; pose proof sub_bound as B; destruct Hx as [-> _], Hy as [-> _].
  split; [|exact B]; apply i32_small; exact (fits_spec _ _ _ _ F B).
Qed.

Lemma rep_sub64 : fits (2 ^ 63) (la - hb) (ha - lb) = true ->
  rep (sub64 x y) (a - b) (la - hb) (ha - lb).
Proof.
  intros F; pose proof sub_bound as B; destruct Hx as [-> _], Hy as [-> _].
  split; [|exact B]; apply i64_small; exact (fits_spec _ _ _ _ F B).
Qed.

Lemma rep_mul32 : fits (2 ^ 31) mul_lo mul_hi = true ->
  rep (mul32 x y) (a * b) mul_lo mul_hi.
Proof.
  intros F; pose proof mul_bound as B; destruct Hx as [-> _], Hy as [-> _].
  split; [|exact B]; apply i32_small; exact (fits_spec _ _ _ _ F B).
Qed.

Lemma rep_mul64 : fits (2 ^ 63) mul_lo mul_hi = true ->
  rep (mul64 x y) (a * b) mul_lo mul_hi.
Proof.
  intros F; pose proof mul_bound as B; destruct Hx as [-> _], Hy as [-> _].
  split; [|exact B]; apply i64_small; exact (fits_spec _ _ _ _ F B).
Qed.

Lemma rep_opp32 : fits (2 ^ 31) (- ha) (- la) = true -> rep (opp32 x) (- a) (- ha) (- la).
Proof.
  intros F; destruct Hx as [-> B]; unfold bnd in B.
  assert (B' : bnd (- ha) (- a) (- la)) by (unfold bnd; lia).
  split; [|exact B']; apply i32_small; exact (fits_spec _ _ _ _ F B').
Qed.

Lemma rep_i32 : fits (2 ^ 31) la ha = true -> rep (i32 x) a la ha.
Proof.
  intros F; destruct Hx as [-> B]; split; [|exact B].
  apply i32_small; exact (fits_spec _ _ _ _ F B).
Qed.

Lemma rep_i64 : fits (2 ^ 63) la ha = true -> rep (i64 x) a la ha.
Proof.
  intros F; destruct Hx as [-> B]; split; [|exact B].
  apply i64_small; exact (fits_spec _ _ _ _ F B).
Qed.
End Calculus.

Section Shifts.
Context (x a la ha n : Z) (Hx : rep x a la ha) (Hn : (0 <=? n) = true).

Lemma rep_shr64 : rep (shr64 x n) (Z.shiftr a n) (Z.shiftr la n) (Z.shiftr ha n).
Proof.
  apply Z.leb_le in Hn; destruct Hx as [-> B]; split; [reflexivity|].
  unfold bnd; rewrite !shiftr_div by assumption.
  apply div_interval; [apply Z.pow_pos_nonneg; lia|exact B].
Qed.

Lemma rep_shr32 : rep (shr32 x n) (Z.shiftr a n) (Z.shiftr la n) (Z.shiftr ha n).
Proof. exact rep_shr64. Qed.

Lemma shl_bound : bnd (la * 2 ^ n) (a * 2 ^ n) (ha * 2 ^ n).
Proof.
  destruct Hx as [_ [? ?]]; apply Z.leb_le in Hn; pose proof (Z.pow_nonneg 2 n).
  unfold bnd; nia.
Qed.

Lemma rep_shl64 : fits (2 ^ 63) (la * 2 ^ n) (ha * 2 ^ n) = true ->
  rep (shl64 x n) (a * 2 ^ n) (la * 2 ^ n) (ha * 2 ^ n).
Proof.
  intros F; pose proof shl_bound as B; destruct Hx as [-> _]; split; [|exact B].
  unfold shl64; rewrite shiftl_mul by now apply Z.leb_le.
  apply i64_small; exact (fits_spec _ _ _ _ F B).
Qed.

Lemma rep_shl32 : fits (2 ^ 31) (la * 2 ^ n) (ha * 2 ^ n) = true ->
  rep (shl32 x n) (a * 2 ^ n) (la * 2 ^ n) (ha * 2 ^ n).
Proof.
  intros F; pose proof shl_bound as B; destruct Hx as [-> _]; split; [|exact B].
  unfold shl32; rewrite shiftl_mul by now apply Z.leb_le.
  apply i32_small; exact (fits_spec _ _ _ _ F B).
Qed.
End Shifts.

Section Carries.
(** [h -= c << n] after [c = (h + r) >> n] (rounded when [r = 2^(n-1)], plain when [r = 0]). *)
Context (h c r n lc hc : Z).
Context (Bc : bnd lc c hc) (Ec : c = Z.shiftr (h + r) n) (Hn : (0 <=? n) = true).

Lemma carry_bound : bnd (- r) (h - c * 2 ^ n) (2 ^ n - 1 - r).
Proof.
  apply Z.leb_le in Hn; subst c; rewrite shiftr_div by assumption.
  apply div_remainder; apply Z.pow_pos_nonneg; lia.
Qed.

Lemma rep_carry64 : fits (2 ^ 63) (lc * 2 ^ n) (hc * 2 ^ n) = true ->
  fits (2 ^ 63) (- r) (2 ^ n - 1 - r) = true ->
  rep (sub64 h (shl64 c n)) (h - c * 2 ^ n) (- r) (2 ^ n - 1 - r).
Proof.
  intros F G; split; [|exact carry_bound].
  unfold sub64; rewrite (proj1 (rep_shl64 _ _ _ _ _ (rep_var _ _ _ Bc) Hn F)).
  apply i64_small; exact (fits_spec _ _ _ _ G carry_bound).
Qed.

Lemma rep_carry32 : fits (2 ^ 31) (lc * 2 ^ n) (hc * 2 ^ n) = true ->
  fits (2 ^ 31) (- r) (2 ^ n - 1 - r) = true ->
  rep (sub32 h (shl32 c n)) (h - c * 2 ^ n) (- r) (2 ^ n - 1 - r).
Proof.
  intros F G; split; [|exact carry_bound].
  unfold sub32; rewrite (proj1 (rep_shl32 _ _ _ _ _ (rep_var _ _ _ Bc) Hn F)).
  apply i32_small; exact (fits_spec _ _ _ _ G carry_bound).
Qed.
End Carries.

(** The plain carry, with [r = 0] left implicit as in the code. *)
Lemma carry0_eq (c h n : Z) : c = Z.shiftr h n -> c = Z.shiftr (h + 0) n.
Proof. now rewrite Z.add_0_r. Qed.

(** ** Stepping through straight-line code *)

(** [holds Q a] is [Q a]; the marker lets [steps] find the program in a goal. *)
Definition holds {A} (Q : A -> Prop) (a : A) : Prop := Q a.

Lemma let_rep {A} (Q : A -> Prop) (x e lo hi : Z) (k : Z -> A) :
  rep x e lo hi -> (forall v, v = e -> bnd lo v hi -> holds Q (k v)) -> holds Q (let v := x in k v).
Proof. intros [-> B] H; exact (H e eq_refl B). Qed.

Lemma let_def {A B} (Q : A -> Prop) (x : B) (k : B -> A) :
  (forall v, v = x -> holds Q (k v)) -> holds Q (let v := x in k v).
Proof. intros H; exact (H x eq_refl). Qed.

Ltac fits_tac := vm_compute; reflexivity.

(** The bound of a variable, found by matching the context. *)
Ltac bound_tac :=
  lazymatch goal with
  | |- bnd _ ?x _ => lazymatch goal with B : bnd _ x _ |- _ => exact B end
  end.

(** The defining equation [c = (h + r) >> n] of a carry. *)
Ltac carry_tac :=
  lazymatch goal with
  | |- ?c = Z.shiftr (?h + _) ?n =>
      lazymatch goal with
      | E : c = Z.shiftr (h + ?r) n |- _ => exact E
      | E : c = Z.shiftr h n |- _ => exact (carry0_eq c h n E)
      end
  end.

(** Expressions of the client files (loads, say) that are exact values with known bounds. *)
Ltac rep_leaf := fail.

(** Builds [rep e _ _ _] for a machine expression from the bounds in the context. *)
Ltac rep_tac :=
  lazymatch goal with
  | |- rep (sub64 ?h (shl64 ?c ?n)) _ _ _ =>
      first [ eapply (rep_carry64 h c _ n);
              [bound_tac | carry_tac | fits_tac | fits_tac | fits_tac]
            | eapply rep_sub64; [rep_tac | rep_tac | fits_tac] ]
  | |- rep (sub32 ?h (shl32 ?c ?n)) _ _ _ =>
      first [ eapply (rep_carry32 h c _ n);
              [bound_tac | carry_tac | fits_tac | fits_tac | fits_tac]
            | eapply rep_sub32; [rep_tac | rep_tac | fits_tac] ]
  | |- rep (add64 _ _) _ _ _ => eapply rep_add64; [rep_tac | rep_tac | fits_tac]
  | |- rep (sub64 _ _) _ _ _ => eapply rep_sub64; [rep_tac | rep_tac | fits_tac]
  | |- rep (mul64 _ _) _ _ _ => eapply rep_mul64; [rep_tac | rep_tac | fits_tac]
  | |- rep (shl64 _ _) _ _ _ => eapply rep_shl64; [rep_tac | fits_tac | fits_tac]
  | |- rep (shr64 _ _) _ _ _ => eapply rep_shr64; [rep_tac | fits_tac]
  | |- rep (add32 _ _) _ _ _ => eapply rep_add32; [rep_tac | rep_tac | fits_tac]
  | |- rep (sub32 _ _) _ _ _ => eapply rep_sub32; [rep_tac | rep_tac | fits_tac]
  | |- rep (mul32 _ _) _ _ _ => eapply rep_mul32; [rep_tac | rep_tac | fits_tac]
  | |- rep (opp32 _) _ _ _ => eapply rep_opp32; [rep_tac | fits_tac]
  | |- rep (shl32 _ _) _ _ _ => eapply rep_shl32; [rep_tac | fits_tac | fits_tac]
  | |- rep (shr32 _ _) _ _ _ => eapply rep_shr32; [rep_tac | fits_tac]
  | |- rep (i32 _) _ _ _ => eapply rep_i32; [rep_tac | fits_tac]
  | |- rep (i64 _) _ _ _ => eapply rep_i64; [rep_tac | fits_tac]
  | |- rep ?x _ _ _ => first [ is_var x; eapply rep_var; bound_tac | rep_leaf | exact (rep_const x) ]
  end.

Ltac norm_bound B :=
  lazymatch type of B with
  | bnd ?l ?x ?h =>
      let l' := eval vm_compute in l in
      let h' := eval vm_compute in h in
      change (bnd l' x h') in B
  end.

(** Exposes the body of a definition without disturbing its [let]s. *)
Ltac enter f := cbv beta delta [f].

(** One binding: the variable, its exact value and its interval enter the context. *)
Ltac step :=
  lazymatch goal with
  | |- holds ?Q (let x := ?e in @?k x) =>
      eapply (let_rep Q e _ _ _ k);
      [ rep_tac
      | let v := fresh x in
        let E := fresh "E" v in
        let B := fresh "B" v in
        intros v E B; norm_bound B; cbv beta ]
  end.

Ltac steps := repeat step.

(** One binding of any type, with its defining equation. *)
Ltac step_def :=
  lazymatch goal with
  | |- holds ?Q (let x := ?e in @?k x) =>
      apply (let_def Q e k);
      let v := fresh x in
      let E := fresh "E" v in
      intros v E; cbv beta
  end.

Lemma i32_bnd (x lo hi : Z) : bnd lo x hi -> fits (2 ^ 31) lo hi = true -> i32 x = x.
Proof. intros B F; exact (proj1 (rep_i32 _ _ _ _ (rep_var _ _ _ B) F)). Qed.

(** Removes the casts that the bounds in the context make harmless. *)
Ltac drop_i32 :=
  repeat match goal with
         | |- context [i32 ?x] => rewrite (i32_bnd x _ _ ltac:(bound_tac) ltac:(fits_tac))
         end.

Ltac weaken_tac :=
  lazymatch goal with
  | |- bnd _ ?x _ =>
      lazymatch goal with B : bnd _ x _ |- _ => apply (bnd_weaken _ _ _ _ _ B); vm_compute; reflexivity end
  end.

(** Forgets the definition of every carry (its bounds stay). *)
Ltac forget_carries :=
  repeat lazymatch goal with
         | E : _ = Z.shiftr _ _ |- _ => clear E
         end.
