(* ===== verification/Bytes.v ===== *)
(** * Byte strings

    A byte string ([unsigned char *] with its length) is a [list Z] of bytes.  [load_3] and
    [load_4] are the static helpers at the top of fe.c and sc.c; the little-endian value of
    a string and its inverse are the vocabulary of every statement about keys, scalars and
    signatures. *)

From Stdlib Require Import ZArith Lia List Bool.
From S2P Require Import Prelude Machine.
Import ListNotations.

Definition is_byte (b : Z) : Prop := 0 <= b < 256.
Definition bytes (l : list Z) : Prop := Forall is_byte l.

Definition is_byteb (b : Z) : bool := (0 <=? b) && (b <? 256).
Definition bytesb (l : list Z) : bool := forallb is_byteb l.

Lemma bytesb_spec (l : list Z) : bytesb l = true -> bytes l.
Proof.
  unfold bytesb; rewrite forallb_forall; intros H; apply Forall_forall; intros b Hb.
  specialize (H b Hb); unfold is_byteb in H; rewrite andb_true_iff, Z.leb_le, Z.ltb_lt in H.
  exact H.
Qed.

(** ** Little-endian value *)

Fixpoint le_val (l : list Z) : Z :=
  match l with
  | [] => 0
  | b :: l' => b + 256 * le_val l'
  end.

Fixpoint le_bytes (n : nat) (z : Z) : list Z :=
  match n with
  | O => []
  | S n' => z mod 256 :: le_bytes n' (z / 256)
  end.

Lemma le_bytes_length (n : nat) (z : Z) : length (le_bytes n z) = n.
Proof. revert z; induction n; simpl; auto. Qed.

Lemma le_bytes_bytes (n : nat) (z : Z) : bytes (le_bytes n z).
Proof.
  revert z; induction n as [|n IH]; intros z; constructor; [|apply IH].
  apply Z.mod_pos_bound; lia.
Qed.

Lemma le_val_range (l : list Z) : bytes l -> 0 <= le_val l < 256 ^ Z.of_nat (length l).
Proof.
  induction 1 as [|b l Hb Hl IH]; [simpl; lia|].
  cbn [le_val length]; rewrite Nat2Z.inj_succ, Z.pow_succ_r by lia.
  unfold is_byte in Hb; lia.
Qed.

Lemma le_bytes_val (l : list Z) : bytes l -> le_bytes (length l) (le_val l) = l.
Proof.
  induction 1 as [|b l Hb Hl IH]; [reflexivity|].
  cbn [le_val length le_bytes]; unfold is_byte in Hb; f_equal.
  - rewrite Z.mul_comm, Z_mod_plus_full, Z.mod_small; lia.
  - rewrite Z.mul_comm, Z_div_plus_full, Z.div_small by lia; exact IH.
Qed.

Lemma le_val_bytes (n : nat) (z : Z) : le_val (le_bytes n z) = z mod 256 ^ Z.of_nat n.
Proof.
  revert z; induction n as [|n IH]; intros z; [now rewrite Z.mod_1_r|].
  cbn [le_val le_bytes]; rewrite IH, Nat2Z.inj_succ, Z.pow_succ_r by lia.
  rewrite Z.rem_mul_r by (try apply Z.pow_nonzero; lia); reflexivity.
Qed.

Lemma le_bytes_add (n m : nat) (z : Z) :
  le_bytes (n + m) z = le_bytes n z ++ le_bytes m (z / 256 ^ Z.of_nat n).
Proof.
  revert z; induction n as [|n IH]; intros z; [cbn [Nat.add le_bytes app]; now rewrite Z.div_1_r|].
  cbn [Nat.add le_bytes app]; rewrite IH, Nat2Z.inj_succ, Z.pow_succ_r, Z.div_div by
    (try apply Z.pow_pos_nonneg; lia); reflexivity.
Qed.

Lemma le_bytes_1 (z : Z) : le_bytes 1 z = [z mod 256].
Proof. reflexivity. Qed.

Lemma le_bytes_0 (n : nat) : le_bytes n 0 = repeat 0 n.
Proof. induction n as [|n IH]; [reflexivity|]; cbn [le_bytes repeat]; f_equal; exact IH. Qed.

(** Byte strings of the same length are determined by their value. *)
Lemma le_val_inj (l m : list Z) :
  bytes l -> bytes m -> length l = length m -> le_val l = le_val m -> l = m.
Proof.
  intros Hl Hm HL HV; rewrite <- (le_bytes_val l Hl), <- (le_bytes_val m Hm); congruence.
Qed.

Lemma le_bytes_unique (n : nat) (l : list Z) (z : Z) :
  bytes l -> length l = n -> le_val l = z -> l = le_bytes n z.
Proof. intros Hl <- <-; symmetry; now apply le_bytes_val. Qed.

Lemma le_val_app (l m : list Z) :
  le_val (l ++ m) = le_val l + 256 ^ Z.of_nat (length l) * le_val m.
Proof.
  induction l as [|b l IH]; [change (256 ^ Z.of_nat (length (@nil Z))) with 1; cbn [app le_val]; ring|].
  cbn [app le_val length]; rewrite IH, Nat2Z.inj_succ, Z.pow_succ_r by lia; ring.
Qed.

Lemma bytes_app (l m : list Z) : bytes l -> bytes m -> bytes (l ++ m).
Proof. intros; apply Forall_app; now split. Qed.

Lemma bytes_skipn (n : nat) (l : list Z) : bytes l -> bytes (skipn n l).
Proof.
  intros H; unfold bytes in *; rewrite <- (firstn_skipn n l), Forall_app in H; apply H.
Qed.

Lemma bytes_firstn (n : nat) (l : list Z) : bytes l -> bytes (firstn n l).
Proof.
  intros H; unfold bytes in *; rewrite <- (firstn_skipn n l), Forall_app in H; apply H.
Qed.

Lemma bytes_nth (l : list Z) (n : nat) : bytes l -> is_byte (nth n l 0).
Proof. apply forall_nth_default; unfold is_byte; lia. Qed.

Lemma u8_is_byte (z : Z) : is_byte (u8 z).
Proof. exact (u8_range z). Qed.

Create HintDb bytes.
#[export] Hint Resolve bytes_app bytes_skipn bytes_firstn bytes_nth u8_is_byte le_bytes_bytes
  le_bytes_length : bytes.

(** ** Loads *)

Definition shlu64 (a n : Z) : Z := u64 (Z.shiftl a n).

Definition load_3 (s : list Z) : Z :=
  let result := nth 0 s 0 in
  let result := Z.lor result (shlu64 (nth 1 s 0) 8) in
  let result := Z.lor result (shlu64 (nth 2 s 0) 16) in
  result.

Definition load_4 (s : list Z) : Z :=
  let result := nth 0 s 0 in
  let result := Z.lor result (shlu64 (nth 1 s 0) 8) in
  let result := Z.lor result (shlu64 (nth 2 s 0) 16) in
  let result := Z.lor result (shlu64 (nth 3 s 0) 24) in
  result.

(** Bits that do not overlap: [or] is addition. *)
Lemma lor_add (a b n : Z) : 0 <= n -> 0 <= a < 2 ^ n -> Z.lor a (b * 2 ^ n) = a + b * 2 ^ n.
Proof.
  intros Hn Ha. rewrite <- shiftl_mul by assumption.
  rewrite <- Z.lxor_lor, <- Z.add_nocarry_lxor; [reflexivity| |]; apply Z.bits_inj_0; intros k;
    rewrite Z.land_spec; destruct (Z.lt_ge_cases k n) as [Hk|Hk].
  1,3: rewrite (Z.shiftl_spec_low b) by assumption; apply andb_false_r.
  all: replace a with (a mod 2 ^ n) by (apply Z.mod_small; assumption);
       rewrite Z.mod_pow2_bits_high by lia; reflexivity.
Qed.

Lemma shlu64_byte (b n : Z) : is_byte b -> 0 <= n <= 24 -> shlu64 b n = b * 2 ^ n.
Proof.
  unfold is_byte; intros Hb Hn; unfold shlu64; rewrite shiftl_mul by lia.
  apply u64_small; pose proof (Z.pow_le_mono_r 2 n 24); pose proof (Z.pow_pos_nonneg 2 n).
  change (2 ^ 24) with 16777216 in *; nia.
Qed.

Definition le3 (s : list Z) : Z := nth 0 s 0 + 2 ^ 8 * nth 1 s 0 + 2 ^ 16 * nth 2 s 0.
Definition le4 (s : list Z) : Z := le3 s + 2 ^ 24 * nth 3 s 0.

Lemma rep_load_3 (s : list Z) : bytes s -> rep (load_3 s) (le3 s) 0 (2 ^ 24 - 1).
Proof.
  intros H; pose proof (bytes_nth s 0 H); pose proof (bytes_nth s 1 H);
    pose proof (bytes_nth s 2 H).
  unfold load_3, le3; cbv zeta; rewrite !shlu64_byte by (assumption || lia).
  unfold is_byte in *; rewrite (lor_add _ _ 8), (lor_add _ _ 16) by lia.
  split; [|unfold bnd]; lia.
Qed.

Lemma rep_load_4 (s : list Z) : bytes s -> rep (load_4 s) (le4 s) 0 (2 ^ 32 - 1).
Proof.
  intros H; pose proof (bytes_nth s 0 H); pose proof (bytes_nth s 1 H);
    pose proof (bytes_nth s 2 H); pose proof (bytes_nth s 3 H).
  unfold load_4, le4, le3; cbv zeta; rewrite !shlu64_byte by (assumption || lia).
  unfold is_byte in *; rewrite (lor_add _ _ 8), (lor_add _ _ 16), (lor_add _ _ 24) by lia.
  split; [|unfold bnd]; lia.
Qed.

(** A load inside a longer string, by the value of the string. *)
Lemma le_val_split (s : list Z) (k : nat) : (k <= length s)%nat ->
  le_val s = le_val (firstn k s) + 2 ^ (8 * Z.of_nat k) * le_val (skipn k s).
Proof.
  intros H; rewrite <- (firstn_skipn k s) at 1; rewrite le_val_app, firstn_length_le by exact H.
  rewrite Z.pow_mul_r by lia; reflexivity.
Qed.

Lemma le_val_div (s : list Z) (k : nat) : bytes s -> (k <= length s)%nat ->
  le_val s / 2 ^ (8 * Z.of_nat k) = le_val (skipn k s).
Proof.
  intros Hs Hk; rewrite (le_val_split s k Hk).
  pose proof (le_val_range (firstn k s) (bytes_firstn k s Hs)) as R.
  rewrite firstn_length_le, <- (Z.pow_mul_r 2 8) in R by lia.
  rewrite Z.mul_comm, Z.div_add, Z.div_small by lia; reflexivity.
Qed.

Lemma le3_val (s : list Z) : (3 <= length s)%nat -> le_val s = le3 s + 2 ^ 24 * le_val (skipn 3 s).
Proof.
  intros H; do 3 (destruct s as [|? s]; [cbn in H; lia|]).
  unfold le3; cbn [le_val nth skipn]; ring.
Qed.

Lemma le4_val (s : list Z) : (4 <= length s)%nat -> le_val s = le4 s + 2 ^ 32 * le_val (skipn 4 s).
Proof.
  intros H; do 4 (destruct s as [|? s]; [cbn in H; lia|]).
  unfold le4, le3; cbn [le_val nth skipn]; ring.
Qed.

(** Bits of a number below a multiple of a larger power of two. *)
Lemma low_bits (e r a n m : Z) : 0 <= a -> 0 <= n -> a + n <= m ->
  e / 2 ^ a mod 2 ^ n = (e + 2 ^ m * r) / 2 ^ a mod 2 ^ n.
Proof.
  intros Ha Hn Hm; replace (2 ^ m) with (2 ^ (m - a - n) * 2 ^ n * 2 ^ a)
    by (rewrite <- !Z.pow_add_r by lia; f_equal; lia).
  replace (e + 2 ^ (m - a - n) * 2 ^ n * 2 ^ a * r)
    with (e + (2 ^ (m - a - n) * r * 2 ^ n) * 2 ^ a) by ring.
  rewrite Z.div_add, Z_mod_plus_full by (apply Z.pow_nonzero; lia); reflexivity.
Qed.

(** ** Packing limbs into bytes *)

(** Computes the exponents of the powers of two in the goal and the hypotheses. *)
Ltac norm_pow :=
  repeat match goal with
    | |- context [2 ^ (?a + ?b)] => let c := eval vm_compute in (a + b) in change (a + b) with c
    | |- context [2 ^ (?a - ?b)] => let c := eval vm_compute in (a - b) in change (a - b) with c
    | H : context [2 ^ (?a + ?b)] |- _ =>
        let c := eval vm_compute in (a + b) in change (a + b) with c in H
    end.

(** A limb that starts [8 - a] bits into a byte: the rest of that byte, two bytes, what is left. *)
Lemma split_limb (a h : Z) : 0 <= a ->
  h = h mod 2 ^ a + 2 ^ a * (h / 2 ^ a mod 256) + 2 ^ (a + 8) * (h / 2 ^ (a + 8) mod 256)
      + 2 ^ (a + 16) * (h / 2 ^ (a + 16)).
Proof.
  intros Ha; rewrite !Z.pow_add_r, <- !Z.div_div by (lia || apply Z.pow_nonzero; lia).
  pose proof (Z.div_mod h (2 ^ a) ltac:(apply Z.pow_nonzero; lia)) as E.
  remember (h mod 2 ^ a) as r; remember (h / 2 ^ a) as k; remember (2 ^ a) as m.
  assert (Hk : k = k mod 256 + 256 * (k / 2 ^ 8 mod 256) + 65536 * (k / 2 ^ 16)) by
    (Z.to_euclidean_division_equations; lia).
  transitivity (m * (k mod 256 + 256 * (k / 2 ^ 8 mod 256) + 65536 * (k / 2 ^ 16)) + r);
    [congruence | change (2 ^ 8) with 256; change (2 ^ 16) with 65536; ring].
Qed.

(** The same with one whole byte. *)
Lemma split_limb1 (a h : Z) : 0 <= a ->
  h = h mod 2 ^ a + 2 ^ a * (h / 2 ^ a mod 256) + 2 ^ (a + 8) * (h / 2 ^ (a + 8)).
Proof.
  intros Ha; rewrite Z.pow_add_r, <- Z.div_div by (lia || apply Z.pow_nonzero; lia).
  pose proof (Z.div_mod h (2 ^ a) ltac:(apply Z.pow_nonzero; lia)) as E.
  pose proof (Z.div_mod (h / 2 ^ a) 256 ltac:(lia)) as F; change (2 ^ 8) with 256.
  rewrite E at 1; rewrite F at 1; ring.
Qed.

(** Truncating to a byte forgets a wrap-around to 32 bits. *)
Lemma u8_lor_i32 (x y : Z) : u8 (Z.lor x (i32 y)) = u8 (Z.lor x y).
Proof.
  unfold u8; rewrite <- !Z.land_ones, !Z.land_lor_distr_l, !Z.land_ones by lia; f_equal.
  unfold i32; Z.to_euclidean_division_equations; lia.
Qed.

Lemma u8_lor_i64 (x y : Z) : u8 (Z.lor x (i64 y)) = u8 (Z.lor x y).
Proof.
  unfold u8; rewrite <- !Z.land_ones, !Z.land_lor_distr_l, !Z.land_ones by lia; f_equal.
  unfold i64; Z.to_euclidean_division_equations; lia.
Qed.

Lemma u8_shared (x h s : Z) : 0 <= s <= 8 -> 0 <= x < 2 ^ s ->
  u8 (Z.lor x (Z.shiftl h s)) = x + 2 ^ s * (h mod 2 ^ (8 - s)).
Proof.
  intros Hs Hx; rewrite shiftl_mul, lor_add by lia; unfold u8.
  replace 8 with (s + (8 - s)) at 1 by lia; rewrite Z.pow_add_r, Z.rem_mul_r by
    (try apply Z.pow_nonzero; try apply Z.pow_pos_nonneg; lia).
  rewrite Z.mod_add, Z.mod_small, Z.div_add, Z.div_small by lia; reflexivity.
Qed.

(** A byte shared by two limbs.  The shifted limb may exceed [int32_t] ([h4 << 6] of
    fe_tobytes does), which the truncation to a byte hides. *)
Lemma shared_byte (x h s : Z) : 0 <= s <= 8 -> 0 <= x < 2 ^ s ->
  u8 (Z.lor x (shl32 h s)) = x + 2 ^ s * (h mod 2 ^ (8 - s)).
Proof. intros; unfold shl32; rewrite u8_lor_i32; now apply u8_shared. Qed.

Lemma shared_byte64 (x h s : Z) : 0 <= s <= 8 -> 0 <= x < 2 ^ s ->
  u8 (Z.lor x (shl64 h s)) = x + 2 ^ s * (h mod 2 ^ (8 - s)).
Proof. intros; unfold shl64; rewrite u8_lor_i64; now apply u8_shared. Qed.

Lemma u8_shr (h n : Z) : 0 <= n -> u8 (shr32 h n) = h / 2 ^ n mod 256.
Proof. intros; unfold u8, shr32; now rewrite shiftr_div. Qed.

(** A bound on a 32-byte string is a bound on its last byte. *)
Lemma top_byte (s : list Z) (k : Z) : bytes s -> length s = 32%nat -> 0 <= k <= 8 ->
  le_val s < 2 ^ (248 + k) <-> nth 31 s 0 < 2 ^ k.
Proof.
  intros Hs L Hk.
  assert (E : le_val s = le_val (firstn 31 s) + 2 ^ 248 * nth 31 s 0).
  { rewrite (le_val_split s 31) by lia; f_equal; change (2 ^ 248) with (2 ^ (8 * Z.of_nat 31)); f_equal.
    assert (L1 : length (skipn 31 s) = 1%nat) by (rewrite length_skipn, L; reflexivity).
    rewrite <- (firstn_skipn 31 s) at 2; rewrite app_nth2, firstn_length_le, Nat.sub_diag
      by (rewrite ?firstn_length_le; lia).
    destruct (skipn 31 s) as [|b [|]]; try discriminate L1; cbn [le_val nth]; lia. }
  pose proof (le_val_range (firstn 31 s) (bytes_firstn 31 s Hs)) as R.
  rewrite firstn_length_le in R by lia; change (256 ^ Z.of_nat 31) with (2 ^ 248) in R.
  rewrite E, Z.pow_add_r by lia; set (P := 2 ^ k); nia.
Qed.
