(* ===== verification/FeArith.v ===== *)
(** * Field arithmetic is arithmetic modulo p = 2^255 - 19

    For each function of Fe: no machine operation wraps when the limbs are within the
    documented bounds, the result has the documented bounds, and its value is the field
    operation modulo [p]. *)

From Stdlib Require Import ZArith Lia List Setoid.
From S2P Require Import Prelude Machine Bytes Fe.

Definition p : Z := 2 ^ 255 - 19.

(** ** Value and limb bounds *)

Definition val10 (h0 h1 h2 h3 h4 h5 h6 h7 h8 h9 : Z) : Z :=
  h0 + 2 ^ 26 * h1 + 2 ^ 51 * h2 + 2 ^ 77 * h3 + 2 ^ 102 * h4 + 2 ^ 128 * h5 + 2 ^ 153 * h6
  + 2 ^ 179 * h7 + 2 ^ 204 * h8 + 2 ^ 230 * h9.

(** The integer that a field element represents (fe.h). *)
Definition fe_val (f : fe) : Z :=
  let '(Fe f0 f1 f2 f3 f4 f5 f6 f7 f8 f9) := f in val10 f0 f1 f2 f3 f4 f5 f6 f7 f8 f9.

(** Even limbs are bounded by [2 b], odd limbs by [b]. *)
Definition fe_bnd (b : Z) (f : fe) : Prop :=
  let '(Fe f0 f1 f2 f3 f4 f5 f6 f7 f8 f9) := f in
  bnd (- (2 * b)) f0 (2 * b) /\ bnd (- b) f1 b /\ bnd (- (2 * b)) f2 (2 * b) /\ bnd (- b) f3 b /\
  bnd (- (2 * b)) f4 (2 * b) /\ bnd (- b) f5 b /\ bnd (- (2 * b)) f6 (2 * b) /\ bnd (- b) f7 b /\
  bnd (- (2 * b)) f8 (2 * b) /\ bnd (- b) f9 b.

Definition fe_bndb (b : Z) (f : fe) : bool :=
  let '(Fe f0 f1 f2 f3 f4 f5 f6 f7 f8 f9) := f in
  forallb (fun x => bndb (- (2 * b)) x (2 * b)) (f0 :: f2 :: f4 :: f6 :: f8 :: nil)
  && forallb (fun x => bndb (- b) x b) (f1 :: f3 :: f5 :: f7 :: f9 :: nil).

Lemma fe_bndb_spec (b : Z) (f : fe) : fe_bndb b f = true -> fe_bnd b f.
Proof.
  destruct f; unfold fe_bndb, fe_bnd; cbn [forallb]; rewrite !Bool.andb_true_iff.
  intros H; splits; apply bndb_spec; apply H.
Qed.

(** The bounds of the comments of fe.c, as odd-limb bounds: 1.01*2^24 (products),
    1.1*2^24 (reduced), 1.1*2^25 (sums) and 1.65*2^25 (what fe_mul and fe_sq accept). *)
Definition b_mul : Z := 16944988.
Definition b_red : Z := 18454937.
Definition b_sum : Z := 36909875.
Definition b_in : Z := 55364812.

Lemma fe_bnd_weaken (b c : Z) (f : fe) : fe_bnd b f -> (b <=? c) = true -> fe_bnd c f.
Proof.
  intros H L; apply Z.leb_le in L; destruct f; unfold fe_bnd, bnd in *.
  repeat split; lia.
Qed.

(** Turns [fe_bnd b f] into one [bnd] per limb. *)
Ltac limbs H :=
  lazymatch type of H with
  | fe_bnd _ ?f =>
      destruct f; cbv beta iota delta [fe_bnd] in H;
      repeat lazymatch type of H with
             | _ /\ _ => let B := fresh "B" in destruct H as [B H]; norm_bound B
             end; norm_bound H
  end.

(** ** Addition, subtraction, negation *)

Lemma i32_bnd_small (x lo hi : Z) : bnd lo x hi -> - 2 ^ 31 <= lo -> hi < 2 ^ 31 -> i32 x = x.
Proof. unfold bnd; intros; apply i32_small; lia. Qed.

Lemma fe_add_spec (a b : Z) (f g : fe) :
  fe_bnd a f -> fe_bnd b g -> 2 * (a + b) < 2 ^ 31 ->
  fe_bnd (a + b) (fe_add f g) /\ fe_val (fe_add f g) = fe_val f + fe_val g.
Proof.
  intros Hf Hg L; destruct f, g; unfold fe_bnd, bnd in Hf, Hg.
  cbn [fe_add fe_val]; unfold add32; rewrite !i32_small by lia.
  split; [unfold fe_bnd, bnd; repeat split; lia | unfold val10; ring].
Qed.

Lemma fe_sub_spec (a b : Z) (f g : fe) :
  fe_bnd a f -> fe_bnd b g -> 2 * (a + b) < 2 ^ 31 ->
  fe_bnd (a + b) (fe_sub f g) /\ fe_val (fe_sub f g) = fe_val f - fe_val g.
Proof.
  intros Hf Hg L; destruct f, g; unfold fe_bnd, bnd in Hf, Hg.
  cbn [fe_sub fe_val]; unfold sub32; rewrite !i32_small by lia.
  split; [unfold fe_bnd, bnd; repeat split; lia | unfold val10; ring].
Qed.

Lemma fe_neg_spec (b : Z) (f : fe) :
  fe_bnd b f -> 2 * b < 2 ^ 31 ->
  fe_bnd b (fe_neg f) /\ fe_val (fe_neg f) = - fe_val f.
Proof.
  intros Hf L; destruct f; unfold fe_bnd, bnd in Hf.
  cbn [fe_neg fe_val]; unfold opp32; rewrite !i32_small by lia.
  split; [unfold fe_bnd, bnd; repeat split; lia | unfold val10; ring].
Qed.

(** ** The carry chains *)

(** [h] represents [v] modulo [p] with limbs within [b]. *)
Definition represents (b v : Z) (h : fe) : Prop := fe_bnd b h /\ fe_val h =[p]= v.

(** Every limb sum that enters a carry chain is within [m]. *)
Definition sums_bnd (m h0 h1 h2 h3 h4 h5 h6 h7 h8 h9 : Z) : Prop :=
  bnd (- m) h0 m /\ bnd (- m) h1 m /\ bnd (- m) h2 m /\ bnd (- m) h3 m /\ bnd (- m) h4 m /\
  bnd (- m) h5 m /\ bnd (- m) h6 m /\ bnd (- m) h7 m /\ bnd (- m) h8 m /\ bnd (- m) h9 m.

(** The end of a chain: the limbs are in range, and the value changed by [19 - 2^255] times
    the carry out of the top limb. *)
Ltac chain_tac :=
  unfold holds, represents; drop_i32; split;
  [ cbv beta iota delta [fe_bnd]; splits; weaken_tac
  | forget_carries;
    lazymatch goal with
    | E : _ = _ + ?c * 19 |- _ => apply (eqm_intro p (- c))
    end; cbn [fe_val]; subst; unfold val10, p; ring ].

Ltac sums_tac H :=
  cbv beta delta [sums_bnd] in H; decompose [and] H; clear H.

Lemma fe_carry_spec (h0 h1 h2 h3 h4 h5 h6 h7 h8 h9 : Z) :
  sums_bnd (2 ^ 62) h0 h1 h2 h3 h4 h5 h6 h7 h8 h9 ->
  represents b_mul (val10 h0 h1 h2 h3 h4 h5 h6 h7 h8 h9) (fe_carry h0 h1 h2 h3 h4 h5 h6 h7 h8 h9).
Proof.
  intros H; sums_tac H; change (holds (represents b_mul (val10 h0 h1 h2 h3 h4 h5 h6 h7 h8 h9))
    (fe_carry h0 h1 h2 h3 h4 h5 h6 h7 h8 h9)).
  enter fe_carry; steps; chain_tac.
Qed.

Lemma fe_carry_odd_spec (h0 h1 h2 h3 h4 h5 h6 h7 h8 h9 : Z) :
  sums_bnd (2 ^ 46) h0 h1 h2 h3 h4 h5 h6 h7 h8 h9 ->
  represents b_red (val10 h0 h1 h2 h3 h4 h5 h6 h7 h8 h9)
    (fe_carry_odd h0 h1 h2 h3 h4 h5 h6 h7 h8 h9).
Proof.
  intros H; sums_tac H; change (holds (represents b_red (val10 h0 h1 h2 h3 h4 h5 h6 h7 h8 h9))
    (fe_carry_odd h0 h1 h2 h3 h4 h5 h6 h7 h8 h9)).
  enter fe_carry_odd; steps; chain_tac.
Qed.

(** ** Multiplication and squaring *)

(** The part of a product above 2^255, which the limb products fold back times 19. *)
Definition high_part (f g : fe) : Z :=
  let '(Fe f0 f1 f2 f3 f4 f5 f6 f7 f8 f9) := f in
  let '(Fe g0 g1 g2 g3 g4 g5 g6 g7 g8 g9) := g in
  val10 (2 * (f1 * g9) + f2 * g8 + 2 * (f3 * g7) + f4 * g6 + 2 * (f5 * g5) + f6 * g4 + 2 * (f7
    * g3) + f8 * g2 + 2 * (f9 * g1)) (f2 * g9 + f3 * g8 + f4 * g7 + f5 * g6 + f6 * g5 + f7 *
    g4 + f8 * g3 + f9 * g2) (2 * (f3 * g9) + f4 * g8 + 2 * (f5 * g7) + f6 * g6 + 2 * (f7 * g5)
    + f8 * g4 + 2 * (f9 * g3)) (f4 * g9 + f5 * g8 + f6 * g7 + f7 * g6 + f8 * g5 + f9 * g4) (2
    * (f5 * g9) + f6 * g8 + 2 * (f7 * g7) + f8 * g6 + 2 * (f9 * g5)) (f6 * g9 + f7 * g8 + f8 *
    g7 + f9 * g6) (2 * (f7 * g9) + f8 * g8 + 2 * (f9 * g7)) (f8 * g9 + f9 * g8) (2 * (f9 *
    g9)) (0).

Lemma represents_eqm (b v w : Z) (h : fe) : represents b v h -> v =[p]= w -> represents b w h.
Proof. intros [B E] F; split; [exact B | now rewrite E]. Qed.

(** Ends the proof for a function that ends in a carry chain: the bounds of the limb sums, and
    a polynomial identity in which [k] is the folded part. *)
Ltac sums_in_range spec :=
  unfold holds; eapply represents_eqm;
  [ apply spec; cbv beta delta [sums_bnd]; splits; weaken_tac | ].

Ltac polynomial_tac k :=
  apply (eqm_intro p (- k)); cbv beta iota delta [fe_val high_part]; subst; unfold val10, p; ring.

Lemma fe_mul_spec (f g : fe) :
  fe_bnd b_in f -> fe_bnd b_in g -> represents b_mul (fe_val f * fe_val g) (fe_mul f g).
Proof.
  intros Hf Hg; change (holds (represents b_mul (fe_val f * fe_val g)) (fe_mul f g)).
  limbs Hf; limbs Hg; enter fe_mul; cbv beta iota; steps.
  sums_in_range fe_carry_spec.
  lazymatch goal with |- _ =[_]= fe_val ?f * fe_val ?g => polynomial_tac (high_part f g) end.
Qed.

Lemma fe_sq_spec (f : fe) : fe_bnd b_in f -> represents b_mul (fe_val f * fe_val f) (fe_sq f).
Proof.
  intros Hf; change (holds (represents b_mul (fe_val f * fe_val f)) (fe_sq f)).
  limbs Hf; enter fe_sq; cbv beta iota; steps.
  sums_in_range fe_carry_spec.
  lazymatch goal with |- _ =[_]= fe_val ?f * _ => polynomial_tac (high_part f f) end.
Qed.

Lemma fe_sq2_spec (f : fe) :
  fe_bnd b_in f -> represents b_mul (2 * (fe_val f * fe_val f)) (fe_sq2 f).
Proof.
  intros Hf; change (holds (represents b_mul (2 * (fe_val f * fe_val f))) (fe_sq2 f)).
  limbs Hf; enter fe_sq2; cbv beta iota; steps.
  sums_in_range fe_carry_spec.
  lazymatch goal with |- _ =[_]= 2 * (fe_val ?f * _) => polynomial_tac (2 * high_part f f) end.
Qed.

Lemma fe_mul121666_spec (f : fe) :
  fe_bnd b_in f -> represents b_red (121666 * fe_val f) (fe_mul121666 f).
Proof.
  intros Hf; change (holds (represents b_red (121666 * fe_val f)) (fe_mul121666 f)).
  limbs Hf; enter fe_mul121666; cbv beta iota; steps.
  sums_in_range fe_carry_odd_spec.
  lazymatch goal with |- _ =[_]= _ => polynomial_tac 0 end.
Qed.
