(* ===== verification/FeBytes.v ===== *)
(** * Encoding of field elements

    fe_frombytes and fe_tobytes against the little-endian value of the string, the canonical
    form of the encoding, the tests for sign and zero, and the conditional move and swap. *)

From Stdlib Require Import ZArith Lia List Setoid Bool.
From S2P Require Import Prelude Machine Bytes Fe FeArith.
Import ListNotations.

(** ** Decoding *)

Lemma rep_load_shift (s : list Z) (n : Z) : bytes s -> (0 <=? n) && (n <=? 24) = true ->
  rep (i64 (shlu64 (load_3 s) n)) (le3 s * 2 ^ n) 0 (2 ^ 48).
Proof.
  rewrite andb_true_iff, !Z.leb_le; intros H Hn; destruct (rep_load_3 s H) as [-> [B1 B2]].
  pose proof (Z.pow_le_mono_r 2 n 24) as Hp; pose proof (Z.pow_pos_nonneg 2 n).
  change (2 ^ 24) with 16777216 in *; change (2 ^ 48) with 281474976710656.
  unfold shlu64; rewrite shiftl_mul by lia.
  rewrite u64_small by (change (2 ^ 64) with 18446744073709551616; nia).
  rewrite i64_small by (change (2 ^ 63) with 9223372036854775808; nia).
  split; [reflexivity | unfold bnd; nia].
Qed.

Lemma rep_load_32 (s : list Z) : bytes s -> rep (i64 (load_4 s)) (le4 s) 0 (2 ^ 32 - 1).
Proof. intros H; apply rep_i64; [now apply rep_load_4 | reflexivity]. Qed.

(** The last limb drops the top bit of the string. *)
Lemma load_top (s : list Z) : bytes s ->
  i64 (shlu64 (Z.land (load_3 s) 8388607) 2) = (le3 s mod 2 ^ 23) * 2 ^ 2.
Proof.
  intros H; destruct (rep_load_3 s H) as [-> _].
  change 8388607 with (Z.ones 23); rewrite Z.land_ones by lia.
  pose proof (Z.mod_pos_bound (le3 s) (2 ^ 23) eq_refl).
  unfold shlu64; rewrite shiftl_mul, u64_small, i64_small by lia; reflexivity.
Qed.

Lemma fe_frombytes_spec (s : list Z) :
  bytes s -> length s = 32%nat -> represents b_red (le_val s mod 2 ^ 255) (fe_frombytes s).
Proof.
  intros H L; unfold fe_frombytes; cbv zeta.
  rewrite (proj1 (rep_load_32 s H)), (proj1 (rep_load_32 (skipn 16 s) (bytes_skipn _ _ H))).
  rewrite load_top by now apply bytes_skipn.
  repeat match goal with
    | |- context [i64 (shlu64 (load_3 ?t) ?n)] =>
        rewrite (proj1 (rep_load_shift t n (bytes_skipn _ _ H) eq_refl))
    end.
  do 32 (destruct s as [|? s]; [discriminate L|]); destruct s; [clear L | discriminate L].
  unfold bytes in H; rewrite !Forall_cons_iff in H; unfold is_byte in H; decompose [and] H; clear H.
  cbv [skipn]; unfold le4, le3; cbn [nth].
  eapply represents_eqm.
  - apply fe_carry_odd_spec; unfold sums_bnd, bnd; splits; Z.to_euclidean_division_equations; lia.
  - apply (eqm_intro p 0); cbn [le_val]; unfold val10; Z.to_euclidean_division_equations; lia.
Qed.

(** ** The quotient by p *)

(** The nested rounded shifts of fe_tobytes are one division of the whole value by 2^255. *)
Definition quotient_of (h0 h1 h2 h3 h4 h5 h6 h7 h8 h9 : Z) : Z :=
  (val10 h0 h1 h2 h3 h4 h5 h6 h7 h8 h9 + (19 * h9 + 2 ^ 24) / 2 ^ 25) / 2 ^ 255.

Lemma nested_shift (v h m n : Z) : 0 <= m -> 0 <= n ->
  Z.shiftr (h + v / 2 ^ m) n = (v + 2 ^ m * h) / 2 ^ (m + n).
Proof.
  intros Hm Hn; rewrite shiftr_div, Z.pow_add_r, <- Z.div_div by (lia || apply Z.pow_nonzero; lia).
  f_equal; rewrite Z.mul_comm, Z.div_add by (apply Z.pow_nonzero; lia); ring.
Qed.

Lemma fe_quotient_spec (h0 h1 h2 h3 h4 h5 h6 h7 h8 h9 : Z) :
  fe_bnd b_sum (Fe h0 h1 h2 h3 h4 h5 h6 h7 h8 h9) ->
  rep (fe_quotient h0 h1 h2 h3 h4 h5 h6 h7 h8 h9) (quotient_of h0 h1 h2 h3 h4 h5 h6 h7 h8 h9) (-2) 2.
Proof.
  intros H; cbv beta iota delta [fe_bnd] in H; decompose [and] H; clear H.
  repeat match goal with B : bnd _ _ _ |- _ => progress norm_bound B end.
  change (holds (fun q => rep q (quotient_of h0 h1 h2 h3 h4 h5 h6 h7 h8 h9) (-2) 2)
    (fe_quotient h0 h1 h2 h3 h4 h5 h6 h7 h8 h9)).
  enter fe_quotient; steps; unfold holds.
  match goal with |- rep ?q _ _ _ => assert (E : q = quotient_of h0 h1 h2 h3 h4 h5 h6 h7 h8 h9) end.
  - subst; change (1 * 2 ^ 24) with (2 ^ 24); rewrite (shiftr_div (_ + 2 ^ 24)) by lia.
    unfold quotient_of; set (q0 := (19 * h9 + 2 ^ 24) / 2 ^ 25).
    replace (h0 + q0) with (h0 + q0 / 2 ^ 0) by (rewrite Z.div_1_r; reflexivity).
    rewrite !nested_shift by lia.
    norm_pow; unfold val10; f_equal; lia.
  - split; [exact E | rewrite <- E; weaken_tac].
Qed.

Lemma quotient_floor (h9 e q0 q : Z) :
  - b_sum <= h9 <= b_sum -> - 2 ^ 231 <= e <= 2 ^ 231 ->
  q0 = (19 * h9 + 2 ^ 24) / 2 ^ 25 -> q = (e + 2 ^ 230 * h9 + q0) / 2 ^ 255 ->
  0 <= e + 2 ^ 230 * h9 - p * q < p.
Proof.
  unfold b_sum; intros H1 H2 -> ->; unfold p.
  Z.to_euclidean_division_equations; nia.
Qed.

Lemma quotient_of_spec (h0 h1 h2 h3 h4 h5 h6 h7 h8 h9 : Z) :
  fe_bnd b_sum (Fe h0 h1 h2 h3 h4 h5 h6 h7 h8 h9) ->
  0 <= val10 h0 h1 h2 h3 h4 h5 h6 h7 h8 h9 - p * quotient_of h0 h1 h2 h3 h4 h5 h6 h7 h8 h9 < p.
Proof.
  intros H; unfold fe_bnd, bnd in H; decompose [and] H; clear H.
  set (e := val10 h0 h1 h2 h3 h4 h5 h6 h7 h8 0).
  assert (Ev : val10 h0 h1 h2 h3 h4 h5 h6 h7 h8 h9 = e + 2 ^ 230 * h9) by (unfold e, val10; ring).
  rewrite Ev; apply (quotient_floor h9 e ((19 * h9 + 2 ^ 24) / 2 ^ 25)).
  - lia.
  - unfold e, val10, b_sum in *; lia.
  - reflexivity.
  - unfold quotient_of; now rewrite Ev.
Qed.

(** ** Packing *)

Lemma fe_pack_length (h0 h1 h2 h3 h4 h5 h6 h7 h8 h9 : Z) :
  length (fe_pack h0 h1 h2 h3 h4 h5 h6 h7 h8 h9) = 32%nat.
Proof. reflexivity. Qed.

Lemma fe_pack_bytes (h0 h1 h2 h3 h4 h5 h6 h7 h8 h9 : Z) :
  bytes (fe_pack h0 h1 h2 h3 h4 h5 h6 h7 h8 h9).
Proof. unfold fe_pack; repeat (constructor; [apply u8_is_byte|]); constructor. Qed.

Lemma fe_pack_spec (h0 h1 h2 h3 h4 h5 h6 h7 h8 h9 : Z) :
  0 <= h0 < 2 ^ 26 -> 0 <= h1 < 2 ^ 25 -> 0 <= h2 < 2 ^ 26 -> 0 <= h3 < 2 ^ 25 ->
  0 <= h4 < 2 ^ 26 -> 0 <= h5 < 2 ^ 25 -> 0 <= h6 < 2 ^ 26 -> 0 <= h7 < 2 ^ 25 ->
  0 <= h8 < 2 ^ 26 -> 0 <= h9 < 2 ^ 25 ->
  le_val (fe_pack h0 h1 h2 h3 h4 h5 h6 h7 h8 h9) = val10 h0 h1 h2 h3 h4 h5 h6 h7 h8 h9.
Proof.
  intros; unfold fe_pack.
  rewrite !shared_byte by
    (try lia; unfold shr32; rewrite shiftr_div by lia; Z.to_euclidean_division_equations; lia).
  rewrite !u8_shr by lia; unfold shr32; rewrite !shiftr_div by lia.
  assert (T4 : h4 / 2 ^ 18 mod 256 = h4 / 2 ^ 18) by
    (apply Z.mod_small; Z.to_euclidean_division_equations; lia).
  assert (T9 : h9 / 2 ^ 18 mod 256 = h9 / 2 ^ 18) by
    (apply Z.mod_small; Z.to_euclidean_division_equations; lia).
  change (2 ^ 0) with 1; rewrite !Z.div_1_r, T4, T9.
  pose proof (split_limb 8 h0 ltac:(lia)); pose proof (split_limb 6 h1 ltac:(lia)).
  pose proof (split_limb 5 h2 ltac:(lia)); pose proof (split_limb 3 h3 ltac:(lia)).
  pose proof (split_limb 2 h4 ltac:(lia)); pose proof (split_limb 8 h5 ltac:(lia)).
  pose proof (split_limb 7 h6 ltac:(lia)); pose proof (split_limb 5 h7 ltac:(lia)).
  pose proof (split_limb 4 h8 ltac:(lia)); pose proof (split_limb 2 h9 ltac:(lia)).
  norm_pow; change (2 ^ 8) with 256 in *; unfold val10; cbn [le_val]; lia.
Qed.

(** ** Encoding *)

Lemma fe_tobytes_shape (h : fe) :
  fe_bnd b_sum h ->
  holds (fun s => bytes s /\ length s = 32%nat /\ exists q c,
           0 <= fe_val h - p * q < p /\ le_val s = fe_val h - p * q + 2 ^ 255 * c /\
           0 <= le_val s < 2 ^ 255) (fe_tobytes h).
Proof.
  intros H; destruct h as [h0 h1 h2 h3 h4 h5 h6 h7 h8 h9].
  pose proof (fe_quotient_spec _ _ _ _ _ _ _ _ _ _ H) as [Eq Bq].
  pose proof (quotient_of_spec _ _ _ _ _ _ _ _ _ _ H) as Hq; rewrite <- Eq in Bq, Hq; clear Eq.
  cbv beta iota delta [fe_bnd] in H; decompose [and] H; clear H.
  repeat match goal with B : bnd _ _ _ |- _ => progress norm_bound B end.
  enter fe_tobytes; cbv beta iota; step_def; rewrite <- Eq in Bq, Hq.
  clear Eq; steps; unfold holds; rewrite fe_pack_spec by (unfold bnd in *; lia).
  splits; [apply fe_pack_bytes | reflexivity |].
  exists q; lazymatch goal with E : _ = _ - ?c * 2 ^ 25 |- _ => exists (q - c) end.
  split; [exact Hq | split; [|unfold bnd, val10 in *; lia]].
  forget_carries; clear Hq; cbv beta iota delta [fe_val]; subst; unfold val10, p; ring.
Qed.

Lemma fe_tobytes_spec (h : fe) : fe_bnd b_sum h -> fe_tobytes h = le_bytes 32 (fe_val h mod p).
Proof.
  intros H; destruct (fe_tobytes_shape h H) as (Hb & L & q & c & Hq & E & R).
  assert (Hm : fe_val h - p * q = fe_val h mod p).
  { apply eqm_is_mod; [|exact Hq]; apply (eqm_intro _ (- q)); ring. }
  apply le_bytes_unique; [exact Hb | exact L | rewrite E, <- Hm].
  assert (c = 0) as ->; [|ring]. unfold p in *; lia.
Qed.

Lemma val_mod_range (v : Z) : 0 <= v mod p < p.
Proof. apply Z.mod_pos_bound; reflexivity. Qed.

Lemma fe_tobytes_val (h : fe) : fe_bnd b_sum h -> le_val (fe_tobytes h) = fe_val h mod p.
Proof.
  intros H; rewrite fe_tobytes_spec, le_val_bytes by assumption.
  pose proof (val_mod_range (fe_val h)); apply Z.mod_small; unfold p in *.
  change (256 ^ Z.of_nat 32) with (2 ^ 256); lia.
Qed.

(** ** Sign and zero *)

Lemma le_val_low (l : list Z) : l <> [] -> nth 0 l 0 mod 2 = le_val l mod 2.
Proof.
  destruct l as [|b l]; [congruence|]; intros _; cbn [nth le_val].
  replace (b + 256 * le_val l) with (b + (128 * le_val l) * 2) by ring; now rewrite Z.mod_add.
Qed.

Lemma fe_isnegative_val (f : fe) : fe_bnd b_sum f -> fe_isnegative f = fe_val f mod p mod 2.
Proof.
  intros H; unfold fe_isnegative; cbv zeta; rewrite <- fe_tobytes_val by exact H.
  change 1 with (Z.ones 1); rewrite Z.land_ones by lia; apply le_val_low.
  rewrite fe_tobytes_spec by exact H; discriminate.
Qed.

Lemma fold_lor_zero (l : list Z) (r : Z) :
  fold_left Z.lor l r = 0 <-> r = 0 /\ Forall (eq 0) l.
Proof.
  revert r; induction l as [|x l IH]; intros r; cbn [fold_left].
  - intuition.
  - rewrite IH, Z.lor_eq_0_iff, Forall_cons_iff; intuition lia.
Qed.

Lemma le_val_zero (l : list Z) : bytes l -> (le_val l = 0 <-> Forall (eq 0) l).
Proof.
  induction 1 as [|b l Hb Hl IH]; [intuition|].
  cbn [le_val]; rewrite Forall_cons_iff, <- IH; unfold is_byte in Hb.
  pose proof (le_val_range l Hl); lia.
Qed.

Lemma fold_left_map {A B C} (g : A -> B -> A) (h : C -> B) (l : list C) (r : A) :
  fold_left (fun r i => g r (h i)) l r = fold_left g (map h l) r.
Proof. revert r; induction l as [|x l IH]; intros; [reflexivity | apply IH]. Qed.

Lemma tl_nth_seq (b : Z) (s : list Z) : map (fun i => nth i (b :: s) 0) (seq 1 (length s)) = s.
Proof. rewrite <- seq_shift, map_map; apply map_nth_seq. Qed.

(** The loop of fe_isnonzero: the [or] of all bytes is zero only for the zero string. *)
Lemma or_bytes_zero (s : list Z) : bytes s -> length s = 32%nat ->
  (fold_left (fun r i => Z.lor r (nth i s 0)) (seq 1 31) (nth 0 s 0) =? 0) = (le_val s =? 0).
Proof.
  destruct s as [|b s]; [discriminate|]; intros Hb L; injection L as L.
  apply Bool.eq_iff_eq_true; rewrite !Z.eqb_eq, (le_val_zero _ Hb), Forall_cons_iff.
  rewrite (fold_left_map Z.lor), <- L, tl_nth_seq, fold_lor_zero; cbn [nth]; intuition.
Qed.

Lemma fe_isnonzero_val (f : fe) :
  fe_bnd b_sum f -> fe_isnonzero f = if fe_val f mod p =? 0 then 0 else 1.
Proof.
  intros H; unfold fe_isnonzero; cbv zeta; rewrite <- fe_tobytes_val by exact H.
  rewrite or_bytes_zero; [reflexivity | |]; rewrite fe_tobytes_spec by exact H;
    auto with bytes.
Qed.

(** ** Conditional move and swap *)

(** Limbs that are [int32_t] values. *)
Definition is_i32 (x : Z) : Prop := - 2 ^ 31 <= x < 2 ^ 31.

Lemma is_i32_shiftr (x : Z) : is_i32 x <-> Z.shiftr x 31 = 0 \/ Z.shiftr x 31 = -1.
Proof.
  unfold is_i32; rewrite shiftr_div by lia; Z.to_euclidean_division_equations; lia.
Qed.

Lemma lxor_i32 (x y : Z) : is_i32 x -> is_i32 y -> is_i32 (Z.lxor x y).
Proof.
  rewrite !is_i32_shiftr, Z.shiftr_lxor; intros [-> | ->] [-> | ->]; cbn; auto.
Qed.

Lemma i32_u32 (x : Z) : i32 (u32 x) = i32 x.
Proof. unfold i32, u32; Z.to_euclidean_division_equations; lia. Qed.

(** The masked exclusive or: all of [x ^ y] when the bit is set, nothing otherwise. *)
Lemma masked_xor (x y b : Z) : is_i32 x -> is_i32 y -> b = 0 \/ b = 1 ->
  and32u (xor32 x y) (u32 (- b)) = if b =? 0 then 0 else Z.lxor x y.
Proof.
  intros Hx Hy Hb; pose proof (lxor_i32 x y Hx Hy) as Hxy; unfold and32u, xor32.
  rewrite (i32_small (Z.lxor x y)) by exact Hxy; destruct Hb as [-> | ->]; cbn [Z.eqb].
  - change (u32 (Z.opp 0)) with 0; now rewrite Z.land_0_r.
  - change (u32 (Z.opp 1)) with (Z.ones 32); rewrite Z.land_ones by lia.
    change (u32 (Z.lxor x y) mod 2 ^ 32) with (u32 (u32 (Z.lxor x y))).
    rewrite !i32_u32; now apply i32_small.
Qed.

Lemma xor_select (x y b : Z) : is_i32 x -> is_i32 y -> b = 0 \/ b = 1 ->
  xor32 x (and32u (xor32 x y) (u32 (- b))) = if b =? 0 then x else y.
Proof.
  intros Hx Hy Hb; rewrite masked_xor by assumption; unfold xor32; destruct Hb as [-> | ->];
    cbn [Z.eqb].
  - rewrite Z.lxor_0_r; now apply i32_small.
  - rewrite <- Z.lxor_assoc, Z.lxor_nilpotent, Z.lxor_0_l; now apply i32_small.
Qed.

Lemma xor_select_r (x y b : Z) : is_i32 x -> is_i32 y -> b = 0 \/ b = 1 ->
  xor32 y (and32u (xor32 x y) (u32 (- b))) = if b =? 0 then y else x.
Proof.
  intros Hx Hy Hb; rewrite <- (xor_select y x b) by assumption; unfold xor32.
  now rewrite (Z.lxor_comm x y).
Qed.

Definition fe_i32 (f : fe) : Prop :=
  let '(Fe f0 f1 f2 f3 f4 f5 f6 f7 f8 f9) := f in
  is_i32 f0 /\ is_i32 f1 /\ is_i32 f2 /\ is_i32 f3 /\ is_i32 f4 /\
  is_i32 f5 /\ is_i32 f6 /\ is_i32 f7 /\ is_i32 f8 /\ is_i32 f9.

Lemma fe_bnd_i32 (b : Z) (f : fe) : fe_bnd b f -> (b <? 2 ^ 30) = true -> fe_i32 f.
Proof.
  rewrite Z.ltb_lt; intros H L; destruct f; unfold fe_bnd, bnd, fe_i32, is_i32 in *.
  repeat split; lia.
Qed.

Lemma fe_cmov_spec (f g : fe) (b : Z) : fe_i32 f -> fe_i32 g -> b = 0 \/ b = 1 ->
  fe_cmov f g b = if b =? 0 then f else g.
Proof.
  intros Hf Hg Hb; destruct f, g; cbn in Hf, Hg; decompose [and] Hf; decompose [and] Hg.
  unfold fe_cmov; rewrite !xor_select by assumption; now destruct (b =? 0).
Qed.

Lemma fe_cswap_spec (f g : fe) (b : Z) : fe_i32 f -> fe_i32 g -> b = 0 \/ b = 1 ->
  fe_cswap f g b = if b =? 0 then (f, g) else (g, f).
Proof.
  intros Hf Hg Hb; destruct f, g; cbn in Hf, Hg; decompose [and] Hf; decompose [and] Hg.
  unfold fe_cswap; rewrite !xor_select, !xor_select_r by assumption; now destruct (b =? 0).
Qed.
