(* ===== verification/FePow.v ===== *)
(** * Exponentiation in the field: fe_invert and fe_pow22523

    The addition chains compute z^(p-2) and z^((p-5)/8).  A counter for the exponent follows
    each squaring and multiplication of the chain. *)

From Stdlib Require Import ZArith Lia List Setoid.
From S2P Require Import Prelude Machine Bytes Fe FeArith.

(** [h] represents [v ^ k], within the bounds that fe_mul and fe_sq accept. *)
Definition power (v k : Z) (h : fe) : Prop := 0 <= k /\ represents b_in (v ^ k) h.

Lemma represents_weaken (b c v : Z) (h : fe) :
  represents b v h -> (b <=? c) = true -> represents c v h.
Proof. intros [B E] L; split; [exact (fe_bnd_weaken _ _ _ B L) | exact E]. Qed.

Lemma mul_represents (v w : Z) (f g : fe) :
  represents b_in v f -> represents b_in w g -> represents b_mul (v * w) (fe_mul f g).
Proof.
  intros [Bf Ef] [Bg Eg]; eapply represents_eqm; [now apply fe_mul_spec | now rewrite Ef, Eg].
Qed.

Lemma sq_represents (v : Z) (f : fe) :
  represents b_in v f -> represents b_mul (v * v) (fe_sq f).
Proof. intros [Bf Ef]; eapply represents_eqm; [now apply fe_sq_spec | now rewrite Ef]. Qed.

Lemma power_mul (v j k : Z) (f g : fe) :
  power v j f -> power v k g -> 0 <= j + k /\ represents b_mul (v ^ (j + k)) (fe_mul f g).
Proof.
  intros [Hj Hf] [Hk Hg]; split; [lia|].
  rewrite Z.pow_add_r by assumption; now apply mul_represents.
Qed.

Lemma power_sq (v k : Z) (f : fe) :
  power v k f -> 0 <= k + k /\ represents b_mul (v ^ (k + k)) (fe_sq f).
Proof.
  intros [Hk Hf]; split; [lia|].
  rewrite Z.pow_add_r by assumption; now apply sq_represents.
Qed.

Lemma power_weaken (v k : Z) (h : fe) : 0 <= k /\ represents b_mul (v ^ k) h -> power v k h.
Proof. intros [Hk H]; split; [exact Hk | now apply (represents_weaken b_mul)]. Qed.

Lemma power_loop (v k : Z) (n : nat) (f : fe) :
  power v k f -> power v (k * 2 ^ Z.of_nat (n - 1)) (sq_loop n f).
Proof.
  intros H; unfold sq_loop; induction (n - 1)%nat as [|m IH].
  - now rewrite Z.mul_1_r.
  - rewrite Nat2Z.inj_succ, Z.pow_succ_r by lia; cbn [Nat.iter nat_rect].
    replace (k * (2 * 2 ^ Z.of_nat m)) with (k * 2 ^ Z.of_nat m + k * 2 ^ Z.of_nat m) by ring.
    apply power_weaken, power_sq, IH.
Qed.

(** One binding of an addition chain. *)
Ltac chain_step :=
  step_def;
  lazymatch goal with
  | E : ?t = ?e |- _ =>
      let P := fresh "P" t in
      lazymatch e with
      | fe_mul ?f ?g =>
          lazymatch goal with
          | F : power ?v ?j f, G : power ?v ?k g |- _ =>
              pose proof (power_mul v j k f g F G) as P;
              let n := eval vm_compute in (j + k) in change (j + k) with n in P;
              let R := fresh "R" t in
              pose proof (proj2 P) as R; rewrite <- E in R; apply power_weaken in P
          end
      | fe_sq ?f =>
          lazymatch goal with
          | F : power ?v ?k f |- _ =>
              pose proof (power_weaken _ _ _ (power_sq v k f F)) as P;
              let n := eval vm_compute in (k + k) in change (k + k) with n in P
          end
      | sq_loop ?n ?f =>
          lazymatch goal with
          | F : power ?v ?k f |- _ =>
              pose proof (power_loop v k n f F) as P;
              let m := eval vm_compute in (k * 2 ^ Z.of_nat (n - 1)) in
              change (k * 2 ^ Z.of_nat (n - 1)) with m in P
          end
      end; rewrite <- E in P; clear E
  end.

Lemma power_one (z : fe) : fe_bnd b_in z -> power (fe_val z) 1 z.
Proof. intros H; split; [lia | split; [exact H | now rewrite Z.pow_1_r]]. Qed.

Lemma fe_invert_spec (z : fe) :
  fe_bnd b_in z -> represents b_mul (fe_val z ^ (p - 2)) (fe_invert z).
Proof.
  intros H; pose proof (power_one z H) as Pz; generalize dependent (fe_val z); intros v Pz.
  change (holds (represents b_mul (v ^ (p - 2))) (fe_invert z)).
  enter fe_invert; repeat chain_step; assumption.
Qed.

Lemma fe_pow22523_spec (z : fe) :
  fe_bnd b_in z -> represents b_mul (fe_val z ^ ((p - 5) / 8)) (fe_pow22523 z).
Proof.
  intros H; pose proof (power_one z H) as Pz; generalize dependent (fe_val z); intros v Pz.
  change (holds (represents b_mul (v ^ ((p - 5) / 8))) (fe_pow22523 z)).
  enter fe_pow22523; repeat chain_step; assumption.
Qed.
