(* ===== verification/Prime.v ===== *)
(** * p = 2^255 - 19 is prime

    A Pocklington certificate: a chain of primes q1 > q2 > q3, each dividing the predecessor of
    the one before, down to primes small enough for trial division.  Primality of [p] is
    what makes z^(p-2) the inverse of z. *)

From Stdlib Require Import ZArith Lia List Bool.
From Stdlib Require Import Znumtheory Zpow_facts Zmod.ZmodInv.
From S2P Require Import Prelude FeArith.
Import ListNotations.

(** ** Smallest factors *)

Lemma prime_factor (n : Z) : 1 < n -> exists r, Z.prime r /\ (r | n).
Proof.
  intros H; assert (H0 : 0 <= n) by lia; revert H; pattern n; apply Zlt_0_ind; [|exact H0].
  clear n H0; intros n IH _ H.
  destruct (prime_dec n) as [P|P].
  - exists n; split; [now apply prime_alt | apply Z.divide_refl].
  - destruct (not_prime_divide n H P) as (m & Hm & D).
    destruct (IH m ltac:(lia) ltac:(lia)) as (r & Pr & Dr).
    exists r; split; [exact Pr | now transitivity m].
Qed.

(** A number all of whose prime factors exceed its square root is prime. *)
Lemma prime_of_large_factors (n : Z) :
  1 < n -> (forall r, Z.prime r -> (r | n) -> n < r * r) -> Z.prime n.
Proof.
  intros H L; destruct (prime_dec n) as [P|P]; [now apply prime_alt|].
  destruct (not_prime_divide n H P) as (a & Ha & [b E]).
  assert (Hb : 1 < b) by nia.
  assert (S : forall c, 1 < c -> (c | n) -> n < c * c).
  { intros c Hc D; destruct (prime_factor c Hc) as (r & Pr & Dr).
    pose proof (L r Pr (Z.divide_trans _ _ _ Dr D)); pose proof (Z.divide_pos_le r c ltac:(lia) Dr).
    pose proof (Z.prime_ge_2 r Pr); nia. }
  pose proof (S a ltac:(lia) ltac:(exists b; lia)); pose proof (S b Hb ltac:(exists a; lia)); nia.
Qed.

(** ** Trial division *)

Fixpoint no_factor (n : Z) (fuel : nat) (d : Z) : bool :=
  match fuel with
  | O => true
  | S fuel' => negb (n mod d =? 0) && no_factor n fuel' (d + 1)
  end.

Lemma no_factor_spec (n : Z) (fuel : nat) (d r : Z) :
  no_factor n fuel d = true -> 0 < d <= r -> r < d + Z.of_nat fuel -> ~ (r | n).
Proof.
  revert d; induction fuel as [|k IH]; intros d H Hd Hr; [lia|].
  cbn [no_factor] in H; rewrite andb_true_iff, negb_true_iff, Z.eqb_neq in H.
  destruct H as [H1 H2]; destruct (Z.eq_dec r d) as [->|N].
  - now rewrite <- Z.mod_divide by lia.
  - apply (IH (d + 1)); [exact H2 | lia | lia].
Qed.

Definition small_prime (n : Z) (bound : nat) : bool :=
  (1 <? n) && (n <? Z.of_nat bound * Z.of_nat bound) && no_factor n (bound - 2) 2.

Lemma small_prime_spec (n : Z) (bound : nat) : small_prime n bound = true -> Z.prime n.
Proof.
  unfold small_prime; rewrite !andb_true_iff, !Z.ltb_lt; intros [[H1 H2] H3].
  apply prime_of_large_factors; [exact H1|]; intros r Pr Dr.
  pose proof (Z.prime_ge_2 r Pr).
  destruct (Z.lt_ge_cases r (Z.of_nat bound)); [|nia].
  exfalso; apply (no_factor_spec n (bound - 2) 2 r); (assumption || lia).
Qed.

(** ** Pocklington's criterion *)

(** [a] witnesses that [q] divides [r - 1] for every prime factor [r] of [n]. *)
Definition pocklington_check (n q a : Z) : bool :=
  (1 <? n) && (0 <? q) && ((n - 1) mod q =? 0) && (Zpow_mod a (n - 1) n =? 1)
  && (Z.gcd (Zpow_mod a ((n - 1) / q) n - 1) n =? 1).

(** An element whose [q]-th and [m]-th powers are 1, for coprime [q] and [m], is 1. *)
Lemma coprime_orders (r b q m : Z) :
  0 <= q -> 0 <= m -> Z.coprime q m -> b ^ q =[r]= 1 -> b ^ m =[r]= 1 -> b =[r]= 1.
Proof.
  intros Hq Hm C Eq Em; apply Z.Bezout_coprime in C; destruct C as (u & v & E).
  assert (K : forall c e k l, 0 <= c -> 0 <= k -> b ^ c =[r]= 1 -> 0 <= e -> b ^ e =[r]= 1 ->
    0 <= l -> c * k = 1 + e * l -> b =[r]= 1).
  { intros c e k l Hc Hk Ec He Ee Hl X.
    assert (Y : b ^ (c * k) = b * b ^ (e * l)) by (rewrite X, Z.pow_add_r, Z.pow_1_r by nia; ring).
    rewrite !Z.pow_mul_r in Y by assumption.
    rewrite <- (Z.mul_1_r b), <- (Z.pow_1_l l) at 1 by assumption.
    rewrite <- (eqm_pow _ _ _ Ee l), <- Y, (eqm_pow _ _ _ Ec k), Z.pow_1_l by assumption.
    reflexivity. }
  destruct (Z.le_gt_cases 0 u) as [Hu|Hu], (Z.le_gt_cases 0 v) as [Hv|Hv].
  - assert (q * u + m * v = 1) by lia.
    destruct (Z.eq_dec (q * u) 0) as [Z0|Z0].
    + apply (K m q v 0); (assumption || nia).
    + apply (K q m u 0); (assumption || nia).
  - apply (K q m u (- v)); (assumption || nia).
  - apply (K m q v (- u)); (assumption || nia).
  - nia.
Qed.

Lemma pocklington_factor (n q a r : Z) :
  Z.prime q -> pocklington_check n q a = true -> Z.prime r -> (r | n) -> (q | r - 1).
Proof.
  unfold pocklington_check; rewrite !andb_true_iff, !Z.ltb_lt, !Z.eqb_eq.
  intros Pq [[[[Hn Hq] Dq] E1] E2] Pr Dr; pose proof (Z.prime_ge_2 r Pr).
  rewrite !Zpow_mod_correct in E1, E2 by lia.
  destruct (Z.BoolSpec_divide q (r - 1)) as [D|D]; [exact D|exfalso].
  set (b := a ^ ((n - 1) / q)) in *.
  assert (W : forall x y, x =[n]= y -> x =[r]= y) by
    (intros x y X; exact (Z.divide_trans _ _ _ Dr X)).
  assert (B1 : b ^ q =[r]= 1).
  { apply W; unfold b; rewrite <- Z.pow_mul_r by (try apply Z.div_pos; lia).
    replace ((n - 1) / q * q) with (n - 1) by (pose proof (Z.div_mod (n - 1) q); lia).
    transitivity (a ^ (n - 1) mod n); [symmetry; apply eqm_mod | now rewrite E1]. }
  assert (B2 : b ^ (r - 1) =[r]= 1).
  { apply eqm_iff_mod; [lia|]; rewrite (Z.mod_small 1) by lia; apply Z.fermat_nz; [exact Pr|].
    intros Z0; assert (X : b =[r]= 0) by (apply eqm_iff_mod; [lia|]; now rewrite Z0, Z.mod_0_l by lia).
    pose proof (eqm_pow r b 0 X q) as Y; rewrite Z.pow_0_l in Y by lia; rewrite B1 in Y.
    apply Z.divide_pos_le in Y; lia. }
  assert (B : b =[r]= 1).
  { apply (coprime_orders r b q (r - 1)); try assumption; try lia.
    now apply Z.coprime_prime_l. }
  assert (G : (r | Z.gcd (b mod n - 1) n)).
  { apply Z.gcd_greatest; [|exact Dr]. change (b mod n =[r]= 1).
    transitivity b; [apply W, eqm_mod | exact B]. }
  rewrite E2 in G; apply Z.divide_pos_le in G; lia.
Qed.

(** ** The certificate *)

Definition q3 : Z := 1919519569386763.
Definition q2 : Z := 75445702479781427272750846543864801.
Definition q1 : Z := 74058212732561358302231226437062788676166966415465897661863160754340907.

(** A single large factor: every prime factor of [n] exceeds [q]. *)
Lemma pocklington_one (n q a : Z) :
  Z.prime q -> pocklington_check n q a = true -> (n <? q * q) = true -> Z.prime n.
Proof.
  intros Pq C L; apply Z.ltb_lt in L; pose proof C as C'.
  unfold pocklington_check in C'; rewrite !andb_true_iff, !Z.ltb_lt in C'.
  apply prime_of_large_factors; [tauto|]; intros r Pr Dr.
  pose proof (Z.prime_ge_2 r Pr); pose proof (Z.prime_ge_2 q Pq).
  pose proof (pocklington_factor n q a r Pq C Pr Dr) as D.
  apply Z.divide_pos_le in D; [nia | lia].
Qed.

(** Two distinct prime factors: every prime factor of [n] exceeds their product. *)
Lemma pocklington_two (n q q' a : Z) :
  Z.prime q -> Z.prime q' -> Z.gcd q q' = 1 ->
  pocklington_check n q a = true -> pocklington_check n q' a = true ->
  (n <? (q * q') * (q * q')) = true -> Z.prime n.
Proof.
  intros Pq Pq' G C C' L; apply Z.ltb_lt in L; pose proof C as K.
  unfold pocklington_check in K; rewrite !andb_true_iff, !Z.ltb_lt in K.
  apply prime_of_large_factors; [tauto|]; intros r Pr Dr.
  pose proof (Z.prime_ge_2 r Pr); pose proof (Z.prime_ge_2 q Pq); pose proof (Z.prime_ge_2 q' Pq').
  assert (D : (q * q' | r - 1)).
  { destruct (pocklington_factor n q' a r Pq' C' Pr Dr) as [k E].
    pose proof (pocklington_factor n q a r Pq C Pr Dr) as D; rewrite E, Z.mul_comm in D.
    apply Z.gauss in D; [|exact G]; destruct D as [j ->]; exists j; lia. }
  apply Z.divide_pos_le in D; [nia | lia].
Qed.

Lemma prime_q3 : Z.prime q3.
Proof.
  apply (pocklington_two q3 8574133 127 2);
    lazymatch goal with |- Z.prime _ => idtac | _ => vm_compute; reflexivity end.
  - apply (small_prime_spec _ 3000); vm_compute; reflexivity.
  - apply (small_prime_spec _ 20); vm_compute; reflexivity.
Qed.

Lemma prime_q2 : Z.prime q2.
Proof.
  apply (pocklington_two q2 q3 75707 7);
    lazymatch goal with |- Z.prime _ => idtac | _ => vm_compute; reflexivity end.
  - exact prime_q3.
  - apply (small_prime_spec _ 300); vm_compute; reflexivity.
Qed.

Lemma prime_q1 : Z.prime q1.
Proof.
  apply (pocklington_two q1 q2 132049 2);
    lazymatch goal with |- Z.prime _ => idtac | _ => vm_compute; reflexivity end.
  - exact prime_q2.
  - apply (small_prime_spec _ 400); vm_compute; reflexivity.
Qed.

Lemma prime_p : Z.prime p.
Proof. apply (pocklington_one p q1 2); [exact prime_q1 | |]; vm_compute; reflexivity. Qed.
