(* ===== verification/FeTheorems.v ===== *)
(** * What the field arithmetic promises

    The properties of fe.c that its clients rely on: every operation, on limbs within the
    documented bounds, computes the operation of the field Z/(2^255-19), and the encoding is the
    canonical one. *)

From Stdlib Require Import ZArith Lia List Setoid Zmod.ZmodInv.
From S2P Require Import Prelude Machine Bytes Fe FeArith FeBytes FePow Prime.
Import ListNotations.

(** The residue that a field element stands for. *)
Definition residue (f : fe) : Z := fe_val f mod p.

Lemma represents_residue (b v : Z) (h : fe) : represents b v h -> residue h = v mod p.
Proof. intros [_ E]; unfold residue; apply eqm_iff_mod; [reflexivity | exact E]. Qed.

Lemma residue_inverse (v : Z) : v mod p <> 0 -> (v ^ (p - 2) * v) mod p = 1.
Proof.
  intros H; rewrite Z.mul_comm, <- Z.pow_succ_r by (unfold p; lia).
  replace (Z.succ (p - 2)) with (p - 1) by ring; now apply Z.fermat_nz; [apply prime_p|].
Qed.

Lemma residue_zero_pow (v k : Z) : 0 < k -> v mod p = 0 -> v ^ k mod p = 0.
Proof. intros Hk H; rewrite <- Z.mod_pow_l, H, Z.pow_0_l by lia; reflexivity. Qed.

(** Sample elements for the witnesses: limbs at the largest magnitude that fe_mul accepts. *)
Definition fe_max : fe :=
  Fe (2 * b_in) (- b_in) (2 * b_in) b_in (- (2 * b_in)) b_in (2 * b_in) (- b_in) (2 * b_in) b_in.
Definition fe_mid : fe :=
  Fe (2 * b_sum) (- b_sum) (2 * b_sum) b_sum (- (2 * b_sum)) b_sum (2 * b_sum) (- b_sum) 5 b_sum.

(** C40: fe_mul computes the product modulo 2^255-19.  Limbs up to 1.65*2^26 / 1.65*2^25 are
    accepted, nothing overflows, and the limbs of the result are within 1.01*2^25 / 1.01*2^24. *)
Theorem fe_mul_correct (f g : fe) :
  fe_bnd b_in f -> fe_bnd b_in g ->
  fe_bnd b_mul (fe_mul f g) /\ residue (fe_mul f g) = (residue f * residue g) mod p.
Proof.
  intros Hf Hg; destruct (fe_mul_spec f g Hf Hg) as [B E]; split; [exact B|].
  rewrite (represents_residue b_mul _ _ (conj B E)); unfold residue; now rewrite <- Z.mul_mod by easy.
Qed.

Lemma fe_mul_correct_witness :
  fe_bndb b_in fe_max = true /\ residue (fe_mul fe_max fe_max) = (residue fe_max * residue fe_max) mod p.
Proof.
  split; [vm_compute; reflexivity|].
  apply (fe_mul_correct fe_max fe_max); apply fe_bndb_spec; vm_compute; reflexivity.
Defined.

(** the dedicated squarings agree with the general multiplication, byte for byte after
    encoding: fe_sq f with f * f, fe_sq2 f with 2 * (f * f). *)
Theorem fe_sq_is_mul (f : fe) :
  fe_bnd b_in f ->
  fe_tobytes (fe_sq f) = fe_tobytes (fe_mul f f) /\
  fe_tobytes (fe_sq2 f) = fe_tobytes (fe_add (fe_mul f f) (fe_mul f f)).
Proof.
  intros H; pose proof (fe_sq_spec f H) as [Bs Es]; pose proof (fe_sq2_spec f H) as [B2 E2].
  pose proof (fe_mul_spec f f H H) as [Bm Em].
  destruct (fe_add_spec _ _ _ _ Bm Bm ltac:(unfold b_mul; lia)) as [Ba Ea].
  rewrite !fe_tobytes_spec by (eapply fe_bnd_weaken; [eassumption | reflexivity]).
  split; f_equal; apply eqm_iff_mod; try easy; [now rewrite Es, Em | rewrite E2, Ea, Em].
  apply (eqm_intro _ 0); ring.
Qed.

Lemma fe_sq_is_mul_witness : fe_tobytes (fe_sq fe_max) = fe_tobytes (fe_mul fe_max fe_max).
Proof. apply fe_sq_is_mul, fe_bndb_spec; vm_compute; reflexivity. Defined.

(** fe_tobytes writes the canonical encoding: 32 bytes whose little-endian value is the
    residue in [0, p), for every limb representation within 1.1*2^26 / 1.1*2^25. *)
Theorem fe_tobytes_canonical (h : fe) :
  fe_bnd b_sum h ->
  bytes (fe_tobytes h) /\ length (fe_tobytes h) = 32%nat /\ le_val (fe_tobytes h) = residue h.
Proof.
  intros H; rewrite (fe_tobytes_val h H), fe_tobytes_spec by exact H.
  splits; [apply le_bytes_bytes | apply le_bytes_length | reflexivity].
Qed.

Lemma fe_tobytes_canonical_witness :
  le_val (fe_tobytes fe_mid) = residue fe_mid.
Proof. apply fe_tobytes_canonical, fe_bndb_spec; vm_compute; reflexivity. Defined.

(** decoding then encoding a 32-byte string reduces its low 255 bits modulo p, so canonical
    strings survive unchanged; encoding then decoding an element keeps its residue. *)
Theorem fe_roundtrip (s : list Z) (h : fe) :
  bytes s -> length s = 32%nat -> fe_bnd b_sum h ->
  fe_tobytes (fe_frombytes s) = le_bytes 32 ((le_val s mod 2 ^ 255) mod p) /\
  (le_val s < p -> fe_tobytes (fe_frombytes s) = s) /\
  residue (fe_frombytes (fe_tobytes h)) = residue h.
Proof.
  intros Hs Ls Hh; destruct (fe_frombytes_spec s Hs Ls) as [B E].
  assert (T : fe_tobytes (fe_frombytes s) = le_bytes 32 ((le_val s mod 2 ^ 255) mod p)).
  { rewrite fe_tobytes_spec by now apply (fe_bnd_weaken b_red).
    f_equal; apply eqm_iff_mod; [reflexivity | exact E]. }
  pose proof (le_val_range s Hs); pose proof (val_mod_range (fe_val h)).
  splits; [exact T | |].
  - intros Hc; rewrite T, (Z.mod_small (le_val s)), Z.mod_small by (unfold p in *; lia).
    rewrite <- Ls; now apply le_bytes_val.
  - destruct (fe_frombytes_spec (fe_tobytes h)) as [_ E'];
      [rewrite fe_tobytes_spec by exact Hh; auto with bytes..|].
    unfold residue in *; rewrite fe_tobytes_val in E' by exact Hh.
    rewrite Z.mod_small in E' by (unfold p in *; lia).
    apply eqm_iff_mod; [reflexivity|]; now rewrite E', eqm_mod.
Qed.

Lemma fe_roundtrip_witness :
  fe_tobytes (fe_frombytes (le_bytes 32 (2 ^ 255 - 1))) = le_bytes 32 18.
Proof.
  refine (proj1 (fe_roundtrip (le_bytes 32 (2 ^ 255 - 1)) fe_mid _ _ _));
    [apply le_bytes_bytes | reflexivity | apply fe_bndb_spec; vm_compute; reflexivity].
Defined.

(** fe_invert computes the inverse modulo the prime p: z^(p-2), whose product with z is
    one unless z is zero, and zero for zero. *)
Theorem fe_invert_correct (z : fe) :
  fe_bnd b_in z ->
  fe_bnd b_mul (fe_invert z) /\
  residue (fe_mul (fe_invert z) z) = if residue z =? 0 then 0 else 1.
Proof.
  intros H; pose proof (fe_invert_spec z H) as R; split; [exact (proj1 R)|].
  apply represents_weaken with (c := b_in) in R; [|reflexivity].
  assert (Z1 : represents b_in (fe_val z) z) by (split; [exact H | reflexivity]).
  rewrite (represents_residue _ _ _ (mul_represents _ _ _ _ R Z1)).
  unfold residue; destruct (Z.eqb_spec (fe_val z mod p) 0) as [Z0|N0].
  - rewrite <- Z.mul_mod_idemp_r, Z0, Z.mul_0_r; easy.
  - now apply residue_inverse.
Qed.

Lemma fe_invert_correct_witness : residue (fe_mul (fe_invert fe_max) fe_max) = 1.
Proof.
  refine (eq_trans (proj2 (fe_invert_correct fe_max _)) _);
    [apply fe_bndb_spec; vm_compute; reflexivity | vm_compute; reflexivity].
Defined.
