(* ===== verification/Sc.v ===== *)
(** * Scalars modulo the group order: shared/ed25519/src/sc.c

    A scalar is a byte string; the functions work on limbs of 21 bits in [int64_t].  sc_reduce
    and sc_muladd share their text from the point where the limbs s18..s23 are folded; that text is
    split into stages, each of which ends by calling the next.  Proofs are in ScArith. *)

From Stdlib Require Import ZArith List.
From S2P Require Import Prelude Machine Bytes.
Import ListNotations.

(** The 32 bytes of the twelve reduced limbs. *)
Definition sc_pack (s0 s1 s2 s3 s4 s5 s6 s7 s8 s9 s10 s11 : Z) : list Z :=
  [ u8 (s0 >> 0)%i64;
    u8 (s0 >> 8)%i64;
    u8 (Z.lor (s0 >> 16)%i64 (s1 << 5)%i64);
    u8 (s1 >> 3)%i64;
    u8 (s1 >> 11)%i64;
    u8 (Z.lor (s1 >> 19)%i64 (s2 << 2)%i64);
    u8 (s2 >> 6)%i64;
    u8 (Z.lor (s2 >> 14)%i64 (s3 << 7)%i64);
    u8 (s3 >> 1)%i64;
    u8 (s3 >> 9)%i64;
    u8 (Z.lor (s3 >> 17)%i64 (s4 << 4)%i64);
    u8 (s4 >> 4)%i64;
    u8 (s4 >> 12)%i64;
    u8 (Z.lor (s4 >> 20)%i64 (s5 << 1)%i64);
    u8 (s5 >> 7)%i64;
    u8 (Z.lor (s5 >> 15)%i64 (s6 << 6)%i64);
    u8 (s6 >> 2)%i64;
    u8 (s6 >> 10)%i64;
    u8 (Z.lor (s6 >> 18)%i64 (s7 << 3)%i64);
    u8 (s7 >> 5)%i64;
    u8 (s7 >> 13)%i64;
    u8 (s8 >> 0)%i64;
    u8 (s8 >> 8)%i64;
    u8 (Z.lor (s8 >> 16)%i64 (s9 << 5)%i64);
    u8 (s9 >> 3)%i64;
    u8 (s9 >> 11)%i64;
    u8 (Z.lor (s9 >> 19)%i64 (s10 << 2)%i64);
    u8 (s10 >> 6)%i64;
    u8 (Z.lor (s10 >> 14)%i64 (s11 << 7)%i64);
    u8 (s11 >> 1)%i64;
    u8 (s11 >> 9)%i64;
    u8 (s11 >> 17)%i64 ].

(** Last stage: fold s12, carry, write the bytes. *)
Definition sc_last (s0 s1 s2 s3 s4 s5 s6 s7 s8 s9 s10 s11 s12 : Z) : list Z :=
  let s0 := (s0 + s12 * 666643)%i64 in
  let s1 := (s1 + s12 * 470296)%i64 in
  let s2 := (s2 + s12 * 654183)%i64 in
  let s3 := (s3 - s12 * 997805)%i64 in
  let s4 := (s4 + s12 * 136657)%i64 in
  let s5 := (s5 - s12 * 683901)%i64 in
  let s12 := 0 in
  let carry0 := (s0 >> 21)%i64 in
  let s1 := (s1 + carry0)%i64 in
  let s0 := (s0 - (carry0 << 21))%i64 in
  let carry1 := (s1 >> 21)%i64 in
  let s2 := (s2 + carry1)%i64 in
  let s1 := (s1 - (carry1 << 21))%i64 in
  let carry2 := (s2 >> 21)%i64 in
  let s3 := (s3 + carry2)%i64 in
  let s2 := (s2 - (carry2 << 21))%i64 in
  let carry3 := (s3 >> 21)%i64 in
  let s4 := (s4 + carry3)%i64 in
  let s3 := (s3 - (carry3 << 21))%i64 in
  let carry4 := (s4 >> 21)%i64 in
  let s5 := (s5 + carry4)%i64 in
  let s4 := (s4 - (carry4 << 21))%i64 in
  let carry5 := (s5 >> 21)%i64 in
  let s6 := (s6 + carry5)%i64 in
  let s5 := (s5 - (carry5 << 21))%i64 in
  let carry6 := (s6 >> 21)%i64 in
  let s7 := (s7 + carry6)%i64 in
  let s6 := (s6 - (carry6 << 21))%i64 in
  let carry7 := (s7 >> 21)%i64 in
  let s8 := (s8 + carry7)%i64 in
  let s7 := (s7 - (carry7 << 21))%i64 in
  let carry8 := (s8 >> 21)%i64 in
  let s9 := (s9 + carry8)%i64 in
  let s8 := (s8 - (carry8 << 21))%i64 in
  let carry9 := (s9 >> 21)%i64 in
  let s10 := (s10 + carry9)%i64 in
  let s9 := (s9 - (carry9 << 21))%i64 in
  let carry10 := (s10 >> 21)%i64 in
  let s11 := (s11 + carry10)%i64 in
  let s10 := (s10 - (carry10 << 21))%i64 in
  sc_pack s0 s1 s2 s3 s4 s5 s6 s7 s8 s9 s10 s11.

(** Fold s12 and carry s0..s11, leaving s12. *)
Definition sc_finish (s0 s1 s2 s3 s4 s5 s6 s7 s8 s9 s10 s11 s12 : Z) : list Z :=
  let s0 := (s0 + s12 * 666643)%i64 in
  let s1 := (s1 + s12 * 470296)%i64 in
  let s2 := (s2 + s12 * 654183)%i64 in
  let s3 := (s3 - s12 * 997805)%i64 in
  let s4 := (s4 + s12 * 136657)%i64 in
  let s5 := (s5 - s12 * 683901)%i64 in
  let s12 := 0 in
  let carry0 := (s0 >> 21)%i64 in
  let s1 := (s1 + carry0)%i64 in
  let s0 := (s0 - (carry0 << 21))%i64 in
  let carry1 := (s1 >> 21)%i64 in
  let s2 := (s2 + carry1)%i64 in
  let s1 := (s1 - (carry1 << 21))%i64 in
  let carry2 := (s2 >> 21)%i64 in
  let s3 := (s3 + carry2)%i64 in
  let s2 := (s2 - (carry2 << 21))%i64 in
  let carry3 := (s3 >> 21)%i64 in
  let s4 := (s4 + carry3)%i64 in
  let s3 := (s3 - (carry3 << 21))%i64 in
  let carry4 := (s4 >> 21)%i64 in
  let s5 := (s5 + carry4)%i64 in
  let s4 := (s4 - (carry4 << 21))%i64 in
  let carry5 := (s5 >> 21)%i64 in
  let s6 := (s6 + carry5)%i64 in
  let s5 := (s5 - (carry5 << 21))%i64 in
  let carry6 := (s6 >> 21)%i64 in
  let s7 := (s7 + carry6)%i64 in
  let s6 := (s6 - (carry6 << 21))%i64 in
  let carry7 := (s7 >> 21)%i64 in
  let s8 := (s8 + carry7)%i64 in
  let s7 := (s7 - (carry7 << 21))%i64 in
  let carry8 := (s8 >> 21)%i64 in
  let s9 := (s9 + carry8)%i64 in
  let s8 := (s8 - (carry8 << 21))%i64 in
  let carry9 := (s9 >> 21)%i64 in
  let s10 := (s10 + carry9)%i64 in
  let s9 := (s9 - (carry9 << 21))%i64 in
  let carry10 := (s10 >> 21)%i64 in
  let s11 := (s11 + carry10)%i64 in
  let s10 := (s10 - (carry10 << 21))%i64 in
  let carry11 := (s11 >> 21)%i64 in
  let s12 := (s12 + carry11)%i64 in
  let s11 := (s11 - (carry11 << 21))%i64 in
  sc_last s0 s1 s2 s3 s4 s5 s6 s7 s8 s9 s10 s11 s12.

(** Rounded carries s0..s11, leaving s12. *)
Definition sc_carry_low (s0 s1 s2 s3 s4 s5 s6 s7 s8 s9 s10 s11 : Z) : list Z :=
  let s12 := 0 in
  let carry0 := ((s0 + (1 << 20)) >> 21)%i64 in
  let s1 := (s1 + carry0)%i64 in
  let s0 := (s0 - (carry0 << 21))%i64 in
  let carry2 := ((s2 + (1 << 20)) >> 21)%i64 in
  let s3 := (s3 + carry2)%i64 in
  let s2 := (s2 - (carry2 << 21))%i64 in
  let carry4 := ((s4 + (1 << 20)) >> 21)%i64 in
  let s5 := (s5 + carry4)%i64 in
  let s4 := (s4 - (carry4 << 21))%i64 in
  let carry6 := ((s6 + (1 << 20)) >> 21)%i64 in
  let s7 := (s7 + carry6)%i64 in
  let s6 := (s6 - (carry6 << 21))%i64 in
  let carry8 := ((s8 + (1 << 20)) >> 21)%i64 in
  let s9 := (s9 + carry8)%i64 in
  let s8 := (s8 - (carry8 << 21))%i64 in
  let carry10 := ((s10 + (1 << 20)) >> 21)%i64 in
  let s11 := (s11 + carry10)%i64 in
  let s10 := (s10 - (carry10 << 21))%i64 in
  let carry1 := ((s1 + (1 << 20)) >> 21)%i64 in
  let s2 := (s2 + carry1)%i64 in
  let s1 := (s1 - (carry1 << 21))%i64 in
  let carry3 := ((s3 + (1 << 20)) >> 21)%i64 in
  let s4 := (s4 + carry3)%i64 in
  let s3 := (s3 - (carry3 << 21))%i64 in
  let carry5 := ((s5 + (1 << 20)) >> 21)%i64 in
  let s6 := (s6 + carry5)%i64 in
  let s5 := (s5 - (carry5 << 21))%i64 in
  let carry7 := ((s7 + (1 << 20)) >> 21)%i64 in
  let s8 := (s8 + carry7)%i64 in
  let s7 := (s7 - (carry7 << 21))%i64 in
  let carry9 := ((s9 + (1 << 20)) >> 21)%i64 in
  let s10 := (s10 + carry9)%i64 in
  let s9 := (s9 - (carry9 << 21))%i64 in
  let carry11 := ((s11 + (1 << 20)) >> 21)%i64 in
  let s12 := (s12 + carry11)%i64 in
  let s11 := (s11 - (carry11 << 21))%i64 in
  sc_finish s0 s1 s2 s3 s4 s5 s6 s7 s8 s9 s10 s11 s12.

(** Fold s12..s17 into s0..s11. *)
Definition sc_fold_low (s0 s1 s2 s3 s4 s5 s6 s7 s8 s9 s10 s11 s12 s13 s14 s15 s16 s17 : Z) : list Z :=
  let s5 := (s5 + s17 * 666643)%i64 in
  let s6 := (s6 + s17 * 470296)%i64 in
  let s7 := (s7 + s17 * 654183)%i64 in
  let s8 := (s8 - s17 * 997805)%i64 in
  let s9 := (s9 + s17 * 136657)%i64 in
  let s10 := (s10 - s17 * 683901)%i64 in
  let s17 := 0 in
  let s4 := (s4 + s16 * 666643)%i64 in
  let s5 := (s5 + s16 * 470296)%i64 in
  let s6 := (s6 + s16 * 654183)%i64 in
  let s7 := (s7 - s16 * 997805)%i64 in
  let s8 := (s8 + s16 * 136657)%i64 in
  let s9 := (s9 - s16 * 683901)%i64 in
  let s16 := 0 in
  let s3 := (s3 + s15 * 666643)%i64 in
  let s4 := (s4 + s15 * 470296)%i64 in
  let s5 := (s5 + s15 * 654183)%i64 in
  let s6 := (s6 - s15 * 997805)%i64 in
  let s7 := (s7 + s15 * 136657)%i64 in
  let s8 := (s8 - s15 * 683901)%i64 in
  let s15 := 0 in
  let s2 := (s2 + s14 * 666643)%i64 in
  let s3 := (s3 + s14 * 470296)%i64 in
  let s4 := (s4 + s14 * 654183)%i64 in
  let s5 := (s5 - s14 * 997805)%i64 in
  let s6 := (s6 + s14 * 136657)%i64 in
  let s7 := (s7 - s14 * 683901)%i64 in
  let s14 := 0 in
  let s1 := (s1 + s13 * 666643)%i64 in
  let s2 := (s2 + s13 * 470296)%i64 in
  let s3 := (s3 + s13 * 654183)%i64 in
  let s4 := (s4 - s13 * 997805)%i64 in
  let s5 := (s5 + s13 * 136657)%i64 in
  let s6 := (s6 - s13 * 683901)%i64 in
  let s13 := 0 in
  let s0 := (s0 + s12 * 666643)%i64 in
  let s1 := (s1 + s12 * 470296)%i64 in
  let s2 := (s2 + s12 * 654183)%i64 in
  let s3 := (s3 - s12 * 997805)%i64 in
  let s4 := (s4 + s12 * 136657)%i64 in
  let s5 := (s5 - s12 * 683901)%i64 in
  let s12 := 0 in
  sc_carry_low s0 s1 s2 s3 s4 s5 s6 s7 s8 s9 s10 s11.

(** Rounded carries s6..s16. *)
Definition sc_carry_mid (s0 s1 s2 s3 s4 s5 s6 s7 s8 s9 s10 s11 s12 s13 s14 s15 s16 s17 : Z) : list Z :=
  let carry6 := ((s6 + (1 << 20)) >> 21)%i64 in
  let s7 := (s7 + carry6)%i64 in
  let s6 := (s6 - (carry6 << 21))%i64 in
  let carry8 := ((s8 + (1 << 20)) >> 21)%i64 in
  let s9 := (s9 + carry8)%i64 in
  let s8 := (s8 - (carry8 << 21))%i64 in
  let carry10 := ((s10 + (1 << 20)) >> 21)%i64 in
  let s11 := (s11 + carry10)%i64 in
  let s10 := (s10 - (carry10 << 21))%i64 in
  let carry12 := ((s12 + (1 << 20)) >> 21)%i64 in
  let s13 := (s13 + carry12)%i64 in
  let s12 := (s12 - (carry12 << 21))%i64 in
  let carry14 := ((s14 + (1 << 20)) >> 21)%i64 in
  let s15 := (s15 + carry14)%i64 in
  let s14 := (s14 - (carry14 << 21))%i64 in
  let carry16 := ((s16 + (1 << 20)) >> 21)%i64 in
  let s17 := (s17 + carry16)%i64 in
  let s16 := (s16 - (carry16 << 21))%i64 in
  let carry7 := ((s7 + (1 << 20)) >> 21)%i64 in
  let s8 := (s8 + carry7)%i64 in
  let s7 := (s7 - (carry7 << 21))%i64 in
  let carry9 := ((s9 + (1 << 20)) >> 21)%i64 in
  let s10 := (s10 + carry9)%i64 in
  let s9 := (s9 - (carry9 << 21))%i64 in
  let carry11 := ((s11 + (1 << 20)) >> 21)%i64 in
  let s12 := (s12 + carry11)%i64 in
  let s11 := (s11 - (carry11 << 21))%i64 in
  let carry13 := ((s13 + (1 << 20)) >> 21)%i64 in
  let s14 := (s14 + carry13)%i64 in
  let s13 := (s13 - (carry13 << 21))%i64 in
  let carry15 := ((s15 + (1 << 20)) >> 21)%i64 in
  let s16 := (s16 + carry15)%i64 in
  let s15 := (s15 - (carry15 << 21))%i64 in
  sc_fold_low s0 s1 s2 s3 s4 s5 s6 s7 s8 s9 s10 s11 s12 s13 s14 s15 s16 s17.

(** Fold s18..s23 into s6..s17. *)
Definition sc_fold_high (s0 s1 s2 s3 s4 s5 s6 s7 s8 s9 s10 s11 s12 s13 s14 s15 s16 s17 s18 s19 s20 s21 s22 s23 : Z) : list Z :=
  let s11 := (s11 + s23 * 666643)%i64 in
  let s12 := (s12 + s23 * 470296)%i64 in
  let s13 := (s13 + s23 * 654183)%i64 in
  let s14 := (s14 - s23 * 997805)%i64 in
  let s15 := (s15 + s23 * 136657)%i64 in
  let s16 := (s16 - s23 * 683901)%i64 in
  let s23 := 0 in
  let s10 := (s10 + s22 * 666643)%i64 in
  let s11 := (s11 + s22 * 470296)%i64 in
  let s12 := (s12 + s22 * 654183)%i64 in
  let s13 := (s13 - s22 * 997805)%i64 in
  let s14 := (s14 + s22 * 136657)%i64 in
  let s15 := (s15 - s22 * 683901)%i64 in
  let s22 := 0 in
  let s9 := (s9 + s21 * 666643)%i64 in
  let s10 := (s10 + s21 * 470296)%i64 in
  let s11 := (s11 + s21 * 654183)%i64 in
  let s12 := (s12 - s21 * 997805)%i64 in
  let s13 := (s13 + s21 * 136657)%i64 in
  let s14 := (s14 - s21 * 683901)%i64 in
  let s21 := 0 in
  let s8 := (s8 + s20 * 666643)%i64 in
  let s9 := (s9 + s20 * 470296)%i64 in
  let s10 := (s10 + s20 * 654183)%i64 in
  let s11 := (s11 - s20 * 997805)%i64 in
  let s12 := (s12 + s20 * 136657)%i64 in
  let s13 := (s13 - s20 * 683901)%i64 in
  let s20 := 0 in
  let s7 := (s7 + s19 * 666643)%i64 in
  let s8 := (s8 + s19 * 470296)%i64 in
  let s9 := (s9 + s19 * 654183)%i64 in
  let s10 := (s10 - s19 * 997805)%i64 in
  let s11 := (s11 + s19 * 136657)%i64 in
  let s12 := (s12 - s19 * 683901)%i64 in
  let s19 := 0 in
  let s6 := (s6 + s18 * 666643)%i64 in
  let s7 := (s7 + s18 * 470296)%i64 in
  let s8 := (s8 + s18 * 654183)%i64 in
  let s9 := (s9 - s18 * 997805)%i64 in
  let s10 := (s10 + s18 * 136657)%i64 in
  let s11 := (s11 - s18 * 683901)%i64 in
  let s18 := 0 in
  sc_carry_mid s0 s1 s2 s3 s4 s5 s6 s7 s8 s9 s10 s11 s12 s13 s14 s15 s16 s17.

(** Input: 64 bytes; output: the value modulo l. *)
Definition sc_reduce (s : list Z) : list Z :=
  let s0 := i64 (Z.land 2097151 (load_3 s)) in
  let s1 := i64 (Z.land 2097151 (Z.shiftr (load_4 (skipn 2 s)) 5)) in
  let s2 := i64 (Z.land 2097151 (Z.shiftr (load_3 (skipn 5 s)) 2)) in
  let s3 := i64 (Z.land 2097151 (Z.shiftr (load_4 (skipn 7 s)) 7)) in
  let s4 := i64 (Z.land 2097151 (Z.shiftr (load_4 (skipn 10 s)) 4)) in
  let s5 := i64 (Z.land 2097151 (Z.shiftr (load_3 (skipn 13 s)) 1)) in
  let s6 := i64 (Z.land 2097151 (Z.shiftr (load_4 (skipn 15 s)) 6)) in
  let s7 := i64 (Z.land 2097151 (Z.shiftr (load_3 (skipn 18 s)) 3)) in
  let s8 := i64 (Z.land 2097151 (load_3 (skipn 21 s))) in
  let s9 := i64 (Z.land 2097151 (Z.shiftr (load_4 (skipn 23 s)) 5)) in
  let s10 := i64 (Z.land 2097151 (Z.shiftr (load_3 (skipn 26 s)) 2)) in
  let s11 := i64 (Z.land 2097151 (Z.shiftr (load_4 (skipn 28 s)) 7)) in
  let s12 := i64 (Z.land 2097151 (Z.shiftr (load_4 (skipn 31 s)) 4)) in
  let s13 := i64 (Z.land 2097151 (Z.shiftr (load_3 (skipn 34 s)) 1)) in
  let s14 := i64 (Z.land 2097151 (Z.shiftr (load_4 (skipn 36 s)) 6)) in
  let s15 := i64 (Z.land 2097151 (Z.shiftr (load_3 (skipn 39 s)) 3)) in
  let s16 := i64 (Z.land 2097151 (load_3 (skipn 42 s))) in
  let s17 := i64 (Z.land 2097151 (Z.shiftr (load_4 (skipn 44 s)) 5)) in
  let s18 := i64 (Z.land 2097151 (Z.shiftr (load_3 (skipn 47 s)) 2)) in
  let s19 := i64 (Z.land 2097151 (Z.shiftr (load_4 (skipn 49 s)) 7)) in
  let s20 := i64 (Z.land 2097151 (Z.shiftr (load_4 (skipn 52 s)) 4)) in
  let s21 := i64 (Z.land 2097151 (Z.shiftr (load_3 (skipn 55 s)) 1)) in
  let s22 := i64 (Z.land 2097151 (Z.shiftr (load_4 (skipn 57 s)) 6)) in
  let s23 := i64 (Z.shiftr (load_4 (skipn 60 s)) 3) in
  sc_fold_high s0 s1 s2 s3 s4 s5 s6 s7 s8 s9 s10 s11 s12 s13 s14 s15 s16 s17 s18 s19 s20 s21 s22
      s23.

(** The rounded carries of sc_muladd. *)
Definition sc_carry_all (s0 s1 s2 s3 s4 s5 s6 s7 s8 s9 s10 s11 s12 s13 s14 s15 s16 s17 s18 s19 s20 s21 s22 s23 : Z) : list Z :=
  let carry0 := ((s0 + (1 << 20)) >> 21)%i64 in
  let s1 := (s1 + carry0)%i64 in
  let s0 := (s0 - (carry0 << 21))%i64 in
  let carry2 := ((s2 + (1 << 20)) >> 21)%i64 in
  let s3 := (s3 + carry2)%i64 in
  let s2 := (s2 - (carry2 << 21))%i64 in
  let carry4 := ((s4 + (1 << 20)) >> 21)%i64 in
  let s5 := (s5 + carry4)%i64 in
  let s4 := (s4 - (carry4 << 21))%i64 in
  let carry6 := ((s6 + (1 << 20)) >> 21)%i64 in
  let s7 := (s7 + carry6)%i64 in
  let s6 := (s6 - (carry6 << 21))%i64 in
  let carry8 := ((s8 + (1 << 20)) >> 21)%i64 in
  let s9 := (s9 + carry8)%i64 in
  let s8 := (s8 - (carry8 << 21))%i64 in
  let carry10 := ((s10 + (1 << 20)) >> 21)%i64 in
  let s11 := (s11 + carry10)%i64 in
  let s10 := (s10 - (carry10 << 21))%i64 in
  let carry12 := ((s12 + (1 << 20)) >> 21)%i64 in
  let s13 := (s13 + carry12)%i64 in
  let s12 := (s12 - (carry12 << 21))%i64 in
  let carry14 := ((s14 + (1 << 20)) >> 21)%i64 in
  let s15 := (s15 + carry14)%i64 in
  let s14 := (s14 - (carry14 << 21))%i64 in
  let carry16 := ((s16 + (1 << 20)) >> 21)%i64 in
  let s17 := (s17 + carry16)%i64 in
  let s16 := (s16 - (carry16 << 21))%i64 in
  let carry18 := ((s18 + (1 << 20)) >> 21)%i64 in
  let s19 := (s19 + carry18)%i64 in
  let s18 := (s18 - (carry18 << 21))%i64 in
  let carry20 := ((s20 + (1 << 20)) >> 21)%i64 in
  let s21 := (s21 + carry20)%i64 in
  let s20 := (s20 - (carry20 << 21))%i64 in
  let carry22 := ((s22 + (1 << 20)) >> 21)%i64 in
  let s23 := (s23 + carry22)%i64 in
  let s22 := (s22 - (carry22 << 21))%i64 in
  let carry1 := ((s1 + (1 << 20)) >> 21)%i64 in
  let s2 := (s2 + carry1)%i64 in
  let s1 := (s1 - (carry1 << 21))%i64 in
  let carry3 := ((s3 + (1 << 20)) >> 21)%i64 in
  let s4 := (s4 + carry3)%i64 in
  let s3 := (s3 - (carry3 << 21))%i64 in
  let carry5 := ((s5 + (1 << 20)) >> 21)%i64 in
  let s6 := (s6 + carry5)%i64 in
  let s5 := (s5 - (carry5 << 21))%i64 in
  let carry7 := ((s7 + (1 << 20)) >> 21)%i64 in
  let s8 := (s8 + carry7)%i64 in
  let s7 := (s7 - (carry7 << 21))%i64 in
  let carry9 := ((s9 + (1 << 20)) >> 21)%i64 in
  let s10 := (s10 + carry9)%i64 in
  let s9 := (s9 - (carry9 << 21))%i64 in
  let carry11 := ((s11 + (1 << 20)) >> 21)%i64 in
  let s12 := (s12 + carry11)%i64 in
  let s11 := (s11 - (carry11 << 21))%i64 in
  let carry13 := ((s13 + (1 << 20)) >> 21)%i64 in
  let s14 := (s14 + carry13)%i64 in
  let s13 := (s13 - (carry13 << 21))%i64 in
  let carry15 := ((s15 + (1 << 20)) >> 21)%i64 in
  let s16 := (s16 + carry15)%i64 in
  let s15 := (s15 - (carry15 << 21))%i64 in
  let carry17 := ((s17 + (1 << 20)) >> 21)%i64 in
  let s18 := (s18 + carry17)%i64 in
  let s17 := (s17 - (carry17 << 21))%i64 in
  let carry19 := ((s19 + (1 << 20)) >> 21)%i64 in
  let s20 := (s20 + carry19)%i64 in
  let s19 := (s19 - (carry19 << 21))%i64 in
  let carry21 := ((s21 + (1 << 20)) >> 21)%i64 in
  let s22 := (s22 + carry21)%i64 in
  let s21 := (s21 - (carry21 << 21))%i64 in
  sc_fold_high s0 s1 s2 s3 s4 s5 s6 s7 s8 s9 s10 s11 s12 s13 s14 s15 s16 s17 s18 s19 s20 s21 s22
      s23.

(** Output: (a * b + c) modulo l. *)
Definition sc_muladd (a b c : list Z) : list Z :=
  let a0 := i64 (Z.land 2097151 (load_3 a)) in
  let a1 := i64 (Z.land 2097151 (Z.shiftr (load_4 (skipn 2 a)) 5)) in
  let a2 := i64 (Z.land 2097151 (Z.shiftr (load_3 (skipn 5 a)) 2)) in
  let a3 := i64 (Z.land 2097151 (Z.shiftr (load_4 (skipn 7 a)) 7)) in
  let a4 := i64 (Z.land 2097151 (Z.shiftr (load_4 (skipn 10 a)) 4)) in
  let a5 := i64 (Z.land 2097151 (Z.shiftr (load_3 (skipn 13 a)) 1)) in
  let a6 := i64 (Z.land 2097151 (Z.shiftr (load_4 (skipn 15 a)) 6)) in
  let a7 := i64 (Z.land 2097151 (Z.shiftr (load_3 (skipn 18 a)) 3)) in
  let a8 := i64 (Z.land 2097151 (load_3 (skipn 21 a))) in
  let a9 := i64 (Z.land 2097151 (Z.shiftr (load_4 (skipn 23 a)) 5)) in
  let a10 := i64 (Z.land 2097151 (Z.shiftr (load_3 (skipn 26 a)) 2)) in
  let a11 := i64 (Z.shiftr (load_4 (skipn 28 a)) 7) in
  let b0 := i64 (Z.land 2097151 (load_3 b)) in
  let b1 := i64 (Z.land 2097151 (Z.shiftr (load_4 (skipn 2 b)) 5)) in
  let b2 := i64 (Z.land 2097151 (Z.shiftr (load_3 (skipn 5 b)) 2)) in
  let b3 := i64 (Z.land 2097151 (Z.shiftr (load_4 (skipn 7 b)) 7)) in
  let b4 := i64 (Z.land 2097151 (Z.shiftr (load_4 (skipn 10 b)) 4)) in
  let b5 := i64 (Z.land 2097151 (Z.shiftr (load_3 (skipn 13 b)) 1)) in
  let b6 := i64 (Z.land 2097151 (Z.shiftr (load_4 (skipn 15 b)) 6)) in
  let b7 := i64 (Z.land 2097151 (Z.shiftr (load_3 (skipn 18 b)) 3)) in
  let b8 := i64 (Z.land 2097151 (load_3 (skipn 21 b))) in
  let b9 := i64 (Z.land 2097151 (Z.shiftr (load_4 (skipn 23 b)) 5)) in
  let b10 := i64 (Z.land 2097151 (Z.shiftr (load_3 (skipn 26 b)) 2)) in
  let b11 := i64 (Z.shiftr (load_4 (skipn 28 b)) 7) in
  let c0 := i64 (Z.land 2097151 (load_3 c)) in
  let c1 := i64 (Z.land 2097151 (Z.shiftr (load_4 (skipn 2 c)) 5)) in
  let c2 := i64 (Z.land 2097151 (Z.shiftr (load_3 (skipn 5 c)) 2)) in
  let c3 := i64 (Z.land 2097151 (Z.shiftr (load_4 (skipn 7 c)) 7)) in
  let c4 := i64 (Z.land 2097151 (Z.shiftr (load_4 (skipn 10 c)) 4)) in
  let c5 := i64 (Z.land 2097151 (Z.shiftr (load_3 (skipn 13 c)) 1)) in
  let c6 := i64 (Z.land 2097151 (Z.shiftr (load_4 (skipn 15 c)) 6)) in
  let c7 := i64 (Z.land 2097151 (Z.shiftr (load_3 (skipn 18 c)) 3)) in
  let c8 := i64 (Z.land 2097151 (load_3 (skipn 21 c))) in
  let c9 := i64 (Z.land 2097151 (Z.shiftr (load_4 (skipn 23 c)) 5)) in
  let c10 := i64 (Z.land 2097151 (Z.shiftr (load_3 (skipn 26 c)) 2)) in
  let c11 := i64 (Z.shiftr (load_4 (skipn 28 c)) 7) in
  let s0 := (c0 + a0 * b0)%i64 in
  let s1 := (c1 + a0 * b1 + a1 * b0)%i64 in
  let s2 := (c2 + a0 * b2 + a1 * b1 + a2 * b0)%i64 in
  let s3 := (c3 + a0 * b3 + a1 * b2 + a2 * b1 + a3 * b0)%i64 in
  let s4 := (c4 + a0 * b4 + a1 * b3 + a2 * b2 + a3 * b1 + a4 * b0)%i64 in
  let s5 := (c5 + a0 * b5 + a1 * b4 + a2 * b3 + a3 * b2 + a4 * b1 + a5 * b0)%i64 in
  let s6 := (c6 + a0 * b6 + a1 * b5 + a2 * b4 + a3 * b3 + a4 * b2 + a5 * b1 + a6 * b0)%i64 in
  let s7 := (c7 + a0 * b7 + a1 * b6 + a2 * b5 + a3 * b4 + a4 * b3 + a5 * b2 + a6 * b1 + a7 *
      b0)%i64 in
  let s8 := (c8 + a0 * b8 + a1 * b7 + a2 * b6 + a3 * b5 + a4 * b4 + a5 * b3 + a6 * b2 + a7 * b1 +
      a8 * b0)%i64 in
  let s9 := (c9 + a0 * b9 + a1 * b8 + a2 * b7 + a3 * b6 + a4 * b5 + a5 * b4 + a6 * b3 + a7 * b2 +
      a8 * b1 + a9 * b0)%i64 in
  let s10 := (c10 + a0 * b10 + a1 * b9 + a2 * b8 + a3 * b7 + a4 * b6 + a5 * b5 + a6 * b4 + a7 * b3
      + a8 * b2 + a9 * b1 + a10 * b0)%i64 in
  let s11 := (c11 + a0 * b11 + a1 * b10 + a2 * b9 + a3 * b8 + a4 * b7 + a5 * b6 + a6 * b5 + a7 *
      b4 + a8 * b3 + a9 * b2 + a10 * b1 + a11 * b0)%i64 in
  let s12 := (a1 * b11 + a2 * b10 + a3 * b9 + a4 * b8 + a5 * b7 + a6 * b6 + a7 * b5 + a8 * b4 + a9
      * b3 + a10 * b2 + a11 * b1)%i64 in
  let s13 := (a2 * b11 + a3 * b10 + a4 * b9 + a5 * b8 + a6 * b7 + a7 * b6 + a8 * b5 + a9 * b4 +
      a10 * b3 + a11 * b2)%i64 in
  let s14 := (a3 * b11 + a4 * b10 + a5 * b9 + a6 * b8 + a7 * b7 + a8 * b6 + a9 * b5 + a10 * b4 +
      a11 * b3)%i64 in
  let s15 := (a4 * b11 + a5 * b10 + a6 * b9 + a7 * b8 + a8 * b7 + a9 * b6 + a10 * b5 + a11 *
      b4)%i64 in
  let s16 := (a5 * b11 + a6 * b10 + a7 * b9 + a8 * b8 + a9 * b7 + a10 * b6 + a11 * b5)%i64 in
  let s17 := (a6 * b11 + a7 * b10 + a8 * b9 + a9 * b8 + a10 * b7 + a11 * b6)%i64 in
  let s18 := (a7 * b11 + a8 * b10 + a9 * b9 + a10 * b8 + a11 * b7)%i64 in
  let s19 := (a8 * b11 + a9 * b10 + a10 * b9 + a11 * b8)%i64 in
  let s20 := (a9 * b11 + a10 * b10 + a11 * b9)%i64 in
  let s21 := (a10 * b11 + a11 * b10)%i64 in
  let s22 := (a11 * b11)%i64 in
  let s23 := 0 in
  sc_carry_all s0 s1 s2 s3 s4 s5 s6 s7 s8 s9 s10 s11 s12 s13 s14 s15 s16 s17 s18 s19 s20 s21 s22
      s23.
