(* ===== verification/ScArith.v ===== *)
(** * Scalar arithmetic is arithmetic modulo the group order

    One lemma per stage of Sc: no 64-bit operation wraps, and the bytes that are finally written
    are the canonical encoding of the value of the limbs modulo [ell]. *)

From Stdlib Require Import ZArith Lia List Setoid Bool.
From S2P Require Import Prelude Machine Bytes Sc.
Import ListNotations.

(** The order of the base point (comment of sc_reduce). *)
Definition ell : Z := 2 ^ 252 + 27742317777372353535851937790883648493.

(** The value of limbs in radix 2^21. *)
Fixpoint val21 (l : list Z) : Z :=
  match l with
  | [] => 0
  | x :: l' => x + 2 ^ 21 * val21 l'
  end.

(** The result of a reduction: the 32 bytes of [v mod ell]. *)
Definition reduced (v : Z) (out : list Z) : Prop := out = le_bytes 32 (v mod ell).

Lemma reduced_eqm (v w : Z) (out : list Z) : reduced v out -> v =[ell]= w -> reduced w out.
Proof. unfold reduced; intros -> E; f_equal; apply eqm_iff_mod; [reflexivity | exact E]. Qed.

Lemma mod_ell_range (v : Z) : 0 <= v mod ell < ell.
Proof. apply Z.mod_pos_bound; reflexivity. Qed.

(** ** Packing *)

Lemma sc_pack_bytes (s0 s1 s2 s3 s4 s5 s6 s7 s8 s9 s10 s11 : Z) :
  bytes (sc_pack s0 s1 s2 s3 s4 s5 s6 s7 s8 s9 s10 s11).
Proof. unfold sc_pack; repeat (constructor; [apply u8_is_byte|]); constructor. Qed.

Lemma sc_pack_val (s0 s1 s2 s3 s4 s5 s6 s7 s8 s9 s10 s11 : Z) :
  0 <= s0 < 2 ^ 21 -> 0 <= s1 < 2 ^ 21 -> 0 <= s2 < 2 ^ 21 -> 0 <= s3 < 2 ^ 21 ->
  0 <= s4 < 2 ^ 21 -> 0 <= s5 < 2 ^ 21 -> 0 <= s6 < 2 ^ 21 -> 0 <= s7 < 2 ^ 21 ->
  0 <= s8 < 2 ^ 21 -> 0 <= s9 < 2 ^ 21 -> 0 <= s10 < 2 ^ 21 -> 0 <= s11 < 2 ^ 22 ->
  le_val (sc_pack s0 s1 s2 s3 s4 s5 s6 s7 s8 s9 s10 s11) = val21 [s0; s1; s2; s3; s4; s5; s6; s7; s8; s9; s10; s11].
Proof.
  intros; unfold sc_pack.
  rewrite !shared_byte64 by
    (try lia; unfold shr64; rewrite shiftr_div by lia; Z.to_euclidean_division_equations; lia).
  change shr64 with shr32; rewrite !u8_shr by lia; unfold shr32; rewrite !shiftr_div by lia.
  assert (T7 : s7 / 2 ^ 13 mod 256 = s7 / 2 ^ 13) by
    (apply Z.mod_small; Z.to_euclidean_division_equations; lia).
  assert (T11 : s11 / 2 ^ 17 mod 256 = s11 / 2 ^ 17) by
    (apply Z.mod_small; Z.to_euclidean_division_equations; lia).
  change (2 ^ 0) with 1; rewrite !Z.div_1_r, T7, T11.
  pose proof (split_limb1 8 s0 ltac:(lia)); pose proof (split_limb 3 s1 ltac:(lia)).
  pose proof (split_limb1 6 s2 ltac:(lia)); pose proof (split_limb 1 s3 ltac:(lia)).
  pose proof (split_limb 4 s4 ltac:(lia)); pose proof (split_limb1 7 s5 ltac:(lia)).
  pose proof (split_limb 2 s6 ltac:(lia)); pose proof (split_limb1 5 s7 ltac:(lia)).
  pose proof (split_limb1 8 s8 ltac:(lia)); pose proof (split_limb 3 s9 ltac:(lia)).
  pose proof (split_limb1 6 s10 ltac:(lia)); pose proof (split_limb 1 s11 ltac:(lia)).
  norm_pow; change (2 ^ 8) with 256 in *; cbn [val21 le_val]; lia.
Qed.

(** ** The stages, last to first *)

(** Runs one stage: the bounds and exact values of its limbs enter the context. *)
Ltac run_stage f :=
  intros; lazymatch goal with |- reduced ?v ?t => change (holds (reduced v) t) end;
  enter f; steps; unfold holds.

(** The next stage receives limbs in range, whose value changed by [k] times the order. *)
Ltac next_stage spec k :=
  eapply reduced_eqm;
  [ apply spec; weaken_tac
  | apply (eqm_intro _ k); forget_carries; subst; cbn [val21]; unfold ell; ring ].

Lemma last_fold (low q : Z) : 0 <= low < 2 ^ 252 -> -1 <= q <= 0 ->
  0 <= low + 2 ^ 252 * q - q * ell < ell.
Proof. unfold ell; lia. Qed.

Lemma sc_last_spec (s0 s1 s2 s3 s4 s5 s6 s7 s8 s9 s10 s11 s12 : Z) :
  bnd 0 s0 2097151 -> bnd 0 s1 2097151 -> bnd 0 s2 2097151 -> bnd 0 s3 2097151 ->
  bnd 0 s4 2097151 -> bnd 0 s5 2097151 -> bnd 0 s6 2097151 -> bnd 0 s7 2097151 ->
  bnd 0 s8 2097151 -> bnd 0 s9 2097151 -> bnd 0 s10 2097151 -> bnd 0 s11 2097151 -> bnd (-1) s12 0 ->
  reduced (val21 [s0; s1; s2; s3; s4; s5; s6; s7; s8; s9; s10; s11; s12]) (sc_last s0 s1 s2 s3 s4 s5 s6 s7 s8 s9 s10 s11 s12).
Proof.
  intros; assert (R : 0 <= val21 [s0; s1; s2; s3; s4; s5; s6; s7; s8; s9; s10; s11; s12] - s12 * ell < ell).
  { replace (val21 [s0; s1; s2; s3; s4; s5; s6; s7; s8; s9; s10; s11; s12])
      with (val21 [s0; s1; s2; s3; s4; s5; s6; s7; s8; s9; s10; s11] + 2 ^ 252 * s12) by (cbn [val21]; ring).
    apply last_fold; [cbn [val21]|]; unfold bnd in *; lia. }
  run_stage sc_last.
  lazymatch goal with
  | |- reduced (val21 ?l) (sc_pack ?a0 ?a1 ?a2 ?a3 ?a4 ?a5 ?a6 ?a7 ?a8 ?a9 ?a10 ?a11) =>
      assert (E : val21 [a0; a1; a2; a3; a4; a5; a6; a7; a8; a9; a10; a11] = val21 l - s12 * ell)
        by (forget_carries; clear R; subst; cbn [val21]; unfold ell; ring);
      rewrite <- E in R
  end.
  apply le_bytes_unique; [apply sc_pack_bytes | reflexivity |].
  rewrite sc_pack_val; [rewrite E; apply eqm_is_mod; [|now rewrite <- E] | ..].
  - apply (eqm_intro _ (- s12)); ring.
  - unfold bnd in *; lia.
  - unfold bnd in *; lia.
  - unfold bnd in *; lia.
  - unfold bnd in *; lia.
  - unfold bnd in *; lia.
  - unfold bnd in *; lia.
  - unfold bnd in *; lia.
  - unfold bnd in *; lia.
  - unfold bnd in *; lia.
  - unfold bnd in *; lia.
  - unfold bnd in *; lia.
  - cbn [val21] in R; unfold ell, bnd in *; lia.
Qed.

Lemma sc_finish_spec (s0 s1 s2 s3 s4 s5 s6 s7 s8 s9 s10 s11 s12 : Z) :
  bnd (- 2 ^ 39) s0 (2 ^ 39) -> bnd (- 2 ^ 39) s1 (2 ^ 39) -> bnd (- 2 ^ 39) s2 (2 ^ 39) -> bnd (- 2 ^ 39) s3 (2 ^ 39) ->
  bnd (- 2 ^ 39) s4 (2 ^ 39) -> bnd (- 2 ^ 39) s5 (2 ^ 39) -> bnd (- 2 ^ 39) s6 (2 ^ 39) -> bnd (- 2 ^ 39) s7 (2 ^ 39) ->
  bnd (- 2 ^ 39) s8 (2 ^ 39) -> bnd (- 2 ^ 39) s9 (2 ^ 39) -> bnd (- 2 ^ 39) s10 (2 ^ 39) -> bnd (- 2 ^ 20) s11 (2 ^ 20) ->
  bnd (- 2 ^ 39) s12 (2 ^ 39) ->
  reduced (val21 [s0; s1; s2; s3; s4; s5; s6; s7; s8; s9; s10; s11; s12]) (sc_finish s0 s1 s2 s3 s4 s5 s6 s7 s8 s9 s10 s11 s12).
Proof. run_stage sc_finish; next_stage sc_last_spec (- s12). Qed.

Lemma sc_carry_low_spec (s0 s1 s2 s3 s4 s5 s6 s7 s8 s9 s10 s11 : Z) :
  bnd (- 2 ^ 59) s0 (2 ^ 59) -> bnd (- 2 ^ 59) s1 (2 ^ 59) -> bnd (- 2 ^ 59) s2 (2 ^ 59) -> bnd (- 2 ^ 59) s3 (2 ^ 59) ->
  bnd (- 2 ^ 59) s4 (2 ^ 59) -> bnd (- 2 ^ 59) s5 (2 ^ 59) -> bnd (- 2 ^ 59) s6 (2 ^ 59) -> bnd (- 2 ^ 59) s7 (2 ^ 59) ->
  bnd (- 2 ^ 59) s8 (2 ^ 59) -> bnd (- 2 ^ 59) s9 (2 ^ 59) -> bnd (- 2 ^ 59) s10 (2 ^ 59) -> bnd (- 2 ^ 59) s11 (2 ^ 59) ->
  reduced (val21 [s0; s1; s2; s3; s4; s5; s6; s7; s8; s9; s10; s11]) (sc_carry_low s0 s1 s2 s3 s4 s5 s6 s7 s8 s9 s10 s11).
Proof. run_stage sc_carry_low; next_stage sc_finish_spec 0. Qed.

Lemma sc_fold_low_spec (s0 s1 s2 s3 s4 s5 s6 s7 s8 s9 s10 s11 s12 s13 s14 s15 s16 s17 : Z) :
  bnd (- 2 ^ 55) s0 (2 ^ 55) -> bnd (- 2 ^ 55) s1 (2 ^ 55) -> bnd (- 2 ^ 55) s2 (2 ^ 55) -> bnd (- 2 ^ 55) s3 (2 ^ 55) ->
  bnd (- 2 ^ 55) s4 (2 ^ 55) -> bnd (- 2 ^ 55) s5 (2 ^ 55) -> bnd (- 2 ^ 36) s6 (2 ^ 36) -> bnd (- 2 ^ 36) s7 (2 ^ 36) ->
  bnd (- 2 ^ 36) s8 (2 ^ 36) -> bnd (- 2 ^ 36) s9 (2 ^ 36) -> bnd (- 2 ^ 36) s10 (2 ^ 36) -> bnd (- 2 ^ 36) s11 (2 ^ 36) ->
  bnd (- 2 ^ 36) s12 (2 ^ 36) -> bnd (- 2 ^ 36) s13 (2 ^ 36) -> bnd (- 2 ^ 36) s14 (2 ^ 36) -> bnd (- 2 ^ 36) s15 (2 ^ 36) ->
  bnd (- 2 ^ 36) s16 (2 ^ 36) -> bnd (- 2 ^ 36) s17 (2 ^ 36) ->
  reduced (val21 [s0; s1; s2; s3; s4; s5; s6; s7; s8; s9; s10; s11; s12; s13; s14; s15; s16; s17])
    (sc_fold_low s0 s1 s2 s3 s4 s5 s6 s7 s8 s9 s10 s11 s12 s13 s14 s15 s16 s17).
Proof.
  run_stage sc_fold_low.
  next_stage sc_carry_low_spec (- (2 ^ 0 * s12 + 2 ^ 21 * s13 + 2 ^ 42 * s14 + 2 ^ 63 * s15 + 2 ^ 84 * s16 + 2 ^ 105 * s17)).
Qed.

Lemma sc_carry_mid_spec (s0 s1 s2 s3 s4 s5 s6 s7 s8 s9 s10 s11 s12 s13 s14 s15 s16 s17 : Z) :
  bnd (- 2 ^ 55) s0 (2 ^ 55) -> bnd (- 2 ^ 55) s1 (2 ^ 55) -> bnd (- 2 ^ 55) s2 (2 ^ 55) -> bnd (- 2 ^ 55) s3 (2 ^ 55) ->
  bnd (- 2 ^ 55) s4 (2 ^ 55) -> bnd (- 2 ^ 55) s5 (2 ^ 55) -> bnd (- 2 ^ 55) s6 (2 ^ 55) -> bnd (- 2 ^ 55) s7 (2 ^ 55) ->
  bnd (- 2 ^ 55) s8 (2 ^ 55) -> bnd (- 2 ^ 55) s9 (2 ^ 55) -> bnd (- 2 ^ 55) s10 (2 ^ 55) -> bnd (- 2 ^ 55) s11 (2 ^ 55) ->
  bnd (- 2 ^ 55) s12 (2 ^ 55) -> bnd (- 2 ^ 55) s13 (2 ^ 55) -> bnd (- 2 ^ 55) s14 (2 ^ 55) -> bnd (- 2 ^ 55) s15 (2 ^ 55) ->
  bnd (- 2 ^ 55) s16 (2 ^ 55) -> bnd (- 2 ^ 32) s17 (2 ^ 32) ->
  reduced (val21 [s0; s1; s2; s3; s4; s5; s6; s7; s8; s9; s10; s11; s12; s13; s14; s15; s16; s17])
    (sc_carry_mid s0 s1 s2 s3 s4 s5 s6 s7 s8 s9 s10 s11 s12 s13 s14 s15 s16 s17).
Proof. run_stage sc_carry_mid; next_stage sc_fold_low_spec 0. Qed.

Lemma sc_fold_high_spec (s0 s1 s2 s3 s4 s5 s6 s7 s8 s9 s10 s11 s12 s13 s14 s15 s16 s17 s18 s19 s20 s21 s22 s23 : Z) :
  bnd (- 2 ^ 32) s0 (2 ^ 32) -> bnd (- 2 ^ 32) s1 (2 ^ 32) -> bnd (- 2 ^ 32) s2 (2 ^ 32) -> bnd (- 2 ^ 32) s3 (2 ^ 32) ->
  bnd (- 2 ^ 32) s4 (2 ^ 32) -> bnd (- 2 ^ 32) s5 (2 ^ 32) -> bnd (- 2 ^ 32) s6 (2 ^ 32) -> bnd (- 2 ^ 32) s7 (2 ^ 32) ->
  bnd (- 2 ^ 32) s8 (2 ^ 32) -> bnd (- 2 ^ 32) s9 (2 ^ 32) -> bnd (- 2 ^ 32) s10 (2 ^ 32) -> bnd (- 2 ^ 32) s11 (2 ^ 32) ->
  bnd (- 2 ^ 32) s12 (2 ^ 32) -> bnd (- 2 ^ 32) s13 (2 ^ 32) -> bnd (- 2 ^ 32) s14 (2 ^ 32) -> bnd (- 2 ^ 32) s15 (2 ^ 32) ->
  bnd (- 2 ^ 32) s16 (2 ^ 32) -> bnd (- 2 ^ 32) s17 (2 ^ 32) -> bnd (- 2 ^ 32) s18 (2 ^ 32) -> bnd (- 2 ^ 32) s19 (2 ^ 32) ->
  bnd (- 2 ^ 32) s20 (2 ^ 32) -> bnd (- 2 ^ 32) s21 (2 ^ 32) -> bnd (- 2 ^ 32) s22 (2 ^ 32) -> bnd (- 2 ^ 32) s23 (2 ^ 32) ->
  reduced (val21 [s0; s1; s2; s3; s4; s5; s6; s7; s8; s9; s10; s11; s12; s13; s14; s15; s16; s17; s18; s19; s20; s21; s22; s23])
    (sc_fold_high s0 s1 s2 s3 s4 s5 s6 s7 s8 s9 s10 s11 s12 s13 s14 s15 s16 s17 s18 s19 s20 s21 s22 s23).
Proof.
  run_stage sc_fold_high.
  next_stage sc_carry_mid_spec (- (2 ^ 126 * s18 + 2 ^ 147 * s19 + 2 ^ 168 * s20 + 2 ^ 189 * s21 + 2 ^ 210 * s22 + 2 ^ 231 * s23)).
Qed.

Lemma sc_carry_all_spec (s0 s1 s2 s3 s4 s5 s6 s7 s8 s9 s10 s11 s12 s13 s14 s15 s16 s17 s18 s19 s20 s21 s22 s23 : Z) :
  bnd (- 2 ^ 52) s0 (2 ^ 52) -> bnd (- 2 ^ 52) s1 (2 ^ 52) -> bnd (- 2 ^ 52) s2 (2 ^ 52) -> bnd (- 2 ^ 52) s3 (2 ^ 52) ->
  bnd (- 2 ^ 52) s4 (2 ^ 52) -> bnd (- 2 ^ 52) s5 (2 ^ 52) -> bnd (- 2 ^ 52) s6 (2 ^ 52) -> bnd (- 2 ^ 52) s7 (2 ^ 52) ->
  bnd (- 2 ^ 52) s8 (2 ^ 52) -> bnd (- 2 ^ 52) s9 (2 ^ 52) -> bnd (- 2 ^ 52) s10 (2 ^ 52) -> bnd (- 2 ^ 52) s11 (2 ^ 52) ->
  bnd (- 2 ^ 52) s12 (2 ^ 52) -> bnd (- 2 ^ 52) s13 (2 ^ 52) -> bnd (- 2 ^ 52) s14 (2 ^ 52) -> bnd (- 2 ^ 52) s15 (2 ^ 52) ->
  bnd (- 2 ^ 52) s16 (2 ^ 52) -> bnd (- 2 ^ 52) s17 (2 ^ 52) -> bnd (- 2 ^ 52) s18 (2 ^ 52) -> bnd (- 2 ^ 52) s19 (2 ^ 52) ->
  bnd (- 2 ^ 52) s20 (2 ^ 52) -> bnd (- 2 ^ 52) s21 (2 ^ 52) -> bnd (- 2 ^ 52) s22 (2 ^ 52) -> bnd (- 2 ^ 0) s23 (2 ^ 0) ->
  reduced (val21 [s0; s1; s2; s3; s4; s5; s6; s7; s8; s9; s10; s11; s12; s13; s14; s15; s16; s17; s18; s19; s20; s21; s22; s23])
    (sc_carry_all s0 s1 s2 s3 s4 s5 s6 s7 s8 s9 s10 s11 s12 s13 s14 s15 s16 s17 s18 s19 s20 s21 s22 s23).
Proof. run_stage sc_carry_all; next_stage sc_fold_high_spec 0. Qed.

(** ** Loading limbs *)

(** The [i]-th digit of [v] in radix 2^21. *)
Definition digit (v i : Z) : Z := v / 2 ^ (21 * i) mod 2 ^ 21.

Lemma digit_range (v i : Z) : bnd 0 (digit v i) 2097151.
Proof. pose proof (Z.mod_pos_bound (v / 2 ^ (21 * i)) (2 ^ 21)); unfold bnd, digit; lia. Qed.

Lemma digits (n : nat) (v : Z) :
  v = val21 (map (fun i => digit v (Z.of_nat i)) (seq 0 n) ++ [v / 2 ^ (21 * Z.of_nat n)]).
Proof.
  assert (G : forall k w, w = val21 (map (fun i => w / 2 ^ (21 * Z.of_nat i) mod 2 ^ 21) (seq 0 k)
    ++ [w / 2 ^ (21 * Z.of_nat k)])).
  { induction k as [|k IH]; intros w; [cbn; rewrite Z.div_1_r; ring|].
    cbn [seq map app val21]; rewrite <- seq_shift, map_map.
    change (2 ^ (21 * Z.of_nat 0)) with 1; rewrite Z.div_1_r.
    rewrite (Z.div_mod w (2 ^ 21) ltac:(lia)) at 1; rewrite (IH (w / 2 ^ 21)) at 1.
    assert (E : forall j, w / 2 ^ 21 / 2 ^ (21 * Z.of_nat j) = w / 2 ^ (21 * Z.of_nat (S j))).
    { intros j; rewrite Z.div_div, <- Z.pow_add_r by (try apply Z.pow_pos_nonneg; lia).
      do 2 f_equal; lia. }
    rewrite E, (map_ext _ _ (fun j => f_equal (fun x => x mod 2 ^ 21) (E j))); ring. }
  exact (G n v).
Qed.

Definition load_ok (k a i m : Z) : bool :=
  (8 * k + a =? 21 * i) && (0 <=? a) && (a + 21 <=? m).

(** A masked and shifted load of [n] bytes at offset [k] is a digit of the whole string. *)
Lemma digit_load (s : list Z) (k : nat) (a i m e : Z) (r : list Z) :
  bytes s -> (k <= length s)%nat -> le_val (skipn k s) = e + 2 ^ m * le_val r ->
  load_ok (Z.of_nat k) a i m = true -> Z.land 2097151 (Z.shiftr e a) = digit (le_val s) i.
Proof.
  intros Hs Hk E L; unfold load_ok in L; rewrite !andb_true_iff, Z.eqb_eq, !Z.leb_le in L.
  rewrite Z.land_comm; change 2097151 with (Z.ones 21); rewrite Z.land_ones, shiftr_div by lia.
  rewrite (low_bits e (le_val r) a 21 m), <- E by lia.
  unfold digit; rewrite <- (le_val_div s k Hs Hk), Z.div_div, <- Z.pow_add_r by
    (try apply Z.pow_nonzero; try apply Z.pow_pos_nonneg; lia).
  do 3 f_equal; lia.
Qed.

Lemma rep_digit (x v i : Z) : x = digit v i -> rep x (digit v i) 0 2097151.
Proof. intros ->; split; [reflexivity | apply digit_range]. Qed.

Section Loads.
Context (s : list Z) (Hs : bytes s).

Lemma rep_load4_shift (k : nat) (a i : Z) :
  (Nat.leb (k + 4) (length s) && load_ok (Z.of_nat k) a i 32) = true ->
  rep (Z.land 2097151 (Z.shiftr (load_4 (skipn k s)) a)) (digit (le_val s) i) 0 2097151.
Proof.
  rewrite andb_true_iff, Nat.leb_le; intros [Hk L].
  destruct (rep_load_4 (skipn k s) (bytes_skipn k s Hs)) as [-> _]; apply rep_digit.
  apply (digit_load s k a i 32 _ (skipn 4 (skipn k s))); auto; [lia|].
  apply le4_val; rewrite length_skipn; lia.
Qed.

Lemma rep_load3_shift (k : nat) (a i : Z) :
  (Nat.leb (k + 3) (length s) && load_ok (Z.of_nat k) a i 24) = true ->
  rep (Z.land 2097151 (Z.shiftr (load_3 (skipn k s)) a)) (digit (le_val s) i) 0 2097151.
Proof.
  rewrite andb_true_iff, Nat.leb_le; intros [Hk L].
  destruct (rep_load_3 (skipn k s) (bytes_skipn k s Hs)) as [-> _]; apply rep_digit.
  apply (digit_load s k a i 24 _ (skipn 3 (skipn k s))); auto; [lia|].
  apply le3_val; rewrite length_skipn; lia.
Qed.

Lemma rep_load3_plain (k : nat) (i : Z) :
  (Nat.leb (k + 3) (length s) && load_ok (Z.of_nat k) 0 i 24) = true ->
  rep (Z.land 2097151 (load_3 (skipn k s))) (digit (le_val s) i) 0 2097151.
Proof. exact (rep_load3_shift k 0 i). Qed.

(** The last limb keeps all the bits that are left. *)
Lemma rep_load4_top (k : nat) (a i hi : Z) :
  (Nat.eqb (k + 4) (length s) && load_ok (Z.of_nat k) a i 32 && (Z.shiftr (2 ^ 32 - 1) a =? hi))
    = true ->
  rep (Z.shiftr (load_4 (skipn k s)) a) (le_val s / 2 ^ (21 * i)) 0 hi.
Proof.
  unfold load_ok; rewrite !andb_true_iff, Nat.eqb_eq, !Z.eqb_eq, !Z.leb_le.
  intros [[Hk [[L1 L2] L3]] <-].
  destruct (rep_load_4 (skipn k s) (bytes_skipn k s Hs)) as [-> B].
  assert (E : le_val s / 2 ^ (21 * i) = Z.shiftr (le4 (skipn k s)) a).
  { rewrite shiftr_div, <- L1, Z.pow_add_r, <- Z.div_div, le_val_div, le4_val by
      (auto; try apply Z.pow_nonzero; try apply Z.pow_pos_nonneg; rewrite ?length_skipn; lia).
    rewrite (skipn_all2 (n := 4)) by (rewrite length_skipn; lia); cbn [le_val]; f_equal; lia. }
  rewrite E; split; [reflexivity|].
  unfold bnd in *; rewrite !shiftr_div by assumption.
  split; [apply Z.div_pos; [lia | apply Z.pow_pos_nonneg; lia]
         | apply Z.div_le_mono; [apply Z.pow_pos_nonneg; lia | lia]].
Qed.
End Loads.

Ltac load_ok_tac L := rewrite L; reflexivity.

Ltac limb_index k a := eval vm_compute in ((8 * Z.of_nat k + a) / 21).

Ltac rep_leaf ::=
  lazymatch goal with
  | H : bytes ?s, L : length ?s = _ |- rep (Z.land 2097151 (Z.shiftr (load_4 (skipn ?k ?s)) ?a)) _ _ _ =>
      let i := limb_index k a in eapply (rep_load4_shift s H k a i); load_ok_tac L
  | H : bytes ?s, L : length ?s = _ |- rep (Z.land 2097151 (Z.shiftr (load_3 (skipn ?k ?s)) ?a)) _ _ _ =>
      let i := limb_index k a in eapply (rep_load3_shift s H k a i); load_ok_tac L
  | H : bytes ?s, L : length ?s = _ |- rep (Z.land 2097151 (load_3 (skipn ?k ?s))) _ _ _ =>
      let i := limb_index k 0 in eapply (rep_load3_plain s H k i); load_ok_tac L
  | H : bytes ?s, L : length ?s = _ |- rep (Z.land 2097151 (load_3 ?s)) _ _ _ =>
      eapply (rep_load3_plain s H 0 0); load_ok_tac L
  | H : bytes ?s, L : length ?s = _ |- rep (Z.shiftr (load_4 (skipn ?k ?s)) ?a) _ _ _ =>
      let i := limb_index k a in let hi := eval vm_compute in (Z.shiftr (2 ^ 32 - 1) a) in
      eapply (rep_load4_top s H k a i hi); load_ok_tac L
  end.

(** Forgets what the limbs are digits of. *)
Ltac forget_digits :=
  repeat lazymatch goal with
         | E : _ = digit _ _ |- _ => clear E
         | E : _ = _ / 2 ^ _ |- _ => clear E
         end.

Lemma sc_reduce_spec (s : list Z) :
  bytes s -> length s = 64%nat -> reduced (le_val s) (sc_reduce s).
Proof.
  intros Hs Ls; run_stage sc_reduce.
  eapply reduced_eqm; [apply sc_fold_high_spec; weaken_tac|].
  assert (A : le_val s = val21 [s0; s1; s2; s3; s4; s5; s6; s7; s8; s9; s10; s11; s12; s13; s14; s15; s16; s17; s18; s19; s20; s21; s22; s23])
    by (rewrite (digits 23 (le_val s)); now subst).
  rewrite A; reflexivity.
Qed.

Lemma sc_muladd_spec (a b c : list Z) :
  bytes a -> bytes b -> bytes c ->
  length a = 32%nat -> length b = 32%nat -> length c = 32%nat ->
  reduced (le_val a * le_val b + le_val c) (sc_muladd a b c).
Proof.
  intros Ha Hb Hc La Lb Lc; run_stage sc_muladd.
  eapply reduced_eqm; [apply sc_carry_all_spec; weaken_tac|].
  assert (A : le_val a = val21 [a0; a1; a2; a3; a4; a5; a6; a7; a8; a9; a10; a11])
    by (rewrite (digits 11 (le_val a)); now subst).
  assert (B : le_val b = val21 [b0; b1; b2; b3; b4; b5; b6; b7; b8; b9; b10; b11])
    by (rewrite (digits 11 (le_val b)); now subst).
  assert (C : le_val c = val21 [c0; c1; c2; c3; c4; c5; c6; c7; c8; c9; c10; c11])
    by (rewrite (digits 11 (le_val c)); now subst).
  apply (eqm_intro _ 0); rewrite A, B, C; clear A B C; forget_digits; subst; cbn [val21]; ring.
Qed.

(** ** What the scalar functions promise *)

Lemma reduced_val (v : Z) (out : list Z) : reduced v out ->
  bytes out /\ length out = 32%nat /\ le_val out = v mod ell.
Proof.
  unfold reduced; intros ->; pose proof (mod_ell_range v).
  splits; [apply le_bytes_bytes | apply le_bytes_length | rewrite le_val_bytes].
  apply Z.mod_small; change (256 ^ Z.of_nat 32) with (2 ^ 256); unfold ell in *; lia.
Qed.

(** sc_reduce turns any 64-byte string into the canonical 32-byte encoding of its value
    modulo the group order; no 64-bit operation overflows on the way. *)
Theorem sc_reduce_correct (s : list Z) :
  bytes s -> length s = 64%nat ->
  bytes (sc_reduce s) /\ length (sc_reduce s) = 32%nat /\ le_val (sc_reduce s) = le_val s mod ell.
Proof. intros Hs Ls; exact (reduced_val _ _ (sc_reduce_spec s Hs Ls)). Qed.

Lemma sc_reduce_correct_witness :
  le_val (sc_reduce (repeat 255 64)) = (2 ^ 512 - 1) mod ell.
Proof. apply (sc_reduce_correct (repeat 255 64)); [apply bytesb_spec|]; vm_compute; reflexivity. Defined.

(** sc_muladd computes (a * b + c) modulo the group order, in canonical form, for all
    32-byte strings a, b, c (they need not be reduced). *)
Theorem sc_muladd_correct (a b c : list Z) :
  bytes a -> bytes b -> bytes c ->
  length a = 32%nat -> length b = 32%nat -> length c = 32%nat ->
  bytes (sc_muladd a b c) /\ length (sc_muladd a b c) = 32%nat /\
  le_val (sc_muladd a b c) = (le_val a * le_val b + le_val c) mod ell.
Proof. intros; apply reduced_val; now apply sc_muladd_spec. Qed.

Lemma sc_muladd_correct_witness :
  let m := repeat 255 32 in
  le_val (sc_muladd m m m) = ((2 ^ 256 - 1) * (2 ^ 256 - 1) + (2 ^ 256 - 1)) mod ell.
Proof.
  intros m; apply (sc_muladd_correct m m m); try reflexivity; apply bytesb_spec; reflexivity.
Defined.
