(* ===== verification/Sha512.v ===== *)
(** * SHA-512: shared/ed25519/src/sha512.c

    The streaming hash: a context with the chaining state, a partial block and the bit count.
    Pointers are not NULL here; a function that returns an [int] status and changes the context
    returns both.  Proofs against FIPS 180-4 are in Sha512Correct. *)

From Stdlib Require Import ZArith List Bool.
From S2P Require Import Prelude Machine Bytes.
Import ListNotations.

(** [typedef struct sha512_context_] *)
Record sha512_context := Ctx { ctx_length : Z; state : list Z; curlen : Z; buf : list Z }.

(** ** Constants and logical functions *)

Definition K : list Z :=
  [ 0x428a2f98d728ae22; 0x7137449123ef65cd; 0xb5c0fbcfec4d3b2f; 0xe9b5dba58189dbbc;
    0x3956c25bf348b538; 0x59f111f1b605d019; 0x923f82a4af194f9b; 0xab1c5ed5da6d8118;
    0xd807aa98a3030242; 0x12835b0145706fbe; 0x243185be4ee4b28c; 0x550c7dc3d5ffb4e2;
    0x72be5d74f27b896f; 0x80deb1fe3b1696b1; 0x9bdc06a725c71235; 0xc19bf174cf692694;
    0xe49b69c19ef14ad2; 0xefbe4786384f25e3; 0xfc19dc68b8cd5b5; 0x240ca1cc77ac9c65;
    0x2de92c6f592b0275; 0x4a7484aa6ea6e483; 0x5cb0a9dcbd41fbd4; 0x76f988da831153b5;
    0x983e5152ee66dfab; 0xa831c66d2db43210; 0xb00327c898fb213f; 0xbf597fc7beef0ee4;
    0xc6e00bf33da88fc2; 0xd5a79147930aa725; 0x6ca6351e003826f; 0x142929670a0e6e70;
    0x27b70a8546d22ffc; 0x2e1b21385c26c926; 0x4d2c6dfc5ac42aed; 0x53380d139d95b3df;
    0x650a73548baf63de; 0x766a0abb3c77b2a8; 0x81c2c92e47edaee6; 0x92722c851482353b;
    0xa2bfe8a14cf10364; 0xa81a664bbc423001; 0xc24b8b70d0f89791; 0xc76c51a30654be30;
    0xd192e819d6ef5218; 0xd69906245565a910; 0xf40e35855771202a; 0x106aa07032bbd1b8;
    0x19a4c116b8d2d0c8; 0x1e376c085141ab53; 0x2748774cdf8eeb99; 0x34b0bcb5e19b48a8;
    0x391c0cb3c5c95a63; 0x4ed8aa4ae3418acb; 0x5b9cca4f7763e373; 0x682e6ff3d6b2b8a3;
    0x748f82ee5defb2fc; 0x78a5636f43172f60; 0x84c87814a1f0ab72; 0x8cc702081a6439ec;
    0x90befffa23631e28; 0xa4506cebde82bde9; 0xbef9a3f7b2c67915; 0xc67178f2e372532b;
    0xca273eceea26619c; 0xd186b8c721c0c207; 0xeada7dd6cde0eb1e; 0xf57d4f7fee6ed178;
    0x6f067aa72176fba; 0xa637dc5a2c898a6; 0x113f9804bef90dae; 0x1b710b35131c471b;
    0x28db77f523047d84; 0x32caab7b40c72493; 0x3c9ebe0a15c9bebc; 0x431d67c49c100d4c;
    0x4cc5d4becb3e42b6; 0x597f299cfc657e2a; 0x5fcb6fab3ad6faec; 0x6c44198c4a475817 ].

Definition mask64 : Z := 0xFFFFFFFFFFFFFFFF.

Definition ROR64c (x y : Z) : Z :=
  Z.land (Z.lor (Z.shiftr (Z.land x mask64) (Z.land y 63)) (shlu64 x (64 - Z.land y 63))) mask64.

Definition Ch (x y z : Z) : Z := Z.lxor z (Z.land x (Z.lxor y z)).
Definition Maj (x y z : Z) : Z := Z.lor (Z.land (Z.lor x y) z) (Z.land x y).
Definition R (x n : Z) : Z := Z.shiftr (Z.land x mask64) n.
Definition Sigma0 (x : Z) : Z := Z.lxor (Z.lxor (ROR64c x 28) (ROR64c x 34)) (ROR64c x 39).
Definition Sigma1 (x : Z) : Z := Z.lxor (Z.lxor (ROR64c x 14) (ROR64c x 18)) (ROR64c x 41).
Definition Gamma0 (x : Z) : Z := Z.lxor (Z.lxor (ROR64c x 1) (ROR64c x 8)) (R x 7).
Definition Gamma1 (x : Z) : Z := Z.lxor (Z.lxor (ROR64c x 19) (ROR64c x 61)) (R x 6).

(** Big-endian store and load of a 64-bit word. *)
Definition STORE64H (x : Z) : list Z :=
  map (fun n => u8 (Z.land (Z.shiftr x n) 255)) [56; 48; 40; 32; 24; 16; 8; 0].

Definition LOAD64H (y : list Z) : Z :=
  let byte i n := shlu64 (Z.land (nth i y 0) 255) n in
  Z.lor (Z.lor (Z.lor (Z.lor (Z.lor (Z.lor (Z.lor
    (byte 0%nat 56) (byte 1%nat 48)) (byte 2%nat 40)) (byte 3%nat 32)) (byte 4%nat 24))
    (byte 5%nat 16)) (byte 6%nat 8)) (Z.land (nth 7 y 0) 255).

(** ** Compression of one block *)

(** Addition of [uint64_t]. *)
Definition addu64 (a b : Z) : Z := u64 (a + b).

(** [W[0..15]] are loaded from the block; the loop fills [W[16..79]]. *)
Definition load_block (b : list Z) : list Z :=
  map (fun i => LOAD64H (skipn (8 * i) b)) (seq 0 16).

Definition schedule_step (W : list Z) (i : nat) : list Z :=
  update W i (addu64 (addu64 (addu64 (Gamma1 (nth (i - 2) W 0)) (nth (i - 7) W 0))
                     (Gamma0 (nth (i - 15) W 0))) (nth (i - 16) W 0)).

Definition message_schedule (b : list Z) : list Z :=
  fold_left schedule_step (seq 16 64) (load_block b ++ repeat 0 64).

(** The macro RND; the arguments [a] .. [h] are indices into [S]. *)
Definition RND (W S : list Z) (a b c d e f g h i : nat) : list Z :=
  let s j := nth j S 0 in
  let t0 := addu64 (addu64 (addu64 (addu64 (s h) (Sigma1 (s e))) (Ch (s e) (s f) (s g)))
                   (nth i K 0)) (nth i W 0) in
  let t1 := addu64 (Sigma0 (s a)) (Maj (s a) (s b) (s c)) in
  let S := update S d (addu64 (s d) t0) in
  let S := update S h (addu64 t0 t1) in
  S.

Definition eight_rounds (W S : list Z) (i : nat) : list Z :=
  let S := RND W S 0 1 2 3 4 5 6 7 (i + 0) in
  let S := RND W S 7 0 1 2 3 4 5 6 (i + 1) in
  let S := RND W S 6 7 0 1 2 3 4 5 (i + 2) in
  let S := RND W S 5 6 7 0 1 2 3 4 (i + 3) in
  let S := RND W S 4 5 6 7 0 1 2 3 (i + 4) in
  let S := RND W S 3 4 5 6 7 0 1 2 (i + 5) in
  let S := RND W S 2 3 4 5 6 7 0 1 (i + 6) in
  let S := RND W S 1 2 3 4 5 6 7 0 (i + 7) in
  S.

Definition sha512_compress (md : sha512_context) (b : list Z) : sha512_context :=
  let W := message_schedule b in
  let S := fold_left (eight_rounds W) (map (fun k => 8 * k)%nat (seq 0 10)) (state md) in
  Ctx (ctx_length md) (map (fun i => addu64 (nth i (state md) 0) (nth i S 0)) (seq 0 8))
      (curlen md) (buf md).

(** ** The streaming interface *)

(** The buffer is not initialised: it keeps whatever the memory held. *)
Definition sha512_init (md : sha512_context) : sha512_context :=
  Ctx 0
    [0x6a09e667f3bcc908; 0xbb67ae8584caa73b; 0x3c6ef372fe94f82b; 0xa54ff53a5f1d36f1;
     0x510e527fade682d1; 0x9b05688c2b3e6c1f; 0x1f83d9abfb41bd6b; 0x5be0cd19137e2179]
    0 (buf md).

Definition set_length (n : Z) (md : sha512_context) : sha512_context :=
  Ctx n (state md) (curlen md) (buf md).
Definition set_curlen (n : Z) (md : sha512_context) : sha512_context :=
  Ctx (ctx_length md) (state md) n (buf md).

(** [for (i = 0; i < n; i++) md->buf[i + md->curlen] = in[i];] *)
Definition copy_in (md : sha512_context) (inp : list Z) (n : nat) : sha512_context :=
  Ctx (ctx_length md) (state md) (curlen md)
      (fold_left (fun b i => update b (i + Z.to_nat (curlen md)) (nth i inp 0)) (seq 0 n) (buf md)).

(** One iteration of the loop of sha512_update: the context and what is left of the input. *)
Definition update_step (md : sha512_context) (inp : list Z) : sha512_context * list Z :=
  if (curlen md =? 0) && (128 <=? Z.of_nat (length inp)) then
    let md := sha512_compress md inp in
    let md := set_length (u64 (ctx_length md + 128 * 8)) md in
    (md, skipn 128 inp)
  else
    let n := Z.to_nat (Z.min (Z.of_nat (length inp)) (128 - curlen md)) in
    let md := copy_in md inp n in
    let md := set_curlen (curlen md + Z.of_nat n) md in
    let inp := skipn n inp in
    if curlen md =? 128 then
      let md := sha512_compress md (buf md) in
      let md := set_length (u64 (ctx_length md + 8 * 128)) md in
      (set_curlen 0 md, inp)
    else (md, inp).

(** The loop [while (inlen > 0)]; [None] when the fuel runs out. *)
Fixpoint update_loop (fuel : nat) (md : sha512_context) (inp : list Z) : option sha512_context :=
  match inp, fuel with
  | [], _ => Some md
  | _, O => None
  | _, S fuel' => let '(md', inp') := update_step md inp in update_loop fuel' md' inp'
  end.

(** Status (1: the context is corrupt) and new context; each iteration consumes input, so the
    length of the input is enough fuel. *)
Definition sha512_update (md : sha512_context) (inp : list Z) : option (Z * sha512_context) :=
  if 128 <? curlen md then Some (1, md)
  else match update_loop (length inp) md inp with
       | Some md' => Some (0, md')
       | None => None
       end.

(** [while (md->curlen < n) md->buf[md->curlen++] = 0;] *)
Definition zero_fill (md : sha512_context) (n : Z) : sha512_context :=
  let k := Z.to_nat (n - curlen md) in
  Ctx (ctx_length md) (state md) (curlen md + Z.of_nat k)
      (fold_left (fun b i => update b (Z.to_nat (curlen md) + i) 0) (seq 0 k) (buf md)).

(** Copies a stored word into the buffer. *)
Definition store_at (b : list Z) (off : nat) (w : list Z) : list Z :=
  fold_left (fun b i => update b (off + i) (nth i w 0)) (seq 0 (length w)) b.

(** Status and digest. *)
Definition sha512_final (md : sha512_context) : Z * list Z :=
  if 128 <=? curlen md then (1, [])
  else
    let md := set_length (u64 (ctx_length md + u64 (curlen md * 8))) md in
    let md := Ctx (ctx_length md) (state md) (curlen md + 1)
                  (update (buf md) (Z.to_nat (curlen md)) 0x80) in
    let md :=
      if 112 <? curlen md then
        let md := zero_fill md 128 in
        let md := sha512_compress md (buf md) in
        set_curlen 0 md
      else md in
    let md := zero_fill md 120 in
    let md := Ctx (ctx_length md) (state md) (curlen md)
                  (store_at (buf md) 120 (STORE64H (ctx_length md))) in
    let md := sha512_compress md (buf md) in
    (0, flat_map (fun i => STORE64H (nth i (state md) 0)) (seq 0 8)).

(** The one-shot hash on a fresh context (status, digest); [None] if a loop did not end. *)
Definition sha512 (fresh : sha512_context) (message : list Z) : option (Z * list Z) :=
  let ctx := sha512_init fresh in
  match sha512_update ctx message with
  | None => None
  | Some (ret, ctx) => if ret =? 0 then Some (sha512_final ctx) else Some (ret, [])
  end.
