(* ===== verification/Sha512Correct.v ===== *)
(** * SHA-512 refines FIPS 180-4

    The specification follows the standard: logical functions, message schedule, rounds,
    padding.  The refinement goes bottom up: words, schedule, compression, and the streaming context
    as a representation of the message absorbed so far. *)

From Stdlib Require Import ZArith Lia List Bool.
From S2P Require Import Prelude Machine Bytes Sha512.
Import ListNotations.

(** ** FIPS 180-4 *)

Module Spec.

Definition add (a b : Z) : Z := (a + b) mod 2 ^ 64.
Definition rotr (n x : Z) : Z := let w := x mod 2 ^ 64 in (w / 2 ^ n + w * 2 ^ (64 - n)) mod 2 ^ 64.
Definition shr (n x : Z) : Z := x mod 2 ^ 64 / 2 ^ n.
Definition ch (x y z : Z) : Z := Z.lxor (Z.land x y) (Z.land (Z.lnot x) z).
Definition maj (x y z : Z) : Z := Z.lxor (Z.lxor (Z.land x y) (Z.land x z)) (Z.land y z).
Definition Sig0 (x : Z) : Z := Z.lxor (Z.lxor (rotr 28 x) (rotr 34 x)) (rotr 39 x).
Definition Sig1 (x : Z) : Z := Z.lxor (Z.lxor (rotr 14 x) (rotr 18 x)) (rotr 41 x).
Definition sig0 (x : Z) : Z := Z.lxor (Z.lxor (rotr 1 x) (rotr 8 x)) (shr 7 x).
Definition sig1 (x : Z) : Z := Z.lxor (Z.lxor (rotr 19 x) (rotr 61 x)) (shr 6 x).

(** Big-endian strings. *)
Definition be_val (l : list Z) : Z := le_val (rev l).
Definition be_bytes (n : nat) (z : Z) : list Z := rev (le_bytes n z).

(** The message schedule: the first [16 + n] words. *)
Definition words (b : list Z) : list Z :=
  map (fun i => be_val (firstn 8 (skipn (8 * i) b))) (seq 0 16).

Fixpoint schedule (b : list Z) (n : nat) : list Z :=
  match n with
  | O => words b
  | S n' =>
      let w := schedule b n' in
      let t := (16 + n')%nat in
      w ++ [add (add (add (sig1 (nth (t - 2) w 0)) (nth (t - 7) w 0)) (sig0 (nth (t - 15) w 0)))
                (nth (t - 16) w 0)]
  end.

(** One round on the working variables a .. h. *)
Definition round (W : list Z) (v : list Z) (t : nat) : list Z :=
  match v with
  | [a; b; c; d; e; f; g; h] =>
      let T1 := add (add (add (add h (Sig1 e)) (ch e f g)) (nth t K 0)) (nth t W 0) in
      let T2 := add (Sig0 a) (maj a b c) in
      [add T1 T2; a; b; c; add d T1; e; f; g]
  | _ => v
  end.

Definition block (H b : list Z) : list Z :=
  let v := fold_left (round (schedule b 64)) (seq 0 80) H in
  map (fun i => add (nth i H 0) (nth i v 0)) (seq 0 8).

Fixpoint hash_blocks (n : nat) (H l : list Z) : list Z :=
  match n with
  | O => H
  | S n' => hash_blocks n' (block H (firstn 128 l)) (skipn 128 l)
  end.

(** A one bit, zeros, and the bit length in 128 bits, up to a multiple of 1024 bits. *)
Definition pad (m : list Z) : list Z :=
  let n := Z.of_nat (length m) in
  m ++ [0x80] ++ repeat 0 (Z.to_nat ((111 - n) mod 128)) ++ be_bytes 16 (8 * n).

(** The initial value, as in sha512_init. *)
Definition H0 : list Z := state (sha512_init (Ctx 0 [] 0 [])).

Definition hash (m : list Z) : list Z :=
  let p := pad m in
  flat_map (be_bytes 8) (hash_blocks (length p / 128) H0 p).

End Spec.

(** ** Words *)

Lemma mask64_land (x : Z) : Z.land x mask64 = x mod 2 ^ 64.
Proof. change mask64 with (Z.ones 64); now apply Z.land_ones. Qed.

Lemma ROR64c_spec (x n : Z) : 0 < n < 64 -> ROR64c x n = Spec.rotr n x.
Proof.
  intros Hn; unfold ROR64c, Spec.rotr, shlu64, u64; cbv zeta.
  replace (Z.land n 63) with n
    by (change 63 with (Z.ones 6); rewrite Z.land_ones, Z.mod_small by lia; reflexivity).
  rewrite !mask64_land, shiftr_div, shiftl_mul by lia.
  set (w := x mod 2 ^ 64); pose proof (Z.mod_pos_bound x (2 ^ 64) eq_refl) as Hw; fold w in Hw.
  assert (E : (x * 2 ^ (64 - n)) mod 2 ^ 64 = (x mod 2 ^ n) * 2 ^ (64 - n)).
  { replace (2 ^ 64) with (2 ^ n * 2 ^ (64 - n)) by (rewrite <- Z.pow_add_r by lia; f_equal; lia).
    rewrite Z.mul_mod_distr_r by (apply Z.pow_nonzero; lia); reflexivity. }
  rewrite E, lor_add; [| lia |].
  - rewrite <- E, Z.add_mod_idemp_r, <- (Z.add_mod_idemp_r _ (w * _)) by easy.
    unfold w at 3; now rewrite Z.mul_mod_idemp_l, Z.add_mod_idemp_r by easy.
  - split; [apply Z.div_pos; [lia | apply Z.pow_pos_nonneg; lia]|].
    apply Z.div_lt_upper_bound; [apply Z.pow_pos_nonneg; lia|].
    rewrite <- Z.pow_add_r by lia; replace (n + (64 - n)) with 64 by ring; lia.
Qed.

Lemma Ch_spec (x y z : Z) : Ch x y z = Spec.ch x y z.
Proof.
  unfold Ch, Spec.ch; apply Z.bits_inj'; intros n Hn.
  rewrite !Z.lxor_spec, !Z.land_spec, Z.lxor_spec, Z.lnot_spec by assumption.
  destruct (Z.testbit x n), (Z.testbit y n), (Z.testbit z n); reflexivity.
Qed.

Lemma Maj_spec (x y z : Z) : Maj x y z = Spec.maj x y z.
Proof.
  unfold Maj, Spec.maj; apply Z.bits_inj'; intros n Hn.
  rewrite Z.lor_spec, !Z.lxor_spec, !Z.land_spec, Z.lor_spec.
  destruct (Z.testbit x n), (Z.testbit y n), (Z.testbit z n); reflexivity.
Qed.

Lemma R_spec (x n : Z) : 0 <= n -> R x n = Spec.shr n x.
Proof. intros; unfold R, Spec.shr; now rewrite mask64_land, shiftr_div. Qed.

Lemma addu64_spec (a b : Z) : addu64 a b = Spec.add a b.
Proof. reflexivity. Qed.

Lemma Sigma0_spec (x : Z) : Sigma0 x = Spec.Sig0 x.
Proof. unfold Sigma0, Spec.Sig0; now rewrite !ROR64c_spec by lia. Qed.

Lemma Sigma1_spec (x : Z) : Sigma1 x = Spec.Sig1 x.
Proof. unfold Sigma1, Spec.Sig1; now rewrite !ROR64c_spec by lia. Qed.

Lemma Gamma0_spec (x : Z) : Gamma0 x = Spec.sig0 x.
Proof. unfold Gamma0, Spec.sig0; now rewrite !ROR64c_spec, R_spec by lia. Qed.

Lemma Gamma1_spec (x : Z) : Gamma1 x = Spec.sig1 x.
Proof. unfold Gamma1, Spec.sig1; now rewrite !ROR64c_spec, R_spec by lia. Qed.

(** One more byte below the bits that are already in place. *)
Lemma lor_byte (h b n : Z) : 0 <= n -> 0 <= b < 256 ->
  Z.lor (h * 2 ^ (n + 8)) (b * 2 ^ n) = (256 * h + b) * 2 ^ n.
Proof.
  intros Hn Hb; rewrite Z.lor_comm, lor_add; [|lia|].
  - rewrite Z.pow_add_r by lia; change (2 ^ 8) with 256; ring.
  - rewrite Z.pow_add_r by lia; change (2 ^ 8) with 256.
    pose proof (Z.pow_pos_nonneg 2 n ltac:(lia) Hn); nia.
Qed.

Lemma shl_byte (b n : Z) : is_byte b -> 0 <= n <= 56 -> shlu64 (Z.land b 255) n = b * 2 ^ n.
Proof.
  unfold is_byte; intros Hb Hn; change 255 with (Z.ones 8).
  rewrite Z.land_ones, Z.mod_small by lia; unfold shlu64; rewrite shiftl_mul by lia.
  pose proof (Z.pow_le_mono_r 2 n 56); pose proof (Z.pow_pos_nonneg 2 n).
  apply u64_small; change (2 ^ 56) with 72057594037927936 in *; nia.
Qed.

Lemma LOAD64H_spec (y : list Z) : bytes y -> (8 <= length y)%nat ->
  LOAD64H y = Spec.be_val (firstn 8 y).
Proof.
  intros Hy Ly; do 8 (destruct y as [|? y]; [cbn in Ly; lia|]); clear Ly.
  unfold bytes in Hy; rewrite !Forall_cons_iff in Hy; decompose [and] Hy; clear Hy.
  unfold LOAD64H; cbv zeta; cbn [nth]; rewrite !shl_byte by (assumption || lia).
  unfold is_byte in *.
  replace (Z.land _ 255) with (z6 * 2 ^ 0)
    by (change 255 with (Z.ones 8); rewrite Z.land_ones, Z.mod_small by lia; lia).
  rewrite (lor_byte _ _ 48), (lor_byte _ _ 40), (lor_byte _ _ 32), (lor_byte _ _ 24),
    (lor_byte _ _ 16), (lor_byte _ _ 8), (lor_byte _ _ 0) by lia.
  unfold Spec.be_val; cbn [firstn rev app le_val]; lia.
Qed.

Lemma STORE64H_spec (x : Z) : STORE64H x = Spec.be_bytes 8 x.
Proof.
  unfold STORE64H, Spec.be_bytes; cbn [map le_bytes rev app].
  repeat f_equal; change 255 with (Z.ones 8); rewrite Z.land_ones, shiftr_div by lia;
    unfold u8; rewrite Z.mod_mod, ?Z.div_div, ?Z.div_1_r by lia; reflexivity.
Qed.

(** ** Schedule and compression *)

Lemma schedule_length (b : list Z) (n : nat) : length (Spec.schedule b n) = (16 + n)%nat.
Proof.
  induction n as [|n IH]; [reflexivity|].
  cbn [Spec.schedule]; cbv zeta; rewrite length_app, IH; cbn; lia.
Qed.

(** A block: at least 128 bytes, of which the first 128 count. *)
Lemma load_block_spec (b : list Z) : bytes b -> (128 <= length b)%nat -> load_block b = Spec.words b.
Proof.
  intros Hb Lb; unfold load_block, Spec.words; apply map_ext_in; intros i Hi.
  apply in_seq in Hi; apply LOAD64H_spec; [now apply bytes_skipn | rewrite length_skipn; lia].
Qed.

Lemma schedule_loop (b : list Z) (n k : nat) : load_block b = Spec.words b ->
  fold_left schedule_step (seq 16 n) (load_block b ++ repeat 0 (n + k))
  = Spec.schedule b n ++ repeat 0 k.
Proof.
  intros E; revert k; induction n as [|n IH]; intros k; [now rewrite E|].
  rewrite seq_S, fold_left_app; cbn [Spec.schedule fold_left]; cbv zeta.
  replace (S n + k)%nat with (n + S k)%nat by lia; rewrite IH; cbn [repeat].
  unfold schedule_step; rewrite <- (schedule_length b n) at 1.
  rewrite update_app, <- app_assoc; cbn [app]; do 2 f_equal.
  assert (N : forall j, (j < 16 + n)%nat ->
    nth j (Spec.schedule b n ++ 0 :: repeat 0 k) 0 = nth j (Spec.schedule b n) 0)
    by (intros j Hj; apply app_nth1; now rewrite schedule_length).
  rewrite !N by lia; rewrite Gamma0_spec, Gamma1_spec, !addu64_spec; reflexivity.
Qed.

Lemma message_schedule_spec (b : list Z) : bytes b -> (128 <= length b)%nat ->
  message_schedule b = Spec.schedule b 64.
Proof.
  intros Hb Lb; unfold message_schedule.
  pose proof (schedule_loop b 64 0 (load_block_spec b Hb Lb)) as E; rewrite app_nil_r in E; exact E.
Qed.

(** The working variables a .. h of the standard, seen in the array [S] after [j] rounds. *)
Definition view (j : nat) (S : list Z) : list Z :=
  map (fun k => nth ((k + 8 - j) mod 8) S 0) (seq 0 8).

Lemma RND_view (W S : list Z) (j t : nat) : length S = 8%nat -> (j < 8)%nat ->
  let ix k := ((k + 8 - j) mod 8)%nat in
  let S' := (RND W S (ix 0) (ix 1) (ix 2) (ix 3) (ix 4) (ix 5) (ix 6) (ix 7) t)%nat in
  length S' = 8%nat /\ view (Datatypes.S j) S' = Spec.round W (view j S) t.
Proof.
  intros L Hj; cbv zeta; split; [unfold RND; cbv zeta; now rewrite !update_length|].
  do 8 (destruct S as [|? S]; [discriminate L|]); destruct S; [|discriminate L].
  do 8 (destruct j as [|j];
    [unfold RND, view, Spec.round; cbn [Nat.modulo Nat.divmod Nat.sub Nat.add fst snd map seq
       nth update]; cbv zeta; rewrite Sigma0_spec, Sigma1_spec, Ch_spec, Maj_spec, !addu64_spec; reflexivity |]).
  lia.
Qed.

Lemma view_0 (S : list Z) : length S = 8%nat -> view 0 S = S.
Proof. intros L; do 8 (destruct S as [|? S]; [discriminate L|]); destruct S; [reflexivity | discriminate L]. Qed.

Lemma view_8 (S : list Z) : length S = 8%nat -> view 8 S = S.
Proof. intros L; do 8 (destruct S as [|? S]; [discriminate L|]); destruct S; [reflexivity | discriminate L]. Qed.

(** Eight calls of RND with rotated arguments are eight rounds of the standard. *)
Lemma eight_rounds_spec (W S : list Z) (i : nat) : length S = 8%nat ->
  length (eight_rounds W S i) = 8%nat /\
  eight_rounds W S i = fold_left (Spec.round W) (seq i 8) S.
Proof.
  intros L0; unfold eight_rounds.
  destruct (RND_view W S 0 (i + 0) L0 ltac:(lia)) as [L1 V1]; cbv zeta in L1, V1.
  set (S1 := RND W S _ _ _ _ _ _ _ _ _) in *; cbv zeta.
  destruct (RND_view W S1 1 (i + 1) L1 ltac:(lia)) as [L2 V2].
  destruct (RND_view W _ 2 (i + 2) L2 ltac:(lia)) as [L3 V3].
  destruct (RND_view W _ 3 (i + 3) L3 ltac:(lia)) as [L4 V4].
  destruct (RND_view W _ 4 (i + 4) L4 ltac:(lia)) as [L5 V5].
  destruct (RND_view W _ 5 (i + 5) L5 ltac:(lia)) as [L6 V6].
  destruct (RND_view W _ 6 (i + 6) L6 ltac:(lia)) as [L7 V7].
  destruct (RND_view W _ 7 (i + 7) L7 ltac:(lia)) as [L8 V8].
  rewrite V7, V6, V5, V4, V3, V2, V1, (view_0 S L0), (view_8 _ L8) in V8.
  split; [exact L8 | etransitivity; [exact V8|]].
  replace (seq i 8) with [i + 0; i + 1; i + 2; i + 3; i + 4; i + 5; i + 6; i + 7]%nat
    by (cbn [seq]; repeat f_equal; lia).
  cbn [fold_left]; reflexivity.
Qed.

Lemma fold_groups {A} (ok : A -> Prop) (step group : A -> nat -> A) :
  (forall x i, ok x -> ok (group x i) /\ group x i = fold_left step (seq i 8) x) ->
  forall l x, ok x ->
  fold_left group l x = fold_left step (flat_map (fun i => seq i 8) l) x.
Proof.
  intros G; induction l as [|i l IH]; intros x Hx; [reflexivity|]; cbn [flat_map fold_left].
  destruct (G x i Hx) as [O E]; rewrite fold_left_app, <- E; now apply IH.
Qed.

Lemma all_rounds_spec (W S : list Z) : length S = 8%nat ->
  fold_left (eight_rounds W) (map (fun k => 8 * k)%nat (seq 0 10)) S
  = fold_left (Spec.round W) (seq 0 80) S.
Proof.
  intros L; pose proof (fold_groups (fun S => length S = 8%nat) (Spec.round W) (eight_rounds W)
    (eight_rounds_spec W) (map (fun k => 8 * k)%nat (seq 0 10)) S L) as E.
  assert (F : flat_map (fun i => seq i 8) (map (fun k => 8 * k)%nat (seq 0 10)) = seq 0 80)
    by reflexivity.
  rewrite F in E; exact E.
Qed.

Lemma words_firstn (b : list Z) : Spec.words (firstn 128 b) = Spec.words b.
Proof.
  unfold Spec.words; apply map_ext_in; intros i Hi; apply in_seq in Hi.
  rewrite skipn_firstn_comm, firstn_firstn; do 2 f_equal; lia.
Qed.

Lemma schedule_firstn (b : list Z) (n : nat) :
  Spec.schedule (firstn 128 b) n = Spec.schedule b n.
Proof. induction n as [|n IH]; cbn [Spec.schedule]; [apply words_firstn | now rewrite IH]. Qed.

Lemma block_length (H b : list Z) : length (Spec.block H b) = 8%nat.
Proof. reflexivity. Qed.

(** sha512_compress is the block function of the standard; it changes nothing but the state. *)
Lemma compress_spec (md : sha512_context) (b : list Z) :
  bytes b -> (128 <= length b)%nat -> length (state md) = 8%nat ->
  sha512_compress md b
  = Ctx (ctx_length md) (Spec.block (state md) (firstn 128 b)) (curlen md) (buf md).
Proof.
  intros Hb Lb Ls; unfold sha512_compress; cbv zeta; f_equal.
  unfold Spec.block; cbv zeta; rewrite schedule_firstn, message_schedule_spec, all_rounds_spec by assumption.
  reflexivity.
Qed.

(** ** Blocks and padding *)

Lemma hash_blocks_snoc (n : nat) (H l b : list Z) :
  length l = (128 * n)%nat -> length b = 128%nat ->
  Spec.hash_blocks (S n) H (l ++ b) = Spec.block (Spec.hash_blocks n H l) b.
Proof.
  revert H l; induction n as [|n IH]; intros H l Ll Lb.
  - destruct l; [|discriminate Ll]; cbn [app Spec.hash_blocks].
    now rewrite firstn_all2 by lia.
  - change (Spec.hash_blocks (S (S n)) H (l ++ b))
      with (Spec.hash_blocks (S n) (Spec.block H (firstn 128 (l ++ b))) (skipn 128 (l ++ b))).
    rewrite firstn_app, skipn_app.
    replace (128 - length l)%nat with 0%nat by lia; cbn [firstn skipn]; rewrite app_nil_r.
    rewrite (IH _ (skipn 128 l)); [reflexivity | rewrite length_skipn; lia | exact Lb].
Qed.

(** ** The context represents the message absorbed so far *)

(** [md] has hashed the [n] blocks of [full] and holds [part] in its buffer. *)
Record holds_message (md : sha512_context) (n : nat) (full part : list Z) : Prop := {
  hm_full : length full = (128 * n)%nat;
  hm_part : (length part < 128)%nat;
  hm_state : state md = Spec.hash_blocks n Spec.H0 full;
  hm_curlen : curlen md = Z.of_nat (length part);
  hm_buf : firstn (length part) (buf md) = part;
  hm_buf_length : length (buf md) = 128%nat;
  hm_bytes : bytes (buf md);
  hm_length : ctx_length md = u64 (1024 * Z.of_nat n)
}.

Definition absorbed (md : sha512_context) (m : list Z) : Prop :=
  exists n full part, m = full ++ part /\ holds_message md n full part.

Lemma hash_blocks_length (n : nat) (H l : list Z) :
  length H = 8%nat -> length (Spec.hash_blocks n H l) = 8%nat.
Proof. revert H l; induction n as [|n IH]; intros H l L; [exact L | now apply IH]. Qed.

Lemma hm_state_length (md : sha512_context) (n : nat) (full part : list Z) :
  holds_message md n full part -> length (state md) = 8%nat.
Proof. intros H; rewrite (hm_state _ _ _ _ H); now apply hash_blocks_length. Qed.

Lemma absorbed_init (md : sha512_context) :
  length (buf md) = 128%nat -> bytes (buf md) -> absorbed (sha512_init md) [].
Proof. intros L B; exists 0%nat, [], []; split; [reflexivity | constructor; cbn; auto; lia]. Qed.

(** Completing a block. *)
Lemma absorb_block (md md2 : sha512_context) (n : nat) (full b : list Z) :
  length full = (128 * n)%nat -> state md = Spec.hash_blocks n Spec.H0 full ->
  ctx_length md = u64 (1024 * Z.of_nat n) -> length (buf md) = 128%nat -> bytes (buf md) ->
  bytes b -> (128 <= length b)%nat ->
  state md2 = state (sha512_compress md b) -> ctx_length md2 = u64 (ctx_length md + 1024) ->
  curlen md2 = 0 -> buf md2 = buf md ->
  holds_message md2 (S n) (full ++ firstn 128 b) [].
Proof.
  intros Lf Es El Lb Bb Hb L E1 E2 E3 E4.
  rewrite compress_spec in E1 by (auto; rewrite Es; now apply hash_blocks_length).
  constructor; rewrite ?E1, ?E2, ?E3, ?E4; auto.
  - rewrite length_app, firstn_length_le by exact L; lia.
  - cbn; lia.
  - cbn [state]; rewrite hash_blocks_snoc, Es; [reflexivity | exact Lf | now rewrite firstn_length_le].
  - rewrite El; unfold u64; rewrite Z.add_mod_idemp_l by easy; f_equal; lia.
Qed.

Lemma copy_in_buf (md : sha512_context) (inp : list Z) (n c : nat) :
  curlen md = Z.of_nat c -> (n <= length inp)%nat -> (c + n <= length (buf md))%nat ->
  buf (copy_in md inp n) = firstn c (buf md) ++ firstn n inp ++ skipn (c + n) (buf md).
Proof.
  intros Ec Hn Hc; unfold copy_in; cbn [buf]; rewrite Ec, Nat2Z.id, <- (map_nth_firstn inp 0 n Hn).
  rewrite <- fold_update by exact Hc; apply fold_left_ext; intros b i; now rewrite Nat.add_comm.
Qed.

(** What the copy loop leaves in the buffer: the partial block, extended. *)
Lemma copy_in_spec (md : sha512_context) (n k : nat) (full part inp : list Z) :
  holds_message md n full part -> bytes inp ->
  (k <= length inp)%nat -> (length part + k <= 128)%nat ->
  let b := buf (copy_in md inp k) in
  firstn (length part + k) b = part ++ firstn k inp /\ length b = 128%nat /\ bytes b.
Proof.
  intros H Hi Hk Hc; cbv zeta.
  rewrite (copy_in_buf md inp k (length part)) by
    (try apply H; rewrite ?(hm_buf_length _ _ _ _ H); assumption).
  rewrite (hm_buf _ _ _ _ H), app_assoc; pose proof (firstn_length_le inp Hk) as Lk.
  splits.
  - replace (length part + k)%nat with (length (part ++ firstn k inp)) by (rewrite length_app; lia).
    rewrite firstn_app, Nat.sub_diag, firstn_all, firstn_O; apply app_nil_r.
  - rewrite !length_app, length_skipn, Lk, (hm_buf_length _ _ _ _ H); lia.
  - pose proof (hm_bytes _ _ _ _ H) as Hb; rewrite <- (hm_buf _ _ _ _ H); auto with bytes.
Qed.

Lemma firstn_nonempty {A} (k : nat) (l : list A) : (0 < k <= length l)%nat -> firstn k l <> [].
Proof. intros H E; apply (f_equal (@length A)) in E; rewrite firstn_length_le in E by lia; cbn in E; lia. Qed.

(** The two branches of an iteration: a whole block from the input, or a copy into the buffer. *)
Lemma absorb_direct (md : sha512_context) (m inp : list Z) :
  absorbed md m -> bytes inp -> curlen md = 0 -> (128 <= length inp)%nat ->
  absorbed (set_length (u64 (ctx_length (sha512_compress md inp) + 128 * 8)) (sha512_compress md inp))
    (m ++ firstn 128 inp).
Proof.
  intros (n & full & part & -> & H) Hi C L.
  assert (P : part = []) by (rewrite (hm_curlen _ _ _ _ H) in C; destruct part; [reflexivity | cbn in C; lia]).
  subst part; rewrite app_nil_r; exists (S n), (full ++ firstn 128 inp), [].
  split; [now rewrite app_nil_r|].
  apply (absorb_block md _ n full inp); try apply H; auto.
Qed.

Lemma absorb_copy (md : sha512_context) (m inp : list Z) (k : nat) :
  absorbed md m -> bytes inp -> k = Z.to_nat (Z.min (Z.of_nat (length inp)) (128 - curlen md)) ->
  let md1 := set_curlen (curlen md + Z.of_nat k) (copy_in md inp k) in
  absorbed (if curlen md1 =? 128
            then set_curlen 0 (set_length (u64 (ctx_length (sha512_compress md1 (buf md1)) + 8 * 128))
                                          (sha512_compress md1 (buf md1)))
            else md1) (m ++ firstn k inp).
Proof.
  intros (n & full & part & -> & H) Hi Ek; cbv zeta; pose proof (hm_part _ _ _ _ H) as Hp.
  rewrite (hm_curlen _ _ _ _ H) in *; cbn [curlen set_curlen].
  assert (Hk : (k <= length inp)%nat /\ (length part + k <= 128)%nat) by lia; destruct Hk as [Hk Hc].
  destruct (copy_in_spec md n k full part inp H Hi Hk Hc) as (Eb & Lb & Bb).
  pose proof (firstn_length_le inp Hk) as Lk.
  rewrite <- app_assoc; destruct (Z.eqb_spec (Z.of_nat (length part) + Z.of_nat k) 128) as [E|E].
  - exists (S n), (full ++ part ++ firstn k inp), []; split; [now rewrite app_nil_r, app_assoc|].
    assert (F : part ++ firstn k inp = firstn 128 (buf (copy_in md inp k)))
      by (rewrite <- Eb; f_equal; lia).
    rewrite F; apply (absorb_block (copy_in md inp k)); try apply H; try reflexivity;
      cbn [buf set_curlen]; auto; lia.
  - exists n, full, (part ++ firstn k inp); split; [now rewrite app_assoc|].
    constructor; try apply H; cbn [buf set_curlen curlen]; rewrite ?length_app, ?Lk; auto; lia.
Qed.

Lemma absorbed_curlen (md : sha512_context) (m : list Z) : absorbed md m -> 0 <= curlen md < 128.
Proof.
  intros (n & full & part & _ & H); rewrite (hm_curlen _ _ _ _ H).
  pose proof (hm_part _ _ _ _ H); lia.
Qed.

(** One iteration of the loop absorbs a nonempty prefix of the input. *)
Lemma update_step_absorbs (md : sha512_context) (m inp : list Z) :
  absorbed md m -> bytes inp -> inp <> [] ->
  exists k, (0 < k <= length inp)%nat /\
    snd (update_step md inp) = skipn k inp /\ absorbed (fst (update_step md inp)) (m ++ firstn k inp).
Proof.
  intros H Hi Ni; assert (Li : (0 < length inp)%nat) by (destruct inp; [congruence | cbn; lia]).
  pose proof (absorbed_curlen md m H) as Hc.
  unfold update_step; destruct ((curlen md =? 0) && (128 <=? Z.of_nat (length inp))) eqn:B.
  - rewrite andb_true_iff, Z.eqb_eq, Z.leb_le in B; destruct B as [C L].
    exists 128%nat; split; [lia | split; [reflexivity | apply absorb_direct; (assumption || lia)]].
  - set (k := Z.to_nat (Z.min (Z.of_nat (length inp)) (128 - curlen md))).
    pose proof (absorb_copy md m inp k H Hi eq_refl) as A; cbv zeta in A |- *.
    exists k; split; [unfold k; lia|]; split; destruct (curlen (set_curlen _ _) =? 128);
      (reflexivity || exact A).
Qed.

Lemma update_loop_absorbs (fuel : nat) (md : sha512_context) (m inp : list Z) :
  absorbed md m -> bytes inp -> (length inp <= fuel)%nat ->
  exists md', update_loop fuel md inp = Some md' /\ absorbed md' (m ++ inp).
Proof.
  revert md m inp; induction fuel as [|fuel IH]; intros md m inp H Hi L;
    (destruct inp as [|x inp]; [exists md; rewrite app_nil_r; now split|]); [cbn in L; lia|].
  destruct (update_step_absorbs md m (x :: inp) H Hi ltac:(congruence)) as (k & Hk & E & A).
  cbn [update_loop]; destruct (update_step md (x :: inp)) as [md1 rest]; cbn [fst snd] in E, A.
  subst rest; destruct (IH md1 _ (skipn k (x :: inp)) A (bytes_skipn _ _ Hi)) as (md' & E' & A').
  - rewrite length_skipn; lia.
  - exists md'; split; [exact E'|]; now rewrite <- app_assoc, firstn_skipn in A'.
Qed.

(** sha512_update always returns, with status 0, and has absorbed its input. *)
Lemma sha512_update_absorbs (md : sha512_context) (m inp : list Z) :
  absorbed md m -> bytes inp ->
  exists md', sha512_update md inp = Some (0, md') /\ absorbed md' (m ++ inp).
Proof.
  intros H Hi; unfold sha512_update; pose proof (absorbed_curlen md m H).
  destruct (Z.ltb_spec 128 (curlen md)); [lia|].
  destruct (update_loop_absorbs (length inp) md m inp H Hi (le_n _)) as (md' & -> & A); eauto.
Qed.

(** ** Finishing *)

Lemma zero_fill_spec (md : sha512_context) (c n : nat) :
  curlen md = Z.of_nat c -> (c <= n)%nat -> (n <= length (buf md))%nat ->
  zero_fill md (Z.of_nat n)
  = Ctx (ctx_length md) (state md) (Z.of_nat n)
      (firstn c (buf md) ++ repeat 0 (n - c) ++ skipn n (buf md)).
Proof.
  intros Ec Hc Hn; unfold zero_fill; cbv zeta; rewrite Ec, Nat2Z.id.
  replace (Z.to_nat (Z.of_nat n - Z.of_nat c)) with (n - c)%nat by lia.
  f_equal; [lia|].
  rewrite (fold_update (fun _ => 0)) by lia; rewrite map_const_repeat, length_seq.
  do 3 f_equal; lia.
Qed.

Lemma store_at_spec (b w : list Z) : length b = 128%nat -> length w = 8%nat ->
  store_at b 120 w = firstn 120 b ++ w.
Proof.
  intros Lb Lw; unfold store_at; rewrite (fold_update (fun i => nth i w 0)) by lia.
  rewrite map_nth_seq, (skipn_all2 b) by lia; now rewrite app_nil_r.
Qed.

(** The block that ends the message: the rest [q], zeros, and the length. *)
Definition closing (q : list Z) (len : Z) : list Z :=
  q ++ repeat 0 (120 - length q) ++ Spec.be_bytes 8 len.

Lemma closing_length (q : list Z) (len : Z) : (length q <= 120)%nat -> length (closing q len) = 128%nat.
Proof.
  intros L; unfold closing, Spec.be_bytes.
  rewrite !length_app, repeat_length, length_rev, le_bytes_length; lia.
Qed.

Lemma bytes_rev (l : list Z) : bytes l -> bytes (rev l).
Proof. apply Forall_rev. Qed.

Lemma bytes_repeat (x : Z) (n : nat) : is_byte x -> bytes (repeat x n).
Proof. intros H; induction n; constructor; auto. Qed.

Lemma be_bytes_bytes (n : nat) (z : Z) : bytes (Spec.be_bytes n z).
Proof. apply bytes_rev, le_bytes_bytes. Qed.

Lemma closing_bytes (q : list Z) (len : Z) : bytes q -> bytes (closing q len).
Proof.
  intros H; apply bytes_app; [exact H|]; apply bytes_app; [|apply be_bytes_bytes].
  apply bytes_repeat; unfold is_byte; lia.
Qed.

(** Padding, by the length of the partial block. *)
Lemma be_bytes_16 (v : Z) : 0 <= v < 2 ^ 64 -> Spec.be_bytes 16 v = repeat 0 8 ++ Spec.be_bytes 8 v.
Proof.
  intros H; unfold Spec.be_bytes; rewrite (le_bytes_add 8 8), rev_app_distr.
  rewrite Z.div_small, le_bytes_0 by exact H; reflexivity.
Qed.

Lemma pad_short (n : nat) (full part : list Z) :
  length full = (128 * n)%nat -> (length part < 112)%nat ->
  8 * Z.of_nat (length (full ++ part)) < 2 ^ 64 ->
  Spec.pad (full ++ part)
  = full ++ closing (part ++ [0x80]) (8 * Z.of_nat (length (full ++ part))).
Proof.
  intros Lf Lp Hl; unfold Spec.pad, closing; cbv zeta; rewrite be_bytes_16 by lia.
  rewrite <- !app_assoc; do 2 f_equal; cbn [app]; f_equal; rewrite app_assoc, <- repeat_app.
  do 2 f_equal; rewrite !length_app, Lf; cbn [length].
  replace ((111 - Z.of_nat (128 * n + length part)) mod 128) with (111 - Z.of_nat (length part)); [lia|].
  apply (Z.mod_unique_pos _ _ (- Z.of_nat n)); lia.
Qed.

Lemma pad_long (n : nat) (full part : list Z) :
  length full = (128 * n)%nat -> (112 <= length part < 128)%nat ->
  8 * Z.of_nat (length (full ++ part)) < 2 ^ 64 ->
  Spec.pad (full ++ part)
  = (full ++ (part ++ [0x80] ++ repeat 0 (127 - length part)))
    ++ closing [] (8 * Z.of_nat (length (full ++ part))).
Proof.
  intros Lf Lp Hl; unfold Spec.pad, closing; cbv zeta; rewrite be_bytes_16 by lia.
  rewrite <- !app_assoc; do 2 f_equal; cbn [app length]; f_equal.
  rewrite !app_assoc, <- !repeat_app; do 2 f_equal; rewrite !length_app, Lf.
  replace ((111 - Z.of_nat (128 * n + length part)) mod 128) with (239 - Z.of_nat (length part)); [lia|].
  apply (Z.mod_unique_pos _ _ (- Z.of_nat n - 1)); lia.
Qed.

Lemma firstn_app_exact {A} (l m : list A) (n : nat) : length l = n -> firstn n (l ++ m) = l.
Proof. intros <-; rewrite firstn_app, Nat.sub_diag, firstn_all, firstn_O; apply app_nil_r. Qed.

(** The end of sha512_final, from the buffer [q] to the last state. *)
Lemma close_block (md : sha512_context) (q : list Z) :
  curlen md = Z.of_nat (length q) -> (length q <= 120)%nat -> firstn (length q) (buf md) = q ->
  length (buf md) = 128%nat -> bytes q -> length (state md) = 8%nat ->
  let md1 := zero_fill md 120 in
  let b := store_at (buf md1) 120 (STORE64H (ctx_length md1)) in
  let md2 := Ctx (ctx_length md1) (state md1) (curlen md1) b in
  state (sha512_compress md2 b) = Spec.block (state md) (closing q (ctx_length md)).
Proof.
  intros Ec Lq Eq Lb Hq Ls; cbv zeta; change 120 with (Z.of_nat 120).
  rewrite (zero_fill_spec md (length q) 120 Ec) by lia; cbn [ctx_length state curlen buf].
  rewrite Eq, app_assoc.
  assert (L : length (q ++ repeat 0 (120 - length q)) = 120%nat)
    by (rewrite length_app, repeat_length; lia).
  rewrite store_at_spec, (firstn_app_exact _ _ 120 L), STORE64H_spec by
    (try reflexivity; rewrite length_app, length_skipn, L; lia).
  rewrite <- app_assoc; fold (closing q (ctx_length md)).
  rewrite compress_spec; cbn [state]; [| now apply closing_bytes | rewrite closing_length; lia | exact Ls].
  now rewrite firstn_all2 by (rewrite closing_length; lia).
Qed.

(** The long case: the rest of the message and its end bit fill a block of their own. *)
Lemma fill_block (md : sha512_context) (q : list Z) :
  curlen md = Z.of_nat (length q) -> (length q <= 128)%nat -> firstn (length q) (buf md) = q ->
  length (buf md) = 128%nat -> bytes q -> length (state md) = 8%nat ->
  let md1 := zero_fill md 128 in
  let b := q ++ repeat 0 (128 - length q) in
  sha512_compress md1 (buf md1) = Ctx (ctx_length md) (Spec.block (state md) b) 128 b.
Proof.
  intros Ec Lq Eq Lb Hq Ls; cbv zeta; change 128 with (Z.of_nat 128).
  rewrite (zero_fill_spec md (length q) 128 Ec) by lia; cbn [ctx_length state curlen buf].
  rewrite Eq, (skipn_all2 (buf md)), app_nil_r by lia.
  assert (L : length (q ++ repeat 0 (128 - length q)) = 128%nat)
    by (rewrite length_app, repeat_length; lia).
  rewrite compress_spec; cbn [ctx_length state curlen buf];
    [ now rewrite firstn_all2 by lia | | lia | exact Ls].
  apply bytes_app; [exact Hq | apply bytes_repeat; unfold is_byte; lia].
Qed.

Lemma hash_of_pad (m full b : list Z) (n : nat) :
  Spec.pad m = full ++ b -> length full = (128 * n)%nat -> length b = 128%nat ->
  Spec.hash m = flat_map (Spec.be_bytes 8) (Spec.block (Spec.hash_blocks n Spec.H0 full) b).
Proof.
  intros E Lf Lb; unfold Spec.hash; cbv zeta; rewrite E, length_app, Lf, Lb.
  replace ((128 * n + 128) / 128)%nat with (S n).
  - now rewrite hash_blocks_snoc.
  - replace (128 * n + 128)%nat with ((S n) * 128)%nat by lia; symmetry; now apply Nat.div_mul.
Qed.

Lemma digest_out (H b : list Z) :
  flat_map (fun i => STORE64H (nth i (Spec.block H b) 0)) (seq 0 8)
  = flat_map (Spec.be_bytes 8) (Spec.block H b).
Proof.
  pose proof (block_length H b) as L; generalize dependent (Spec.block H b); intros l L.
  transitivity (flat_map (Spec.be_bytes 8) (map (fun i => nth i l 0) (seq 0 8))).
  - rewrite !flat_map_concat_map, map_map; f_equal; apply map_ext; intros i; apply STORE64H_spec.
  - rewrite <- L; now rewrite map_nth_seq.
Qed.

Lemma part_bytes (md : sha512_context) (n : nat) (full part : list Z) :
  holds_message md n full part -> bytes part.
Proof. intros H; rewrite <- (hm_buf _ _ _ _ H); apply bytes_firstn, (hm_bytes _ _ _ _ H). Qed.

(** The end bit after the partial block. *)
Lemma one_bit (md : sha512_context) (n : nat) (full part : list Z) :
  holds_message md n full part ->
  firstn (S (length part)) (update (buf md) (length part) 128) = part ++ [128] /\
  length (update (buf md) (length part) 128) = 128%nat.
Proof.
  intros H; pose proof (hm_part _ _ _ _ H) as Hp; pose proof (hm_buf_length _ _ _ _ H) as L.
  split; [|now rewrite update_length].
  destruct (skipn_cons (buf md) (length part)) as [y E]; [lia|].
  rewrite <- (firstn_skipn (length part) (buf md)), (hm_buf _ _ _ _ H), E, update_app.
  replace (part ++ 128 :: skipn (S (length part)) (buf md))
    with ((part ++ [128]) ++ skipn (S (length part)) (buf md)) by now rewrite <- app_assoc.
  apply firstn_app_exact; rewrite length_app; cbn; lia.
Qed.

Lemma sha512_final_spec (md : sha512_context) (m : list Z) :
  absorbed md m -> 8 * Z.of_nat (length m) < 2 ^ 64 -> sha512_final md = (0, Spec.hash m).
Proof.
  intros (n & full & part & -> & H) Hl; pose proof (hm_part _ _ _ _ H) as Hp.
  pose proof (part_bytes _ _ _ _ H) as Bp; pose proof (hm_full _ _ _ _ H) as Lf.
  assert (El : u64 (ctx_length md + u64 (curlen md * 8)) = 8 * Z.of_nat (length (full ++ part))).
  { rewrite (hm_length _ _ _ _ H), (hm_curlen _ _ _ _ H), length_app, Lf in *.
    unfold u64; rewrite Z.add_mod_idemp_l, Z.add_mod_idemp_r, Z.mod_small by lia; lia. }
  unfold sha512_final; cbv zeta; cbn [ctx_length state curlen buf set_length set_curlen].
  rewrite El, (hm_curlen _ _ _ _ H), Nat2Z.id.
  destruct (Z.leb_spec 128 (Z.of_nat (length part))); [lia|]; f_equal.
  set (len := 8 * Z.of_nat (length (full ++ part))) in *.
  set (md1 := Ctx len (state md) (Z.of_nat (length part) + 1) (update (buf md) (length part) 128)).
  destruct (one_bit md n full part H) as (Eb & Lb).
  assert (Lq : length (part ++ [128]) = S (length part)) by (rewrite length_app; cbn; lia).
  assert (Bq : bytes (part ++ [128])) by (apply bytes_app; [exact Bp | apply bytesb_spec; reflexivity]).
  assert (Ec : curlen md1 = Z.of_nat (length (part ++ [128]))) by (rewrite Lq; cbn [curlen md1]; lia).
  assert (Ls : length (state md1) = 8%nat) by exact (hm_state_length _ _ _ _ H).
  rewrite <- Lq in Eb; destruct (Z.ltb_spec 112 (Z.of_nat (length part) + 1)) as [C|C].
  - rewrite (fill_block md1 (part ++ [128]) Ec ltac:(lia) Eb Lb Bq Ls).
    rewrite (close_block _ []); cbn [state ctx_length curlen buf set_curlen length];
      try reflexivity; [ | lia | rewrite length_app, repeat_length; lia | constructor].
    rewrite digest_out; symmetry.
    erewrite hash_of_pad; [| apply (pad_long n); (assumption || lia) | | now apply closing_length; cbn [length]; lia].
    + do 3 f_equal; cbn [state md1]; rewrite (hm_state _ _ _ _ H), <- hash_blocks_snoc by
        (try assumption; rewrite !length_app, repeat_length; cbn [length]; lia).
      rewrite Lq, <- app_assoc; reflexivity.
    + rewrite !length_app, repeat_length; cbn [length]; lia.
  - rewrite (close_block md1 (part ++ [128]) Ec ltac:(lia) Eb Lb Bq Ls), digest_out; symmetry.
    erewrite hash_of_pad; [| apply (pad_short n); (assumption || lia) | exact Lf |
      apply closing_length; lia].
    cbn [state md1]; now rewrite (hm_state _ _ _ _ H).
Qed.

(** ** The hash functions *)

(** A sequence of calls of sha512_update; [None] when one does not return 0. *)
Fixpoint update_all (md : sha512_context) (chunks : list (list Z)) : option sha512_context :=
  match chunks with
  | [] => Some md
  | c :: chunks' =>
      match sha512_update md c with
      | Some (r, md') => if r =? 0 then update_all md' chunks' else None
      | None => None
      end
  end.

Lemma update_all_absorbs (chunks : list (list Z)) (md : sha512_context) (m : list Z) :
  absorbed md m -> Forall bytes chunks ->
  exists md', update_all md chunks = Some md' /\ absorbed md' (m ++ concat chunks).
Proof.
  revert md m; induction chunks as [|c chunks IH]; intros md m H Hc.
  - exists md; cbn; rewrite app_nil_r; now split.
  - apply Forall_cons_iff in Hc; destruct Hc as [Hc Hcs].
    destruct (sha512_update_absorbs md m c H Hc) as (md1 & E & A).
    destruct (IH md1 _ A Hcs) as (md' & E' & A'); exists md'; cbn [update_all concat].
    rewrite E; split; [exact E' | now rewrite app_assoc].
Qed.

(** A context in memory before initialisation: its buffer holds arbitrary bytes. *)
Definition uninitialised (md : sha512_context) : Prop := length (buf md) = 128%nat /\ bytes (buf md).

Lemma streaming_spec (fresh : sha512_context) (chunks : list (list Z)) :
  uninitialised fresh -> Forall bytes chunks ->
  8 * Z.of_nat (length (concat chunks)) < 2 ^ 64 ->
  exists md, update_all (sha512_init fresh) chunks = Some md /\
    sha512_final md = (0, Spec.hash (concat chunks)).
Proof.
  intros [L B] Hc Hl.
  destruct (update_all_absorbs chunks _ _ (absorbed_init fresh L B) Hc) as (md & E & A).
  exists md; split; [exact E | now apply sha512_final_spec].
Qed.

Lemma sha512_spec (fresh : sha512_context) (m : list Z) :
  uninitialised fresh -> bytes m -> 8 * Z.of_nat (length m) < 2 ^ 64 ->
  sha512 fresh m = Some (0, Spec.hash m).
Proof.
  intros [L B] Hm Hl; unfold sha512.
  destruct (sha512_update_absorbs _ _ m (absorbed_init fresh L B) Hm) as (md & -> & A).
  cbn [Z.eqb]; f_equal; now apply sha512_final_spec.
Qed.

(** The first primes, whose roots give the constants. *)
Definition primes : list Z :=
  filter (fun n => forallb (fun d => negb (n mod d =? 0)) (map Z.of_nat (seq 2 (Z.to_nat n - 2))))
    (map Z.of_nat (seq 2 408)).

(** [k] holds the first 64 fractional bits of the [e]-th root of [q], whose integer part is
    below 32. *)
Definition root_bits (e k q : Z) : bool :=
  existsb (fun i => (0 <=? k) && (k <? 2 ^ 64) && ((k + 2 ^ 64 * i) ^ e <=? q * 2 ^ (64 * e))
                    && (q * 2 ^ (64 * e) <? (k + 2 ^ 64 * i + 1) ^ e)) (map Z.of_nat (seq 0 32)).

Definition root_fraction (e k q : Z) : Prop :=
  exists i, 0 <= i /\ 0 <= k < 2 ^ 64 /\
    (k + 2 ^ 64 * i) ^ e <= q * 2 ^ (64 * e) < (k + 2 ^ 64 * i + 1) ^ e.

Lemma root_bits_spec (e k q : Z) : root_bits e k q = true -> root_fraction e k q.
Proof.
  unfold root_bits; rewrite existsb_exists; intros (i & Hi & H).
  rewrite !andb_true_iff, !Z.leb_le, !Z.ltb_lt in H.
  apply in_map_iff in Hi; destruct Hi as (j & <- & _); exists (Z.of_nat j); lia.
Qed.

Lemma forall2_check {A B} (P : A -> B -> Prop) (f : A -> B -> bool) (l : list A) (m : list B) :
  (forall a b, f a b = true -> P a b) -> length l = length m ->
  forallb (fun '(a, b) => f a b) (combine l m) = true -> Forall2 P l m.
Proof.
  intros H; revert m; induction l as [|a l IH]; intros [|b m] L C; try discriminate; constructor.
  - apply H; cbn in C; now apply andb_true_iff in C.
  - apply IH; [now injection L | cbn in C; now apply andb_true_iff in C].
Qed.

(** C32: the streaming hash refines FIPS 180-4: however the message is cut into calls of
    sha512_update, every call returns 0 and sha512_final writes the SHA-512 digest of the whole
    message (below 2^64 bits); the one-shot sha512 writes the same digest. *)
Theorem sha512_refines_fips (fresh : sha512_context) (chunks : list (list Z)) :
  uninitialised fresh -> Forall bytes chunks ->
  8 * Z.of_nat (length (concat chunks)) < 2 ^ 64 ->
  (exists md, update_all (sha512_init fresh) chunks = Some md /\
     sha512_final md = (0, Spec.hash (concat chunks))) /\
  sha512 fresh (concat chunks) = Some (0, Spec.hash (concat chunks)).
Proof.
  intros Hf Hc Hl; split; [now apply streaming_spec | apply sha512_spec; auto].
  clear Hl; induction Hc; cbn; auto with bytes; constructor.
Qed.

Definition stale : sha512_context := Ctx 5 [] 99 (repeat 7 128).

Lemma sha512_refines_fips_witness :
  let chunks := [[97]; repeat 98 130; []; [99; 100]] in
  sha512 stale (concat chunks) = Some (0, Spec.hash (concat chunks)).
Proof.
  cbv zeta; apply (sha512_refines_fips stale [[97]; repeat 98 130; []; [99; 100]]).
  - split; [reflexivity | apply bytesb_spec; reflexivity].
  - repeat constructor; discriminate.
  - vm_compute; reflexivity.
Defined.

(** the tables of sha512.c are the constants of the standard: K holds the first 64 bits of
    the fractional parts of the cube roots of the first 80 primes, and the initial state those of
    the square roots of the first 8. *)
Theorem sha512_constants (fresh : sha512_context) :
  length primes = 80%nat /\
  Forall2 (root_fraction 3) K primes /\
  Forall2 (root_fraction 2) (state (sha512_init fresh)) (firstn 8 primes).
Proof.
  splits; [vm_compute; reflexivity | |];
    apply (forall2_check _ _ _ _ (root_bits_spec _)); vm_compute; reflexivity.
Qed.
