(* ===== verification/Edwards.v ===== *)
(** * The twisted Edwards curve -x^2 + y^2 = 1 + d x^2 y^2 over Z/p

    The abstract specification of ge.c: affine points, the complete addition law, the proof that
    they form a commutative group, and scalar multiplication. *)

From Stdlib Require Import ZArith Lia List Bool Field Eqdep_dec Zmod.Zmod.
From S2P Require Import Prelude FeArith Prime.
Import ListNotations.

(** ** The field *)

Abbreviation F := (Zmod.Zmod p).

Declare Scope F_scope.
Delimit Scope F_scope with F.
Bind Scope F_scope with Zmod.Zmod.
Infix "+" := (@Zmod.add p) : F_scope.
Infix "-" := (@Zmod.sub p) : F_scope.
Infix "*" := (@Zmod.mul p) : F_scope.
Infix "/" := (@Zmod.mdiv p) : F_scope.
Notation "- x" := (@Zmod.opp p x) : F_scope.
Notation "0" := (@Zmod.zero p) : F_scope.
Notation "1" := (@Zmod.one p) : F_scope.

(** The element of the field with the residue [z]. *)
Definition toF (z : Z) : F := Zmod.of_Z p z.

Add Field F_field : (@Zmod.field_theory p prime_p).

Open Scope F_scope.

Definition d : F := - toF 121665 / toF 121666.

Lemma F_integral (x y : F) : x * y = 0 -> x = 0 \/ y = 0.
Proof.
  intros H; destruct (Zmod.eqb x 0) eqn:E; [left; now apply Zmod.eqb_eq|right].
  assert (N : x <> 0) by (intros ->; now rewrite Zmod.eqb_refl in E).
  transitivity (x * y / x); [field; exact N | rewrite H; field; exact N].
Qed.
(** ** Quadratic residues *)

Lemma toF_eq (a b : Z) : toF a = toF b <-> (a =[p]= b)%Z.
Proof. unfold toF; rewrite Zmod.of_Z_inj; symmetry; now apply eqm_iff_mod. Qed.

Lemma toF_add (a b : Z) : toF (a + b) = toF a + toF b.
Proof. apply Zmod.of_Z_add. Qed.

Lemma toF_sub (a b : Z) : toF (a - b) = toF a - toF b.
Proof. apply Zmod.of_Z_sub. Qed.

Lemma toF_mul (a b : Z) : toF (a * b) = toF a * toF b.
Proof. apply Zmod.of_Z_mul. Qed.

Lemma toF_opp (a : Z) : toF (- a) = - toF a.
Proof. apply Zmod.of_Z_opp. Qed.

Lemma F_neq (x y : F) : Zmod.eqb x y = false -> x <> y.
Proof. intros E ->; now rewrite Zmod.eqb_refl in E. Qed.

Lemma F_opp_zero (x y : F) : x - y = 0 -> x = y.
Proof. intros H; transitivity (x - y + y); [ring | rewrite H; ring]. Qed.

Lemma F_sub_zero (x y : F) : x = y -> x - y = 0.
Proof. intros ->; ring. Qed.

Lemma F_div_unique (n m q : F) : m <> 0 -> n = q * m -> n / m = q.
Proof. intros H ->; field; exact H. Qed.

(** Fermat: the [p - 1]st power of a nonzero element is one. *)
Lemma F_fermat (x : F) : x <> 0 -> Zmod.pow x (p - 1) = 1.
Proof. intros H; apply Zmod.fermat_nz; [exact H | exact prime_p]. Qed.

(** Euler's criterion, in the direction that shows a non-residue. *)
Lemma not_square (x s : F) : Zmod.pow x ((p - 1) / 2) <> 1 -> x <> 0 -> x <> s * s.
Proof.
  intros E N ->; apply E; destruct (Zmod.eqb_spec s 0) as [->|Ns].
  - exfalso; apply N; ring.
  - rewrite <- Zmod.pow_2_r, <- Zmod.pow_mul_r_nonneg by (vm_compute; discriminate).
    change (2 * ((p - 1) / 2))%Z with (p - 1)%Z; now apply F_fermat.
Qed.

Lemma d_not_square (s : F) : d <> s * s.
Proof. apply not_square; apply F_neq; vm_compute; reflexivity. Qed.

(** A square root of -1. *)
Definition im : F := toF 19681161376707505956807079304988542015446066515923890162744021073123829784752.

Lemma im_square : im * im = - (1).
Proof. apply Zmod.eqb_eq; vm_compute; reflexivity. Qed.

Lemma two_nonzero : 1 + 1 <> 0 :> F.
Proof. apply F_neq; vm_compute; reflexivity. Qed.

(** ** The curve and its addition law *)

Definition on_curve (x y : F) : Prop := - (x * x) + y * y = 1 + d * (x * x) * (y * y).

Lemma square_root_ratio (a b : F) : b <> 0 -> a * a <> d * (b * b).
Proof.
  intros Hb E; apply (d_not_square (a / b)); transitivity (a * a / (b * b)); [|field; exact Hb].
  rewrite E; field; exact Hb.
Qed.

(** On a nonsquare [d], no denominator vanishes. *)
Lemma curve_w (x y : F) : on_curve x y -> 1 - d * (x * x) <> 0.
Proof.
  intros H E; assert (N : x <> 0).
  { intros ->; apply two_nonzero; assert (1 = 0 :> F) by (rewrite <- E; ring).
    transitivity (1 * (1 + 1) : F); [ring | rewrite H0 at 1; ring]. }
  apply (square_root_ratio 1 x N); symmetry; transitivity (1 - (1 - d * (x * x))); [ring|].
  rewrite E; ring.
Qed.

Lemma curve_y2 (x y : F) : on_curve x y -> y * y = (1 + x * x) / (1 - d * (x * x)).
Proof.
  intros H; symmetry; apply F_div_unique; [now apply (curve_w x y)|].
  unfold on_curve in H; apply F_opp_zero.
  transitivity (1 + d * (x * x) * (y * y) - (- (x * x) + y * y)); [ring | rewrite H; ring].
Qed.

(** ** Completeness *)

Lemma curve_im (x y e : F) : on_curve x y -> e * e = 1 ->
  (im * x + e * y) * (im * x + e * y) = 1 + d * (x * x) * (y * y) + (1 + 1) * im * e * x * y.
Proof.
  intros H He; rewrite <- H.
  transitivity (im * im * (x * x) + e * e * (y * y) + (1 + 1) * im * e * x * y); [ring|].
  rewrite im_square, He; ring.
Qed.

(** The equation behind completeness: with [e = d x1 x2 y1 y2] of square one,
    (i x1 + e y1)^2 = d (x1 y1)^2 (i x2 + y2)^2. *)
Lemma complete_square (x1 y1 x2 y2 e : F) :
  on_curve x1 y1 -> on_curve x2 y2 -> e = d * x1 * x2 * y1 * y2 -> e * e = 1 ->
  (im * x1 + e * y1) * (im * x1 + e * y1)
  = d * ((x1 * y1 * (im * x2 + y2)) * (x1 * y1 * (im * x2 + y2))).
Proof.
  intros H1 H2 He E; rewrite (curve_im x1 y1 e H1 E).
  transitivity (d * (x1 * x1) * (y1 * y1) * ((im * x2 + 1 * y2) * (im * x2 + 1 * y2))); [|ring].
  rewrite (curve_im x2 y2 1 H2) by ring; rewrite <- E at 1; rewrite He; ring.
Qed.

Lemma complete (x1 y1 x2 y2 : F) : on_curve x1 y1 -> on_curve x2 y2 ->
  let m := d * x1 * x2 * y1 * y2 in 1 + m <> 0 /\ 1 - m <> 0.
Proof.
  intros H1 H2 m.
  assert (K : m * m <> 1).
  { intros E.
    assert (Nx : x1 * y1 <> 0).
    { intros Z0; apply (F_neq 0 1 eq_refl); rewrite <- E.
      transitivity (x1 * y1 * (d * x2 * y2 * m)); [rewrite Z0; ring | unfold m; ring]. }
    assert (V : forall y, on_curve x2 y -> m * m = d * x1 * x2 * y1 * y * (d * x1 * x2 * y1 * y) ->
      im * x2 + y = 0).
    { intros y Hy Em; destruct (Zmod.eqb_spec (im * x2 + y) 0) as [Z0|N0]; [exact Z0|exfalso].
      apply (square_root_ratio (im * x1 + d * x1 * x2 * y1 * y * y1) (x1 * y1 * (im * x2 + y))).
      - intros Z0; apply F_integral in Z0; destruct Z0; contradiction.
      - apply complete_square; auto; now rewrite <- Em. }
    pose proof (V y2 H2 eq_refl) as V1.
    assert (H2' : on_curve x2 (- y2)) by
      (unfold on_curve in *; transitivity (- (x2 * x2) + y2 * y2); [ring | rewrite H2; ring]).
    pose proof (V (- y2) H2' ltac:(unfold m; ring)) as V2.
    apply two_nonzero; rewrite <- E.
    assert (Y2 : (1 + 1) * y2 = 0).
    { transitivity ((im * x2 + y2) - (im * x2 + - y2)); [ring | rewrite V1, V2; ring]. }
    apply F_integral in Y2; destruct Y2 as [Y2|Y2]; [now destruct (two_nonzero Y2)|].
    exfalso; apply (F_neq 0 1 eq_refl); rewrite <- E; unfold m; rewrite Y2; ring. }
  split; intros E; apply K.
  - transitivity ((1 + m) * (m - 1) + 1); [ring | rewrite E; ring].
  - transitivity (- (1 - m) * (1 + m) + 1); [ring | rewrite E; ring].
Qed.

(** ** The group law *)

Definition add_x (x1 y1 x2 y2 : F) : F := (x1 * y2 + y1 * x2) / (1 + d * x1 * x2 * y1 * y2).
Definition add_y (x1 y1 x2 y2 : F) : F := (y1 * y2 + x1 * x2) / (1 - d * x1 * x2 * y1 * y2).

Ltac curve_tac :=
  repeat match goal with H : on_curve ?x ?y |- _ =>
    let W := fresh "W" in let Y := fresh "Y" in
    pose proof (curve_w x y H) as W; pose proof (curve_y2 x y H) as Y; clear H end.

Lemma closure_identity (x1 y1 x2 y2 : F) : on_curve x1 y1 -> on_curve x2 y2 ->
  let m := d * x1 * x2 * y1 * y2 in let X := x1 * y2 + y1 * x2 in let Y := y1 * y2 + x1 * x2 in
  - (X * X) * (1 - m) * (1 - m) + Y * Y * (1 + m) * (1 + m) - (1 + m) * (1 + m) * (1 - m) * (1 - m)
  - d * (X * X) * (Y * Y) = 0.
Proof.
  intros H1 H2; cbv zeta; curve_tac.
  transitivity (
    (- (1) + (y1 * y1) * (y2 * y2) - (y1 * y1) * x2 * x2 - (y1 * y1) * (y1 * y1) * x2 * x2
      * (y2 * y2) * d - x1 * x1 * (y2 * y2) + x1 * x1 * x2 * x2 - x1 * x1 * (y1 * y1) *
      (y2 * y2) * (y2 * y2) * d + (1 + 1) * (1 + 1) * x1 * x1 * (y1 * y1) * x2 * x2 * (y2
      * y2) * d + (1 + 1) * x1 * x1 * (y1 * y1) * x2 * x2 * (y2 * y2) * d * d - x1 * x1 *
      (y1 * y1) * x2 * x2 * x2 * x2 * d + x1 * x1 * (y1 * y1) * (y1 * y1) * x2 * x2 * (y2
      * y2) * (y2 * y2) * d * d - x1 * x1 * (y1 * y1) * (y1 * y1) * x2 * x2 * x2 * x2 *
      (y2 * y2) * d * d - x1 * x1 * x1 * x1 * x2 * x2 * (y2 * y2) * d - x1 * x1 * x1 * x1
      * (y1 * y1) * x2 * x2 * (y2 * y2) * (y2 * y2) * d * d + x1 * x1 * x1 * x1 * (y1 *
      y1) * x2 * x2 * x2 * x2 * (y2 * y2) * d * d - x1 * x1 * x1 * x1 * (y1 * y1) * (y1 *
      y1) * x2 * x2 * x2 * x2 * (y2 * y2) * (y2 * y2) * d * d * d * d)); [ring|].
  rewrite Y, Y0; field; auto.
Qed.

Lemma add_closed (x1 y1 x2 y2 : F) : on_curve x1 y1 -> on_curve x2 y2 ->
  on_curve (add_x x1 y1 x2 y2) (add_y x1 y1 x2 y2).
Proof.
  intros H1 H2; pose proof (complete _ _ _ _ H1 H2) as [Np Nm].
  pose proof (closure_identity _ _ _ _ H1 H2) as E; cbv zeta in *.
  unfold on_curve, add_x, add_y; apply F_opp_zero.
  set (m := d * x1 * x2 * y1 * y2) in *; set (X := x1 * y2 + y1 * x2) in *.
  set (Y := y1 * y2 + x1 * x2) in *.
  transitivity ((- (X * X) * (1 - m) * (1 - m) + Y * Y * (1 + m) * (1 + m)
     - (1 + m) * (1 + m) * (1 - m) * (1 - m) - d * (X * X) * (Y * Y))
     / ((1 + m) * (1 + m) * ((1 - m) * (1 - m)))); [field; auto | rewrite E; field; auto].
Qed.

Section Associativity.
Context (x1 y1 x2 y2 x3 y3 : F).
Context (H1 : on_curve x1 y1) (H2 : on_curve x2 y2) (H3 : on_curve x3 y3).

(** Numerators and denominators of (P1 + P2) + P3 with P1 + P2 = (X / Dx, Y / Dy). *)
Definition num_x (X Dx Y Dy x y : F) : F := X * y * Dy + Y * x * Dx.
Definition num_y (X Dx Y Dy x y : F) : F := Y * y * Dx + X * x * Dy.
Definition den_p (X Dx Y Dy x y : F) : F := Dx * Dy + d * X * Y * x * y.
Definition den_m (X Dx Y Dy x y : F) : F := Dx * Dy - d * X * Y * x * y.

Let X12 := x1 * y2 + y1 * x2.
Let Y12 := y1 * y2 + x1 * x2.
Let m12 := d * x1 * x2 * y1 * y2.
Let X23 := x2 * y3 + y2 * x3.
Let Y23 := y2 * y3 + x2 * x3.
Let m23 := d * x2 * x3 * y2 * y3.

Lemma assoc_x_identity :
  num_x X12 (1 + m12) Y12 (1 - m12) x3 y3 * den_p X23 (1 + m23) Y23 (1 - m23) x1 y1
  - num_x X23 (1 + m23) Y23 (1 - m23) x1 y1 * den_p X12 (1 + m12) Y12 (1 - m12) x3 y3 = 0.
Proof.
  unfold num_x, den_p, X12, Y12, m12, X23, Y23, m23; curve_tac.
  transitivity (
    (- x1 * x2 * (y2 * y2) * x3 * (y3 * y3) * d - x1 * x2 * x2 * x2 * (y2 * y2) * x3 * x3
      * x3 * (y3 * y3) * d * d + x1 * (y1 * y1) * x2 * (y2 * y2) * x3 * d + x1 * (y1 * y1)
      * x2 * (y2 * y2) * x3 * x3 * x3 * d + x1 * (y1 * y1) * x2 * (y2 * y2) * (y2 * y2) *
      x3 * x3 * x3 * (y3 * y3) * d * d - x1 * (y1 * y1) * x2 * x2 * x2 * (y2 * y2) * (y2 *
      y2) * x3 * x3 * x3 * (y3 * y3) * d * d * d - x1 * x1 * x1 * x2 * (y2 * y2) * x3 *
      (y3 * y3) * d - x1 * x1 * x1 * x2 * x2 * x2 * (y2 * y2) * x3 * x3 * x3 * (y3 * y3) *
      d * d - x1 * x1 * x1 * (y1 * y1) * x2 * (y2 * y2) * (y2 * y2) * x3 * (y3 * y3) * d *
      d + x1 * x1 * x1 * (y1 * y1) * x2 * x2 * x2 * (y2 * y2) * x3 * d * d + x1 * x1 * x1
      * (y1 * y1) * x2 * x2 * x2 * (y2 * y2) * x3 * x3 * x3 * d * d + x1 * x1 * x1 * (y1 *
      y1) * x2 * x2 * x2 * (y2 * y2) * (y2 * y2) * x3 * (y3 * y3) * d * d * d) + y2 * y3 *
      (- x1 * x2 * x2 * x3 * x3 * d - x1 * x2 * x2 * (y2 * y2) * x3 * x3 * (y3 * y3) * d *
      d - x1 * (y1 * y1) * x2 * x2 * d + x1 * (y1 * y1) * x2 * x2 * (y3 * y3) * d + x1 *
      (y1 * y1) * x2 * x2 * x2 * x2 * x3 * x3 * (y3 * y3) * d * d + x1 * (y1 * y1) * x2 *
      x2 * x2 * x2 * (y2 * y2) * x3 * x3 * (y3 * y3) * d * d * d - x1 * x1 * x1 * x2 * x2
      * x3 * x3 * d - x1 * x1 * x1 * x2 * x2 * (y2 * y2) * x3 * x3 * (y3 * y3) * d * d +
      x1 * x1 * x1 * (y1 * y1) * x2 * x2 * (y2 * y2) * d * d - x1 * x1 * x1 * (y1 * y1) *
      x2 * x2 * (y2 * y2) * (y3 * y3) * d * d + x1 * x1 * x1 * (y1 * y1) * x2 * x2 * x2 *
      x2 * x3 * x3 * d * d + x1 * x1 * x1 * (y1 * y1) * x2 * x2 * x2 * x2 * (y2 * y2) * x3
      * x3 * d * d * d) + y1 * y3 * (x2 * (y2 * y2) * x3 * x3 * d - x2 * x2 * x2 * (y2 *
      y2) * x3 * x3 * (y3 * y3) * d * d - (y1 * y1) * x2 * (y2 * y2) * x3 * x3 * d + (y1 *
      y1) * x2 * x2 * x2 * (y2 * y2) * x3 * x3 * (y3 * y3) * d * d - x1 * x1 * x2 * (y2 *
      y2) * d + x1 * x1 * x2 * (y2 * y2) * (y3 * y3) * d - x1 * x1 * x2 * (y2 * y2) * (y2
      * y2) * x3 * x3 * (y3 * y3) * d * d + x1 * x1 * x2 * x2 * x2 * (y2 * y2) * (y2 * y2)
      * x3 * x3 * (y3 * y3) * d * d * d + x1 * x1 * (y1 * y1) * x2 * (y2 * y2) * (y2 * y2)
      * x3 * x3 * d * d + x1 * x1 * (y1 * y1) * x2 * x2 * x2 * (y2 * y2) * d * d - x1 * x1
      * (y1 * y1) * x2 * x2 * x2 * (y2 * y2) * (y3 * y3) * d * d - x1 * x1 * (y1 * y1) *
      x2 * x2 * x2 * (y2 * y2) * (y2 * y2) * x3 * x3 * d * d * d) + y1 * y2 * (x2 * x2 *
      x3 * (y3 * y3) * d - x2 * x2 * (y2 * y2) * x3 * x3 * x3 * (y3 * y3) * d * d - (y1 *
      y1) * x2 * x2 * x3 * (y3 * y3) * d + (y1 * y1) * x2 * x2 * (y2 * y2) * x3 * x3 * x3
      * (y3 * y3) * d * d + x1 * x1 * x2 * x2 * x3 * d + x1 * x1 * x2 * x2 * x3 * x3 * x3
      * d - x1 * x1 * x2 * x2 * x2 * x2 * x3 * x3 * x3 * (y3 * y3) * d * d - x1 * x1 * x2
      * x2 * x2 * x2 * (y2 * y2) * x3 * x3 * x3 * (y3 * y3) * d * d * d + x1 * x1 * (y1 *
      y1) * x2 * x2 * (y2 * y2) * x3 * d * d + x1 * x1 * (y1 * y1) * x2 * x2 * (y2 * y2) *
      x3 * x3 * x3 * d * d - x1 * x1 * (y1 * y1) * x2 * x2 * x2 * x2 * x3 * (y3 * y3) * d
      * d - x1 * x1 * (y1 * y1) * x2 * x2 * x2 * x2 * (y2 * y2) * x3 * (y3 * y3) * d * d *
      d)); [ring|].
  rewrite Y, Y0, Y1; field; auto.
Qed.

Lemma assoc_y_identity :
  num_y X12 (1 + m12) Y12 (1 - m12) x3 y3 * den_m X23 (1 + m23) Y23 (1 - m23) x1 y1
  - num_y X23 (1 + m23) Y23 (1 - m23) x1 y1 * den_m X12 (1 + m12) Y12 (1 - m12) x3 y3 = 0.
Proof.
  unfold num_y, den_m, X12, Y12, m12, X23, Y23, m23; curve_tac.
  transitivity (
    y3 * (x1 * x2 * (y2 * y2) * x3 * x3 * d - x1 * x2 * x2 * x2 * (y2 * y2) * x3 * x3 *
      (y3 * y3) * d * d + x1 * (y1 * y1) * x2 * (y2 * y2) * d - x1 * (y1 * y1) * x2 * (y2
      * y2) * (y3 * y3) * d + x1 * (y1 * y1) * x2 * (y2 * y2) * (y2 * y2) * x3 * x3 * (y3
      * y3) * d * d - x1 * (y1 * y1) * x2 * x2 * x2 * (y2 * y2) * (y2 * y2) * x3 * x3 *
      (y3 * y3) * d * d * d + x1 * x1 * x1 * x2 * (y2 * y2) * x3 * x3 * d - x1 * x1 * x1 *
      x2 * x2 * x2 * (y2 * y2) * x3 * x3 * (y3 * y3) * d * d + x1 * x1 * x1 * (y1 * y1) *
      x2 * (y2 * y2) * (y2 * y2) * x3 * x3 * d * d + x1 * x1 * x1 * (y1 * y1) * x2 * x2 *
      x2 * (y2 * y2) * d * d - x1 * x1 * x1 * (y1 * y1) * x2 * x2 * x2 * (y2 * y2) * (y3 *
      y3) * d * d - x1 * x1 * x1 * (y1 * y1) * x2 * x2 * x2 * (y2 * y2) * (y2 * y2) * x3 *
      x3 * d * d * d) + y2 * (x1 * x2 * x2 * x3 * (y3 * y3) * d - x1 * x2 * x2 * (y2 * y2)
      * x3 * x3 * x3 * (y3 * y3) * d * d - x1 * (y1 * y1) * x2 * x2 * x3 * d - x1 * (y1 *
      y1) * x2 * x2 * x3 * x3 * x3 * d + x1 * (y1 * y1) * x2 * x2 * x2 * x2 * x3 * x3 * x3
      * (y3 * y3) * d * d + x1 * (y1 * y1) * x2 * x2 * x2 * x2 * (y2 * y2) * x3 * x3 * x3
      * (y3 * y3) * d * d * d + x1 * x1 * x1 * x2 * x2 * x3 * (y3 * y3) * d - x1 * x1 * x1
      * x2 * x2 * (y2 * y2) * x3 * x3 * x3 * (y3 * y3) * d * d + x1 * x1 * x1 * (y1 * y1)
      * x2 * x2 * (y2 * y2) * x3 * d * d + x1 * x1 * x1 * (y1 * y1) * x2 * x2 * (y2 * y2)
      * x3 * x3 * x3 * d * d - x1 * x1 * x1 * (y1 * y1) * x2 * x2 * x2 * x2 * x3 * (y3 *
      y3) * d * d - x1 * x1 * x1 * (y1 * y1) * x2 * x2 * x2 * x2 * (y2 * y2) * x3 * (y3 *
      y3) * d * d * d) + y1 * (- x2 * (y2 * y2) * x3 * (y3 * y3) * d - x2 * x2 * x2 * (y2
      * y2) * x3 * x3 * x3 * (y3 * y3) * d * d + (y1 * y1) * x2 * (y2 * y2) * x3 * (y3 *
      y3) * d + (y1 * y1) * x2 * x2 * x2 * (y2 * y2) * x3 * x3 * x3 * (y3 * y3) * d * d -
      x1 * x1 * x2 * (y2 * y2) * x3 * d - x1 * x1 * x2 * (y2 * y2) * x3 * x3 * x3 * d - x1
      * x1 * x2 * (y2 * y2) * (y2 * y2) * x3 * x3 * x3 * (y3 * y3) * d * d + x1 * x1 * x2
      * x2 * x2 * (y2 * y2) * (y2 * y2) * x3 * x3 * x3 * (y3 * y3) * d * d * d - x1 * x1 *
      (y1 * y1) * x2 * (y2 * y2) * (y2 * y2) * x3 * (y3 * y3) * d * d + x1 * x1 * (y1 *
      y1) * x2 * x2 * x2 * (y2 * y2) * x3 * d * d + x1 * x1 * (y1 * y1) * x2 * x2 * x2 *
      (y2 * y2) * x3 * x3 * x3 * d * d + x1 * x1 * (y1 * y1) * x2 * x2 * x2 * (y2 * y2) *
      (y2 * y2) * x3 * (y3 * y3) * d * d * d) + y1 * y2 * y3 * (- x2 * x2 * x3 * x3 * d -
      x2 * x2 * (y2 * y2) * x3 * x3 * (y3 * y3) * d * d + (y1 * y1) * x2 * x2 * x3 * x3 *
      d + (y1 * y1) * x2 * x2 * (y2 * y2) * x3 * x3 * (y3 * y3) * d * d + x1 * x1 * x2 *
      x2 * d - x1 * x1 * x2 * x2 * (y3 * y3) * d - x1 * x1 * x2 * x2 * x2 * x2 * x3 * x3 *
      (y3 * y3) * d * d - x1 * x1 * x2 * x2 * x2 * x2 * (y2 * y2) * x3 * x3 * (y3 * y3) *
      d * d * d + x1 * x1 * (y1 * y1) * x2 * x2 * (y2 * y2) * d * d - x1 * x1 * (y1 * y1)
      * x2 * x2 * (y2 * y2) * (y3 * y3) * d * d + x1 * x1 * (y1 * y1) * x2 * x2 * x2 * x2
      * x3 * x3 * d * d + x1 * x1 * (y1 * y1) * x2 * x2 * x2 * x2 * (y2 * y2) * x3 * x3 *
      d * d * d)); [ring|].
  rewrite Y, Y0, Y1; field; auto.
Qed.
End Associativity.

Lemma add_x_frac (X Dx Y Dy x y : F) : Dx <> 0 -> Dy <> 0 ->
  1 + d * (X / Dx) * x * (Y / Dy) * y <> 0 ->
  den_p X Dx Y Dy x y <> 0 /\
  add_x (X / Dx) (Y / Dy) x y = num_x X Dx Y Dy x y / den_p X Dx Y Dy x y.
Proof.
  intros Nx Ny N.
  assert (E : den_p X Dx Y Dy x y = Dx * Dy * (1 + d * (X / Dx) * x * (Y / Dy) * y))
    by (unfold den_p; field; auto).
  assert (N' : den_p X Dx Y Dy x y <> 0).
  { rewrite E; intros Z0; apply F_integral in Z0; destruct Z0 as [Z0|Z0]; [|contradiction].
    apply F_integral in Z0; destruct Z0; contradiction. }
  split; [exact N'|]; unfold add_x, num_x; rewrite E.
  field; repeat split; auto.
  intros Z0; apply N'; unfold den_p; rewrite <- Z0; ring.
Qed.

Lemma add_y_frac (X Dx Y Dy x y : F) : Dx <> 0 -> Dy <> 0 ->
  1 - d * (X / Dx) * x * (Y / Dy) * y <> 0 ->
  den_m X Dx Y Dy x y <> 0 /\
  add_y (X / Dx) (Y / Dy) x y = num_y X Dx Y Dy x y / den_m X Dx Y Dy x y.
Proof.
  intros Nx Ny N.
  assert (E : den_m X Dx Y Dy x y = Dx * Dy * (1 - d * (X / Dx) * x * (Y / Dy) * y))
    by (unfold den_m; field; auto).
  assert (N' : den_m X Dx Y Dy x y <> 0).
  { rewrite E; intros Z0; apply F_integral in Z0; destruct Z0 as [Z0|Z0]; [|contradiction].
    apply F_integral in Z0; destruct Z0; contradiction. }
  split; [exact N'|]; unfold add_y, num_y; rewrite E.
  field; repeat split; auto.
  intros Z0; apply N'; unfold den_m; rewrite <- Z0; ring.
Qed.

Lemma add_x_comm (x1 y1 x2 y2 : F) : add_x x1 y1 x2 y2 = add_x x2 y2 x1 y1.
Proof. unfold add_x; f_equal; ring. Qed.

Lemma add_y_comm (x1 y1 x2 y2 : F) : add_y x1 y1 x2 y2 = add_y x2 y2 x1 y1.
Proof. unfold add_y; f_equal; ring. Qed.

(** Equal fractions, from a cross product. *)
Lemma frac_eq (n m n' m' : F) : m <> 0 -> m' <> 0 -> n * m' - n' * m = 0 -> n / m = n' / m'.
Proof.
  intros N N' E; apply F_opp_zero.
  transitivity ((n * m' - n' * m) / (m * m')); [field; auto | rewrite E; field; auto].
Qed.

Lemma add_assoc_xy (x1 y1 x2 y2 x3 y3 : F) :
  on_curve x1 y1 -> on_curve x2 y2 -> on_curve x3 y3 ->
  add_x (add_x x1 y1 x2 y2) (add_y x1 y1 x2 y2) x3 y3
  = add_x x1 y1 (add_x x2 y2 x3 y3) (add_y x2 y2 x3 y3) /\
  add_y (add_x x1 y1 x2 y2) (add_y x1 y1 x2 y2) x3 y3
  = add_y x1 y1 (add_x x2 y2 x3 y3) (add_y x2 y2 x3 y3).
Proof.
  intros H1 H2 H3.
  pose proof (complete _ _ _ _ H1 H2) as [A1 A2]; pose proof (complete _ _ _ _ H2 H3) as [B1 B2].
  pose proof (complete _ _ _ _ (add_closed _ _ _ _ H1 H2) H3) as [C1 C2].
  pose proof (complete _ _ _ _ (add_closed _ _ _ _ H2 H3) H1) as [D1 D2].
  destruct (add_x_frac _ _ _ _ x3 y3 A1 A2 C1) as [N1 E1].
  destruct (add_y_frac _ _ _ _ x3 y3 A1 A2 C2) as [N2 E2].
  destruct (add_x_frac _ _ _ _ x1 y1 B1 B2 D1) as [N3 E3].
  destruct (add_y_frac _ _ _ _ x1 y1 B1 B2 D2) as [N4 E4].
  rewrite (add_x_comm x1 y1 (add_x _ _ _ _)), (add_y_comm x1 y1 (add_x _ _ _ _)).
  split; (etransitivity; [first [exact E1 | exact E2]|]);
    (etransitivity; [|symmetry; first [exact E3 | exact E4]]); apply frac_eq; auto.
  - now apply assoc_x_identity.
  - now apply assoc_y_identity.
Qed.

(** ** The group of points *)

Definition on_curveb (x y : F) : bool := Zmod.eqb (- (x * x) + y * y) (1 + d * (x * x) * (y * y)).

Lemma on_curveb_spec (x y : F) : on_curveb x y = true <-> on_curve x y.
Proof. apply Zmod.eqb_eq. Qed.

Record point := Pt { px : F; py : F; p_on : on_curveb px py = true }.

Lemma point_eq (P Q : point) : px P = px Q -> py P = py Q -> P = Q.
Proof.
  destruct P as [x y H], Q as [x' y' H']; cbn; intros -> ->; f_equal.
  apply UIP_dec, bool_dec.
Qed.

Lemma point_on (P : point) : on_curve (px P) (py P).
Proof. apply on_curveb_spec, p_on. Qed.

Definition padd (P Q : point) : point :=
  Pt (add_x (px P) (py P) (px Q) (py Q)) (add_y (px P) (py P) (px Q) (py Q))
     (proj2 (on_curveb_spec _ _) (add_closed _ _ _ _ (point_on P) (point_on Q))).

Definition pzero : point := Pt 0 1 eq_refl.

Lemma neg_closed (x y : F) : on_curve x y -> on_curve (- x) y.
Proof.
  unfold on_curve; intros H; transitivity (- (x * x) + y * y); [ring | rewrite H; ring].
Qed.

Definition popp (P : point) : point :=
  Pt (- px P) (py P) (proj2 (on_curveb_spec _ _) (neg_closed _ _ (point_on P))).

Lemma padd_comm (P Q : point) : padd P Q = padd Q P.
Proof. apply point_eq; [apply add_x_comm | apply add_y_comm]. Qed.

Lemma padd_assoc (P Q R : point) : padd (padd P Q) R = padd P (padd Q R).
Proof.
  apply point_eq; apply (add_assoc_xy _ _ _ _ _ _ (point_on P) (point_on Q) (point_on R)).
Qed.

Lemma padd_0_l (P : point) : padd pzero P = P.
Proof.
  apply point_eq; cbn [px py padd pzero popp]; unfold add_x, add_y; apply F_div_unique;
    (ring || (intros E; apply (F_neq 1 0 eq_refl); etransitivity; [|exact E]; ring)).
Qed.

Lemma padd_opp_r (P : point) : padd P (popp P) = pzero.
Proof.
  pose proof (complete _ _ _ _ (point_on P) (neg_closed _ _ (point_on P))) as [N1 N2].
  pose proof (point_on P) as H; apply point_eq; cbn [px py padd pzero popp]; unfold add_x, add_y;
    apply F_div_unique; try assumption; [ring|].
  unfold on_curve in H; transitivity (- (px P * px P) + py P * py P); [ring | rewrite H; ring].
Qed.

Lemma padd_0_r (P : point) : padd P pzero = P.
Proof. rewrite padd_comm; apply padd_0_l. Qed.

Lemma padd_cancel_l (P Q R : point) : padd P Q = padd P R -> Q = R.
Proof.
  intros E; rewrite <- (padd_0_l Q), <- (padd_0_l R), <- (padd_opp_r P), (padd_comm P).
  now rewrite !padd_assoc, E.
Qed.

Lemma popp_unique (P Q : point) : padd P Q = pzero -> Q = popp P.
Proof. intros E; apply (padd_cancel_l P); now rewrite E, padd_opp_r. Qed.

Lemma popp_padd (P Q : point) : popp (padd P Q) = padd (popp P) (popp Q).
Proof.
  symmetry; apply popp_unique.
  rewrite (padd_comm (popp P)), padd_assoc, <- (padd_assoc Q), padd_opp_r, padd_0_l.
  apply padd_opp_r.
Qed.

Lemma popp_involutive (P : point) : popp (popp P) = P.
Proof. symmetry; apply popp_unique; rewrite padd_comm; apply padd_opp_r. Qed.

Lemma popp_0 : popp pzero = pzero.
Proof. symmetry; apply popp_unique, padd_0_l. Qed.

(** ** Scalar multiplication *)

Fixpoint pmul_pos (k : positive) (P : point) : point :=
  match k with
  | xH => P
  | xO k' => let Q := pmul_pos k' P in padd Q Q
  | xI k' => let Q := pmul_pos k' P in padd P (padd Q Q)
  end.

Definition smul (k : Z) (P : point) : point :=
  match k with
  | Z0 => pzero
  | Zpos k' => pmul_pos k' P
  | Zneg k' => popp (pmul_pos k' P)
  end.

Lemma pmul_pos_succ (k : positive) (P : point) : pmul_pos (Pos.succ k) P = padd P (pmul_pos k P).
Proof.
  induction k as [k IH|k IH|]; cbn [Pos.succ pmul_pos]; cbv zeta; [|reflexivity|reflexivity].
  rewrite IH, !padd_assoc; f_equal; rewrite <- !padd_assoc; f_equal; apply padd_comm.
Qed.

Lemma smul_succ (k : Z) (P : point) : smul (Z.succ k) P = padd P (smul k P).
Proof.
  destruct k as [|k|k].
  - cbn; symmetry; apply padd_0_r.
  - change (Z.succ (Z.pos k)) with (Z.pos (k + 1)); rewrite Pos.add_1_r; apply pmul_pos_succ.
  - destruct (Pos.eq_dec k 1) as [->|N]; [cbn; symmetry; apply padd_opp_r|].
    rewrite <- (Pos.succ_pred k N); replace (Z.succ (Z.neg (Pos.succ (Pos.pred k))))
      with (Z.neg (Pos.pred k)) by lia.
    cbn [smul]; rewrite pmul_pos_succ, popp_padd, <- padd_assoc, padd_opp_r; symmetry; apply padd_0_l.
Qed.

Lemma smul_pred (k : Z) (P : point) : smul (Z.pred k) P = padd (popp P) (smul k P).
Proof.
  rewrite <- (Z.succ_pred k) at 2; rewrite smul_succ, <- padd_assoc, (padd_comm (popp P)), padd_opp_r.
  symmetry; apply padd_0_l.
Qed.

Lemma smul_add (j k : Z) (P : point) : smul (j + k) P = padd (smul j P) (smul k P).
Proof.
  induction j as [|j IH|j IH] using Z.peano_ind.
  - symmetry; apply padd_0_l.
  - now rewrite Z.add_succ_l, !smul_succ, IH, padd_assoc.
  - now rewrite Z.add_pred_l, !smul_pred, IH, padd_assoc.
Qed.

Lemma smul_opp (k : Z) (P : point) : smul (- k) P = popp (smul k P).
Proof. apply popp_unique; rewrite <- smul_add, Z.add_opp_diag_r; reflexivity. Qed.

Lemma smul_sub (j k : Z) (P : point) : smul (j - k) P = padd (smul j P) (popp (smul k P)).
Proof. unfold Z.sub; now rewrite smul_add, smul_opp. Qed.

Lemma smul_1 (P : point) : smul 1 P = P.
Proof. reflexivity. Qed.

Lemma smul_2 (P : point) : smul 2 P = padd P P.
Proof. reflexivity. Qed.

Lemma smul_mul (j k : Z) (P : point) : smul (j * k) P = smul j (smul k P).
Proof.
  induction j as [|j IH|j IH] using Z.peano_ind.
  - reflexivity.
  - now rewrite Z.mul_succ_l, Z.add_comm, smul_add, smul_succ, IH.
  - now rewrite Z.mul_pred_l, smul_sub, smul_pred, IH, padd_comm.
Qed.

Lemma smul_padd (k : Z) (P Q : point) : smul k (padd P Q) = padd (smul k P) (smul k Q).
Proof.
  assert (X : forall A B C D, padd (padd A B) (padd C D) = padd (padd A C) (padd B D)).
  { intros A B C D; rewrite !padd_assoc; f_equal; rewrite <- !padd_assoc; f_equal; apply padd_comm. }
  induction k as [|k IH|k IH] using Z.peano_ind.
  - cbn; symmetry; apply padd_0_l.
  - now rewrite !smul_succ, IH, X.
  - now rewrite !smul_pred, IH, popp_padd, X.
Qed.

Lemma smul_0_r (k : Z) : smul k pzero = pzero.
Proof. change pzero with (smul 0 pzero) at 1; now rewrite <- smul_mul, Z.mul_0_r. Qed.

Lemma smul_popp (k : Z) (P : point) : smul k (popp P) = popp (smul k P).
Proof. apply popp_unique; rewrite <- smul_padd, padd_opp_r; apply smul_0_r. Qed.

(** A multiple of a point of order [n] depends on the factor modulo [n]. *)
Lemma smul_order (n j k : Z) (P : point) :
  smul n P = pzero -> (j =[n]= k)%Z -> smul j P = smul k P.
Proof.
  intros H E; apply eqm_elim in E; destruct E as [q ->].
  rewrite smul_add, (Z.mul_comm n), smul_mul, H, smul_0_r; apply padd_0_r.
Qed.

(** The same computation on coordinates, for evaluation. *)
Definition radd (P Q : F * F) : F * F :=
  (add_x (fst P) (snd P) (fst Q) (snd Q), add_y (fst P) (snd P) (fst Q) (snd Q)).

Fixpoint rmul (k : positive) (P : F * F) : F * F :=
  match k with
  | xH => P
  | xO k' => let Q := rmul k' P in radd Q Q
  | xI k' => let Q := rmul k' P in radd P (radd Q Q)
  end.

Definition coords (P : point) : F * F := (px P, py P).

Lemma rmul_coords (k : positive) (P : point) : rmul k (coords P) = coords (pmul_pos k P).
Proof. induction k as [k IH|k IH|]; cbn [rmul pmul_pos]; cbv zeta; rewrite ?IH; reflexivity. Qed.

(** The base point (x, 4/5) with x even. *)
Definition B : point :=
  Pt (toF 15112221349535400772501151409588531511454012693041857206046113283949847762202)
     (toF 46316835694926478169428394003475163141307993866256225615783033603165251855960) eq_refl.

Lemma base_y : py B * toF 5 = toF 4.
Proof. apply Zmod.eqb_eq; vm_compute; reflexivity. Qed.

Lemma coords_eq (P Q : point) : coords P = coords Q -> P = Q.
Proof. intros E; injection E as E1 E2; now apply point_eq. Qed.
