(* ===== verification/Ge.v ===== *)
(** * Points of the curve: shared/ed25519/src/ge.c

    The four representations of a point (ge.h) and every function of ge.c.  A function
    that writes through a pointer returns the new value; fields are computed in the order of
    the source.  Proofs are in GeArith (formulas), GeTable (tables), GeDigits (digit recodings) and
    GeMult (scalar multiplication). *)

From Stdlib Require Import ZArith List Bool.
From S2P Require Import Prelude Machine Bytes Fe Precomp.
Import ListNotations.

Record ge_p2 := P2 { p2_X : fe; p2_Y : fe; p2_Z : fe }.
Record ge_p3 := P3 { p3_X : fe; p3_Y : fe; p3_Z : fe; p3_T : fe }.
Record ge_p1p1 := P1P1 { p1_X : fe; p1_Y : fe; p1_Z : fe; p1_T : fe }.
Record ge_cached := Cached { YplusX : fe; YminusX : fe; ca_Z : fe; T2d : fe }.

(** ** Addition and doubling *)

Definition ge_add (p : ge_p3) (q : ge_cached) : ge_p1p1 :=
  let rX := fe_add (p3_Y p) (p3_X p) in
  let rY := fe_sub (p3_Y p) (p3_X p) in
  let rZ := fe_mul rX (YplusX q) in
  let rY := fe_mul rY (YminusX q) in
  let rT := fe_mul (T2d q) (p3_T p) in
  let rX := fe_mul (p3_Z p) (ca_Z q) in
  let t0 := fe_add rX rX in
  let rX := fe_sub rZ rY in
  let rY := fe_add rZ rY in
  let rZ := fe_add t0 rT in
  let rT := fe_sub t0 rT in
  P1P1 rX rY rZ rT.

Definition ge_sub (p : ge_p3) (q : ge_cached) : ge_p1p1 :=
  let rX := fe_add (p3_Y p) (p3_X p) in
  let rY := fe_sub (p3_Y p) (p3_X p) in
  let rZ := fe_mul rX (YminusX q) in
  let rY := fe_mul rY (YplusX q) in
  let rT := fe_mul (T2d q) (p3_T p) in
  let rX := fe_mul (p3_Z p) (ca_Z q) in
  let t0 := fe_add rX rX in
  let rX := fe_sub rZ rY in
  let rY := fe_add rZ rY in
  let rZ := fe_sub t0 rT in
  let rT := fe_add t0 rT in
  P1P1 rX rY rZ rT.

Definition ge_madd (p : ge_p3) (q : ge_precomp) : ge_p1p1 :=
  let rX := fe_add (p3_Y p) (p3_X p) in
  let rY := fe_sub (p3_Y p) (p3_X p) in
  let rZ := fe_mul rX (yplusx q) in
  let rY := fe_mul rY (yminusx q) in
  let rT := fe_mul (xy2d q) (p3_T p) in
  let t0 := fe_add (p3_Z p) (p3_Z p) in
  let rX := fe_sub rZ rY in
  let rY := fe_add rZ rY in
  let rZ := fe_add t0 rT in
  let rT := fe_sub t0 rT in
  P1P1 rX rY rZ rT.

Definition ge_msub (p : ge_p3) (q : ge_precomp) : ge_p1p1 :=
  let rX := fe_add (p3_Y p) (p3_X p) in
  let rY := fe_sub (p3_Y p) (p3_X p) in
  let rZ := fe_mul rX (yminusx q) in
  let rY := fe_mul rY (yplusx q) in
  let rT := fe_mul (xy2d q) (p3_T p) in
  let t0 := fe_add (p3_Z p) (p3_Z p) in
  let rX := fe_sub rZ rY in
  let rY := fe_add rZ rY in
  let rZ := fe_sub t0 rT in
  let rT := fe_add t0 rT in
  P1P1 rX rY rZ rT.

Definition ge_p2_dbl (p : ge_p2) : ge_p1p1 :=
  let rX := fe_sq (p2_X p) in
  let rZ := fe_sq (p2_Y p) in
  let rT := fe_sq2 (p2_Z p) in
  let rY := fe_add (p2_X p) (p2_Y p) in
  let t0 := fe_sq rY in
  let rY := fe_add rZ rX in
  let rZ := fe_sub rZ rX in
  let rX := fe_sub t0 rY in
  let rT := fe_sub rT rZ in
  P1P1 rX rY rZ rT.

(** ** Conversions *)

Definition ge_p1p1_to_p2 (p : ge_p1p1) : ge_p2 :=
  P2 (fe_mul (p1_X p) (p1_T p)) (fe_mul (p1_Y p) (p1_Z p)) (fe_mul (p1_Z p) (p1_T p)).

Definition ge_p1p1_to_p3 (p : ge_p1p1) : ge_p3 :=
  P3 (fe_mul (p1_X p) (p1_T p)) (fe_mul (p1_Y p) (p1_Z p)) (fe_mul (p1_Z p) (p1_T p))
     (fe_mul (p1_X p) (p1_Y p)).

Definition ge_p2_0 : ge_p2 := P2 fe_0 fe_1 fe_1.
Definition ge_p3_0 : ge_p3 := P3 fe_0 fe_1 fe_1 fe_0.

Definition ge_p3_to_p2 (p : ge_p3) : ge_p2 :=
  P2 (fe_copy (p3_X p)) (fe_copy (p3_Y p)) (fe_copy (p3_Z p)).

Definition ge_p3_dbl (p : ge_p3) : ge_p1p1 :=
  let q := ge_p3_to_p2 p in
  ge_p2_dbl q.

Definition d2 : fe := Fe (-21827239) (-5839606) (-30745221) 13898782 229458 15978800 (-12551817)
  (-6495438) 29715968 9444199.

Definition ge_p3_to_cached (p : ge_p3) : ge_cached :=
  Cached (fe_add (p3_Y p) (p3_X p)) (fe_sub (p3_Y p) (p3_X p)) (fe_copy (p3_Z p))
         (fe_mul (p3_T p) d2).

(** ** Encoding and decoding *)

(** [s[31] ^= b << 7] *)
Definition set_sign (s : list Z) (b : Z) : list Z :=
  update s 31 (u8 (Z.lxor (nth 31 s 0) (Z.shiftl b 7))).

Definition ge_p3_tobytes (h : ge_p3) : list Z :=
  let recip := fe_invert (p3_Z h) in
  let x := fe_mul (p3_X h) recip in
  let y := fe_mul (p3_Y h) recip in
  let s := fe_tobytes y in
  set_sign s (fe_isnegative x).

Definition ge_tobytes (h : ge_p2) : list Z :=
  let recip := fe_invert (p2_Z h) in
  let x := fe_mul (p2_X h) recip in
  let y := fe_mul (p2_Y h) recip in
  let s := fe_tobytes y in
  set_sign s (fe_isnegative x).

Definition ge_d : fe := Fe (-10913610) 13857413 (-15372611) 6949391 114729 (-8787816) (-6275908)
  (-3247719) (-18696448) (-12055116).

Definition sqrtm1 : fe := Fe (-32595792) (-7943725) 9377950 3500415 12389472 (-272473) (-25146209)
  (-2005654) 326686 11406482.

(** Status and point; on failure the point [h] is left half written, its T untouched. *)
Definition ge_frombytes_negate_vartime (h : ge_p3) (s : list Z) : Z * ge_p3 :=
  let hY := fe_frombytes s in
  let hZ := fe_1 in
  let u := fe_sq hY in
  let v := fe_mul u ge_d in
  let u := fe_sub u hZ in
  let v := fe_add v hZ in
  let v3 := fe_sq v in
  let v3 := fe_mul v3 v in
  let hX := fe_sq v3 in
  let hX := fe_mul hX v in
  let hX := fe_mul hX u in
  let hX := fe_pow22523 hX in
  let hX := fe_mul hX v3 in
  let hX := fe_mul hX u in
  let vxx := fe_sq hX in
  let vxx := fe_mul vxx v in
  let check := fe_sub vxx u in
  let finish hX :=
    let hX := if fe_isnegative hX =? Z.shiftr (nth 31 s 0) 7 then fe_neg hX else hX in
    (0, P3 hX hY hZ (fe_mul hX hY)) in
  if negb (fe_isnonzero check =? 0) then
    let check := fe_add vxx u in
    if negb (fe_isnonzero check =? 0) then (-1, P3 hX hY hZ (p3_T h))
    else finish (fe_mul hX sqrtm1)
  else finish hX.

(** ** Constant-time selection from the table *)

Definition equal (b c : Z) : Z :=
  let ub := u8 b in
  let uc := u8 c in
  let x := u8 (Z.lxor ub uc) in
  let y := u64 (x - 1) in
  let y := Z.shiftr y 63 in
  u8 y.

Definition negative (b : Z) : Z :=
  let x := u64 b in
  let x := Z.shiftr x 63 in
  u8 x.

Definition cmov (t u : ge_precomp) (b : Z) : ge_precomp :=
  Precomp (fe_cmov (yplusx t) (yplusx u) b) (fe_cmov (yminusx t) (yminusx u) b)
          (fe_cmov (xy2d t) (xy2d u) b).

Definition precomp_0 : ge_precomp := Precomp fe_1 fe_1 fe_0.

Definition select (pos : nat) (b : Z) : ge_precomp :=
  let entry j := nth j (nth pos base []) precomp_0 in
  let bnegative := negative b in
  let babs := u8 (b - Z.shiftl (Z.land (- bnegative) b) 1) in
  let t := precomp_0 in
  let t := cmov t (entry 0%nat) (equal (s8 babs) 1) in
  let t := cmov t (entry 1%nat) (equal (s8 babs) 2) in
  let t := cmov t (entry 2%nat) (equal (s8 babs) 3) in
  let t := cmov t (entry 3%nat) (equal (s8 babs) 4) in
  let t := cmov t (entry 4%nat) (equal (s8 babs) 5) in
  let t := cmov t (entry 5%nat) (equal (s8 babs) 6) in
  let t := cmov t (entry 6%nat) (equal (s8 babs) 7) in
  let t := cmov t (entry 7%nat) (equal (s8 babs) 8) in
  let minust := Precomp (fe_copy (yminusx t)) (fe_copy (yplusx t)) (fe_neg (xy2d t)) in
  cmov t minust bnegative.

(** ** Multiplication of the base point *)

(** The 64 nibbles of the scalar. *)
Definition nibbles (a : list Z) : list Z :=
  flat_map (fun i => [s8 (Z.land (Z.shiftr (nth i a 0) 0) 15); s8 (Z.land (Z.shiftr (nth i a 0) 4) 15)])
    (seq 0 32).

(** The carry loop over [e[0..62]]: the new digits and the last carry. *)
Definition recode_step (st : list Z * Z) (i : nat) : list Z * Z :=
  let '(e, carry) := st in
  let e := update e i (s8 (nth i e 0 + carry)) in
  let carry := s8 (nth i e 0 + 8) in
  let carry := Z.shiftr carry 4 in
  let e := update e i (s8 (nth i e 0 - Z.shiftl carry 4)) in
  (e, carry).

Definition recode (a : list Z) : list Z :=
  let '(e, carry) := fold_left recode_step (seq 0 63) (nibbles a, 0) in
  update e 63 (s8 (nth 63 e 0 + carry)).

Definition madd_select (e : list Z) (h : ge_p3) (i : nat) : ge_p3 :=
  let t := select (Nat.div i 2) (nth i e 0) in
  let r := ge_madd h t in
  ge_p1p1_to_p3 r.

Definition ge_scalarmult_base (a : list Z) : ge_p3 :=
  let e := recode a in
  let h := ge_p3_0 in
  let h := fold_left (madd_select e) (map (fun k => 2 * k + 1)%nat (seq 0 32)) h in
  let r := ge_p3_dbl h in
  let s := ge_p1p1_to_p2 r in
  let r := ge_p2_dbl s in
  let s := ge_p1p1_to_p2 r in
  let r := ge_p2_dbl s in
  let s := ge_p1p1_to_p2 r in
  let r := ge_p2_dbl s in
  let h := ge_p1p1_to_p3 r in
  fold_left (madd_select e) (map (fun k => 2 * k)%nat (seq 0 32)) h.

(** ** Sliding windows *)

(** [for (k = i + b; k < 256; ++k) { if (!r[k]) { r[k] = 1; break; } r[k] = 0; }], with [n]
    cells left. *)
Fixpoint slide_carry (n k : nat) (r : list Z) : list Z :=
  match n with
  | O => r
  | S n' => if nth k r 0 =? 0 then update r k 1 else slide_carry n' (S k) (update r k 0)
  end.

(** The loop over [b], from [b] on, with [n] iterations left. *)
Fixpoint slide_window (n : nat) (i b : nat) (r : list Z) : list Z :=
  match n with
  | O => r
  | S n' =>
      if Nat.ltb (i + b) 256 then
        if negb (nth (i + b) r 0 =? 0) then
          if nth i r 0 + Z.shiftl (nth (i + b) r 0) (Z.of_nat b) <=? 15 then
            let r := update r i (s8 (nth i r 0 + Z.shiftl (nth (i + b) r 0) (Z.of_nat b))) in
            let r := update r (i + b) 0 in
            slide_window n' i (S b) r
          else if -15 <=? nth i r 0 - Z.shiftl (nth (i + b) r 0) (Z.of_nat b) then
            let r := update r i (s8 (nth i r 0 - Z.shiftl (nth (i + b) r 0) (Z.of_nat b))) in
            let r := slide_carry (256 - (i + b)) (i + b) r in
            slide_window n' i (S b) r
          else r
        else slide_window n' i (S b) r
      else r
  end.

Definition slide_bits (a : list Z) : list Z :=
  map (fun i => s8 (Z.land 1 (Z.shiftr (nth (Nat.div i 8) a 0) (Z.of_nat (Nat.modulo i 8))))) (seq 0 256).

Definition slide (a : list Z) : list Z :=
  fold_left (fun r i => if negb (nth i r 0 =? 0) then slide_window 6 i 1 r else r) (seq 0 256)
    (slide_bits a).

(** ** Double scalar multiplication *)

Definition cached_0 : ge_cached := Cached fe_1 fe_1 fe_1 fe_0.

(** A, 3A, 5A, 7A, 9A, 11A, 13A, 15A *)
Definition odd_multiples (A : ge_p3) : list ge_cached :=
  let Ai0 := ge_p3_to_cached A in
  let t := ge_p3_dbl A in
  let A2 := ge_p1p1_to_p3 t in
  let t := ge_add A2 Ai0 in
  let u := ge_p1p1_to_p3 t in
  let Ai1 := ge_p3_to_cached u in
  let t := ge_add A2 Ai1 in
  let u := ge_p1p1_to_p3 t in
  let Ai2 := ge_p3_to_cached u in
  let t := ge_add A2 Ai2 in
  let u := ge_p1p1_to_p3 t in
  let Ai3 := ge_p3_to_cached u in
  let t := ge_add A2 Ai3 in
  let u := ge_p1p1_to_p3 t in
  let Ai4 := ge_p3_to_cached u in
  let t := ge_add A2 Ai4 in
  let u := ge_p1p1_to_p3 t in
  let Ai5 := ge_p3_to_cached u in
  let t := ge_add A2 Ai5 in
  let u := ge_p1p1_to_p3 t in
  let Ai6 := ge_p3_to_cached u in
  let t := ge_add A2 Ai6 in
  let u := ge_p1p1_to_p3 t in
  let Ai7 := ge_p3_to_cached u in
  [Ai0; Ai1; Ai2; Ai3; Ai4; Ai5; Ai6; Ai7].

(** [for (i = 255; i >= 0; --i) if (aslide[i] || bslide[i]) break;]: the iterations left. *)
Fixpoint top_digit (n : nat) (aslide bslide : list Z) : nat :=
  match n with
  | O => O
  | S i => if negb (nth i aslide 0 =? 0) || negb (nth i bslide 0 =? 0) then n
           else top_digit i aslide bslide
  end.

Definition double_step (Ai : list ge_cached) (aslide bslide : list Z) (r : ge_p2) (i : nat) : ge_p2 :=
  let ad := nth i aslide 0 in
  let bd := nth i bslide 0 in
  let t := ge_p2_dbl r in
  let t :=
    if 0 <? ad then
      let u := ge_p1p1_to_p3 t in
      ge_add u (nth (Z.to_nat (Z.quot ad 2)) Ai cached_0)
    else if ad <? 0 then
      let u := ge_p1p1_to_p3 t in
      ge_sub u (nth (Z.to_nat (Z.quot (- ad) 2)) Ai cached_0)
    else t in
  let t :=
    if 0 <? bd then
      let u := ge_p1p1_to_p3 t in
      ge_madd u (nth (Z.to_nat (Z.quot bd 2)) Bi precomp_0)
    else if bd <? 0 then
      let u := ge_p1p1_to_p3 t in
      ge_msub u (nth (Z.to_nat (Z.quot (- bd) 2)) Bi precomp_0)
    else t in
  ge_p1p1_to_p2 t.

Definition ge_double_scalarmult_vartime (a : list Z) (A : ge_p3) (b : list Z) : ge_p2 :=
  let aslide := slide a in
  let bslide := slide b in
  let Ai := odd_multiples A in
  let r := ge_p2_0 in
  fold_left (double_step Ai aslide bslide) (rev (seq 0 (top_digit 256 aslide bslide))) r.
