(* ===== verification/GeArith.v ===== *)
(** * The point formulas compute the group law

    What it means for a ge_p2, ge_p3, ge_p1p1, ge_cached or ge_precomp to represent a point of
    the curve, and one lemma per formula of ge.c: bounds respected, no exceptional case, the sum
    or double represented. *)

From Stdlib Require Import ZArith Lia List Bool Field Zmod.Zmod.
From S2P Require Import Prelude Machine Bytes Fe FeArith FeBytes FePow Prime Edwards Precomp Ge.
Import ListNotations.

(** ** Field elements in the abstract field *)

Definition Phi (f : fe) : F := toF (fe_val f).

(** [h] has limbs within [b] and stands for [v]. *)
Definition frep (b : Z) (v : F) (h : fe) : Prop := fe_bnd b h /\ Phi h = v.

Lemma represents_frep (b v : Z) (h : fe) : represents b v h -> frep b (toF v) h.
Proof. intros [B E]; split; [exact B | now apply toF_eq]. Qed.

Lemma frep_weaken (b c : Z) (v : F) (h : fe) : frep b v h -> (b <=? c)%Z = true -> frep c v h.
Proof. intros [B E] L; split; [exact (fe_bnd_weaken _ _ _ B L) | exact E]. Qed.

Lemma frep_mul (a b : Z) (v w : F) (f g : fe) :
  frep a v f -> frep b w g -> (a <=? b_in)%Z = true -> (b <=? b_in)%Z = true ->
  frep b_mul (v * w) (fe_mul f g).
Proof.
  intros [Bf <-] [Bg <-] La Lb; unfold Phi; rewrite <- toF_mul; apply represents_frep, fe_mul_spec;
    eapply fe_bnd_weaken; eassumption.
Qed.

Lemma frep_sq (a : Z) (v : F) (f : fe) : frep a v f -> (a <=? b_in)%Z = true ->
  frep b_mul (v * v) (fe_sq f).
Proof.
  intros [Bf <-] La; unfold Phi; rewrite <- toF_mul; apply represents_frep, fe_sq_spec.
  eapply fe_bnd_weaken; eassumption.
Qed.

Lemma frep_sq2 (a : Z) (v : F) (f : fe) : frep a v f -> (a <=? b_in)%Z = true ->
  frep b_mul ((1 + 1) * (v * v)) (fe_sq2 f).
Proof.
  intros [Bf <-] La; unfold Phi; rewrite <- toF_mul.
  replace ((1 + 1) * toF (fe_val f * fe_val f)) with (toF (2 * (fe_val f * fe_val f)))
    by (rewrite (toF_mul 2); reflexivity).
  apply represents_frep, fe_sq2_spec; eapply fe_bnd_weaken; eassumption.
Qed.

Lemma frep_add (a b c : Z) (v w : F) (f g : fe) :
  frep a v f -> frep b w g -> ((a + b =? c) && (2 * c <? 2 ^ 31))%Z = true ->
  frep c (v + w) (fe_add f g).
Proof.
  rewrite andb_true_iff, Z.eqb_eq, Z.ltb_lt; intros [Bf <-] [Bg <-] [<- L].
  destruct (fe_add_spec _ _ _ _ Bf Bg L) as [B E]; split; [exact B|].
  unfold Phi; now rewrite E, toF_add.
Qed.

Lemma frep_sub (a b c : Z) (v w : F) (f g : fe) :
  frep a v f -> frep b w g -> ((a + b =? c) && (2 * c <? 2 ^ 31))%Z = true ->
  frep c (v - w) (fe_sub f g).
Proof.
  rewrite andb_true_iff, Z.eqb_eq, Z.ltb_lt; intros [Bf <-] [Bg <-] [<- L].
  destruct (fe_sub_spec _ _ _ _ Bf Bg L) as [B E]; split; [exact B|].
  unfold Phi; now rewrite E, toF_sub.
Qed.

Lemma frep_neg (a : Z) (v : F) (f : fe) : frep a v f -> (2 * a <? 2 ^ 31)%Z = true ->
  frep a (- v) (fe_neg f).
Proof.
  rewrite Z.ltb_lt; intros [Bf <-] L; destruct (fe_neg_spec _ _ Bf L) as [B E]; split; [exact B|].
  unfold Phi; now rewrite E, toF_opp.
Qed.

Lemma fe_copy_id (f : fe) : fe_copy f = f.
Proof. now destruct f. Qed.

(** A concrete element. *)
Lemma frep_const (b : Z) (f : fe) : fe_bndb b f = true -> frep b (Phi f) f.
Proof. intros H; split; [now apply fe_bndb_spec | reflexivity]. Qed.

Lemma Phi_0 : Phi fe_0 = 0.
Proof. apply Zmod.eqb_eq; vm_compute; reflexivity. Qed.

Lemma Phi_1 : Phi fe_1 = 1.
Proof. apply Zmod.eqb_eq; vm_compute; reflexivity. Qed.

Lemma Phi_d : Phi ge_d = d.
Proof. apply Zmod.eqb_eq; vm_compute; reflexivity. Qed.

Lemma Phi_d2 : Phi d2 = d + d.
Proof. apply Zmod.eqb_eq; vm_compute; reflexivity. Qed.

(** One binding of a formula: from what the operands stand for to what the result does. *)
Ltac frep_of f := lazymatch goal with H : frep _ _ f |- _ => H end.

(** Further operations, for the files that need them. *)
Ltac fe_fact_more e := fail.

Ltac fe_fact e :=
  lazymatch e with
  | fe_mul ?f ?g =>
      let H := frep_of f in let K := frep_of g in
      constr:(frep_mul _ _ _ _ f g H K eq_refl eq_refl)
  | fe_sq ?f => let H := frep_of f in constr:(frep_sq _ _ f H eq_refl)
  | fe_sq2 ?f => let H := frep_of f in constr:(frep_sq2 _ _ f H eq_refl)
  | fe_neg ?f => let H := frep_of f in constr:(frep_neg _ _ f H eq_refl)
  | fe_add ?f ?g =>
      let H := frep_of f in let K := frep_of g in
      lazymatch type of H with frep ?a ?v _ => lazymatch type of K with frep ?b ?w _ =>
        let c := eval vm_compute in (a + b)%Z in constr:(frep_add a b c v w f g H K eq_refl) end end
  | fe_sub ?f ?g =>
      let H := frep_of f in let K := frep_of g in
      lazymatch type of H with frep ?a ?v _ => lazymatch type of K with frep ?b ?w _ =>
        let c := eval vm_compute in (a + b)%Z in constr:(frep_sub a b c v w f g H K eq_refl) end end
  | _ => fe_fact_more e
  end.

Ltac fe_step :=
  step_def;
  lazymatch goal with
  | E : ?t = ?e |- _ =>
      let P := fresh "R" t in
      let pf := fe_fact e in
      pose proof pf as P; rewrite <- E in P; clear E
  end.

(** ** Representations of a point *)

Definition is_p2 (P : point) (h : ge_p2) : Prop :=
  exists z, z <> 0 /\ frep b_red (px P * z) (p2_X h) /\ frep b_red (py P * z) (p2_Y h) /\
    frep b_red z (p2_Z h).

Definition is_p3 (P : point) (h : ge_p3) : Prop :=
  exists z, z <> 0 /\ frep b_red (px P * z) (p3_X h) /\ frep b_red (py P * z) (p3_Y h) /\
    frep b_red z (p3_Z h) /\ frep b_red (px P * py P * z) (p3_T h).

Definition is_p1p1 (P : point) (h : ge_p1p1) : Prop :=
  exists z t, z <> 0 /\ t <> 0 /\ frep b_in (px P * z) (p1_X h) /\ frep b_in (py P * t) (p1_Y h) /\
    frep b_in z (p1_Z h) /\ frep b_in t (p1_T h).

Definition is_cached (P : point) (c : ge_cached) : Prop :=
  exists z, z <> 0 /\ frep 36909874 (py P * z + px P * z) (YplusX c) /\
    frep 36909874 (py P * z - px P * z) (YminusX c) /\
    frep b_red z (ca_Z c) /\ frep b_mul (px P * py P * z * (d + d)) (T2d c).

Definition is_precomp (P : point) (c : ge_precomp) : Prop :=
  frep b_red (py P + px P) (yplusx c) /\ frep b_red (py P - px P) (yminusx c) /\
  frep b_red ((d + d) * px P * py P) (xy2d c).

Lemma frep_eq (a c : Z) (v w : F) (h : fe) :
  frep a v h -> (a <=? c)%Z = true -> v = w -> frep c w h.
Proof. intros H L <-; now apply (frep_weaken a). Qed.

Lemma nonzero_mul (a b : F) : a <> 0 -> b <> 0 -> a * b <> 0.
Proof. intros Na Nb E; apply F_integral in E; destruct E; contradiction. Qed.

Ltac nonzero_tac :=
  lazymatch goal with
  | |- 1 + 1 <> 0 => exact two_nonzero
  | |- _ * _ <> 0 => apply nonzero_mul; nonzero_tac
  | N : ?x <> 0 |- ?x <> 0 => exact N
  end.

(** Finishes a formula: every coordinate is known, up to an identity of the field. *)
Ltac coordinate_tac :=
  lazymatch goal with
  | R : frep ?a ?v ?f |- frep _ _ ?f =>
      apply (frep_eq a _ v _ f R); [reflexivity | try (unfold add_x, add_y; field; auto)]
  end.

(** ** Additions and doublings *)

(** Runs a formula that ends in a ge_p1p1 with the denominators [z] and [t]. *)
Ltac formula_tac z t :=
  exists z, t; splits; cbn [p1_X p1_Y p1_Z p1_T px py padd popp];
  [nonzero_tac | nonzero_tac | coordinate_tac | coordinate_tac | coordinate_tac | coordinate_tac].

Section Additions.
Context (P Q : point) (p : ge_p3) (Hp : is_p3 P p).
Let m := d * px P * px Q * py P * py Q.

Lemma sum_denominators : 1 + d * px P * px Q * py P * py Q <> 0 /\
  1 - d * px P * px Q * py P * py Q <> 0.
Proof. exact (complete _ _ _ _ (point_on P) (point_on Q)). Qed.

Lemma difference_denominators : 1 + d * px P * - px Q * py P * py Q <> 0 /\
  1 - d * px P * - px Q * py P * py Q <> 0.
Proof. exact (complete _ _ _ _ (point_on P) (point_on (popp Q))). Qed.

Lemma ge_add_spec (q : ge_cached) : is_cached Q q -> is_p1p1 (padd P Q) (ge_add p q).
Proof.
  destruct Hp as (z1 & N1 & X1 & Y1 & Z1 & T1); intros (z2 & N2 & Yp & Ym & Z2 & T2).
  destruct sum_denominators as [Np Nm].
  change (holds (is_p1p1 (padd P Q)) (ge_add p q)); enter ge_add; repeat fe_step.
  formula_tac ((1 + 1) * z1 * z2 * (1 + d * px P * px Q * py P * py Q))
    ((1 + 1) * z1 * z2 * (1 - d * px P * px Q * py P * py Q)).
Qed.

Lemma ge_sub_spec (q : ge_cached) : is_cached Q q -> is_p1p1 (padd P (popp Q)) (ge_sub p q).
Proof.
  destruct Hp as (z1 & N1 & X1 & Y1 & Z1 & T1); intros (z2 & N2 & Yp & Ym & Z2 & T2).
  destruct difference_denominators as [Np Nm].
  change (holds (is_p1p1 (padd P (popp Q))) (ge_sub p q)); enter ge_sub; repeat fe_step.
  formula_tac ((1 + 1) * z1 * z2 * (1 + d * px P * - px Q * py P * py Q))
    ((1 + 1) * z1 * z2 * (1 - d * px P * - px Q * py P * py Q)).
Qed.

Lemma ge_madd_spec (q : ge_precomp) : is_precomp Q q -> is_p1p1 (padd P Q) (ge_madd p q).
Proof.
  destruct Hp as (z1 & N1 & X1 & Y1 & Z1 & T1); intros (Yp & Ym & T2).
  destruct sum_denominators as [Np Nm].
  change (holds (is_p1p1 (padd P Q)) (ge_madd p q)); enter ge_madd; repeat fe_step.
  formula_tac ((1 + 1) * z1 * (1 + d * px P * px Q * py P * py Q))
    ((1 + 1) * z1 * (1 - d * px P * px Q * py P * py Q)).
Qed.

Lemma ge_msub_spec (q : ge_precomp) : is_precomp Q q -> is_p1p1 (padd P (popp Q)) (ge_msub p q).
Proof.
  destruct Hp as (z1 & N1 & X1 & Y1 & Z1 & T1); intros (Yp & Ym & T2).
  destruct difference_denominators as [Np Nm].
  change (holds (is_p1p1 (padd P (popp Q))) (ge_msub p q)); enter ge_msub; repeat fe_step.
  formula_tac ((1 + 1) * z1 * (1 + d * px P * - px Q * py P * py Q))
    ((1 + 1) * z1 * (1 - d * px P * - px Q * py P * py Q)).
Qed.
End Additions.

Lemma double_y2 (P : point) :
  py P * py P = 1 + d * (px P * px P) * (py P * py P) + px P * px P.
Proof.
  pose proof (point_on P) as H; unfold on_curve in H.
  transitivity (- (px P * px P) + py P * py P + px P * px P); [ring | now rewrite H].
Qed.

Lemma ge_p2_dbl_spec (P : point) (p : ge_p2) : is_p2 P p -> is_p1p1 (padd P P) (ge_p2_dbl p).
Proof.
  intros (z & N & X & Y & Z); destruct (sum_denominators P P) as [Np Nm].
  pose proof (double_y2 P) as E.
  change (holds (is_p1p1 (padd P P)) (ge_p2_dbl p)); enter ge_p2_dbl; repeat fe_step.
  exists (z * z * (1 + d * px P * px P * py P * py P)), (z * z * (1 - d * px P * px P * py P * py P)).
  splits; cbn [p1_X p1_Y p1_Z p1_T px py padd]; [nonzero_tac | nonzero_tac | ..].
  all: coordinate_tac.
  - transitivity (z * z * (py P * py P) - z * z * (px P * px P)); [ring | rewrite E; ring].
  - transitivity ((1 + 1) * (z * z) - (z * z * (py P * py P) - z * z * (px P * px P)));
      [ring | rewrite E; ring].
Qed.

(** ** Conversions *)

Ltac product_coordinate H K :=
  refine (frep_eq b_mul b_red _ _ _ (frep_mul _ _ _ _ _ _ H K eq_refl eq_refl) eq_refl _); ring.

Lemma ge_p1p1_to_p2_spec (P : point) (p : ge_p1p1) : is_p1p1 P p -> is_p2 P (ge_p1p1_to_p2 p).
Proof.
  intros (z & t & Nz & Nt & X & Y & Z & T); exists (z * t); unfold ge_p1p1_to_p2.
  splits; cbn [p2_X p2_Y p2_Z]; [nonzero_tac | ..].
  - product_coordinate X T.
  - product_coordinate Y Z.
  - product_coordinate Z T.
Qed.

Lemma ge_p1p1_to_p3_spec (P : point) (p : ge_p1p1) : is_p1p1 P p -> is_p3 P (ge_p1p1_to_p3 p).
Proof.
  intros (z & t & Nz & Nt & X & Y & Z & T); exists (z * t); unfold ge_p1p1_to_p3.
  splits; cbn [p3_X p3_Y p3_Z p3_T]; [nonzero_tac | ..].
  - product_coordinate X T.
  - product_coordinate Y Z.
  - product_coordinate Z T.
  - product_coordinate X Y.
Qed.

Lemma ge_p3_to_p2_spec (P : point) (p : ge_p3) : is_p3 P p -> is_p2 P (ge_p3_to_p2 p).
Proof.
  intros (z & N & X & Y & Z & T); exists z; unfold ge_p3_to_p2; cbn [p2_X p2_Y p2_Z].
  rewrite !fe_copy_id; auto.
Qed.

Lemma ge_p3_dbl_spec (P : point) (p : ge_p3) : is_p3 P p -> is_p1p1 (padd P P) (ge_p3_dbl p).
Proof. intros H; apply ge_p2_dbl_spec, ge_p3_to_p2_spec, H. Qed.

Lemma ge_p3_to_cached_spec (P : point) (p : ge_p3) : is_p3 P p -> is_cached P (ge_p3_to_cached p).
Proof.
  intros (z & N & X & Y & Z & T); exists z; unfold ge_p3_to_cached.
  cbn [YplusX YminusX ca_Z T2d]; rewrite fe_copy_id; splits; auto.
  - exact (frep_add b_red b_red 36909874 _ _ _ _ Y X eq_refl).
  - exact (frep_sub b_red b_red 36909874 _ _ _ _ Y X eq_refl).
  - rewrite <- Phi_d2; exact (frep_mul b_red b_red _ _ _ _ T (frep_const b_red d2 eq_refl) eq_refl eq_refl).
Qed.

Lemma frep_0 : frep b_red 0 fe_0.
Proof. rewrite <- Phi_0; now apply frep_const. Qed.

Lemma frep_1 : frep b_red 1 fe_1.
Proof. rewrite <- Phi_1; now apply frep_const. Qed.

Lemma one_nonzero : 1 <> 0 :> F.
Proof. now apply F_neq. Qed.

Lemma ge_p3_0_spec : is_p3 pzero ge_p3_0.
Proof.
  exists 1; splits; cbn [px py pzero p3_X p3_Y p3_Z p3_T ge_p3_0]; [exact one_nonzero|..].
  - refine (frep_eq b_red b_red _ _ _ frep_0 eq_refl _); ring.
  - refine (frep_eq b_red b_red _ _ _ frep_1 eq_refl _); ring.
  - exact frep_1.
  - refine (frep_eq b_red b_red _ _ _ frep_0 eq_refl _); ring.
Qed.

Lemma ge_p2_0_spec : is_p2 pzero ge_p2_0.
Proof. exact (ge_p3_to_p2_spec _ _ ge_p3_0_spec). Qed.
