(* ===== verification/GeCode.v ===== *)
(** * Encoding and decoding of points

    ge_p3_tobytes and ge_tobytes write the standard encoding of the point (y and the parity of x);
    ge_frombytes_negate_vartime recovers the negated point, and fails exactly on the strings that
    encode no point. *)

From Stdlib Require Import ZArith Lia List Bool Field Zmod.Zmod.
From S2P Require Import Prelude Machine Bytes Fe FeArith FeBytes FePow Prime Edwards Precomp Ge GeArith.
Import ListNotations.

(** ** Residues *)

Lemma to_Z_range (x : F) : (0 <= Zmod.unsigned x < p)%Z.
Proof.
  rewrite <- (Zmod.of_Z_unsigned x), Zmod.unsigned_of_Z; apply Z.mod_pos_bound; reflexivity.
Qed.

Lemma Phi_residue (f : fe) : Zmod.unsigned (Phi f) = (fe_val f mod p)%Z.
Proof. apply Zmod.unsigned_of_Z. Qed.

Lemma toF_pow (v k : Z) : (0 <= k)%Z -> toF (v ^ k) = Zmod.pow (toF v) k.
Proof.
  intros Hk; apply Zmod.unsigned_inj; rewrite Zmod.unsigned_pow_nonneg_r by exact Hk.
  unfold toF; rewrite !Zmod.unsigned_of_Z; symmetry; apply Z.mod_pow_l.
Qed.

Lemma frep_invert (a : Z) (v : F) (f : fe) : frep a v f -> (a <=? b_in)%Z = true -> v <> 0 ->
  frep b_mul (1 / v) (fe_invert f).
Proof.
  intros [B <-] L N.
  assert (E : 1 / Phi f = toF (fe_val f ^ (p - 2))).
  { rewrite toF_pow by (vm_compute; discriminate); fold (Phi f).
    rewrite (Zmod.fermat_inv (Phi f) N prime_p); field; exact N. }
  rewrite E; apply represents_frep, fe_invert_spec; eapply fe_bnd_weaken; eassumption.
Qed.

Lemma frep_pow22523 (a : Z) (v : F) (f : fe) : frep a v f -> (a <=? b_in)%Z = true ->
  frep b_mul (Zmod.pow v ((p - 5) / 8)) (fe_pow22523 f).
Proof.
  intros [B <-] L; unfold Phi; rewrite <- toF_pow by (vm_compute; discriminate).
  apply represents_frep, fe_pow22523_spec; eapply fe_bnd_weaken; eassumption.
Qed.

Lemma frep_tobytes (a : Z) (v : F) (f : fe) : frep a v f -> (a <=? b_sum)%Z = true ->
  fe_tobytes f = le_bytes 32 (Zmod.unsigned v).
Proof.
  intros [B <-] L; rewrite Phi_residue; apply fe_tobytes_spec; eapply fe_bnd_weaken; eassumption.
Qed.

Lemma frep_isnegative (a : Z) (v : F) (f : fe) : frep a v f -> (a <=? b_sum)%Z = true ->
  fe_isnegative f = (Zmod.unsigned v mod 2)%Z.
Proof.
  intros [B <-] L; rewrite Phi_residue; apply fe_isnegative_val; eapply fe_bnd_weaken; eassumption.
Qed.

Lemma frep_isnonzero (a : Z) (v : F) (f : fe) : frep a v f -> (a <=? b_sum)%Z = true ->
  fe_isnonzero f = if Zmod.eqb v 0 then 0%Z else 1%Z.
Proof.
  intros [B <-] L; rewrite fe_isnonzero_val by (eapply fe_bnd_weaken; eassumption).
  rewrite <- Phi_residue; destruct (Zmod.eqb_spec (Phi f) 0) as [->|N]; [reflexivity|].
  destruct (Z.eqb_spec (Zmod.unsigned (Phi f)) 0) as [E|E]; [|reflexivity].
  exfalso; apply N, Zmod.unsigned_inj; exact E.
Qed.

(** ** Encoding *)

(** The parity of x goes to the top bit of y. *)
Definition encode (P : point) : list Z :=
  le_bytes 32 (Zmod.unsigned (py P) + 2 ^ 255 * (Zmod.unsigned (px P) mod 2)).

Lemma le_bytes_top (y : Z) : (0 <= y < 2 ^ 255)%Z ->
  exists top, (0 <= top < 128)%Z /\ (top = y / 256 ^ 31)%Z /\ le_bytes 32 y = le_bytes 31 y ++ [top].
Proof.
  intros H; exists (y / 256 ^ 31)%Z.
  assert (T : (0 <= y / 256 ^ 31 < 128)%Z).
  { change (256 ^ 31)%Z with (2 ^ 248)%Z; split; [apply Z.div_pos; lia|].
    apply Z.div_lt_upper_bound; lia. }
  splits; [exact (proj1 T) | exact (proj2 T) | reflexivity|].
  rewrite (le_bytes_add 31 1), le_bytes_1; change (Z.of_nat 31) with 31%Z.
  now rewrite (Z.mod_small (y / 256 ^ 31)) by lia.
Qed.

Lemma shared_sign (top b : Z) : (0 <= top < 128)%Z -> (b = 0 \/ b = 1)%Z ->
  u8 (Z.lxor top (Z.shiftl b 7)) = (top + 128 * b)%Z.
Proof.
  intros Ht Hb; rewrite shiftl_mul by lia.
  assert (E : Z.lxor top (b * 2 ^ 7) = (top + b * 2 ^ 7)%Z).
  { rewrite <- (lor_add top b 7) by (cbn; lia); rewrite <- Z.lxor_lor; [reflexivity|].
    apply Z.bits_inj_0; intros k; rewrite Z.land_spec; destruct (Z.lt_ge_cases k 7) as [Hk|Hk].
    - rewrite <- shiftl_mul, (Z.shiftl_spec_low b) by lia; apply andb_false_r.
    - replace top with (top mod 2 ^ 7)%Z by (apply Z.mod_small; lia).
      rewrite Z.mod_pow2_bits_high by lia; reflexivity. }
  rewrite E; unfold u8; rewrite Z.mod_small by lia; lia.
Qed.

Lemma set_sign_spec (y b : Z) : (0 <= y < 2 ^ 255)%Z -> (b = 0 \/ b = 1)%Z ->
  set_sign (le_bytes 32 y) b = le_bytes 32 (y + 2 ^ 255 * b).
Proof.
  intros Hy Hb; destruct (le_bytes_top y Hy) as (top & Ht & Et & E).
  unfold set_sign; rewrite E, app_nth2, le_bytes_length by (rewrite le_bytes_length; lia).
  cbn [Nat.sub nth]; rewrite shared_sign by assumption.
  rewrite <- (le_bytes_length 31 y) at 2; rewrite update_app.
  change 32%nat with (31 + 1)%nat; rewrite le_bytes_add, le_bytes_1.
  replace (2 ^ 255 * b)%Z with (128 * b * 256 ^ 31)%Z by (change (2 ^ 255)%Z with (128 * 256 ^ 31)%Z; ring).
  change (Z.of_nat 31) with 31%Z; rewrite Z.div_add, <- Et, (Z.mod_small (top + _)) by lia.
  f_equal; apply le_val_inj; rewrite ?le_bytes_length, ?le_val_bytes; auto with bytes.
  symmetry; apply Z_mod_plus_full.
Qed.

Lemma parity (x : Z) : (x mod 2 = 0 \/ x mod 2 = 1)%Z.
Proof. pose proof (Z.mod_pos_bound x 2); lia. Qed.

Lemma encode_coords (X Y : fe) (P : point) (a b : Z) :
  frep a (px P) X -> frep b (py P) Y -> (a <=? b_sum)%Z = true -> (b <=? b_sum)%Z = true ->
  set_sign (fe_tobytes Y) (fe_isnegative X) = encode P.
Proof.
  intros RX RY La Lb; rewrite (frep_tobytes _ _ _ RY Lb), (frep_isnegative _ _ _ RX La).
  apply set_sign_spec; [|apply parity]; pose proof (to_Z_range (py P)); unfold p in *; lia.
Qed.

Lemma affine_coordinate (a b : Z) (x z : F) (f g : fe) :
  frep a (x * z) f -> frep b z g -> (a <=? b_in)%Z = true -> (b <=? b_in)%Z = true -> z <> 0 ->
  frep b_mul x (fe_mul f (fe_invert g)).
Proof.
  intros Hf Hg La Lb N.
  refine (frep_eq b_mul b_mul _ _ _ (frep_mul a b_mul _ _ _ _ Hf (frep_invert b _ _ Hg Lb N) La eq_refl)
    eq_refl _); field; exact N.
Qed.

Lemma ge_tobytes_spec (P : point) (h : ge_p2) : is_p2 P h -> ge_tobytes h = encode P.
Proof.
  intros (z & N & X & Y & Z); unfold ge_tobytes; cbv zeta.
  apply (encode_coords _ _ P b_mul b_mul); try reflexivity;
    eapply affine_coordinate; eauto; reflexivity.
Qed.

Lemma ge_p3_tobytes_spec (P : point) (h : ge_p3) : is_p3 P h -> ge_p3_tobytes h = encode P.
Proof.
  intros H; rewrite <- (ge_tobytes_spec P _ (ge_p3_to_p2_spec P h H)).
  unfold ge_tobytes, ge_p3_tobytes, ge_p3_to_p2; cbn [p2_X p2_Y p2_Z]; now rewrite !fe_copy_id.
Qed.

(** ** Square roots of ratios *)

Section Root.
Context (y : F).
Let u := y * y - 1.
Let v := y * y * d + 1.

(** The candidate root u v^3 (u v^7)^((p-5)/8). *)
Definition candidate : F :=
  Zmod.pow (v * v * v * (v * v * v) * v * u) ((p - 5) / 8) * (v * v * v) * u.

Lemma v_nonzero : v <> 0.
Proof.
  unfold v; intros E; destruct (Zmod.eqb_spec y 0) as [->|N].
  - apply one_nonzero; etransitivity; [|exact E]; ring.
  - apply (square_root_ratio im y N); rewrite im_square; apply F_opp_zero.
    transitivity (- (y * y * d + 1)); [ring | rewrite E; ring].
Qed.

Lemma root_on_curve (x : F) : on_curve x y <-> x * x * v = u.
Proof.
  unfold on_curve, u, v; split; intros H.
  - apply F_opp_zero; transitivity (1 + d * (x * x) * (y * y) - (- (x * x) + y * y)); [ring|].
    rewrite H; ring.
  - apply F_opp_zero; transitivity (y * y - 1 - x * x * (y * y * d + 1)); [ring | rewrite H; ring].
Qed.

Lemma pow_square (a : F) (k : Z) : (0 <= k)%Z -> Zmod.pow a k * Zmod.pow a k = Zmod.pow (a * a) k.
Proof. intros Hk; symmetry; now apply Zmod.pow_mul_l_nonneg. Qed.

(** When a root exists, the candidate is a root up to a factor [im]. *)
Lemma candidate_root (x : F) : x * x * v = u ->
  candidate * candidate * v = u \/ candidate * candidate * v = - u.
Proof.
  intros Hx; destruct (Zmod.eqb_spec x 0) as [Zx|Nx].
  - left; assert (U : u = 0) by (rewrite <- Hx, Zx; ring).
    unfold candidate; rewrite U; ring.
  - set (b := x * (v * v * (v * v))).
    assert (Eb : v * v * v * (v * v * v) * v * u = b * b) by (unfold b; rewrite <- Hx; ring).
    assert (Nb : b <> 0) by (pose proof v_nonzero; unfold b; nonzero_tac).
    set (w := Zmod.pow b ((p - 1) / 2)).
    assert (W : w * w = 1).
    { unfold w; rewrite <- Zmod.pow_2_r, <- Zmod.pow_mul_r_nonneg by (vm_compute; discriminate).
      change ((p - 1) / 2 * 2)%Z with (p - 1)%Z; now apply F_fermat. }
    assert (C : candidate * candidate * v = u * w).
    { unfold candidate; rewrite Eb.
      set (r := Zmod.pow (b * b) ((p - 5) / 8)).
      assert (R : r * r * (b * b) = w).
      { unfold r, w; rewrite <- pow_square by (vm_compute; discriminate).
        transitivity (Zmod.pow b ((p - 5) / 8 + (p - 5) / 8 + ((p - 5) / 8 + (p - 5) / 8) + 2)).
        - rewrite !Zmod.pow_add_r_nonneg, Zmod.pow_2_r by (vm_compute; discriminate); ring.
        - f_equal. }
      rewrite <- R, <- Eb; ring. }
    assert (S : (w - 1) * (w + 1) = 0) by (transitivity (w * w - 1); [ring | rewrite W; ring]).
    apply F_integral in S; destruct S as [S|S]; [left | right]; rewrite C.
    + transitivity (u * (w - 1) + u); [ring | rewrite S; ring].
    + transitivity (u * (w + 1) - u); [ring | rewrite S; ring].
Qed.
End Root.

(** ** Decoding *)

Lemma parity_opp (x : F) : x <> 0 ->
  (Zmod.unsigned (- x) mod 2 = 1 - Zmod.unsigned x mod 2)%Z.
Proof.
  intros N; pose proof (to_Z_range x) as R; rewrite Zmod.unsigned_opp.
  assert (Nz : Zmod.unsigned x <> 0%Z) by (intros E; apply N, Zmod.unsigned_inj; exact E).
  replace (- Zmod.unsigned x mod p)%Z with (p - Zmod.unsigned x)%Z.
  - unfold p in *; Z.to_euclidean_division_equations; lia.
  - apply (Z.mod_unique_pos _ _ (-1)); lia.
Qed.

(** The y coordinate and the sign bit that a string encodes. *)
Definition code_y (s : list Z) : F := toF (le_val s mod 2 ^ 255).
Definition code_sign (s : list Z) : Z := (le_val s / 2 ^ 255)%Z.

Lemma code_sign_bit (s : list Z) : bytes s -> length s = 32%nat ->
  Z.shiftr (nth 31 s 0%Z) 7 = code_sign s /\ (code_sign s = 0 \/ code_sign s = 1)%Z.
Proof.
  intros Hs Ls; unfold code_sign; change (2 ^ 255)%Z with (2 ^ (8 * Z.of_nat 31) * 2 ^ 7)%Z.
  rewrite <- Z.div_div, le_val_div by (assumption || lia || (rewrite Ls; lia)).
  assert (L1 : length (skipn 31 s) = 1%nat) by (rewrite length_skipn, Ls; reflexivity).
  assert (N : nth 31 s 0%Z = nth 0 (skipn 31 s) 0%Z) by (now rewrite nth_skipn).
  pose proof (bytes_skipn 31 s Hs) as B; rewrite N; destruct (skipn 31 s) as [|b [|]]; try discriminate L1.
  apply Forall_inv in B; unfold is_byte in B; cbn [nth le_val]; rewrite shiftr_div by lia.
  replace (b + 256 * 0)%Z with b by ring; split; [reflexivity|].
  change (2 ^ 7)%Z with 128%Z; Z.to_euclidean_division_equations; lia.
Qed.

Ltac fe_fact_more e ::=
  lazymatch e with fe_pow22523 ?f => let H := frep_of f in constr:(frep_pow22523 _ _ f H eq_refl) end.

(** A decoded point: its y is the encoded one, and its x has the opposite sign. *)
Definition decodes (s : list Z) (P : point) : Prop :=
  py P = code_y s /\ (px P = 0 \/ (Zmod.unsigned (px P) mod 2 <> code_sign s)%Z).

Lemma Phi_sqrtm1 : Phi sqrtm1 = im.
Proof. apply Zmod.eqb_eq; vm_compute; reflexivity. Qed.

Lemma sub_opp (a b : F) : a - - b = a + b.
Proof. ring. Qed.

(** The end of the function, from a root [X]. *)
Lemma finish_spec (s : list Z) (x : F) (X Y : fe) :
  bytes s -> length s = 32%nat -> on_curve x (code_y s) ->
  frep b_mul x X -> frep b_red (code_y s) Y ->
  let X' := if fe_isnegative X =? Z.shiftr (nth 31 s 0%Z) 7 then fe_neg X else X in
  exists P, decodes s P /\ is_p3 P (P3 X' Y fe_1 (fe_mul X' Y)).
Proof.
  intros Hs Ls Hc RX RY; cbv zeta; destruct (code_sign_bit s Hs Ls) as [-> Hb].
  rewrite (frep_isnegative _ _ _ RX eq_refl).
  assert (G : forall x' X', on_curve x' (code_y s) -> frep b_mul x' X' ->
    (x' = 0 \/ (Zmod.unsigned x' mod 2 <> code_sign s)%Z) ->
    exists P, decodes s P /\ is_p3 P (P3 X' Y fe_1 (fe_mul X' Y))).
  { intros x' X' Hc' R' S'; exists (Pt x' (code_y s) (proj2 (on_curveb_spec _ _) Hc')).
    split; [split; [reflexivity | exact S']|]; exists 1; cbn [px py p3_X p3_Y p3_Z p3_T].
    splits; [exact one_nonzero | | | exact frep_1 |].
    - refine (frep_eq b_mul b_red _ _ _ R' eq_refl _); ring.
    - refine (frep_eq b_red b_red _ _ _ RY eq_refl _); ring.
    - refine (frep_eq b_mul b_red _ _ _ (frep_mul _ _ _ _ _ _ R' RY eq_refl eq_refl) eq_refl _); ring. }
  destruct (Z.eqb_spec (Zmod.unsigned x mod 2) (code_sign s)) as [E|E].
  - apply (G (- x)); [now apply neg_closed | exact (frep_neg b_mul _ _ RX eq_refl) |].
    destruct (Zmod.eqb_spec x 0) as [->|N]; [left; ring | right].
    rewrite parity_opp by exact N; pose proof (parity (Zmod.unsigned x)); lia.
  - now apply (G x); auto.
Qed.

(** Status 0 and a decoded point, or status -1 and no point with this y. *)
Definition decode_result (s : list Z) (r : Z * ge_p3) : Prop :=
  (fst r = 0%Z /\ exists P, decodes s P /\ is_p3 P (snd r)) \/
  (fst r = (-1)%Z /\ forall x, ~ on_curve x (code_y s)).

Lemma ge_frombytes_spec (h : ge_p3) (s : list Z) : bytes s -> length s = 32%nat ->
  decode_result s (ge_frombytes_negate_vartime h s).
Proof.
  intros Hs Ls.
  assert (RY : frep b_red (code_y s) (fe_frombytes s))
    by (apply represents_frep, fe_frombytes_spec; assumption).
  pose proof (frep_const 1 fe_1 eq_refl) as R1; rewrite Phi_1 in R1.
  pose proof (frep_const b_red ge_d eq_refl) as Rd; rewrite Phi_d in Rd.
  change (holds (decode_result s) (ge_frombytes_negate_vartime h s)).
  enter ge_frombytes_negate_vartime.
  step_def; rewrite <- EhY in RY; clear EhY; step_def; rewrite <- EhZ in R1.
  repeat fe_step; step_def.
  set (y := code_y s) in *.
  match type of RhX4 with frep _ ?r _ => change r with (candidate y) in * end.
  set (c := candidate y) in *.
  rewrite (frep_isnonzero _ _ _ Rcheck eq_refl).
  pose proof (frep_add b_mul 16944989 33889977 _ _ _ _ Rvxx0 Ru0 eq_refl) as Rsum.
  pose proof (frep_mul _ b_red _ _ _ _ RhX4 (frep_const b_red sqrtm1 eq_refl) eq_refl eq_refl) as Rim.
  rewrite Phi_sqrtm1 in Rim; unfold holds.
  destruct (Zmod.eqb_spec (c * c * (y * y * d + 1) - (y * y - 1)) 0) as [E1|E1]; cbn [negb Z.eqb].
  - left; rewrite Efinish; cbv zeta; cbn [fst snd]; split; [reflexivity|]; rewrite EhZ.
    apply (finish_spec s c); auto; apply root_on_curve, F_opp_zero, E1.
  - rewrite (frep_isnonzero _ _ _ Rsum eq_refl).
    destruct (Zmod.eqb_spec (c * c * (y * y * d + 1) + (y * y - 1)) 0) as [E2|E2]; cbn [negb Z.eqb].
    + left; rewrite Efinish; cbv zeta; cbn [fst snd]; split; [reflexivity|]; rewrite EhZ.
      apply (finish_spec s (c * im)); auto; apply root_on_curve, F_opp_zero.
      fold y; transitivity (im * im * (c * c * (y * y * d + 1)) - (y * y - 1)); [ring|].
      rewrite im_square; transitivity (- (c * c * (y * y * d + 1) + (y * y - 1))); [ring|].
      rewrite E2; ring.
    + right; cbn [fst]; split; [reflexivity|]; intros x Hx; apply root_on_curve in Hx.
      destruct (candidate_root y x Hx) as [E|E]; [apply E1 | apply E2]; fold c in E; rewrite E; ring.
Qed.

(** ** Uniqueness of the encoding *)

Lemma same_y (P Q : point) : py P = py Q -> px P = px Q \/ px P = - px Q.
Proof.
  intros E; pose proof (point_on P) as HP; pose proof (point_on Q) as HQ.
  apply root_on_curve in HP, HQ; rewrite E in HP.
  assert (S : (px P - px Q) * (px P + px Q) * (py Q * py Q * d + 1) = 0).
  { transitivity (px P * px P * (py Q * py Q * d + 1) - px Q * px Q * (py Q * py Q * d + 1)); [ring|].
    rewrite HP, HQ; ring. }
  apply F_integral in S; destruct S as [S|S]; [|destruct (v_nonzero _ S)].
  apply F_integral in S; destruct S as [S|S]; [left | right].
  - transitivity (px P - px Q + px Q); [ring | rewrite S; ring].
  - transitivity (px P + px Q - px Q); [ring | rewrite S; ring].
Qed.

Lemma opp_0 : - (0 : F) = 0.
Proof. ring. Qed.

Lemma decodes_unique (s : list Z) (P Q : point) : bytes s -> length s = 32%nat ->
  decodes s P -> decodes s Q -> P = Q.
Proof.
  intros Hs Ls [YP SP] [YQ SQ]; destruct (code_sign_bit s Hs Ls) as [_ Hb].
  assert (Y : py P = py Q) by congruence.
  destruct (same_y P Q Y) as [E|E]; [now apply point_eq|].
  destruct (Zmod.eqb_spec (px Q) 0) as [Z|N]; [now apply point_eq; [rewrite E, Z, opp_0|]|].
  assert (NP : px P <> 0).
  { intros Z; apply N; transitivity (- - px Q); [ring | rewrite <- E, Z; ring]. }
  destruct SP as [SP|SP], SQ as [SQ|SQ]; try contradiction.
  rewrite E, parity_opp in SP by exact N; pose proof (parity (Zmod.unsigned (px Q))); lia.
Qed.

Lemma encode_bytes (P : point) : bytes (encode P) /\ length (encode P) = 32%nat.
Proof. split; [apply le_bytes_bytes | apply le_bytes_length]. Qed.

Lemma encode_val (P : point) :
  le_val (encode P) = (Zmod.unsigned (py P) + 2 ^ 255 * (Zmod.unsigned (px P) mod 2))%Z.
Proof.
  unfold encode; rewrite le_val_bytes; apply Z.mod_small.
  pose proof (to_Z_range (py P)); pose proof (parity (Zmod.unsigned (px P))).
  change (256 ^ Z.of_nat 32)%Z with (2 ^ 255 * 2)%Z; unfold p in *; lia.
Qed.

Lemma encode_code (P : point) :
  code_y (encode P) = py P /\ code_sign (encode P) = (Zmod.unsigned (px P) mod 2)%Z.
Proof.
  unfold code_y, code_sign; rewrite encode_val.
  assert (R : (0 <= Zmod.unsigned (py P) < 2 ^ 255)%Z)
    by (pose proof (to_Z_range (py P)); unfold p in *; lia).
  split.
  - rewrite (Z.mul_comm (2 ^ 255)), Z_mod_plus_full, Z.mod_small by exact R; apply Zmod.of_Z_unsigned.
  - rewrite (Z.mul_comm (2 ^ 255)), Z.div_add, Z.div_small by (lia || exact R); reflexivity.
Qed.

(** Decoding an encoding gives the opposite point. *)
Lemma decodes_encode (P : point) : decodes (encode P) (popp P).
Proof.
  destruct (encode_code P) as [EY ES]; split; cbn [px py popp]; [now rewrite EY|].
  destruct (Zmod.eqb_spec (px P) 0) as [->|N]; [left; apply opp_0 | right].
  rewrite ES, parity_opp by exact N; pose proof (parity (Zmod.unsigned (px P))); lia.
Qed.

Lemma encode_inj (P Q : point) : encode P = encode Q -> P = Q.
Proof.
  intros E; destruct (encode_bytes P) as [HB HL].
  rewrite <- (popp_involutive P), <- (popp_involutive Q); f_equal.
  apply (decodes_unique (encode P)); auto using decodes_encode; rewrite E; apply decodes_encode.
Qed.

Lemma decode_encode (P : point) (h : ge_p3) :
  fst (ge_frombytes_negate_vartime h (encode P)) = 0%Z /\
  is_p3 (popp P) (snd (ge_frombytes_negate_vartime h (encode P))).
Proof.
  destruct (encode_bytes P) as [HB HL].
  destruct (ge_frombytes_spec h (encode P) HB HL) as [[E (Q & D & R)]|[_ N]].
  - split; [exact E|]; now rewrite (decodes_unique _ _ _ HB HL (decodes_encode P) D).
  - destruct (encode_code P) as [EY _]; destruct (N (px P)); rewrite EY; apply point_on.
Qed.
