(* ===== verification/Limbs.v ===== *)
(** * Fast evaluation of the field

    The tables of precomp_data.h and the order of the base point are checked by evaluation.  This
    file gives the evaluator: elements of Z/p as lists of 31-bit digits in the kernel's machine
    integers, with multiplication, addition and subtraction that keep the residue.  Nothing here
    models code. *)

From Stdlib Require Import ZArith Lia List Bool Zmod.Zmod Uint63.
From S2P Require Import Prelude FeArith Edwards.
Import ListNotations.
Local Open Scope Z_scope.

#[local] Abbreviation phi := Uint63.to_Z.

(** ** Digit strings *)

Definition radix : int := 2147483648%uint63.

Fixpoint lval (l : list int) : Z :=
  match l with [] => 0 | x :: l' => phi x + 2 ^ 31 * lval l' end.

Definition digit (x : int) : Prop := phi x < 2 ^ 31.
Definition wf (l : list int) : Prop := Forall digit l.

Lemma phi_nonneg (x : int) : 0 <= phi x.
Proof. apply to_Z_bounded. Qed.

Lemma phi_radix : phi radix = 2 ^ 31.
Proof. reflexivity. Qed.

(** A column of a multiplication never overflows the 63 bits. *)
Lemma column (a x y c : int) : digit a -> digit x -> digit y -> digit c ->
  let t := (a * x + y + c)%uint63 in
  phi t = phi a * phi x + phi y + phi c /\ digit (t mod radix)%uint63 /\ digit (t / radix)%uint63 /\
  phi t = phi (t mod radix)%uint63 + 2 ^ 31 * phi (t / radix)%uint63.
Proof.
  unfold digit; intros Ha Hx Hy Hc; cbv zeta.
  pose proof (phi_nonneg a); pose proof (phi_nonneg x); pose proof (phi_nonneg y); pose proof (phi_nonneg c).
  assert (M : phi a * phi x <= (2 ^ 31 - 1) * (2 ^ 31 - 1)) by (apply Z.mul_le_mono_nonneg; lia).
  assert (N : 0 <= phi a * phi x) by (apply Z.mul_nonneg_nonneg; lia).
  assert (E : phi (a * x + y + c)%uint63 = phi a * phi x + phi y + phi c).
  { rewrite !Uint63.add_spec, Uint63.mul_spec; change wB with (2 ^ 63).
    rewrite (Z.mod_small (phi a * phi x)) by lia; rewrite (Z.mod_small (_ + phi y)) by lia.
    apply Z.mod_small; lia. }
  rewrite Uint63.mod_spec, Uint63.div_spec, phi_radix, E; splits; [reflexivity | | |].
  - apply Z.mod_pos_bound; lia.
  - apply Z.div_lt_upper_bound; lia.
  - pose proof (Z.div_mod (phi a * phi x + phi y + phi c) (2 ^ 31)); lia.
Qed.

Lemma digit_0 : digit 0.
Proof. reflexivity. Qed.

Lemma digit_1 : digit 1.
Proof. reflexivity. Qed.

Fixpoint add_carry (l : list int) (c : int) : list int :=
  match l with
  | [] => if (c =? 0)%uint63 then [] else [c]
  | y :: l' => let t := (1 * 0 + y + c)%uint63 in (t mod radix)%uint63 :: add_carry l' (t / radix)%uint63
  end.

(** [a * l + acc + c] *)
Fixpoint mul_row (a : int) (l acc : list int) (c : int) : list int :=
  match l with
  | [] => add_carry acc c
  | x :: l' =>
      let t := (a * x + hd 0%uint63 acc + c)%uint63 in
      (t mod radix)%uint63 :: mul_row a l' (tl acc) (t / radix)%uint63
  end.

Fixpoint lmul (l m : list int) : list int :=
  match l with [] => [] | a :: l' => mul_row a m (0%uint63 :: lmul l' m) 0 end.

Lemma add_carry_spec (l : list int) (c : int) : wf l -> digit c ->
  wf (add_carry l c) /\ lval (add_carry l c) = lval l + phi c.
Proof.
  intros H; revert c; induction H as [|y l Hy _ IH]; intros c Hc; cbn [add_carry lval].
  - destruct (c =? 0)%uint63 eqn:E.
    + apply Uint63.eqb_spec in E; subst; split; [constructor | reflexivity].
    + split; [now repeat constructor | cbn [lval]; lia].
  - destruct (column 1 0 y c digit_1 digit_0 Hy Hc) as (E & D1 & D2 & S); cbv zeta in *.
    destruct (IH _ D2) as [W V]; split; [now constructor|]; cbn [lval]; rewrite V.
    change (phi 1) with 1 in E; change (phi 0) with 0 in E; lia.
Qed.

Lemma mul_row_spec (a : int) (l acc : list int) (c : int) : digit a -> wf l -> wf acc -> digit c ->
  wf (mul_row a l acc c) /\ lval (mul_row a l acc c) = phi a * lval l + lval acc + phi c.
Proof.
  intros Ha H; revert acc c; induction H as [|x l Hx _ IH]; intros acc c Hacc Hc; cbn [mul_row lval].
  - destruct (add_carry_spec acc c Hacc Hc) as [W ->]; split; [exact W | lia].
  - assert (Hd : digit (hd 0%uint63 acc) /\ wf (tl acc) /\
      lval acc = phi (hd 0%uint63 acc) + 2 ^ 31 * lval (tl acc)).
    { destruct Hacc; cbn [hd tl lval]; splits; auto using digit_0; constructor. }
    destruct Hd as (Hh & Ht & V); destruct (column a x _ c Ha Hx Hh Hc) as (E & D1 & D2 & S).
    cbv zeta in *; destruct (IH (tl acc) _ Ht D2) as [W U]; split; [now constructor|].
    cbn [lval]; rewrite U, V; lia.
Qed.

Lemma lmul_spec (l m : list int) : wf l -> wf m -> wf (lmul l m) /\ lval (lmul l m) = lval l * lval m.
Proof.
  intros Hl Hm; induction Hl as [|a l Ha _ [W V]]; cbn [lmul lval]; [split; [constructor | lia]|].
  destruct (mul_row_spec a m (0%uint63 :: lmul l m) 0 Ha Hm) as [W' V'];
    [now constructor; [apply digit_0|] | exact digit_0 |].
  split; [exact W'|]; rewrite V'; cbn [lval]; rewrite V; change (phi 0) with 0; lia.
Qed.

(** ** Residues *)

(** 2^279 = 19 * 2^24 modulo p: the digits above the ninth are multiplied down. *)
Definition lfold (l : list int) : list int := mul_row 318767104 (skipn 9 l) (firstn 9 l) 0.

Lemma lval_split (n : nat) (l : list int) :
  (n <= length l)%nat -> lval l = lval (firstn n l) + 2 ^ (31 * Z.of_nat n) * lval (skipn n l).
Proof.
  revert l; induction n as [|n IH]; intros l Hl.
  - cbn [firstn skipn lval]; change (2 ^ (31 * Z.of_nat 0)) with 1; lia.
  - destruct l as [|x l]; [cbn in Hl; lia|]; cbn [firstn skipn lval].
    rewrite (IH l) by (cbn [length] in Hl; lia).
    replace (31 * Z.of_nat (S n)) with (31 + 31 * Z.of_nat n) by lia; rewrite Z.pow_add_r by lia; lia.
Qed.

Lemma lfold_spec (l : list int) : wf l -> wf (lfold l) /\ toF (lval (lfold l)) = toF (lval l).
Proof.
  intros H; unfold lfold.
  assert (W' := H); rewrite <- (firstn_skipn 9 l) in W'; apply Forall_app in W'; destruct W' as [W1 W2].
  destruct (mul_row_spec 318767104 _ _ 0 eq_refl W2 W1 digit_0) as [W V]; split; [exact W|]; rewrite V.
  apply toF_eq; change (phi 0) with 0; change (phi 318767104) with 318767104.
  destruct (Nat.le_gt_cases 9 (length l)) as [L|L].
  - rewrite (lval_split 9 l L); apply eqm_intro with (k := - (2 ^ 24) * lval (skipn 9 l)).
    unfold p; change (2 ^ (31 * Z.of_nat 9)) with (2 ^ 24 * 2 ^ 255); lia.
  - rewrite skipn_all2, firstn_all2 by lia; cbn [lval]; apply eqm_intro with (k := 0); lia.
Qed.

(** [l] is a digit string of the element [v]. *)
Definition lrep (v : F) (l : list int) : Prop := wf l /\ toF (lval l) = v.

Lemma lrep_fold (v : F) (l : list int) : lrep v l -> lrep v (lfold l).
Proof. intros [W <-]; exact (lfold_spec l W). Qed.

Definition lmulp (l m : list int) : list int := lfold (lfold (lmul l m)).

Lemma lrep_mul (v w : F) (l m : list int) : lrep v l -> lrep w m -> lrep (v * w)%F (lmulp l m).
Proof.
  intros [Wl <-] [Wm <-]; unfold lmulp; do 2 apply lrep_fold.
  destruct (lmul_spec l m Wl Wm) as [W V]; split; [exact W|]; now rewrite V, toF_mul.
Qed.

Definition laddp (l m : list int) : list int := lfold (mul_row 1 l m 0).

Lemma lrep_add (v w : F) (l m : list int) : lrep v l -> lrep w m -> lrep (v + w)%F (laddp l m).
Proof.
  intros [Wl <-] [Wm <-]; apply lrep_fold.
  destruct (mul_row_spec 1 l m 0 digit_1 Wl Wm digit_0) as [W V]; split; [exact W|].
  rewrite V, <- toF_add; f_equal; change (phi 1) with 1; change (phi 0) with 0; lia.
Qed.

(** Digits of a constant, checked when used. *)
Fixpoint ldigits (n : nat) (z : Z) : list int :=
  match n with
  | O => []
  | S n' => Uint63.of_Z (Z.land z (2 ^ 31 - 1)) :: ldigits n' (Z.shiftr z 31)
  end.

Definition wfb (l : list int) : bool := forallb (fun x => phi x <? 2 ^ 31) l.

Lemma wfb_spec (l : list int) : wfb l = true -> wf l.
Proof.
  unfold wfb; rewrite forallb_forall; intros H; apply Forall_forall; intros x Hx.
  now apply Z.ltb_lt, H.
Qed.

Definition digits_of (z : Z) (l : list int) : bool := wfb l && (lval l =? z).

Lemma lrep_digits (z : Z) (l : list int) : digits_of z l = true -> lrep (toF z) l.
Proof.
  unfold digits_of; rewrite andb_true_iff, Z.eqb_eq; intros [W <-]; split; [now apply wfb_spec | reflexivity].
Qed.

Definition lminus_1 : list int := Eval vm_compute in ldigits 9 (p - 1).

Definition lsubp (l m : list int) : list int := laddp l (lmulp lminus_1 m).

Lemma lrep_sub (v w : F) (l m : list int) : lrep v l -> lrep w m -> lrep (v - w)%F (lsubp l m).
Proof.
  intros Hl Hm.
  assert (H1 : lrep (toF (p - 1)) lminus_1) by (apply lrep_digits; vm_compute; reflexivity).
  assert (E : toF (p - 1) = (- (1))%F) by (apply Zmod.eqb_eq; vm_compute; reflexivity); rewrite E in H1.
  replace (v - w)%F with (v + - (1) * w)%F by ring.
  apply lrep_add; [exact Hl | now apply lrep_mul].
Qed.

(** Equality of residues, sound and complete enough. *)
Definition fold255 (z : Z) : Z := Z.land z (2 ^ 255 - 1) + 19 * Z.shiftr z 255.

Lemma fold255_spec (z : Z) : toF (fold255 z) = toF z.
Proof.
  unfold fold255; change (2 ^ 255 - 1) with (Z.ones 255); rewrite Z.land_ones, shiftr_div by lia.
  apply toF_eq, eqm_intro with (k := - (z / 2 ^ 255)); pose proof (Z.div_mod z (2 ^ 255)); unfold p; lia.
Qed.

Definition leqb (l m : list int) : bool :=
  let z := fold255 (lval l) - fold255 (lval m) in (z =? 0) || (z =? p) || (z =? - p).

Lemma leqb_spec (v w : F) (l m : list int) : lrep v l -> lrep w m -> leqb l m = true -> v = w.
Proof.
  intros [_ <-] [_ <-]; unfold leqb; rewrite !orb_true_iff, !Z.eqb_eq; intros H.
  rewrite <- (fold255_spec (lval l)), <- (fold255_spec (lval m)); apply toF_eq.
  destruct H as [[H|H]|H]; [apply eqm_intro with (k := 0) | apply eqm_intro with (k := 1)
    | apply eqm_intro with (k := -1)]; lia.
Qed.
