(* ===== verification/GeTable.v ===== *)
(** * The precomputed tables hold the right multiples of the base point

    Every entry of [base] and [Bi] is checked, by evaluation over Z/p (Limbs), to be the multiple
    of the base point it stands for; the checkers need no division, and are proved to imply the
    claim for the points of Edwards.  The same projective arithmetic shows that the base point has
    order ell.  [select] then returns any multiple b * 256^pos * B with -8 <= b <= 8. *)

From Stdlib Require Import ZArith Lia List Bool Field Zmod.Zmod Uint63.
From S2P Require Import Prelude Machine Bytes Fe FeArith FeBytes FePow Prime Sc ScArith.
From S2P Require Import Edwards Precomp Ge GeArith Limbs.
Import ListNotations.

(** ** Projective arithmetic *)

(** X, Y and Z with x = X/Z and y = Y/Z. *)
Definition triple : Type := list int * list int * list int.

Definition tpt (P : point) (t : triple) : Prop :=
  let '(X, Y, Z) := t in exists z, z <> 0 /\ lrep (px P * z) X /\ lrep (py P * z) Y /\ lrep z Z.

Lemma lrep_eq (v w : F) (l : list int) : lrep v l -> v = w -> lrep w l.
Proof. now intros H <-. Qed.

(** The value of an expression over digit strings, from the values of its variables. *)
Ltac lrep_of e :=
  lazymatch e with
  | lmulp ?a ?b => let H := lrep_of a in let K := lrep_of b in constr:(lrep_mul _ _ _ _ H K)
  | laddp ?a ?b => let H := lrep_of a in let K := lrep_of b in constr:(lrep_add _ _ _ _ H K)
  | lsubp ?a ?b => let H := lrep_of a in let K := lrep_of b in constr:(lrep_sub _ _ _ _ H K)
  | _ => lazymatch goal with H : lrep _ e |- _ => H end
  end.

Ltac lrep_tac :=
  lazymatch goal with |- lrep _ ?e => let H := lrep_of e in refine (lrep_eq _ _ _ H _) end.

Definition ld : list int := Eval vm_compute in ldigits 9 (Zmod.unsigned d).
Definition lone : list int := Eval vm_compute in ldigits 9 1.

Lemma lrep_d : lrep d ld.
Proof.
  rewrite <- (Zmod.of_Z_unsigned d); apply (lrep_digits (Zmod.unsigned d)); vm_compute; reflexivity.
Qed.

Lemma lrep_one : lrep 1 lone.
Proof. apply (lrep_digits 1); vm_compute; reflexivity. Qed.

Definition tadd (t u : triple) : triple :=
  let '(X1, Y1, Z1) := t in
  let '(X2, Y2, Z2) := u in
  let a := lmulp Z1 Z2 in
  let b := lmulp a a in
  let c := lmulp X1 X2 in
  let e := lmulp Y1 Y2 in
  let m := lmulp ld (lmulp c e) in
  let f := lsubp b m in
  let g := laddp b m in
  (lmulp (lmulp a f) (laddp (lmulp X1 Y2) (lmulp Y1 X2)), lmulp (lmulp a g) (laddp e c), lmulp f g).

Lemma tadd_spec (P Q : point) (t u : triple) : tpt P t -> tpt Q u -> tpt (padd P Q) (tadd t u).
Proof.
  destruct t as [[X1 Y1] Z1], u as [[X2 Y2] Z2].
  intros (z1 & N1 & RX1 & RY1 & RZ1) (z2 & N2 & RX2 & RY2 & RZ2); pose proof lrep_d as Rd.
  destruct (sum_denominators P Q) as [Np Nm]; unfold tadd; cbv zeta.
  exists (z1 * z1 * z2 * z2 * (z1 * z1 * z2 * z2) *
      ((1 + d * px P * px Q * py P * py Q) * (1 - d * px P * px Q * py P * py Q))).
  splits; cbn [px py padd]; [nonzero_tac | lrep_tac .. ]; unfold add_x, add_y; field; auto.
Qed.

Definition tdbl (t : triple) : triple :=
  let '(X, Y, Z) := t in
  let a := lmulp X X in
  let b := lmulp Y Y in
  let c := lmulp Z Z in
  let f := lsubp b a in
  let j := lsubp (laddp c c) f in
  let e := lmulp X Y in
  (lmulp (laddp e e) j, lmulp (laddp a b) f, lmulp f j).

Lemma tdbl_spec (P : point) (t : triple) : tpt P t -> tpt (padd P P) (tdbl t).
Proof.
  destruct t as [[X Y] Z]; intros (z & N & RX & RY & RZ); unfold tdbl; cbv zeta.
  destruct (sum_denominators P P) as [Np Nm]; pose proof (double_y2 P) as E.
  assert (E1 : z * z * (1 + d * px P * px P * py P * py P) = z * z * (py P * py P - px P * px P))
    by (rewrite E; ring).
  exists (z * z * (1 + d * px P * px P * py P * py P) * (z * z * (1 - d * px P * px P * py P * py P))).
  splits; cbn [px py padd]; [nonzero_tac | lrep_tac ..]; unfold add_x, add_y.
  - transitivity ((1 + 1) * (px P * py P) * (z * z) * ((1 + 1) * (z * z) - z * z * (py P * py P - px P * px P)));
      [ring | rewrite <- E1; field; auto].
  - transitivity ((px P * px P + py P * py P) * (z * z) * (z * z * (py P * py P - px P * px P)));
      [ring | rewrite <- E1; field; auto].
  - transitivity (z * z * (py P * py P - px P * px P) *
      ((1 + 1) * (z * z) - z * z * (py P * py P - px P * px P))); [ring | rewrite <- E1; ring].
Qed.

Fixpoint tmul (k : positive) (t : triple) : triple :=
  match k with
  | xH => t
  | xO k' => tdbl (tmul k' t)
  | xI k' => tadd t (tdbl (tmul k' t))
  end.

Lemma tmul_spec (k : positive) (P : point) (t : triple) : tpt P t -> tpt (pmul_pos k P) (tmul k t).
Proof.
  intros H; induction k as [k IH|k IH|]; cbn [tmul pmul_pos]; cbv zeta;
    auto using tadd_spec, tdbl_spec.
Qed.

(** ** Affine points as digits *)

Definition pair : Type := list int * list int.

Definition apt (P : point) (c : pair) : Prop := lrep (px P) (fst c) /\ lrep (py P) (snd c).

Definition triple_of (c : pair) : triple := (fst c, snd c, lone).

Lemma triple_of_spec (P : point) (c : pair) : apt P c -> tpt P (triple_of c).
Proof.
  intros [Hx Hy]; exists 1; splits; [exact one_nonzero | | | exact lrep_one].
  - refine (lrep_eq _ _ _ Hx _); ring.
  - refine (lrep_eq _ _ _ Hy _); ring.
Qed.

(** A triple stands for an affine point. *)
Definition tis (t : triple) (c : pair) : bool :=
  let '(X, Y, Z) := t in leqb X (lmulp (fst c) Z) && leqb Y (lmulp (snd c) Z).

Lemma F_cancel (a b z : F) : z <> 0 -> a * z = b * z -> a = b.
Proof.
  intros N E; apply F_opp_zero; transitivity ((a * z - b * z) / z); [field; exact N|].
  rewrite E; field; exact N.
Qed.

Lemma tis_spec (P : point) (t : triple) (c : pair) (x y : F) :
  tpt P t -> lrep x (fst c) -> lrep y (snd c) -> tis t c = true -> apt P c.
Proof.
  destruct t as [[X Y] Z]; intros (z & N & RX & RY & RZ) Hx Hy; unfold tis.
  rewrite andb_true_iff; intros [EX EY].
  apply (leqb_spec _ _ _ _ RX (lrep_mul _ _ _ _ Hx RZ)), F_cancel in EX; [|exact N].
  apply (leqb_spec _ _ _ _ RY (lrep_mul _ _ _ _ Hy RZ)), F_cancel in EY; [|exact N].
  split; [now rewrite EX | now rewrite EY].
Qed.

(** [c3] is the sum of [c1] and [c2], by cross multiplication. *)
Definition sum_b (c1 c2 c3 : pair) : bool :=
  let '(x1, y1) := c1 in
  let '(x2, y2) := c2 in
  let '(x3, y3) := c3 in
  let c := lmulp x1 x2 in
  let e := lmulp y1 y2 in
  let m := lmulp ld (lmulp c e) in
  leqb (laddp x3 (lmulp x3 m)) (laddp (lmulp x1 y2) (lmulp y1 x2)) &&
  leqb y3 (laddp (laddp e c) (lmulp y3 m)).

Lemma sum_b_spec (P Q : point) (c1 c2 c3 : pair) (x y : F) :
  apt P c1 -> apt Q c2 -> lrep x (fst c3) -> lrep y (snd c3) -> sum_b c1 c2 c3 = true ->
  apt (padd P Q) c3.
Proof.
  destruct c1 as [x1 y1], c2 as [x2 y2], c3 as [x3 y3]; cbn [fst snd].
  intros [Hx1 Hy1] [Hx2 Hy2] Hx Hy; pose proof lrep_d as Rd; unfold sum_b; cbn [fst snd] in *.
  destruct (sum_denominators P Q) as [Np Nm]; rewrite andb_true_iff; intros [EX EY].
  assert (X : x = px (padd P Q)).
  { apply (F_cancel _ _ _ Np); cbn [px padd]; unfold add_x.
    match type of EX with leqb ?a ?b = true => let H := lrep_of a in let K := lrep_of b in
      apply (leqb_spec _ _ _ _ H K) in EX end.
    transitivity (x + x * (d * (px P * px Q * (py P * py Q)))); [ring | rewrite EX; field; exact Np]. }
  assert (Y : y = py (padd P Q)).
  { apply (F_cancel _ _ _ Nm); cbn [py padd]; unfold add_y.
    match type of EY with leqb ?a ?b = true => let H := lrep_of a in let K := lrep_of b in
      apply (leqb_spec _ _ _ _ H K) in EY end.
    transitivity (y - y * (d * (px P * px Q * (py P * py Q)))); [ring | rewrite EY at 1; field; exact Nm]. }
  subst; split; assumption.
Qed.

Definition pB : pair :=
  Eval vm_compute in (ldigits 9 (Zmod.unsigned (px B)), ldigits 9 (Zmod.unsigned (py B))).

Lemma apt_B : apt B pB.
Proof.
  split.
  - rewrite <- (Zmod.of_Z_unsigned (px B)); apply (lrep_digits (Zmod.unsigned (px B))).
    vm_compute; reflexivity.
  - rewrite <- (Zmod.of_Z_unsigned (py B)); apply (lrep_digits (Zmod.unsigned (py B))).
    vm_compute; reflexivity.
Qed.

Lemma point_of_apt (P Q : point) (c : pair) : apt P c -> apt Q c -> P = Q.
Proof. intros [[_ A] [_ A']] [[_ C] [_ C']]; apply point_eq; congruence. Qed.

(** The base point has order ell. *)
Definition pO : pair := Eval vm_compute in (ldigits 9 0, ldigits 9 1).

Lemma apt_0 : apt pzero pO.
Proof. split; [apply (lrep_digits 0) | apply (lrep_digits 1)]; vm_compute; reflexivity. Qed.

Lemma order_check : tis (tmul (Z.to_pos ell) (triple_of pB)) pO = true.
Proof. vm_cast_no_check (eq_refl true). Qed.

Lemma base_order : smul ell B = pzero.
Proof.
  apply (point_of_apt _ _ pO); [|exact apt_0].
  refine (tis_spec _ _ _ 0 1 _ _ _ order_check); [|apply apt_0 ..].
  apply (tmul_spec (Z.to_pos ell)), triple_of_spec, apt_B.
Qed.

(** ** Entries of the tables *)

Definition fe_digits (f : fe) : list int := ldigits 9 (fe_val f + 4 * p).

Definition fe_ok (f : fe) : bool := fe_bndb b_red f && digits_of (fe_val f + 4 * p) (fe_digits f).

Lemma fe_ok_spec (f : fe) : fe_ok f = true -> fe_bnd b_red f /\ lrep (Phi f) (fe_digits f).
Proof.
  unfold fe_ok; rewrite andb_true_iff; intros [Hb Hd]; split; [now apply fe_bndb_spec|].
  apply lrep_digits in Hd; refine (lrep_eq _ _ _ Hd _); apply toF_eq, eqm_intro with (k := 4%Z); lia.
Qed.

Definition half : F := 1 / (1 + 1).
Definition lhalf : list int := Eval vm_compute in ldigits 9 (Zmod.unsigned half).

Lemma lrep_half : lrep half lhalf.
Proof.
  rewrite <- (Zmod.of_Z_unsigned half); apply (lrep_digits (Zmod.unsigned half)); vm_compute; reflexivity.
Qed.

(** The affine point of an entry: half the difference, half the sum. *)
Definition halves (l m : list int) : pair := (lmulp lhalf (lsubp l m), lmulp lhalf (laddp l m)).
Definition epair (c : ge_precomp) : pair := halves (fe_digits (yplusx c)) (fe_digits (yminusx c)).

Lemma halves_spec (v w : F) (l m : list int) : lrep v l -> lrep w m ->
  lrep (half * (v - w)) (fst (halves l m)) /\ lrep (half * (v + w)) (snd (halves l m)).
Proof. pose proof lrep_half; intros Hl Hm; split; cbn [halves fst snd]; lrep_tac; reflexivity. Qed.

Definition entry_ok (c : ge_precomp) (e : pair) : bool :=
  fe_ok (yplusx c) && fe_ok (yminusx c) && fe_ok (xy2d c) &&
  leqb (fe_digits (xy2d c)) (lmulp (lmulp (laddp ld ld) (fst e)) (snd e)).

Lemma half_twice (a b : F) : half * (a - b) + half * (a + b) = a /\
  half * (a + b) - half * (a - b) = b.
Proof. unfold half; split; field; exact two_nonzero. Qed.

Lemma lrep_unique (v w : F) (l : list int) : lrep v l -> lrep w l -> v = w.
Proof. intros [_ <-] [_ E]; exact E. Qed.

Lemma entry_ok_spec (c : ge_precomp) : entry_ok c (epair c) = true ->
  (exists x y, lrep x (fst (epair c)) /\ lrep y (snd (epair c))) /\
  (forall P, apt P (epair c) -> is_precomp P c).
Proof.
  unfold entry_ok; rewrite !andb_true_iff; intros (((Hp & Hm) & Hd) & E).
  apply fe_ok_spec in Hp, Hm, Hd; destruct Hp as [Bp Rp], Hm as [Bm Rm], Hd as [Bd Rd].
  destruct (halves_spec _ _ _ _ Rp Rm : lrep _ (fst (epair c)) /\ lrep _ (snd (epair c))) as [Rx Ry].
  generalize dependent (epair c); intros e E Rx Ry.
  split; [eexists; eexists; split; eassumption|]; intros P [HX HY]; pose proof lrep_d as Rdd.
  match type of E with leqb _ ?m = true => let H := lrep_of m in apply (leqb_spec _ _ _ _ Rd H) in E end.
  destruct (half_twice (Phi (yplusx c)) (Phi (yminusx c))) as [S D].
  rewrite (lrep_unique _ _ _ Rx HX), (lrep_unique _ _ _ Ry HY) in S, D.
  unfold is_precomp; splits; (split; [assumption|]); [rewrite <- S; ring | rewrite <- D; ring | exact E].
Qed.

(** A row: entry j + 1 is entry j plus entry 0. *)
Definition chain_ok (step : pair) (row : list ge_precomp) (pts : list pair) : bool :=
  forallb (fun j => entry_ok (nth j row precomp_0) (nth j pts (epair precomp_0))) (seq 0 8) &&
  forallb (fun j => sum_b step (nth j pts (epair precomp_0)) (nth (S j) pts (epair precomp_0))) (seq 0 7).

Lemma chain_ok_spec (S0 P0 : point) (step : pair) (row : list ge_precomp) :
  apt S0 step -> apt P0 (epair (nth 0 row precomp_0)) -> chain_ok step row (map epair row) = true ->
  forall j, (j < 8)%nat ->
    apt (padd (smul (Z.of_nat j) S0) P0) (epair (nth j row precomp_0)) /\
    is_precomp (padd (smul (Z.of_nat j) S0) P0) (nth j row precomp_0).
Proof.
  intros HS H0; unfold chain_ok; rewrite andb_true_iff, !forallb_forall; intros [HE HC] j Hj.
  assert (E : forall j, (j < 8)%nat -> entry_ok (nth j row precomp_0) (epair (nth j row precomp_0)) = true).
  { intros i Hi; rewrite <- (map_nth epair); apply HE, in_seq; lia. }
  enough (A : apt (padd (smul (Z.of_nat j) S0) P0) (epair (nth j row precomp_0)))
    by (split; [exact A | now apply (entry_ok_spec _ (E j Hj))]).
  induction j as [|j IH]; [now cbn [Z.of_nat smul]; rewrite padd_0_l|].
  rewrite Nat2Z.inj_succ, smul_succ, padd_assoc.
  destruct (entry_ok_spec _ (E (S j) Hj)) as [(x & y & Hx & Hy) _].
  apply (sum_b_spec _ _ step (epair (nth j row precomp_0)) _ x y HS (IH ltac:(lia)) Hx Hy).
  rewrite <- !(map_nth epair); apply HC, in_seq; lia.
Qed.

(** ** The table of the base point *)

Definition entry (i j : nat) : ge_precomp := nth j (nth i base []) precomp_0.

Definition row_ok (i : nat) : bool :=
  let row := nth i base [] in
  let pts := map epair row in
  chain_ok (nth 0 pts (epair precomp_0)) row pts.

Definition link_ok (i : nat) : bool :=
  tis (tmul 32 (triple_of (epair (entry i 7)))) (epair (entry (S i) 0)).

#[local] Opaque tis tmul epair entry_ok sum_b.

Lemma first_checked : tis (triple_of pB) (epair (entry 0 0)) = true.
Proof. vm_cast_no_check (eq_refl true). Qed.

Lemma rows_checked : forallb row_ok (seq 0 32) = true.
Proof. vm_cast_no_check (eq_refl true). Qed.

Lemma links_checked : forallb link_ok (seq 0 31) = true.
Proof. vm_cast_no_check (eq_refl true). Qed.

Lemma row_checked (i : nat) : (i < 32)%nat -> row_ok i = true.
Proof. intros Hi; apply (proj1 (forallb_forall _ _) rows_checked), in_seq; lia. Qed.

Lemma link_checked (i : nat) : (i < 31)%nat ->
  tis (tmul 32 (triple_of (epair (entry i 7)))) (epair (entry (S i) 0)) = true.
Proof.
  intros Hi; pose proof (proj1 (forallb_forall _ _) links_checked i (proj2 (in_seq 31 0 i) ltac:(lia))) as L.
  unfold link_ok in L; exact L.
Qed.

(** [256^pos * B] *)
Definition power (pos : nat) : point := smul (256 ^ Z.of_nat pos) B.

Lemma row_ok_spec (i : nat) (P : point) : row_ok i = true -> apt P (epair (entry i 0)) ->
  forall j, (j < 8)%nat -> apt (smul (Z.of_nat (S j)) P) (epair (entry i j)) /\
    is_precomp (smul (Z.of_nat (S j)) P) (entry i j).
Proof.
  unfold row_ok, entry; cbv zeta; intros H HP j Hj; rewrite map_nth in H.
  destruct (chain_ok_spec P P _ _ HP HP H j Hj) as [A R].
  rewrite Nat2Z.inj_succ, smul_succ, padd_comm; now split.
Qed.

Lemma chain_head (step : pair) (row : list ge_precomp) : chain_ok step row (map epair row) = true ->
  exists x y, lrep x (fst (epair (nth 0 row precomp_0))) /\ lrep y (snd (epair (nth 0 row precomp_0))).
Proof.
  intros H; apply andb_prop in H; destruct H as [H _].
  apply (proj1 (entry_ok_spec _ (eq_trans (f_equal (entry_ok _) (eq_sym (map_nth epair row precomp_0 0)))
    (proj1 (forallb_forall _ _) H 0%nat (or_introl eq_refl))))).
Qed.

Lemma base_row (i : nat) : (i < 32)%nat -> apt (power i) (epair (entry i 0)).
Proof.
  induction i as [|i IH]; intros Hi; destruct (chain_head _ _ (row_checked _ Hi)) as (x & y & Hx & Hy).
  - exact (tis_spec _ _ _ _ _ (triple_of_spec _ _ apt_B) Hx Hy first_checked).
  - destruct (row_ok_spec i _ (row_checked i ltac:(lia)) (IH ltac:(lia)) 7 ltac:(lia)) as [A _].
    pose proof (tis_spec _ _ _ _ _ (tmul_spec 32 _ _ (triple_of_spec _ _ A)) Hx Hy
      (link_checked i ltac:(lia))) as R.
    replace (power (S i)) with (pmul_pos 32 (smul (Z.of_nat 8) (power i))); [exact R|].
    change (pmul_pos 32 ?P) with (smul 32 P); unfold power; rewrite <- !smul_mul; f_equal.
    replace (Z.of_nat (S i)) with (1 + Z.of_nat i)%Z by lia; rewrite Z.pow_add_r by lia; lia.
Qed.

(** Entry (pos, j) is (j + 1) 256^pos B. *)
Lemma base_entry (i j : nat) : (i < 32)%nat -> (j < 8)%nat ->
  is_precomp (smul (Z.of_nat (S j) * 256 ^ Z.of_nat i) B) (entry i j).
Proof.
  intros Hi Hj; rewrite smul_mul.
  exact (proj2 (row_ok_spec i _ (row_checked i Hi) (base_row i Hi) j Hj)).
Qed.

(** ** The odd multiples for the double multiplication *)

Lemma Bi_first_checked : tis (triple_of pB) (epair (nth 0 Bi precomp_0)) = true.
Proof. vm_cast_no_check (eq_refl true). Qed.

Lemma Bi_checked : chain_ok (epair (entry 0 1)) Bi (map epair Bi) = true.
Proof. vm_cast_no_check (eq_refl true). Qed.

(** Entry j is (2j + 1) B. *)
Lemma Bi_entry (j : nat) : (j < 8)%nat -> is_precomp (smul (2 * Z.of_nat j + 1) B) (nth j Bi precomp_0).
Proof.
  intros Hj; destruct (chain_head _ _ Bi_checked) as (x & y & Hx & Hy).
  pose proof (tis_spec _ _ _ _ _ (triple_of_spec _ _ apt_B) Hx Hy Bi_first_checked) as AB.
  destruct (row_ok_spec 0 _ (row_checked 0 ltac:(lia)) (base_row 0 ltac:(lia)) 1 ltac:(lia)) as [A2 _].
  replace (smul (2 * Z.of_nat j + 1) B) with (padd (smul (Z.of_nat j) (smul (Z.of_nat 2) (power 0))) B).
  - exact (proj2 (chain_ok_spec _ B _ Bi A2 AB Bi_checked j Hj)).
  - unfold power; rewrite <- !smul_mul, smul_add, smul_1; do 2 f_equal.
    change (256 ^ Z.of_nat 0)%Z with 1%Z; lia.
Qed.

(** ** Selection *)

Lemma is_precomp_i32 (P : point) (c : ge_precomp) : is_precomp P c ->
  fe_i32 (yplusx c) /\ fe_i32 (yminusx c) /\ fe_i32 (xy2d c).
Proof. intros ([Bp _] & [Bm _] & [Bd _]); splits; apply (fe_bnd_i32 b_red); trivial; reflexivity. Qed.

Lemma cmov_spec (P Q : point) (t u : ge_precomp) (b : Z) : is_precomp P t -> is_precomp Q u ->
  (b = 0 \/ b = 1)%Z -> cmov t u b = if (b =? 0)%Z then t else u.
Proof.
  intros Ht Hu Hb; apply is_precomp_i32 in Ht, Hu; destruct Ht as (A1 & A2 & A3), Hu as (C1 & C2 & C3).
  unfold cmov; rewrite !fe_cmov_spec by assumption; destruct t as [t1 t2 t3], u as [u1 u2 u3].
  cbn [yplusx yminusx xy2d]; now destruct (b =? 0)%Z.
Qed.

Lemma precomp_0_spec : is_precomp pzero precomp_0.
Proof.
  unfold is_precomp; cbn [px py pzero yplusx yminusx xy2d precomp_0]; splits.
  - refine (frep_eq b_red b_red _ _ _ frep_1 eq_refl _); ring.
  - refine (frep_eq b_red b_red _ _ _ frep_1 eq_refl _); ring.
  - refine (frep_eq b_red b_red _ _ _ frep_0 eq_refl _); ring.
Qed.

Lemma precomp_opp_spec (P : point) (t : ge_precomp) : is_precomp P t ->
  is_precomp (popp P) (Precomp (fe_copy (yminusx t)) (fe_copy (yplusx t)) (fe_neg (xy2d t))).
Proof.
  intros (Hp & Hm & Hd); unfold is_precomp; cbn [px py popp yplusx yminusx xy2d]; rewrite !fe_copy_id.
  splits.
  - refine (frep_eq b_red b_red _ _ _ Hm eq_refl _); ring.
  - refine (frep_eq b_red b_red _ _ _ Hp eq_refl _); ring.
  - refine (frep_eq b_red b_red _ _ _ (frep_neg b_red _ _ Hd eq_refl) eq_refl _); ring.
Qed.

(** The arithmetic of select on a digit. *)
Definition digit_babs (b : Z) : Z := s8 (u8 (b - Z.shiftl (Z.land (- negative b) b) 1)).

Lemma digit_cases (Q : Z -> Prop) : (forall k, (k <= 16)%nat -> Q (Z.of_nat k - 8)%Z) ->
  forall b, (-8 <= b <= 8)%Z -> Q b.
Proof. intros H b Hb; replace b with (Z.of_nat (Z.to_nat (b + 8)) - 8)%Z by lia; apply H; lia. Qed.

Lemma digit_sign (b : Z) : (-8 <= b <= 8)%Z ->
  negative b = (if b <? 0 then 1 else 0)%Z /\ digit_babs b = Z.abs b.
Proof. revert b; apply digit_cases; intros k Hk; do 17 (destruct k as [|k]; [split; reflexivity|]); lia. Qed.

Lemma equal_spec (a c : Z) : (0 <= a <= 8)%Z -> (1 <= c <= 8)%Z ->
  equal a c = if (a =? c)%Z then 1%Z else 0%Z.
Proof.
  intros Ha Hc; replace a with (Z.of_nat (Z.to_nat a)) by lia; replace c with (Z.of_nat (Z.to_nat c)) by lia.
  assert (La : (Z.to_nat a <= 8)%nat) by lia; assert (Lc : (Z.to_nat c <= 8)%nat) by lia.
  generalize dependent (Z.to_nat a); generalize dependent (Z.to_nat c); clear; intros c Hc a Ha.
  do 9 (destruct a as [|a]; [do 9 (destruct c as [|c]; [reflexivity|]); lia|]); lia.
Qed.

(** The point held after the entries up to [k] have been considered. *)
Definition held (a : Z) (k : nat) : Z := if (a <=? Z.of_nat k)%Z then a else 0%Z.

Lemma held_8 (a : Z) : (a <= 8)%Z -> held a 8 = a.
Proof. intros H; unfold held; apply Z.leb_le in H; change (Z.of_nat 8) with 8%Z; now rewrite H. Qed.

Lemma held_0 (a : Z) : (0 <= a)%Z -> held a 0 = 0%Z.
Proof. intros H; unfold held; change (Z.of_nat 0) with 0%Z; destruct (Z.leb_spec a 0); lia. Qed.

Lemma select_step (P : point) (a : Z) (k : nat) (t u : ge_precomp) : (0 <= a <= 8)%Z -> (k < 8)%nat ->
  is_precomp (smul (held a k) P) t -> is_precomp (smul (Z.of_nat (S k)) P) u ->
  is_precomp (smul (held a (S k)) P) (cmov t u (equal a (Z.of_nat (S k)))).
Proof.
  intros Ha Hk Ht Hu; rewrite equal_spec by lia.
  rewrite (cmov_spec _ _ _ _ _ Ht Hu) by (destruct (_ =? _)%Z; auto).
  unfold held in *; destruct (Z.eqb_spec a (Z.of_nat (S k))) as [->|N]; cbn [Z.eqb].
  - now rewrite Z.leb_refl.
  - destruct (Z.leb_spec a (Z.of_nat k)); destruct (Z.leb_spec a (Z.of_nat (S k))); (exact Ht || lia).
Qed.

Lemma select_spec (pos : nat) (b : Z) : (pos < 32)%nat -> (-8 <= b <= 8)%Z ->
  is_precomp (smul (b * 256 ^ Z.of_nat pos) B) (select pos b).
Proof.
  intros Hpos Hb; destruct (digit_sign b Hb) as [EN EA]; set (P := power pos).
  rewrite smul_mul; fold (power pos); fold P.
  assert (HE : forall j, (j < 8)%nat -> is_precomp (smul (Z.of_nat (S j)) P) (entry pos j))
    by (intros j Hj; unfold P, power; rewrite <- smul_mul; now apply base_entry).
  unfold select; cbv zeta; fold (digit_babs b); rewrite EA, EN; set (a := Z.abs b).
  assert (Ha : (0 <= a <= 8)%Z) by lia.
  match goal with |- is_precomp _ (cmov ?t _ _) => assert (T : is_precomp (smul a P) t) end.
  { rewrite <- (held_8 a) at 1 by lia.
    apply (select_step P a 7 _ (entry pos 7)); [exact Ha | lia | | apply HE; lia].
    do 7 (match goal with |- is_precomp (smul (held a ?k) P) (cmov ?t ?u _) =>
      let k' := eval cbv in (Nat.pred k) in
      apply (select_step P a k' t u); [exact Ha | lia | | apply HE; lia] end).
    rewrite held_0 by lia; exact precomp_0_spec. }
  rewrite (cmov_spec _ _ _ _ _ T (precomp_opp_spec _ _ T)) by (destruct (b <? 0)%Z; auto).
  destruct (Z.ltb_spec b 0); cbn [Z.eqb].
  - replace b with (- a)%Z by lia; rewrite smul_opp; now apply precomp_opp_spec.
  - replace b with a by lia; exact T.
Qed.
