(* ===== verification/GeDigits.v ===== *)
(** * Signed digit expansions of a scalar

    The two recodings of ge.c keep the value of the scalar: ge_scalarmult_base writes it with 64
    digits in [-8, 8] in radix 16, and slide with 256 digits in radix 2 that are zero or odd of
    absolute value at most 15.  The slide of a scalar below 2^253 never carries out of the
    array. *)

From Stdlib Require Import ZArith Lia List Bool.
From S2P Require Import Prelude Machine Bytes Ge.
Import ListNotations.
Local Open Scope Z_scope.

(** The value of a digit string, low digit first. *)
Fixpoint dval (r : Z) (l : list Z) : Z :=
  match l with [] => 0 | x :: l' => x + r * dval r l' end.

Lemma dval_app (r : Z) (l m : list Z) :
  dval r (l ++ m) = dval r l + r ^ Z.of_nat (length l) * dval r m.
Proof.
  induction l as [|x l IH]; cbn [app dval length].
  - change (Z.of_nat 0) with 0; rewrite Z.pow_0_r; lia.
  - rewrite IH, Nat2Z.inj_succ, Z.pow_succ_r by lia; lia.
Qed.

(** ** Radix 16 *)

Definition is_nibble (x : Z) : Prop := 0 <= x <= 15.

Lemma byte_nibbles (b : Z) : is_byte b ->
  [s8 (Z.land (Z.shiftr b 0) 15); s8 (Z.land (Z.shiftr b 4) 15)] = [b mod 16; b / 16].
Proof.
  unfold is_byte; intros Hb; change 15 with (Z.ones 4); rewrite !Z.land_ones, !shiftr_div by lia.
  change (2 ^ 0) with 1; change (2 ^ 4) with 16; rewrite Z.div_1_r.
  rewrite !s8_small, (Z.mod_small (b / 16)); [reflexivity|..];
    Z.to_euclidean_division_equations; lia.
Qed.

Lemma nibbles_spec (a : list Z) : bytes a -> length a = 32%nat ->
  length (nibbles a) = 64%nat /\ Forall is_nibble (nibbles a) /\ dval 16 (nibbles a) = le_val a /\
  nth 63 (nibbles a) 0 = nth 31 a 0 / 16.
Proof.
  intros Ha L.
  assert (E : nibbles a = flat_map (fun b => [b mod 16; b / 16]) a).
  { rewrite <- (map_nth_seq a 0) at 2; rewrite L; unfold nibbles; rewrite !flat_map_concat_map, map_map.
    f_equal; apply map_ext_in; intros i Hi; apply byte_nibbles, forall_nth_default; [|exact Ha].
    unfold is_byte; lia. }
  rewrite E; clear E; splits.
  - rewrite flat_map_constant_length with (c := 2%nat) by reflexivity; lia.
  - clear L; induction Ha as [|b a Hb _ IH]; [constructor|]; unfold is_byte in Hb.
    cbn [flat_map app]; repeat constructor; unfold is_nibble;
      try (Z.to_euclidean_division_equations; lia); exact IH.
  - clear L; induction Ha as [|b a Hb _ IH]; [reflexivity|].
    cbn [flat_map app dval le_val]; rewrite IH; pose proof (Z.div_mod b 16); lia.
  - do 32 (destruct a as [|? a]; [discriminate L|]); destruct a; [reflexivity | discriminate L].
Qed.

Lemma nibble_carry (x c : Z) : is_nibble x -> c = 0 \/ c = 1 ->
  let v := s8 (x + c) in
  let k := Z.shiftr (s8 (v + 8)) 4 in
  let e := s8 (v - Z.shiftl k 4) in
  (k = 0 \/ k = 1) /\ -8 <= e <= 7 /\ e + 16 * k = x + c.
Proof.
  unfold is_nibble; intros Hx Hc; cbv zeta; rewrite (s8_small (x + c)), (s8_small (x + c + 8)) by lia.
  rewrite shiftr_div, shiftl_mul by lia; change (2 ^ 4) with 16.
  assert (K : ((x + c + 8) / 16 = 0 \/ (x + c + 8) / 16 = 1) /\
    -8 <= x + c - (x + c + 8) / 16 * 16 <= 7) by (Z.to_euclidean_division_equations; lia).
  rewrite s8_small by lia; lia.
Qed.

(** The carry loop, on the digits done and those to do. *)
Lemma recode_loop (todo done : list Z) (x c : Z) : Forall is_nibble todo -> c = 0 \/ c = 1 ->
  Forall (fun e => -8 <= e <= 7) done ->
  exists done' c', length done' = (length done + length todo)%nat /\ (c' = 0 \/ c' = 1) /\
    Forall (fun e => -8 <= e <= 7) done' /\
    dval 16 done' + 16 ^ Z.of_nat (length done') * c' =
      dval 16 done + 16 ^ Z.of_nat (length done) * (c + dval 16 todo) /\
    fold_left recode_step (seq (length done) (length todo)) (done ++ todo ++ [x], c) = (done' ++ [x], c').
Proof.
  intros Ht; revert done c; induction Ht as [|t todo Hn _ IH]; intros done c Hc Hd.
  - exists done, c; cbn [length seq fold_left app dval]; splits; auto; lia.
  - destruct (nibble_carry t c Hn Hc) as (Hk & He & V); cbv zeta in *.
    set (v := s8 (t + c)) in *; set (k := Z.shiftr (s8 (v + 8)) 4) in *; set (e := s8 (v - Z.shiftl k 4)) in *.
    destruct (IH (done ++ [e]) k Hk) as (done' & c' & L & C & D & S & F).
    { apply Forall_app; split; [exact Hd | now repeat constructor]. }
    exists done', c'; rewrite length_app in L, S; cbn [length] in *; splits; auto; [lia | |].
    + rewrite S, dval_app; cbn [dval length]; rewrite Nat.add_1_r, Nat2Z.inj_succ, Z.pow_succ_r by lia.
      nia.
    + rewrite <- F, length_app; cbn [seq fold_left length]; rewrite Nat.add_1_r; f_equal.
      unfold recode_step; cbn [app]; rewrite nth_app_cons, update_app, nth_app_cons.
      fold v; fold k; rewrite update_app; fold e; now rewrite <- app_assoc.
Qed.

Lemma recode_spec (a : list Z) : bytes a -> length a = 32%nat -> nth 31 a 0 <= 127 ->
  length (recode a) = 64%nat /\ Forall (fun e => -8 <= e <= 8) (recode a) /\
  dval 16 (recode a) = le_val a.
Proof.
  intros Ha La Ht; destruct (nibbles_spec a Ha La) as (L & N & V & T).
  destruct (exists_last (l := nibbles a)) as (todo & x & E); [intros E; rewrite E in L; discriminate|].
  rewrite E in *; rewrite length_app in L; cbn [length] in L.
  assert (Lt : length todo = 63%nat) by lia; rewrite <- Lt, nth_app_cons in T.
  apply Forall_app in N; destruct N as [Nt Nx]; apply Forall_inv in Nx; unfold is_nibble in Nx.
  destruct (recode_loop todo [] x 0 Nt (or_introl eq_refl) (Forall_nil _)) as (e & c & Le & Hc & He & S & F).
  cbn [length app Nat.add] in *; rewrite Lt in *.
  assert (R : recode a = e ++ [x + c]).
  { unfold recode; rewrite E, F; cbv beta iota; rewrite <- Le, nth_app_cons, update_app, s8_small by lia.
    reflexivity. }
  rewrite R; splits.
  - rewrite length_app, Le; reflexivity.
  - apply Forall_app; split; [eapply Forall_impl; [|exact He]; cbn; lia|].
    assert (nth 31 a 0 / 16 <= 7) by (Z.to_euclidean_division_equations; lia).
    constructor; [lia | constructor].
  - rewrite dval_app in V; rewrite dval_app, <- V, Le, Lt; cbn [dval] in *; rewrite Le in S; lia.
Qed.

(** ** Sliding windows: bits *)

Definition is_bit (x : Z) : Prop := x = 0 \/ x = 1.

Definition byte_bits (b : Z) : list Z :=
  map (fun j => s8 (Z.land 1 (Z.shiftr b (Z.of_nat j)))) (seq 0 8).

Lemma byte_bits_spec (b : Z) : is_byte b ->
  Forall is_bit (byte_bits b) /\ dval 2 (byte_bits b) = b /\ length (byte_bits b) = 8%nat.
Proof.
  intros Hb; splits; [| |reflexivity].
  - unfold byte_bits; apply Forall_map, Forall_forall; intros j _; unfold is_bit.
    set (x := Z.shiftr b (Z.of_nat j)).
    assert (E : Z.land 1 x = x mod 2) by (rewrite Z.land_comm; exact (Z.land_ones x 1 ltac:(lia))).
    pose proof (Z.mod_pos_bound x 2); rewrite E, s8_small; lia.
  - assert (C : forallb (fun n => dval 2 (byte_bits (Z.of_nat n)) =? Z.of_nat n) (seq 0 256) = true)
      by (vm_compute; reflexivity).
    rewrite forallb_forall in C; unfold is_byte in Hb.
    specialize (C (Z.to_nat b) ltac:(apply in_seq; lia)); rewrite Z2Nat.id in C by lia.
    now apply Z.eqb_eq.
Qed.

Lemma slide_bits_spec (a : list Z) : bytes a -> length a = 32%nat ->
  length (slide_bits a) = 256%nat /\ Forall is_bit (slide_bits a) /\ dval 2 (slide_bits a) = le_val a.
Proof.
  intros Ha L.
  assert (E : slide_bits a = flat_map byte_bits a).
  { rewrite <- (map_nth_seq a 0) at 2; rewrite L; reflexivity. }
  rewrite E; clear E; splits.
  - rewrite flat_map_constant_length with (c := 8%nat) by reflexivity; lia.
  - clear L; induction Ha as [|b a Hb _ IH]; [constructor|]; cbn [flat_map].
    apply Forall_app; split; [now apply byte_bits_spec | exact IH].
  - clear L; induction Ha as [|b a Hb _ IH]; [reflexivity|]; cbn [flat_map le_val].
    destruct (byte_bits_spec b Hb) as (_ & V & N); rewrite dval_app, V, N, IH; reflexivity.
Qed.

Lemma dval_bits (l : list Z) : Forall is_bit l -> 0 <= dval 2 l < 2 ^ Z.of_nat (length l).
Proof.
  induction 1 as [|x l Hx _ IH]; cbn [dval length]; [cbn; lia|].
  rewrite Nat2Z.inj_succ, Z.pow_succ_r by lia; unfold is_bit in Hx; lia.
Qed.

(** ** One window *)

(** The window of digit [v] over the digits [R] above it: the loop of slide, seen from its cell. *)
Fixpoint window (n b : nat) (v : Z) (R : list Z) : Z * list Z :=
  match n with
  | O => (v, R)
  | S n' =>
      if Nat.ltb (b - 1) (length R) then
        if negb (nth (b - 1) R 0 =? 0) then
          if v + Z.shiftl (nth (b - 1) R 0) (Z.of_nat b) <=? 15 then
            window n' (S b) (s8 (v + Z.shiftl (nth (b - 1) R 0) (Z.of_nat b))) (update R (b - 1) 0)
          else if -15 <=? v - Z.shiftl (nth (b - 1) R 0) (Z.of_nat b) then
            window n' (S b) (s8 (v - Z.shiftl (nth (b - 1) R 0) (Z.of_nat b)))
              (slide_carry (length R - (b - 1)) (b - 1) R)
          else (v, R)
        else window n' (S b) v R
      else (v, R)
  end.

Lemma slide_carry_app (l R : list Z) (n k : nat) :
  slide_carry n (length l + k) (l ++ R) = l ++ slide_carry n k R.
Proof.
  revert k R; induction n as [|n IH]; intros k R; [reflexivity|]; cbn [slide_carry].
  rewrite nth_app_r, !update_app_r; destruct (nth k R 0 =? 0); [reflexivity|].
  rewrite <- Nat.add_succ_r; apply IH.
Qed.

Lemma slide_carry_length (n k : nat) (R : list Z) : length (slide_carry n k R) = length R.
Proof.
  revert k R; induction n as [|n IH]; intros k R; cbn [slide_carry]; [reflexivity|].
  destruct (nth k R 0 =? 0); [apply update_length | rewrite IH; apply update_length].
Qed.

Lemma slide_window_eq (L : list Z) (n b : nat) (v : Z) (R : list Z) : (1 <= b)%nat ->
  (length L + S (length R) = 256)%nat ->
  slide_window n (length L) b (L ++ v :: R) = L ++ fst (window n b v R) :: snd (window n b v R).
Proof.
  revert b v R; induction n as [|n IH]; intros b v R Hb HL; [reflexivity|]; cbn [slide_window window].
  assert (X : forall w R', L ++ w :: R' = (L ++ [w]) ++ R') by (intros; now rewrite <- app_assoc).
  assert (I : forall w, (length L + b = length (L ++ [w]) + (b - 1))%nat)
    by (intros; rewrite length_app; cbn; lia).
  assert (N : nth (length L + b) (L ++ v :: R) 0 = nth (b - 1) R 0) by (now rewrite X, (I v), nth_app_r).
  replace (Nat.ltb (length L + b) 256) with (Nat.ltb (b - 1) (length R))
    by (destruct (Nat.ltb_spec (b - 1) (length R)), (Nat.ltb_spec (length L + b) 256); lia).
  rewrite N, nth_app_cons; destruct (Nat.ltb_spec (b - 1) (length R)) as [Hlt|]; [|reflexivity].
  destruct (negb _); [|apply IH; lia].
  assert (U : forall w x, update (L ++ w :: R) (length L + b) x = L ++ w :: update R (b - 1) x).
  { intros w x; rewrite (X w R), (X w (update _ _ _)), (I w); apply update_app_r. }
  destruct (_ <=? 15); [rewrite update_app, U; apply IH; [lia | now rewrite update_length]|].
  destruct (-15 <=? _); [|reflexivity]; rewrite update_app.
  set (w := s8 _); rewrite (X w R), (I w).
  rewrite slide_carry_app, <- X.
  replace (256 - (length (L ++ [w]) + (b - 1)))%nat with (length R - (b - 1))%nat
    by (rewrite length_app; cbn [length]; lia).
  apply IH; [lia | now rewrite slide_carry_length].
Qed.

Lemma update_bits (l : list Z) (k : nat) (x : Z) : is_bit x -> Forall is_bit l -> Forall is_bit (update l k x).
Proof. intros Hx H; revert k; induction H; intros [|k]; cbn [update]; auto. Qed.

Lemma dval_update (l : list Z) (k : nat) (x : Z) : (k < length l)%nat ->
  dval 2 (update l k x) = dval 2 l + 2 ^ Z.of_nat k * (x - nth k l 0).
Proof.
  revert k; induction l as [|y l IH]; intros k Hk; [cbn in Hk; lia|]; destruct k as [|k].
  - cbn [update dval nth]; change (2 ^ Z.of_nat 0) with 1; lia.
  - cbn [update dval nth length] in *; rewrite IH, Nat2Z.inj_succ, Z.pow_succ_r by lia; lia.
Qed.

Lemma nth_bit (l : list Z) (k : nat) : Forall is_bit l -> is_bit (nth k l 0).
Proof. intros H; apply forall_nth_default; [now left | exact H]. Qed.

Lemma dval_nth (l : list Z) (k : nat) : Forall is_bit l -> nth k l 0 = 1 -> 2 ^ Z.of_nat k <= dval 2 l.
Proof.
  intros H N; destruct (Nat.lt_ge_cases k (length l)) as [L|L]; [|rewrite nth_overflow in N by lia; discriminate].
  pose proof (dval_bits _ (update_bits l k 0 (or_introl eq_refl) H)) as D.
  rewrite dval_update, N in D by exact L; lia.
Qed.

(** The carry adds 2^k and clears cell k, unless it leaves the array. *)
Lemma slide_carry_spec (n k : nat) (R : list Z) : Forall is_bit R -> length R = (k + n)%nat ->
  dval 2 R + 2 ^ Z.of_nat k < 2 ^ Z.of_nat (length R) ->
  Forall is_bit (slide_carry n k R) /\ dval 2 (slide_carry n k R) = dval 2 R + 2 ^ Z.of_nat k /\
  firstn k (slide_carry n k R) = firstn k R /\ nth k (slide_carry n k R) 0 = 1 - nth k R 0.
Proof.
  revert k R; induction n as [|n IH]; intros k R H L B; cbn [slide_carry].
  - pose proof (dval_bits R H); rewrite L, Nat.add_0_r in B; lia.
  - destruct (Z.eqb_spec (nth k R 0) 0) as [E|E].
    + rewrite dval_update, firstn_update, nth_update, Nat.eqb_refl by lia.
      destruct (Nat.ltb_spec k (length R)); [|lia]; cbn [andb].
      splits; [apply update_bits; [now right | exact H] | lia | reflexivity | lia].
    + assert (E1 : nth k R 0 = 1) by (destruct (nth_bit R k H); lia).
      set (R' := update R k 0).
      assert (D : dval 2 R' = dval 2 R - 2 ^ Z.of_nat k) by (unfold R'; rewrite dval_update, E1 by lia; lia).
      assert (P : 2 ^ Z.of_nat (S k) = 2 * 2 ^ Z.of_nat k) by (rewrite Nat2Z.inj_succ, Z.pow_succ_r by lia; reflexivity).
      destruct (IH (S k) R') as (H1 & D1 & F1 & _).
      { apply update_bits; [now left | exact H]. }
      { unfold R'; rewrite update_length; lia. }
      { unfold R' at 2; rewrite update_length, D, P; lia. }
      splits; [exact H1 | rewrite D1, D, P; lia | |].
      * apply (f_equal (firstn k)) in F1; rewrite !firstn_firstn, Nat.min_l in F1 by lia; rewrite F1.
        apply firstn_update.
      * rewrite E1; apply (f_equal (fun l => nth k l 0)) in F1; rewrite !nth_firstn in F1.
        destruct (Nat.ltb_spec k (S k)); [|lia]; rewrite F1; unfold R'; rewrite nth_update, Nat.eqb_refl.
        destruct (Nat.ltb_spec k (length R)); [reflexivity | lia].
Qed.

(** Before iteration [b]: the cells below are clear, and the window has the value [s]. *)
Definition winv (b : nat) (v : Z) (R : list Z) (s : Z) : Prop :=
  Forall is_bit R /\ (forall j, (j < b - 1)%nat -> nth j R 0 = 0) /\ v mod 2 = 1 /\
  -15 <= v <= 15 /\ v + 2 * dval 2 R = s /\ (s <= 15 -> 0 < v).

Lemma window_past (m b : nat) (v : Z) (R : list Z) : (length R <= b - 1)%nat -> window m b v R = (v, R).
Proof. intros H; destruct m; cbn [window]; [reflexivity|]; destruct (Nat.ltb_spec (b - 1) (length R)); [lia | reflexivity]. Qed.

Lemma window_stop (m b : nat) (v : Z) (R : list Z) (s : Z) : (5 <= b)%nat -> winv 5 v R s ->
  window m b v R = (v, R).
Proof.
  intros Hb (HR & _ & _ & Hv & _); revert b Hb; induction m as [|m IH]; intros b Hb; [reflexivity|].
  cbn [window]; destruct (Nat.ltb _ _); [|reflexivity].
  destruct (nth_bit R (b - 1) HR) as [->| ->]; cbn [Z.eqb negb]; [apply IH; lia|].
  rewrite shiftl_mul, Z.mul_1_l by lia.
  assert (2 ^ 5 <= 2 ^ Z.of_nat b) by (apply Z.pow_le_mono_r; lia); change (2 ^ 5) with 32 in *.
  destruct (Z.leb_spec (v + 2 ^ Z.of_nat b) 15); [lia|].
  destruct (Z.leb_spec (-15) (v - 2 ^ Z.of_nat b)); [lia | reflexivity].
Qed.

Lemma window_step (m b : nat) (v : Z) (R : list Z) (s : Z) : (1 <= b <= 4)%nat -> winv b v R s ->
  (s <= 15 \/ s + 31 < 2 ^ Z.of_nat (S (length R))) ->
  exists v' R', winv (S b) v' R' s /\ length R' = length R /\
    window (S m) b v R = window m (S b) v' R'.
Proof.
  intros Hb (HR & Hz & Ho & Hv & Hs & Hp) Ht.
  assert (W : exists w, 2 ^ Z.of_nat b = 2 * w /\ 2 ^ Z.of_nat (b - 1) = w /\ (w = 1 \/ w = 2 \/ w = 4 \/ w = 8)).
  { assert (b = 1 \/ b = 2 \/ b = 3 \/ b = 4)%nat as [-> | [-> | [-> | ->]]] by lia;
      eexists; splits; try reflexivity; cbn; lia. }
  destruct W as (w & Eb & Ek & Hw).
  destruct (Nat.le_gt_cases (length R) (b - 1)) as [L|L].
  - exists v, R; rewrite !window_past by lia; splits; try reflexivity; unfold winv; splits; auto; try lia.
    intros j Hj; destruct (Nat.lt_ge_cases j (b - 1)); [now apply Hz | apply nth_overflow; lia].
  - assert (G : forall (R' : list Z), nth (b - 1) R' 0 = 0 -> firstn (b - 1) R' = firstn (b - 1) R ->
      forall j, (j < S b - 1)%nat -> nth j R' 0 = 0).
    { intros R' N F j Hj; destruct (Nat.eq_dec j (b - 1)) as [->|]; [exact N|].
      apply (f_equal (fun l => nth j l 0)) in F; rewrite !nth_firstn in F.
      destruct (Nat.ltb_spec j (b - 1)); [rewrite F; now apply Hz | lia]. }
    cbn [window]; destruct (Nat.ltb_spec (b - 1) (length R)) as [_|]; [|lia].
    destruct (nth_bit R (b - 1) HR) as [E|E]; rewrite E; cbn [Z.eqb negb].
    + exists v, R; splits; try reflexivity; unfold winv; splits; auto; try lia.
    + rewrite shiftl_mul, Z.mul_1_l, Eb by lia; pose proof (dval_nth R (b - 1) HR E) as D; rewrite Ek in D.
      destruct (Z.leb_spec (v + 2 * w) 15).
      * exists (v + 2 * w), (update R (b - 1) 0); rewrite s8_small by lia.
        splits; [unfold winv | apply update_length | reflexivity].
        rewrite dval_update, E, Ek by exact L; splits; try lia.
        -- apply update_bits; [now left | exact HR].
        -- apply G; [|apply firstn_update]; rewrite nth_update, Nat.eqb_refl.
           destruct (Nat.ltb_spec (b - 1) (length R)); [reflexivity | lia].
        -- Z.to_euclidean_division_equations; lia.
      * assert (S16 : 15 < s) by (destruct (Z.lt_ge_cases 15 s); lia).
        destruct (Z.leb_spec (-15) (v - 2 * w)); [|Z.to_euclidean_division_equations; lia].
        destruct (slide_carry_spec (length R - (b - 1)) (b - 1) R HR) as (H1 & D1 & F1 & N1); [lia | |].
        { rewrite Nat2Z.inj_succ, Z.pow_succ_r in Ht by lia; lia. }
        exists (v - 2 * w), (slide_carry (length R - (b - 1)) (b - 1) R); rewrite s8_small by lia.
        splits; [unfold winv | apply slide_carry_length | reflexivity].
        rewrite D1, Ek; splits; try lia; [exact H1 | apply G; [lia | exact F1] |].
        Z.to_euclidean_division_equations; lia.
Qed.

(** The six iterations: the value is kept, and the next four cells are clear. *)
Lemma window_spec (R : list Z) : Forall is_bit R ->
  let s := 1 + 2 * dval 2 R in
  (s <= 15 \/ s + 31 < 2 ^ Z.of_nat (S (length R))) ->
  exists v' R', window 6 1 1 R = (v', R') /\ winv 5 v' R' s /\ length R' = length R.
Proof.
  intros HR s Ht; assert (W : winv 1 1 R s).
  { unfold winv; splits; try lia; [exact HR | reflexivity]. }
  destruct (window_step 5 1 1 R s ltac:(lia) W Ht) as (v1 & R1 & W1 & L1 & E1); rewrite <- L1 in Ht.
  destruct (window_step 4 2 v1 R1 s ltac:(lia) W1 Ht) as (v2 & R2 & W2 & L2 & E2); rewrite <- L2 in Ht.
  destruct (window_step 3 3 v2 R2 s ltac:(lia) W2 Ht) as (v3 & R3 & W3 & L3 & E3); rewrite <- L3 in Ht.
  destruct (window_step 2 4 v3 R3 s ltac:(lia) W3 Ht) as (v4 & R4 & W4 & L4 & E4).
  exists v4, R4; rewrite E1, E2, E3, E4, (window_stop 2 5 v4 R4 s) by (assumption || lia).
  splits; [reflexivity | exact W4 | congruence].
Qed.

(** ** The whole expansion *)

(** A digit the tables of odd multiples can serve. *)
Definition slide_digit (v : Z) : Prop := v = 0 \/ (v mod 2 = 1 /\ -15 <= v <= 15).

(** The cells below [i] are final; [z] cells above are clear, which bounds the value below. *)
Definition sinv (a : Z) (L H : list Z) : Prop :=
  Forall slide_digit L /\ Forall is_bit H /\ dval 2 L + 2 ^ Z.of_nat (length L) * dval 2 H = a /\
  exists z, (forall j, (j < z)%nat -> nth j H 0 = 0) /\
    Z.abs (dval 2 L) < 2 ^ Z.of_nat (length L + z).

Lemma slide_zero (a : Z) (L H : list Z) : sinv a L (0 :: H) -> sinv a (L ++ [0]) H.
Proof.
  intros (HL & HH & V & z & Hz & B); unfold sinv; splits.
  - apply Forall_app; split; [exact HL | constructor; [now left | constructor]].
  - now apply Forall_inv_tail in HH.
  - rewrite dval_app, length_app, <- V; cbn [dval length].
    replace (Z.of_nat (length L + 1)) with (Z.succ (Z.of_nat (length L))) by lia.
    rewrite Z.pow_succ_r by lia; lia.
  - exists (z - 1)%nat; split; [intros j Hj; apply (Hz (S j)); lia|].
    rewrite dval_app, length_app; cbn [dval length]; eapply Z.lt_le_trans; [|apply (Z.pow_le_mono_r 2);
      [lia | apply inj_le; instantiate (1 := (length L + z)%nat); lia]].
    replace (_ + _) with (dval 2 L) by lia; exact B.
Qed.

Lemma slide_one (a : Z) (L H : list Z) : 0 <= a < 2 ^ 253 -> (length L + S (length H) = 256)%nat ->
  sinv a L (1 :: H) ->
  exists v H', slide_window 6 (length L) 1 (L ++ 1 :: H) = L ++ v :: H' /\ length H' = length H /\
    sinv a (L ++ [v]) H'.
Proof.
  intros Ha Len (HL & HH & V & z & Hz & B); apply Forall_inv_tail in HH.
  destruct z as [|z]; [|specialize (Hz 0%nat ltac:(lia)); discriminate Hz].
  rewrite Nat.add_0_r in B; pose proof (dval_bits H HH) as DH; cbn [dval] in V.
  set (i := Z.of_nat (length L)) in *; set (s := 1 + 2 * dval 2 H) in *.
  assert (Pi : 0 < 2 ^ i) by (apply Z.pow_pos_nonneg; lia).
  assert (P256 : 2 ^ i * 2 ^ Z.of_nat (S (length H)) = 2 ^ 256)
    by (rewrite <- Z.pow_add_r by lia; f_equal; lia).
  assert (Ht : s <= 15 \/ s + 31 < 2 ^ Z.of_nat (S (length H))).
  { destruct (Z.le_gt_cases s 15) as [|Hs]; [now left | right].
    assert (2 ^ i * 16 <= 2 ^ i * s) by (apply Z.mul_le_mono_nonneg_l; lia).
    apply (Z.mul_lt_mono_pos_l (2 ^ i)); [exact Pi|]; rewrite P256; lia. }
  destruct (window_spec H HH Ht) as (v & H' & E & (HB & Hz' & Ho & Hv & Hs & _) & Lv).
  exists v, H'; rewrite slide_window_eq, E by lia; cbn [fst snd]; splits; [reflexivity | exact Lv |].
  unfold sinv; splits.
  - apply Forall_app; split; [exact HL | constructor; [right; auto | constructor]].
  - exact HB.
  - rewrite dval_app, length_app; cbn [dval length]; fold i.
    replace (Z.of_nat (length L + 1)) with (Z.succ i) by lia; rewrite Z.pow_succ_r by lia.
    rewrite <- V; unfold s in Hs; nia.
  - exists 4%nat; split; [exact Hz'|]; rewrite dval_app, length_app; cbn [dval length]; fold i.
    replace (Z.of_nat (length L + 1 + 4)) with (i + 5) by lia; rewrite Z.pow_add_r by lia; nia.
Qed.

Lemma slide_loop (a : Z) (H L : list Z) : 0 <= a < 2 ^ 253 -> (length L + length H = 256)%nat ->
  sinv a L H ->
  let r := fold_left (fun r i => if negb (nth i r 0 =? 0) then slide_window 6 i 1 r else r)
    (seq (length L) (length H)) (L ++ H) in
  length r = 256%nat /\ Forall slide_digit r /\ dval 2 r = a.
Proof.
  intros Ha; remember (length H) as n eqn:En; revert H L En; induction n as [|n IH]; intros H L En Len I.
  - destruct H; [|discriminate En]; cbn [seq fold_left]; rewrite app_nil_r.
    destruct I as (HL & _ & V & _); cbn [dval] in V; splits; [lia | exact HL | lia].
  - destruct H as [|x H]; [discriminate En|]; cbn [length] in En; injection En as En.
    cbn [seq fold_left]; rewrite nth_app_cons.
    assert (N : forall v H', length H' = n -> sinv a (L ++ [v]) H' ->
      let r := fold_left (fun r i => if negb (nth i r 0 =? 0) then slide_window 6 i 1 r else r)
        (seq (S (length L)) n) (L ++ v :: H') in
      length r = 256%nat /\ Forall slide_digit r /\ dval 2 r = a).
    { intros v H' LH' I'; replace (L ++ v :: H') with ((L ++ [v]) ++ H') by (now rewrite <- app_assoc).
      replace (S (length L)) with (length (L ++ [v])) by (rewrite length_app; cbn; lia).
      apply IH; [easy | rewrite length_app; cbn; lia | exact I']. }
    pose proof I as (_ & HB & _); destruct (Forall_inv HB) as [->| ->]; cbn [Z.eqb negb].
    + apply N; [easy | now apply slide_zero].
    + destruct (slide_one a L H Ha ltac:(lia) I) as (v & H' & E & LH' & I'); rewrite E.
      apply N; [lia | exact I'].
Qed.

Lemma slide_spec (a : list Z) : bytes a -> length a = 32%nat -> le_val a < 2 ^ 253 ->
  length (slide a) = 256%nat /\ Forall slide_digit (slide a) /\ dval 2 (slide a) = le_val a.
Proof.
  intros Ha La Hlt; destruct (slide_bits_spec a Ha La) as (L & HB & V).
  unfold slide; rewrite <- L at 1; apply (slide_loop (le_val a) (slide_bits a) []).
  - split; [apply le_val_range; exact Ha | exact Hlt].
  - cbn [length]; lia.
  - unfold sinv; cbn [length dval]; splits; [constructor | exact HB | change (Z.of_nat 0) with 0; lia |].
    exists 0%nat; split; [intros; lia | reflexivity].
Qed.
