(* ===== verification/GeMult.v ===== *)
(** * Scalar multiplication computes multiples of points

    ge_scalarmult_base returns a * B for every scalar below 2^255, and
    ge_double_scalarmult_vartime a * A + b * B for all scalars below 2^253. *)

From Stdlib Require Import ZArith Lia List Bool Zmod.Zmod.
From S2P Require Import Prelude Machine Bytes Fe FeArith FeBytes Sc ScArith Edwards Precomp Ge.
From S2P Require Import GeArith GeCode GeTable GeDigits.
Import ListNotations.

(** ** The base point *)

(** The digits at the places of one parity, weighted by the powers of 256. *)
Fixpoint wsum (e : list Z) (c n : nat) : Z :=
  match n with
  | O => 0
  | S n' => wsum e c n' + nth (2 * n' + c) e 0 * 256 ^ Z.of_nat n'
  end%Z.

Lemma dval_parities (e : list Z) (n : nat) : (2 * n <= length e)%nat ->
  (dval 16 (firstn (2 * n) e) = wsum e 0 n + 16 * wsum e 1 n)%Z.
Proof.
  induction n as [|n IH]; intros H; [reflexivity|].
  replace (2 * S n)%nat with (S (S (2 * n))) by lia.
  rewrite (firstn_snoc e (S (2 * n)) 0%Z), (firstn_snoc e (2 * n) 0%Z), <- app_assoc, dval_app, IH by lia.
  rewrite firstn_length_le by lia; cbn [app dval wsum].
  replace (2 * n + 0)%nat with (2 * n)%nat by lia; replace (2 * n + 1)%nat with (S (2 * n)) by lia.
  replace (16 ^ Z.of_nat (2 * n))%Z with (256 ^ Z.of_nat n)%Z; [ring|].
  rewrite Nat2Z.inj_mul, Z.pow_mul_r by lia; reflexivity.
Qed.

Lemma madd_loop (e : list Z) (c n : nat) (P : point) (h : ge_p3) :
  Forall (fun x => -8 <= x <= 8)%Z e -> (c <= 1)%nat -> (n <= 32)%nat -> is_p3 P h ->
  is_p3 (padd P (smul (wsum e c n) B))
    (fold_left (madd_select e) (map (fun k => 2 * k + c)%nat (seq 0 n)) h).
Proof.
  intros He Hc; induction n as [|n IH]; intros Hn HP; cbn [wsum].
  - cbn [smul seq map fold_left]; now rewrite padd_0_r.
  - rewrite seq_S, map_app, fold_left_app, smul_add, <- padd_assoc; cbn [map fold_left Nat.add].
    unfold madd_select at 1; apply ge_p1p1_to_p3_spec, ge_madd_spec; [apply IH; [lia | exact HP]|].
    replace ((2 * n + c) / 2)%nat with n by (rewrite Nat.mul_comm, Nat.div_add_l by lia;
      rewrite Nat.div_small by lia; lia).
    apply select_spec; [lia|]; apply (forall_nth_default (fun x => -8 <= x <= 8)%Z); [lia | exact He].
Qed.

Lemma madd_loop_even (e : list Z) (P : point) (h : ge_p3) :
  Forall (fun x => -8 <= x <= 8)%Z e -> is_p3 P h ->
  is_p3 (padd P (smul (wsum e 0 32) B))
    (fold_left (madd_select e) (map (fun k => 2 * k)%nat (seq 0 32)) h).
Proof.
  intros He HP; rewrite (map_ext (fun k => 2 * k)%nat (fun k => 2 * k + 0)%nat) by (intros; lia).
  apply madd_loop; auto.
Qed.

Lemma ge_scalarmult_base_spec (a : list Z) :
  bytes a -> length a = 32%nat -> (nth 31 a 0 <= 127)%Z ->
  is_p3 (smul (le_val a) B) (ge_scalarmult_base a).
Proof.
  intros Ha La Ht; destruct (recode_spec a Ha La Ht) as (L & D & V).
  unfold ge_scalarmult_base; cbv zeta; set (e := recode a) in *.
  replace (smul (le_val a) B) with (padd (smul 16 (padd pzero (smul (wsum e 1 32) B))) (smul (wsum e 0 32) B)).
  - apply madd_loop_even; [exact D|].
    set (h := fold_left _ _ _).
    assert (H : is_p3 (padd pzero (smul (wsum e 1 32) B)) h)
      by (apply madd_loop; auto using ge_p3_0_spec).
    set (P := padd pzero _) in *; change (smul 16 P) with (padd (smul 8 P) (smul 8 P)).
    apply ge_p1p1_to_p3_spec, ge_p2_dbl_spec; change (smul 8 P) with (padd (smul 4 P) (smul 4 P)).
    apply ge_p1p1_to_p2_spec, ge_p2_dbl_spec; change (smul 4 P) with (padd (smul 2 P) (smul 2 P)).
    apply ge_p1p1_to_p2_spec, ge_p2_dbl_spec, ge_p1p1_to_p2_spec, ge_p3_dbl_spec, H.
  - rewrite padd_0_l, <- smul_mul, <- smul_add, <- V; f_equal.
    rewrite <- (firstn_all e) at 3; rewrite L; change 64%nat with (2 * 32)%nat.
    rewrite dval_parities by (rewrite L; lia); apply Z.add_comm.
Qed.

(** ** The double multiplication *)

Lemma cached_odd (A : point) (k : Z) (A2 : ge_p3) (c : ge_cached) :
  is_p3 (smul 2 A) A2 -> is_cached (smul k A) c ->
  is_cached (smul (2 + k) A) (ge_p3_to_cached (ge_p1p1_to_p3 (ge_add A2 c))).
Proof.
  intros H2 Hc; rewrite smul_add; apply ge_p3_to_cached_spec, ge_p1p1_to_p3_spec.
  now apply ge_add_spec.
Qed.

Lemma odd_multiples_spec (A : point) (a : ge_p3) (j : nat) : is_p3 A a -> (j < 8)%nat ->
  is_cached (smul (2 * Z.of_nat j + 1) A) (nth j (odd_multiples a) cached_0).
Proof.
  intros HA Hj; unfold odd_multiples; cbv zeta.
  assert (H2 : is_p3 (smul 2 A) (ge_p1p1_to_p3 (ge_p3_dbl a)))
    by (apply ge_p1p1_to_p3_spec, ge_p3_dbl_spec, HA).
  set (A2 := ge_p1p1_to_p3 (ge_p3_dbl a)) in *.
  assert (H1 : is_cached (smul 1 A) (ge_p3_to_cached a)) by (apply ge_p3_to_cached_spec, HA).
  set (c0 := ge_p3_to_cached a) in *.
  pose proof (cached_odd A 1 A2 c0 H2 H1) as H3; set (c1 := ge_p3_to_cached (ge_p1p1_to_p3 (ge_add A2 c0))) in *.
  pose proof (cached_odd A _ A2 c1 H2 H3) as H5; set (c2 := ge_p3_to_cached (ge_p1p1_to_p3 (ge_add A2 c1))) in *.
  pose proof (cached_odd A _ A2 c2 H2 H5) as H7; set (c3 := ge_p3_to_cached (ge_p1p1_to_p3 (ge_add A2 c2))) in *.
  pose proof (cached_odd A _ A2 c3 H2 H7) as H9; set (c4 := ge_p3_to_cached (ge_p1p1_to_p3 (ge_add A2 c3))) in *.
  pose proof (cached_odd A _ A2 c4 H2 H9) as H11; set (c5 := ge_p3_to_cached (ge_p1p1_to_p3 (ge_add A2 c4))) in *.
  pose proof (cached_odd A _ A2 c5 H2 H11) as H13; set (c6 := ge_p3_to_cached (ge_p1p1_to_p3 (ge_add A2 c5))) in *.
  pose proof (cached_odd A _ A2 c6 H2 H13) as H15; set (c7 := ge_p3_to_cached (ge_p1p1_to_p3 (ge_add A2 c6))) in *.
  clearbody c0 c1 c2 c3 c4 c5 c6 c7; cbn [nth].
  destruct j as [|j]; [exact H1|]; destruct j as [|j]; [exact H3|]; destruct j as [|j]; [exact H5|].
  destruct j as [|j]; [exact H7|]; destruct j as [|j]; [exact H9|]; destruct j as [|j]; [exact H11|].
  destruct j as [|j]; [exact H13|]; destruct j as [|j]; [exact H15 | lia].
Qed.

(** An odd digit names the entry of a table of odd multiples. *)
Lemma odd_entry (v : Z) : (v mod 2 = 1)%Z -> (0 < v <= 15)%Z ->
  (Z.to_nat (Z.quot v 2) < 8)%nat /\ (2 * Z.of_nat (Z.to_nat (Z.quot v 2)) + 1 = v)%Z.
Proof. intros O R; rewrite Z.quot_div_nonneg by lia; Z.to_euclidean_division_equations; lia. Qed.

Lemma slide_digit_nth (l : list Z) (i : nat) : Forall slide_digit l -> slide_digit (nth i l 0%Z).
Proof. intros H; apply forall_nth_default; [now left | exact H]. Qed.

Section Double.
Context (A : point) (a : ge_p3) (HA : is_p3 A a).

(** Adding a digit of the first scalar. *)
Lemma double_add (P : point) (t : ge_p1p1) (v : Z) : slide_digit v -> is_p1p1 P t ->
  is_p1p1 (padd P (smul v A))
    (if (0 <? v)%Z then ge_add (ge_p1p1_to_p3 t) (nth (Z.to_nat (Z.quot v 2)) (odd_multiples a) cached_0)
     else if (v <? 0)%Z then
       ge_sub (ge_p1p1_to_p3 t) (nth (Z.to_nat (Z.quot (- v) 2)) (odd_multiples a) cached_0)
     else t).
Proof.
  intros Hv Ht; destruct (Z.ltb_spec 0 v) as [Hp|Hp]; [|destruct (Z.ltb_spec v 0) as [Hn|Hn]].
  - destruct Hv as [->|[O R]]; [lia|]; destruct (odd_entry v O ltac:(lia)) as [L E].
    apply ge_add_spec; [now apply ge_p1p1_to_p3_spec|]; rewrite <- E at 1; now apply odd_multiples_spec.
  - destruct Hv as [->|[O R]]; [lia|].
    destruct (odd_entry (- v)) as [L E]; [Z.to_euclidean_division_equations; lia | lia |].
    replace (smul v A) with (popp (smul (- v) A)) by (rewrite smul_opp; apply popp_involutive).
    apply ge_sub_spec; [now apply ge_p1p1_to_p3_spec|]; rewrite <- E at 1; now apply odd_multiples_spec.
  - replace v with 0%Z by lia; cbn [smul]; now rewrite padd_0_r.
Qed.

(** Adding a digit of the second scalar. *)
Lemma double_madd (P : point) (t : ge_p1p1) (v : Z) : slide_digit v -> is_p1p1 P t ->
  is_p1p1 (padd P (smul v B))
    (if (0 <? v)%Z then ge_madd (ge_p1p1_to_p3 t) (nth (Z.to_nat (Z.quot v 2)) Bi precomp_0)
     else if (v <? 0)%Z then ge_msub (ge_p1p1_to_p3 t) (nth (Z.to_nat (Z.quot (- v) 2)) Bi precomp_0)
     else t).
Proof.
  intros Hv Ht; destruct (Z.ltb_spec 0 v) as [Hp|Hp]; [|destruct (Z.ltb_spec v 0) as [Hn|Hn]].
  - destruct Hv as [->|[O R]]; [lia|]; destruct (odd_entry v O ltac:(lia)) as [L E].
    apply ge_madd_spec; [now apply ge_p1p1_to_p3_spec|]; rewrite <- E at 1; now apply Bi_entry.
  - destruct Hv as [->|[O R]]; [lia|].
    destruct (odd_entry (- v)) as [L E]; [Z.to_euclidean_division_equations; lia | lia |].
    replace (smul v B) with (popp (smul (- v) B)) by (rewrite smul_opp; apply popp_involutive).
    apply ge_msub_spec; [now apply ge_p1p1_to_p3_spec|]; rewrite <- E at 1; now apply Bi_entry.
  - replace v with 0%Z by lia; cbn [smul]; now rewrite padd_0_r.
Qed.

Context (s t : list Z) (Hs : Forall slide_digit s) (Ht : Forall slide_digit t).

Lemma double_step_spec (P : point) (r : ge_p2) (i : nat) : is_p2 P r ->
  is_p2 (padd (padd (padd P P) (smul (nth i s 0%Z) A)) (smul (nth i t 0%Z) B))
    (double_step (odd_multiples a) s t r i).
Proof.
  intros HP; unfold double_step; cbv zeta; apply ge_p1p1_to_p2_spec, double_madd;
    [now apply slide_digit_nth|]; apply double_add; [now apply slide_digit_nth|].
  now apply ge_p2_dbl_spec.
Qed.

(** What the digits from [i] on stand for. *)
Definition tail_point (i : nat) : point := padd (smul (dval 2 (skipn i s)) A) (smul (dval 2 (skipn i t)) B).

Lemma dval_skipn (l : list Z) (i : nat) :
  dval 2 (skipn i l) = (nth i l 0 + 2 * dval 2 (skipn (S i) l))%Z.
Proof.
  destruct (Nat.lt_ge_cases i (length l)) as [L|L].
  - revert i L; induction l as [|x l IH]; intros i L; [cbn in L; lia|].
    destruct i as [|i]; [reflexivity|]; apply IH; cbn in L; lia.
  - rewrite !skipn_all2, nth_overflow by lia; reflexivity.
Qed.

Lemma tail_point_step (i : nat) : tail_point i =
  padd (padd (padd (tail_point (S i)) (tail_point (S i))) (smul (nth i s 0%Z) A)) (smul (nth i t 0%Z) B).
Proof.
  unfold tail_point; rewrite (dval_skipn s i), (dval_skipn t i).
  set (x := dval 2 (skipn (S i) s)); set (y := dval 2 (skipn (S i) t)).
  assert (X : forall P Q R S, padd (padd P Q) (padd R S) = padd (padd P R) (padd Q S)).
  { intros P Q R S; rewrite !padd_assoc; f_equal; rewrite <- !padd_assoc; f_equal; apply padd_comm. }
  rewrite (X (smul x A)), <- !smul_add, !Z.add_diag, padd_assoc, X, <- !smul_add.
  now rewrite (Z.add_comm (nth i s 0%Z)), (Z.add_comm (nth i t 0%Z)).
Qed.

Lemma double_loop (n : nat) (r : ge_p2) : is_p2 (tail_point n) r ->
  is_p2 (tail_point 0) (fold_left (double_step (odd_multiples a) s t) (rev (seq 0 n)) r).
Proof.
  revert r; induction n as [|n IH]; intros r Hr; [exact Hr|].
  rewrite seq_S, rev_app_distr; cbn [rev app fold_left Nat.add]; apply IH.
  rewrite tail_point_step; now apply double_step_spec.
Qed.

Lemma top_digit_spec (n : nat) : length s = 256%nat -> length t = 256%nat -> (n <= 256)%nat ->
  dval 2 (skipn n s) = 0%Z -> dval 2 (skipn n t) = 0%Z ->
  dval 2 (skipn (top_digit n s t) s) = 0%Z /\ dval 2 (skipn (top_digit n s t) t) = 0%Z.
Proof.
  intros Ls Lt; induction n as [|n IH]; intros Hn Zs Zt; cbn [top_digit]; [now split|].
  destruct (Z.eqb_spec (nth n s 0%Z) 0) as [Es|Es], (Z.eqb_spec (nth n t 0%Z) 0) as [Et|Et];
    cbn [negb orb]; try now split.
  apply IH; [lia | rewrite dval_skipn, Es, Zs; reflexivity | rewrite dval_skipn, Et, Zt; reflexivity].
Qed.
End Double.

Lemma ge_double_scalarmult_spec (A : point) (a : ge_p3) (x y : list Z) : is_p3 A a ->
  bytes x -> length x = 32%nat -> (le_val x < 2 ^ 253)%Z ->
  bytes y -> length y = 32%nat -> (le_val y < 2 ^ 253)%Z ->
  is_p2 (padd (smul (le_val x) A) (smul (le_val y) B)) (ge_double_scalarmult_vartime x a y).
Proof.
  intros HA Hx Lx Vx Hy Ly Vy; destruct (slide_spec x Hx Lx Vx) as (L1 & D1 & S1).
  destruct (slide_spec y Hy Ly Vy) as (L2 & D2 & S2); unfold ge_double_scalarmult_vartime; cbv zeta.
  rewrite <- S1, <- S2; generalize dependent (slide y); generalize dependent (slide x).
  intros s L1 D1 _ t L2 D2 _.
  assert (Z256 : forall l : list Z, length l = 256%nat -> dval 2 (skipn 256 l) = 0%Z)
    by (intros l E; rewrite skipn_all2 by lia; reflexivity).
  destruct (top_digit_spec s t 256 L1 L2 (le_n _) (Z256 s L1) (Z256 t L2)) as [T1 T2].
  refine (double_loop A a HA s t D1 D2 (top_digit 256 s t) _ _); unfold tail_point; rewrite T1, T2; cbn [smul].
  rewrite padd_0_l; exact ge_p2_0_spec.
Qed.
