(* ===== verification/GeTheorems.v ===== *)
(** * What the point arithmetic guarantees

    The main results on ge.c and precomp_data.h, in terms of the group of points of Edwards. *)

From Stdlib Require Import ZArith Lia List Bool Zmod.Zmod.
From S2P Require Import Prelude Machine Bytes Fe FeArith FeBytes Sc ScArith Edwards Precomp Ge.
From S2P Require Import GeArith GeCode GeTable GeDigits GeMult.
Import ListNotations.
Local Open Scope Z_scope.

(** the formulas of ge.c compute the group law without exceptional cases: addition,
    subtraction (of a cached or of a precomputed point) and doubling represent the sum, the
    difference and the double for every pair of points, equal, opposite or neutral ones
    included, with limbs inside the bounds of the next multiplication. *)
Theorem group_law (P Q : point) (p : ge_p3) (q : ge_cached) (t : ge_precomp) (r : ge_p2) :
  is_p3 P p -> is_cached Q q -> is_precomp Q t -> is_p2 P r ->
  is_p1p1 (padd P Q) (ge_add p q) /\ is_p1p1 (padd P (popp Q)) (ge_sub p q) /\
  is_p1p1 (padd P Q) (ge_madd p t) /\ is_p1p1 (padd P (popp Q)) (ge_msub p t) /\
  is_p1p1 (padd P P) (ge_p3_dbl p) /\ is_p1p1 (padd P P) (ge_p2_dbl r).
Proof.
  intros Hp Hq Ht Hr; splits;
    auto using ge_add_spec, ge_sub_spec, ge_madd_spec, ge_msub_spec, ge_p3_dbl_spec, ge_p2_dbl_spec.
Qed.

Lemma group_law_witness (s := 5 :: repeat 0 31) :
  is_p1p1 (padd (smul (le_val s) B) pzero) (ge_madd (ge_scalarmult_base s) precomp_0) /\
  is_p1p1 (padd (smul (le_val s) B) (smul (le_val s) B)) (ge_p3_dbl (ge_scalarmult_base s)).
Proof.
  assert (H : is_p3 (smul (le_val s) B) (ge_scalarmult_base s))
    by (apply ge_scalarmult_base_spec; [apply bytesb_spec; reflexivity | reflexivity | discriminate]).
  destruct (group_law _ _ _ _ _ _ H (ge_p3_to_cached_spec _ _ ge_p3_0_spec) precomp_0_spec
    (ge_p3_to_p2_spec _ _ H)) as (_ & _ & M & _ & D & _).
  exact (conj M D).
Defined.

(** the precomputed tables are right: entry (i, j) of [base] is (j + 1) 256^i B and entry j of
    [Bi] is (2 j + 1) B, for all 264 entries; the base point B has the order ell used
    by sc.c. *)
Theorem tables_correct :
  (forall i j, (i < 32)%nat -> (j < 8)%nat ->
     is_precomp (smul (Z.of_nat (S j) * 256 ^ Z.of_nat i) B) (nth j (nth i base []) precomp_0)) /\
  (forall j, (j < 8)%nat -> is_precomp (smul (2 * Z.of_nat j + 1) B) (nth j Bi precomp_0)) /\
  smul ell B = pzero.
Proof. splits; [exact base_entry | exact Bi_entry | exact base_order]. Qed.

(** ge_scalarmult_base returns a * B for every 32-byte scalar below 2^255. *)
Theorem scalarmult_base_correct (a : list Z) :
  bytes a -> length a = 32%nat -> nth 31 a 0 <= 127 ->
  is_p3 (smul (le_val a) B) (ge_scalarmult_base a).
Proof. apply ge_scalarmult_base_spec. Qed.

Lemma scalarmult_base_correct_witness :
  is_p3 (smul (le_val (5 :: repeat 0 31)) B) (ge_scalarmult_base (5 :: repeat 0 31)).
Proof.
  apply (scalarmult_base_correct (5 :: repeat 0 31));
    [apply bytesb_spec; reflexivity | reflexivity | discriminate].
Defined.

(** ge_double_scalarmult_vartime returns a * A + b * B for every point A and all 32-byte
    scalars below 2^253, whatever their digits. *)
Theorem double_scalarmult_correct (A : point) (h : ge_p3) (a b : list Z) : is_p3 A h ->
  bytes a -> length a = 32%nat -> le_val a < 2 ^ 253 ->
  bytes b -> length b = 32%nat -> le_val b < 2 ^ 253 ->
  is_p2 (padd (smul (le_val a) A) (smul (le_val b) B)) (ge_double_scalarmult_vartime a h b).
Proof. apply ge_double_scalarmult_spec. Qed.

Lemma double_scalarmult_correct_witness :
  let a := 3 :: repeat 0 31 in
  is_p2 (padd (smul (le_val a) pzero) (smul (le_val a) B)) (ge_double_scalarmult_vartime a ge_p3_0 a).
Proof.
  intros a; apply (double_scalarmult_correct pzero ge_p3_0 a a);
    solve [exact ge_p3_0_spec | apply bytesb_spec; reflexivity | reflexivity].
Defined.

(** decoding is the inverse of encoding: ge_p3_tobytes and ge_tobytes write the standard code
    of the point, equal codes come from equal points, and
    ge_frombytes_negate_vartime recovers from the code the opposite point with status 0. *)
Theorem code_roundtrip (P : point) (p : ge_p3) (h : ge_p3) : is_p3 P p ->
  ge_p3_tobytes p = encode P /\ ge_tobytes (ge_p3_to_p2 p) = encode P /\
  (forall Q, encode Q = encode P -> Q = P) /\
  fst (ge_frombytes_negate_vartime h (ge_p3_tobytes p)) = 0 /\
  is_p3 (popp P) (snd (ge_frombytes_negate_vartime h (ge_p3_tobytes p))).
Proof.
  intros H; rewrite (ge_p3_tobytes_spec P p H); splits.
  - reflexivity.
  - apply ge_tobytes_spec, ge_p3_to_p2_spec, H.
  - intros Q; apply encode_inj.
  - apply decode_encode.
  - apply decode_encode.
Qed.

Lemma code_roundtrip_witness : is_p3 (popp pzero) (snd (ge_frombytes_negate_vartime ge_p3_0 (ge_p3_tobytes ge_p3_0))).
Proof. apply (code_roundtrip pzero ge_p3_0 ge_p3_0), ge_p3_0_spec. Defined.

(** ge_frombytes_negate_vartime decides decodability: status 0 and a point of the curve with
    the encoded y and the opposite sign, or status -1, and then no point of the curve
    has that y. *)
Theorem decode_decides (h : ge_p3) (s : list Z) : bytes s -> length s = 32%nat ->
  (fst (ge_frombytes_negate_vartime h s) = 0 /\
     exists P, decodes s P /\ is_p3 P (snd (ge_frombytes_negate_vartime h s))) \/
  (fst (ge_frombytes_negate_vartime h s) = -1 /\ forall x, ~ on_curve x (code_y s)).
Proof. apply ge_frombytes_spec. Qed.

Lemma decode_decides_witness : exists P, decodes (encode pzero) P /\
  is_p3 P (snd (ge_frombytes_negate_vartime ge_p3_0 (encode pzero))).
Proof.
  destruct (encode_bytes pzero) as [HB HL]; destruct (encode_code pzero) as [EY _].
  destruct (decode_decides ge_p3_0 (encode pzero) HB HL) as [[_ D]|[_ N]]; [exact D|].
  exfalso; apply (N (px pzero)); rewrite EY; apply point_on.
Defined.

(** the recodings of the scalar are exact: [recode] gives 64 digits in [-8, 8] with the value
    of the scalar in radix 16, and [slide] 256 digits in radix 2, each zero or odd in
    [-15, 15]; no digit overflows a signed char and no carry leaves the array. *)
Theorem recodings_exact (a : list Z) : bytes a -> length a = 32%nat -> le_val a < 2 ^ 253 ->
  (length (recode a) = 64%nat /\ Forall (fun e => -8 <= e <= 8) (recode a) /\ dval 16 (recode a) = le_val a) /\
  (length (slide a) = 256%nat /\ Forall slide_digit (slide a) /\ dval 2 (slide a) = le_val a).
Proof.
  intros Ha La V; split; [|now apply slide_spec]; apply recode_spec; auto.
  pose proof (proj1 (top_byte a 7 Ha La ltac:(lia))) as T; change (2 ^ (248 + 7)) with (4 * 2 ^ 253) in T.
  change (2 ^ 7) with 128 in T; pose proof (le_val_range a Ha); lia.
Qed.

Lemma recodings_exact_witness : let a := repeat 173 31 ++ [31] in
  dval 16 (recode a) = le_val a /\ dval 2 (slide a) = le_val a.
Proof.
  intros a; destruct (recodings_exact a) as [(_ & _ & E1) (_ & _ & E2)];
    [apply bytesb_spec; reflexivity | reflexivity | reflexivity | split; assumption].
Defined.
