(* ===== verification/Ed25519.v ===== *)
(** * Keys and signatures: keypair.c, sign.c, verify.c, add_scalar.c and key_exchange.c of
    shared/ed25519/src

    The API of the library.  A buffer is a byte string: a function returns what it writes.  A local
    variable that the C code does not initialise (a hash context, a point) is an argument, so
    nothing is assumed about its first contents; the status codes that the code ignores are
    ignored.  [None] means that a loop of sha512_update did not end, which Ed25519Correct
    excludes. *)

From Stdlib Require Import ZArith List Bool.
From S2P Require Import Prelude Machine Bytes Fe Sc Sha512 Precomp Ge.
Import ListNotations.

Declare Scope opt_scope.
Delimit Scope opt_scope with opt.
Notation "'let*' x := e 'in' k" := (match e with Some x => k | None => None end)
  (at level 10, x name, e at level 100, k at level 200) : opt_scope.
Local Open Scope opt_scope.

(** A call of sha512_update whose status is dropped. *)
Definition sha512_feed (hash : sha512_context) (inp : list Z) : option sha512_context :=
  match sha512_update hash inp with Some (_, hash) => Some hash | None => None end.

(** [n] bytes from [s + off]. *)
Definition slice (s : list Z) (off n : nat) : list Z := firstn n (skipn off s).

(** ** Key pairs *)

(** [k[0] &= 248; k[31] &= 63; k[31] |= 64] *)
Definition clamp (k : list Z) : list Z :=
  let k := update k 0 (Z.land (nth 0 k 0) 248) in
  let k := update k 31 (Z.land (nth 31 k 0) 63) in
  update k 31 (Z.lor (nth 31 k 0) 64).

(** Public and private key. *)
Definition ed25519_create_keypair (fresh : sha512_context) (seed : list Z) : option (list Z * list Z) :=
  let* hashed := sha512 fresh (firstn 32 seed) in
  let private_key := snd hashed in
  let private_key := clamp private_key in
  let A := ge_scalarmult_base private_key in
  Some (ge_p3_tobytes A, private_key).

(** ** Signing *)

(** [hash], [hash'] are the contents of the context before each initialisation. *)
Definition ed25519_sign (hash hash' : sha512_context) (message public_key private_key : list Z)
  : option (list Z) :=
  let h := sha512_init hash in
  let* h := sha512_feed h (slice private_key 32 32) in
  let* h := sha512_feed h message in
  let r := snd (sha512_final h) in
  let r := sc_reduce r in
  let R := ge_scalarmult_base r in
  let signature := ge_p3_tobytes R in
  let h := sha512_init hash' in
  let* h := sha512_feed h signature in
  let* h := sha512_feed h (firstn 32 public_key) in
  let* h := sha512_feed h message in
  let hram := snd (sha512_final h) in
  let hram := sc_reduce hram in
  Some (signature ++ sc_muladd hram (firstn 32 private_key) r).

(** ** Verification *)

Definition consttime_equal (x y : list Z) : Z :=
  let r := Z.lxor (nth 0 x 0) (nth 0 y 0) in
  let r := fold_left (fun r i => Z.lor r (Z.lxor (nth i x 0) (nth i y 0))) (seq 1 31) r in
  if r =? 0 then 1 else 0.

Definition ed25519_verify (A : ge_p3) (hash : sha512_context) (signature message public_key : list Z)
  : option Z :=
  if negb (Z.land (nth 63 signature 0) 224 =? 0) then Some 0
  else
    let '(status, A) := ge_frombytes_negate_vartime A public_key in
    if negb (status =? 0) then Some 0
    else
      let h := sha512_init hash in
      let* h := sha512_feed h (firstn 32 signature) in
      let* h := sha512_feed h (firstn 32 public_key) in
      let* h := sha512_feed h message in
      let hram := snd (sha512_final h) in
      let hram := sc_reduce hram in
      let R := ge_double_scalarmult_vartime hram A (slice signature 32 32) in
      let checker := ge_tobytes R in
      if consttime_equal checker signature =? 0 then Some 0 else Some 1.

(** ** Scalar addition *)

(** A key may be NULL ([None]); the statuses of the hash and of the decoding are dropped, so an
    invalid public key leaves [unpacked] half written. *)
Definition ed25519_add_scalar (unpacked : ge_p3) (hash : sha512_context)
  (public_key private_key : option (list Z)) (scalar : list Z)
  : option (option (list Z) * option (list Z)) :=
  let SC_1 := 1 :: repeat 0 31 in
  let n := firstn 31 scalar ++ [Z.land (nth 31 scalar 0) 127] in
  let* private_key' :=
    match private_key with
    | None => Some None
    | Some k =>
        let a := sc_muladd SC_1 n (firstn 32 k) in
        let h := sha512_init hash in
        let* h := sha512_feed h (slice k 32 32) in
        let* h := sha512_feed h (firstn 32 scalar) in
        let hashbuf := snd (sha512_final h) in
        Some (Some (a ++ firstn 32 hashbuf))
    end in
  match public_key with
  | None => Some (None, private_key')
  | Some pk =>
      let A :=
        match private_key' with
        | Some k => ge_scalarmult_base k
        | None =>
            let u := snd (ge_frombytes_negate_vartime unpacked pk) in
            let u := P3 (fe_neg (p3_X u)) (p3_Y u) (p3_Z u) (p3_T u) in
            let u := P3 (p3_X u) (p3_Y u) (p3_Z u) (fe_neg (p3_T u)) in
            let T := ge_p3_to_cached u in
            let nB := ge_scalarmult_base n in
            let A_p1p1 := ge_add nB T in
            ge_p1p1_to_p3 A_p1p1
        end in
      Some (Some (ge_p3_tobytes A), private_key')
  end.

(** ** Key exchange *)

(** The ladder's variables [x2, z2, x3, z3] and [swap]. *)
Record ladder := Ladder { l_x2 : fe; l_z2 : fe; l_x3 : fe; l_z3 : fe; l_swap : Z }.

(** One iteration at bit [pos] of [e]. *)
Definition ladder_step (x1 : fe) (e : list Z) (l : ladder) (pos : nat) : ladder :=
  let b := Z.shiftr (nth (Nat.div pos 8) e 0) (Z.land (Z.of_nat pos) 7) in
  let b := Z.land b 1 in
  let swap := Z.lxor (l_swap l) b in
  let '(x2, x3) := fe_cswap (l_x2 l) (l_x3 l) swap in
  let '(z2, z3) := fe_cswap (l_z2 l) (l_z3 l) swap in
  let swap := b in
  let tmp0 := fe_sub x3 z3 in
  let tmp1 := fe_sub x2 z2 in
  let x2 := fe_add x2 z2 in
  let z2 := fe_add x3 z3 in
  let z3 := fe_mul tmp0 x2 in
  let z2 := fe_mul z2 tmp1 in
  let tmp0 := fe_sq tmp1 in
  let tmp1 := fe_sq x2 in
  let x3 := fe_add z3 z2 in
  let z2 := fe_sub z3 z2 in
  let x2 := fe_mul tmp1 tmp0 in
  let tmp1 := fe_sub tmp1 tmp0 in
  let z2 := fe_sq z2 in
  let z3 := fe_mul121666 tmp1 in
  let x3 := fe_sq x3 in
  let tmp0 := fe_add tmp0 z3 in
  let z3 := fe_mul x1 z2 in
  let z2 := fe_mul tmp1 tmp0 in
  Ladder x2 z2 x3 z3 swap.

Definition ed25519_key_exchange (public_key private_key : list Z) : list Z :=
  let e := clamp (firstn 32 private_key) in
  let x1 := fe_frombytes public_key in
  let tmp1 := fe_1 in
  let tmp0 := fe_add x1 tmp1 in
  let tmp1 := fe_sub tmp1 x1 in
  let tmp1 := fe_invert tmp1 in
  let x1 := fe_mul tmp0 tmp1 in
  let l := Ladder fe_1 fe_0 (fe_copy x1) fe_1 0 in
  let l := fold_left (ladder_step x1 e) (rev (seq 0 255)) l in
  let '(x2, x3) := fe_cswap (l_x2 l) (l_x3 l) (l_swap l) in
  let '(z2, z3) := fe_cswap (l_z2 l) (l_z3 l) (l_swap l) in
  let z2 := fe_invert z2 in
  let x2 := fe_mul x2 z2 in
  fe_tobytes x2.
