(* ===== verification/Ed25519Correct.v ===== *)
(** * Signatures are correct

    Key generation, signing and verification in terms of the group of Edwards and the hash of
    Sha512Correct; every signature made with a created key pair is accepted, verification
    decides the equation of the scheme, and adding a scalar treats the two halves of a key
    alike. *)

From Stdlib Require Import ZArith Lia List Bool Zmod.Zmod.
From S2P Require Import Prelude Machine Bytes Fe FeArith FeBytes Sc ScArith Sha512.
From S2P Require Import Sha512Correct Edwards Precomp Ge GeArith GeCode GeTable GeMult Ed25519.
Import ListNotations.
Local Open Scope Z_scope.

(** ** Hashes *)

Lemma feed_absorbs (h : sha512_context) (m c : list Z) : absorbed h m -> bytes c ->
  exists h', sha512_feed h c = Some h' /\ absorbed h' (m ++ c).
Proof.
  intros H Hc; destruct (sha512_update_absorbs h m c H Hc) as (h' & E & A).
  exists h'; unfold sha512_feed; now rewrite E.
Qed.

(** What fits the 64-bit length counter of sha512.c. *)
Definition hashable (m : list Z) : Prop := bytes m /\ 8 * (Z.of_nat (length m) + 64) < 2 ^ 64.

Lemma hash_bytes (m : list Z) : bytes (Spec.hash m) /\ length (Spec.hash m) = 64%nat.
Proof.
  unfold Spec.hash; set (l := Spec.hash_blocks _ _ _).
  assert (L : length l = 8%nat) by (apply hash_blocks_length; reflexivity); split.
  - clear L; induction l as [|x l IH]; [constructor|]; cbn [flat_map]; apply Forall_app; split;
      [apply be_bytes_bytes | exact IH].
  - rewrite flat_map_constant_length with (c := 8%nat); [lia|].
    intros x _; unfold Spec.be_bytes; now rewrite length_rev, le_bytes_length.
Qed.

(** The scalar of a hash. *)
Definition hscalar (m : list Z) : Z := le_val (Spec.hash m) mod ell.

Lemma ell_bounds : 2 ^ 252 < ell < 2 ^ 253.
Proof. split; reflexivity. Qed.

Lemma mod_ell (z : Z) : 0 <= z mod ell < ell.
Proof. apply Z.mod_pos_bound; reflexivity. Qed.

Lemma hash_scalar (m : list Z) : sc_reduce (Spec.hash m) = le_bytes 32 (hscalar m).
Proof. destruct (hash_bytes m) as [HB HL]; exact (sc_reduce_spec _ HB HL). Qed.

(** ** Scalars as 32 bytes *)

Lemma scalar_bytes (z : Z) : 0 <= z < 2 ^ 256 ->
  bytes (le_bytes 32 z) /\ length (le_bytes 32 z) = 32%nat /\ le_val (le_bytes 32 z) = z.
Proof.
  intros Hz; splits; [apply le_bytes_bytes | apply le_bytes_length |].
  rewrite le_val_bytes; apply Z.mod_small; exact Hz.
Qed.

Lemma reduced_base (z : Z) : is_p3 (smul (z mod ell) B) (ge_scalarmult_base (le_bytes 32 (z mod ell))).
Proof.
  pose proof (mod_ell z); pose proof ell_bounds.
  destruct (scalar_bytes (z mod ell)) as (HB & HL & HV); [lia|].
  rewrite <- HV at 1; apply ge_scalarmult_base_spec; [exact HB | exact HL |].
  enough (nth 31 (le_bytes 32 (z mod ell)) 0 < 2 ^ 7) by lia.
  apply (top_byte _ 7 HB HL); [lia | rewrite HV; lia].
Qed.

Lemma smul_mod (z : Z) : smul (z mod ell) B = smul z B.
Proof. apply (smul_order ell); [exact base_order | apply eqm_mod]. Qed.

Lemma base_code (z : Z) : ge_p3_tobytes (ge_scalarmult_base (le_bytes 32 (z mod ell))) = encode (smul z B).
Proof. rewrite (ge_p3_tobytes_spec _ _ (reduced_base z)); now rewrite smul_mod. Qed.

(** ** Key generation *)

Lemma clamp_length (k : list Z) : length (clamp k) = length k.
Proof. unfold clamp; now rewrite !update_length. Qed.

(** A property of every byte, by cases. *)
Lemma byte_check (f : Z -> bool) (b : Z) :
  forallb f (map Z.of_nat (seq 0 256)) = true -> is_byte b -> f b = true.
Proof.
  rewrite forallb_forall; intros H Hb; unfold is_byte in Hb; apply H, in_map_iff.
  exists (Z.to_nat b); split; [lia | apply in_seq; lia].
Qed.

Lemma byte_maps (f : Z -> Z) (b : Z) :
  forallb (fun b => is_byteb (f b)) (map Z.of_nat (seq 0 256)) = true -> is_byte b -> is_byte (f b).
Proof.
  intros H Hb; pose proof (byte_check _ b H Hb) as E; unfold is_byteb in E.
  now rewrite andb_true_iff, Z.leb_le, Z.ltb_lt in E.
Qed.

Lemma clamp_low (b : Z) : is_byte b -> Z.land b 248 mod 8 = 0.
Proof. intros Hb; apply Z.eqb_eq; exact (byte_check (fun b => Z.land b 248 mod 8 =? 0) b eq_refl Hb). Qed.

Lemma clamp_high (b : Z) : is_byte b -> 64 <= Z.lor (Z.land b 63) 64 <= 127.
Proof.
  intros Hb; rewrite <- !Z.leb_le, <- andb_true_iff.
  exact (byte_check (fun b => (64 <=? Z.lor (Z.land b 63) 64) && (Z.lor (Z.land b 63) 64 <=? 127)) b eq_refl Hb).
Qed.

Lemma update_bytes (l : list Z) (k : nat) (x : Z) : is_byte x -> bytes l -> bytes (update l k x).
Proof.
  intros Hx H; revert k; induction H as [|y l Hy Hl IH]; intros k; [apply Forall_nil|].
  destruct k as [|k]; cbn [update]; apply Forall_cons; auto; apply IH.
Qed.

Lemma clamp_bytes (k : list Z) : bytes k -> bytes (clamp k).
Proof.
  intros Hk; unfold clamp; cbv zeta.
  repeat first [ apply update_bytes | apply bytes_nth
    | apply (byte_maps (fun b => Z.land b 248)); [reflexivity|]
    | apply (byte_maps (fun b => Z.land b 63)); [reflexivity|]
    | apply (byte_maps (fun b => Z.lor b 64)); [reflexivity|] | assumption ].
Qed.

(** A private scalar after clamping: a multiple of 8 with bit 254 set. *)
Definition clamped (a : Z) : Prop := 2 ^ 254 <= a < 2 ^ 255 /\ a mod 8 = 0.

Lemma clamp_nth (k : list Z) : (32 <= length k)%nat ->
  nth 0 (clamp k) 0 = Z.land (nth 0 k 0) 248 /\ nth 31 (clamp k) 0 = Z.lor (Z.land (nth 31 k 0) 63) 64.
Proof.
  intros L; unfold clamp; rewrite !nth_update, !update_length; cbn [Nat.eqb andb].
  destruct (Nat.ltb_spec 0 (length k)), (Nat.ltb_spec 31 (length k)); split; (reflexivity || lia).
Qed.

Lemma nth_firstn_lt (l : list Z) (n i : nat) : (i < n)%nat -> nth i (firstn n l) 0 = nth i l 0.
Proof. intros H; rewrite nth_firstn; destruct (Nat.ltb_spec i n); [reflexivity | lia]. Qed.

Lemma clamp_spec (k : list Z) : bytes k -> (32 <= length k)%nat ->
  clamped (le_val (firstn 32 (clamp k))) /\ nth 31 (clamp k) 0 <= 127.
Proof.
  intros Hk L; destruct (clamp_nth k L) as [N0 N31]; pose proof (clamp_bytes k Hk) as Hc.
  pose proof (clamp_low _ (bytes_nth k 0 Hk)) as M0; pose proof (clamp_high _ (bytes_nth k 31 Hk)) as R31.
  set (s := firstn 32 (clamp k)).
  assert (Ls : length s = 32%nat) by (apply firstn_length_le; rewrite clamp_length; lia).
  assert (Hs : bytes s) by (apply bytes_firstn, Hc).
  rewrite <- (nth_firstn_lt _ 32 31) in N31 |- * by lia; rewrite <- (nth_firstn_lt _ 32 0) in N0 by lia.
  fold s in N0, N31 |- *; rewrite <- N31 in R31; rewrite <- N0 in M0; split; [split|lia].
  - pose proof (top_byte s 6 Hs Ls ltac:(lia)) as T6; pose proof (top_byte s 7 Hs Ls ltac:(lia)) as T7.
    change (2 ^ 6) with 64 in T6; change (2 ^ 7) with 128 in T7.
    change (248 + 6) with 254 in T6; change (248 + 7) with 255 in T7; lia.
  - destruct s as [|b s]; [discriminate Ls|]; cbn [le_val nth] in *.
    change 256 with (8 * 32); rewrite <- Z.mul_assoc, (Z.mul_comm 8), Z_mod_plus_full; exact M0.
Qed.

(** Only the first 32 bytes of the scalar are read. *)
Lemma scalarmult_prefix (a : list Z) : (32 <= length a)%nat ->
  ge_scalarmult_base a = ge_scalarmult_base (firstn 32 a).
Proof.
  intros L; unfold ge_scalarmult_base, recode; replace (nibbles (firstn 32 a)) with (nibbles a); [reflexivity|].
  unfold nibbles; rewrite !flat_map_concat_map; f_equal; apply map_ext_in; intros i Hi; apply in_seq in Hi.
  now rewrite nth_firstn_lt by lia.
Qed.

(** The private scalar of a key. *)
Definition secret (private_key : list Z) : Z := le_val (firstn 32 private_key).

Lemma keypair_spec (fresh : sha512_context) (seed : list Z) : uninitialised fresh -> bytes seed ->
  exists pk sk, ed25519_create_keypair fresh seed = Some (pk, sk) /\
    bytes sk /\ length sk = 64%nat /\ sk = clamp (Spec.hash (firstn 32 seed)) /\
    clamped (secret sk) /\ pk = encode (smul (secret sk) B).
Proof.
  intros Hf Hs; unfold ed25519_create_keypair.
  rewrite sha512_spec; [|exact Hf | now apply bytes_firstn | pose proof (firstn_le_length 32 seed); lia].
  cbn [snd]; set (k := Spec.hash (firstn 32 seed)); destruct (hash_bytes (firstn 32 seed)) as [Hk Lk].
  fold k in Hk, Lk; destruct (clamp_spec k Hk ltac:(lia)) as [Hc Ht].
  eexists; eexists; splits; [reflexivity | now apply clamp_bytes | rewrite clamp_length; exact Lk
    | reflexivity | exact Hc |].
  apply ge_p3_tobytes_spec; rewrite scalarmult_prefix by (rewrite clamp_length; lia).
  apply ge_scalarmult_base_spec; [apply bytes_firstn, clamp_bytes, Hk | |].
  - apply firstn_length_le; rewrite clamp_length; lia.
  - rewrite nth_firstn_lt by lia; exact Ht.
Qed.

(** ** Signing *)

Lemma final_digest (h : sha512_context) (m : list Z) : absorbed h m -> 8 * Z.of_nat (length m) < 2 ^ 64 ->
  snd (sha512_final h) = Spec.hash m.
Proof. intros H L; now rewrite (sha512_final_spec h m H L). Qed.

(** Runs one call of sha512_update on the context in the goal. *)
Ltac feed_tac A :=
  lazymatch type of A with
  | absorbed ?h ?m =>
      lazymatch goal with
      | |- context [sha512_feed h ?c] =>
          let h' := fresh "h" in let E := fresh "E" in let A' := fresh "A" in let Hc := fresh in
          assert (Hc : bytes c) by auto with bytes;
          destruct (feed_absorbs h m c A Hc) as (h' & E & A'); rewrite E; clear E A Hc; rename A' into A
      end
  end.

Ltac feeds_tac :=
  repeat match goal with A : absorbed _ _ |- _ => feed_tac A end.

Definition nonce (private_key message : list Z) : Z := hscalar (slice private_key 32 32 ++ message).

(** The scalar that binds a signature to the point, the key and the message. *)
Definition challenge (code public_key message : list Z) : Z := hscalar (code ++ public_key ++ message).

Lemma slice_bytes (s : list Z) (o n : nat) : bytes s -> bytes (slice s o n).
Proof. intros H; now apply bytes_firstn, bytes_skipn. Qed.

Lemma slice_length (s : list Z) (o n : nat) : (o + n <= length s)%nat -> length (slice s o n) = n.
Proof. apply firstn_skipn_length. Qed.

#[local] Hint Resolve slice_bytes : bytes.

Definition code_of (z : Z) : list Z := encode (smul z B).

Lemma sign_spec (hash hash' : sha512_context) (m pk sk : list Z) :
  uninitialised hash -> uninitialised hash' -> hashable m ->
  bytes pk -> length pk = 32%nat -> bytes sk -> length sk = 64%nat ->
  let r := nonce sk m in
  ed25519_sign hash hash' m pk sk =
    Some (code_of r ++ le_bytes 32 ((challenge (code_of r) pk m * secret sk + r) mod ell)).
Proof.
  intros [L1 B1] [L2 B2] [Hm Lm] Hpk Lpk Hsk Lsk r; unfold ed25519_sign; cbv zeta.
  pose proof (absorbed_init hash L1 B1) as A1; feeds_tac.
  rewrite (final_digest _ _ A1) by (rewrite !length_app, slice_length by lia; cbn [length]; lia).
  rewrite hash_scalar; cbn [app]; fold (nonce sk m); fold r.
  assert (Er : r mod ell = r) by (apply Z.mod_small, mod_ell).
  assert (EC : ge_p3_tobytes (ge_scalarmult_base (le_bytes 32 r)) = code_of r)
    by (rewrite <- Er at 1; apply base_code).
  rewrite !EC; clear EC.
  destruct (encode_bytes (smul r B)) as [Hc Lc]; fold (code_of r) in Hc, Lc.
  clear A1; pose proof (absorbed_init hash' L2 B2) as A1; feeds_tac.
  rewrite (final_digest _ _ A1) by (rewrite !length_app, firstn_length_le, Lc by lia; cbn [length]; lia).
  cbn [app]; rewrite (firstn_all2 pk) by lia; rewrite <- app_assoc, hash_scalar; fold (challenge (code_of r) pk m).
  pose proof (mod_ell (le_val (Spec.hash (code_of r ++ pk ++ m)))) as Rc.
  fold (hscalar (code_of r ++ pk ++ m)) in Rc; fold (challenge (code_of r) pk m) in Rc.
  pose proof (mod_ell r) as Rr; rewrite Er in Rr; pose proof ell_bounds.
  destruct (scalar_bytes (challenge (code_of r) pk m)) as (D1 & D2 & D3); [lia|].
  destruct (scalar_bytes r) as (D4 & D5 & D6); [lia|].
  assert (Ls : length (firstn 32 sk) = 32%nat) by (apply firstn_length_le; lia).
  pose proof (sc_muladd_spec _ _ _ D1 (bytes_firstn 32 sk Hsk) D4 D2 Ls D5) as E; unfold reduced in E.
  rewrite D3, D6 in E; now rewrite E.
Qed.

(** ** Verification *)

Lemma lor_fold_zero (g : nat -> Z) (l : list nat) (r : Z) :
  fold_left (fun r i => Z.lor r (g i)) l r = 0 <-> r = 0 /\ forall i, In i l -> g i = 0.
Proof.
  revert r; induction l as [|j l IH]; intros r; cbn [fold_left In].
  - split; [intros ->; split; [reflexivity | tauto] | tauto].
  - rewrite IH, Z.lor_eq_0_iff; split.
    + intros [[Hr Hj] H]; split; [exact Hr|]; intros i [<-|Hi]; auto.
    + intros [Hr H]; split; [split; [exact Hr | apply H; now left] | intros i Hi; apply H; now right].
Qed.

(** The comparison without branches decides equality of the 32 bytes. *)
Lemma consttime_equal_spec (x y : list Z) : (32 <= length x)%nat -> (32 <= length y)%nat ->
  consttime_equal x y = if list_eq_dec Z.eq_dec (firstn 32 x) (firstn 32 y) then 1 else 0.
Proof.
  intros Lx Ly; unfold consttime_equal; cbv zeta.
  pose proof (lor_fold_zero (fun i => Z.lxor (nth i x 0) (nth i y 0)) (seq 1 31) (Z.lxor (nth 0 x 0) (nth 0 y 0))) as Q.
  assert (E : firstn 32 x = firstn 32 y <-> forall i, (i < 32)%nat -> nth i x 0 = nth i y 0).
  { rewrite <- (map_nth_firstn x 0 32 Lx), <- (map_nth_firstn y 0 32 Ly); split.
    - intros H i Hi; apply (f_equal (fun l => nth i l 0)) in H.
      rewrite !(map_nth_firstn _ 0 32) in H by assumption; now rewrite !nth_firstn_lt in H by lia.
    - intros H; apply map_ext_in; intros i Hi; apply H; apply in_seq in Hi; lia. }
  destruct (Z.eqb_spec (fold_left (fun r i => Z.lor r (Z.lxor (nth i x 0) (nth i y 0))) (seq 1 31)
    (Z.lxor (nth 0 x 0) (nth 0 y 0))) 0) as [Z|Z]; destruct (list_eq_dec Z.eq_dec _ _) as [D|D]; try reflexivity.
  - exfalso; apply D, E; intros i Hi; apply Q in Z; destruct Z as [Z0 Z1]; apply Z.lxor_eq.
    destruct i as [|i]; [exact Z0 | apply Z1, in_seq; lia].
  - exfalso; apply Z, Q; pose proof (proj1 E D) as N; split; [rewrite N by lia; apply Z.lxor_nilpotent|].
    intros i Hi; apply in_seq in Hi; rewrite N by lia; apply Z.lxor_nilpotent.
Qed.

Lemma top_bits (b : Z) : is_byte b -> (Z.land b 224 =? 0) = (b <? 32).
Proof.
  intros Hb; apply eqb_prop; exact (byte_check (fun b => Bool.eqb (Z.land b 224 =? 0) (b <? 32)) b eq_refl Hb).
Qed.

(** The second half of a signature, as a number. *)
Definition response (signature : list Z) : Z := le_val (slice signature 32 32).

Lemma response_bound (s : list Z) : bytes s -> length s = 64%nat ->
  (nth 63 s 0 <? 32) = (response s <? 2 ^ 253).
Proof.
  intros Hs Ls; pose proof (slice_bytes s 32 32 Hs) as Hb; assert (Lb := slice_length s 32 32 ltac:(lia)).
  pose proof (top_byte _ 5 Hb Lb ltac:(lia)) as T; change (248 + 5) with 253 in T; change (2 ^ 5) with 32 in T.
  assert (N : nth 31 (slice s 32 32) 0 = nth 63 s 0)
    by (unfold slice; rewrite nth_firstn_lt, nth_skipn by lia; reflexivity).
  rewrite N in T; fold (response s) in T.
  destruct (Z.ltb_spec (nth 63 s 0) 32), (Z.ltb_spec (response s) (2 ^ 253)); (reflexivity || lia).
Qed.

(** The equation of the scheme, on the code of the point, for the key [A]. *)
Definition equation (A : point) (signature message public_key : list Z) : Prop :=
  encode (padd (smul (challenge (firstn 32 signature) public_key message) (popp A))
    (smul (response signature) B)) = firstn 32 signature.

Lemma verify_spec (unpacked : ge_p3) (hash : sha512_context) (s m pk : list Z) :
  uninitialised hash -> hashable m -> bytes s -> length s = 64%nat -> bytes pk -> length pk = 32%nat ->
  (response s < 2 ^ 253 /\ exists A, decodes pk (popp A) /\
    ((equation A s m pk /\ ed25519_verify unpacked hash s m pk = Some 1) \/
     (~ equation A s m pk /\ ed25519_verify unpacked hash s m pk = Some 0))) \/
  ((2 ^ 253 <= response s \/ forall A, ~ decodes pk (popp A)) /\
   ed25519_verify unpacked hash s m pk = Some 0).
Proof.
  intros [L1 B1] [Hm Lm] Hs Ls Hpk Lpk; unfold ed25519_verify.
  rewrite (top_bits _ (bytes_nth s 63 Hs)), (response_bound s Hs Ls).
  destruct (Z.ltb_spec (response s) (2 ^ 253)) as [R|R]; cbn [negb]; [|right; split; [now left | reflexivity]].
  pose proof (ge_frombytes_spec unpacked pk Hpk Lpk) as D; unfold decode_result in D.
  destruct (ge_frombytes_negate_vartime unpacked pk) as [status a]; cbn [fst snd] in D.
  destruct D as [[-> (P & D & HP)]|[-> D]]; cbn [Z.eqb negb].
  - left; split; [exact R|]; exists (popp P); rewrite popp_involutive; split; [exact D|].
    pose proof (absorbed_init hash L1 B1) as A1; feeds_tac.
    assert (L32 : length (firstn 32 s) = 32%nat) by (apply firstn_length_le; lia).
    rewrite (final_digest _ _ A1) by (rewrite !length_app, L32, firstn_length_le by lia; cbn [length]; lia).
    cbn [app]; rewrite (firstn_all2 pk) by lia; rewrite <- app_assoc, hash_scalar.
    fold (challenge (firstn 32 s) pk m); set (k := challenge (firstn 32 s) pk m).
    assert (Rk : 0 <= k < ell) by apply mod_ell; pose proof ell_bounds.
    destruct (scalar_bytes k) as (D1 & D2 & D3); [lia|].
    pose proof (ge_double_scalarmult_spec P a (le_bytes 32 k) (slice s 32 32) HP D1 D2 ltac:(lia)
      (slice_bytes s 32 32 Hs) (slice_length s 32 32 ltac:(lia)) R) as Q; rewrite D3 in Q.
    rewrite (ge_tobytes_spec _ _ Q); unfold equation; fold k; rewrite popp_involutive; fold (response s).
    destruct (encode_bytes (padd (smul k P) (smul (response s) B))) as [_ Lc].
    rewrite consttime_equal_spec, (firstn_all2 (encode _)) by lia.
    destruct (list_eq_dec Z.eq_dec _ _) as [E|E]; cbn [Z.eqb]; [left | right]; now split.
  - right; split; [right | reflexivity]; intros A [HY _]; apply (D (px (popp A))); rewrite <- HY; apply point_on.
Qed.

(** The verifier on the key of a point, where decoding cannot fail. *)
Lemma verify_encoded (unpacked : ge_p3) (hash : sha512_context) (s m : list Z) (A : point) :
  uninitialised hash -> hashable m -> bytes s -> length s = 64%nat -> response s < 2 ^ 253 ->
  equation A s m (encode A) -> ed25519_verify unpacked hash s m (encode A) = Some 1.
Proof.
  intros Hh Hm Hs Ls R Q; destruct (encode_bytes A) as [Bc Lc].
  destruct (verify_spec unpacked hash s m (encode A) Hh Hm Hs Ls Bc Lc) as [[_ (A' & D & V)]|[[V|V] _]].
  - assert (E : A' = A).
    { rewrite <- (popp_involutive A'), <- (popp_involutive A); f_equal.
      exact (decodes_unique _ _ _ Bc Lc D (decodes_encode A)). }
    subst A'; destruct V as [[_ V]|[V _]]; [exact V | contradiction].
  - lia.
  - destruct (V A (decodes_encode A)).
Qed.

(** ** Key pairs and signatures *)

(** The two halves belong together. *)
Definition key_pair (public_key private_key : list Z) : Prop :=
  bytes private_key /\ length private_key = 64%nat /\ public_key = encode (smul (secret private_key) B).

(** ed25519_create_keypair always succeeds; the private scalar is clamped (a multiple of 8 in
    [2^254, 2^255)) and the public key is the standard encoding of that multiple of the base
    point. *)
Theorem keypair_correct (fresh : sha512_context) (seed : list Z) :
  uninitialised fresh -> bytes seed ->
  exists pk sk, ed25519_create_keypair fresh seed = Some (pk, sk) /\ key_pair pk sk /\ clamped (secret sk).
Proof.
  intros Hf Hs; destruct (keypair_spec fresh seed Hf Hs) as (pk & sk & E & HB & HL & _ & HC & HP).
  exists pk, sk; unfold key_pair; auto.
Qed.

Definition zero_context : sha512_context := Ctx 0 [] 0 (repeat 0 128).

Lemma zero_uninitialised : uninitialised zero_context.
Proof. split; [reflexivity | apply bytesb_spec; reflexivity]. Qed.

Lemma keypair_correct_witness :
  exists pk sk, ed25519_create_keypair zero_context (repeat 1 32) = Some (pk, sk) /\ key_pair pk sk /\
    clamped (secret sk).
Proof. apply (keypair_correct zero_context); [exact zero_uninitialised | apply bytesb_spec; reflexivity]. Defined.

Lemma signature_form (hash hash' : sha512_context) (m pk sk : list Z) :
  uninitialised hash -> uninitialised hash' -> hashable m -> key_pair pk sk ->
  exists r S, 0 <= S < ell /\ S =[ell]= challenge (code_of r) pk m * secret sk + r /\
    ed25519_sign hash hash' m pk sk = Some (code_of r ++ le_bytes 32 S).
Proof.
  intros H1 H2 Hm (Hsk & Lsk & ->); destruct (encode_bytes (smul (secret sk) B)) as [Bp Lp].
  eexists; eexists; splits; [apply mod_ell | apply mod_ell | apply eqm_mod |].
  now apply sign_spec.
Qed.

Lemma signature_halves (r S : Z) : 0 <= S < ell ->
  let s := code_of r ++ le_bytes 32 S in
  bytes s /\ length s = 64%nat /\ firstn 32 s = code_of r /\ response s = S.
Proof.
  intros HS s; destruct (encode_bytes (smul r B)) as [HB HL]; fold (code_of r) in HB, HL.
  pose proof ell_bounds; destruct (scalar_bytes S) as (D1 & D2 & D3); [lia|].
  unfold s, response, slice; splits.
  - now apply bytes_app.
  - rewrite length_app, HL, D2; reflexivity.
  - apply firstn_app_exact, HL.
  - rewrite skipn_app, HL, skipn_all2 by lia; cbn [app Nat.sub skipn]; now rewrite firstn_all2 by lia.
Qed.

(** Signing and verifying, for the clients of the library. *)
Lemma sign_then_verify (hash1 hash2 hash3 : sha512_context) (unpacked : ge_p3) (m pk sk : list Z) :
  uninitialised hash1 -> uninitialised hash2 -> uninitialised hash3 -> hashable m -> key_pair pk sk ->
  exists s, ed25519_sign hash1 hash2 m pk sk = Some s /\ bytes s /\ length s = 64%nat /\
    ed25519_verify unpacked hash3 s m pk = Some 1.
Proof.
  intros H1 H2 H3 Hm K; destruct (signature_form hash1 hash2 m pk sk H1 H2 Hm K) as (r & S & RS & ES & E).
  destruct (signature_halves r S RS) as (HB & HL & HF & HR); pose proof ell_bounds.
  eexists; splits; [exact E | exact HB | exact HL |]; destruct K as (_ & _ & ->).
  apply verify_encoded; auto; [lia|]; unfold equation; rewrite HF, HR; unfold code_of at 2.
  f_equal; set (k := challenge _ _ m) in *; rewrite (smul_order ell S _ B base_order ES), smul_add.
  rewrite smul_mul, <- padd_assoc, <- smul_padd, (padd_comm (popp _)), padd_opp_r, smul_0_r.
  apply padd_0_l.
Qed.

(** C1: a signature made by ed25519_sign with the two halves of a key is 64 bytes long and
    ed25519_verify accepts it for that message and public key, whatever the uninitialised
    variables of the two functions held. *)
Theorem signatures_verify (hash1 hash2 hash3 : sha512_context) (unpacked : ge_p3) (m pk sk : list Z) :
  uninitialised hash1 -> uninitialised hash2 -> uninitialised hash3 -> hashable m -> key_pair pk sk ->
  exists s, ed25519_sign hash1 hash2 m pk sk = Some s /\ bytes s /\ length s = 64%nat /\
    ed25519_verify unpacked hash3 s m pk = Some 1.
Proof. apply sign_then_verify. Qed.

Definition zero_secret : list Z := repeat 0 64.

Lemma zero_key_pair : key_pair (encode pzero) zero_secret.
Proof. unfold key_pair; splits; [apply bytesb_spec; reflexivity | reflexivity | reflexivity]. Qed.

Lemma signatures_verify_witness :
  exists s, ed25519_sign zero_context zero_context [1; 2; 3] (encode pzero) zero_secret = Some s /\
    bytes s /\ length s = 64%nat /\
    ed25519_verify ge_p3_0 zero_context s [1; 2; 3] (encode pzero) = Some 1.
Proof.
  apply (signatures_verify zero_context zero_context zero_context ge_p3_0);
    try exact zero_uninitialised; [|exact zero_key_pair].
  split; [apply bytesb_spec; reflexivity | vm_compute; reflexivity].
Defined.

(** C8: ed25519_verify returns 1 exactly when the second half of the signature is below 2^253, the
    public key decodes to a point A, and the code of k (-A) + S B is the first half of the
    signature (k being the hash of that half, the key and the message); in every other
    case, an undecodable key included, it returns 0. *)
Theorem verify_decides (unpacked : ge_p3) (hash : sha512_context) (s m pk : list Z) :
  uninitialised hash -> hashable m -> bytes s -> length s = 64%nat -> bytes pk -> length pk = 32%nat ->
  let accepted := response s < 2 ^ 253 /\ exists A, decodes pk (popp A) /\ equation A s m pk in
  (accepted /\ ed25519_verify unpacked hash s m pk = Some 1) \/
  (~ accepted /\ ed25519_verify unpacked hash s m pk = Some 0).
Proof.
  intros Hh Hm Hs Ls Hp Lp accepted; unfold accepted.
  destruct (verify_spec unpacked hash s m pk Hh Hm Hs Ls Hp Lp) as [(R & A & D & [[Q V]|[Q V]])|[C V]].
  - left; split; [split; [exact R | now exists A] | exact V].
  - right; split; [|exact V]; intros (_ & A' & D' & Q'); apply Q.
    rewrite <- (popp_involutive A), (decodes_unique _ _ _ Hp Lp D D'), popp_involutive; exact Q'.
  - right; split; [|exact V]; intros (R & A & D & _); destruct C as [C|C]; [lia | exact (C A D)].
Qed.

Lemma verify_decides_witness :
  let s := repeat 255 64 in
  ~ (response s < 2 ^ 253) /\ ed25519_verify ge_p3_0 zero_context s [] (repeat 0 32) = Some 0.
Proof.
  cbv zeta; assert (N : ~ (response (repeat 255 64) < 2 ^ 253)) by (vm_compute; discriminate).
  split; [exact N|].
  destruct (verify_decides ge_p3_0 zero_context (repeat 255 64) [] (repeat 0 32)) as [[[R _] _]|[_ V]].
  - exact zero_uninitialised.
  - split; [constructor | vm_compute; reflexivity].
  - apply bytesb_spec; reflexivity.
  - reflexivity.
  - apply bytesb_spec; reflexivity.
  - reflexivity.
  - destruct (N R).
  - exact V.
Defined.

(** signatures are malleable: adding the group order to the second half of an accepted
    signature gives another accepted signature, as long as the sum stays below 2^253 (verify
    does not require the second half to be reduced). *)
Theorem verify_malleable (unpacked : ge_p3) (hash : sha512_context) (s m pk : list Z) :
  uninitialised hash -> hashable m -> bytes s -> length s = 64%nat -> bytes pk -> length pk = 32%nat ->
  response s + ell < 2 ^ 253 -> ed25519_verify unpacked hash s m pk = Some 1 ->
  ed25519_verify unpacked hash (firstn 32 s ++ le_bytes 32 (response s + ell)) m pk = Some 1.
Proof.
  intros Hh Hm Hs Ls Hp Lp R V; pose proof ell_bounds; set (s' := firstn 32 s ++ _).
  assert (R0 : 0 <= response s) by (apply le_val_range, slice_bytes, Hs).
  destruct (scalar_bytes (response s + ell)) as (D1 & D2 & D3); [lia|].
  assert (L32 : length (firstn 32 s) = 32%nat) by (apply firstn_length_le; lia).
  assert (Hs' : bytes s') by (apply bytes_app; [now apply bytes_firstn | exact D1]).
  assert (Ls' : length s' = 64%nat) by (unfold s'; rewrite length_app; lia).
  assert (F : firstn 32 s' = firstn 32 s) by (apply firstn_app_exact, L32).
  assert (Rs : response s' = response s + ell).
  { unfold response at 1, slice, s'; rewrite skipn_app, L32, skipn_all2 by lia.
    cbn [app Nat.sub skipn]; now rewrite firstn_all2 by lia. }
  destruct (verify_spec unpacked hash s m pk Hh Hm Hs Ls Hp Lp) as [(_ & A & D & [[Q _]|[_ V0]])|[_ V0]];
    try (rewrite V in V0; discriminate V0).
  destruct (verify_spec unpacked hash s' m pk Hh Hm Hs' Ls' Hp Lp) as [(_ & A' & D' & [[_ V1]|[N _]])|[[C|C] _]];
    [exact V1 | exfalso; apply N | lia | destruct (C A D)].
  rewrite <- (popp_involutive A'), (decodes_unique _ _ _ Hp Lp D' D), popp_involutive.
  unfold equation in *; rewrite F, Rs, smul_add, base_order, padd_0_r; exact Q.
Qed.

(** The trivial signature under the code of the neutral element. *)
Definition trivial_signature : list Z := encode pzero ++ le_bytes 32 0.

Lemma trivial_accepted (unpacked : ge_p3) (hash : sha512_context) (m : list Z) :
  uninitialised hash -> hashable m -> ed25519_verify unpacked hash trivial_signature m (encode pzero) = Some 1.
Proof.
  intros Hh Hm; destruct (signature_halves 0 0) as (HB & HL & HF & HR); [pose proof ell_bounds; lia|].
  change (code_of 0 ++ le_bytes 32 0) with trivial_signature in *.
  apply verify_encoded; auto; [rewrite HR; reflexivity|]; unfold equation; rewrite HF, HR.
  cbn [smul]; rewrite popp_0, smul_0_r, padd_0_l; reflexivity.
Qed.

Lemma verify_malleable_witness :
  ed25519_verify ge_p3_0 zero_context (firstn 32 trivial_signature ++ le_bytes 32 (response trivial_signature + ell))
    [7] (encode pzero) = Some 1.
Proof.
  assert (Hm : hashable [7]) by (split; [apply bytesb_spec; reflexivity | vm_compute; reflexivity]).
  apply (verify_malleable ge_p3_0 zero_context trivial_signature [7] (encode pzero));
    [exact zero_uninitialised | exact Hm | apply bytesb_spec; reflexivity | reflexivity
    | apply bytesb_spec; reflexivity | reflexivity | vm_compute; reflexivity |].
  exact (trivial_accepted ge_p3_0 zero_context [7] zero_uninitialised Hm).
Defined.

(** ** Scalar addition *)

(** The scalar with its top bit cleared. *)
Definition masked (scalar : list Z) : list Z := firstn 31 scalar ++ [Z.land (nth 31 scalar 0) 127].

Lemma masked_spec (s : list Z) : bytes s -> length s = 32%nat ->
  bytes (masked s) /\ length (masked s) = 32%nat /\ nth 31 (masked s) 0 <= 127.
Proof.
  intros Hs Ls; assert (L : length (firstn 31 s) = 31%nat) by (apply firstn_length_le; lia).
  pose proof (byte_check (fun b => is_byteb (Z.land b 127) && (Z.land b 127 <=? 127)) _ eq_refl (bytes_nth s 31 Hs)) as C.
  unfold is_byteb in C; rewrite !andb_true_iff, !Z.leb_le, Z.ltb_lt in C; unfold masked; splits.
  - apply bytes_app; [now apply bytes_firstn | repeat constructor; unfold is_byte; lia].
  - rewrite length_app, L; reflexivity.
  - rewrite <- L at 1; rewrite nth_app_cons; lia.
Qed.

Lemma neg_unpacked (P : point) (u : ge_p3) : is_p3 P u ->
  is_p3 (popp P) (P3 (fe_neg (p3_X u)) (p3_Y u) (p3_Z u) (fe_neg (p3_T u))).
Proof.
  intros (z & N & X & Y & Z & T); exists z; cbn [px py popp p3_X p3_Y p3_Z p3_T]; splits; auto.
  - refine (frep_eq b_red b_red _ _ _ (frep_neg b_red _ _ X eq_refl) eq_refl _); ring.
  - refine (frep_eq b_red b_red _ _ _ (frep_neg b_red _ _ T eq_refl) eq_refl _); ring.
Qed.

Lemma scalar_one : bytes (1 :: repeat 0 31) /\ length (1 :: repeat 0 31) = 32%nat /\ le_val (1 :: repeat 0 31) = 1.
Proof. splits; [apply bytesb_spec|..]; reflexivity. Qed.

(** The new private key: the sum modulo the order, and a new second half. *)
Lemma add_private (hash : sha512_context) (sk s : list Z) :
  uninitialised hash -> bytes sk -> length sk = 64%nat -> bytes s -> length s = 32%nat ->
  exists tail, bytes tail /\ length tail = 32%nat /\
    forall unpacked, ed25519_add_scalar unpacked hash None (Some sk) s =
      Some (None, Some (le_bytes 32 ((le_val (masked s) + secret sk) mod ell) ++ tail)).
Proof.
  intros [L1 B1] Hsk Lsk Hs Ls; destruct (masked_spec s Hs Ls) as (HM & LM & _).
  assert (Lk : length (firstn 32 sk) = 32%nat) by (apply firstn_length_le; lia).
  destruct scalar_one as (O1 & O2 & O3).
  pose proof (sc_muladd_spec _ _ _ O1 HM (bytes_firstn 32 sk Hsk) O2 LM Lk) as E; unfold reduced in E.
  rewrite O3, Z.mul_1_l in E.
  eexists; splits; cycle 2.
  - intros unpacked; unfold ed25519_add_scalar; cbv zeta; fold (masked s); rewrite E.
    pose proof (absorbed_init hash L1 B1) as A1; feeds_tac.
    rewrite (final_digest _ _ A1) by (rewrite !length_app, slice_length, firstn_length_le by lia; cbn [length]; lia).
    reflexivity.
  - apply bytes_firstn, hash_bytes.
  - apply firstn_length_le; rewrite (proj2 (hash_bytes _)); lia.
Qed.

(** With the private key at hand the public one is recomputed from it. *)
Lemma add_both (unpacked : ge_p3) (hash : sha512_context) (pk sk s : list Z) :
  ed25519_add_scalar unpacked hash (Some pk) (Some sk) s =
  match ed25519_add_scalar unpacked hash None (Some sk) s with
  | Some (_, Some k) => Some (Some (ge_p3_tobytes (ge_scalarmult_base k)), Some k)
  | _ => None
  end.
Proof.
  unfold ed25519_add_scalar; cbv zeta.
  destruct (sha512_feed _ _) as [h|]; [|reflexivity]; destruct (sha512_feed h _); reflexivity.
Qed.

Lemma add_public (unpacked : ge_p3) (hash : sha512_context) (A : point) (s : list Z) :
  bytes s -> length s = 32%nat ->
  ed25519_add_scalar unpacked hash (Some (encode A)) None s =
    Some (Some (encode (padd (smul (le_val (masked s)) B) A)), None).
Proof.
  intros Hs Ls; destruct (masked_spec s Hs Ls) as (HM & LM & TM).
  unfold ed25519_add_scalar; cbv zeta; fold (masked s).
  destruct (decode_encode A unpacked) as [_ HU].
  generalize dependent (snd (ge_frombytes_negate_vartime unpacked (encode A))); intros u HU.
  cbn [p3_X p3_Y p3_Z p3_T]; apply neg_unpacked in HU; rewrite popp_involutive in HU.
  pose proof (ge_add_spec _ _ _ (ge_scalarmult_base_spec _ HM LM TM) _ (ge_p3_to_cached_spec _ _ HU)) as HA.
  rewrite (ge_p3_tobytes_spec _ _ (ge_p1p1_to_p3_spec _ _ HA)); reflexivity.
Qed.

(** ed25519_add_scalar keeps a key pair a key pair and treats its halves alike: the new private
    scalar is the sum of the old one and of the scalar without its top bit, modulo the
    group order, and the public key is the same whether it is computed from the private
    key or, when only the public key is given, by a point addition. *)
Theorem add_scalar_consistent (unpacked : ge_p3) (hash : sha512_context) (pk sk s : list Z) :
  uninitialised hash -> key_pair pk sk -> bytes s -> length s = 32%nat ->
  exists pk' sk', key_pair pk' sk' /\ secret sk' = (le_val (masked s) + secret sk) mod ell /\
    ed25519_add_scalar unpacked hash (Some pk) (Some sk) s = Some (Some pk', Some sk') /\
    ed25519_add_scalar unpacked hash (Some pk) None s = Some (Some pk', None) /\
    ed25519_add_scalar unpacked hash None (Some sk) s = Some (None, Some sk').
Proof.
  intros Hh (Hsk & Lsk & ->) Hs Ls; destruct (add_private hash sk s Hh Hsk Lsk Hs Ls) as (tail & HT & LT & E).
  set (a := (le_val (masked s) + secret sk) mod ell) in *; pose proof ell_bounds.
  assert (Ra : 0 <= a < ell) by apply mod_ell; destruct (scalar_bytes a) as (D1 & D2 & D3); [lia|].
  set (sk' := le_bytes 32 a ++ tail) in *.
  assert (L' : length sk' = 64%nat) by (unfold sk'; rewrite length_app; lia).
  assert (F' : firstn 32 sk' = le_bytes 32 a) by (apply firstn_app_exact, D2).
  assert (S' : secret sk' = a) by (unfold secret; now rewrite F').
  exists (encode (smul a B)), sk'; splits.
  - unfold key_pair; rewrite S'; splits; [now apply bytes_app | exact L' | reflexivity].
  - exact S'.
  - rewrite add_both, E, scalarmult_prefix, F' by lia; unfold a; now rewrite base_code, smul_mod.
  - rewrite add_public by assumption; do 3 f_equal; unfold a; rewrite smul_mod, smul_add; reflexivity.
  - apply E.
Qed.

Lemma add_scalar_consistent_witness :
  exists pk' sk', key_pair pk' sk' /\ secret sk' = (le_val (masked (repeat 9 32)) + secret zero_secret) mod ell /\
    ed25519_add_scalar ge_p3_0 zero_context (Some (encode pzero)) (Some zero_secret) (repeat 9 32) =
      Some (Some pk', Some sk') /\
    ed25519_add_scalar ge_p3_0 zero_context (Some (encode pzero)) None (repeat 9 32) = Some (Some pk', None) /\
    ed25519_add_scalar ge_p3_0 zero_context None (Some zero_secret) (repeat 9 32) = Some (None, Some sk').
Proof.
  apply (add_scalar_consistent ge_p3_0 zero_context);
    [exact zero_uninitialised | exact zero_key_pair | apply bytesb_spec; reflexivity | reflexivity].
Defined.
