(* ===== verification/Montgomery.v ===== *)
(** * The x coordinates of the Montgomery form

    key_exchange.c computes with u = (1 + y) / (1 - y) only. A pair [X : Z] stands for a point when it is
    the ratio of its [1 + y] and [1 - y]; doubling and differential addition of such pairs are the
    formulas of one step of the ladder. *)

From Stdlib Require Import ZArith Lia List Bool Field Zmod.Zmod.
From S2P Require Import Prelude Machine Bytes Fe FeArith FeBytes FePow Prime Edwards Precomp Ge GeArith GeCode.
Import ListNotations.

(** [X : Z] is [1 + y : 1 - y]. *)
Definition ratio (P : point) (X Z : F) : Prop :=
  exists c, c <> 0 /\ X = c * (1 + py P) /\ Z = c * (1 - py P).

(** The coordinate u, zero where it is infinite. *)
Definition ucoord (P : point) : F := if Zmod.eqb (py P) 1 then 0 else (1 + py P) / (1 - py P).

(** (A + 2) / 4 of the curve. *)
Definition a24 : F := toF 121666.

Lemma a24_d : a24 * (1 + d) = 1.
Proof. apply Zmod.eqb_eq; vm_compute; reflexivity. Qed.

Lemma a24_nonzero : a24 <> 0.
Proof. apply F_neq; vm_compute; reflexivity. Qed.

Lemma one_d_nonzero : 1 + d <> 0.
Proof. intros E; apply one_nonzero; rewrite <- a24_d, E; ring. Qed.

Lemma one_plus_d_square (t : F) : 1 + d * (t * t) <> 0.
Proof.
  intros E; destruct (Zmod.eqb_spec t 0) as [->|N].
  - apply one_nonzero; rewrite <- E; ring.
  - apply (square_root_ratio im t N); rewrite im_square; apply F_opp_zero.
    transitivity (- (1 + d * (t * t))); [ring | rewrite E; ring].
Qed.

Lemma curve_x2 (P : point) : px P * px P * (1 + d * (py P * py P)) = py P * py P - 1.
Proof.
  pose proof (point_on P) as H; unfold on_curve in H; apply F_opp_zero.
  transitivity (1 + d * (px P * px P) * (py P * py P) - (- (px P * px P) + py P * py P)); [ring | rewrite H; ring].
Qed.

(** ** Doubling *)

Section Double.
Context (Q : point).
Let x := px Q.
Let y := py Q.
Let m := 1 - d * x * x * y * y.

Lemma double_den : m <> 0.
Proof. exact (proj2 (sum_denominators Q Q)). Qed.

Lemma double_halves : (1 + py (padd Q Q)) * m = (1 + 1) * (1 + x * x) /\ (1 - py (padd Q Q)) * m = (1 + 1) * (1 - y * y).
Proof.
  pose proof double_den as N; pose proof (curve_x2 Q) as C; fold x y in C.
  assert (M : m = 1 + 1 + x * x - y * y).
  { unfold m; transitivity (1 + x * x - x * x * (1 + d * (y * y))); [ring | rewrite C; ring]. }
  assert (Y : py (padd Q Q) * m = y * y + x * x) by (cbn [py padd]; unfold add_y; fold x y m; field; exact N).
  split.
  - transitivity (m + py (padd Q Q) * m); [ring | rewrite Y, M; ring].
  - transitivity (m - py (padd Q Q) * m); [ring | rewrite Y, M; ring].
Qed.

Lemma double_ratio (X Z : F) : ratio Q X Z ->
  let s := (X + Z) * (X + Z) in let t := (X - Z) * (X - Z) in
  ratio (padd Q Q) (s * t) ((s - t) * (t + a24 * (s - t))).
Proof.
  intros (c & Nc & -> & ->) s t; destruct double_halves as [Hp Hm]; pose proof (curve_x2 Q) as C; fold x y in C.
  set (k := (1 + 1) * c * ((1 + 1) * c) * (1 + 1) * c * c).
  exists (k * a24 * (1 + d * (y * y)) * m).
  assert (Es : s = (1 + 1) * c * ((1 + 1) * c)) by (unfold s; ring).
  assert (Et : t = (1 + 1) * c * ((1 + 1) * c) * (y * y)) by (unfold t; fold y; ring).
  splits.
  - pose proof a24_nonzero; pose proof (one_plus_d_square y); pose proof double_den; pose proof two_nonzero.
    unfold k; nonzero_tac.
  - transitivity (k * (a24 * (1 + d * (y * y))) * ((1 + py (padd Q Q)) * m)); [|ring]; rewrite Hp.
    transitivity ((1 + 1) * k * (a24 * (1 + d * (y * y) + x * x * (1 + d * (y * y))))); [|ring].
    rewrite C; transitivity ((1 + 1) * k * (y * y) * (a24 * (1 + d))); [|ring]. rewrite a24_d, Es, Et; unfold k; ring.
  - transitivity (k * (a24 * (1 + d * (y * y))) * ((1 - py (padd Q Q)) * m)); [|ring]; rewrite Hm.
    transitivity ((1 + 1) * k * (1 - y * y) * (a24 * (1 + d) * (y * y) + a24 * (1 - y * y))); [|ring].
    rewrite a24_d, Es, Et; unfold k; ring.
Qed.
End Double.

(** ** Differential addition *)

Section Differential.
Context (Q R : point).
Let q := py Q.
Let r := py R.
Let m := d * px R * px Q * py R * py Q.
Let S := py (padd R Q).
Let D := py (padd R (popp Q)).
Let W := (1 + m) * (1 - m) * ((1 + d * (q * q)) * (1 + d * (r * r))).
Let K := (1 + d) * (1 + d * ((q * r) * (q * r))).

Lemma differential_dens : 1 + m <> 0 /\ 1 - m <> 0.
Proof. exact (sum_denominators R Q). Qed.

Lemma sum_value : S * (1 - m) = r * q + px R * px Q.
Proof. destruct differential_dens as [_ N]; unfold S; cbn [py padd]; unfold add_y; fold m r q; field; exact N. Qed.

Lemma difference_value : D * (1 + m) = r * q - px R * px Q.
Proof.
  destruct differential_dens as [N _]; unfold D; cbn [py px padd popp]; unfold add_y.
  replace (1 - d * px R * - px Q * py R * py Q) with (1 + m) by (unfold m; ring). fold r q; field; exact N.
Qed.

Lemma squares : px R * px Q * (px R * px Q) * ((1 + d * (q * q)) * (1 + d * (r * r))) = (q * q - 1) * (r * r - 1).
Proof.
  pose proof (curve_x2 Q) as Cq; pose proof (curve_x2 R) as Cr; fold q in Cq; fold r in Cr.
  rewrite <- Cq, <- Cr; ring.
Qed.

Lemma sum_difference : (1 + S) * (1 + D) * W = (r + q) * (r + q) * K /\ (1 - S) * (1 - D) * W = (r - q) * (r - q) * K.
Proof.
  pose proof sum_value as HS; pose proof difference_value as HD; pose proof squares as X.
  set (b := px R * px Q) in *. set (w := (1 + d * (q * q)) * (1 + d * (r * r))) in *.
  assert (M : m = d * b * (r * q)) by (unfold m, b, q, r; ring).
  split; unfold W; fold w.
  - transitivity (((1 - m) + S * (1 - m)) * ((1 + m) + D * (1 + m)) * w); [ring|]. rewrite HS, HD, M.
    transitivity ((1 + r * q) * (1 + r * q) * w - b * b * w * ((1 - d * (r * q)) * (1 - d * (r * q)))); [ring|].
    rewrite X; unfold w, K; ring.
  - transitivity (((1 - m) - S * (1 - m)) * ((1 + m) - D * (1 + m)) * w); [ring|]. rewrite HS, HD, M.
    transitivity ((1 - r * q) * (1 - r * q) * w - b * b * w * ((1 + d * (r * q)) * (1 + d * (r * q)))); [ring|].
    rewrite X; unfold w, K; ring.
Qed.

(** [u] is the coordinate of the difference, neither zero nor infinite. *)
Lemma differential_ratio (u X2 Z2 X3 Z3 : F) : ratio Q X2 Z2 -> ratio R X3 Z3 ->
  u * (1 - D) = 1 + D -> 1 + D <> 0 ->
  let v := (X3 - Z3) * (X2 + Z2) in let w := (X3 + Z3) * (X2 - Z2) in
  ratio (padd R Q) ((v + w) * (v + w)) (u * ((v - w) * (v - w))).
Proof.
  intros (c & Nc & -> & ->) (e & Ne & -> & ->) U N v w; destruct sum_difference as [Ep Em]; destruct differential_dens.
  assert (NK : K <> 0) by (apply nonzero_mul; [exact one_d_nonzero | apply one_plus_d_square]).
  set (k := (1 + 1) * (1 + 1) * c * e).
  assert (Ev : v = k * r) by (unfold v, k; fold r q; ring). assert (Ew : w = k * q) by (unfold w, k; fold r q; ring).
  exists (k * k * (1 + D) * (W / K)). fold S. splits.
  - pose proof two_nonzero. assert (NW : W <> 0).
    { pose proof (one_plus_d_square q); pose proof (one_plus_d_square r); unfold W; nonzero_tac. }
    assert (NQ : W / K <> 0) by (intros E; apply NW; transitivity (W / K * K); [field; exact NK | rewrite E; ring]).
    unfold k; nonzero_tac.
  - transitivity (k * k * ((1 + S) * (1 + D) * W) / K); [|field; exact NK]. rewrite Ep, Ev, Ew; field; exact NK.
  - transitivity (k * k * (1 - S) * (1 + D) * W / K); [|field; exact NK]. rewrite <- U.
    transitivity (k * k * u * ((1 - S) * (1 - D) * W) / K); [|field; exact NK]. rewrite Em, Ev, Ew; field; exact NK.
Qed.
End Differential.
