(* ===== verification/KeyExchange.v ===== *)
(** * Key exchange

    The ladder of key_exchange.c computes the u coordinate of a multiple of the point a public key
    encodes, so the two sides of an exchange get the same secret. *)

From Stdlib Require Import ZArith Lia List Bool Field Zmod.Zmod.
From S2P Require Import Prelude Machine Bytes Fe FeArith FeBytes FePow Sha512 Sha512Correct Prime Edwards Precomp Ge GeArith GeCode.
From S2P Require Import Ed25519 Ed25519Correct Montgomery.
Import ListNotations.
Local Open Scope F_scope.

Lemma frep_mul121666 (a : Z) (v : F) (f : fe) : frep a v f -> (a <=? b_in)%Z = true -> frep b_red (a24 * v) (fe_mul121666 f).
Proof.
  intros [B <-] L; unfold Phi, a24; rewrite <- toF_mul; apply represents_frep, fe_mul121666_spec; eapply fe_bnd_weaken; eassumption.
Qed.

Ltac fe_fact_more e ::=
  lazymatch e with fe_mul121666 ?f => let H := frep_of f in constr:(frep_mul121666 _ _ f H eq_refl) end.

(** ** Bits *)

Definition bit_of (e : list Z) (pos : nat) : Z := Z.land (Z.shiftr (nth (Nat.div pos 8) e 0%Z) (Z.land (Z.of_nat pos) 7)) 1.

Lemma bit_of_val (e : list Z) (pos : nat) : bytes e -> length e = 32%nat -> (pos < 256)%nat ->
  bit_of e pos = (le_val e / 2 ^ Z.of_nat pos mod 2)%Z.
Proof.
  intros He Le Hp; unfold bit_of. set (k := Nat.div pos 8); set (j := Nat.modulo pos 8).
  assert (E : pos = (8 * k + j)%nat) by apply Nat.div_mod_eq.
  assert (J : (j < 8)%nat) by (apply Nat.mod_upper_bound; lia). assert (Kb : (k < 32)%nat) by lia.
  replace (Z.land (Z.of_nat pos) 7) with (Z.of_nat j).
  2:{ change 7%Z with (Z.ones 3); rewrite Z.land_ones by lia; change (2 ^ 3)%Z with 8%Z.
      rewrite E, Nat2Z.inj_add, Nat2Z.inj_mul, Z.add_comm, Z.mul_comm, Z_mod_plus_full; symmetry; apply Z.mod_small; lia. }
  change 1%Z with (Z.ones 1) at 1; rewrite Z.land_ones by lia; rewrite shiftr_div by lia; change (2 ^ 1)%Z with 2%Z.
  replace (Z.of_nat pos) with (8 * Z.of_nat k + Z.of_nat j)%Z by lia.
  rewrite Z.pow_add_r, <- Z.div_div, le_val_div by (assumption || lia || (rewrite Le; lia)).
  
  destruct (skipn_cons e k ltac:(rewrite Le; exact Kb)) as [y Y]; rewrite Y. cbn [le_val].
  assert (N : nth k e 0%Z = y) by (rewrite <- (Nat.add_0_r k), <- nth_skipn, Y; reflexivity). rewrite N. change 256%Z with (2 ^ 8)%Z.
  exact (low_bits y (le_val (skipn (S k) e)) (Z.of_nat j) 1 8 ltac:(lia) ltac:(lia) ltac:(lia)).
Qed.

Lemma bit_or (z : Z) : (z mod 2 = 0 \/ z mod 2 = 1)%Z.
Proof. pose proof (Z.mod_pos_bound z 2 eq_refl); lia. Qed.

(** ** One step *)

(** The first or the second of two, as the swap says. *)
Definition pick {A} (b : Z) (x y : A) : A := if (b =? 0)%Z then x else y.

Lemma cswap_frep (v w : F) (f g : fe) (b : Z) : frep b_red v f -> frep b_red w g -> (b = 0 \/ b = 1)%Z ->
  exists f' g', fe_cswap f g b = (f', g') /\ frep b_red (pick b v w) f' /\ frep b_red (pick b w v) g'.
Proof.
  intros Hf Hg Hb; rewrite fe_cswap_spec; [|exact (fe_bnd_i32 _ _ (proj1 Hf) eq_refl)|exact (fe_bnd_i32 _ _ (proj1 Hg) eq_refl)|exact Hb].
  unfold pick; destruct (b =? 0)%Z; eexists; eexists; split; [reflexivity | now split | reflexivity | now split].
Qed.

(** The step behind its swaps. *)
Definition ladder_tail (x1 x2 x3 z2 z3 : fe) (swap : Z) : ladder :=
  let tmp0 := fe_sub x3 z3 in
  let tmp1 := fe_sub x2 z2 in
  let x2 := fe_add x2 z2 in
  let z2 := fe_add x3 z3 in
  let z3 := fe_mul tmp0 x2 in
  let z2 := fe_mul z2 tmp1 in
  let tmp0 := fe_sq tmp1 in
  let tmp1 := fe_sq x2 in
  let x3 := fe_add z3 z2 in
  let z2 := fe_sub z3 z2 in
  let x2 := fe_mul tmp1 tmp0 in
  let tmp1 := fe_sub tmp1 tmp0 in
  let z2 := fe_sq z2 in
  let z3 := fe_mul121666 tmp1 in
  let x3 := fe_sq x3 in
  let tmp0 := fe_add tmp0 z3 in
  let z3 := fe_mul x1 z2 in
  let z2 := fe_mul tmp1 tmp0 in
  Ladder x2 z2 x3 z3 swap.

Lemma ladder_step_tail (x1 : fe) (e : list Z) (l : ladder) (pos : nat) : ladder_step x1 e l pos =
  let b := Z.lxor (l_swap l) (bit_of e pos) in
  let '(x2, x3) := fe_cswap (l_x2 l) (l_x3 l) b in let '(z2, z3) := fe_cswap (l_z2 l) (l_z3 l) b in
  ladder_tail x1 x2 x3 z2 z3 (bit_of e pos).
Proof. reflexivity. Qed.

Definition stands (X2 Z2 X3 Z3 : F) (l : ladder) : Prop :=
  frep b_red X2 (l_x2 l) /\ frep b_red Z2 (l_z2 l) /\ frep b_red X3 (l_x3 l) /\ frep b_red Z3 (l_z3 l).

(** What a step makes of the four coordinates, as field elements. *)
Definition stepped (u X2 Z2 X3 Z3 : F) (l : ladder) : Prop :=
  let s := (X2 + Z2) * (X2 + Z2) in let t := (X2 - Z2) * (X2 - Z2) in
  let v := (X3 - Z3) * (X2 + Z2) in let w := (X3 + Z3) * (X2 - Z2) in
  stands (s * t) ((s - t) * (t + a24 * (s - t))) ((v + w) * (v + w)) (u * ((v - w) * (v - w))) l.

Ltac by_frep := lazymatch goal with R : frep ?a ?v ?f |- frep _ _ ?f => apply (frep_eq a _ v _ f R); [reflexivity | ring] end.

Lemma ladder_tail_run (u X2 Z2 X3 Z3 : F) (x1 x2 x3 z2 z3 : fe) (swap : Z) : frep b_mul u x1 ->
  frep b_red X2 x2 -> frep b_red X3 x3 -> frep b_red Z2 z2 -> frep b_red Z3 z3 ->
  stepped u X2 Z2 X3 Z3 (ladder_tail x1 x2 x3 z2 z3 swap).
Proof.
  intros Hu H2 H3 K2 K3; change (holds (stepped u X2 Z2 X3 Z3) (ladder_tail x1 x2 x3 z2 z3 swap)).
  enter ladder_tail; repeat fe_step. unfold holds, stepped, stands; cbv zeta; cbn [l_x2 l_z2 l_x3 l_z3].
  splits; by_frep.
Qed.

Lemma ladder_step_run (u X2 Z2 X3 Z3 : F) (x1 : fe) (e : list Z) (l : ladder) (pos : nat) :
  frep b_mul u x1 -> stands X2 Z2 X3 Z3 l -> (l_swap l = 0 \/ l_swap l = 1)%Z -> (bit_of e pos = 0 \/ bit_of e pos = 1)%Z ->
  let b := Z.lxor (l_swap l) (bit_of e pos) in
  stepped u (pick b X2 X3) (pick b Z2 Z3) (pick b X3 X2) (pick b Z3 Z2) (ladder_step x1 e l pos) /\
  l_swap (ladder_step x1 e l pos) = bit_of e pos.
Proof.
  intros Hu (H2 & K2 & H3 & K3) Hs Hb b.
  assert (B : (b = 0 \/ b = 1)%Z) by (unfold b; destruct Hs as [->| ->], Hb as [-> | ->]; auto).
  destruct (cswap_frep _ _ _ _ b H2 H3 B) as (x2 & x3 & Ex & R2 & R3).
  destruct (cswap_frep _ _ _ _ b K2 K3 B) as (z2 & z3 & Ez & S2 & S3).
  rewrite ladder_step_tail. cbv zeta. fold b. rewrite Ex, Ez. split; [now apply ladder_tail_run | reflexivity].
Qed.

(** ** The ladder *)

Lemma pick_lxor {A} (s b : Z) (x y : A) : (s = 0 \/ s = 1)%Z -> (b = 0 \/ b = 1)%Z ->
  pick (Z.lxor s b) x y = pick b (pick s x y) (pick s y x).
Proof. intros [-> | ->] [-> | ->]; reflexivity. Qed.

(** What the step of a bit makes of the coordinates. *)
Definition next (u : F) (b : Z) (X2 Z2 X3 Z3 : F) (Q : F -> F -> F -> F -> Prop) : Prop :=
  let A := pick b X2 X3 in let A' := pick b Z2 Z3 in let C := pick b X3 X2 in let C' := pick b Z3 Z2 in
  let s := (A + A') * (A + A') in let t := (A - A') * (A - A') in
  let v := (C - C') * (A + A') in let w := (C + C') * (A - A') in
  let X := s * t in let Z := (s - t) * (t + a24 * (s - t)) in
  let X' := (v + w) * (v + w) in let Z' := u * ((v - w) * (v - w)) in
  Q (pick b X X') (pick b Z Z') (pick b X' X) (pick b Z' Z).

(** The multiples [n] and [n + 1] of a point. *)
Definition multiples (P : point) (n : Z) (X2 Z2 X3 Z3 : F) : Prop :=
  ratio (smul n P) X2 Z2 /\ ratio (smul (n + 1) P) X3 Z3.

Lemma multiples_step (u : F) (P : point) (n b : Z) (X2 Z2 X3 Z3 : F) : u * (1 - py P) = 1 + py P -> 1 + py P <> 0 ->
  (b = 0 \/ b = 1)%Z -> multiples P n X2 Z2 X3 Z3 ->
  next u b X2 Z2 X3 Z3 (multiples P (2 * n + b)).
Proof.
  intros U N Hb [R2 R3]; cbv beta zeta delta [next]. assert (D1 : smul (n + 1 - n) P = P) by (now replace (n + 1 - n)%Z with 1%Z by lia).
  assert (D2 : smul (n - (n + 1)) P = popp P) by (now replace (n - (n + 1))%Z with (- (1))%Z by lia).
  rewrite smul_sub in D1, D2.
  destruct Hb as [-> | ->]; cbn [pick]; unfold pick; change (0 =? 0)%Z with true; change (1 =? 0)%Z with false; cbv match.
  - split.
    + replace (2 * n + 0)%Z with (n + n)%Z by lia. rewrite smul_add. exact (double_ratio _ _ _ R2).
    + replace (2 * n + 0 + 1)%Z with (n + 1 + n)%Z by lia. rewrite smul_add.
      apply (differential_ratio (smul n P) (smul (n + 1) P)); rewrite ?D1; assumption.
  - split.
    + replace (2 * n + 1)%Z with (n + (n + 1))%Z by lia. rewrite smul_add.
      apply (differential_ratio (smul (n + 1) P) (smul n P)); rewrite ?D2; assumption.
    + replace (2 * n + 1 + 1)%Z with (n + 1 + (n + 1))%Z by lia. rewrite smul_add. exact (double_ratio _ _ _ R3).
Qed.

(** At [u = 0] the ladder degenerates, and one coordinate of each pair is zero. *)
Definition flat (n : Z) (X2 Z2 X3 Z3 : F) : Prop := X2 * Z2 = 0 /\ X3 * Z3 = 0.

Lemma flat_step (u : F) (n b : Z) (X2 Z2 X3 Z3 : F) : u = 0 -> (b = 0 \/ b = 1)%Z -> flat n X2 Z2 X3 Z3 ->
  next u b X2 Z2 X3 Z3 (flat (2 * n + b)).
Proof.
  intros U Hb [F2 F3]; cbv beta delta [next]. intros A A' C C' s t v w X Z X' Z'.
  assert (E : A * A' = 0) by (destruct Hb as [-> | ->]; assumption).
  assert (Ez : X * Z = 0).
  { transitivity (X * ((1 + 1) * (1 + 1) * (A * A') * (t + a24 * (s - t)))); [unfold Z, s, t; ring | rewrite E; ring]. }
  assert (Ez' : X' * Z' = 0) by (unfold Z'; rewrite U; ring).
  destruct Hb as [-> | ->]; split; assumption.
Qed.
Section Ladder.
Context (u : F) (x1 : fe) (Hu : frep b_mul u x1) (e : list Z) (He : bytes e) (Le : length e = 32%nat).

(** The four coordinates with the pending swap done. *)
Definition straight (X2 Z2 X3 Z3 : F) (l : ladder) : Prop :=
  (l_swap l = 0 \/ l_swap l = 1)%Z /\
  stands (pick (l_swap l) X2 X3) (pick (l_swap l) Z2 Z3) (pick (l_swap l) X3 X2) (pick (l_swap l) Z3 Z2) l.

Lemma pick_pick {A} (b : Z) (x y : A) : pick b (pick b x y) (pick b y x) = x.
Proof. unfold pick; now destruct (b =? 0)%Z. Qed.

Lemma straight_step (X2 Z2 X3 Z3 : F) (l : ladder) (pos : nat) : (pos < 256)%nat -> straight X2 Z2 X3 Z3 l ->
  let b := (le_val e / 2 ^ Z.of_nat pos mod 2)%Z in
  stepped u (pick b X2 X3) (pick b Z2 Z3) (pick b X3 X2) (pick b Z3 Z2) (ladder_step x1 e l pos) /\
  l_swap (ladder_step x1 e l pos) = b.
Proof.
  intros Hp [Hs St] b. pose proof (bit_of_val e pos He Le Hp) as E. fold b in E.
  assert (Hb : (b = 0 \/ b = 1)%Z) by apply bit_or.
  destruct (ladder_step_run u _ _ _ _ x1 e l pos Hu St Hs) as [R W]; [rewrite E; exact Hb|].
  rewrite E in R, W. rewrite !pick_lxor, !pick_pick in R by assumption. now split.
Qed.

(** An invariant of the coordinates, by the bits of [e] read so far. *)
Lemma ladder_loop (I : Z -> F -> F -> F -> F -> Prop) (k : nat) (l : ladder) :
  (forall n b X2 Z2 X3 Z3, (0 <= n)%Z -> (b = 0 \/ b = 1)%Z -> I n X2 Z2 X3 Z3 ->
     next u b X2 Z2 X3 Z3 (I (2 * n + b)%Z)) ->
  (k <= 256)%nat ->
  (exists X2 Z2 X3 Z3, straight X2 Z2 X3 Z3 l /\ I (le_val e / 2 ^ Z.of_nat k)%Z X2 Z2 X3 Z3) ->
  exists X2 Z2 X3 Z3, straight X2 Z2 X3 Z3 (fold_left (ladder_step x1 e) (rev (seq 0 k)) l) /\ I (le_val e) X2 Z2 X3 Z3.
Proof.
  intros Step; revert l; induction k as [|k IH]; intros l Hk (X2 & Z2 & X3 & Z3 & St & HI).
  - rewrite Z.div_1_r in HI. now exists X2, Z2, X3, Z3.
  - rewrite seq_S, rev_app_distr. cbn [rev app fold_left Nat.add]. apply IH; [lia|].
    set (b := (le_val e / 2 ^ Z.of_nat k mod 2)%Z). assert (Hb : (b = 0 \/ b = 1)%Z) by apply bit_or.
    destruct (straight_step _ _ _ _ l k ltac:(lia) St) as [R W]. fold b in R, W.
    replace (le_val e / 2 ^ Z.of_nat k)%Z with (2 * (le_val e / 2 ^ Z.of_nat (S k)) + b)%Z.
    2:{ rewrite Nat2Z.inj_succ, Z.pow_succ_r, (Z.mul_comm 2 (2 ^ _)), <- Z.div_div by lia. symmetry. apply Z.div_mod. lia. }
    do 4 eexists. split; [|refine (Step _ b _ _ _ _ _ Hb HI); apply Z.div_pos; [apply le_val_range, He | apply Z.pow_pos_nonneg; lia]].
    split; [now rewrite W|]. rewrite W, !pick_pick. exact R.
Qed.

End Ladder.

(** ** The shared secret *)

Lemma frep_invert_zero (a : Z) (f : fe) : frep a 0 f -> (a <=? b_in)%Z = true -> frep b_mul 0 (fe_invert f).
Proof.
  intros [B E] L. replace (0 : F) with (toF (fe_val f ^ (p - 2))).
  - apply represents_frep, fe_invert_spec; eapply fe_bnd_weaken; eassumption.
  - rewrite toF_pow by (vm_compute; discriminate). fold (Phi f). rewrite E. vm_compute. reflexivity.
Qed.

(** A quotient as the code computes it: zero over zero. *)
Definition quotient (x z : F) : F := if Zmod.eqb z 0 then 0 else x / z.

Lemma frep_quotient (a b : Z) (x z : F) (f g : fe) : frep a x f -> frep b z g -> (a <=? b_in)%Z = true -> (b <=? b_in)%Z = true ->
  frep b_mul (quotient x z) (fe_mul f (fe_invert g)).
Proof.
  intros Hf Hg La Lb. unfold quotient. destruct (Zmod.eqb_spec z 0) as [->|N].
  - refine (frep_eq b_mul b_mul _ _ _ (frep_mul a b_mul _ _ _ _ Hf (frep_invert_zero b _ Hg Lb) La eq_refl) eq_refl _); ring.
  - refine (frep_eq b_mul b_mul _ _ _ (frep_mul a b_mul _ _ _ _ Hf (frep_invert b _ _ Hg Lb N) La eq_refl) eq_refl _); field; exact N.
Qed.

Lemma ucoord_quotient (P : point) : ucoord P = quotient (1 + py P) (1 - py P).
Proof.
  unfold ucoord, quotient. destruct (Zmod.eqb_spec (py P) 1) as [Y|N], (Zmod.eqb_spec (1 - py P) 0) as [E|M]; try reflexivity.
  - exfalso; apply M; rewrite Y; ring.
  - exfalso; apply N; symmetry; now apply F_opp_zero.
Qed.

Lemma quotient_ratio (P : point) (X Z : F) : ratio P X Z -> quotient X Z = ucoord P.
Proof.
  intros (c & N & -> & ->). rewrite ucoord_quotient. unfold quotient.
  destruct (Zmod.eqb_spec (1 - py P) 0) as [E|M].
  - rewrite E. destruct (Zmod.eqb_spec (c * 0) 0) as [_|M]; [reflexivity | exfalso; apply M; ring].
  - destruct (Zmod.eqb_spec (c * (1 - py P)) 0) as [E|_]; [apply F_integral in E; now destruct E|]. field. now split.
Qed.

Lemma quotient_flat (X Z : F) : X * Z = 0 -> quotient X Z = 0.
Proof.
  intros E. unfold quotient. destruct (Zmod.eqb_spec Z 0) as [_|N]; [reflexivity|].
  apply F_integral in E as [-> | E]; [field; exact N | contradiction].
Qed.

(** A point of the x axis: the neutral one and that of order two. *)
Lemma axis_double (P : point) : px P = 0 -> padd P P = pzero.
Proof.
  intros X. pose proof (point_on P) as H. unfold on_curve in H. rewrite X in H.
  assert (Y : py P * py P = 1) by (transitivity (- (0 * 0) + py P * py P); [ring | rewrite H; ring]).
  apply point_eq; cbn [px py padd pzero]; unfold add_x, add_y; rewrite X.
  - replace ((0 * py P + py P * 0) : F) with (0 : F) by ring. replace (1 + d * 0 * 0 * py P * py P) with (1 : F) by ring. now vm_compute.
  - replace (py P * py P + 0 * 0) with (1 : F) by (rewrite Y; ring). replace (1 - d * 0 * 0 * py P * py P) with (1 : F) by ring. now vm_compute.
Qed.

Lemma axis_multiple (P : point) (k : Z) : ucoord P = 0 -> (k mod 8 = 0)%Z -> smul k P = pzero.
Proof.
  intros U K. rewrite (Z.div_mod k 8), K, Z.add_0_r by lia. replace (8 * (k / 8))%Z with (4 * (k / 8) * 2)%Z by lia.
  rewrite smul_mul, smul_2, axis_double; [apply smul_0_r|].
  pose proof (curve_x2 P) as C. assert (E : py P * py P - 1 = 0).
  { rewrite ucoord_quotient in U. unfold quotient in U. destruct (Zmod.eqb_spec (1 - py P) 0) as [E|N].
    - transitivity (- (1 + py P) * (1 - py P)); [ring | rewrite E; ring].
    - assert (E : 1 + py P = 0) by (transitivity ((1 + py P) / (1 - py P) * (1 - py P)); [field; exact N | rewrite U; ring]).
      transitivity (- (1 + py P) * (1 - py P)); [ring | rewrite E; ring]. }
  rewrite E in C. apply F_integral in C as [C|C]; [|now apply one_plus_d_square in C].
  apply F_integral in C. now destruct C.
Qed.

Lemma ucoord_zero : ucoord pzero = 0.
Proof. reflexivity. Qed.

(** The ladder from its start, at a scalar below 2^255. *)
Lemma ladder_result (P : point) (x1 : fe) (e : list Z) (l := fold_left (ladder_step x1 e) (rev (seq 0 255)) (Ladder fe_1 fe_0 x1 fe_1 0)) :
  frep b_mul (ucoord P) x1 -> bytes e -> length e = 32%nat -> (le_val e < 2 ^ 255)%Z -> (le_val e mod 8 = 0)%Z ->
  exists X2 Z2 X3 Z3, straight X2 Z2 X3 Z3 l /\ quotient X2 Z2 = ucoord (smul (le_val e) P).
Proof.
  intros Hu He Le Hl H8.
  assert (St : straight 1 0 (ucoord P) 1 (Ladder fe_1 fe_0 x1 fe_1 0)).
  { split; [now left|]. exact (conj frep_1 (conj frep_0 (conj (frep_weaken b_mul b_red _ _ Hu eq_refl) frep_1))). }
  assert (Z0 : (le_val e / 2 ^ Z.of_nat 255 = 0)%Z) by (apply Z.div_small; split; [apply le_val_range, He | exact Hl]).
  destruct (Zmod.eqb_spec (ucoord P) 0) as [U|U].
  - destruct (ladder_loop _ x1 Hu e He Le flat 255 (Ladder fe_1 fe_0 x1 fe_1 0)) as (X2 & Z2 & X3 & Z3 & S & F2 & _); [|lia| |].
    + intros n b ? ? ? ? _ Hb. now apply flat_step.
    + do 4 eexists. split; [exact St|]. rewrite U. split; ring.
    + exists X2, Z2, X3, Z3. split; [exact S|]. now rewrite quotient_flat, (axis_multiple _ _ U H8).
  - assert (E : 1 - py P <> 0 /\ 1 + py P <> 0 /\ ucoord P * (1 - py P) = 1 + py P).
    { rewrite ucoord_quotient in U |- *. unfold quotient in *. destruct (Zmod.eqb_spec (1 - py P) 0) as [E|N]; [now destruct U|].
      splits; [exact N | | field; exact N]. intros E. apply U. rewrite E. field. exact N. }
    destruct E as (N & M & E).
    destruct (ladder_loop _ x1 Hu e He Le (multiples P) 255 (Ladder fe_1 fe_0 x1 fe_1 0)) as (X2 & Z2 & X3 & Z3 & S & R & _); [|lia| |].
    + intros n b ? ? ? ? _ Hb. now apply multiples_step.
    + do 4 eexists. split; [exact St|]. rewrite Z0. split.
      * exists (1 / (1 + 1)). splits; cbn [smul py pzero]; [|field; exact two_nonzero | ring].
        intros X. apply one_nonzero. transitivity (1 / (1 + 1) * (1 + 1)); [field; exact two_nonzero | rewrite X; ring].
      * change (smul (0 + 1) P) with P. exists (1 / (1 - py P)). splits; [| rewrite <- E; field; exact N | field; exact N].
        intros X. apply one_nonzero. transitivity (1 / (1 - py P) * (1 - py P)); [field; exact N | rewrite X; ring].
    + exists X2, Z2, X3, Z3. split; [exact S|]. now apply quotient_ratio.
Qed.

Lemma exchange_spec (P : point) (pk sk : list Z) : bytes pk -> length pk = 32%nat -> py P = code_y pk ->
  bytes sk -> (32 <= length sk)%nat ->
  ed25519_key_exchange pk sk = le_bytes 32 (Zmod.unsigned (ucoord (smul (le_val (clamp (firstn 32 sk))) P))).
Proof.
  intros Hp Lp Y Hs Ls. unfold ed25519_key_exchange. set (e := clamp (firstn 32 sk)).
  assert (L32 : length (firstn 32 sk) = 32%nat) by (apply firstn_length_le; exact Ls).
  assert (Le : length e = 32%nat) by (unfold e; now rewrite clamp_length).
  assert (He : bytes e) by (apply clamp_bytes, bytes_firstn, Hs).
  assert (C : clamped (le_val e)).
  { destruct (clamp_spec (firstn 32 sk) (bytes_firstn _ _ Hs) ltac:(rewrite L32; lia)) as [C _]. fold e in C.
    now rewrite firstn_all2 in C by (rewrite Le; lia). }
  cbv zeta. set (x1 := fe_mul _ _). rewrite fe_copy_id.
  assert (Hy : frep b_red (py P) (fe_frombytes pk)) by (rewrite Y; apply represents_frep, fe_frombytes_spec; assumption).
  assert (Hu : frep b_mul (ucoord P) x1).
  { rewrite ucoord_quotient. refine (frep_quotient 36909874 36909874 _ _ _ _ _ _ eq_refl eq_refl).
    - refine (frep_eq 36909874 36909874 _ _ _ (frep_add b_red b_red 36909874 _ _ _ _ Hy frep_1 eq_refl) eq_refl _); ring.
    - exact (frep_sub b_red b_red 36909874 _ _ _ _ frep_1 Hy eq_refl). }
  destruct C as [[_ C] C8]. destruct (ladder_result P x1 e Hu He Le C C8) as (X2 & Z2 & X3 & Z3 & [Sw (R2 & S2 & R3 & S3)] & E).
  set (l := fold_left _ _ _) in *.
  destruct (cswap_frep _ _ _ _ _ R2 R3 Sw) as (x2 & x3 & -> & Hx & _). destruct (cswap_frep _ _ _ _ _ S2 S3 Sw) as (z2 & z3 & -> & Hz & _).
  rewrite pick_pick in Hx, Hz. rewrite <- E. exact (frep_tobytes b_mul _ _ (frep_quotient _ _ _ _ _ _ Hx Hz eq_refl eq_refl) eq_refl).
Qed.

Lemma update_same (l : list Z) (k : nat) : update l k (nth k l 0%Z) = l.
Proof. revert k; induction l as [|x l IH]; intros [|k]; cbn; [reflexivity.. | now rewrite IH]. Qed.

Lemma update_update (l : list Z) (k : nat) (x y : Z) : update (update l k x) k y = update l k y.
Proof. revert k; induction l as [|z l IH]; intros [|k]; cbn; [reflexivity.. | now rewrite IH]. Qed.

Lemma clamp_twice (k : list Z) : bytes k -> (32 <= length k)%nat -> clamp (firstn 32 (clamp k)) = firstn 32 (clamp k).
Proof.
  intros Hk L. destruct (clamp_nth k L) as [N0 N31]. set (s := firstn 32 (clamp k)).
  assert (E0 : nth 0 s 0%Z = Z.land (nth 0 k 0%Z) 248) by (unfold s; rewrite nth_firstn_lt by lia; exact N0).
  assert (E31 : nth 31 s 0%Z = Z.lor (Z.land (nth 31 k 0%Z) 63) 64) by (unfold s; rewrite nth_firstn_lt by lia; exact N31).
  assert (F0 : Z.land (nth 0 s 0%Z) 248 = nth 0 s 0%Z) by (rewrite E0, <- Z.land_assoc; reflexivity).
  assert (F31 : Z.lor (Z.land (nth 31 s 0%Z) 63) 64 = nth 31 s 0%Z).
  { rewrite E31. apply Z.eqb_eq. refine (byte_check (fun b => Z.lor (Z.land (Z.lor (Z.land b 63) 64) 63) 64 =? Z.lor (Z.land b 63) 64)%Z _ eq_refl _).
    exact (bytes_nth k 31 Hk). }
  assert (Lb : (Nat.eqb 31 31 && (31 <? length s)%nat)%bool = true).
  { unfold s. rewrite length_firstn, clamp_length, Nat.min_l by exact L. reflexivity. }
  unfold clamp. cbv zeta. rewrite F0, update_same, update_update, nth_update, Lb, F31. apply update_same.
Qed.

(** A created key pair: what its halves do in an exchange. *)
Lemma keypair_exchange (fresh : sha512_context) (seed pk sk : list Z) : uninitialised fresh -> bytes seed ->
  ed25519_create_keypair fresh seed = Some (pk, sk) ->
  pk = encode (smul (secret sk) B) /\
  forall P, ed25519_key_exchange (encode P) sk = le_bytes 32 (Zmod.unsigned (ucoord (smul (secret sk) P))).
Proof.
  intros Hf Hs E. destruct (keypair_spec fresh seed Hf Hs) as (pk' & sk' & E' & Bs & Ls & Ek & _ & Ep). rewrite E in E'.
  injection E' as <- <-. split; [exact Ep|]. intros P. destruct (encode_bytes P) as [Bp Lp].
  rewrite (exchange_spec P) by (assumption || exact (eq_sym (proj1 (encode_code P))) || lia).
  destruct (hash_bytes (firstn 32 seed)) as [Bh Lh]. unfold secret. rewrite Ek at 1. rewrite clamp_twice by (assumption || lia). now rewrite <- Ek.
Qed.

(** C7: Both sides of an exchange between created key pairs get the same secret: the u coordinate of the
    multiple of the base point by the product of their private scalars. *)
Theorem secrets_agree (fresh1 fresh2 : sha512_context) (seed1 seed2 pk1 sk1 pk2 sk2 : list Z) :
  uninitialised fresh1 -> uninitialised fresh2 -> bytes seed1 -> bytes seed2 ->
  ed25519_create_keypair fresh1 seed1 = Some (pk1, sk1) -> ed25519_create_keypair fresh2 seed2 = Some (pk2, sk2) ->
  ed25519_key_exchange pk2 sk1 = ed25519_key_exchange pk1 sk2 /\
  ed25519_key_exchange pk2 sk1 = le_bytes 32 (Zmod.unsigned (ucoord (smul (secret sk1 * secret sk2) B))).
Proof.
  intros F1 F2 B1 B2 E1 E2. destruct (keypair_exchange _ _ _ _ F1 B1 E1) as [K1 X1]. destruct (keypair_exchange _ _ _ _ F2 B2 E2) as [K2 X2].
  rewrite K2, X1, K1, X2, <- !smul_mul, (Z.mul_comm (secret sk2)). split; reflexivity.
Qed.

Lemma secrets_agree_witness : exists pk1 sk1 pk2 sk2,
  ed25519_create_keypair zero_context (repeat 1%Z 32) = Some (pk1, sk1) /\
  ed25519_create_keypair zero_context (repeat 2%Z 32) = Some (pk2, sk2) /\
  ed25519_key_exchange pk2 sk1 = ed25519_key_exchange pk1 sk2.
Proof.
  assert (B1 : bytes (repeat 1%Z 32)) by (apply bytesb_spec; reflexivity).
  assert (B2 : bytes (repeat 2%Z 32)) by (apply bytesb_spec; reflexivity).
  destruct (keypair_spec _ _ zero_uninitialised B1) as (pk1 & sk1 & E1 & _).
  destruct (keypair_spec _ _ zero_uninitialised B2) as (pk2 & sk2 & E2 & _).
  exists pk1, sk1, pk2, sk2. split; [exact E1|]. split; [exact E2|].
  exact (proj1 (secrets_agree zero_context zero_context _ _ _ _ _ _ zero_uninitialised zero_uninitialised B1 B2 E1 E2)).
Defined.
