(* ===== verification/Cpp.v ===== *)
(** * The C++ the nodes are written in

    What the files on the node programs share: exceptions and the state-and-exception monad their
    operations run in, the numbers that travel as text, and the interfaces of the two libraries the
    code leans on, each a class of operations with the documented laws and an instance that has
    them: the algorithms of Boost.StringAlgo on [std::string] ([BoostStrings]) and [std::sort]
    ([StdSort]). *)

From Stdlib Require Import ZArith Lia List Bool Ascii String Sorting.Sorted Sorting.Permutation.
From stdpp Require Import base gmap strings list.
From S2P Require Import Prelude.

(** ** Exceptions *)

(** The exceptions the code throws or lets through. [undefined] stands for behaviour the language
    does not define (an access outside an array, a missing key of a [const] object). *)
Inductive exn :=
| out_of_range
| invalid_argument
| runtime_error
| type_error
| parse_error
| bad_alloc
| undefined.

#[export] Instance exn_eq_dec : EqDecision exn.
Proof. solve_decision. Defined.

Inductive result (A : Type) :=
| Ok (a : A)
| Throw (e : exn).
Arguments Ok {A}.
Arguments Throw {A}.

#[export] Instance result_ret : MRet result := @Ok.
#[export] Instance result_bind : MBind result :=
  fun A B f r => match r with Ok a => f a | Throw e => Throw e end.

(** ** Operations on a state: what is done before an exception stays done *)

Definition M (S A : Type) : Type := S -> S * result A.

#[export] Instance M_ret {S} : MRet (M S) := fun A a s => (s, Ok a).
#[export] Instance M_bind {S} : MBind (M S) :=
  fun A B f m s => let '(s', r) := m s in match r with Ok a => f a s' | Throw e => (s', Throw e) end.

Section Monad.
Context {S : Type}.

Definition throw {A} (e : exn) : M S A := fun s => (s, Throw e).
Definition get : M S S := fun s => (s, Ok s).
Definition gets {A} (f : S -> A) : M S A := fun s => (s, Ok (f s)).
Definition modify (f : S -> S) : M S unit := fun s => (f s, Ok tt).
Definition of_result {A} (r : result A) : M S A := fun s => (s, r).
Definition when (b : bool) (m : M S unit) : M S unit := if b then m else mret tt.

Lemma bind_ok {A B} (m : M S A) (f : A -> M S B) (s s' : S) (a : A) :
  m s = (s', Ok a) -> (m ≫= f) s = f a s'.
Proof. unfold mbind, M_bind; intros ->; reflexivity. Qed.

Lemma bind_throw {A B} (m : M S A) (f : A -> M S B) (s s' : S) (e : exn) :
  m s = (s', Throw e) -> (m ≫= f) s = (s', Throw e).
Proof. unfold mbind, M_bind; intros ->; reflexivity. Qed.

Lemma bind_ext {A B} (m : M S A) (f g : A -> M S B) (s : S) :
  (forall a s', f a s' = g a s') -> (m ≫= f) s = (m ≫= g) s.
Proof. intros E. unfold mbind, M_bind. destruct (m s) as [s' [a|e]]; auto. Qed.

(** An operation that returns went through its first part. *)
Lemma bind_inv {A B} (m : M S A) (f : A -> M S B) (s s' : S) (b : B) :
  (m ≫= f) s = (s', Ok b) -> exists a s1, m s = (s1, Ok a) /\ f a s1 = (s', Ok b).
Proof. unfold mbind, M_bind. destruct (m s) as [s1 [a|e]]; [eauto | easy]. Qed.

(** A property of the state that an operation preserves, whether it throws or not. *)
Definition preserves {A} (I : S -> Prop) (m : M S A) : Prop := forall s, I s -> I (fst (m s)).

Lemma preserves_ret {A} (I : S -> Prop) (a : A) : preserves I (mret a).
Proof. intros s H; exact H. Qed.

Lemma preserves_throw {A} (I : S -> Prop) (e : exn) : preserves I (throw (A := A) e).
Proof. intros s H; exact H. Qed.

Lemma preserves_of_result {A} (I : S -> Prop) (r : result A) : preserves I (of_result r).
Proof. intros s H; exact H. Qed.

Lemma preserves_gets {A} (I : S -> Prop) (f : S -> A) : preserves I (gets f).
Proof. intros s H; exact H. Qed.

Lemma preserves_get (I : S -> Prop) : preserves I get.
Proof. intros s H; exact H. Qed.

Lemma preserves_modify (I : S -> Prop) (f : S -> S) : (forall s, I s -> I (f s)) -> preserves I (modify f).
Proof. intros H s; apply H. Qed.

Lemma preserves_bind {A B} (I : S -> Prop) (m : M S A) (f : A -> M S B) :
  preserves I m -> (forall a, preserves I (f a)) -> preserves I (m ≫= f).
Proof.
  intros Hm Hf s H; unfold mbind, M_bind; specialize (Hm s H).
  destruct (m s) as [s' [a|e]]; [apply Hf, Hm | exact Hm].
Qed.

Lemma preserves_when (I : S -> Prop) (b : bool) (m : M S unit) : preserves I m -> preserves I (when b m).
Proof. destruct b; intros H; [exact H | apply preserves_ret]. Qed.
End Monad.

Create HintDb preserves.
#[export] Hint Resolve preserves_ret preserves_throw preserves_of_result preserves_gets preserves_get
  preserves_bind preserves_when : preserves.

(** ** Numbers as text *)

Definition digit (d : Z) : ascii := ascii_of_nat (Z.to_nat (48 + d)).
Definition isdigit (c : ascii) : bool := (48 <=? Z.of_nat (nat_of_ascii c)) && (Z.of_nat (nat_of_ascii c) <=? 57).
Definition digit_val (c : ascii) : Z := Z.of_nat (nat_of_ascii c) - 48.

(** The decimal digits of a natural number in front of [acc]; the fuel bounds their number. *)
Fixpoint digits (fuel : nat) (n : Z) (acc : string) : string :=
  match fuel with
  | O => acc
  | S fuel =>
      let acc := String (digit (n mod 10)) acc in
      if n <? 10 then acc else digits fuel (n / 10) acc
  end.

(** [std::to_string] of an integer. *)
Definition to_string (n : Z) : string :=
  let fuel := S (Z.to_nat (Z.log2 (Z.abs n))) in
  if n <? 0 then String "-" (digits fuel (- n) "") else digits fuel n "".

(** The digits at the front of a string, read in base 10 after [acc]. *)
Fixpoint read_digits (acc : Z) (s : string) : Z :=
  match s with
  | String c s' => if isdigit c then read_digits (10 * acc + digit_val c) s' else acc
  | EmptyString => acc
  end.

Definition isspace (c : ascii) : bool :=
  let n := Z.of_nat (nat_of_ascii c) in (n =? 32) || ((9 <=? n) && (n <=? 13)).

Fixpoint skip_spaces (s : string) : string :=
  match s with String c s' => if isspace c then skip_spaces s' else s | EmptyString => s end.

(** The number at the front of a string, after spaces and a sign; [None] without a digit. *)
Definition parse_number (s : string) : option Z :=
  let read (s : string) :=
    match s with String c _ => if isdigit c then Some (read_digits 0 s) else None | _ => None end in
  match skip_spaces s with
  | String "-" s' => Z.opp <$> read s'
  | String "+" s' => read s'
  | s' => read s'
  end.

(** [std::stoll], [std::stol] (a [long] of 32 bits, as in the projects of the repository) and
    [std::stoull]: exceptions without a number and out of range; the unsigned reading of a negative
    number wraps around. *)
Definition stol (s : string) : result Z :=
  match parse_number s with
  | None => Throw invalid_argument
  | Some n => if (- 2 ^ 31 <=? n) && (n <? 2 ^ 31) then Ok n else Throw out_of_range
  end.

Definition stoll (s : string) : result Z :=
  match parse_number s with
  | None => Throw invalid_argument
  | Some n => if (- 2 ^ 63 <=? n) && (n <? 2 ^ 63) then Ok n else Throw out_of_range
  end.

Definition stoull (s : string) : result Z :=
  match parse_number s with
  | None => Throw invalid_argument
  | Some n => if (- 2 ^ 64 <? n) && (n <? 2 ^ 64) then Ok (n mod 2 ^ 64) else Throw out_of_range
  end.

(** [atoi]: 0 without a number (and undefined outside [int], where the model keeps the number). *)
Definition atoi (s : string) : Z := default 0 (parse_number s).

Lemma isdigit_digit (d : Z) : 0 <= d < 10 -> isdigit (digit d) = true /\ digit_val (digit d) = d.
Proof.
  intros H. assert (d = 0 \/ d = 1 \/ d = 2 \/ d = 3 \/ d = 4 \/ d = 5 \/ d = 6 \/ d = 7 \/ d = 8 \/ d = 9) as E by lia.
  repeat destruct E as [->|E]; [split; reflexivity.. |]; subst d; split; reflexivity.
Qed.

Lemma read_digits_digits (fuel : nat) (n : Z) (acc : string) : 0 <= n < 2 ^ Z.of_nat fuel ->
  read_digits 0 (digits fuel n acc) = read_digits n acc.
Proof.
  revert n acc; induction fuel as [|fuel IH]; intros n acc H; [cbn in *; f_equal; lia|].
  cbn [digits]. pose proof (Z.mod_pos_bound n 10 ltac:(lia)) as Hm.
  destruct (isdigit_digit (n mod 10) Hm) as [Hd Hv].
  assert (E : forall a, read_digits a (String (digit (n mod 10)) acc) = read_digits (10 * a + n mod 10) acc)
    by (intros a; cbn [read_digits]; now rewrite Hd, Hv).
  destruct (Z.ltb_spec n 10).
  - rewrite E; f_equal. rewrite Z.mod_small; lia.
  - rewrite IH, E; [f_equal; pose proof (Z.div_mod n 10); lia|].
    replace (Z.of_nat (S fuel)) with (Z.of_nat fuel + 1) in H by lia; rewrite Z.pow_add_r in H by lia.
    split; [apply Z.div_pos; lia | apply Z.div_lt_upper_bound; lia].
Qed.

Lemma digits_front (fuel : nat) (n : Z) (acc : string) : 0 <= n ->
  exists c s, digits (S fuel) n acc = String c s /\ isdigit c = true.
Proof.
  revert n acc; induction fuel as [|fuel IH]; intros n acc H; cbn [digits];
    (destruct (isdigit_digit (n mod 10)) as [Hd _]; [apply Z.mod_pos_bound; lia|]).
  - destruct (n <? 10); eauto.
  - destruct (n <? 10); [eauto|]. apply IH, Z.div_pos; lia.
Qed.

Lemma digit_not_sign (c : ascii) : isdigit c = true -> isspace c = false /\ c <> "-"%char /\ c <> "+"%char.
Proof.
  unfold isdigit, isspace; intros H.
  destruct (andb_prop _ _ H) as [H1 H2]; apply Z.leb_le in H1, H2.
  splits; [|intros ->; now cbn in H1..].
  destruct (Z.eqb_spec (Z.of_nat (nat_of_ascii c)) 32); [lia|].
  destruct (Z.leb_spec (Z.of_nat (nat_of_ascii c)) 13); [lia|].
  now rewrite andb_false_r.
Qed.

(** What [to_string] writes for a natural number is read back. *)
Lemma parse_to_string (n : Z) : 0 <= n -> parse_number (to_string n) = Some n.
Proof.
  intros H. unfold to_string. rewrite (proj2 (Z.ltb_ge n 0)), (Z.abs_eq n) by lia.
  set (fuel := Z.to_nat (Z.log2 n)).
  destruct (digits_front fuel n "" H) as (c & s & E & Hc).
  destruct (digit_not_sign c Hc) as (Hs & Hm & Hp).
  assert (R : read_digits 0 (digits (S fuel) n "") = n).
  { rewrite read_digits_digits; [reflexivity|]. split; [lia|]. subst fuel.
    replace (Z.of_nat (S (Z.to_nat (Z.log2 n)))) with (Z.succ (Z.log2 n))
      by (pose proof (Z.log2_nonneg n); lia).
    destruct (Z.eq_dec n 0) as [->|]; [reflexivity | apply Z.log2_spec; lia]. }
  rewrite E in R |- *. unfold parse_number. cbn [skip_spaces]. rewrite Hs.
  assert (G : (if isdigit c then Some (read_digits 0 (String c s)) else None) = Some n) by now rewrite Hc, R.
  destruct c as [[] [] [] [] [] [] [] []]; solve [exact G | now destruct Hm | now destruct Hp].
Qed.

Lemma stoull_to_string (n : Z) : 0 <= n < 2 ^ 64 -> stoull (to_string n) = Ok n.
Proof.
  intros H. unfold stoull. rewrite parse_to_string by lia.
  rewrite (proj2 (Z.ltb_lt _ _)), (proj2 (Z.ltb_lt n _)) by lia. cbn [andb]. now rewrite Z.mod_small.
Qed.

Lemma stoll_to_string (n : Z) : 0 <= n < 2 ^ 63 -> stoll (to_string n) = Ok n.
Proof.
  intros H. unfold stoll. rewrite parse_to_string by lia.
  now rewrite (proj2 (Z.leb_le _ _)), (proj2 (Z.ltb_lt n _)) by lia.
Qed.

Lemma atoi_to_string (n : Z) : 0 <= n -> atoi (to_string n) = n.
Proof. intros H; unfold atoi; now rewrite parse_to_string. Qed.

(** ** Strings *)

(** The pieces of [l] with [c] between them. *)
Fixpoint join (c : ascii) (l : list string) : string :=
  match l with
  | [] => ""
  | [s] => s
  | s :: l' => s ++ String c (join c l')
  end.

Fixpoint mem (c : ascii) (s : string) : bool :=
  match s with EmptyString => false | String d s' => Ascii.eqb c d || mem c s' end.

(** [p] occurs in [s]. *)
Fixpoint contains (p s : string) : bool :=
  String.prefix p s || match s with EmptyString => false | String _ s' => contains p s' end.

Lemma string_app_cons (c : ascii) (a b : string) : (String c a ++ b)%string = String c (a ++ b).
Proof. reflexivity. Qed.

Lemma string_app_nil_l (a : string) : ("" ++ a)%string = a.
Proof. reflexivity. Qed.

Lemma prefix_cons (a b : ascii) (s t : string) :
  String.prefix (String a s) (String b t) = Ascii.eqb a b && String.prefix s t.
Proof.
  cbn [String.prefix]. destruct (ascii_dec a b) as [->|E]; [now rewrite Ascii.eqb_refl|].
  now rewrite (proj2 (Ascii.eqb_neq a b) E).
Qed.

Lemma string_app_assoc (a b c : string) : ((a ++ b) ++ c)%string = (a ++ (b ++ c))%string.
Proof. induction a as [|x a IH]; [reflexivity | rewrite !string_app_cons; now rewrite IH]. Qed.

Lemma string_app_nil_r (a : string) : (a ++ "")%string = a.
Proof. induction a as [|x a IH]; [reflexivity | rewrite string_app_cons; now rewrite IH]. Qed.

Lemma string_length_app (a b : string) : String.length (a ++ b) = (String.length a + String.length b)%nat.
Proof. induction a as [|x a IH]; [reflexivity|]. rewrite string_app_cons. cbn [String.length Nat.add]. now rewrite IH. Qed.

Lemma mem_app (c : ascii) (a b : string) : mem c (a ++ b) = mem c a || mem c b.
Proof.
  induction a as [|x a IH]; [reflexivity|]. rewrite string_app_cons; cbn [mem]; rewrite IH; apply orb_assoc.
Qed.

Create Rewrite HintDb strings.
#[export] Hint Rewrite string_app_cons string_app_nil_l string_app_nil_r string_app_assoc mem_app : strings.

(** Comparisons of lengths of strings. *)
Ltac str_len := autorewrite with strings; cbn [String.length]; lia.

(** The string algorithms of Boost the code calls: [boost::split] at one character without token
    compression, and [boost::replace_all] of a non-empty string, which looks for the first
    occurrence, replaces it and goes on behind it. *)
Class BoostStrings := {
  split : ascii -> string -> list string;
  replace_all : string -> string -> string -> string;
  join_split : forall c s, join c (split c s) = s;
  split_pieces : forall c s, Forall (fun p => mem c p = false) (split c s);
  split_nonempty : forall c s, split c s <> [];
  replace_empty : forall p r, replace_all p r "" = "";
  replace_match : forall p r s, p <> "" -> replace_all p r (p ++ s) = (r ++ replace_all p r s)%string;
  replace_other : forall p r c s, p <> "" -> String.prefix p (String c s) = false ->
    replace_all p r (String c s) = String c (replace_all p r s)
}.

(** What follows a piece in a joined string. *)
Definition tail (c : ascii) (l : list string) : string :=
  match l with [] => "" | _ => String c (join c l) end.

Lemma join_cons (c : ascii) (s : string) (l : list string) : join c (s :: l) = (s ++ tail c l)%string.
Proof. destruct l; cbn [join tail]; [now autorewrite with strings | reflexivity]. Qed.

Lemma join_app (c : ascii) (l m : list string) : l <> [] -> m <> [] -> join c (l ++ m) = (join c l ++ String c (join c m))%string.
Proof.
  intros Hl Hm; induction l as [|a l IH]; [easy|]. destruct l as [|b l].
  - change ([a] ++ m)%list with (a :: m). rewrite join_cons. now destruct m.
  - change ((a :: b :: l) ++ m)%list with (a :: ((b :: l) ++ m))%list.
    rewrite (join_cons c a (b :: l)), join_cons. cbn [tail app]. change (b :: l ++ m)%list with ((b :: l) ++ m)%list.
    rewrite IH by discriminate. now autorewrite with strings.
Qed.

Lemma piece_inj (c : ascii) (a b : string) (l m : list string) : mem c a = false -> mem c b = false ->
  (a ++ tail c l)%string = (b ++ tail c m)%string -> a = b /\ tail c l = tail c m.
Proof.
  revert b; induction a as [|x a IH]; intros [|y b] Ha Hb H; rewrite ?string_app_cons, ?string_app_nil_l in H.
  - now split.
  - destruct l; [discriminate|]; cbn in H, Hb; injection H as -> _; now rewrite Ascii.eqb_refl in Hb.
  - destruct m; [discriminate|]; cbn in H, Ha; injection H as -> _; now rewrite Ascii.eqb_refl in Ha.
  - cbn in Ha, Hb; apply orb_false_iff in Ha as [_ Ha], Hb as [_ Hb]. injection H as -> H.
    destruct (IH b Ha Hb H) as [-> E]; now split.
Qed.

(** Splitting is determined by its laws: it undoes [join]. *)
Lemma join_inj (c : ascii) (l m : list string) : l <> [] -> m <> [] ->
  Forall (fun p => mem c p = false) l -> Forall (fun p => mem c p = false) m ->
  join c l = join c m -> l = m.
Proof.
  intros Hl Hm Fl; revert m Hm; induction Fl as [|a l Ha Fl IH]; intros m Hm Fm; [now destruct Hl|].
  destruct Fm as [|b m Hb Fm]; [now destruct Hm|]. rewrite !join_cons. intros H.
  destruct (piece_inj c a b l m Ha Hb H) as [-> E]. f_equal.
  destruct l as [|l0 l], m as [|m0 m]; try discriminate; [reflexivity|].
  apply IH; [discriminate | discriminate | exact Fm | now injection E].
Qed.

Section Split.
Context `{BoostStrings}.

Lemma split_join (c : ascii) (l : list string) : l <> [] -> Forall (fun p => mem c p = false) l ->
  split c (join c l) = l.
Proof.
  intros Hl Fl. apply (join_inj c); auto using split_nonempty, split_pieces, join_split.
Qed.

Lemma split_pair (c : ascii) (a b : string) : mem c a = false -> mem c b = false ->
  split c (a ++ String c b) = [a; b].
Proof. intros Ha Hb. apply (split_join c [a; b]); [discriminate | repeat constructor; assumption]. Qed.
End Split.

(** An implementation of the interface. *)
Fixpoint split_at (c : ascii) (s : string) : list string :=
  match s with
  | EmptyString => [""]
  | String d s' =>
      if Ascii.eqb c d then "" :: split_at c s'
      else match split_at c s' with [] => [] | p :: ps => String d p :: ps end
  end.

Fixpoint replace_from (p r : string) (skip : nat) (s : string) : string :=
  match s with
  | EmptyString => ""
  | String c s' =>
      match skip with
      | S k => replace_from p r k s'
      | O => if String.prefix p s then r ++ replace_from p r (String.length p - 1) s'
             else String c (replace_from p r 0 s')
      end
  end%string.

Lemma prefix_app (p s : string) : String.prefix p (p ++ s) = true.
Proof. induction p as [|c p IH]; [now destruct s|]. rewrite string_app_cons; cbn [String.prefix]. now destruct (ascii_dec c c). Qed.

Lemma prefix_split (p s : string) : String.prefix p s = true -> exists t, s = (p ++ t)%string.
Proof.
  revert s; induction p as [|c p IH]; intros s H; [now exists s|].
  destruct s as [|d s]; [discriminate|]. cbn in H. destruct (ascii_dec c d) as [->|]; [|discriminate].
  destruct (IH s H) as [t ->]. now exists t.
Qed.

Lemma replace_from_skip (p r a s : string) : replace_from p r (String.length a) (a ++ s) = replace_from p r 0 s.
Proof. induction a as [|c a IH]; [reflexivity | exact IH]. Qed.

Lemma split_at_nonempty (c : ascii) (s : string) : split_at c s <> [].
Proof.
  induction s as [|d s IH]; cbn [split_at]; [discriminate|].
  destruct (Ascii.eqb c d); [discriminate|]. now destruct (split_at c s).
Qed.

#[export, refine] Instance boost_strings : BoostStrings :=
  {| split := split_at; replace_all p r s := replace_from p r 0 s |}.
Proof.
  - intros c s; induction s as [|d s IH]; [reflexivity|]. cbn [split_at].
    destruct (Ascii.eqb_spec c d) as [->|].
    + rewrite join_cons, string_app_nil_l. unfold tail.
      destruct (split_at d s) as [|q l] eqn:E; [now destruct (split_at_nonempty d s)|]. now f_equal.
    + destruct (split_at c s) as [|q l] eqn:E; [now destruct (split_at_nonempty c s)|].
      rewrite join_cons, string_app_cons, <- join_cons. now f_equal.
  - intros c s; induction s as [|d s IH]; cbn [split_at]; [repeat constructor|].
    destruct (Ascii.eqb_spec c d) as [->|Hne]; [now constructor|].
    destruct (split_at c s) as [|q l]; [constructor|]. inversion IH; subst. constructor; [|assumption].
    cbn. now rewrite (proj2 (Ascii.eqb_neq c d) Hne).
  - exact split_at_nonempty.
  - reflexivity.
  - intros p r s Hp. destruct p as [|c p]; [now destruct Hp|].
    pose proof (prefix_app (String c p) s) as E. rewrite string_app_cons in *. cbn [replace_from]. rewrite E.
    cbn [String.length]. f_equal. cbn [String.length]; replace (S (String.length p) - 1)%nat with (String.length p) by lia.
    apply replace_from_skip.
  - intros p r c s Hp Hf. cbn [replace_from]. now rewrite Hf.
Defined.

(** Decimal numbers hold digits only. *)
Lemma mem_digits (c : ascii) (fuel : nat) (n : Z) (acc : string) : isdigit c = false ->
  mem c (digits fuel n acc) = mem c acc.
Proof.
  intros Hc; revert n acc; induction fuel as [|fuel IH]; intros n acc; [reflexivity|]. cbn [digits].
  assert (E : mem c (String (digit (n mod 10)) acc) = mem c acc).
  { cbn [mem]. destruct (Ascii.eqb_spec c (digit (n mod 10))) as [->|]; [|reflexivity].
    destruct (isdigit_digit (n mod 10)) as [Hd _]; [apply Z.mod_pos_bound; lia | congruence]. }
  destruct (n <? 10); [exact E | now rewrite IH].
Qed.

Lemma mem_to_string (c : ascii) (n : Z) : isdigit c = false -> 0 <= n -> mem c (to_string n) = false.
Proof.
  intros Hc Hn. unfold to_string. rewrite (proj2 (Z.ltb_ge n 0)) by lia. now rewrite mem_digits.
Qed.

(** ** [std::sort] *)

(** The comparators [std::sort] and the ordered containers accept. *)
Record strict_weak {A} (lt : A -> A -> bool) : Prop := {
  sw_asym : forall a b, lt a b = true -> lt b a = false;
  sw_trans : forall a b c, lt b a = false -> lt c b = false -> lt c a = false
}.

(** Sorted by a comparator: no element before a strictly smaller one. *)
Definition sorted_by {A} (lt : A -> A -> bool) (l : list A) : Prop :=
  StronglySorted (fun a b => lt b a = false) l.

(** [std::sort] promises a sorted permutation and nothing about the order of equivalent elements. *)
Class StdSort := {
  std_sort : forall {A}, (A -> A -> bool) -> list A -> list A;
  sort_perm : forall {A} (lt : A -> A -> bool) l, strict_weak lt -> std_sort lt l ≡ₚ l;
  sort_sorted : forall {A} (lt : A -> A -> bool) l, strict_weak lt -> sorted_by lt (std_sort lt l)
}.

(** A comparator that compares an integer key. *)
Lemma strict_weak_key {A} (key : A -> Z) : strict_weak (fun a b => key a <? key b).
Proof. split; intros *; rewrite ?Z.ltb_lt, ?Z.ltb_ge; lia. Qed.

Section Sorted.
Context {A : Type} (lt : A -> A -> bool) (Hlt : strict_weak lt).

Fixpoint insert_sorted (x : A) (l : list A) : list A :=
  match l with
  | [] => [x]
  | y :: l' => if lt y x then y :: insert_sorted x l' else x :: l
  end.

Definition insertion_sort (l : list A) : list A := foldr insert_sorted [] l.

Lemma insert_perm (x : A) (l : list A) : insert_sorted x l ≡ₚ x :: l.
Proof.
  induction l as [|y l IH]; cbn; [reflexivity|].
  destruct (lt y x); [rewrite IH; apply perm_swap | reflexivity].
Qed.

Lemma insertion_perm (l : list A) : insertion_sort l ≡ₚ l.
Proof. induction l as [|x l IH]; cbn; [reflexivity | now rewrite insert_perm, IH]. Qed.

Lemma insert_keeps_sorted (x : A) (l : list A) : sorted_by lt l -> sorted_by lt (insert_sorted x l).
Proof.
  destruct Hlt as [asym trans]. intros H; induction H as [|y l Hl IH Hy]; cbn [insert_sorted]; [repeat constructor|].
  destruct (lt y x) eqn:E.
  - constructor; [exact IH|]. rewrite insert_perm. constructor; [now apply asym | exact Hy].
  - constructor; [now constructor|]. constructor; [exact E|].
    eapply Forall_impl; [exact Hy|]. intros z Hz; cbn in *. now apply (trans _ y).
Qed.

Lemma insertion_sorted (l : list A) : sorted_by lt (insertion_sort l).
Proof. induction l as [|x l IH]; [constructor | now apply insert_keeps_sorted]. Qed.
End Sorted.

#[export] Instance std_sort_insertion : StdSort :=
  {| std_sort A := insertion_sort (A := A);
     sort_perm A lt l _ := insertion_perm lt l;
     sort_sorted A lt l H := insertion_sorted lt H l |}.

(** When equivalent elements are equal, the sorted list is determined by the elements. *)
Lemma sorted_unique {A} (lt : A -> A -> bool) (l m : list A) :
  (forall a b, a ∈ l -> b ∈ l -> lt a b = false -> lt b a = false -> a = b) ->
  l ≡ₚ m -> sorted_by lt l -> sorted_by lt m -> l = m.
Proof.
  intros anti HP Hl; revert m HP; induction Hl as [|x l Hl IH Hx]; intros m HP Hm.
  - symmetry; now apply Permutation_nil_r.
  - destruct Hm as [|y m Hm Hy]; [now apply Permutation_nil_r in HP|].
    assert (x = y) as <-.
    { assert (Hxm : x ∈ y :: m) by (rewrite <- HP; left). assert (Hyl : y ∈ x :: l) by (rewrite HP; left).
      apply elem_of_cons in Hxm as [E|Hxm]; [exact E|]. apply elem_of_cons in Hyl as [E|Hyl]; [now symmetry|].
      rewrite Forall_forall in Hx, Hy. apply anti; [left | now right | exact (Hy x Hxm) | exact (Hx y Hyl)]. }
    f_equal. apply IH; [|now apply Permutation_cons_inv in HP | exact Hm].
    intros a b Ha Hb; apply anti; now right.
Qed.

(** Walks through an operation that should preserve a property, down to its updates. *)
Ltac preserve_step :=
  lazymatch goal with
  | |- preserves _ (mbind _ _) => apply preserves_bind; [|intros ?]
  | |- preserves _ (mret _) => apply preserves_ret
  | |- preserves _ (throw _) => apply preserves_throw
  | |- preserves _ (of_result _) => apply preserves_of_result
  | |- preserves _ (gets _) => apply preserves_gets
  | |- preserves _ get => apply preserves_get
  | |- preserves _ (when _ _) => apply preserves_when
  | |- preserves _ (let _ := _ in _) => cbv zeta
  | |- preserves _ (if ?b then _ else _) => destruct b
  | |- preserves _ (match ?x with _ => _ end) => destruct x
  end.
Ltac preserve := repeat preserve_step; eauto with preserves.

(** [ok_bind H as a s E]: splits an operation that returned into its first part ([E]) and the rest ([H]). *)
Tactic Notation "ok_bind" hyp(H) "as" ident(a) ident(s) ident(E) :=
  apply bind_inv in H as (a & s & E & H).
