(* ===== verification/Json.v ===== *)
(** * JSON values

    The part of nlohmann's [json] (src/shared/nlohmann/json.hpp) the nodes use: the values, the
    accessors with the exceptions they throw, and the order [operator<] that sorts documents and
    the sets of results. The order is proved total, so sets and sorted arrays of documents mean
    what they should. Floating-point numbers are left out; [dump] and [parse] are an interface
    ([JsonText]) whose law is that parsing inverts dumping, and which JsonText.v discharges with
    the lexer, the parser and the serializer of the library. *)

From Stdlib Require Import ZArith Lia List Bool Ascii String.
From stdpp Require Import base gmap strings list.
From S2P Require Import Prelude.
From S2P Require Import Cpp.

(** An object is the [std::map] of its members: sorted by key, each key once. *)
Inductive json :=
| JNull
| JBool (b : bool)
| JNum (z : Z)
| JStr (s : string)
| JArr (l : list json)
| JObj (m : list (string * json)).

(** ** The order *)

Section Lexicographic.
Context {A : Type} (cmp : A -> A -> comparison).

(** [std::lexicographical_compare], as a three-way comparison. *)
Fixpoint lexcmp (l m : list A) : comparison :=
  match l, m with
  | [], [] => Eq
  | [], _ :: _ => Lt
  | _ :: _, [] => Gt
  | x :: l', y :: m' => match cmp x y with Eq => lexcmp l' m' | c => c end
  end.

(** The laws of a total order, at one element. *)
Definition ordered_at (a : A) : Prop := forall b,
  (cmp a b = Eq <-> a = b) /\ cmp b a = CompOpp (cmp a b) /\
  (forall c, cmp a b = Lt -> cmp b c <> Gt -> cmp a c = Lt).
End Lexicographic.

Definition paircmp {A} (cmp : A -> A -> comparison) (p q : string * A) : comparison :=
  match String.compare p.1 q.1 with Eq => cmp p.2 q.2 | c => c end.

(** The order of the types ([value_t]). *)
Definition rank (j : json) : Z :=
  match j with JNull => 0 | JBool _ => 1 | JNum _ => 2 | JObj _ => 3 | JArr _ => 4 | JStr _ => 5 end.

Fixpoint jcmp (a b : json) : comparison :=
  match a, b with
  | JNull, JNull => Eq
  | JBool x, JBool y => Z.compare (Z.b2z x) (Z.b2z y)
  | JNum x, JNum y => Z.compare x y
  | JStr x, JStr y => String.compare x y
  | JArr l, JArr m => lexcmp jcmp l m
  | JObj l, JObj m => lexcmp (paircmp jcmp) l m
  | _, _ => Z.compare (rank a) (rank b)
  end.

Definition json_lt (a b : json) : bool := match jcmp a b with Lt => true | _ => false end.
Definition json_eq (a b : json) : bool := match jcmp a b with Eq => true | _ => false end.

(** ** The order is total *)

Lemma string_compare_trans (a b c : string) :
  String.compare a b = Lt -> String.compare b c = Lt -> String.compare a c = Lt.
Proof.
  assert (U : forall x y, Ascii.compare x y = N.compare (N_of_ascii x) (N_of_ascii y)) by reflexivity.
  revert b c; induction a as [|x a IH]; intros [|y b] [|z c]; cbn [String.compare]; try easy.
  rewrite !U. destruct (N.compare_spec (N_of_ascii x) (N_of_ascii y)) as [H1|H1|H1]; try easy;
    destruct (N.compare_spec (N_of_ascii y) (N_of_ascii z)) as [H2|H2|H2]; try easy; intros P Q.
  - rewrite H1, H2, N.compare_refl. now apply (IH b).
  - rewrite H1. now rewrite (proj2 (N.compare_lt_iff _ _) H2).
  - rewrite <- H2. now rewrite (proj2 (N.compare_lt_iff _ _) H1).
  - now rewrite (proj2 (N.compare_lt_iff _ _) (N.lt_trans _ _ _ H1 H2)).
Qed.

Lemma string_compare_refl (s : string) : String.compare s s = Eq.
Proof. induction s as [|c s IH]; [reflexivity|]. cbn. unfold Ascii.compare. now rewrite N.compare_refl. Qed.

Lemma ordered_string (s : string) : ordered_at String.compare s.
Proof.
  intros t; split; [|split; [apply String.compare_antisym|]].
  { split; [apply String.compare_eq_iff | intros ->; apply string_compare_refl]. }
  intros u P Q; destruct (String.compare t u) eqn:E; [|now apply (string_compare_trans s t)|easy].
  apply String.compare_eq_iff in E; now subst.
Qed.

Lemma ordered_Z (z : Z) : ordered_at Z.compare z.
Proof.
  intros t; split; [apply Z.compare_eq_iff | split; [apply Z.compare_antisym|]].
  intros u; rewrite Z.compare_ngt_iff, !Z.compare_lt_iff; lia.
Qed.

Lemma ordered_pair {A} (cmp : A -> A -> comparison) (p : string * A) :
  ordered_at cmp p.2 -> ordered_at (paircmp cmp) p.
Proof.
  destruct p as [k x]; unfold paircmp; cbn; intros Hx [k' y]; cbn.
  destruct (ordered_string k k') as (E & O & T), (Hx y) as (E' & O' & T').
  rewrite O, O'. split; [|split; [now destruct (String.compare k k')|]].
  - destruct (String.compare k k') eqn:C.
    + rewrite E'. split; [intros ->; f_equal; now apply E | now intros [= _ ->]].
    + split; [easy|]. intros [= F _]; apply E in F; congruence.
    + split; [easy|]. intros [= F _]; apply E in F; congruence.
  - intros [k'' z]; cbn. destruct (String.compare k k') eqn:C; intros P Q; [|..|easy].
    + apply String.compare_eq_iff in C as ->. destruct (String.compare k' k''); try easy. now apply T'.
    + rewrite T; [easy | easy |]. now destruct (String.compare k' k'').
Qed.

Lemma ordered_lex {A} (cmp : A -> A -> comparison) (l : list A) :
  Forall (ordered_at cmp) l -> ordered_at (lexcmp cmp) l.
Proof.
  intros H; induction H as [|x l Hx Hl IH]; intros m.
  - destruct m as [|y m]; cbn; repeat split; try easy. now intros [|z c].
  - destruct m as [|y m]; cbn; [repeat split; easy|].
    destruct (Hx y) as (E & O & T), (IH m) as (E' & O' & T').
    split; [|split].
    + destruct (cmp x y) eqn:C; (split; [try easy | intros [= Fx Fl]]).
      * intros F. f_equal; [now apply E | now apply E'].
      * now apply E'.
      * apply E in Fx; congruence.
      * apply E in Fx; congruence.
    + rewrite O. now destruct (cmp x y); cbn.
    + intros [|z c]; [easy|]. intros P Q. destruct (cmp x y); [|..|easy].
      * rewrite (proj1 E eq_refl). destruct (cmp y z); try easy. now apply T'.
      * rewrite T; [easy | easy |]. now destruct (cmp y z).
Qed.

(** Induction through the lists of a value. *)
Section Induction.
Context (P : json -> Prop) (Hnull : P JNull) (Hbool : forall b, P (JBool b)) (Hnum : forall z, P (JNum z))
  (Hstr : forall s, P (JStr s)) (Harr : forall l, Forall P l -> P (JArr l))
  (Hobj : forall m, Forall (fun kv => P kv.2) m -> P (JObj m)).

Fixpoint json_ind' (j : json) : P j :=
  match j with
  | JNull => Hnull
  | JBool b => Hbool b
  | JNum z => Hnum z
  | JStr s => Hstr s
  | JArr l => Harr l ((fix go l := match l return Forall P l with
      | [] => Forall_nil_2 _ | x :: l' => Forall_cons_2 _ _ _ (json_ind' x) (go l') end) l)
  | JObj m => Hobj m ((fix go m := match m return Forall (fun kv => P kv.2) m with
      | [] => Forall_nil_2 _ | kv :: m' => Forall_cons_2 _ _ _ (json_ind' kv.2) (go m') end) m)
  end.
End Induction.

Lemma jcmp_rank (a b : json) : rank a <> rank b -> jcmp a b = Z.compare (rank a) (rank b).
Proof. destruct a, b; cbn; easy. Qed.

(** The values of one type are ordered like their contents. *)
Lemma ordered_tag {A} (C : A -> json) (cmp : A -> A -> comparison) (r : Z) (x : A) :
  (forall y z, jcmp (C y) (C z) = cmp y z) -> (forall b, rank b = r <-> exists y, b = C y) ->
  (forall y z, C y = C z -> y = z) -> ordered_at cmp x -> ordered_at jcmp (C x).
Proof.
  intros Hcmp Hr Hinj Hx b.
  assert (Rx : rank (C x) = r) by (apply Hr; now exists x).
  destruct (Z.eq_dec (rank b) r) as [Eb|Nb].
  - apply Hr in Eb as [y ->]. destruct (Hx y) as (E & O & T). rewrite !Hcmp.
    split; [rewrite E; split; [congruence | apply Hinj] | split; [exact O|]].
    intros c P Q. destruct (Z.eq_dec (rank c) r) as [Ec|Nc].
    + apply Hr in Ec as [z ->]. rewrite Hcmp in *. now apply T.
    + assert (Ry : rank (C y) = r) by (apply Hr; now exists y).
      rewrite jcmp_rank in Q |- * by lia. rewrite Z.compare_lt_iff. rewrite Z.compare_ngt_iff in Q. lia.
  - rewrite !jcmp_rank by lia. split; [|split; [apply Z.compare_antisym|]].
    + split; [rewrite Z.compare_eq_iff; lia | intros <-; lia].
    + intros c P Q. rewrite Z.compare_lt_iff in P.
      destruct (Z.eq_dec (rank c) (rank b)) as [Ec|Nc].
      * rewrite jcmp_rank, Z.compare_lt_iff by lia. lia.
      * rewrite jcmp_rank, Z.compare_ngt_iff in Q by lia. rewrite jcmp_rank, Z.compare_lt_iff by lia. lia.
Qed.

Ltac tag_case := solve [
    let b := fresh in intros b; split; [destruct b; cbn; try easy; eauto | intros [? ->]; reflexivity]
  | now intros * [=] | reflexivity ].

Lemma ordered_json (j : json) : ordered_at jcmp j.
Proof.
  induction j as [|x|x|x|l IH|m IH] using json_ind'.
  - apply (ordered_tag (fun _ : unit => JNull) (fun _ _ => Eq) 0 tt); try tag_case; [now intros [] [] |].
    intros []; repeat split; easy.
  - apply (ordered_tag JBool (fun a b => Z.compare (Z.b2z a) (Z.b2z b)) 1); try tag_case.
    intros y; destruct (ordered_Z (Z.b2z x) (Z.b2z y)) as (E & O & T).
    split; [rewrite E; now destruct x, y | split; [exact O|]]. intros z; apply T.
  - apply (ordered_tag JNum Z.compare 2); try tag_case. apply ordered_Z.
  - apply (ordered_tag JStr String.compare 5); try tag_case. apply ordered_string.
  - apply (ordered_tag JArr (lexcmp jcmp) 4); try tag_case. now apply ordered_lex.
  - apply (ordered_tag JObj (lexcmp (paircmp jcmp)) 3); try tag_case. apply ordered_lex.
    eapply Forall_impl; [exact IH|]. intros kv; apply ordered_pair.
Qed.

Lemma json_eq_spec (a b : json) : reflect (a = b) (json_eq a b).
Proof.
  destruct (ordered_json a b) as (E & _ & _). unfold json_eq.
  destruct (jcmp a b) eqn:C; constructor; [now apply E | |]; intros F; apply E in F; congruence.
Qed.

#[export] Instance json_eq_dec : EqDecision json.
Proof. intros a b; destruct (json_eq_spec a b); [now left | now right]. Defined.

(** The order by any value computed from the elements is a strict weak order. *)
Lemma json_lt_key {A} (key : A -> json) : strict_weak (fun a b => json_lt (key a) (key b)).
Proof.
  split; unfold json_lt.
  - intros a b. destruct (ordered_json (key a) (key b)) as (_ & O & _). rewrite O. now destruct (jcmp (key a) (key b)).
  - intros a b c. destruct (ordered_json (key c) (key b)) as (_ & O & _), (ordered_json (key c) (key a)) as (E & _ & T).
    destruct (jcmp (key c) (key a)) eqn:C; try easy. intros P Q.
    rewrite (T (key b) eq_refl) in Q; [easy|].
    destruct (ordered_json (key b) (key a)) as (_ & O' & _). rewrite O' in *.
    now destruct (jcmp (key b) (key a)).
Qed.

Lemma json_lt_total (a b : json) : json_lt a b = false -> json_lt b a = false -> a = b.
Proof.
  destruct (ordered_json a b) as (E & O & _). unfold json_lt. rewrite O.
  destruct (jcmp a b); try easy. intros; now apply E.
Qed.

(** ** Accessors *)

(** The members of an object: [std::map::find] and [std::map::operator[]] (assignment). *)
Fixpoint member (k : string) (m : list (string * json)) : option json :=
  match m with
  | [] => None
  | (k', v) :: m' => if String.eqb k k' then Some v else member k m'
  end.

Fixpoint insert_member (k : string) (v : json) (m : list (string * json)) : list (string * json) :=
  match m with
  | [] => [(k, v)]
  | (k', v') :: m' =>
      match String.compare k k' with
      | Lt => (k, v) :: m
      | Eq => (k, v) :: m'
      | Gt => (k', v') :: insert_member k v m'
      end
  end.

(** An object from an initializer list with distinct keys. *)
Definition object (l : list (string * json)) : json :=
  JObj (foldr (fun kv => insert_member kv.1 kv.2) [] l).

(** [operator[]] with a key: on a [const] value a missing key fails an assertion; on a mutable value
    a null becomes an object and a missing member a null one. *)
Definition at_const (j : json) (k : string) : result json :=
  match j with
  | JObj m => match member k m with Some v => Ok v | None => Throw undefined end
  | _ => Throw type_error
  end.

Definition at_mutable (j : json) (k : string) : result (json * json) :=
  match j with
  | JObj m => match member k m with Some v => Ok (j, v) | None => Ok (JObj (insert_member k JNull m), JNull) end
  | JNull => Ok (JObj [(k, JNull)], JNull)
  | _ => Throw type_error
  end.

(** [j[k] = v]. *)
Definition set_member (j : json) (k : string) (v : json) : result json :=
  match j with
  | JObj m => Ok (JObj (insert_member k v m))
  | JNull => Ok (JObj [(k, v)])
  | _ => Throw type_error
  end.

Definition get_string (j : json) : result string :=
  match j with JStr s => Ok s | _ => Throw type_error end.

Definition get_int (j : json) : result Z :=
  match j with JNum z => Ok z | _ => Throw type_error end.

(** [size] and [empty]: a string is one value and never empty. *)
Definition jsize (j : json) : Z :=
  match j with
  | JNull => 0
  | JArr l => Z.of_nat (length l)
  | JObj m => Z.of_nat (length m)
  | _ => 1
  end.

Definition jempty (j : json) : bool := jsize j =? 0.

(** [operator[]] with an index on a mutable value: an array grows with nulls up to the index. *)
Definition at_index (j : json) (i : nat) : result json :=
  match j with
  | JArr l => Ok (default JNull (l !! i))
  | JNull => Ok JNull
  | _ => Throw type_error
  end.

(** The members an iteration over a value visits: [key()] of another value than an object throws. *)
Definition members (j : json) : result (list (string * json)) :=
  match j with
  | JObj m => Ok m
  | JNull | JArr [] => Ok []
  | _ => Throw type_error
  end.

(** [j[k].get<std::string>()], on a mutable value. *)
Definition member_of (j : json) (k : string) : result string := '(_, v) ← at_mutable j k; get_string v.

(** ** Text *)

Fixpoint keys_sorted (m : list (string * json)) : bool :=
  match m with
  | [] => true
  | (k, _) :: m' => forallb (fun kv => String.ltb k kv.1) m' && keys_sorted m'
  end.

(** The values that exist: every object is a map. *)
Fixpoint wf (j : json) : bool :=
  match j with
  | JArr l => forallb wf l
  | JObj m => keys_sorted m && forallb (fun kv => wf kv.2) m
  | _ => true
  end.

(** [dump], which throws on text that is not UTF-8, and [json::parse]. *)
Class JsonText := {
  dump : json -> result string;
  parse : string -> result json;
  parse_dump : forall j s, wf j = true -> dump j = Ok s -> parse s = Ok j
}.

(** ** Members *)

Lemma member_insert (k k' : string) (v : json) (m : list (string * json)) :
  member k (insert_member k' v m) = if String.eqb k k' then Some v else member k m.
Proof.
  induction m as [|[k2 v2] m IH]; [reflexivity|]. cbn [insert_member].
  destruct (String.compare k' k2) eqn:C; cbn [member]; [|reflexivity|].
  - apply String.compare_eq_iff in C as <-. now destruct (String.eqb k k').
  - rewrite IH. destruct (String.eqb_spec k k2) as [->|]; [|reflexivity].
    destruct (String.eqb_spec k2 k') as [->|]; [|reflexivity]. now rewrite string_compare_refl in C.
Qed.

Lemma ltb_lt (a b : string) : String.ltb a b = true <-> String.compare a b = Lt.
Proof. unfold String.ltb. now destruct (String.compare a b). Qed.

Lemma forallb_insert (f : string * json -> bool) (k : string) (v : json) (m : list (string * json)) :
  f (k, v) = true -> forallb f m = true -> forallb f (insert_member k v m) = true.
Proof.
  intros Hk; induction m as [|[k' v'] m IH]; cbn; [now rewrite Hk|].
  intros [H1 H2]%andb_prop. destruct (String.compare k k'); cbn; rewrite ?Hk, ?H1, ?H2; cbn; auto.
Qed.

Lemma insert_sorted_keys (k : string) (v : json) (m : list (string * json)) :
  keys_sorted m = true -> keys_sorted (insert_member k v m) = true.
Proof.
  induction m as [|[k' v'] m IH]; [reflexivity|]. cbn [insert_member keys_sorted].
  intros [H1 H2]%andb_prop. destruct (String.compare k k') eqn:C; cbn [keys_sorted forallb fst snd].
  - apply String.compare_eq_iff in C as ->. now rewrite H1, H2.
  - rewrite H1, H2, (proj2 (ltb_lt k k') C); cbn. rewrite andb_true_r.
    rewrite forallb_forall in H1 |- *. intros kv Hin. apply ltb_lt.
    apply (string_compare_trans _ k'); [exact C | apply ltb_lt, H1, Hin].
  - rewrite (IH H2), andb_true_r. apply forallb_insert; [|exact H1]. apply ltb_lt; cbn.
    rewrite String.compare_antisym, C. reflexivity.
Qed.

Lemma wf_insert (k : string) (v : json) (m : list (string * json)) :
  wf v = true -> wf (JObj m) = true -> wf (JObj (insert_member k v m)) = true.
Proof.
  cbn. intros Hv [H1 H2]%andb_prop. apply andb_true_intro; split; [now apply insert_sorted_keys|].
  now apply forallb_insert.
Qed.

Lemma wf_object (l : list (string * json)) : forallb (fun kv => wf kv.2) l = true -> wf (object l) = true.
Proof.
  induction l as [|[k v] l IH]; [reflexivity|]. cbn. intros [Hv H]%andb_prop.
  apply wf_insert; [exact Hv | exact (IH H)].
Qed.

Lemma member_object (k : string) (l : list (string * json)) :
  member k (foldr (fun kv => insert_member kv.1 kv.2) [] l) = member k l.
Proof.
  induction l as [|[k' v] l IH]; [reflexivity|]. cbn. now rewrite member_insert, IH.
Qed.

Lemma at_object (k : string) (l : list (string * json)) (v : json) :
  member k l = Some v -> at_const (object l) k = Ok v.
Proof. intros H; cbn; now rewrite member_object, H. Qed.
