(* ===== verification/Lexer.v ===== *)
(** * The lexer of nlohmann's json

    [class lexer] of src/shared/nlohmann/json.hpp: the tokens, and [scan], which reads the next token
    from the text. A text is a [string] of bytes; what is left to read is the state of the lexer,
    so that [get] takes the first byte and [unget] leaves it. Positions and error messages are left
    out. The number a floating-point literal stands for is not computed: [value_float] carries its
    text. *)

From Stdlib Require Import ZArith Lia List Bool Ascii String.
From stdpp Require Import base strings list.
From S2P Require Import Prelude.
From S2P Require Import Cpp.

Open Scope string_scope.
Open Scope Z_scope.

(** The byte of a character and back ([to_char_type] keeps the low eight bits). *)
Definition code (c : ascii) : Z := Z.of_N (N_of_ascii c).
Definition chr (b : Z) : ascii := ascii_of_N (Z.to_N b).

(** The quotation mark. *)
Definition quote : ascii := chr 34.

(** The tokens, with the value the lexer keeps for the parser; [scan_error] is
    [token_type::parse_error]. *)
Inductive token_type :=
| literal_true
| literal_false
| literal_null
| value_string (s : string)
| value_unsigned (z : Z)
| value_integer (z : Z)
| value_float (text : string)
| begin_array
| begin_object
| end_array
| end_object
| name_separator
| value_separator
| scan_error
| end_of_input.

Definition in_range (b : Z) (r : Z * Z) : bool := (r.1 <=? b) && (b <=? r.2).

(** ** Strings *)

(** The value of a hexadecimal digit. *)
Definition hex_val (c : ascii) : option Z :=
  let b := code c in
  if in_range b (48, 57) then Some (b - 0x30)
  else if in_range b (65, 70) then Some (b - 0x37)
  else if in_range b (97, 102) then Some (b - 0x57)
  else None.

Fixpoint get_codepoint_go (factors : list Z) (codepoint : Z) (s : string) : Z * string :=
  match factors with
  | [] => (codepoint, s)
  | factor :: factors' =>
      match s with
      | String c s' =>
          match hex_val c with
          | Some d => get_codepoint_go factors' (codepoint + Z.shiftl d factor) s'
          | None => (-1, s')
          end
      | EmptyString => (-1, "")
      end
  end.

(** Four hexadecimal digits, -1 on an error. *)
Definition get_codepoint (s : string) : Z * string := get_codepoint_go [12; 8; 4; 0] 0 s.

(** One round of [scan_string]: the closing quote, an error, or bytes for the token buffer. *)
Inductive piece :=
| Closed (rest : string)
| Bad (rest : string)
| Added (bytes rest : string).

(** The bytes of a code point. *)
Definition utf8 (codepoint : Z) : string :=
  if codepoint <? 0x80 then String (chr codepoint) ""
  else if codepoint <=? 0x7FF then
    String (chr (Z.lor 0xC0 (Z.shiftr codepoint 6))) (String (chr (Z.lor 0x80 (Z.land codepoint 0x3F))) "")
  else if codepoint <=? 0xFFFF then
    String (chr (Z.lor 0xE0 (Z.shiftr codepoint 12)))
      (String (chr (Z.lor 0x80 (Z.land (Z.shiftr codepoint 6) 0x3F)))
        (String (chr (Z.lor 0x80 (Z.land codepoint 0x3F))) ""))
  else
    String (chr (Z.lor 0xF0 (Z.shiftr codepoint 18)))
      (String (chr (Z.lor 0x80 (Z.land (Z.shiftr codepoint 12) 0x3F)))
        (String (chr (Z.lor 0x80 (Z.land (Z.shiftr codepoint 6) 0x3F)))
          (String (chr (Z.lor 0x80 (Z.land codepoint 0x3F))) ""))).

(** After [\u]: a code point, from two escapes when the first is a high surrogate. *)
Definition scan_unicode (s : string) : piece :=
  let '(codepoint1, s1) := get_codepoint s in
  if codepoint1 =? -1 then Bad s1
  else if in_range codepoint1 (0xD800, 0xDBFF) then
    match s1 with
    | String a (String b s2) =>
        if Ascii.eqb a "\" && Ascii.eqb b "u" then
          let '(codepoint2, s3) := get_codepoint s2 in
          if codepoint2 =? -1 then Bad s3
          else if in_range codepoint2 (0xDC00, 0xDFFF) then
            Added (utf8 (Z.shiftl codepoint1 10 + codepoint2 - 0x35FDC00)) s3
          else Bad s3
        else Bad s1
    | _ => Bad s1
    end
  else if in_range codepoint1 (0xDC00, 0xDFFF) then Bad s1
  else Added (utf8 codepoint1) s1.

(** The byte a simple escape stands for. *)
Definition escaped (c : ascii) : option ascii :=
  if Ascii.eqb c quote then Some quote
  else if Ascii.eqb c "\" then Some "\"%char
  else if Ascii.eqb c "/" then Some "/"%char
  else if Ascii.eqb c "b" then Some (chr 8)
  else if Ascii.eqb c "f" then Some (chr 12)
  else if Ascii.eqb c "n" then Some (chr 10)
  else if Ascii.eqb c "r" then Some (chr 13)
  else if Ascii.eqb c "t" then Some (chr 9)
  else None.

(** After a backslash. *)
Definition scan_escape (s : string) : piece :=
  match s with
  | EmptyString => Bad ""
  | String c s' =>
      if Ascii.eqb c "u" then scan_unicode s'
      else match escaped c with Some b => Added (String b "") s' | None => Bad s' end
  end.

(** The bytes that must follow; [bytes] holds those read. *)
Fixpoint next_byte_in_range (ranges : list (Z * Z)) (bytes s : string) : piece :=
  match ranges with
  | [] => Added bytes s
  | r :: ranges' =>
      match s with
      | String c s' => if in_range (code c) r then next_byte_in_range ranges' (bytes ++ String c "") s' else Bad s'
      | EmptyString => Bad ""
      end
  end.

(** The ranges for the bytes after a byte of a string; [None] for a byte that cannot start a
    character. *)
Definition following (b : Z) : option (list (Z * Z)) :=
  if in_range b (0x20, 0x7F) then Some []
  else if in_range b (0xC2, 0xDF) then Some [(0x80, 0xBF)]
  else if b =? 0xE0 then Some [(0xA0, 0xBF); (0x80, 0xBF)]
  else if in_range b (0xE1, 0xEC) || in_range b (0xEE, 0xEF) then Some [(0x80, 0xBF); (0x80, 0xBF)]
  else if b =? 0xED then Some [(0x80, 0x9F); (0x80, 0xBF)]
  else if b =? 0xF0 then Some [(0x90, 0xBF); (0x80, 0xBF); (0x80, 0xBF)]
  else if in_range b (0xF1, 0xF3) then Some [(0x80, 0xBF); (0x80, 0xBF); (0x80, 0xBF)]
  else if b =? 0xF4 then Some [(0x80, 0x8F); (0x80, 0xBF); (0x80, 0xBF)]
  else None.

(** The switch of [scan_string] on the next character; control characters are errors. *)
Definition scan_piece (s : string) : piece :=
  match s with
  | EmptyString => Bad ""
  | String c s' =>
      if Ascii.eqb c quote then Closed s'
      else if Ascii.eqb c "\" then scan_escape s'
      else match following (code c) with
           | Some ranges => next_byte_in_range ranges (String c "") s'
           | None => Bad s'
           end
  end.

(** The loop of [scan_string], [None] when the fuel runs out; [buf] is the token buffer. *)
Fixpoint scan_string_go (fuel : nat) (buf s : string) : option (token_type * string) :=
  match fuel with
  | O => None
  | S fuel =>
      match scan_piece s with
      | Closed rest => Some (value_string buf, rest)
      | Bad rest => Some (scan_error, rest)
      | Added bytes rest => scan_string_go fuel (buf ++ bytes) rest
      end
  end.

(** A round reads at least one character, so the length of the text is enough fuel
    ([scan_string_total]). *)
Definition scan_string (s : string) : token_type * string :=
  default (scan_error, s) (scan_string_go (S (String.length s)) "" s).

(** ** Numbers *)

(** The labels of [scan_number]. *)
Inductive number_state := Minus | Zero | Any1 | Decimal1 | Decimal2 | Exponent | Sign | Any2.

Inductive number_type := Unsigned | Integer | Float.

Inductive number_step := Goto (st : number_state) | Done | Fail.

(** What a label does to [number_type]. *)
Definition entered (st : number_state) (kind : number_type) : number_type :=
  match st with Minus => Integer | Decimal1 | Exponent => Float | _ => kind end.

Definition is_e (c : ascii) : bool := Ascii.eqb c "e" || Ascii.eqb c "E".

(** Where the next character leads; [None] is the end of the input. *)
Definition step_number (st : number_state) (c : option ascii) : number_step :=
  match st, c with
  | Minus, Some c =>
      if Ascii.eqb c "0" then Goto Zero else if isdigit c then Goto Any1 else Fail
  | Zero, Some c =>
      if Ascii.eqb c "." then Goto Decimal1 else if is_e c then Goto Exponent else Done
  | Any1, Some c =>
      if isdigit c then Goto Any1 else if Ascii.eqb c "." then Goto Decimal1
      else if is_e c then Goto Exponent else Done
  | Decimal1, Some c => if isdigit c then Goto Decimal2 else Fail
  | Decimal2, Some c => if isdigit c then Goto Decimal2 else if is_e c then Goto Exponent else Done
  | Exponent, Some c =>
      if Ascii.eqb c "+" || Ascii.eqb c "-" then Goto Sign else if isdigit c then Goto Any2 else Fail
  | Sign, Some c => if isdigit c then Goto Any2 else Fail
  | Any2, Some c => if isdigit c then Goto Any2 else Done
  | (Zero | Any1 | Decimal2 | Any2), None => Done
  | (Minus | Decimal1 | Exponent | Sign), None => Fail
  end.

(** [scan_number_done]: [strtoull] and [strtoll] set [errno] outside 64 bits, and the number is then
    read as a floating-point one. *)
Definition number_token (kind : number_type) (buf : string) : token_type :=
  match kind with
  | Unsigned =>
      let x := read_digits 0 buf in
      if x <? 2 ^ 64 then value_unsigned x else value_float buf
  | Integer =>
      let x := - read_digits 0 (String.substring 1 (String.length buf) buf) in
      if - 2 ^ 63 <=? x then value_integer x else value_float buf
  | Float => value_float buf
  end.

(** The labels from [st] on; the character that ends a number is not consumed ([unget]). *)
Fixpoint scan_number_go (st : number_state) (kind : number_type) (buf s : string) : token_type * string :=
  let kind := entered st kind in
  match s with
  | EmptyString =>
      match step_number st None with Done => (number_token kind buf, "") | _ => (scan_error, "") end
  | String c s' =>
      match step_number st (Some c) with
      | Goto st' => scan_number_go st' kind (buf ++ String c "") s'
      | Done => (number_token kind buf, s)
      | Fail => (scan_error, s')
      end
  end.

(** [c] is the current character, a minus sign or a digit. *)
Definition scan_number (c : ascii) (s : string) : token_type * string :=
  scan_number_go (if Ascii.eqb c "-" then Minus else if Ascii.eqb c "0" then Zero else Any1)
    Unsigned (String c "") s.

(** ** Tokens *)

(** The characters of a literal after the first. *)
Fixpoint scan_literal (literal : string) (t : token_type) (s : string) : token_type * string :=
  match literal, s with
  | EmptyString, _ => (t, s)
  | String c l', String c' s' => if Ascii.eqb c' c then scan_literal l' t s' else (scan_error, s')
  | String _ _, EmptyString => (scan_error, "")
  end.

Definition is_blank (c : ascii) : bool :=
  Ascii.eqb c " " || Ascii.eqb c (chr 9) || Ascii.eqb c (chr 10) || Ascii.eqb c (chr 13).

Fixpoint skip_blanks (s : string) : string :=
  match s with String c s' => if is_blank c then skip_blanks s' else s | EmptyString => "" end.

(** The byte order mark at the front of the input; [None] when only its first byte is there. *)
Definition skip_bom (s : string) : option string :=
  match s with
  | String a s' =>
      if code a =? 0xEF then
        match s' with
        | String b (String c s'') => if (code b =? 0xBB) && (code c =? 0xBF) then Some s'' else None
        | _ => None
        end
      else Some s
  | EmptyString => Some ""
  end.

(** The switch of [scan]; a null byte ends the input. *)
Definition scan_token (s : string) : token_type * string :=
  match skip_blanks s with
  | EmptyString => (end_of_input, "")
  | String c s' =>
      if Ascii.eqb c "[" then (begin_array, s')
      else if Ascii.eqb c "]" then (end_array, s')
      else if Ascii.eqb c "{" then (begin_object, s')
      else if Ascii.eqb c "}" then (end_object, s')
      else if Ascii.eqb c ":" then (name_separator, s')
      else if Ascii.eqb c "," then (value_separator, s')
      else if Ascii.eqb c "t" then scan_literal "rue" literal_true s'
      else if Ascii.eqb c "f" then scan_literal "alse" literal_false s'
      else if Ascii.eqb c "n" then scan_literal "ull" literal_null s'
      else if Ascii.eqb c quote then scan_string s'
      else if Ascii.eqb c "-" || isdigit c then scan_number c s'
      else if Ascii.eqb c (chr 0) then (end_of_input, s')
      else (scan_error, s')
  end.

(** [scan]; [start] when no character was read before ([position.chars_read_total] is 0). *)
Definition scan (start : bool) (s : string) : token_type * string :=
  match (if start then skip_bom s else Some s) with
  | None => (scan_error, s)
  | Some s' => scan_token s'
  end.

(** ** Every token is read in bounded time *)

Definition after (p : piece) : string :=
  match p with Closed s | Bad s | Added _ s => s end.

Lemma codepoint_length (factors : list Z) (cp : Z) (s : string) :
  (String.length (get_codepoint_go factors cp s).2 <= String.length s)%nat.
Proof.
  revert cp s; induction factors as [|f factors IH]; intros cp [|c s]; cbn [get_codepoint_go]; [cbn; lia..|].
  destruct (hex_val c); [|cbn; lia]. etransitivity; [apply IH | cbn; lia].
Qed.

Lemma unicode_length (s : string) : (String.length (after (scan_unicode s)) <= String.length s)%nat.
Proof.
  unfold scan_unicode, get_codepoint.
  pose proof (codepoint_length [12; 8; 4; 0] 0 s) as L.
  destruct (get_codepoint_go _ 0 s) as [cp1 s1]; cbn [snd] in L.
  destruct (cp1 =? -1); [exact L|]. destruct (in_range cp1 _); [|destruct (in_range cp1 _); exact L].
  destruct s1 as [|a [|b s2]]; [exact L..|]. destruct (_ && _); [|exact L].
  pose proof (codepoint_length [12; 8; 4; 0] 0 s2) as L2.
  destruct (get_codepoint_go _ 0 s2) as [cp2 s3]; cbn [snd] in L2. cbn [String.length] in L.
  destruct (cp2 =? -1); [cbn; lia|]. destruct (in_range cp2 _); cbn; lia.
Qed.

Lemma ranges_length (ranges : list (Z * Z)) (bytes s : string) :
  (String.length (after (next_byte_in_range ranges bytes s)) <= String.length s)%nat.
Proof.
  revert bytes s; induction ranges as [|r ranges IH]; intros bytes [|c s]; cbn; [lia..|].
  destruct (in_range _ _); [etransitivity; [apply IH|] |]; cbn; lia.
Qed.

(** Every round of [scan_string] but the last reads a character. *)
Lemma piece_length (s : string) : s <> "" -> (String.length (after (scan_piece s)) < String.length s)%nat.
Proof.
  destruct s as [|c s]; [easy|]; intros _. cbn [scan_piece String.length].
  destruct (Ascii.eqb c quote); [cbn; lia|]. destruct (Ascii.eqb c "\").
  - destruct s as [|d s]; [cbn; lia|]. cbn [scan_escape String.length].
    destruct (Ascii.eqb d "u"); [pose proof (unicode_length s); lia|].
    destruct (escaped d); cbn; lia.
  - destruct (following (code c)) as [ranges|]; [|cbn; lia].
    pose proof (ranges_length ranges (String c "") s); lia.
Qed.

Lemma scan_string_go_total (fuel : nat) (buf s : string) : (String.length s < fuel)%nat ->
  exists t rest, scan_string_go fuel buf s = Some (t, rest) /\ (String.length rest <= String.length s)%nat.
Proof.
  revert buf s; induction fuel as [|fuel IH]; intros buf s H; [lia|]. cbn [scan_string_go].
  destruct (decide (s = "")) as [->|N]; [now exists scan_error, ""|].
  pose proof (piece_length s N) as L. destruct (scan_piece s) as [rest|rest|bytes rest]; cbn [after] in L.
  - exists (value_string buf), rest. split; [easy | lia].
  - exists scan_error, rest. split; [easy | lia].
  - destruct (IH (buf ++ bytes) rest ltac:(lia)) as (t & r & E & Lr). exists t, r. split; [exact E | lia].
Qed.

Lemma scan_string_length (s : string) : (String.length (scan_string s).2 <= String.length s)%nat.
Proof.
  unfold scan_string. destruct (scan_string_go_total (S (String.length s)) "" s) as (t & r & E & L); [lia|].
  now rewrite E.
Qed.

Lemma scan_number_length (st : number_state) (kind : number_type) (buf s : string) :
  (String.length (scan_number_go st kind buf s).2 <= String.length s)%nat.
Proof.
  revert st kind buf; induction s as [|c s IH]; intros st kind buf; cbn [scan_number_go].
  - destruct (step_number st None); cbn; lia.
  - destruct (step_number st (Some c)); [etransitivity; [apply IH|] |..]; cbn; lia.
Qed.

Lemma scan_literal_length (l : string) (t : token_type) (s : string) :
  (String.length (scan_literal l t s).2 <= String.length s)%nat.
Proof.
  revert s; induction l as [|c l IH]; intros [|d s]; cbn; [lia..|].
  destruct (Ascii.eqb d c); [etransitivity; [apply IH|] |]; cbn; lia.
Qed.

Lemma skip_blanks_length (s : string) : (String.length (skip_blanks s) <= String.length s)%nat.
Proof. induction s as [|c s IH]; cbn; [lia|]. destruct (is_blank c); cbn; lia. Qed.

(** A token other than the end of the input takes a character. *)
Lemma scan_token_length (s : string) :
  (String.length (scan_token s).2 < String.length s)%nat \/
  (scan_token s).1 = end_of_input /\ (String.length (scan_token s).2 <= String.length s)%nat.
Proof.
  unfold scan_token. pose proof (skip_blanks_length s) as L.
  destruct (skip_blanks s) as [|c s']; [right; split; [easy|cbn; lia]|]. cbn [String.length] in L.
  assert (K : forall p : token_type * string, (String.length p.2 <= String.length s')%nat ->
    (String.length p.2 < String.length s)%nat \/ p.1 = end_of_input /\ (String.length p.2 <= String.length s)%nat)
    by (intros [t r] Hr; cbn in *; left; lia).
  repeat match goal with |- context [if ?b then _ else _] => destruct b end;
    apply K; first [apply scan_literal_length | apply scan_string_length | apply scan_number_length | cbn; lia].
Qed.

Lemma scan_length (start : bool) (s : string) :
  (String.length (scan start s).2 < String.length s)%nat \/
  ((scan start s).1 = end_of_input \/ (scan start s).1 = scan_error) /\ (String.length (scan start s).2 <= String.length s)%nat.
Proof.
  unfold scan. destruct start; [|pose proof (scan_token_length s); tauto].
  destruct s as [|a s']; cbn [skip_bom]; [pose proof (scan_token_length ""); tauto|].
  destruct (code a =? 0xEF); [|pose proof (scan_token_length (String a s')); tauto].
  destruct s' as [|b [|c s'']]; [right; split; [tauto | cbn; lia]..|].
  destruct (_ && _); [|right; split; [tauto | cbn; lia]].
  pose proof (scan_token_length s''). left. cbn [String.length]. lia.
Qed.
