(* ===== verification/Parser.v ===== *)
(** * The parser of nlohmann's json

    [class parser] and [json_sax_dom_parser] of src/shared/nlohmann/json.hpp, as [json::parse] runs
    them on a [std::string]: [sax_parse_internal] is a loop with a stack of [states] instead of a
    recursion, and the events it raises build the value. [json_sax_dom_parser] keeps pointers into
    the value under construction ([ref_stack]); here the stack holds the open containers themselves,
    which join the container around them when they are closed, so each frame is what its pointer
    shows. The number of a floating-point literal ([strtod] and the check for infinities) is a
    parameter, since the values of the model have no such numbers. *)

From Stdlib Require Import ZArith Lia List Bool Ascii String.
From stdpp Require Import base gmap strings list.
From S2P Require Import Prelude.
From S2P Require Import Cpp.
From S2P Require Import Json.
From S2P Require Import Lexer.

Open Scope string_scope.

(** ** [json_sax_dom_parser] *)

(** An open array, or an open object with the key its next value is assigned to
    ([object_element]), which [key] sets before every value. *)
Inductive frame :=
| FArray (l : list json)
| FObject (m : list (string * json)) (object_element : string).

Record dom := mkDom { ref_stack : list frame; root : json }.

Definition handle_value (v : json) (d : dom) : dom :=
  match ref_stack d with
  | [] => mkDom [] v
  | FArray l :: fs => mkDom (FArray (l ++ [v]) :: fs) (root d)
  | FObject m k :: fs => mkDom (FObject (insert_member k v m) k :: fs) (root d)
  end.

Definition start_object (d : dom) : dom := mkDom (FObject [] "" :: ref_stack d) (root d).
Definition start_array (d : dom) : dom := mkDom (FArray [] :: ref_stack d) (root d).

(** [operator[]] adds a null at a new key. *)
Definition key (k : string) (d : dom) : dom :=
  match ref_stack d with
  | FObject m _ :: fs =>
      mkDom (FObject (match member k m with Some _ => m | None => insert_member k JNull m end) k :: fs) (root d)
  | _ => d
  end.

(** [end_object] and [end_array]. *)
Definition close (f : frame) : json := match f with FArray l => JArr l | FObject m _ => JObj m end.

Definition end_container (d : dom) : dom :=
  match ref_stack d with
  | f :: fs => handle_value (close f) (mkDom fs (root d))
  | [] => d
  end.

(** ** [class parser] *)

(** The stack of [states], [true] for an array, its back first; the lexer is what is left of the
    text. *)
Record parser := mkParser {
  states : list bool;
  skip_to_state_evaluation : bool;
  last_token : token_type;
  input : string;
  sax : dom
}.

Definition get_token (p : parser) : parser :=
  let '(t, rest) := scan false (input p) in
  mkParser (states p) (skip_to_state_evaluation p) t rest (sax p).

Definition event (f : dom -> dom) (p : parser) : parser :=
  mkParser (states p) (skip_to_state_evaluation p) (last_token p) (input p) (f (sax p)).

Definition set_states (st : list bool) (skip : bool) (p : parser) : parser :=
  mkParser st skip (last_token p) (input p) (sax p).

(** What a part of the loop's body does: it falls through with a value handled, continues with
    the next round, returns, or throws. *)
Inductive outcome :=
| Value (p : parser)
| Continue (p : parser)
| Return (p : parser)
| Raise (e : exn).

(** A key and the separator after it, [None] when one of them is missing. *)
Definition object_key (p : parser) : option parser :=
  match last_token p with
  | value_string k =>
      let p := get_token (event (key k) p) in
      match last_token p with name_separator => Some p | _ => None end
  | _ => None
  end.

Section Parser.
Context (float_value : string -> result json).

(** The switch on [last_token]. *)
Definition parse_value (p : parser) : outcome :=
  match last_token p with
  | begin_object =>
      let p := get_token (event start_object p) in
      match last_token p with
      | end_object => Value (event end_container p)
      | _ =>
          match object_key p with
          | Some p => Continue (get_token (set_states (false :: states p) (skip_to_state_evaluation p) p))
          | None => Raise parse_error
          end
      end
  | begin_array =>
      let p := get_token (event start_array p) in
      match last_token p with
      | end_array => Value (event end_container p)
      | _ => Continue (set_states (true :: states p) (skip_to_state_evaluation p) p)
      end
  | value_float text =>
      match float_value text with Ok v => Value (event (handle_value v) p) | Throw e => Raise e end
  | literal_false => Value (event (handle_value (JBool false)) p)
  | literal_null => Value (event (handle_value JNull) p)
  | literal_true => Value (event (handle_value (JBool true)) p)
  | value_integer z | value_unsigned z => Value (event (handle_value (JNum z)) p)
  | value_string s => Value (event (handle_value (JStr s)) p)
  | scan_error | _ => Raise parse_error
  end.

(** The evaluation of the state once a value was parsed. *)
Definition evaluate_state (p : parser) : outcome :=
  match states p with
  | [] => Return p
  | true :: st =>
      let p := get_token p in
      match last_token p with
      | value_separator => Continue (get_token p)
      | end_array => Continue (set_states st true (event end_container p))
      | _ => Raise parse_error
      end
  | false :: st =>
      let p := get_token p in
      match last_token p with
      | value_separator =>
          match object_key (get_token p) with
          | Some p => Continue (get_token p)
          | None => Raise parse_error
          end
      | end_object => Continue (set_states st true (event end_container p))
      | _ => Raise parse_error
      end
  end.

(** A round of the loop. *)
Definition round (p : parser) : outcome :=
  if skip_to_state_evaluation p then evaluate_state (set_states (states p) false p)
  else match parse_value p with Value p => evaluate_state p | o => o end.

Fixpoint sax_parse_internal (fuel : nat) (p : parser) : option (result parser) :=
  match fuel with
  | O => None
  | S fuel =>
      match round p with
      | Continue p => sax_parse_internal fuel p
      | Value p | Return p => Some (Ok p)
      | Raise e => Some (Throw e)
      end
  end.

(** The constructor reads the first token. *)
Definition start_parser (s : string) : parser :=
  let '(t, rest) := scan true s in mkParser [] false t rest (mkDom [] JNull).

(** [parser::parse] with [strict]: nothing may follow the value. *)
Definition finish (r : result parser) : result json :=
  match r with
  | Ok p => match last_token (get_token p) with end_of_input => Ok (root (sax p)) | _ => Throw parse_error end
  | Throw e => Throw e
  end.

(** [json::parse]. The fuel is enough for every text ([parse_total]). *)
Definition parse_text (s : string) : result json :=
  match sax_parse_internal (String.length s + 2) (start_parser s) with
  | Some r => finish r
  | None => Throw undefined
  end.

(** ** The loop ends *)

(** The rounds left: every round but the last reads a token, and a token that is not the end of
    the input or an error takes a character. *)
Definition stuck (t : token_type) : bool := match t with end_of_input | scan_error => true | _ => false end.

Definition measure (p : parser) : nat :=
  String.length (input p) +
  (if skip_to_state_evaluation p then 1 else if stuck (last_token p) then 0 else 1).

Lemma get_token_measure (p : parser) :
  (if stuck (last_token (get_token p)) then String.length (input (get_token p)) <= String.length (input p)
   else String.length (input (get_token p)) < String.length (input p))%nat.
Proof.
  unfold get_token. pose proof (scan_length false (input p)) as H.
  destruct (scan false (input p)) as [t rest]; cbn in *. destruct (stuck t) eqn:E; [lia|].
  destruct H as [H|[[->| ->] _]]; easy.
Qed.

Lemma get_token_states (p : parser) :
  states (get_token p) = states p /\ skip_to_state_evaluation (get_token p) = skip_to_state_evaluation p /\
  sax (get_token p) = sax p.
Proof. unfold get_token. now destruct (scan _ _). Qed.

Lemma object_key_input (p p' : parser) : object_key p = Some p' ->
  (String.length (input p') < String.length (input p))%nat /\
  states p' = states p /\ skip_to_state_evaluation p' = skip_to_state_evaluation p.
Proof.
  unfold object_key. destruct (last_token p) as [| | |k| | | | | | | | | | |]; try easy.
  pose proof (get_token_measure (event (key k) p)) as H.
  destruct (get_token_states (event (key k) p)) as (S1 & S2 & _).
  destruct (last_token (get_token _)); try easy. intros [= <-]. now rewrite S1, S2.
Qed.

Lemma get_token_le (p : parser) : (String.length (input (get_token p)) <= String.length (input p))%nat.
Proof. pose proof (get_token_measure p). destruct (stuck _); lia. Qed.

Lemma measure_get_token (p : parser) : skip_to_state_evaluation p = false ->
  (measure (get_token p) <= String.length (input p))%nat.
Proof.
  intros S. unfold measure. destruct (get_token_states p) as (_ & -> & _). rewrite S.
  pose proof (get_token_measure p). destruct (stuck _); lia.
Qed.

Lemma evaluate_measure (p p' : parser) : skip_to_state_evaluation p = false ->
  evaluate_state p = Continue p' -> (measure p' <= String.length (input p))%nat.
Proof.
  intros S. unfold evaluate_state. pose proof (get_token_measure p) as G.
  destruct (get_token_states p) as (_ & S' & _). rewrite S in S'.
  destruct (states p) as [|[] st]; [easy|..]; destruct (last_token (get_token p)) eqn:L; try easy;
    cbn [stuck] in G.
  - intros [= <-]. unfold measure. cbn. lia.
  - intros [= <-]. pose proof (measure_get_token _ S'). lia.
  - intros [= <-]. unfold measure. cbn. lia.
  - destruct (object_key (get_token (get_token p))) as [q|] eqn:K; [|easy]. intros [= <-].
    apply object_key_input in K as (K & _ & Sk).
    destruct (get_token_states (get_token p)) as (_ & S2 & _).
    pose proof (get_token_le (get_token p)). pose proof (measure_get_token q ltac:(congruence)). lia.
Qed.

(** A value is handled within the text left, or the loop goes on behind the token. *)
Lemma parse_value_measure (p : parser) : skip_to_state_evaluation p = false ->
  match parse_value p with
  | Value p' => skip_to_state_evaluation p' = false /\ (String.length (input p') < measure p)%nat
  | Continue p' => (measure p' < measure p)%nat
  | _ => True
  end.
Proof.
  intros S. unfold parse_value, measure at 1 3. rewrite S.
  destruct (last_token p) eqn:L; cbn [stuck]; try exact I; try (cbn; split; [exact S | lia]).
  - destruct (float_value text); [cbn; split; [exact S | lia] | exact I].
  - set (q := event start_array p). destruct (get_token_states q) as (_ & S' & _).
    change (skip_to_state_evaluation q) with (skip_to_state_evaluation p) in S'. rewrite S in S'.
    pose proof (get_token_le q) as G. pose proof (measure_get_token q S) as M.
    change (input q) with (input p) in *. unfold measure in M |- *. rewrite S' in M.
    destruct (last_token (get_token q)) eqn:L'; cbn [set_states event states skip_to_state_evaluation last_token input] in *;
      rewrite ?S', ?L' in *; cbn [stuck] in *; try (split; [reflexivity|]); lia.
  - set (q := event start_object p). destruct (get_token_states q) as (_ & S' & _).
    change (skip_to_state_evaluation q) with (skip_to_state_evaluation p) in S'. rewrite S in S'.
    pose proof (get_token_le q) as G. change (input q) with (input p) in *.
    assert (D : forall r, object_key (get_token q) = Some r ->
      (measure (get_token (set_states (false :: states r) (skip_to_state_evaluation r) r)) < String.length (input p) + 1)%nat).
    { intros r K. apply object_key_input in K as (K & _ & Sk).
      set (u := set_states _ _ r). pose proof (measure_get_token u) as M.
      cbn in M. rewrite Sk, S' in M. specialize (M eq_refl). lia. }
    destruct (last_token (get_token q)) eqn:L'; try (cbn; split; [exact S' | lia]);
      (destruct (object_key (get_token q)) as [r|]; [exact (D r eq_refl) | exact I]).
Qed.

Lemma round_measure (p p' : parser) : round p = Continue p' -> (measure p' < measure p)%nat.
Proof.
  unfold round. destruct (skip_to_state_evaluation p) eqn:S.
  - intros H%evaluate_measure; [|reflexivity]. unfold measure at 2. rewrite S. cbn in H. lia.
  - pose proof (parse_value_measure p S) as V. destruct (parse_value p) as [q|q|q|e]; try easy.
    + intros H%evaluate_measure; [lia | easy].
    + now intros [= <-].
Qed.

Lemma sax_parse_total (fuel : nat) (p : parser) : (measure p < fuel)%nat ->
  exists r, sax_parse_internal fuel p = Some r.
Proof.
  revert p; induction fuel as [|fuel IH]; intros p H; [lia|]. cbn [sax_parse_internal].
  destruct (round p) as [q|q|q|e] eqn:E; eauto. apply IH. apply round_measure in E. lia.
Qed.

Lemma start_measure (s : string) : (measure (start_parser s) < String.length s + 2)%nat.
Proof.
  unfold start_parser. pose proof (scan_length true s) as H.
  destruct (scan true s) as [t rest]; unfold measure; cbn in *. destruct (stuck t); lia.
Qed.
End Parser.
