(* ===== verification/Grammar.v ===== *)
(** * The grammar of JSON

    What a recursive-descent parser accepts, as a relation between a text, the value at its front and
    the rest, and the proof that the loop of [sax_parse_internal] with its stack of states accepts
    exactly that and builds the same value. *)

From Stdlib Require Import ZArith Lia List Bool Ascii String.
From stdpp Require Import base gmap strings list.
From S2P Require Import Prelude.
From S2P Require Import Cpp.
From S2P Require Import Json.
From S2P Require Import Lexer.
From S2P Require Import Parser.

Open Scope string_scope.

Section Grammar.
Context (float_value : string -> result json).

(** A token that is a value by itself. *)
Definition token_value (t : token_type) : option json :=
  match t with
  | literal_null => Some JNull
  | literal_true => Some (JBool true)
  | literal_false => Some (JBool false)
  | value_integer z | value_unsigned z => Some (JNum z)
  | value_string s => Some (JStr s)
  | value_float text => match float_value text with Ok j => Some j | Throw _ => None end
  | _ => None
  end.

(** A value at the front of a text and the rest of the text. The members of an object are inserted
    from left to right, so the last of equal keys wins. *)
Inductive value : string -> json -> string -> Prop :=
| value_scalar (s r : string) (t : token_type) (j : json) :
    scan_token s = (t, r) -> token_value t = Some j -> value s j r
| value_empty_array (s r r' : string) :
    scan_token s = (begin_array, r) -> scan_token r = (end_array, r') -> value s (JArr []) r'
| value_array (s r r' : string) (l : list json) :
    scan_token s = (begin_array, r) -> elements r l r' -> value s (JArr l) r'
| value_empty_object (s r r' : string) :
    scan_token s = (begin_object, r) -> scan_token r = (end_object, r') -> value s (JObj []) r'
| value_object (s r r' : string) (m : list (string * json)) :
    scan_token s = (begin_object, r) -> members r [] m r' -> value s (JObj m) r'
with elements : string -> list json -> string -> Prop :=
| elements_last (s r r' : string) (j : json) :
    value s j r -> scan_token r = (end_array, r') -> elements s [j] r'
| elements_more (s r r' r'' : string) (j : json) (l : list json) :
    value s j r -> scan_token r = (value_separator, r') -> elements r' l r'' -> elements s (j :: l) r''
with members : string -> list (string * json) -> list (string * json) -> string -> Prop :=
| members_last (s r r1 r2 r3 k : string) (j : json) (m : list (string * json)) :
    scan_token s = (value_string k, r) -> scan_token r = (name_separator, r1) -> value r1 j r2 ->
    scan_token r2 = (end_object, r3) -> members s m (insert_member k j m) r3
| members_more (s r r1 r2 r3 r4 k : string) (j : json) (m m' : list (string * json)) :
    scan_token s = (value_string k, r) -> scan_token r = (name_separator, r1) -> value r1 j r2 ->
    scan_token r2 = (value_separator, r3) -> members r3 (insert_member k j m) m' r4 -> members s m m' r4.

Scheme value_mind := Induction for value Sort Prop
  with elements_mind := Induction for elements Sort Prop
  with members_mind := Induction for members Sort Prop.
Combined Scheme grammar_mind from value_mind, elements_mind, members_mind.

(** A text is a value and the end of the input, perhaps after a byte order mark. *)
Definition json_text (s : string) (j : json) : Prop := exists s' r,
  skip_bom s = Some s' /\ value s' j r /\ (scan_token r).1 = end_of_input.

(** ** The loop around a value *)

Abbreviation loop := (sax_parse_internal float_value).

(** A parser that has just read a token. *)
Definition place (st : list bool) (s : string) (d : dom) : parser :=
  let '(t, r) := scan_token s in mkParser st false t r d.

Lemma get_token_place (p : parser) : skip_to_state_evaluation p = false ->
  get_token p = place (states p) (input p) (sax p).
Proof. intros H. unfold get_token, place. rewrite H. reflexivity. Qed.

Lemma place_scan (st : list bool) (s r : string) (t : token_type) (d : dom) : scan_token s = (t, r) ->
  place st s d = mkParser st false t r d.
Proof. intros H. unfold place. now rewrite H. Qed.

(** What is left of the loop after a part of its body. *)
Definition after_round (n : nat) (o : outcome) : option (result parser) :=
  match o with
  | Continue p => loop n p
  | Value p | Return p => Some (Ok p)
  | Raise e => Some (Throw e)
  end.

Lemma loop_round (n : nat) (p : parser) : loop (1 + n) p = after_round n (round float_value p).
Proof. reflexivity. Qed.

(** A container under construction. *)
Definition inside (f : frame) (d : dom) : dom := mkDom (f :: ref_stack d) (root d).

(** The value [j] was read, and [r] is left. *)
Definition handled (n : nat) (st : list bool) (t : token_type) (r : string) (j : json) (d : dom) :=
  after_round n (evaluate_state (mkParser st false t r (handle_value j d))).

(** Closing a container handles it as a value of the one around. *)
Lemma close_round (n : nat) (st : list bool) (b : bool) (t : token_type) (r : string) (f : frame) (d : dom) :
  loop (1 + n) (set_states st true (event end_container (mkParser (b :: st) false t r (inside f d)))) =
  handled n st t r (close f) d.
Proof. rewrite loop_round. destruct d; reflexivity. Qed.

Lemma array_state (st : list bool) (t : token_type) (r : string) (d : dom) :
  evaluate_state (mkParser (true :: st) false t r d) =
  let p := place (true :: st) r d in
  match last_token p with
  | value_separator => Continue (place (true :: st) (input p) d)
  | end_array => Continue (set_states st true (event end_container p))
  | _ => Raise parse_error
  end.
Proof.
  unfold evaluate_state. cbn [states]. rewrite get_token_place by reflexivity. cbn [states input sax].
  unfold place. destruct (scan_token r) as [t' r']. cbn [last_token input]. now destruct t'.
Qed.

Lemma object_state (st : list bool) (t : token_type) (r : string) (d : dom) :
  evaluate_state (mkParser (false :: st) false t r d) =
  let p := place (false :: st) r d in
  match last_token p with
  | value_separator =>
      match object_key (place (false :: st) (input p) d) with
      | Some p => Continue (get_token p)
      | None => Raise parse_error
      end
  | end_object => Continue (set_states st true (event end_container p))
  | _ => Raise parse_error
  end.
Proof.
  unfold evaluate_state. cbn [states]. rewrite get_token_place by reflexivity. cbn [states input sax].
  unfold place. destruct (scan_token r) as [t' r']. cbn [last_token input]. now destruct t'.
Qed.

(** A key, its separator and the first token of the value. *)
Lemma object_key_spec (st : list bool) (s : string) (d : dom) :
  match object_key (place st s d) with
  | Some p => exists k r r1, scan_token s = (value_string k, r) /\ scan_token r = (name_separator, r1) /\
      p = mkParser st false name_separator r1 (key k d)
  | None => True
  end.
Proof.
  unfold object_key, place. destruct (scan_token s) as [t r] eqn:E. cbn [last_token].
  destruct t as [| | |k| | | | | | | | | | |]; try exact I.
  change (get_token (event (key k) (mkParser st false (value_string k) r d))) with (place st r (key k d)).
  unfold place. destruct (scan_token r) as [t' r'] eqn:E'. cbn [last_token].
  destruct t'; try exact I. now exists k, r, r'.
Qed.

Lemma object_key_scan (st : list bool) (s r r1 k : string) (d : dom) :
  scan_token s = (value_string k, r) -> scan_token r = (name_separator, r1) ->
  object_key (place st s d) = Some (mkParser st false name_separator r1 (key k d)).
Proof.
  intros E E'. rewrite (place_scan _ _ _ _ _ E). unfold object_key. cbn [last_token].
  change (get_token (event (key k) (mkParser st false (value_string k) r d))) with (place st r (key k d)).
  now rewrite (place_scan _ _ _ _ _ E').
Qed.

(** A round on each kind of token. *)
Lemma scalar_round (n : nat) (st : list bool) (s r : string) (t : token_type) (j : json) (d : dom) :
  scan_token s = (t, r) -> token_value t = Some j -> loop (1 + n) (place st s d) = handled n st t r j d.
Proof.
  intros E V. rewrite loop_round, (place_scan _ _ _ _ _ E).
  destruct t; try discriminate; try (injection V as <-; reflexivity).
  cbn in V. unfold round, parse_value. cbn [skip_to_state_evaluation last_token].
  destruct (float_value text); [injection V as <-; reflexivity | discriminate].
Qed.

Lemma array_round (n : nat) (st : list bool) (s r : string) (d : dom) : scan_token s = (begin_array, r) ->
  loop (1 + n) (place st s d) =
  let p := place (true :: st) r (inside (FArray []) d) in
  match last_token p with
  | end_array => handled n st end_array (input p) (JArr []) d
  | _ => loop n p
  end.
Proof.
  intros E. rewrite loop_round, (place_scan _ _ _ _ _ E). unfold round, parse_value.
  cbn [skip_to_state_evaluation last_token].
  change (get_token (event start_array (mkParser st false begin_array r d))) with (place st r (inside (FArray []) d)).
  unfold place. destruct (scan_token r) as [t' r']. cbn [last_token]. now destruct t'.
Qed.

Lemma object_round (n : nat) (st : list bool) (s r : string) (d : dom) : scan_token s = (begin_object, r) ->
  loop (1 + n) (place st s d) =
  let p := place (false :: st) r (inside (FObject [] "") d) in
  match last_token p with
  | end_object => handled n st end_object (input p) (JObj []) d
  | _ => match object_key p with
         | Some p => loop n (get_token p)
         | None => Some (Throw parse_error)
         end
  end.
Proof.
  intros E. rewrite loop_round, (place_scan _ _ _ _ _ E). unfold round, parse_value.
  cbn [skip_to_state_evaluation last_token].
  change (get_token (event start_object (mkParser st false begin_object r d))) with (place st r (inside (FObject [] "") d)).
  unfold place. destruct (scan_token r) as [t' r']. cbn [last_token].
  destruct t' as [| | |k| | | | | | | | | | |]; try reflexivity.
  unfold object_key. cbn [last_token].
  change (get_token (event (key k) (mkParser ?st false (value_string k) r' ?d))) with (place st r' (key k d)).
  unfold place. destruct (scan_token r') as [t2 r2]. cbn [last_token]. now destruct t2.
Qed.

(** ** Every value of the grammar is parsed *)

(** [operator[]] and the assignment to the member it made. *)
Lemma insert_twice (k : string) (u v : json) (m : list (string * json)) :
  insert_member k v (insert_member k u m) = insert_member k v m.
Proof.
  induction m as [|[k' v'] m IH]; cbn; [now rewrite string_compare_refl|].
  destruct (String.compare k k') eqn:E; cbn; rewrite ?string_compare_refl, ?E; [reflexivity..|]. now rewrite IH.
Qed.

Lemma handle_key (k k' : string) (v : json) (m : list (string * json)) (d : dom) :
  handle_value v (key k (inside (FObject m k') d)) = inside (FObject (insert_member k v m) k) d.
Proof.
  unfold key, handle_value, inside. cbn [ref_stack root]. destruct (member k m); [reflexivity|]. now rewrite insert_twice.
Qed.

Lemma handle_element (v : json) (l : list json) (d : dom) :
  handle_value v (inside (FArray l) d) = inside (FArray (l ++ [v])) d.
Proof. reflexivity. Qed.

(** A run of the loop that ends with a value handled. *)
Definition runs (j : json) (r : string) (st : list bool) (d : dom) (p : parser) : Prop :=
  exists i t, forall n, loop (i + n) p = handled n st t r j d.

Lemma runs_value (j : json) (r r' : string) (st st' : list bool) (b : bool) (f : frame) (d d' : dom) (p : parser) (t' : token_type) :
  runs j r (b :: st) d' p -> handle_value j d' = inside f d -> scan_token r = (t', r') ->
  t' = (if b then end_array else end_object) -> st = st' -> runs (close f) r' st' d p.
Proof.
  intros (i & t & E) H Sc T <-. exists (i + 1)%nat, t'. intros n. rewrite <- Nat.add_assoc, E. unfold handled at 1. rewrite H.
  rewrite <- (close_round n st b t' r' f d). destruct b; subst t'.
  - rewrite array_state. cbv zeta. now rewrite (place_scan _ _ _ _ _ Sc).
  - rewrite object_state. cbv zeta. now rewrite (place_scan _ _ _ _ _ Sc).
Qed.

Lemma runs_then (j j' : json) (r r' : string) (st st' : list bool) (d d' : dom) (p p' : parser) :
  runs j r st d p -> (forall t n, handled n st t r j d = loop n p') -> runs j' r' st' d' p' -> runs j' r' st' d' p.
Proof.
  intros (i & t & E) H (i' & t' & E'). exists (i + i')%nat, t'. intros n. now rewrite <- Nat.add_assoc, E, H, E'.
Qed.

(** No value starts with a closing bracket. *)
Lemma value_head (s r : string) (j : json) : value s j r -> (scan_token s).1 <> end_array.
Proof. intros H. inversion H; subst; match goal with E : scan_token s = _ |- _ => rewrite E end; cbn [fst]; try easy. now intros ->. Qed.

Lemma open_array (n : nat) (st : list bool) (s r : string) (d : dom) :
  scan_token s = (begin_array, r) -> (scan_token r).1 <> end_array ->
  loop (1 + n) (place st s d) = loop n (place (true :: st) r (inside (FArray []) d)).
Proof.
  intros E H. rewrite (array_round n st s r d E). cbv zeta. unfold place.
  destruct (scan_token r) as [t r']. cbn [last_token fst] in *. now destruct t.
Qed.

Lemma open_object (n : nat) (st : list bool) (s r : string) (d : dom) (p : parser) :
  scan_token s = (begin_object, r) -> object_key (place (false :: st) r (inside (FObject [] "") d)) = Some p ->
  loop (1 + n) (place st s d) = loop n (get_token p).
Proof.
  intros E K. rewrite (object_round n st s r d E). cbv zeta. rewrite K.
  unfold object_key in K. destruct (last_token (place _ r _)); easy.
Qed.

Lemma grammar_parsed :
  (forall s j r, value s j r -> forall st d, runs j r st d (place st s d)) /\
  (forall s l r, elements s l r -> forall acc st d,
    runs (JArr (acc ++ l)) r st d (place (true :: st) s (inside (FArray acc) d))) /\
  (forall s m m' r, members s m m' r -> forall k' st d,
    exists p, object_key (place (false :: st) s (inside (FObject m k') d)) = Some p /\ runs (JObj m') r st d (get_token p)).
Proof.
  apply grammar_mind.
  - intros s r t j E V st d. exists 1%nat, t. intros n. now apply scalar_round.
  - intros s r r' E E' st d. exists 1%nat, end_array. intros n. rewrite (array_round n st s r d E). cbv zeta.
    now rewrite (place_scan _ _ _ _ _ E').
  - intros s r r' l E El IH st d. destruct (IH [] st d) as (i & t & L). exists (1 + i)%nat, t. intros n.
    rewrite <- Nat.add_assoc, (open_array _ st s r d E); [exact (L n)|].
    inversion El; subst; eapply value_head; eassumption.
  - intros s r r' E E' st d. exists 1%nat, end_object. intros n. rewrite (object_round n st s r d E). cbv zeta.
    now rewrite (place_scan _ _ _ _ _ E').
  - intros s r r' m E _ IH st d. destruct (IH "" st d) as (p & K & i & t & L). exists (1 + i)%nat, t. intros n.
    rewrite <- Nat.add_assoc, (open_object _ st s r d p E K). exact (L n).
  - intros s r r' j _ IH E acc st d.
    apply (runs_value j r r' st st true (FArray (acc ++ [j])) d (inside (FArray acc) d) _ end_array); first [easy | apply IH].
  - intros s r r' r'' j l _ IH E _ IHl acc st d.
    apply (runs_then j _ r r'' (true :: st) st (inside (FArray acc) d) d _
      (place (true :: st) r' (inside (FArray (acc ++ [j])) d))).
    + apply IH.
    + intros t n. unfold handled. rewrite handle_element, array_state. cbv zeta. now rewrite (place_scan _ _ _ _ _ E).
    + specialize (IHl (acc ++ [j])%list st d). now rewrite <- app_assoc in IHl.
  - intros s r r1 r2 r3 k j m E E1 _ IH E2 k' st d. eexists. split; [exact (object_key_scan _ s r r1 k _ E E1)|].
    rewrite get_token_place by reflexivity.
    apply (runs_value j r2 r3 st st false (FObject (insert_member k j m) k) d (key k (inside (FObject m k') d)) _ end_object);
      first [easy | apply handle_key | apply IH].
  - intros s r r1 r2 r3 r4 k j m m' E E1 _ IH E2 _ IHm k' st d. eexists. split; [exact (object_key_scan _ s r r1 k _ E E1)|].
    rewrite get_token_place by reflexivity. destruct (IHm k st d) as (p & K & R).
    apply (runs_then j _ r2 r4 (false :: st) st (key k (inside (FObject m k') d)) d _ (get_token p)); [apply IH | | exact R].
    intros t n. unfold handled. rewrite handle_key, object_state. cbv zeta. rewrite (place_scan _ _ _ _ _ E2).
    cbn [last_token input]. now rewrite K.
Qed.

(** ** What is parsed is in the grammar *)

(** A run that returns has read a value, within fewer rounds than it had. *)
Definition reads_value (n : nat) : Prop := forall st s d q, loop n (place st s d) = Some (Ok q) ->
  exists j r t m, (m < n)%nat /\ value s j r /\ handled m st t r j d = Some (Ok q).

Definition reads_elements (n : nat) : Prop := forall acc st s d q,
  loop n (place (true :: st) s (inside (FArray acc) d)) = Some (Ok q) ->
  exists l r t m, (m < n)%nat /\ elements s l r /\ handled m st t r (JArr (acc ++ l)) d = Some (Ok q).

Definition reads_members (n : nat) : Prop := forall m k' st s d p q,
  object_key (place (false :: st) s (inside (FObject m k') d)) = Some p -> loop n (get_token p) = Some (Ok q) ->
  exists m' r t i, (i < n)%nat /\ members s m m' r /\ handled i st t r (JObj m') d = Some (Ok q).

Lemma handled_close (m : nat) (st : list bool) (t : token_type) (b : bool) (r : string) (j : json) (f : frame) (d d' : dom) (q : parser) :
  handle_value j d' = inside f d -> handled m (b :: st) t r j d' = Some (Ok q) ->
  forall r', scan_token r = ((if b then end_array else end_object), r') ->
  exists m', m = S m' /\ handled m' st (if b then end_array else end_object) r' (close f) d = Some (Ok q).
Proof.
  intros H. unfold handled at 1. rewrite H. intros E r' Sc.
  assert (E' : loop m (set_states st true (event end_container
    (mkParser (b :: st) false (if b then end_array else end_object) r' (inside f d)))) = Some (Ok q)).
  { destruct b; [rewrite array_state in E | rewrite object_state in E]; cbv zeta in E;
      rewrite (place_scan _ _ _ _ _ Sc) in E; exact E. }
  destruct m as [|m']; [easy|]. exists m'. split; [reflexivity|]. rewrite <- E'. symmetry. apply (close_round m').
Qed.

Lemma token_is (t0 t : token_type) : (forall x, t0 <> value_string x) -> (forall x, t0 <> value_float x) ->
  (forall x, t0 <> value_integer x) -> (forall x, t0 <> value_unsigned x) -> t = t0 \/ t <> t0.
Proof. destruct t, t0; intros H1 H2 H3 H4; try (now left); try (now right); exfalso; congruence. Qed.

Lemma reads_value_step (n : nat) : reads_elements n -> reads_members n -> reads_value (S n).
Proof.
  intros IHe IHm st s d q E.
  destruct (scan_token s) as [t r] eqn:Sc. destruct (token_value t) as [j|] eqn:Tv.
  { exists j, r, t, n. split; [lia|]. split; [now apply (value_scalar s r t)|]. now rewrite <- (scalar_round n st s r t j d Sc Tv). }
  assert (K : t = begin_array \/ t = begin_object).
  { change (loop (S n) (place st s d)) with (after_round n (round float_value (place st s d))) in E.
    rewrite (place_scan _ _ _ _ _ Sc) in E.
    destruct t; try discriminate; try (now left); try (now right).
    cbn in Tv. unfold round, parse_value in E. cbn [skip_to_state_evaluation last_token] in E.
    now destruct (float_value text). }
  change (S n) with (1 + n)%nat in E. destruct (scan_token r) as [t' r'] eqn:Sc'.
  destruct K as [-> | ->].
  - rewrite (array_round n st s r d Sc) in E. cbv zeta in E.
    destruct (token_is end_array t') as [->|N]; try easy.
    + rewrite (place_scan _ _ _ _ _ Sc') in E. exists (JArr []), r', end_array, n.
      split; [lia | split; [now apply (value_empty_array s r) | exact E]].
    + destruct (IHe [] st r d q) as (l & r2 & t & m & Hm & El & H).
      { rewrite (place_scan _ _ _ _ _ Sc') in E |- *. cbn [last_token] in E. now destruct t'. }
      exists (JArr l), r2, t, m. split; [lia | split; [now apply (value_array s r) | exact H]].
  - rewrite (object_round n st s r d Sc) in E. cbv zeta in E.
    destruct (token_is end_object t') as [->|N]; try easy.
    + rewrite (place_scan _ _ _ _ _ Sc') in E. exists (JObj []), r', end_object, n.
      split; [lia | split; [now apply (value_empty_object s r) | exact E]].
    + destruct (object_key (place (false :: st) r (inside (FObject [] "") d))) as [p|] eqn:K.
      * destruct (IHm [] "" st r d p q K) as (m' & r2 & t & i & Hi & Em & H).
        { rewrite (place_scan _ _ _ _ _ Sc') in E. cbn [last_token] in E. now destruct t'. }
        exists (JObj m'), r2, t, i. split; [lia | split; [now apply (value_object s r) | exact H]].
      * rewrite (place_scan _ _ _ _ _ Sc') in E. cbn [last_token] in E. now destruct t'.
Qed.

Lemma reads_elements_step (n : nat) : (forall m, (m < n)%nat -> reads_elements m) -> reads_value n -> reads_elements n.
Proof.
  intros IH V acc st s d q E. destruct (V _ _ _ _ E) as (j & r & t & m & Hm & Ej & H).
  destruct (scan_token r) as [t' r'] eqn:Sc.
  destruct (token_is end_array t') as [->|N]; try easy.
  - destruct (handled_close m st t true r j (FArray (acc ++ [j])) d (inside (FArray acc) d) q eq_refl H r' Sc) as (m' & -> & H').
    exists [j], r', end_array, m'. split; [lia | split; [now apply (elements_last s r) | exact H']].
  - unfold handled in H. rewrite handle_element, array_state in H. cbv zeta in H.
    rewrite (place_scan _ _ _ _ _ Sc) in H. cbn [last_token input] in H.
    destruct t'; try discriminate; [now destruct N|].
    destruct (IH m Hm _ _ _ _ _ H) as (l & r2 & t2 & m2 & Hm2 & El & H2).
    exists (j :: l), r2, t2, m2. split; [lia | split; [now apply (elements_more s r r')|]].
    now rewrite <- app_assoc in H2.
Qed.

Lemma reads_members_step (n : nat) : (forall m, (m < n)%nat -> reads_members m) -> reads_value n -> reads_members n.
Proof.
  intros IH V m k' st s d p q K E. pose proof (object_key_spec (false :: st) s (inside (FObject m k') d)) as Sp.
  rewrite K in Sp. destruct Sp as (k & r & r1 & Sk & Sn & ->). rewrite get_token_place in E by reflexivity.
  destruct (V _ _ _ _ E) as (j & r2 & t & i & Hi & Ej & H).
  destruct (scan_token r2) as [t' r3] eqn:Sc.
  destruct (token_is end_object t') as [->|N]; try easy.
  - destruct (handled_close i st t false r2 j (FObject (insert_member k j m) k) d (key k (inside (FObject m k') d)) q
      (handle_key _ _ _ _ _) H r3 Sc)
      as (i' & -> & H').
    exists (insert_member k j m), r3, end_object, i'. split; [lia | split; [now apply (members_last s r r1 r2) | exact H']].
  - unfold handled in H. cbn [input states sax] in H. rewrite handle_key, object_state in H. cbv zeta in H.
    rewrite (place_scan _ _ _ _ _ Sc) in H. cbn [last_token input] in H.
    destruct t'; try discriminate; [now destruct N|].
    destruct (object_key (place (false :: st) r3 (inside (FObject (insert_member k j m) k) d))) as [p2|] eqn:K2; [|discriminate].
    cbn [after_round] in H.
    destruct (IH i Hi _ _ _ _ _ _ _ K2 H) as (m' & r4 & t4 & i4 & Hi4 & Em & H4).
    exists m', r4, t4, i4. split; [lia | split; [now apply (members_more s r r1 r2 r3 r4 k j) | exact H4]].
Qed.

Lemma parsed_grammar (n : nat) : reads_value n /\ reads_elements n /\ reads_members n.
Proof.
  induction n as [n IH] using (well_founded_induction lt_wf).
  assert (V : reads_value n).
  { destruct n as [|n]; [now intros st s d q|]. apply reads_value_step; apply IH; lia. }
  split; [exact V|]. split.
  - apply reads_elements_step; [|exact V]. intros m Hm. now apply IH.
  - apply reads_members_step; [|exact V]. intros m Hm. now apply IH.
Qed.

(** ** Texts *)

Lemma loop_more (n m : nat) (p : parser) (r : result parser) : loop n p = Some r -> loop (n + m) p = Some r.
Proof.
  revert p; induction n as [|n IH]; intros p; [easy|]. cbn [sax_parse_internal Nat.add].
  destruct (round float_value p); auto.
Qed.

Lemma start_place (s s' : string) : skip_bom s = Some s' -> start_parser s = place [] s' (mkDom [] JNull).
Proof. unfold start_parser, scan. now intros ->. Qed.

Lemma parse_sound (s : string) (j : json) : parse_text float_value s = Ok j -> json_text s j.
Proof.
  unfold parse_text. destruct (loop (String.length s + 2) (start_parser s)) as [[q|e]|] eqn:E; [|easy..].
  cbn [finish]. destruct (skip_bom s) as [s'|] eqn:B.
  - rewrite (start_place s s' B) in E. destruct (parsed_grammar (String.length s + 2)) as (V & _ & _).
    destruct (V _ _ _ _ E) as (j' & r & t & m & _ & H & Hd). unfold handled in Hd. cbn in Hd.
    injection Hd as <-. rewrite get_token_place by reflexivity. cbn [states input sax]. unfold place.
    destruct (scan_token r) as [t' r'] eqn:Sc. cbn [last_token root]. destruct t'; try easy. intros [= <-].
    exists s', r. split; [exact B | split; [exact H | now rewrite Sc]].
  - unfold start_parser, scan in E. rewrite B in E. replace (String.length s + 2)%nat with (S (String.length s + 1)) in E by lia.
    discriminate.
Qed.

Lemma parse_complete (s : string) (j : json) : json_text s j -> parse_text float_value s = Ok j.
Proof.
  intros (s' & r & B & H & Hr). unfold parse_text.
  destruct (sax_parse_total float_value _ _ (start_measure s)) as [q E]. rewrite E.
  destruct grammar_parsed as (P & _ & _). destruct (P _ _ _ H [] (mkDom [] JNull)) as (k & t & L).
  specialize (L (String.length s + 2)%nat). rewrite <- (start_place s s' B), Nat.add_comm in L.
  rewrite (loop_more _ k _ _ E) in L. unfold handled in L. cbn in L. injection L as ->. cbn [finish].
  rewrite get_token_place by reflexivity. cbn [states input sax]. unfold place.
  destruct (scan_token r) as [t2 r2]. cbn in Hr. now subst.
Qed.
End Grammar.

(** C4: [json::parse], a loop with a stack of states, is a parser of the recursive grammar of JSON:
    it returns a value exactly when the text, after a byte order mark if there is one, is a value of
    the grammar up to the end of the input, and returns that value, with the members of its objects
    inserted from left to right. *)
Theorem parse_grammar (float_value : string -> result json) (s : string) (j : json) :
  parse_text float_value s = Ok j <-> json_text float_value s j.
Proof. split; [apply parse_sound | apply parse_complete]. Qed.
