(* ===== verification/Serializer.v ===== *)
(** * The serializer of nlohmann's json

    [class serializer] of src/shared/nlohmann/json.hpp, as [dump()] runs it: compact output, the
    error handler [strict]. Strings go through a buffer of 512 bytes, and [decode], a table-driven
    automaton, checks that they are UTF-8. A write outside a buffer is [undefined]. *)

From Stdlib Require Import ZArith Lia List Bool Ascii String.
From stdpp Require Import base gmap strings list.
From S2P Require Import Prelude.
From S2P Require Import Cpp.
From S2P Require Import Json.
From S2P Require Import Lexer.

Open Scope string_scope.
Open Scope Z_scope.

(** ** The automaton *)

(** The type of each byte, then a row of 16 for each state. *)
Definition utf8d : list Z :=
  [0; 0; 0; 0; 0; 0; 0; 0; 0; 0; 0; 0; 0; 0; 0; 0; 0; 0; 0; 0; 0; 0; 0; 0; 0; 0; 0; 0; 0; 0; 0; 0;
   0; 0; 0; 0; 0; 0; 0; 0; 0; 0; 0; 0; 0; 0; 0; 0; 0; 0; 0; 0; 0; 0; 0; 0; 0; 0; 0; 0; 0; 0; 0; 0;
   0; 0; 0; 0; 0; 0; 0; 0; 0; 0; 0; 0; 0; 0; 0; 0; 0; 0; 0; 0; 0; 0; 0; 0; 0; 0; 0; 0; 0; 0; 0; 0;
   0; 0; 0; 0; 0; 0; 0; 0; 0; 0; 0; 0; 0; 0; 0; 0; 0; 0; 0; 0; 0; 0; 0; 0; 0; 0; 0; 0; 0; 0; 0; 0;
   1; 1; 1; 1; 1; 1; 1; 1; 1; 1; 1; 1; 1; 1; 1; 1; 9; 9; 9; 9; 9; 9; 9; 9; 9; 9; 9; 9; 9; 9; 9; 9;
   7; 7; 7; 7; 7; 7; 7; 7; 7; 7; 7; 7; 7; 7; 7; 7; 7; 7; 7; 7; 7; 7; 7; 7; 7; 7; 7; 7; 7; 7; 7; 7;
   8; 8; 2; 2; 2; 2; 2; 2; 2; 2; 2; 2; 2; 2; 2; 2; 2; 2; 2; 2; 2; 2; 2; 2; 2; 2; 2; 2; 2; 2; 2; 2;
   10; 3; 3; 3; 3; 3; 3; 3; 3; 3; 3; 3; 3; 4; 3; 3; 11; 6; 6; 6; 5; 8; 8; 8; 8; 8; 8; 8; 8; 8; 8; 8;
   0; 1; 2; 3; 5; 8; 7; 1; 1; 1; 4; 6; 1; 1; 1; 1; 1; 1; 1; 1; 1; 1; 1; 1; 1; 1; 1; 1; 1; 1; 1; 1;
   1; 0; 1; 1; 1; 1; 1; 0; 1; 0; 1; 1; 1; 1; 1; 1; 1; 2; 1; 1; 1; 1; 1; 2; 1; 2; 1; 1; 1; 1; 1; 1;
   1; 1; 1; 1; 1; 1; 1; 2; 1; 1; 1; 1; 1; 1; 1; 1; 1; 2; 1; 1; 1; 1; 1; 1; 1; 2; 1; 1; 1; 1; 1; 1;
   1; 1; 1; 1; 1; 1; 1; 3; 1; 3; 1; 1; 1; 1; 1; 1; 1; 3; 1; 1; 1; 1; 1; 3; 1; 3; 1; 1; 1; 1; 1; 1;
   1; 3; 1; 1; 1; 1; 1; 1; 1; 1; 1; 1; 1; 1; 1; 1].

Definition UTF8_ACCEPT : Z := 0.
Definition UTF8_REJECT : Z := 1.

Definition utf8d_at (i : Z) : Z := nth (Z.to_nat i) utf8d UTF8_REJECT.

(** The next state and the code point so far, a [uint32_t]. *)
Definition decode (state codep byte : Z) : Z * Z :=
  let type := utf8d_at byte in
  let codep :=
    if negb (state =? UTF8_ACCEPT) then Z.lor (Z.land byte 0x3f) (Z.shiftl codep 6 mod 2 ^ 32)
    else Z.land (Z.shiftr 0xff type) byte in
  (utf8d_at (256 + state * 16 + type), codep).

(** ** Strings *)

(** [%04x]. *)
Definition hex_digit (d : Z) : ascii := if d <? 10 then chr (48 + d) else chr (87 + d).

Definition hex4 (z : Z) : string :=
  String (hex_digit (Z.land (Z.shiftr z 12) 15)) (String (hex_digit (Z.land (Z.shiftr z 8) 15))
    (String (hex_digit (Z.land (Z.shiftr z 4) 15)) (String (hex_digit (Z.land z 15)) ""))).

(** What [dump_escaped] keeps: the automaton, the bytes in [string_buffer] and what was written. *)
Record escaper := mkEscaper { state : Z; codepoint : Z; buffer : string; out : string }.

Definition buffer_size : nat := 512.

(** [s] at the end of the buffer, with [slack] bytes more that are written too (the terminating
    null byte of [snprintf]). *)
Definition put (s : string) (slack : nat) (e : escaper) : result escaper :=
  if (String.length (buffer e) + String.length s + slack <=? buffer_size)%nat
  then Ok (mkEscaper (state e) (codepoint e) (buffer e ++ s) (out e))
  else Throw undefined.

(** The switch on the code point: what is written for it, and the slack. [c] is its last byte. *)
Definition escape (ensure_ascii : bool) (codepoint : Z) (c : ascii) : string * nat :=
  let short (d : ascii) := (String "\" (String d ""), O) in
  if codepoint =? 0x08 then short "b"%char
  else if codepoint =? 0x09 then short "t"%char
  else if codepoint =? 0x0A then short "n"%char
  else if codepoint =? 0x0C then short "f"%char
  else if codepoint =? 0x0D then short "r"%char
  else if codepoint =? 0x22 then short quote
  else if codepoint =? 0x5C then short "\"%char
  else if (codepoint <=? 0x1F) || ensure_ascii && (0x7F <=? codepoint) then
    if codepoint <=? 0xFFFF then (String "\" (String "u" (hex4 (codepoint mod 2 ^ 16))), 1%nat)
    else
      (String "\" (String "u" (hex4 ((0xD7C0 + Z.shiftr codepoint 10) mod 2 ^ 16))) ++
       String "\" (String "u" (hex4 ((0xDC00 + Z.land codepoint 0x3FF) mod 2 ^ 16))), 1%nat)
  else (String c "", O).

(** The buffer is written out when fewer than 13 bytes are left. *)
Definition flush (e : escaper) : escaper :=
  if (buffer_size - String.length (buffer e) <? 13)%nat
  then mkEscaper (state e) (codepoint e) "" (out e ++ buffer e)
  else e.

(** The body of the loop, on one byte. *)
Definition escape_byte (ensure_ascii : bool) (c : ascii) (e : escaper) : result escaper :=
  let '(st, cp) := decode (state e) (codepoint e) (code c) in
  let e := mkEscaper st cp (buffer e) (out e) in
  if st =? UTF8_ACCEPT then
    let '(s, slack) := escape ensure_ascii cp c in e ← put s slack e; Ok (flush e)
  else if st =? UTF8_REJECT then Throw type_error
  else if negb ensure_ascii then put (String c "") 0 e
  else Ok e.

Fixpoint escape_bytes (ensure_ascii : bool) (s : string) (e : escaper) : result escaper :=
  match s with
  | EmptyString => Ok e
  | String c s' => e ← escape_byte ensure_ascii c e; escape_bytes ensure_ascii s' e
  end.

(** [dump_escaped]: what it writes. *)
Definition dump_escaped (ensure_ascii : bool) (s : string) : result string :=
  e ← escape_bytes ensure_ascii s (mkEscaper UTF8_ACCEPT 0 "" "");
  if state e =? UTF8_ACCEPT then Ok (out e ++ buffer e) else Throw type_error.

(** ** Numbers *)

Definition number_buffer_size : nat := 64.

(** The loop of [dump_integer] on [number_buffer], least significant digit first. The assertion
    bounds the rounds. *)
Fixpoint dump_digits (fuel : nat) (x : Z) (number_buffer : list ascii) : result (list ascii) :=
  if x =? 0 then Ok number_buffer
  else match fuel with
  | O => Throw undefined
  | S fuel =>
      if (length number_buffer <? number_buffer_size - 1)%nat
      then dump_digits fuel (Z.quot x 10) (number_buffer ++ [digit (Z.abs (Z.rem x 10))])
      else Throw undefined
  end.

Definition dump_integer (x : Z) : result string :=
  if x =? 0 then Ok "0"
  else
    number_buffer ← dump_digits number_buffer_size x [];
    if x <? 0 then
      if (length number_buffer <? number_buffer_size - 2)%nat
      then Ok (string_of_list_ascii (rev (number_buffer ++ ["-"%char])))
      else Throw undefined
    else Ok (string_of_list_ascii (rev number_buffer)).

(** The numbers there are: [number_integer] and [number_unsigned]. *)
Definition is_number (z : Z) : bool := (- 2 ^ 63 <=? z) && (z <? 2 ^ 64).

(** ** Values *)

Definition quoted (s : string) : string := String quote (s ++ String quote "").

(** [dump]: the elements with commas between them. *)
Fixpoint dump_value (ensure_ascii : bool) (j : json) : result string :=
  match j with
  | JNull => Ok "null"
  | JBool b => Ok (if b then "true" else "false")
  | JNum z => if is_number z then dump_integer z else Throw undefined
  | JStr s => e ← dump_escaped ensure_ascii s; Ok (quoted e)
  | JArr l => pieces ← mapM (dump_value ensure_ascii) l; Ok (String "[" (join "," pieces ++ "]"))
  | JObj m =>
      pieces ← mapM (fun kv => k ← dump_escaped ensure_ascii kv.1; v ← dump_value ensure_ascii kv.2;
                               Ok (quoted k ++ String ":" v)) m;
      Ok (String "{" (join "," pieces ++ "}"))
  end.
