(* ===== verification/JsonStrings.v ===== *)
(** * Strings as JSON text

    [dump_escaped] against a reference definition of UTF-8 text ([utf8_text], the well-formed byte
    sequences of the Unicode standard): it writes exactly the strings that are UTF-8, never past the
    end of its buffer, and [scan_string] reads back what it wrote, with and without [ensure_ascii]. *)

From Stdlib Require Import ZArith Lia List Bool Ascii String.
From stdpp Require Import base gmap strings list.
From S2P Require Import Prelude.
From S2P Require Import Bytes.
From S2P Require Import Cpp.
From S2P Require Import Json.
From S2P Require Import Lexer.
From S2P Require Import Serializer.

Open Scope string_scope.
Open Scope Z_scope.

(** ** UTF-8 *)

(** Bytes in the given ranges, one each. *)
Fixpoint in_ranges (ranges : list (Z * Z)) (s : string) : bool :=
  match ranges, s with
  | [], EmptyString => true
  | r :: ranges', String c s' => in_range (code c) r && in_ranges ranges' s'
  | _, _ => false
  end.

(** The texts: ASCII characters, and the sequences of a byte above 0x7F with those that may follow
    it ([following], table 3-7 of the Unicode standard). *)
Inductive utf8_text : string -> Prop :=
| utf8_nil : utf8_text ""
| utf8_ascii (c : ascii) (s : string) : code c < 0x80 -> utf8_text s -> utf8_text (String c s)
| utf8_sequence (c : ascii) (ranges : list (Z * Z)) (bytes s : string) :
    0x80 <= code c -> following (code c) = Some ranges -> in_ranges ranges bytes = true ->
    utf8_text s -> utf8_text (String c (bytes ++ s)).

(** ** Bytes *)

Lemma code_range (c : ascii) : 0 <= code c < 256.
Proof. unfold code. pose proof (N_ascii_bounded c). lia. Qed.

Lemma chr_code (c : ascii) : chr (code c) = c.
Proof. unfold chr, code. now rewrite N2Z.id, ascii_N_embedding. Qed.

Lemma code_chr (b : Z) : 0 <= b < 256 -> code (chr b) = b.
Proof. intros H. unfold chr, code. rewrite N_ascii_embedding; lia. Qed.

(** Checking a property of every byte. *)
Lemma every_byte (P : Z -> bool) : forallb P (map Z.of_nat (seq 0 256)) = true -> forall c, P (code c) = true.
Proof.
  intros H c. rewrite forallb_forall in H. apply H, in_map_iff.
  exists (Z.to_nat (code c)). pose proof (code_range c). split; [lia | apply in_seq; lia].
Qed.

Lemma in_range_spec (b : Z) (r : Z * Z) : in_range b r = true <-> r.1 <= b <= r.2.
Proof. unfold in_range. rewrite andb_true_iff, !Z.leb_le. tauto. Qed.

(** ** The automaton *)

(** The ranges for the bytes a state waits for. *)
Definition remaining (st : Z) : list (Z * Z) :=
  nth (Z.to_nat st)
    [[]; []; [(0x80, 0xBF)]; [(0x80, 0xBF); (0x80, 0xBF)]; [(0xA0, 0xBF); (0x80, 0xBF)];
     [(0x80, 0x9F); (0x80, 0xBF)]; [(0x90, 0xBF); (0x80, 0xBF); (0x80, 0xBF)];
     [(0x80, 0xBF); (0x80, 0xBF); (0x80, 0xBF)]; [(0x80, 0x8F); (0x80, 0xBF); (0x80, 0xBF)]] [].

Definition waiting (st : Z) : bool := (2 <=? st) && (st <=? 8).

(** What the first byte of a sequence contributes to the code point. *)
Definition lead (b : Z) (n : nat) : Z := b - match n with 1%nat => 0xC0 | 2%nat => 0xE0 | _ => 0xF0 end.

Definition check_first (b : Z) : bool :=
  let '(st, cp) := decode 0 0 b in
  if b <? 0x80 then (st =? 0) && (cp =? b)
  else match following b with
       | Some ranges => bool_decide (remaining st = ranges) && waiting st && (cp =? lead b (length ranges))
       | None => st =? 1
       end.

Definition check_next (st b : Z) : bool :=
  let '(st', _) := decode st 0 b in
  match remaining st with
  | r :: ranges =>
      if in_range b r
      then bool_decide (remaining st' = ranges) && match ranges with [] => st' =? 0 | _ => waiting st' end
      else st' =? 1
  | [] => false
  end.

Lemma decode_first (cp : Z) (c : ascii) : decode 0 cp (code c) = decode 0 0 (code c) /\ check_first (code c) = true.
Proof. split; [reflexivity|]. revert c. apply every_byte. vm_compute. reflexivity. Qed.

Lemma decode_next (st : Z) (c : ascii) : waiting st = true -> check_next st (code c) = true.
Proof.
  intros H. assert (E : st = 2 \/ st = 3 \/ st = 4 \/ st = 5 \/ st = 6 \/ st = 7 \/ st = 8).
  { unfold waiting in H. apply andb_prop in H as [H1%Z.leb_le H2%Z.leb_le]. lia. }
  revert c. apply every_byte. repeat destruct E as [->|E]; [vm_compute; reflexivity.. |].
  subst st. vm_compute. reflexivity.
Qed.

(** Six more bits for the code point. *)
Lemma decode_codepoint (st cp b : Z) : waiting st = true -> 0 <= cp < 2 ^ 26 -> 0x80 <= b <= 0xBF ->
  (decode st cp b).2 = 64 * cp + (b - 0x80).
Proof.
  intros H Hc Hb. unfold decode. cbn [snd].
  assert ((st =? UTF8_ACCEPT) = false) as ->.
  { unfold waiting in H. apply andb_prop in H as [H1%Z.leb_le _]. apply Z.eqb_neq. unfold UTF8_ACCEPT. lia. }
  cbn [negb]. rewrite shiftl_mul, Z.mod_small by lia.
  replace (Z.land b 63) with (b - 0x80).
  - rewrite lor_add by lia. lia.
  - change 63 with (Z.ones 6). rewrite Z.land_ones by lia. apply (Z.mod_unique _ _ 2); lia.
Qed.

Lemma waiting_remaining (st : Z) : waiting st = true -> remaining st <> [].
Proof. intros H E. pose proof (decode_next st (chr 0) H) as K. unfold check_next in K. rewrite E in K. now destruct (decode _ _ _). Qed.

Lemma remaining_continuation (st : Z) (r : Z * Z) : In r (remaining st) -> 0x80 <= r.1 /\ r.2 <= 0xBF.
Proof.
  unfold remaining. intros H.
  assert (K : Forall (Forall (fun r => 0x80 <= r.1 /\ r.2 <= 0xBF))
    [[]; []; [(0x80, 0xBF)]; [(0x80, 0xBF); (0x80, 0xBF)]; [(0xA0, 0xBF); (0x80, 0xBF)];
     [(0x80, 0x9F); (0x80, 0xBF)]; [(0x90, 0xBF); (0x80, 0xBF); (0x80, 0xBF)];
     [(0x80, 0xBF); (0x80, 0xBF); (0x80, 0xBF)]; [(0x80, 0x8F); (0x80, 0xBF); (0x80, 0xBF)]])
    by (repeat constructor; cbn; lia).
  eapply forall_nth_default in K; [|constructor]. rewrite Forall_forall in K.
  apply (K r). first [exact H | apply list_elem_of_In; exact H].
Qed.

(** ** Writing a character *)

(** What was written so far. *)
Definition written (e : escaper) : string := out e ++ buffer e.

(** Between two characters the buffer has room for the next. *)
Definition ready (e : escaper) : Prop :=
  state e = UTF8_ACCEPT /\ (String.length (buffer e) <= buffer_size - 13)%nat.

(** The state after a character is written. *)
Definition wrote (e : escaper) (s : string) (r : result escaper) : Prop :=
  exists e', r = Ok e' /\ ready e' /\ written e' = written e ++ s.

Lemma put_flush (st cp : Z) (e : escaper) (s : string) (slack : nat) : st = UTF8_ACCEPT ->
  (String.length (buffer e) + String.length s + slack <= buffer_size)%nat ->
  wrote e s (e' ← put s slack (mkEscaper st cp (buffer e) (out e)); Ok (flush e')).
Proof.
  intros -> H. unfold put. cbn [buffer out state codepoint].
  rewrite (proj2 (Nat.leb_le _ _)) by exact H. cbn [mbind result_bind].
  unfold flush, wrote, written. cbn [buffer out state codepoint].
  destruct (Nat.ltb_spec (buffer_size - String.length (buffer e ++ s)) 13); eexists; (split; [reflexivity|]);
    unfold ready; cbn [state buffer out]; rewrite ?string_app_nil_r, ?string_app_assoc; (split; [split|reflexivity]);
    try reflexivity; unfold buffer_size in *; cbn [String.length]; lia.
Qed.

Lemma escape_length (ensure_ascii : bool) (cp : Z) (c : ascii) :
  (String.length (escape ensure_ascii cp c).1 + (escape ensure_ascii cp c).2 <= 13)%nat.
Proof.
  unfold escape. cbv zeta.
  repeat match goal with |- context [if ?b then _ else _] => destruct b end; cbn [fst snd];
    rewrite ?string_length_app; cbn; lia.
Qed.

(** The bytes of a sequence, added to a code point. *)
Fixpoint codepoint_of (cp : Z) (s : string) : Z :=
  match s with EmptyString => cp | String c s' => codepoint_of (64 * cp + (code c - 0x80)) s' end.

(** A code point above the ASCII range as it is written: its bytes, or an escape. *)
Definition sequence_text (ensure_ascii : bool) (cp : Z) (bytes : string) : string :=
  if ensure_ascii then (escape true cp (chr 0)).1 else bytes.

Lemma escape_high (ensure_ascii : bool) (cp : Z) (c : ascii) : 0x80 <= cp ->
  escape ensure_ascii cp c = if ensure_ascii then escape true cp (chr 0) else (String c "", O).
Proof.
  intros H. unfold escape. cbv zeta.
  repeat match goal with |- context [cp =? ?n] => rewrite (proj2 (Z.eqb_neq cp n)) by lia end.
  rewrite (proj2 (Z.leb_gt cp 31)), (proj2 (Z.leb_le 127 cp)) by lia. now destruct ensure_ascii.
Qed.

(** The bytes [escape_bytes] has still to see, from a waiting state. *)
Lemma escape_sequence (ensure_ascii : bool) (ranges : list (Z * Z)) (bytes : string) (e : escaper) :
  waiting (state e) = true -> remaining (state e) = ranges -> in_ranges ranges bytes = true ->
  0 <= codepoint e -> (codepoint e + 1) * 64 ^ Z.of_nat (length ranges) <= 2 ^ 32 ->
  0x80 <= codepoint_of (codepoint e) bytes ->
  (String.length (buffer e) + (if ensure_ascii then 0 else length ranges) <= (buffer_size - 13) + 4)%nat ->
  (if ensure_ascii then String.length (buffer e) <= buffer_size - 13 else True)%nat ->
  wrote e (sequence_text ensure_ascii (codepoint_of (codepoint e) bytes) bytes) (escape_bytes ensure_ascii bytes e).
Proof.
  revert bytes e; induction ranges as [|r ranges IH]; intros bytes e W R B C0 C1 V L1 L2; [now apply waiting_remaining in R|].
  destruct bytes as [|c bytes]; [easy|]. cbn [in_ranges] in B. apply andb_prop in B as [Br B].
  pose proof (decode_next (state e) c W) as D. unfold check_next in D. rewrite R, Br in D.
  assert (Hr : 0x80 <= code c <= 0xBF).
  { apply in_range_spec in Br. destruct (remaining_continuation (state e) r) as [? ?]; [rewrite R; now left | lia]. }
  assert (E : (decode (state e) (codepoint e) (code c)).2 = 64 * codepoint e + (code c - 0x80)).
  { apply decode_codepoint; [exact W| |exact Hr]. cbn [length] in C1.
    rewrite Nat2Z.inj_succ, Z.pow_succ_r in C1 by lia.
    pose proof (Z.pow_pos_nonneg 64 (Z.of_nat (length ranges))). nia. }
  cbn [escape_bytes codepoint_of length] in *. unfold escape_byte. cbv [mbind result_bind].
  change (decode (state e) 0 (code c)) with ((decode (state e) (codepoint e) (code c)).1, (decode (state e) 0 (code c)).2) in D.
  destruct (decode (state e) (codepoint e) (code c)) as [st cp]; cbn [fst snd] in D, E. subst cp.
  apply andb_prop in D as [D1%bool_decide_eq_true D2].
  destruct ranges as [|r' ranges].
  - change (st =? UTF8_ACCEPT) with (st =? 0). rewrite D2. destruct bytes as [|]; [|easy]. cbn [codepoint_of escape_bytes] in *. apply Z.eqb_eq in D2.
    rewrite (escape_high _ _ c V).
    set (cp := 64 * codepoint e + (code c - 0x80)) in *.
    replace (if ensure_ascii then escape true cp (chr 0) else (String c "", O))
      with (sequence_text ensure_ascii cp (String c ""), (if ensure_ascii then (escape true cp (chr 0)).2 else O))
      by (unfold sequence_text; destruct ensure_ascii; [now destruct (escape true cp (chr 0)) | reflexivity]).
    pose proof (put_flush st cp e (sequence_text ensure_ascii cp (String c ""))
      (if ensure_ascii then (escape true cp (chr 0)).2 else O) D2) as P. cbv [mbind result_bind] in P.
    destruct P as (e' & P & Q).
    { pose proof (escape_length true cp (chr 0)). unfold sequence_text, buffer_size in *.
      destruct ensure_ascii; cbn [length String.length] in *; lia. }
    exists e'. split; [|exact Q]. destruct (put _ _ _); [|easy]. now injection P as ->.
  - assert (N : (st =? UTF8_ACCEPT) = false /\ (st =? UTF8_REJECT) = false).
    { unfold waiting in D2. apply andb_prop in D2 as [D2%Z.leb_le _].
      unfold UTF8_ACCEPT, UTF8_REJECT. split; apply Z.eqb_neq; lia. }
    destruct N as [-> ->].
    assert (C2 : (64 * codepoint e + (code c - 128) + 1) * 64 ^ Z.of_nat (length (r' :: ranges)) <= 2 ^ 32).
    { change (S (length (r' :: ranges))) with (1 + length (r' :: ranges))%nat in C1.
      rewrite Nat2Z.inj_add, Z.pow_add_r in C1 by lia. change (64 ^ Z.of_nat 1) with 64 in C1.
      pose proof (Z.pow_pos_nonneg 64 (Z.of_nat (length (r' :: ranges)))). nia. }
    destruct ensure_ascii; cbn [negb].
    + destruct (IH bytes (mkEscaper st (64 * codepoint e + (code c - 128)) (buffer e) (out e))) as (e' & E' & P & Q);
        try assumption; cbn [state codepoint buffer]; try lia. now exists e'.
    + unfold put. cbn [buffer]. rewrite (proj2 (Nat.leb_le _ _))
        by (cbn [length] in *; unfold buffer_size in *; cbn [String.length]; lia).
      cbn [state codepoint out].
      destruct (IH bytes (mkEscaper st (64 * codepoint e + (code c - 128)) (buffer e ++ String c "") (out e)))
        as (e' & E' & P & Q); try assumption; cbn [state codepoint buffer]; try lia; try exact I.
      { rewrite string_length_app. cbn [String.length length] in *. lia. }
      exists e'. split; [exact E' | split; [exact P|]]. rewrite Q. unfold written, sequence_text. cbn [out buffer].
      now rewrite !string_app_assoc.
Qed.

(** ** Reading it back *)

(** What stands for an ASCII character is read as the character. *)
Lemma scan_ascii (ensure_ascii : bool) (c : ascii) (r : string) : code c < 0x80 ->
  scan_piece ((escape ensure_ascii (code c) c).1 ++ r) = Added (String c "") r.
Proof.
  intros H. destruct c as [[] [] [] [] [] [] [] []]; try (vm_compute in H; discriminate H);
    destruct ensure_ascii; reflexivity.
Qed.

Lemma hex_val_digit (d : Z) : 0 <= d < 16 -> hex_val (hex_digit d) = Some d.
Proof.
  intros H. unfold hex_digit. assert (code (chr (48 + d)) = 48 + d /\ code (chr (87 + d)) = 87 + d) as [E1 E2]
    by (split; apply code_chr; lia).
  assert (K : forall n : nat, (n < 16)%nat -> hex_val (hex_digit (Z.of_nat n)) = Some (Z.of_nat n)).
  { intros n Hn. do 16 (destruct n as [|n]; [reflexivity|]). lia. }
  specialize (K (Z.to_nat d) ltac:(lia)). rewrite Z2Nat.id in K by lia. exact K.
Qed.

Lemma hex_digits_sum (z : Z) : 0 <= z < 2 ^ 16 ->
  0 + Z.shiftl (Z.land (Z.shiftr z 12) 15) 12 + Z.shiftl (Z.land (Z.shiftr z 8) 15) 8 +
  Z.shiftl (Z.land (Z.shiftr z 4) 15) 4 + Z.shiftl (Z.land z 15) 0 = z.
Proof.
  intros H. change 15 with (Z.ones 4). rewrite !Z.land_ones, !shiftl_mul, !shiftr_div by lia.
  change (2 ^ 12) with 4096. change (2 ^ 8) with 256. change (2 ^ 4) with 16. change (2 ^ 0) with 1.
  change (2 ^ 16) with 65536 in H.
  Z.to_euclidean_division_equations. lia.
Qed.

Lemma land_nibble (z : Z) : 0 <= Z.land z 15 < 16.
Proof. change 15 with (Z.ones 4). rewrite Z.land_ones by lia. apply Z.mod_pos_bound. lia. Qed.

Lemma get_hex4 (z : Z) (r : string) : 0 <= z < 2 ^ 16 -> get_codepoint (hex4 z ++ r) = (z, r).
Proof.
  intros H. unfold get_codepoint, hex4. rewrite !string_app_cons, string_app_nil_l. cbn [get_codepoint_go].
  rewrite !hex_val_digit by apply land_nibble. now rewrite hex_digits_sum.
Qed.

(** Code points outside the range of the surrogates. *)
Definition scalar_value (cp : Z) : Prop := 0 <= cp <= 0x10FFFF /\ in_range cp (0xD800, 0xDFFF) = false.

Lemma scan_escape_u (s r : string) : scan_piece (String "\" (String "u" s)) = scan_unicode s.
Proof. reflexivity. Qed.

Lemma in_range_false (b lo hi : Z) : b < lo \/ hi < b -> in_range b (lo, hi) = false.
Proof. intros H. unfold in_range; cbn. destruct (Z.leb_spec lo b), (Z.leb_spec b hi); cbn; lia. Qed.

Lemma in_range_true (b lo hi : Z) : lo <= b <= hi -> in_range b (lo, hi) = true.
Proof. intros H. now apply in_range_spec. Qed.

Lemma in_range_outside (b lo hi : Z) : in_range b (lo, hi) = false -> b < lo \/ hi < b.
Proof. unfold in_range; cbn. destruct (Z.leb_spec lo b), (Z.leb_spec b hi); cbn; lia. Qed.

(** Four digits, or a pair of surrogates, are read as the code point. *)
Lemma scan_hex (cp : Z) (r : string) : scalar_value cp -> cp < 2 ^ 16 ->
  scan_unicode (hex4 (cp mod 2 ^ 16) ++ r) = Added (utf8 cp) r.
Proof.
  intros [H1 H2%in_range_outside] H3. rewrite Z.mod_small by lia. unfold scan_unicode. rewrite get_hex4 by lia.
  rewrite (proj2 (Z.eqb_neq _ _)) by lia. now rewrite !in_range_false by lia.
Qed.

Lemma scan_surrogates (cp : Z) (r : string) : 2 ^ 16 <= cp <= 0x10FFFF ->
  scan_unicode (hex4 ((0xD7C0 + Z.shiftr cp 10) mod 2 ^ 16) ++
    String "\" (String "u" (hex4 ((0xDC00 + Z.land cp 0x3FF) mod 2 ^ 16) ++ r))) = Added (utf8 cp) r.
Proof.
  intros H. change 0x3FF with (Z.ones 10). rewrite Z.land_ones, shiftr_div by lia.
  change (2 ^ 10) with 1024. change (2 ^ 16) with 65536 in *.
  pose proof (Z.div_mod cp 1024 ltac:(lia)) as D. pose proof (Z.mod_pos_bound cp 1024 ltac:(lia)) as M.
  set (q := cp / 1024) in *. set (m := cp mod 1024) in *.
  rewrite (Z.mod_small (0xD7C0 + q)), (Z.mod_small (0xDC00 + m)) by lia.
  unfold scan_unicode. rewrite get_hex4 by lia. rewrite (proj2 (Z.eqb_neq _ _)) by lia.
  rewrite in_range_true by lia. cbn [Ascii.eqb Bool.eqb andb].
  rewrite get_hex4 by lia. rewrite (proj2 (Z.eqb_neq _ _)) by lia. rewrite in_range_true by lia.
  f_equal. f_equal. rewrite shiftl_mul by lia. change (2 ^ 10) with 1024. lia.
Qed.

Lemma scan_escaped (cp : Z) (c : ascii) (r : string) : 0x80 <= cp -> scalar_value cp ->
  scan_piece ((escape true cp c).1 ++ r) = Added (utf8 cp) r.
Proof.
  intros H S. pose proof S as [S1 _]. unfold escape. cbv zeta.
  repeat match goal with |- context [cp =? ?n] => rewrite (proj2 (Z.eqb_neq cp n)) by lia end.
  rewrite (proj2 (Z.leb_gt cp 31)), (proj2 (Z.leb_le 127 cp)) by lia. cbn [orb andb].
  destruct (Z.leb_spec cp 0xFFFF); cbn [fst]; rewrite ?string_app_assoc, !string_app_cons, scan_escape_u by exact r.
  - apply scan_hex; [exact S | lia].
  - apply scan_surrogates. lia.
Qed.

(** Disjoint bits. *)
Lemma lor_high (a k n y : Z) : a = k * 2 ^ n -> 0 <= n -> 0 <= y < 2 ^ n -> Z.lor a y = a + y.
Proof. intros -> Hn Hy. rewrite Z.lor_comm, lor_add by assumption. lia. Qed.

(** The bytes of a code point above the ASCII range, from its groups of six bits. *)
Lemma utf8_2 (x y : Z) : 2 <= x < 32 -> 0 <= y < 64 ->
  utf8 (64 * x + y) = String (chr (0xC0 + x)) (String (chr (0x80 + y)) "").
Proof.
  intros Hx Hy. unfold utf8. rewrite (proj2 (Z.ltb_ge _ _)), (proj2 (Z.leb_le _ 0x7FF)) by lia.
  change 0x3F with (Z.ones 6). rewrite shiftr_div, Z.land_ones by lia. change (2 ^ 6) with 64.
  rewrite <- (Z.div_unique (64 * x + y) 64 x y), <- (Z.mod_unique (64 * x + y) 64 x y) by lia.
  rewrite (lor_high 0xC0 6 5 x), (lor_high 0x80 2 6 y) by lia. reflexivity.
Qed.

Lemma utf8_3 (x y z : Z) : 0 <= x < 16 -> 0 <= y < 64 -> 0 <= z < 64 -> 0x800 <= 64 * (64 * x + y) + z ->
  utf8 (64 * (64 * x + y) + z) =
  String (chr (0xE0 + x)) (String (chr (0x80 + y)) (String (chr (0x80 + z)) "")).
Proof.
  intros Hx Hy Hz H. unfold utf8.
  rewrite (proj2 (Z.ltb_ge _ _)), (proj2 (Z.leb_gt _ 0x7FF)), (proj2 (Z.leb_le _ 0xFFFF)) by lia.
  change 0x3F with (Z.ones 6). rewrite !shiftr_div, !Z.land_ones by lia. change (2 ^ 6) with 64. change (2 ^ 12) with (64 * 64).
  rewrite <- Z.div_div by lia.
  rewrite <- (Z.div_unique (64 * (64 * x + y) + z) 64 (64 * x + y) z),
    <- (Z.mod_unique (64 * (64 * x + y) + z) 64 (64 * x + y) z) by lia.
  rewrite <- (Z.div_unique (64 * x + y) 64 x y), <- (Z.mod_unique (64 * x + y) 64 x y) by lia.
  rewrite (lor_high 0xE0 14 4 x), (lor_high 0x80 2 6 y), (lor_high 0x80 2 6 z) by lia. reflexivity.
Qed.

Lemma utf8_4 (w x y z : Z) : 0 <= w < 8 -> 0 <= x < 64 -> 0 <= y < 64 -> 0 <= z < 64 ->
  0x10000 <= 64 * (64 * (64 * w + x) + y) + z ->
  utf8 (64 * (64 * (64 * w + x) + y) + z) =
  String (chr (0xF0 + w)) (String (chr (0x80 + x)) (String (chr (0x80 + y)) (String (chr (0x80 + z)) ""))).
Proof.
  intros Hw Hx Hy Hz H. unfold utf8.
  rewrite (proj2 (Z.ltb_ge _ _)), (proj2 (Z.leb_gt _ 0x7FF)), (proj2 (Z.leb_gt _ 0xFFFF)) by lia.
  change 0x3F with (Z.ones 6). rewrite !shiftr_div, !Z.land_ones by lia.
  change (2 ^ 6) with 64. change (2 ^ 12) with (64 * 64). change (2 ^ 18) with (64 * 64 * 64).
  rewrite <- !Z.div_div by lia. set (v := 64 * (64 * (64 * w + x) + y) + z) in *.
  rewrite <- (Z.div_unique v 64 (64 * (64 * w + x) + y) z), <- (Z.mod_unique v 64 (64 * (64 * w + x) + y) z) by lia.
  rewrite <- (Z.div_unique (64 * (64 * w + x) + y) 64 (64 * w + x) y),
    <- (Z.mod_unique (64 * (64 * w + x) + y) 64 (64 * w + x) y) by lia.
  rewrite <- (Z.div_unique (64 * w + x) 64 w x), <- (Z.mod_unique (64 * w + x) 64 w x) by lia.
  rewrite (lor_high 0xF0 30 3 w), (lor_high 0x80 2 6 x), (lor_high 0x80 2 6 y), (lor_high 0x80 2 6 z) by lia. reflexivity.
Qed.

(** A byte of a sequence in terms of its six bits. *)
Lemma continuation (c : ascii) : chr (0x80 + (code c - 0x80)) = c.
Proof. rewrite <- (chr_code c) at 2. f_equal. lia. Qed.

(** The bytes of a text in given ranges. *)
Lemma in_ranges_cons (r : Z * Z) (ranges : list (Z * Z)) (s : string) : in_ranges (r :: ranges) s = true ->
  exists c s', s = String c s' /\ r.1 <= code c <= r.2 /\ in_ranges ranges s' = true.
Proof.
  destruct s as [|c s']; [easy|]. cbn. intros [H1%in_range_spec H2]%andb_prop. eauto.
Qed.

Lemma in_ranges_nil (s : string) : in_ranges [] s = true -> s = "".
Proof. now destruct s. Qed.

Lemma scalar_outside (cp : Z) : 0 <= cp <= 0x10FFFF -> cp < 0xD800 \/ 0xDFFF < cp -> scalar_value cp.
Proof. intros H1 H2. split; [exact H1 | now apply in_range_false]. Qed.

Ltac take_bytes := repeat match goal with
  | B : in_ranges (_ :: _) _ = true |- _ =>
      let c := fresh "c" in let s := fresh "s" in let H := fresh "H" in
      apply in_ranges_cons in B as (c & s & -> & H & B); cbn [fst snd] in H
  | B : in_ranges [] _ = true |- _ => apply in_ranges_nil in B as ->
  end.

(** A sequence [following] allows stands for a code point above the ASCII range, and is how it is
    written. *)
Lemma sequence_value (c : ascii) (ranges : list (Z * Z)) (bytes : string) :
  0x80 <= code c -> following (code c) = Some ranges -> in_ranges ranges bytes = true ->
  let cp := codepoint_of (lead (code c) (length ranges)) bytes in
  0x80 <= cp /\ scalar_value cp /\ utf8 cp = String c bytes.
Proof.
  intros Hc F B. pose proof (code_range c) as R.
  assert (L : forall k, chr (k + (code c - k)) = c) by (intros k; rewrite <- (chr_code c) at 2; f_equal; lia).
  unfold following in F. rewrite (in_range_false _ 0x20 0x7F) in F by lia.
  destruct (in_range (code c) (0xC2, 0xDF)) eqn:E1; [|
  destruct (Z.eqb_spec (code c) 0xE0) as [E2|]; [|
  destruct (in_range (code c) (0xE1, 0xEC) || in_range (code c) (0xEE, 0xEF)) eqn:E3; [|
  destruct (Z.eqb_spec (code c) 0xED) as [E4|]; [|
  destruct (Z.eqb_spec (code c) 0xF0) as [E5|]; [|
  destruct (in_range (code c) (0xF1, 0xF3)) eqn:E6; [|
  destruct (Z.eqb_spec (code c) 0xF4) as [E7|]; [|discriminate]]]]]]];
    injection F as <-; take_bytes; unfold lead; cbn [length codepoint_of];
    repeat match goal with
    | H : _ || _ = true |- _ => apply orb_prop in H
    | H : in_range _ _ = true |- _ => apply in_range_spec in H; cbn [fst snd] in H
    | H : _ = true \/ _ = true |- _ => rewrite !in_range_spec in H; cbn [fst snd] in H
    end.
  - rewrite utf8_2, L, continuation by lia. split; [lia|split; [apply scalar_outside; lia | reflexivity]].
  - rewrite utf8_3, L, !continuation by lia. split; [lia|split; [apply scalar_outside; lia | reflexivity]].
  - rewrite utf8_3, L, !continuation by lia. split; [lia|split; [apply scalar_outside; lia | reflexivity]].
  - rewrite utf8_3, L, !continuation by lia. split; [lia|split; [apply scalar_outside; lia | reflexivity]].
  - rewrite utf8_4, L, !continuation by lia. split; [lia|split; [apply scalar_outside; lia | reflexivity]].
  - rewrite utf8_4, L, !continuation by lia. split; [lia|split; [apply scalar_outside; lia | reflexivity]].
  - rewrite utf8_4, L, !continuation by lia. split; [lia|split; [apply scalar_outside; lia | reflexivity]].
Qed.

(** The bytes of a sequence are read as they are. *)
Lemma scan_ranges (ranges : list (Z * Z)) (pre bytes r : string) : in_ranges ranges bytes = true ->
  next_byte_in_range ranges pre (bytes ++ r) = Added (pre ++ bytes) r.
Proof.
  revert pre bytes; induction ranges as [|x ranges IH]; intros pre bytes B.
  - apply in_ranges_nil in B as ->. cbn [next_byte_in_range]. now autorewrite with strings.
  - apply in_ranges_cons in B as (c & s & -> & H & B). rewrite string_app_cons. cbn [next_byte_in_range].
    rewrite (proj2 (in_range_spec _ _) H), IH by exact B. now autorewrite with strings.
Qed.

Lemma scan_sequence (c : ascii) (ranges : list (Z * Z)) (bytes r : string) :
  0x80 <= code c -> following (code c) = Some ranges -> in_ranges ranges bytes = true ->
  scan_piece (String c bytes ++ r) = Added (String c bytes) r.
Proof.
  intros Hc F B. rewrite string_app_cons. cbn [scan_piece]. rewrite F.
  assert (N : forall d, code d < 0x80 -> Ascii.eqb c d = false).
  { intros d Hd. apply Ascii.eqb_neq. intros ->. lia. }
  rewrite !N by (vm_compute; reflexivity). now rewrite scan_ranges.
Qed.

(** ** Whole strings *)

(** [t] is the text of the characters of [s]: [scan_string] reads it up to a quotation mark. *)
Definition reads (t s : string) : Prop := forall fuel buf rest, (String.length t < fuel)%nat ->
  scan_string_go fuel buf (t ++ String quote rest) = Some (value_string (buf ++ s), rest).

Lemma reads_nil : reads "" "".
Proof. intros [|fuel] buf rest H; [cbn in H; lia|]. cbn. now rewrite string_app_nil_r. Qed.

Lemma reads_piece (p t a s : string) : p <> "" -> (forall r, scan_piece (p ++ r) = Added a r) -> reads t s ->
  reads (p ++ t) (a ++ s).
Proof.
  intros Np Hp Ht [|fuel] buf rest H; [lia|]. cbn [scan_string_go]. rewrite string_app_assoc, Hp.
  rewrite Ht, string_app_assoc; [reflexivity|].
  rewrite string_length_app in H. destruct p; [easy|]. cbn in H. lia.
Qed.

(** A character and how it is written. *)
Definition character (ensure_ascii : bool) (a : string) : Prop := forall e, ready e ->
  exists p, wrote e p (escape_bytes ensure_ascii a e) /\ p <> "" /\ forall r, scan_piece (p ++ r) = Added a r.

Lemma ascii_character (ensure_ascii : bool) (c : ascii) : code c < 0x80 -> character ensure_ascii (String c "").
Proof.
  intros H e [S L]. exists (escape ensure_ascii (code c) c).1. split; [|split].
  - cbn [escape_bytes]. unfold escape_byte. rewrite S.
    destruct (decode_first (codepoint e) c) as [D K]. change UTF8_ACCEPT with 0. rewrite D.
    unfold check_first in K. destruct (decode 0 0 (code c)) as [st cp].
    rewrite (proj2 (Z.ltb_lt _ _) H) in K. apply andb_prop in K as [K1%Z.eqb_eq K2%Z.eqb_eq]. subst cp.
    change (st =? UTF8_ACCEPT) with (st =? 0). rewrite (proj2 (Z.eqb_eq _ _) K1).
    pose proof (escape_length ensure_ascii (code c) c) as W.
    destruct (escape ensure_ascii (code c) c) as [s slack]; cbn [fst snd] in *.
    destruct (put_flush st (code c) e s slack K1) as (e' & P & Q); [unfold buffer_size in *; lia|].
    cbv [mbind result_bind] in *. exists e'. split; [|exact Q]. destruct (put s slack _); [|easy]. now injection P as ->.
  - pose proof (scan_ascii ensure_ascii c "" H) as K. now intros E; rewrite E in K.
  - intros r. now apply scan_ascii.
Qed.

Lemma following_length (c : ascii) (ranges : list (Z * Z)) : 0x80 <= code c -> following (code c) = Some ranges ->
  0 <= lead (code c) (length ranges) < 32 /\ (1 <= length ranges <= 3)%nat.
Proof.
  set (check := fun b => negb (0x80 <=? b) || match following b with
    | Some r => (0 <=? lead b (length r)) && (lead b (length r) <? 32) && (1 <=? length r)%nat && (length r <=? 3)%nat
    | None => true end).
  assert (K : check (code c) = true) by (apply every_byte; vm_compute; reflexivity).
  intros H F. subst check. cbv beta in K. rewrite F, (proj2 (Z.leb_le _ _) H) in K. cbn [negb orb] in K.
  apply andb_prop in K as [[[K1%Z.leb_le K2%Z.ltb_lt]%andb_prop K3%Nat.leb_le]%andb_prop K4%Nat.leb_le]. lia.
Qed.

(** The first byte of a sequence. *)
Lemma escape_first (ensure_ascii : bool) (c : ascii) (e : escaper) : ready e -> 0x80 <= code c ->
  match following (code c) with
  | Some ranges => exists e1, escape_byte ensure_ascii c e = Ok e1 /\ waiting (state e1) = true /\
      remaining (state e1) = ranges /\ codepoint e1 = lead (code c) (length ranges) /\
      out e1 = out e /\ buffer e1 = buffer e ++ (if ensure_ascii then "" else String c "")
  | None => escape_byte ensure_ascii c e = Throw type_error
  end.
Proof.
  intros [S L] Hc. unfold escape_byte. rewrite S.
  destruct (decode_first (codepoint e) c) as [D K]. change UTF8_ACCEPT with 0. rewrite D.
  unfold check_first in K. destruct (decode 0 0 (code c)) as [st cp].
  rewrite (proj2 (Z.ltb_ge _ _) Hc) in K. destruct (following (code c)) as [ranges|].
  - apply andb_prop in K as [[K1%bool_decide_eq_true K2]%andb_prop K3%Z.eqb_eq].
    assert ((st =? 0) = false /\ (st =? UTF8_REJECT) = false) as [-> ->].
    { unfold waiting in K2. apply andb_prop in K2 as [K2%Z.leb_le _]. unfold UTF8_REJECT. split; apply Z.eqb_neq; lia. }
    destruct ensure_ascii; cbn [negb].
    + eexists; split; [reflexivity|]. cbn. rewrite string_app_nil_r. now repeat split.
    + unfold put. cbn [buffer]. rewrite (proj2 (Nat.leb_le _ _)) by (unfold buffer_size in *; cbn [String.length]; lia).
      eexists; split; [reflexivity|]. now repeat split.
  - apply Z.eqb_eq in K as ->. reflexivity.
Qed.

Lemma sequence_character (ensure_ascii : bool) (c : ascii) (ranges : list (Z * Z)) (bytes : string) :
  0x80 <= code c -> following (code c) = Some ranges -> in_ranges ranges bytes = true ->
  character ensure_ascii (String c bytes).
Proof.
  intros Hc F B e R. pose proof (escape_first ensure_ascii c e R Hc) as E. rewrite F in E.
  destruct E as (e1 & E & W & Rm & Cp & Ho & Hb).
  destruct (sequence_value c ranges bytes Hc F B) as (V & Sc & U).
  destruct (following_length c ranges Hc F) as [H32 H3].
  assert (P : wrote e1 (sequence_text ensure_ascii (codepoint_of (codepoint e1) bytes) bytes) (escape_bytes ensure_ascii bytes e1)).
  { destruct R as [_ L]. apply (escape_sequence ensure_ascii ranges); try assumption; rewrite ?Cp, ?Hb, ?string_length_app.
    - apply H32.
    - pose proof (Z.pow_le_mono_r 64 (Z.of_nat (length ranges)) 3).
      pose proof (Z.pow_pos_nonneg 64 (Z.of_nat (length ranges))). change (64 ^ 3) with 262144 in *.
      change (2 ^ 32) with 4294967296. nia.
    - exact V.
    - destruct ensure_ascii; cbn [String.length]; lia.
    - destruct ensure_ascii; [cbn [String.length]; lia | exact I]. }
  rewrite Cp in P. set (cp := codepoint_of (lead (code c) (length ranges)) bytes) in *.
  destruct P as (e' & E' & R' & W').
  exists (if ensure_ascii then (escape true cp (chr 0)).1 else String c bytes). split; [|split].
  - exists e'. cbn [escape_bytes]. rewrite E. cbn [mbind result_bind]. split; [exact E' | split; [exact R'|]].
    rewrite W'. unfold written, sequence_text. rewrite Ho, Hb, !string_app_assoc. now destruct ensure_ascii.
  - destruct ensure_ascii; [|easy]. pose proof (scan_escaped cp (chr 0) "" V Sc) as K. now intros Z; rewrite Z in K.
  - intros r. destruct ensure_ascii; [rewrite scan_escaped, U by assumption; reflexivity|].
    exact (scan_sequence c ranges bytes r Hc F B).
Qed.

Lemma escape_bytes_app (ensure_ascii : bool) (a b : string) (e : escaper) :
  escape_bytes ensure_ascii (a ++ b) e = (e' ← escape_bytes ensure_ascii a e; escape_bytes ensure_ascii b e').
Proof.
  revert e; induction a as [|c a IH]; intros e; [reflexivity|]. rewrite string_app_cons. cbn [escape_bytes].
  cbv [mbind result_bind] in *. destruct (escape_byte ensure_ascii c e); [apply IH | reflexivity].
Qed.

Lemma character_text (ensure_ascii : bool) (a s : string) : character ensure_ascii a ->
  (forall e, ready e -> exists t, wrote e t (escape_bytes ensure_ascii s e) /\ reads t s) ->
  forall e, ready e -> exists t, wrote e t (escape_bytes ensure_ascii (a ++ s) e) /\ reads t (a ++ s).
Proof.
  intros Ha Hs e R. destruct (Ha e R) as (p & (e1 & E1 & R1 & W1) & Np & Sp).
  destruct (Hs e1 R1) as (t & (e2 & E2 & R2 & W2) & Rt).
  exists (p ++ t). split; [|now apply reads_piece].
  exists e2. rewrite escape_bytes_app, E1. cbn [mbind result_bind].
  split; [exact E2 | split; [exact R2|]]. now rewrite W2, W1, string_app_assoc.
Qed.

(** UTF-8 text is written, and what is written is read as the text. *)
Lemma text_written (ensure_ascii : bool) (s : string) : utf8_text s ->
  forall e, ready e -> exists t, wrote e t (escape_bytes ensure_ascii s e) /\ reads t s.
Proof.
  intros H; induction H as [|c s Hc Hs IH|c ranges bytes s Hc F B Hs IH].
  - intros e R. exists "". split; [|apply reads_nil]. exists e. split; [reflexivity | split; [exact R|]].
    now rewrite string_app_nil_r.
  - apply (character_text ensure_ascii (String c "")); [now apply ascii_character | exact IH].
  - apply (character_text ensure_ascii (String c bytes)); [now apply (sequence_character _ c ranges) | exact IH].
Qed.

(** A string that is not UTF-8 stops with an exception, or leaves the automaton waiting. *)
Definition refused (r : result escaper) : Prop :=
  r = Throw type_error \/ exists e, r = Ok e /\ state e <> UTF8_ACCEPT.

Lemma escape_cut (ensure_ascii : bool) (ranges : list (Z * Z)) (s : string) (e : escaper) :
  waiting (state e) = true -> remaining (state e) = ranges ->
  (String.length (buffer e) + length ranges <= (buffer_size - 13) + 4)%nat ->
  (exists bytes s', s = bytes ++ s' /\ in_ranges ranges bytes = true) \/ refused (escape_bytes ensure_ascii s e).
Proof.
  revert s e; induction ranges as [|r ranges IH]; intros s e W R L; [left; exists "", s; easy|].
  destruct s as [|c s].
  { right; right. exists e. split; [reflexivity|]. unfold waiting in W. apply andb_prop in W as [W%Z.leb_le _].
    unfold UTF8_ACCEPT. lia. }
  pose proof (decode_next (state e) c W) as D. unfold check_next in D. rewrite R in D.
  change (decode (state e) 0 (code c)) with ((decode (state e) (codepoint e) (code c)).1, (decode (state e) 0 (code c)).2) in D.
  cbn [escape_bytes]. unfold escape_byte.
  destruct (decode (state e) (codepoint e) (code c)) as [st cp]; cbn [fst snd] in D.
  destruct (in_range (code c) r) eqn:Br; [|right; left; apply Z.eqb_eq in D as ->; reflexivity].
  apply andb_prop in D as [D1%bool_decide_eq_true D2].
  destruct ranges as [|r' ranges]; [left; exists (String c ""), s; cbn; now rewrite Br|].
  assert ((st =? UTF8_ACCEPT) = false /\ (st =? UTF8_REJECT) = false) as [-> ->].
  { unfold waiting in D2. apply andb_prop in D2 as [D2%Z.leb_le _].
    unfold UTF8_ACCEPT, UTF8_REJECT. split; apply Z.eqb_neq; lia. }
  assert (K : exists e1, (if negb ensure_ascii then put (String c "") 0 (mkEscaper st cp (buffer e) (out e))
      else Ok (mkEscaper st cp (buffer e) (out e))) = Ok e1 /\ state e1 = st /\
      (String.length (buffer e1) + length (r' :: ranges) <= buffer_size - 13 + 4)%nat).
  { cbn [length] in *. destruct ensure_ascii; cbn [negb].
    - eexists; split; [reflexivity|]. cbn [state buffer]. split; [reflexivity | lia].
    - unfold put. cbn [buffer]. rewrite (proj2 (Nat.leb_le _ _)) by (unfold buffer_size in *; cbn [String.length]; lia).
      eexists; split; [reflexivity|]. cbn [state buffer]. rewrite string_length_app. cbn [String.length]. split; [reflexivity | lia]. }
  destruct K as (e1 & -> & S1 & L1). cbn [mbind result_bind].
  destruct (IH s e1) as [(bytes & s' & -> & B)|K]; rewrite ?S1; try assumption; [|right; exact K].
  left. exists (String c bytes), s'. split; [reflexivity|]. cbn [in_ranges]. now rewrite Br.
Qed.

Lemma text_or_refused (ensure_ascii : bool) (s : string) (e : escaper) : ready e ->
  utf8_text s \/ refused (escape_bytes ensure_ascii s e).
Proof.
  remember (String.length s) as n eqn:Hn. revert s e Hn.
  induction n as [n IH] using (well_founded_induction lt_wf); intros s e -> R.
  assert (T : forall a s', character ensure_ascii a -> a <> "" -> s = a ++ s' ->
    utf8_text s' \/ refused (escape_bytes ensure_ascii s e)).
  { intros a s' Ha Na ->. destruct (Ha e R) as (p & (e1 & E1 & R1 & _) & _).
    destruct (IH (String.length s')) with (s := s') (e := e1) as [K|K]; try easy.
    - rewrite string_length_app. destruct a; [easy | cbn; lia].
    - now left.
    - right. now rewrite escape_bytes_app, E1. }
  destruct s as [|c s]; [left; constructor|].
  destruct (Z.lt_ge_cases (code c) 0x80) as [Hc|Hc].
  - destruct (T (String c "") s) as [K|K]; try easy; [now apply ascii_character | left; now constructor | now right].
  - pose proof (escape_first ensure_ascii c e R Hc) as E. destruct (following (code c)) as [ranges|] eqn:F.
    + destruct E as (e1 & E & W & Rm & _ & _ & Hb). destruct (following_length c ranges Hc F) as [_ H3].
      destruct (escape_cut ensure_ascii ranges s e1 W Rm) as [(bytes & s' & -> & B)|K].
      * destruct R as [_ L]. rewrite Hb, string_length_app. destruct ensure_ascii; cbn [String.length]; lia.
      * destruct (T (String c bytes) s') as [K|K]; try easy; [now apply (sequence_character _ c ranges) | | now right].
        left. now apply (utf8_sequence c ranges).
      * right. cbn [escape_bytes]. rewrite E. exact K.
    + right; left. cbn [escape_bytes]. now rewrite E.
Qed.

Lemma ready_start : ready (mkEscaper UTF8_ACCEPT 0 "" "").
Proof. split; [reflexivity|]. cbn. lia. Qed.

Lemma dump_escaped_text (ensure_ascii : bool) (s : string) : utf8_text s ->
  exists t, dump_escaped ensure_ascii s = Ok t /\ reads t s.
Proof.
  intros H. destruct (text_written ensure_ascii s H _ ready_start) as (t & (e & E & [S _] & W) & Rt).
  exists t. split; [|exact Rt]. unfold dump_escaped. rewrite E. cbn [mbind result_bind]. rewrite S.
  cbn. f_equal. exact W.
Qed.

Lemma dump_escaped_other (ensure_ascii : bool) (s : string) : ~ utf8_text s ->
  dump_escaped ensure_ascii s = Throw type_error.
Proof.
  intros H. destruct (text_or_refused ensure_ascii s _ ready_start) as [K|[K|(e & K & S)]]; [easy|..];
    unfold dump_escaped; rewrite K; cbn [mbind result_bind]; [reflexivity|].
  now rewrite (proj2 (Z.eqb_neq _ _) S).
Qed.

Lemma utf8_text_dec (s : string) : utf8_text s \/ ~ utf8_text s.
Proof.
  destruct (text_or_refused true s _ ready_start) as [K|K]; [now left|]. right. intros H.
  destruct (text_written true s H _ ready_start) as (t & (e & E & [S _] & _) & _). rewrite E in K.
  destruct K as [K|(e' & [= <-] & K)]; [easy | contradiction].
Qed.

(** What [dump] makes of a string is read as the string. *)
Lemma scan_dumped_string (ensure_ascii : bool) (s t rest : string) : dump_escaped ensure_ascii s = Ok t ->
  scan_string (t ++ String quote rest) = (value_string s, rest).
Proof.
  intros E. destruct (utf8_text_dec s) as [H|H]; [|now rewrite dump_escaped_other in E].
  destruct (dump_escaped_text ensure_ascii s H) as (t' & E' & Rt). assert (t' = t) as -> by congruence.
  unfold scan_string. rewrite Rt; [reflexivity|]. rewrite string_length_app. lia.
Qed.

(** C23: [dump_escaped] writes exactly the strings that are UTF-8, and what it writes, in quotation
    marks, is read by [scan_string] as the string it came from, with and without [ensure_ascii]; any
    other string is the exception [type_error], and no string writes past the end of the buffer. *)
Theorem escaped_strings (ensure_ascii : bool) (s : string) :
  match dump_escaped ensure_ascii s with
  | Ok t => utf8_text s /\ forall rest, scan_string (t ++ String quote rest) = (value_string s, rest)
  | Throw e => ~ utf8_text s /\ e = type_error
  end.
Proof.
  destruct (utf8_text_dec s) as [H|H].
  - destruct (dump_escaped ensure_ascii s) as [t|e] eqn:E.
    + split; [exact H|]. intros rest. exact (scan_dumped_string ensure_ascii s t rest E).
    + destruct (dump_escaped_text ensure_ascii s H) as (t & E' & _). congruence.
  - rewrite dump_escaped_other by exact H. now split.
Qed.
