(* ===== verification/JsonText.v ===== *)
(** * JSON text

    The serializer and the parser of nlohmann's json together: integers are written as
    [std::to_string] writes them, every text is parsed in bounded time to an error or a well-formed
    value, and parsing what [dump] wrote gives the value back. The last discharges the interface
    [JsonText] the rest of the development is proved against. *)

From Stdlib Require Import ZArith Lia List Bool Ascii String.
From stdpp Require Import base gmap strings list.
From S2P Require Import Prelude.
From S2P Require Import Cpp.
From S2P Require Import Json.
From S2P Require Import Lexer.
From S2P Require Import Parser.
From S2P Require Import Grammar.
From S2P Require Import Serializer.
From S2P Require Import JsonStrings.

Open Scope string_scope.
Open Scope Z_scope.

(** ** Integers *)

(** The digits [dump_integer] leaves in its buffer are those of the absolute value. *)
Lemma dump_digits_spec (fuel k : nat) (x : Z) (buf : list ascii) :
  x <> 0 -> Z.abs x < 10 ^ Z.of_nat k -> (k <= fuel)%nat -> (length buf + k < number_buffer_size)%nat ->
  exists l, dump_digits fuel x buf = Ok l /\ (length l <= length buf + k)%nat /\
    forall n, Z.abs x < 2 ^ Z.of_nat n ->
      string_of_list_ascii (rev l) = digits n (Z.abs x) (string_of_list_ascii (rev buf)).
Proof.
  revert k x buf; induction fuel as [|fuel IH]; intros k x buf Nx Hx Hk Hb.
  { replace k with O in Hx by lia. cbn in Hx. lia. }
  destruct k as [|k]; [cbn in Hx; lia|].
  cbn [dump_digits]. rewrite (proj2 (Z.eqb_neq x 0) Nx).
  rewrite (proj2 (Nat.ltb_lt _ _)) by (unfold number_buffer_size in *; lia).
  assert (A : Z.abs (Z.rem x 10) = Z.abs x mod 10 /\ Z.abs (Z.quot x 10) = Z.abs x / 10).
  { Z.to_euclidean_division_equations. lia. }
  destruct A as [-> A].
  assert (Sb : forall n, string_of_list_ascii (rev (buf ++ [n])%list) = String n (string_of_list_ascii (rev buf))).
  { intros n. now rewrite rev_app_distr. }
  destruct (Z.ltb_spec (Z.abs x) 10) as [L|L].
  - assert (Z.quot x 10 = 0) as -> by (apply Z.abs_0_iff; rewrite A; apply Z.div_small; lia).
    assert (E : forall b, dump_digits fuel 0 b = Ok b) by (intros b; now destruct fuel). rewrite E.
    eexists; split; [reflexivity|]. split; [rewrite length_app; cbn; lia|].
    intros [|n] Hn; [cbn in Hn; lia|]. cbn [digits]. rewrite (proj2 (Z.ltb_lt _ _) L). apply Sb.
  - destruct (IH k (Z.quot x 10) (buf ++ [digit (Z.abs x mod 10)])%list) as (l & E & Ll & D).
    + intros Q. rewrite Q in A. cbn in A. Z.to_euclidean_division_equations. lia.
    + rewrite A. apply Z.div_lt_upper_bound; [lia|]. rewrite Nat2Z.inj_succ, Z.pow_succ_r in Hx by lia. lia.
    + lia.
    + rewrite length_app. cbn [length]. lia.
    + exists l. split; [exact E|]. split; [rewrite length_app in Ll; cbn [length] in Ll; lia|].
      intros [|n] Hn; [cbn in Hn; lia|]. cbn [digits]. rewrite (proj2 (Z.ltb_ge _ _) L), <- A, <- Sb. apply D.
      rewrite A. apply Z.div_lt_upper_bound; [lia|]. rewrite Nat2Z.inj_succ, Z.pow_succ_r in Hn by lia. lia.
Qed.

Lemma is_number_spec (z : Z) : is_number z = true <-> - 2 ^ 63 <= z < 2 ^ 64.
Proof. unfold is_number. rewrite andb_true_iff, Z.leb_le, Z.ltb_lt. tauto. Qed.

Lemma dump_integer_text (z : Z) : is_number z = true -> dump_integer z = Ok (to_string z).
Proof.
  intros H%is_number_spec. unfold dump_integer. destruct (Z.eqb_spec z 0) as [->|N]; [reflexivity|].
  destruct (dump_digits_spec number_buffer_size 20 z []) as (l & E & L & D); try (cbn; lia); [unfold number_buffer_size; cbn; lia..|].
  rewrite E. cbn [mbind result_bind].
  specialize (D (S (Z.to_nat (Z.log2 (Z.abs z))))).
  rewrite Nat2Z.inj_succ, Z2Nat.id in D by apply Z.log2_nonneg.
  specialize (D (proj2 (Z.log2_spec (Z.abs z) ltac:(lia)))). cbn [rev string_of_list_ascii] in D.
  unfold to_string. destruct (Z.ltb_spec z 0).
  - rewrite (proj2 (Nat.ltb_lt _ _)) by (unfold number_buffer_size; cbn [length] in L; lia).
    rewrite rev_app_distr. cbn [rev app string_of_list_ascii]. rewrite D. now rewrite Z.abs_neq by lia.
  - rewrite D. now rewrite Z.abs_eq by lia.
Qed.

(** What may follow a number: a number does not go on with it. *)
Definition delimited (s : string) : Prop :=
  match s with
  | EmptyString => True
  | String c _ => isdigit c = false /\ Ascii.eqb c "." = false /\ is_e c = false
  end.

Lemma number_goes_on (kind : number_type) (buf ds s : string) (st : number_state) :
  st = Any1 -> (forall c, mem c ds = true -> isdigit c = true) -> delimited s ->
  scan_number_go st kind buf (ds ++ s) = (number_token kind (buf ++ ds), s).
Proof.
  intros -> Hd Hs. revert buf Hd; induction ds as [|c ds IH]; intros buf Hd.
  - rewrite string_app_nil_l, string_app_nil_r. destruct s as [|c s]; [reflexivity|].
    destruct Hs as (H1 & H2 & H3). cbn [scan_number_go step_number]. now rewrite H1, H2, H3.
  - rewrite string_app_cons. cbn [scan_number_go step_number entered].
    rewrite (Hd c) by (cbn; now rewrite Ascii.eqb_refl).
    rewrite IH by (intros d Hd'; apply Hd; cbn; now rewrite Hd', orb_true_r).
    now autorewrite with strings.
Qed.

Lemma zero_ends (kind : number_type) (buf s : string) : delimited s ->
  scan_number_go Zero kind buf s = (number_token kind buf, s).
Proof.
  intros Hs. destruct s as [|c s]; [reflexivity|]. destruct Hs as (H1 & H2 & H3).
  cbn [scan_number_go step_number]. now rewrite H2, H3.
Qed.

Lemma digits_leading (fuel : nat) (n : Z) (acc : string) : 0 < n < 2 ^ Z.of_nat fuel ->
  exists c s, digits fuel n acc = String c s /\ isdigit c = true /\ Ascii.eqb c "0" = false.
Proof.
  revert n acc; induction fuel as [|fuel IH]; intros n acc H; [cbn in H; lia|]. cbn [digits].
  destruct (Z.ltb_spec n 10).
  - exists (digit (n mod 10)), acc. split; [reflexivity|]. rewrite Z.mod_small by lia.
    assert (n = 1 \/ n = 2 \/ n = 3 \/ n = 4 \/ n = 5 \/ n = 6 \/ n = 7 \/ n = 8 \/ n = 9) as E by lia.
    repeat destruct E as [->|E]; [split; reflexivity.. |]. subst n. split; reflexivity.
  - apply IH. rewrite Nat2Z.inj_succ, Z.pow_succ_r in H by lia.
    pose proof (Z.pow_nonneg 2 (Z.of_nat fuel)). split; [apply Z.div_str_pos; lia | apply Z.div_lt_upper_bound; lia].
Qed.

(** The digits of a positive number are scanned to its end. *)
Lemma scan_digits (kind : number_type) (buf s : string) (n : Z) (fuel : nat) : 0 < n < 2 ^ Z.of_nat fuel -> delimited s ->
  exists c ds, digits fuel n "" = String c ds /\ isdigit c = true /\ Ascii.eqb c "0" = false /\
    scan_number_go Any1 kind (buf ++ String c "") (ds ++ s) = (number_token kind (buf ++ String c ds), s).
Proof.
  intros H Hs. destruct (digits_leading fuel n "" H) as (c & ds & E & Hc & Nz).
  exists c, ds. split; [exact E | split; [exact Hc | split; [exact Nz|]]].
  rewrite number_goes_on; [|reflexivity| |exact Hs]; [now autorewrite with strings|].
  intros d Hd. destruct (isdigit d) eqn:Id; [reflexivity|].
  assert (M : mem d (digits fuel n "") = true) by (rewrite E; cbn; now rewrite Hd, orb_true_r).
  now rewrite mem_digits in M by (try assumption; lia).
Qed.

Lemma isdigit_token (c : ascii) (s : string) : isdigit c = true -> scan_token (String c s) = scan_number c s.
Proof.
  intros H. destruct c as [[] [] [] [] [] [] [] []]; try (vm_compute in H; discriminate H); reflexivity.
Qed.

Lemma scan_dumped_integer (z : Z) (s : string) : is_number z = true -> delimited s ->
  exists t, scan_token (to_string z ++ s) = (t, s) /\ (t = value_unsigned z \/ t = value_integer z).
Proof.
  intros H%is_number_spec Hs. unfold to_string.
  destruct (Z.eq_dec z 0) as [->|N].
  { exists (value_unsigned 0). split; [exact (zero_ends Unsigned "0" s Hs) | now left]. }
  assert (L : 0 < Z.abs z < 2 ^ Z.of_nat (S (Z.to_nat (Z.log2 (Z.abs z))))).
  { rewrite Nat2Z.inj_succ, Z2Nat.id by apply Z.log2_nonneg. pose proof (Z.log2_spec (Z.abs z)). lia. }
  set (fuel := S (Z.to_nat (Z.log2 (Z.abs z)))) in *.
  assert (R : read_digits 0 (digits fuel (Z.abs z) "") = Z.abs z) by (rewrite read_digits_digits; [reflexivity | lia]).
  destruct (Z.ltb_spec z 0) as [Hz|Hz].
  - destruct (scan_digits Integer "-" s (Z.abs z) fuel L Hs) as (c & ds & E & Hc & Nz & Sc).
    replace (- z) with (Z.abs z) by lia. rewrite E in R |- *. rewrite string_app_cons.
    change (scan_token (String "-" (String c ds ++ s))) with (scan_number_go Minus Unsigned "-" (String c (ds ++ s))).
    cbn [scan_number_go step_number entered]. rewrite Nz, Hc, Sc.
    eexists; split; [reflexivity|]. right. unfold number_token.
    change ("-" ++ String c ds) with (String "-" (String c ds)).
    assert (SS : forall t, substring 1 (String.length (String "-" t)) (String "-" t) = t).
    { intros t. cbn [substring String.length]. clear. assert (K : forall u n, (String.length u <= n)%nat -> substring 0 n u = u).
      { induction u as [|x u IH]; intros [|n] Hn; cbn in *; try reflexivity; [lia|]. f_equal. apply IH. lia. }
      apply K. lia. }
    rewrite SS, R, (proj2 (Z.leb_le _ _)) by lia. f_equal. lia.
  - destruct (scan_digits Unsigned "" s (Z.abs z) fuel L Hs) as (c & ds & E & Hc & Nz & Sc).
    replace (digits fuel z "") with (digits fuel (Z.abs z) "") by (f_equal; lia).
    rewrite E in R |- *. rewrite string_app_cons, isdigit_token by exact Hc. unfold scan_number.
    rewrite Nz. replace (Ascii.eqb c "-") with false.
    + change ("" ++ String c "") with (String c "") in Sc. rewrite Sc. eexists; split; [reflexivity|]. left.
      unfold number_token. change ("" ++ String c ds) with (String c ds).
      rewrite R, (proj2 (Z.ltb_lt _ _)) by lia. f_equal. lia.
    + symmetry. apply Ascii.eqb_neq. intros ->. now cbn in Hc.
Qed.

(** ** Values *)

Lemma mapM_ok {A B} (f : A -> result B) (l : list A) (k : list B) : mapM f l = Ok k ->
  Forall2 (fun a b => f a = Ok b) l k.
Proof.
  revert k; induction l as [|a l IH]; intros k; [intros [= <-]; constructor|].
  change (mapM f (a :: l)) with (b ← f a; k' ← mapM f l; mret (b :: k')). cbv [mbind result_bind].
  destruct (f a) as [b|] eqn:E; [|easy]. destruct (mapM f l) as [k'|]; [|easy]. intros [= <-].
  constructor; [exact E | now apply IH].
Qed.

Section Run.
Context (float_value : string -> result json) (ensure_ascii : bool).

(** The first token of a dumped value; a scalar is one token. *)
Definition token_of (j : json) (t : token_type) : Prop :=
  match j with
  | JNull => t = literal_null
  | JBool b => t = if b then literal_true else literal_false
  | JNum z => t = value_unsigned z \/ t = value_integer z
  | JStr x => t = value_string x
  | JArr _ => t = begin_array
  | JObj _ => t = begin_object
  end.

Definition scalar (j : json) : bool := match j with JArr _ | JObj _ => false | _ => true end.

Lemma scan_dumped (j : json) (s tail : string) : dump_value ensure_ascii j = Ok s -> delimited tail ->
  exists t r, scan_token (s ++ tail) = (t, r) /\ token_of j t /\ (scalar j = true -> r = tail).
Proof.
  intros E Ht. destruct j as [|b|z|x|l|m]; cbn [dump_value] in E.
  - injection E as <-. exists literal_null, tail. now destruct tail.
  - injection E as <-. exists (if b then literal_true else literal_false), tail. now destruct b, tail.
  - destruct (is_number z) eqn:N; [|easy]. rewrite dump_integer_text in E by exact N. injection E as <-.
    destruct (scan_dumped_integer z tail N Ht) as (t & Sc & Ot). exists t, tail. easy.
  - cbv [mbind result_bind] in E. destruct (dump_escaped ensure_ascii x) as [e|] eqn:D; [|easy].
    injection E as <-. exists (value_string x), tail. split; [|easy].
    unfold quoted. rewrite string_app_cons, string_app_assoc.
    change (scan_token (String quote (e ++ String quote "" ++ tail))) with (scan_string (e ++ String quote "" ++ tail)).
    exact (scan_dumped_string ensure_ascii x e tail D).
  - cbv [mbind result_bind] in E. destruct (mapM _ l) as [p|]; [|easy]. injection E as <-.
    rewrite string_app_cons. eexists _, _. split; [reflexivity|]. easy.
  - cbv [mbind result_bind] in E. destruct (mapM _ m) as [p|]; [|easy]. injection E as <-.
    rewrite string_app_cons. eexists _, _. split; [reflexivity|]. easy.
Qed.

(** The text [s] is a value of the grammar, [j], with anything behind it that ends a number. *)
Definition parsed (j : json) (s : string) : Prop := forall tail, delimited tail ->
  value float_value (s ++ tail) j tail.

Lemma scalar_parsed (j : json) (s : string) : scalar j = true -> dump_value ensure_ascii j = Ok s -> parsed j s.
Proof.
  intros Sj E tail Ht. destruct (scan_dumped j s tail E Ht) as (t & r & Sc & T & R). rewrite R in Sc by exact Sj.
  apply (value_scalar _ _ _ t); [exact Sc|].
  destruct j as [|b|z|x|l|m]; try discriminate; cbn [token_of] in T; subst; try reflexivity.
  - now destruct b.
  - now destruct T as [-> | ->].
Qed.

(** The elements of an array, up to the closing bracket. *)
Lemma elements_parsed (l : list json) (ps : list string) (tail : string) : Forall2 parsed l ps -> l <> [] ->
  elements float_value (join "," ps ++ String "]" tail) l tail.
Proof.
  intros H; induction H as [|x s l ps Ps H IH]; intros N; [easy|]. clear N. rewrite join_cons, string_app_assoc.
  assert (V : value float_value (s ++ Cpp.tail "," ps ++ String "]" tail) x (Cpp.tail "," ps ++ String "]" tail))
    by (apply Ps; now destruct ps).
  inversion H as [E1 E2|y s' l' ps' _ _ E1 E2]; subst.
  - now apply (elements_last _ _ (String "]" tail)).
  - eapply elements_more; [exact V | reflexivity | now apply IH].
Qed.

Lemma array_parsed (l : list json) (ps : list string) : Forall2 parsed l ps ->
  parsed (JArr l) (String "[" (join "," ps ++ "]")).
Proof.
  intros H tail _. rewrite string_app_cons, string_app_assoc. change ("]" ++ tail) with (String "]" tail).
  destruct (decide (l = [])) as [->|N].
  - inversion H; subst. eapply value_empty_array; reflexivity.
  - eapply value_array; [reflexivity|]. now apply elements_parsed.
Qed.

(** *** Objects *)

Lemma scan_key (k e s : string) : dump_escaped ensure_ascii k = Ok e ->
  scan_token (quoted e ++ String ":" s) = (value_string k, String ":" s).
Proof.
  intros E. unfold quoted. rewrite string_app_cons, string_app_assoc.
  exact (scan_dumped_string ensure_ascii k e (String ":" s) E).
Qed.

(** The last key of an object. *)
Lemma sorted_before (acc m : list (string * json)) (k : string) (v : json) :
  keys_sorted (acc ++ (k, v) :: m) = true -> forallb (fun kv => String.ltb kv.1 k) acc = true.
Proof.
  induction acc as [|[k' v'] acc IH]; [reflexivity|]. cbn [app keys_sorted forallb fst].
  intros [H1 H2]%andb_prop. rewrite IH by exact H2. rewrite forallb_app in H1. cbn in H1.
  apply andb_prop in H1 as [_ [H1 _]%andb_prop]. now rewrite H1.
Qed.

Lemma insert_last (k : string) (v : json) (acc : list (string * json)) :
  forallb (fun kv => String.ltb kv.1 k) acc = true -> insert_member k v acc = (acc ++ [(k, v)])%list.
Proof.
  induction acc as [|[k' v'] acc IH]; [reflexivity|]. cbn. intros [H1%ltb_lt H2]%andb_prop.
  rewrite String.compare_antisym, H1. cbn. now rewrite IH.
Qed.

(** A member and its text. *)
Definition member_parsed (kv : string * json) (s : string) : Prop := exists e vs,
  dump_escaped ensure_ascii kv.1 = Ok e /\ parsed kv.2 vs /\ s = quoted e ++ String ":" vs.

(** The members of an object, up to the closing brace: sorted keys are inserted at the end. *)
Lemma members_parsed (m : list (string * json)) (ps : list string) : Forall2 member_parsed m ps -> m <> [] ->
  forall acc tail, keys_sorted (acc ++ m) = true ->
  members float_value (join "," ps ++ String "}" tail) acc (acc ++ m) tail.
Proof.
  intros H; induction H as [|[k v] s m ps (e & vs & Ek & Pv & ->) H IH]; intros N acc tail Hs; [easy|]. clear N.
  cbn [fst snd] in *. rewrite join_cons, !string_app_assoc, string_app_cons.
  assert (V : value float_value (vs ++ Cpp.tail "," ps ++ String "}" tail) v (Cpp.tail "," ps ++ String "}" tail))
    by (apply Pv; now destruct ps).
  pose proof (insert_last k v acc (sorted_before acc m k v Hs)) as I.
  inversion H as [E1 E2|y s' m' ps' _ _ E1 E2]; subst.
  - rewrite <- I. eapply members_last; [exact (scan_key k e _ Ek) | reflexivity | exact V | reflexivity].
  - eapply members_more; [exact (scan_key k e _ Ek) | reflexivity | exact V | reflexivity |].
    specialize (IH ltac:(easy) (acc ++ [(k, v)])%list tail). rewrite <- app_assoc in IH. rewrite I. exact (IH Hs).
Qed.

Lemma object_parsed (m : list (string * json)) (ps : list string) :
  keys_sorted m = true -> Forall2 member_parsed m ps -> parsed (JObj m) (String "{" (join "," ps ++ "}")).
Proof.
  intros Hs H tail _. rewrite string_app_cons, string_app_assoc. change ("}" ++ tail) with (String "}" tail).
  destruct (decide (m = [])) as [->|N].
  - inversion H; subst. eapply value_empty_object; reflexivity.
  - eapply value_object; [reflexivity|]. now apply (members_parsed m ps H N []).
Qed.

(** Every dumped value is a value of the grammar. *)
Lemma dumped_parsed (j : json) : wf j = true -> forall s, dump_value ensure_ascii j = Ok s -> parsed j s.
Proof.
  induction j as [|b|z|x|l IH|m IH] using json_ind'; intros W s E; try (now apply scalar_parsed);
    cbn [dump_value] in E; cbv [mbind result_bind] in E.
  - destruct (mapM (dump_value ensure_ascii) l) as [ps|] eqn:M; [|easy]. injection E as <-.
    apply array_parsed. apply mapM_ok in M. cbn [wf] in W.
    induction M as [|x px l ps Dx M IHM]; constructor; inversion IH as [|? ? Hx IH']; subst;
      cbn in W; apply andb_prop in W as [W1 W2]; auto.
  - destruct (mapM _ m) as [ps|] eqn:M; [|easy]. injection E as <-.
    cbn [wf] in W. apply andb_prop in W as [Wk W]. apply object_parsed; [exact Wk|]. clear Wk.
    apply mapM_ok in M.
    induction M as [|[k v] px m ps Dx M IHM]; constructor; inversion IH as [|? ? Hx IH']; subst;
      cbn in W; apply andb_prop in W as [W1 W2]; auto.
    cbv [mbind result_bind] in Dx. cbn [fst snd] in *.
    destruct (dump_escaped ensure_ascii k) as [e|] eqn:Ek; [|easy].
    destruct (dump_value ensure_ascii v) as [vs|] eqn:Ev; [|easy]. injection Dx as <-.
    exists e, vs. split; [exact Ek | split; [now apply Hx | reflexivity]].
Qed.
End Run.

(** ** Whole texts *)

(** A byte order mark does not start a value. *)
Lemma bom_token (c : ascii) (s : string) : code c = 0xEF -> scan_token (String c s) = (scan_error, s).
Proof. intros H. rewrite <- (chr_code c), H. reflexivity. Qed.

Lemma no_bom (j : json) (s : string) : token_of j (scan_token s).1 -> skip_bom s = Some s.
Proof.
  intros T. destruct s as [|c s]; [reflexivity|]. cbn [skip_bom].
  destruct (Z.eqb_spec (code c) 0xEF) as [E|E]; [|reflexivity].
  rewrite (bom_token c s E) in T. destruct j as [|b|z|x|l|m]; cbn in T; try discriminate; [now destruct b | now destruct T].
Qed.

(** A dumped value is parsed as the value, whatever follows the end of the input. *)
Lemma parse_dumped (float_value : string -> result json) (ensure_ascii : bool) (j : json) (s rest : string) :
  wf j = true -> dump_value ensure_ascii j = Ok s -> delimited rest -> (scan_token rest).1 = end_of_input ->
  parse_text float_value (s ++ rest) = Ok j.
Proof.
  intros W D Hd He. apply parse_complete. exists (s ++ rest), rest. split; [|split; [|exact He]].
  - destruct (scan_dumped ensure_ascii j s rest D Hd) as (t & r & Sc & T & _). apply (no_bom j). now rewrite Sc.
  - exact (dumped_parsed float_value ensure_ascii j W s D rest Hd).
Qed.

(** ** Parsed values are well formed *)

Section WellFormed.
Context (float_value : string -> result json) (Hfloat : forall t v, float_value t = Ok v -> wf v = true).

Definition frame_ok (f : frame) : Prop := wf (close f) = true.
Definition dom_ok (d : dom) : Prop := Forall frame_ok (ref_stack d) /\ wf (root d) = true.

Lemma handle_ok (v : json) (d : dom) : wf v = true -> dom_ok d -> dom_ok (handle_value v d).
Proof.
  intros Hv [Hs Hr]. unfold handle_value. destruct (ref_stack d) as [|[l|m k] fs]; [split; [constructor | exact Hv]|..];
    apply Forall_cons in Hs as [Hf Hs]; (split; [constructor; [|exact Hs] | exact Hr]).
  - unfold frame_ok in *. cbn [close wf] in *. rewrite forallb_app, Hf. cbn. now rewrite Hv.
  - now apply wf_insert.
Qed.

Lemma key_ok (k : string) (d : dom) : dom_ok d -> dom_ok (key k d).
Proof.
  intros [Hs Hr]. unfold key. destruct (ref_stack d) as [|[l|m k'] fs] eqn:E; [now rewrite <- E in Hs|..];
    [split; [now rewrite E | exact Hr]|].
  apply Forall_cons in Hs as [Hf Hs]. split; [constructor; [|exact Hs] | exact Hr].
  unfold frame_ok in *. cbn [close] in *. destruct (member k m); [exact Hf | now apply wf_insert].
Qed.

Lemma end_ok (d : dom) : dom_ok d -> dom_ok (end_container d).
Proof.
  intros [Hs Hr]. unfold end_container. destruct (ref_stack d) as [|f fs] eqn:E; [split; [now rewrite E | exact Hr]|].
  apply Forall_cons in Hs as [Hf Hs]. apply handle_ok; [exact Hf | now split].
Qed.

Lemma start_ok (d : dom) : dom_ok d -> dom_ok (start_object d) /\ dom_ok (start_array d).
Proof. intros [Hs Hr]. split; (split; [constructor; [reflexivity | exact Hs] | exact Hr]). Qed.

Definition outcome_ok (o : outcome) : Prop :=
  match o with Value p | Continue p | Return p => dom_ok (sax p) | Raise _ => True end.

Lemma get_token_sax (p : parser) : sax (get_token p) = sax p.
Proof. apply get_token_states. Qed.

Lemma object_key_sax (p p' : parser) : dom_ok (sax p) -> object_key p = Some p' -> dom_ok (sax p').
Proof.
  intros H. unfold object_key. destruct (last_token p); try easy.
  destruct (last_token (get_token _)); try easy. intros [= <-]. rewrite get_token_sax. now apply key_ok.
Qed.

Lemma parse_value_ok (p : parser) : dom_ok (sax p) -> outcome_ok (parse_value float_value p).
Proof.
  intros H. unfold parse_value.
  destruct (last_token p); try exact I; try (apply handle_ok; [reflexivity | exact H]).
  - destruct (float_value text) as [v|] eqn:F; [|exact I]. apply handle_ok; [exact (Hfloat _ _ F) | exact H].
  - destruct (last_token (get_token _)); cbn [outcome_ok event set_states sax]; rewrite get_token_sax;
      try apply end_ok; now apply start_ok.
  - assert (K : forall o : option parser, o = object_key (get_token (event start_object p)) ->
      outcome_ok (match o with
      | Some p => Continue (get_token (set_states (false :: states p) (skip_to_state_evaluation p) p))
      | None => Raise parse_error end)).
    { intros [q|] E; [|exact I]. cbn [outcome_ok]. rewrite get_token_sax. symmetry in E.
      apply object_key_sax in E; [exact E|]. rewrite get_token_sax. now apply start_ok. }
    destruct (last_token (get_token _)); try now apply K.
    cbn [outcome_ok event sax]. rewrite get_token_sax. apply end_ok. now apply start_ok.
Qed.

Lemma evaluate_ok (p : parser) : dom_ok (sax p) -> outcome_ok (evaluate_state p).
Proof.
  intros H. unfold evaluate_state.
  destruct (states p) as [|[] st]; [exact H|..]; destruct (last_token (get_token p)); try exact I;
    cbn [outcome_ok event set_states sax]; rewrite ?get_token_sax; try exact H; try now apply end_ok.
  destruct (object_key _) as [q|] eqn:E; [|exact I]. cbn [outcome_ok]. rewrite get_token_sax.
  apply object_key_sax in E; [exact E|]. now rewrite !get_token_sax.
Qed.

Lemma loop_ok (n : nat) (p q : parser) : dom_ok (sax p) -> sax_parse_internal float_value n p = Some (Ok q) -> dom_ok (sax q).
Proof.
  revert p; induction n as [|n IH]; intros p H; [easy|]. cbn [sax_parse_internal].
  assert (K : outcome_ok (round float_value p)).
  { unfold round. destruct (skip_to_state_evaluation p); [now apply evaluate_ok|].
    pose proof (parse_value_ok p H) as K. destruct (parse_value float_value p); try exact K. now apply evaluate_ok. }
  destruct (round float_value p) as [r|r|r|e]; [intros [= <-]; exact K | now apply IH | intros [= <-]; exact K | easy].
Qed.

Lemma parse_text_wf (s : string) (j : json) : parse_text float_value s = Ok j -> wf j = true.
Proof.
  unfold parse_text. destruct (sax_parse_internal _ _ _) as [[q|e]|] eqn:E; cbn [finish]; try easy.
  destruct (last_token _); try easy. intros [= <-]. apply (loop_ok (String.length s + 2) (start_parser s)); [|exact E].
  unfold start_parser. destruct (scan true s). now split.
Qed.
End WellFormed.

(** ** What can be dumped *)

(** Every string is UTF-8 and every number one the serializer has. *)
Fixpoint printable (j : json) : Prop :=
  match j with
  | JNull | JBool _ => True
  | JNum z => is_number z = true
  | JStr s => utf8_text s
  | JArr l => foldr (fun x P => printable x /\ P) True l
  | JObj m => foldr (fun kv P => (utf8_text kv.1 /\ printable kv.2) /\ P) True m
  end.

Fixpoint numbers (j : json) : bool :=
  match j with
  | JNum z => is_number z
  | JArr l => forallb numbers l
  | JObj m => forallb (fun kv => numbers kv.2) m
  | _ => true
  end.

(** [r] succeeds exactly under [P], and fails with [type_error] unless [b] is false. *)
Definition succeeds {A} (P : Prop) (b : bool) (r : result A) : Prop :=
  match r with Ok _ => P | Throw e => ~ P /\ (e = type_error \/ b = false) end.

Lemma succeeds_mapM {A B} (P : A -> Prop) (b : A -> bool) (f : A -> result B) (l : list A) :
  Forall (fun a => succeeds (P a) (b a) (f a)) l ->
  succeeds (foldr (fun a Q => P a /\ Q) True l) (forallb b l) (mapM f l).
Proof.
  intros H; induction H as [|a l Ha H IH]; [exact I|].
  change (mapM f (a :: l)) with (x ← f a; k ← mapM f l; mret (x :: k)). cbv [mbind result_bind]. cbn [foldr forallb].
  destruct (f a) as [x|e]; cbn [succeeds] in Ha.
  - destruct (mapM f l) as [k|e]; cbn [succeeds] in IH |- *; [now split|].
    split; [tauto|]. destruct IH as [_ [->| ->]]; [now left | right; apply andb_false_r].
  - cbn [succeeds]. split; [tauto|]. destruct Ha as [_ [->| ->]]; [now left | now right].
Qed.

Lemma succeeds_bind {A B} (P : Prop) (b : bool) (r : result A) (g : A -> B) : succeeds P b r ->
  succeeds P b (a ← r; Ok (g a)).
Proof. now destruct r. Qed.

Lemma succeeds_escaped (ensure_ascii : bool) (s : string) : succeeds (utf8_text s) true (dump_escaped ensure_ascii s).
Proof.
  destruct (utf8_text_dec s) as [H|H].
  - destruct (dump_escaped_text ensure_ascii s H) as (t & -> & _). exact H.
  - rewrite dump_escaped_other by exact H. cbn. tauto.
Qed.

Lemma dump_succeeds (ensure_ascii : bool) (j : json) : succeeds (printable j) (numbers j) (dump_value ensure_ascii j).
Proof.
  induction j as [|b|z|x|l IH|m IH] using json_ind'; cbn [printable numbers dump_value]; try exact I.
  - destruct (is_number z) eqn:N; [rewrite dump_integer_text by exact N; reflexivity | cbn; split; [easy | now right]].
  - apply succeeds_bind, succeeds_escaped.
  - now apply succeeds_bind, succeeds_mapM.
  - apply succeeds_bind, (succeeds_mapM (fun kv => utf8_text kv.1 /\ printable kv.2) (fun kv => numbers kv.2)).
    eapply Forall_impl; [exact IH|]. intros [k v] Hv. cbn [fst snd] in *. cbv [mbind result_bind].
    pose proof (succeeds_escaped ensure_ascii k) as Hk.
    destruct (dump_escaped ensure_ascii k) as [e|e]; cbn [succeeds] in *; [|destruct Hk as [Hk [->|]]; [|easy]; tauto].
    destruct (dump_value ensure_ascii v) as [t|t]; cbn [succeeds] in *; tauto.
Qed.

(** ** The interface *)

(** The values have no floating-point numbers. *)
Definition no_float (text : string) : result json := Throw undefined.

#[export, refine] Instance json_text : JsonText := {| dump := dump_value false; parse := parse_text no_float |}.
Proof.
  intros j s W D. rewrite <- (string_app_nil_r s). now apply (parse_dumped no_float false).
Defined.

(** ** What the text promises *)

(** C5: a well-formed JSON value that [dump] writes is parsed back as itself, whatever the
    conversion of floating-point numbers is and with either setting of [ensure_ascii]; so is the
    text followed by a null byte and any garbage, since the lexer takes the null byte for the end
    of the input. *)
Theorem json_roundtrip (float_value : string -> result json) (ensure_ascii : bool) (j : json) (s garbage : string)
    (W : wf j = true) (D : dump_value ensure_ascii j = Ok s) :
  parse_text float_value s = Ok j /\ parse_text float_value (s ++ String (chr 0) garbage) = Ok j.
Proof.
  split; [rewrite <- (string_app_nil_r s)|]; now apply (parse_dumped float_value ensure_ascii).
Qed.

(** An object with every kind of value, a string that needs escapes and a three-byte character. *)
Definition sample : json :=
  JObj [("a", JArr [JNum (- 2 ^ 63); JNum (2 ^ 64 - 1); JNull; JBool true; JArr []]);
        ("b", JStr (String quote (String "\" (String (chr 7) (utf8 0x20AC)))));
        ("c", JObj [])].

Lemma json_roundtrip_witness : exists s, dump_value true sample = Ok s /\
  parse_text no_float (s ++ String (chr 0) "[") = Ok sample.
Proof.
  eexists. split; [vm_compute; reflexivity|].
  refine (proj2 (json_roundtrip no_float true sample _ "[" _ _)); vm_compute; reflexivity.
Defined.

(** C34: [json::parse] ends on every text: the loop of [scan_string] with one round for each
    character and the loop of the parser with two more than the characters return. *)
Theorem parse_total (float_value : string -> result json) (s : string) :
  (exists r, scan_string_go (S (String.length s)) "" s = Some r) /\
  exists r, sax_parse_internal float_value (String.length s + 2) (start_parser s) = Some r.
Proof.
  split; [|apply sax_parse_total, start_measure].
  destruct (scan_string_go_total (S (String.length s)) "" s) as (t & r & E & _); [lia | eauto].
Qed.

(** C35: whatever the text, a parsed value is well formed: the members of every object in it are
    sorted by key, each key once, so a repeated key of the text has left one member. *)
Theorem parse_wf (float_value : string -> result json) (s : string) (j : json)
    (Hfloat : forall t v, float_value t = Ok v -> wf v = true) :
  parse_text float_value s = Ok j -> wf j = true.
Proof. now apply parse_text_wf. Qed.

Lemma parse_wf_witness : wf (JObj [("a", JNum 2); ("b", JArr [JNull])]) = true.
Proof.
  apply (parse_wf no_float
    (String "{" (quoted "b" ++ ":[null]," ++ quoted "a" ++ ":1," ++ quoted "a" ++ ":2}"))); [easy|].
  vm_compute. reflexivity.
Defined.

(** C36: [dump] succeeds exactly on the values whose strings and keys are UTF-8, and fails on others
    with [type_error] (the numbers being those the type has). *)
Theorem dump_printable (ensure_ascii : bool) (j : json) :
  match dump_value ensure_ascii j with
  | Ok _ => printable j
  | Throw e => ~ printable j /\ (e = type_error \/ numbers j = false)
  end.
Proof. exact (dump_succeeds ensure_ascii j). Qed.

(** [dump_integer] writes a 64-bit integer, signed or unsigned, as [std::to_string] does,
    without leaving its buffer of 64 bytes; the lexer reads the number up to what follows it. *)
Theorem integer_text (z : Z) (rest : string) (H : is_number z = true) (Hd : delimited rest) :
  dump_integer z = Ok (to_string z) /\
  exists t, scan_token (to_string z ++ rest) = (t, rest) /\ (t = value_unsigned z \/ t = value_integer z).
Proof. split; [now apply dump_integer_text | now apply scan_dumped_integer]. Qed.

Lemma integer_text_witness : dump_integer (- 2 ^ 63) = Ok "-9223372036854775808".
Proof. destruct (integer_text (- 2 ^ 63) "," eq_refl (conj eq_refl (conj eq_refl eq_refl))) as [E _]. exact E. Defined.
