(* ===== verification/Transaction.v ===== *)
(** * Transactions

    The class [Transaction] (src/BlockChainCommon/transaction.cpp, src/shared/common/transaction.h):
    the nineteen members with their setters, the three constructors, the counting of matching
    verification results ([verifyHash]) against the majority of 21 master nodes ([isVerified]), and
    the twelve members that travel as JSON ([toJson], [fromJson]). *)

From Stdlib Require Import ZArith Lia List Bool Ascii String Floats.SpecFloat.
From stdpp Require Import base gmap strings list.
From S2P Require Import Prelude.
From S2P Require Import Machine.
From S2P Require Import Cpp.
From S2P Require Import Json.
From S2P Require Import JsonText.

(** ** The majority of the master nodes *)

Definition TOTAL_MASTER_NODES : Z := 21.

(** An integer and a quotient in double precision. *)
Definition double (z : Z) : spec_float := binary_normalize 53 1024 z 0 false.
Definition dmul : spec_float -> spec_float -> spec_float := SFmul 53 1024.
Definition ddiv : spec_float -> spec_float -> spec_float := SFdiv 53 1024.

(** [MAJORITY_THRESHOLD] expands to [TOTAL_MASTER_NODES*(2.0/3.0)], computed in [double]. *)
Definition MAJORITY_THRESHOLD : spec_float := dmul (double TOTAL_MASTER_NODES) (ddiv (double 2) (double 3)).

(** The comparison of an [int] with a [double]: the conversion of the [int] is exact. *)
Definition int_ge_double (n : Z) (d : spec_float) : bool :=
  match d with
  | S754_zero _ => 0 <=? n
  | S754_finite s m e =>
      let d := if s then Zneg m else Zpos m in
      if 0 <=? e then d * 2 ^ e <=? n else d <=? n * 2 ^ (- e)
  | S754_infinity s => s
  | S754_nan => false
  end.

(** ** The object *)

Record Transaction := mkTransaction {
  m_sentToClient : bool;
  m_receivedOutput : bool;
  m_receivedFullTransaction : bool;
  m_totalVerified : Z;
  m_lastValidHash : string;
  m_inBlock : bool;
  m_timestamp : Z;
  m_txId : string;
  m_blockId : Z;
  m_computeNode : bool;
  m_tenantId : string;
  m_masterNodeId : string;
  m_computeNodeId : string;
  m_code : string;
  m_signature : string;
  m_publicKey : string;
  m_output : string;
  m_input : string;
  m_exception : string
}.

Definition with_sentToClient (v : bool) (tx : Transaction) : Transaction :=
    mkTransaction v (m_receivedOutput tx) (m_receivedFullTransaction tx) (m_totalVerified tx)
    (m_lastValidHash tx) (m_inBlock tx) (m_timestamp tx) (m_txId tx) (m_blockId tx) (m_computeNode tx)
    (m_tenantId tx) (m_masterNodeId tx) (m_computeNodeId tx) (m_code tx) (m_signature tx) (m_publicKey
    tx) (m_output tx) (m_input tx) (m_exception tx).
Definition with_receivedOutput (v : bool) (tx : Transaction) : Transaction :=
    mkTransaction (m_sentToClient tx) v (m_receivedFullTransaction tx) (m_totalVerified tx)
    (m_lastValidHash tx) (m_inBlock tx) (m_timestamp tx) (m_txId tx) (m_blockId tx) (m_computeNode tx)
    (m_tenantId tx) (m_masterNodeId tx) (m_computeNodeId tx) (m_code tx) (m_signature tx) (m_publicKey
    tx) (m_output tx) (m_input tx) (m_exception tx).
Definition with_receivedFullTransaction (v : bool) (tx : Transaction) : Transaction :=
    mkTransaction (m_sentToClient tx) (m_receivedOutput tx) v (m_totalVerified tx) (m_lastValidHash tx)
    (m_inBlock tx) (m_timestamp tx) (m_txId tx) (m_blockId tx) (m_computeNode tx) (m_tenantId tx)
    (m_masterNodeId tx) (m_computeNodeId tx) (m_code tx) (m_signature tx) (m_publicKey tx) (m_output tx)
    (m_input tx) (m_exception tx).
Definition with_totalVerified (v : Z) (tx : Transaction) : Transaction :=
    mkTransaction (m_sentToClient tx) (m_receivedOutput tx) (m_receivedFullTransaction tx) v
    (m_lastValidHash tx) (m_inBlock tx) (m_timestamp tx) (m_txId tx) (m_blockId tx) (m_computeNode tx)
    (m_tenantId tx) (m_masterNodeId tx) (m_computeNodeId tx) (m_code tx) (m_signature tx) (m_publicKey
    tx) (m_output tx) (m_input tx) (m_exception tx).
Definition with_lastValidHash (v : string) (tx : Transaction) : Transaction :=
    mkTransaction (m_sentToClient tx) (m_receivedOutput tx) (m_receivedFullTransaction tx)
    (m_totalVerified tx) v (m_inBlock tx) (m_timestamp tx) (m_txId tx) (m_blockId tx) (m_computeNode tx)
    (m_tenantId tx) (m_masterNodeId tx) (m_computeNodeId tx) (m_code tx) (m_signature tx) (m_publicKey
    tx) (m_output tx) (m_input tx) (m_exception tx).
Definition with_inBlock (v : bool) (tx : Transaction) : Transaction :=
    mkTransaction (m_sentToClient tx) (m_receivedOutput tx) (m_receivedFullTransaction tx)
    (m_totalVerified tx) (m_lastValidHash tx) v (m_timestamp tx) (m_txId tx) (m_blockId tx)
    (m_computeNode tx) (m_tenantId tx) (m_masterNodeId tx) (m_computeNodeId tx) (m_code tx) (m_signature
    tx) (m_publicKey tx) (m_output tx) (m_input tx) (m_exception tx).
Definition with_timestamp (v : Z) (tx : Transaction) : Transaction :=
    mkTransaction (m_sentToClient tx) (m_receivedOutput tx) (m_receivedFullTransaction tx)
    (m_totalVerified tx) (m_lastValidHash tx) (m_inBlock tx) v (m_txId tx) (m_blockId tx) (m_computeNode
    tx) (m_tenantId tx) (m_masterNodeId tx) (m_computeNodeId tx) (m_code tx) (m_signature tx)
    (m_publicKey tx) (m_output tx) (m_input tx) (m_exception tx).
Definition with_txId (v : string) (tx : Transaction) : Transaction :=
    mkTransaction (m_sentToClient tx) (m_receivedOutput tx) (m_receivedFullTransaction tx)
    (m_totalVerified tx) (m_lastValidHash tx) (m_inBlock tx) (m_timestamp tx) v (m_blockId tx)
    (m_computeNode tx) (m_tenantId tx) (m_masterNodeId tx) (m_computeNodeId tx) (m_code tx) (m_signature
    tx) (m_publicKey tx) (m_output tx) (m_input tx) (m_exception tx).
Definition with_blockId (v : Z) (tx : Transaction) : Transaction :=
    mkTransaction (m_sentToClient tx) (m_receivedOutput tx) (m_receivedFullTransaction tx)
    (m_totalVerified tx) (m_lastValidHash tx) (m_inBlock tx) (m_timestamp tx) (m_txId tx) v
    (m_computeNode tx) (m_tenantId tx) (m_masterNodeId tx) (m_computeNodeId tx) (m_code tx) (m_signature
    tx) (m_publicKey tx) (m_output tx) (m_input tx) (m_exception tx).
Definition with_computeNode (v : bool) (tx : Transaction) : Transaction :=
    mkTransaction (m_sentToClient tx) (m_receivedOutput tx) (m_receivedFullTransaction tx)
    (m_totalVerified tx) (m_lastValidHash tx) (m_inBlock tx) (m_timestamp tx) (m_txId tx) (m_blockId tx)
    v (m_tenantId tx) (m_masterNodeId tx) (m_computeNodeId tx) (m_code tx) (m_signature tx) (m_publicKey
    tx) (m_output tx) (m_input tx) (m_exception tx).
Definition with_tenantId (v : string) (tx : Transaction) : Transaction :=
    mkTransaction (m_sentToClient tx) (m_receivedOutput tx) (m_receivedFullTransaction tx)
    (m_totalVerified tx) (m_lastValidHash tx) (m_inBlock tx) (m_timestamp tx) (m_txId tx) (m_blockId tx)
    (m_computeNode tx) v (m_masterNodeId tx) (m_computeNodeId tx) (m_code tx) (m_signature tx)
    (m_publicKey tx) (m_output tx) (m_input tx) (m_exception tx).
Definition with_masterNodeId (v : string) (tx : Transaction) : Transaction :=
    mkTransaction (m_sentToClient tx) (m_receivedOutput tx) (m_receivedFullTransaction tx)
    (m_totalVerified tx) (m_lastValidHash tx) (m_inBlock tx) (m_timestamp tx) (m_txId tx) (m_blockId tx)
    (m_computeNode tx) (m_tenantId tx) v (m_computeNodeId tx) (m_code tx) (m_signature tx) (m_publicKey
    tx) (m_output tx) (m_input tx) (m_exception tx).
Definition with_computeNodeId (v : string) (tx : Transaction) : Transaction :=
    mkTransaction (m_sentToClient tx) (m_receivedOutput tx) (m_receivedFullTransaction tx)
    (m_totalVerified tx) (m_lastValidHash tx) (m_inBlock tx) (m_timestamp tx) (m_txId tx) (m_blockId tx)
    (m_computeNode tx) (m_tenantId tx) (m_masterNodeId tx) v (m_code tx) (m_signature tx) (m_publicKey
    tx) (m_output tx) (m_input tx) (m_exception tx).
Definition with_code (v : string) (tx : Transaction) : Transaction :=
    mkTransaction (m_sentToClient tx) (m_receivedOutput tx) (m_receivedFullTransaction tx)
    (m_totalVerified tx) (m_lastValidHash tx) (m_inBlock tx) (m_timestamp tx) (m_txId tx) (m_blockId tx)
    (m_computeNode tx) (m_tenantId tx) (m_masterNodeId tx) (m_computeNodeId tx) v (m_signature tx)
    (m_publicKey tx) (m_output tx) (m_input tx) (m_exception tx).
Definition with_signature (v : string) (tx : Transaction) : Transaction :=
    mkTransaction (m_sentToClient tx) (m_receivedOutput tx) (m_receivedFullTransaction tx)
    (m_totalVerified tx) (m_lastValidHash tx) (m_inBlock tx) (m_timestamp tx) (m_txId tx) (m_blockId tx)
    (m_computeNode tx) (m_tenantId tx) (m_masterNodeId tx) (m_computeNodeId tx) (m_code tx) v
    (m_publicKey tx) (m_output tx) (m_input tx) (m_exception tx).
Definition with_publicKey (v : string) (tx : Transaction) : Transaction :=
    mkTransaction (m_sentToClient tx) (m_receivedOutput tx) (m_receivedFullTransaction tx)
    (m_totalVerified tx) (m_lastValidHash tx) (m_inBlock tx) (m_timestamp tx) (m_txId tx) (m_blockId tx)
    (m_computeNode tx) (m_tenantId tx) (m_masterNodeId tx) (m_computeNodeId tx) (m_code tx) (m_signature
    tx) v (m_output tx) (m_input tx) (m_exception tx).
Definition with_output (v : string) (tx : Transaction) : Transaction :=
    mkTransaction (m_sentToClient tx) (m_receivedOutput tx) (m_receivedFullTransaction tx)
    (m_totalVerified tx) (m_lastValidHash tx) (m_inBlock tx) (m_timestamp tx) (m_txId tx) (m_blockId tx)
    (m_computeNode tx) (m_tenantId tx) (m_masterNodeId tx) (m_computeNodeId tx) (m_code tx) (m_signature
    tx) (m_publicKey tx) v (m_input tx) (m_exception tx).
Definition with_input (v : string) (tx : Transaction) : Transaction :=
    mkTransaction (m_sentToClient tx) (m_receivedOutput tx) (m_receivedFullTransaction tx)
    (m_totalVerified tx) (m_lastValidHash tx) (m_inBlock tx) (m_timestamp tx) (m_txId tx) (m_blockId tx)
    (m_computeNode tx) (m_tenantId tx) (m_masterNodeId tx) (m_computeNodeId tx) (m_code tx) (m_signature
    tx) (m_publicKey tx) (m_output tx) v (m_exception tx).
Definition with_exception (v : string) (tx : Transaction) : Transaction :=
    mkTransaction (m_sentToClient tx) (m_receivedOutput tx) (m_receivedFullTransaction tx)
    (m_totalVerified tx) (m_lastValidHash tx) (m_inBlock tx) (m_timestamp tx) (m_txId tx) (m_blockId tx)
    (m_computeNode tx) (m_tenantId tx) (m_masterNodeId tx) (m_computeNodeId tx) (m_code tx) (m_signature
    tx) (m_publicKey tx) (m_output tx) (m_input tx) v.

(** [Transaction()]; [Transaction(txId, timestamp)] of the node the client talks to; and
    [Transaction(txId, hash, timestamp)] of a node that hears a verification result first. *)
Definition new_transaction : Transaction :=
  mkTransaction false false false 0 "" false 0 "" 0 false "" "" "" "" "" "" "" "" "".

Definition own_transaction (txId : string) (timestamp : Z) : Transaction :=
  with_computeNode true (with_receivedFullTransaction true (with_timestamp timestamp (with_txId txId new_transaction))).

Definition partial_transaction (txId hash : string) (timestamp : Z) : Transaction :=
  with_timestamp timestamp (with_lastValidHash hash (with_txId txId new_transaction)).

Definition setOutput (output : string) (tx : Transaction) : Transaction :=
  with_receivedOutput true (with_output output tx).

(** [m_totalVerified++] on an [int]. *)
Definition incrementTotalVerified (tx : Transaction) : Transaction :=
  with_totalVerified (i32 (m_totalVerified tx + 1)) tx.

Definition verifyHash (hash : string) (tx : Transaction) : Transaction * bool :=
  if String.eqb (m_lastValidHash tx) "" then (incrementTotalVerified (with_lastValidHash hash tx), true)
  else if String.eqb hash (m_lastValidHash tx) then (incrementTotalVerified tx, true)
  else (tx, false).

Definition canSend (tx : Transaction) : bool := negb (m_sentToClient tx) && m_computeNode tx.

Definition isVerified (tx : Transaction) : bool :=
  int_ge_double (m_totalVerified tx) MAJORITY_THRESHOLD && m_receivedFullTransaction tx && m_receivedOutput tx.

(** ** JSON *)

Definition toJson (tx : Transaction) : json :=
  object [("txid", JStr (m_txId tx)); ("t", JNum (m_timestamp tx)); ("h", JStr (m_lastValidHash tx));
          ("mid", JStr (m_masterNodeId tx)); ("cid", JStr (m_computeNodeId tx)); ("tid", JStr (m_tenantId tx));
          ("s", JStr (m_signature tx)); ("k", JStr (m_publicKey tx)); ("co", JStr (m_code tx));
          ("o", JStr (m_output tx)); ("i", JStr (m_input tx)); ("e", JStr (m_exception tx))].

(** [m_x = j["k"].get<std::string>()]: an exception leaves the members already read. *)
Definition read_string (j : json) (k : string) (set : string -> Transaction -> Transaction) : M Transaction unit :=
  v ← of_result (at_const j k ≫= get_string); modify (set v).

Definition read_int (j : json) (k : string) (set : Z -> Transaction -> Transaction) : M Transaction unit :=
  v ← of_result (at_const j k ≫= get_int); modify (set v).

Definition fromJson (j : json) : M Transaction unit :=
  read_string j "txid" with_txId;;
  read_int j "t" with_timestamp;;
  read_string j "h" with_lastValidHash;;
  read_string j "mid" with_masterNodeId;;
  read_string j "cid" with_computeNodeId;;
  read_string j "tid" with_tenantId;;
  read_string j "s" with_signature;;
  read_string j "k" with_publicKey;;
  read_string j "co" with_code;;
  read_string j "o" with_output;;
  read_string j "i" with_input;;
  read_string j "e" with_exception;;
  modify (with_receivedFullTransaction true).

(** ** The majority is 14 matching results *)

Lemma majority_is_14 (n : Z) : int_ge_double n MAJORITY_THRESHOLD = (14 <=? n).
Proof.
  assert (E : MAJORITY_THRESHOLD = S754_finite false 7881299347898368 (-49)) by (vm_compute; reflexivity).
  rewrite E; unfold int_ge_double. change (0 <=? -49) with false; cbv iota.
  change (- -49) with 49. change (Z.pos 7881299347898368) with (14 * 2 ^ 49).
  apply eq_true_iff_eq. rewrite !Z.leb_le. split; intros H; nia.
Qed.

(** The results that count: the empty ones in front, and those equal to the first non-empty one. *)
Definition count_hash (h : string) (hs : list string) : Z := Z.of_nat (length (filter (fun x => x = h) hs)).

Lemma verify_empty (tx : Transaction) : m_lastValidHash tx = "" ->
  (verifyHash "" tx).1 = incrementTotalVerified tx.
Proof. intros H; unfold verifyHash; rewrite H; cbn. f_equal. destruct tx; cbn in *; now subst. Qed.

Definition verify_all (hs : list string) (tx : Transaction) : Transaction :=
  foldl (fun tx h => (verifyHash h tx).1) tx hs.

Lemma verify_all_first (h : string) (hs : list string) (tx : Transaction) : h <> "" ->
  m_lastValidHash tx = h -> 0 <= m_totalVerified tx -> m_totalVerified tx + Z.of_nat (length hs) < 2 ^ 31 ->
  m_totalVerified (verify_all hs tx) = m_totalVerified tx + count_hash h hs /\
  m_lastValidHash (verify_all hs tx) = h.
Proof.
  intros Hh; revert tx; induction hs as [|x hs IH]; intros tx Hl H0 Hb;
    [split; [unfold count_hash; rewrite filter_nil; cbn [length verify_all foldl]; lia | exact Hl]|].
  cbn [length] in Hb. change (verify_all (x :: hs) tx) with (verify_all hs (verifyHash x tx).1).
  unfold count_hash in *; rewrite filter_cons. unfold verifyHash. rewrite Hl.
  destruct (String.eqb_spec h "") as [|_]; [easy|].
  destruct (String.eqb_spec x h) as [->|Hx].
  - rewrite decide_True by reflexivity. cbn [fst length].
    assert (E : m_totalVerified (incrementTotalVerified tx) = m_totalVerified tx + 1)
      by (cbn; unfold i32; rewrite Z.mod_small; lia).
    destruct (IH (incrementTotalVerified tx)) as [I1 I2]; [exact Hl | lia | lia |]. split; [lia | exact I2].
  - rewrite decide_False by exact Hx; cbn [fst]. apply IH; [exact Hl | exact H0 | lia].
Qed.

(** What a verification does not touch. *)
Lemma verify_all_frame (hs : list string) (tx : Transaction) :
  m_receivedFullTransaction (verify_all hs tx) = m_receivedFullTransaction tx /\
  m_receivedOutput (verify_all hs tx) = m_receivedOutput tx.
Proof.
  revert tx; induction hs as [|x hs IH]; intros tx; [easy|].
  change (verify_all (x :: hs) tx) with (verify_all hs (verifyHash x tx).1).
  destruct (IH (verifyHash x tx).1) as [-> ->]. unfold verifyHash.
  destruct (String.eqb (m_lastValidHash tx) ""), (String.eqb x (m_lastValidHash tx)); easy.
Qed.

Lemma verify_all_empties (k : nat) (tx : Transaction) : m_lastValidHash tx = "" ->
  0 <= m_totalVerified tx -> m_totalVerified tx + Z.of_nat k < 2 ^ 31 ->
  m_totalVerified (verify_all (replicate k "") tx) = m_totalVerified tx + Z.of_nat k /\
  m_lastValidHash (verify_all (replicate k "") tx) = "".
Proof.
  revert tx; induction k as [|k IH]; intros tx Hl H0 Hb; [cbn; split; [lia | exact Hl]|].
  cbn [replicate]. change (verify_all ("" :: replicate k "") tx) with (verify_all (replicate k "") (verifyHash "" tx).1).
  rewrite verify_empty by exact Hl.
  assert (E : m_totalVerified (incrementTotalVerified tx) = m_totalVerified tx + 1)
    by (cbn; unfold i32; rewrite Z.mod_small; lia).
  destruct (IH (incrementTotalVerified tx)) as [I1 I2]; [exact Hl | lia | lia |]. split; [lia | exact I2].
Qed.

Lemma verify_all_app (a b : list string) (tx : Transaction) :
  verify_all (a ++ b) tx = verify_all b (verify_all a tx).
Proof. apply foldl_app. Qed.

(** A transaction that received its notification and its output is verified exactly when 14
    verification results counted, whoever sent them: all empty results in front, and those equal to
    the first non-empty one. *)
Theorem verified_by_count (k : nat) (h : string) (hs : list string) (tx : Transaction) :
  h <> "" -> m_lastValidHash tx = "" -> m_totalVerified tx = 0 ->
  Z.of_nat k + Z.of_nat (length hs) + 1 < 2 ^ 31 ->
  m_receivedFullTransaction tx = true -> m_receivedOutput tx = true ->
  isVerified (verify_all (replicate k "" ++ h :: hs) tx) = (14 <=? Z.of_nat k + 1 + count_hash h hs).
Proof.
  intros Hh Hl H0 Hb Hf Ho. rewrite verify_all_app.
  destruct (verify_all_empties k tx) as [E1 E2]; [assumption | lia | lia |].
  destruct (verify_all_frame (replicate k "") tx) as [F1 F2].
  set (t := verify_all (replicate k "") tx) in *.
  change (verify_all (h :: hs) t) with (verify_all hs (verifyHash h t).1).
  unfold isVerified. destruct (verify_all_frame hs (verifyHash h t).1) as [-> ->].
  unfold verifyHash; rewrite E2; cbn [String.eqb fst].
  assert (T : m_totalVerified (incrementTotalVerified (with_lastValidHash h t)) = Z.of_nat k + 1)
    by (cbn; unfold i32; rewrite Z.mod_small; lia).
  destruct (verify_all_first h hs (incrementTotalVerified (with_lastValidHash h t))) as [V _];
    [exact Hh | reflexivity | lia | lia |].
  rewrite V, T, majority_is_14. cbn. now rewrite F1, F2, Hf, Ho, !andb_true_r.
Qed.

(** Fourteen equal results of one sender verify a transaction, and thirteen do not. *)
Lemma verified_by_count_witness :
  let tx := setOutput "42" (own_transaction "tx1" 1000) in
  isVerified (verify_all (replicate 0 "" ++ "abc" :: replicate 13 "abc") tx) = (14 <=? 0 + 1 + 13) /\
  isVerified (verify_all (replicate 0 "" ++ "abc" :: replicate 12 "abc") tx) = false.
Proof.
  split; [|vm_compute; reflexivity].
  apply (verified_by_count 0 "abc" (replicate 13 "abc")); vm_compute; congruence.
Defined.

(** ** The round trip *)

(** The members that travel, from [tx] onto [old]. *)
Definition received (tx old : Transaction) : Transaction :=
  with_receivedFullTransaction true (with_exception (m_exception tx) (with_input (m_input tx)
  (with_output (m_output tx) (with_code (m_code tx) (with_publicKey (m_publicKey tx)
  (with_signature (m_signature tx) (with_tenantId (m_tenantId tx) (with_computeNodeId (m_computeNodeId tx)
  (with_masterNodeId (m_masterNodeId tx) (with_lastValidHash (m_lastValidHash tx)
  (with_timestamp (m_timestamp tx) (with_txId (m_txId tx) old)))))))))))).

Lemma fromJson_toJson (tx old : Transaction) : fromJson (toJson tx) old = (received tx old, Ok tt).
Proof. destruct tx, old; reflexivity. Qed.

Lemma wf_toJson (tx : Transaction) : wf (toJson tx) = true.
Proof. now apply wf_object. Qed.

(** C38: What a node reads back from the text of a transaction is that transaction: the twelve
    members that travel are those of the sender, the others (the verification count, the flags)
    stay the receiver's own, and the transaction counts as fully received. *)
Theorem transaction_roundtrip `{JsonText} (tx old : Transaction) (s : string) :
  dump (toJson tx) = Ok s ->
  exists j, parse s = Ok j /\ fromJson j old = (received tx old, Ok tt) /\
    toJson (received tx old) = toJson tx /\
    m_totalVerified (received tx old) = m_totalVerified old /\ m_inBlock (received tx old) = m_inBlock old.
Proof.
  intros Hd. exists (toJson tx). splits; [apply parse_dump; [apply wf_toJson | exact Hd] | apply fromJson_toJson |..];
    destruct tx, old; reflexivity.
Qed.

Lemma transaction_roundtrip_witness :
  let tx := setOutput "42" (own_transaction "tx1" 1000) in
  exists s j, dump (toJson tx) = Ok s /\ parse s = Ok j /\ fromJson j new_transaction = (received tx new_transaction, Ok tt).
Proof.
  intros tx. pose (s := match dump (toJson tx) with Ok s => s | Throw _ => "" end).
  assert (E : dump (toJson tx) = Ok s) by (vm_compute; reflexivity).
  destruct (transaction_roundtrip tx new_transaction s E) as (j & P & F & _). exists s, j.
  split; [exact E | split; [exact P | exact F]].
Defined.
