(* ===== verification/Wire.v ===== *)
(** * The wire format

    The messages the nodes exchange (src/BlockChainCommon/functions.cpp): fields separated by [|],
    each a key and a value separated by [:], with the two delimiters escaped in values. [gossip]
    writes a message, [getFieldsAndValues] reads one; [receive] is the part of [processIncomingData]
    before a handler runs: the node's own, old and repeated messages are dropped. *)

From Stdlib Require Import ZArith Lia List Bool Ascii String.
From stdpp Require Import base gmap strings list fin_maps.
From S2P Require Import Prelude.
From S2P Require Import Machine.
From S2P Require Import Cpp.

Local Open Scope string_scope.

Definition NUL : ascii := "000".

(** [removeNullTerminators]. *)
Fixpoint removeNullTerminators (s : string) : string :=
  match s with
  | EmptyString => ""
  | String c s' => if Ascii.eqb c NUL then removeNullTerminators s' else String c (removeNullTerminators s')
  end.

(** ** Commands *)

Inductive CommandType :=
| connectionRequest | codeDelivery | choseRandomNumber | verificationResult | closeBlock | stateChange
| syncNewBlock | blockRequest | blockResponse | fetchFunction | fetchTemplate | fetchDocument
| deterministicCodeDelivery | canCommit | txNotification | verifyBlock | exception | storageurl
| exeFunction | syncNodes | stateChangeResponse.

#[export] Instance CommandType_eq_dec : EqDecision CommandType.
Proof. solve_decision. Defined.

(** The values of the enumeration count from 1. *)
Definition commands : list CommandType :=
  [connectionRequest; codeDelivery; choseRandomNumber; verificationResult; closeBlock; stateChange;
   syncNewBlock; blockRequest; blockResponse; fetchFunction; fetchTemplate; fetchDocument;
   deterministicCodeDelivery; canCommit; txNotification; verifyBlock; exception; storageurl;
   exeFunction; syncNodes; stateChangeResponse].

Definition command_code (c : CommandType) : Z :=
  match c with
  | connectionRequest => 1 | codeDelivery => 2 | choseRandomNumber => 3 | verificationResult => 4
  | closeBlock => 5 | stateChange => 6 | syncNewBlock => 7 | blockRequest => 8 | blockResponse => 9
  | fetchFunction => 10 | fetchTemplate => 11 | fetchDocument => 12 | deterministicCodeDelivery => 13
  | canCommit => 14 | txNotification => 15 | verifyBlock => 16 | exception => 17 | storageurl => 18
  | exeFunction => 19 | syncNodes => 20 | stateChangeResponse => 21
  end.

(** [static_cast<CommandType>(atoi(s))]: the enumeration is a [char]; other values name no command. *)
Definition read_command (s : string) : option CommandType :=
  list_find (fun c => command_code c = s8 (atoi s)) commands ≫= fun p => Some p.2.

(** ** Encoding and decoding of values *)

Section Wire.
Context `{BoostStrings}.

Definition encode_value (v : string) : string := replace_all "|" "%7C" (replace_all ":" "%3A" v).
Definition decode_value (v : string) : string := replace_all "%7C" "|" (replace_all "%3A" ":" v).

(** One field of a message; an existing key is not overwritten. *)
Definition add_field (k v : string) (m : gmap string string) : gmap string string :=
  match m !! k with Some _ => m | None => <[k := v]> m end.

Definition read_field (m : gmap string string) (pair : string) : result (gmap string string) :=
  match split ":" pair with
  | k :: v :: _ => Ok (add_field k (decode_value v) m)
  | _ => Throw out_of_range
  end.

Definition getFieldsAndValues (inputString : string) : result (gmap string string) :=
  foldl (fun r pair => r ≫= fun m => read_field m pair) (Ok ∅) (split "|" inputString).

(** [theFields[k]] on a map of strings: a missing field is empty. *)
Definition field_or_empty (fields : gmap string string) (k : string) : string := default "" (fields !! k).

(** ** Sending *)

Definition reserved (key : string) : bool :=
  String.eqb key "msgid" || String.eqb key "k" || String.eqb key "c" || String.eqb key "chanid".

(** [gossip(channelId, cmd, kv)]: the message, the fields in the order [kv] lists them. *)
Definition command_message (cmd : CommandType) (kv : list (string * string)) : result string :=
  foldl (fun r p => r ≫= fun msg =>
      if reserved p.1 then Throw runtime_error
      else Ok (msg ++ "|" ++ p.1 ++ ":" ++ encode_value p.2))
    (Ok ("c:" ++ to_string (command_code cmd))) kv.

(** [gossip(channelId, msg, false)]: the fields every message gets, with a fresh identifier, the
    sender's key and the time; what is stored in the DHT under [nonce] for the receivers to fetch. *)
Definition complete_message (msg msgid key : string) (now : Z) : string :=
  removeNullTerminators
    (msg ++ "|msgid:" ++ msgid ++ "|k:" ++ key ++ "|tm:" ++ to_string now).

(** [dataHandler]: the packet names the nonce; the fetched data is completed with it. *)
Definition fetched (data nonce : string) : string := data ++ "|nonce:" ++ nonce.

End Wire.

(** ** Escaping *)

(** One delimiter [c] and its escape, a percent sign and two characters that are neither. *)
Record escape (c x y : ascii) : Prop := {
  esc_percent : c <> "%"%char;
  esc_x : x <> c /\ x <> "%"%char;
  esc_y : y <> c /\ y <> "%"%char
}.

Section Escape.
Context `{BoostStrings} (c x y : ascii) (Hesc : escape c x y).

Local Abbreviation del := (String c "").
Local Abbreviation esc := (String "%" (String x (String y ""))).

Lemma enc_cons (d : ascii) (s : string) :
  replace_all del esc (String d s) = if Ascii.eqb d c then esc ++ replace_all del esc s else String d (replace_all del esc s).
Proof.
  destruct (Ascii.eqb_spec d c) as [->|Hd].
  - exact (replace_match del esc s ltac:(discriminate)).
  - apply replace_other; [discriminate|]. rewrite prefix_cons. now rewrite (proj2 (Ascii.eqb_neq c d)) by congruence.
Qed.

Lemma dec_esc (s : string) : replace_all esc del (esc ++ s) = String c (replace_all esc del s).
Proof. exact (replace_match esc del s ltac:(discriminate)). Qed.

Lemma dec_other (d : ascii) (s : string) : String.prefix esc (String d s) = false ->
  replace_all esc del (String d s) = String d (replace_all esc del s).
Proof. apply replace_other; discriminate. Qed.

Lemma dec_not_percent (d : ascii) (s : string) : d <> "%"%char ->
  replace_all esc del (String d s) = String d (replace_all esc del s).
Proof. intros Hd; apply dec_other; rewrite prefix_cons; now rewrite (proj2 (Ascii.eqb_neq "%" d)) by congruence. Qed.

(** Escaping does not disturb a prefix without the delimiter and the percent sign. *)
Lemma prefix_enc (p s : string) : mem c p = false -> mem "%" p = false ->
  String.prefix p (replace_all del esc s) = String.prefix p s.
Proof.
  revert s; induction p as [|d p IH]; intros s Hc Hp; [now destruct s, (replace_all del esc _)|].
  cbn [mem] in Hc, Hp. apply orb_false_iff in Hc as [Hc Hc'], Hp as [Hp Hp'].
  destruct s as [|e s]; [now rewrite replace_empty|]. rewrite enc_cons.
  destruct (Ascii.eqb_spec e c) as [->|He]; rewrite ?string_app_cons, !prefix_cons; [|now rewrite IH].
  rewrite Ascii.eqb_sym in Hc, Hp. now rewrite Hc, Hp.
Qed.

Lemma esc_tail_clean : mem c (String x (String y "")) = false /\ mem "%" (String x (String y "")) = false.
Proof.
  destruct Hesc as [_ [X1 X2] [Y1 Y2]]. cbn [mem]. rewrite !orb_false_iff.
  splits; try reflexivity; apply Ascii.eqb_neq; congruence.
Qed.

Lemma prefix_esc_enc (d : ascii) (s : string) :
  String.prefix esc (String d (replace_all del esc s)) = String.prefix esc (String d s).
Proof.
  destruct esc_tail_clean as [H1 H2]. rewrite !prefix_cons. f_equal. exact (prefix_enc (String x (String y "")) s H1 H2).
Qed.

Lemma enc_esc (s : string) : replace_all del esc (esc ++ s) = esc ++ replace_all del esc s.
Proof.
  destruct Hesc as [P [X1 X2] [Y1 Y2]]. rewrite !string_app_cons, string_app_nil_l, !enc_cons.
  rewrite !(proj2 (Ascii.eqb_neq _ _)) by congruence. reflexivity.
Qed.

(** Reading what was escaped is reading the original: escaping adds no escape of its own. *)
Lemma dec_enc (s : string) : replace_all esc del (replace_all del esc s) = replace_all esc del s.
Proof.
  induction s as [s IH] using (induction_ltof1 _ String.length). unfold ltof in IH.
  destruct s as [|d t]; [now rewrite replace_empty|]. destruct Hesc as [P _ _].
  rewrite enc_cons. destruct (Ascii.eqb_spec d c) as [->|Hd].
  - rewrite dec_esc, IH by (cbn; lia). now rewrite dec_not_percent.
  - destruct (String.prefix esc (String d t)) eqn:E.
    + apply prefix_split in E as [t' E]. rewrite string_app_cons in E; injection E as -> ->.
      assert (A : String "%" (replace_all del esc (String x (String y "") ++ t')) = esc ++ replace_all del esc t').
      { rewrite <- enc_esc. rewrite (string_app_cons "%"), enc_cons. now rewrite (proj2 (Ascii.eqb_neq "%" c)) by congruence. }
      rewrite A. change (String "%" (String x (String y "") ++ t')) with (esc ++ t').
      rewrite !dec_esc. f_equal. apply IH. str_len.
    + rewrite !dec_other by (rewrite ?prefix_esc_enc; exact E). f_equal. apply IH; cbn; lia.
Qed.

(** Text without the escape is read as it is, other text gets shorter. *)
Lemma dec_clean (s : string) : contains esc s = false -> replace_all esc del s = s.
Proof.
  induction s as [|d s IH]; [now rewrite replace_empty|]. cbn [contains].
  intros [H1 H2]%orb_false_iff. rewrite dec_other by exact H1. f_equal; auto.
Qed.

Lemma dec_length (s : string) :
  (String.length (replace_all esc del s) <= String.length s)%nat /\
  (contains esc s = true -> (String.length (replace_all esc del s) < String.length s)%nat).
Proof.
  induction s as [s IH] using (induction_ltof1 _ String.length). unfold ltof in IH.
  destruct s as [|d t]; [rewrite replace_empty; split; [lia | easy]|].
  destruct (String.prefix esc (String d t)) eqn:E.
  - apply prefix_split in E as [t' E]. rewrite E, dec_esc.
    destruct (IH t') as [L _]; [rewrite E; str_len|].
    split; intros; str_len.
  - rewrite dec_other by exact E. destruct (IH t) as [L1 L2]; [cbn; lia|]. split; [cbn; lia|].
    cbn [contains]. rewrite E. cbn [orb String.length]. intros F; specialize (L2 F); lia.
Qed.

Lemma mem_enc (d : ascii) (s : string) : mem d (replace_all del esc s) = true ->
  d = "%"%char \/ d = x \/ d = y \/ (d <> c /\ mem d s = true).
Proof.
  induction s as [|e s IH]; [now rewrite replace_empty|]. rewrite enc_cons.
  destruct (Ascii.eqb_spec e c) as [->|He]; rewrite ?string_app_cons, ?string_app_nil_l; cbn [mem];
    rewrite !orb_true_iff, ?Ascii.eqb_eq; intuition congruence.
Qed.
End Escape.

(** Two escapes do not interfere. *)
Section Two.
Context `{BoostStrings} (c x y c' x' y' : ascii) (Hesc : escape c x y) (Hesc' : escape c' x' y').
Context (Hc : c <> c') (Hxy : (x, y) <> (x', y')) (Hx : x <> c') (Hy : y <> c').

Local Abbreviation del := (String c "").
Local Abbreviation esc := (String "%" (String x (String y ""))).
Local Abbreviation del' := (String c' "").
Local Abbreviation esc' := (String "%" (String x' (String y' ""))).

Lemma dec_enc_comm (s : string) :
  replace_all esc del (replace_all del' esc' s) = replace_all del' esc' (replace_all esc del s).
Proof.
  induction s as [s IH] using (induction_ltof1 _ String.length). unfold ltof in IH.
  destruct s as [|d t]; [now rewrite !replace_empty|].
  pose proof Hesc as [P [X1 X2] [Y1 Y2]]. pose proof Hesc' as [P' [X1' X2'] [Y1' Y2']].
  rewrite enc_cons. destruct (Ascii.eqb_spec d c') as [->|Hd].
  - rewrite (dec_not_percent c x y c') by exact P'. rewrite enc_cons, Ascii.eqb_refl, <- IH by (cbn; lia).
    rewrite !string_app_cons, string_app_nil_l, dec_other, !dec_not_percent by
      (assumption || (rewrite !prefix_cons; destruct (Ascii.eqb_spec x x'), (Ascii.eqb_spec y y'); congruence || reflexivity)).
    reflexivity.
  - destruct (String.prefix esc (String d t)) eqn:E.
    + apply prefix_split in E as [t' E]. rewrite E, dec_esc, enc_cons, (proj2 (Ascii.eqb_neq c c') Hc), <- IH
        by (rewrite E; str_len).
      assert (A : String d (replace_all del' esc' t) = esc ++ replace_all del' esc' t').
      { rewrite string_app_cons in E; injection E as -> ->. rewrite !string_app_cons, !string_app_nil_l, !enc_cons.
        now rewrite (proj2 (Ascii.eqb_neq x c') Hx), (proj2 (Ascii.eqb_neq y c') Hy). }
      now rewrite A, dec_esc.
    + rewrite (dec_other c x y d t E), enc_cons, (proj2 (Ascii.eqb_neq d c') Hd), <- IH by (cbn; lia).
      rewrite dec_other; [reflexivity|].
      rewrite prefix_cons in E |- *. etransitivity; [|exact E]. f_equal. apply (prefix_enc c' x' y' (String x (String y "")) t).
      all: cbn [mem]; rewrite !orb_false_iff; splits; try reflexivity; apply Ascii.eqb_neq; congruence.
Qed.
End Two.

(** ** Values *)

Section Values.
Context `{BoostStrings}.

Lemma escape_colon : escape ":" "3" "A".
Proof. split; [|split|split]; discriminate. Qed.

Lemma escape_bar : escape "|" "7" "C".
Proof. split; [|split|split]; discriminate. Qed.

(** The receiver reads the value as if it had not been escaped at all. *)
Lemma decode_encode_value (v : string) : decode_value (encode_value v) = decode_value v.
Proof.
  unfold decode_value, encode_value.
  rewrite (dec_enc_comm ":" "3" "A" "|" "7" "C" escape_colon escape_bar) by discriminate.
  rewrite (dec_enc "|" "7" "C" escape_bar). f_equal. apply (dec_enc ":" "3" "A" escape_colon).
Qed.

Lemma encode_delimiter_free (v : string) :
  mem ":" (encode_value v) = false /\ mem "|" (encode_value v) = false.
Proof.
  split; apply not_true_iff_false; unfold encode_value; intros F;
    apply (mem_enc "|" "7" "C") in F as [F|[F|[F|[F G]]]]; try discriminate; [|easy].
  apply (mem_enc ":" "3" "A") in G as [G|[G|[G|[G _]]]]; easy || discriminate.
Qed.

(** The values that survive the trip unchanged are exactly those without an escape in them. *)
Lemma decode_value_id (v : string) :
  decode_value v = v <-> contains "%3A" v = false /\ contains "%7C" v = false.
Proof.
  unfold decode_value. split.
  - intros E. destruct (contains "%3A" v) eqn:C1.
    + destruct (dec_length ":" "3" "A" v) as [_ L]. destruct (dec_length "|" "7" "C" (replace_all "%3A" ":" v)) as [L' _].
      rewrite E in L'. specialize (L C1). lia.
    + split; [reflexivity|]. rewrite (dec_clean ":" "3" "A") in E by exact C1.
      destruct (contains "%7C" v) eqn:C2; [|reflexivity].
      destruct (dec_length "|" "7" "C" v) as [_ L]. specialize (L C2). rewrite E in L. lia.
  - intros [C1 C2]. rewrite (dec_clean ":" "3" "A" v C1). apply (dec_clean "|" "7" "C" v C2).
Qed.

(** A value sent with [gossip] is received unchanged exactly when it contains neither of the
    escapes [%3A] and [%7C]. *)
Theorem value_roundtrip (v : string) :
  decode_value (encode_value v) = v <-> contains "%3A" v = false /\ contains "%7C" v = false.
Proof. rewrite decode_encode_value. apply decode_value_id. Qed.
End Values.

(** ** Messages *)

Section Messages.
Context `{BoostStrings}.

(** Keys and identifiers: free of delimiters and null characters. *)
Definition plain (s : string) : bool := negb (mem "|" s || mem ":" s || mem NUL s).

(** Values that survive: without an escape and without null characters. *)
Definition plain_value (v : string) : bool := negb (contains "%3A" v || contains "%7C" v || mem NUL v).

Lemma plain_spec (s : string) : plain s = true <-> mem "|" s = false /\ mem ":" s = false /\ mem NUL s = false.
Proof. unfold plain; rewrite negb_true_iff, !orb_false_iff; tauto. Qed.

Lemma plain_to_string (n : Z) : 0 <= n -> plain (to_string n) = true.
Proof. intros Hn; apply plain_spec; splits; now apply mem_to_string. Qed.

Lemma removeNull_id (s : string) : mem NUL s = false -> removeNullTerminators s = s.
Proof.
  induction s as [|c s IH]; [reflexivity|]. cbn [mem]. intros [H1 H2]%orb_false_iff.
  cbn [removeNullTerminators]. rewrite Ascii.eqb_sym, H1. f_equal; auto.
Qed.

Lemma mem_encode (c : ascii) (v : string) : c <> "%"%char -> isdigit c = false -> c <> "A"%char -> c <> "C"%char ->
  mem c v = false -> mem c (encode_value v) = false.
Proof.
  intros H1 H2 H3 H4 Hv. apply not_true_iff_false; unfold encode_value; intros F.
  apply (mem_enc "|" "7" "C") in F as [F|[F|[F|[_ F]]]]; try (subst; discriminate || easy).
  apply (mem_enc ":" "3" "A") in F as [F|[F|[F|[_ F]]]]; subst; discriminate || congruence.
Qed.

(** The text of a field, and what a field adds to the fields read before it. *)
Definition field_text (p : string * string) : string := p.1 ++ ":" ++ p.2.

Lemma add_field_union (k v : string) (m : gmap string string) : add_field k v m = m ∪ {[k := v]}.
Proof.
  unfold add_field. apply map_eq; intros i. rewrite lookup_union.
  destruct (m !! k) eqn:E; destruct (decide (i = k)) as [->|Hne]; rewrite ?E, ?lookup_insert_eq, ?lookup_singleton_eq;
    rewrite ?lookup_insert_ne, ?lookup_singleton_ne by congruence; try reflexivity; now destruct (m !! i).
Qed.

Lemma read_field_text (m : gmap string string) (k v : string) : mem ":" k = false -> mem ":" v = false ->
  read_field m (field_text (k, v)) = Ok (add_field k (decode_value v) m).
Proof. intros Hk Hv. unfold read_field, field_text; cbn [fst snd]. now rewrite (split_pair ":" k v Hk Hv). Qed.

Lemma read_fields (l : list (string * string)) (m : gmap string string) :
  Forall (fun p => mem ":" p.1 = false /\ mem ":" p.2 = false) l ->
  foldl (fun r pair => r ≫= fun m => read_field m pair) (Ok m) (map field_text l)
  = Ok (m ∪ list_to_map (prod_map id decode_value <$> l)).
Proof.
  intros Hl; revert m; induction Hl as [|[k v] l [Hk Hv] Hl IH]; intros m; cbn [map foldl].
  - cbn. now rewrite (right_id_L ∅ (∪)).
  - change (Ok m ≫= fun m0 => read_field m0 (field_text (k, v))) with (read_field m (field_text (k, v))).
    rewrite read_field_text by assumption. rewrite IH, add_field_union. f_equal.
    rewrite <- (assoc_L (∪)). f_equal. cbn. symmetry; apply insert_union_singleton_l.
Qed.

Lemma get_joined (l : list (string * string)) : l <> [] ->
  Forall (fun p => mem "|" p.1 = false /\ mem ":" p.1 = false /\ mem "|" p.2 = false /\ mem ":" p.2 = false) l ->
  getFieldsAndValues (join "|" (map field_text l)) = Ok (list_to_map (prod_map id decode_value <$> l)).
Proof.
  intros Hl Fl. unfold getFieldsAndValues. rewrite split_join.
  - rewrite read_fields, (left_id_L ∅ (∪)); [reflexivity|].
    eapply Forall_impl; [exact Fl|]; cbn; tauto.
  - now destruct l.
  - apply List.Forall_map. eapply Forall_impl; [exact Fl|]. intros [k v]; cbn.
    unfold field_text; cbn [fst snd]. autorewrite with strings. cbn [mem]. intros (-> & _ & -> & _); reflexivity.
Qed.

Definition sent_fields (cmd : CommandType) (kv : list (string * string)) : list (string * string) :=
  ("c", to_string (command_code cmd)) :: (prod_map id encode_value <$> kv).

Lemma command_message_spec (cmd : CommandType) (kv : list (string * string)) :
  command_message cmd kv =
  if forallb (fun p => negb (reserved p.1)) kv then Ok (join "|" (map field_text (sent_fields cmd kv)))
  else Throw runtime_error.
Proof.
  unfold command_message. induction kv as [|[k v] kv IH] using rev_ind; [reflexivity|].
  rewrite foldl_app, IH, forallb_app. cbn [foldl forallb fst snd].
  destruct (forallb _ kv); [|reflexivity]. unfold mbind, result_bind.
  destruct (reserved k); [reflexivity|]. cbn [negb andb]. f_equal.
  unfold sent_fields. rewrite fmap_app, app_comm_cons, map_app.
  change (map field_text (prod_map id encode_value <$> [(k, v)])) with [field_text (k, encode_value v)].
  rewrite join_app by discriminate. reflexivity.
Qed.

(** The fields the sender adds, and the nonce the receiver adds. *)
Definition envelope (msgid key : string) (now : Z) (nonce : string) : list (string * string) :=
  [("msgid", msgid); ("k", key); ("tm", to_string now); ("nonce", nonce)].

Definition sendable (p : string * string) : bool := plain p.1 && plain_value p.2.

Lemma sendable_spec (k v : string) : sendable (k, v) = true ->
  (mem "|" k = false /\ mem ":" k = false /\ mem NUL k = false) /\
  contains "%3A" v = false /\ contains "%7C" v = false /\ mem NUL v = false.
Proof.
  unfold sendable, plain_value; cbn. rewrite andb_true_iff, plain_spec, negb_true_iff, !orb_false_iff. tauto.
Qed.

Lemma joined_no_null (l : list (string * string)) :
  Forall (fun p => mem NUL p.1 = false /\ mem NUL p.2 = false) l -> mem NUL (join "|" (map field_text l)) = false.
Proof.
  intros Hl; induction Hl as [|[k v] l [Hk Hv] Hl IH]; [reflexivity|]. cbn [fst snd] in *.
  change (map field_text ((k, v) :: l)) with (field_text (k, v) :: map field_text l). rewrite join_cons, mem_app.
  assert (E : mem NUL (field_text (k, v)) = false)
    by (unfold field_text; autorewrite with strings; cbn [fst snd mem]; now rewrite Hk, Hv).
  rewrite E. destruct (map field_text l); [reflexivity|]. exact IH.
Qed.

Lemma sent_no_null (cmd : CommandType) (kv : list (string * string)) : forallb sendable kv = true ->
  Forall (fun p => mem NUL p.1 = false /\ mem NUL p.2 = false) (sent_fields cmd kv).
Proof.
  intros Hkv. constructor; [now destruct cmd|]. apply Forall_fmap.
  rewrite forallb_forall in Hkv. apply Forall_forall. intros [k v] Hin; cbn.
  apply list_elem_of_In, Hkv, sendable_spec in Hin as ((_ & _ & H1) & _ & _ & H2).
  split; [exact H1|]. now apply mem_encode.
Qed.

Lemma sent_delimiters (cmd : CommandType) (kv : list (string * string)) : forallb sendable kv = true ->
  Forall (fun p => mem "|" p.1 = false /\ mem ":" p.1 = false /\ mem "|" p.2 = false /\ mem ":" p.2 = false)
    (sent_fields cmd kv).
Proof.
  intros Hkv. constructor; [now destruct cmd|]. apply Forall_fmap.
  rewrite forallb_forall in Hkv. apply Forall_forall. intros [k v] Hin; cbn.
  apply list_elem_of_In, Hkv, sendable_spec in Hin as ((H1 & H2 & _) & _ & _ & _).
  destruct (encode_delimiter_free v); tauto.
Qed.

(** The message the receiver parses is the joined fields. *)
Lemma fetched_joined (cmd : CommandType) (kv : list (string * string)) (msgid key nonce : string) (now : Z) :
  forallb sendable kv = true -> plain msgid = true -> plain key = true -> 0 <= now ->
  fetched (complete_message (join "|" (map field_text (sent_fields cmd kv))) msgid key now) nonce
  = join "|" (map field_text (sent_fields cmd kv ++ envelope msgid key now nonce)).
Proof.
  intros Hkv Hid Hkey Hnow. unfold complete_message.
  apply plain_spec in Hid as (_ & _ & Hid), Hkey as (_ & _ & Hkey).
  rewrite removeNull_id.
  - rewrite map_app, join_app by discriminate. cbn [envelope map join]. unfold fetched, field_text; cbn [fst snd]. now autorewrite with strings.
  - rewrite !mem_app, joined_no_null, Hid, Hkey by now apply sent_no_null. cbn [mem orb].
    rewrite mem_to_string by easy. reflexivity.
Qed.

(** C6: The fields of a message sent with [gossip] are what [getFieldsAndValues] reads from it at the
    receiver: the command, every pair of the map in whatever order the map lists them, and the
    sender's message identifier, key and time with the nonce. Hypotheses: no reserved key (else
    [gossip] throws); keys and identifiers without delimiters, values without escapes, no nulls. *)
Theorem message_roundtrip (cmd : CommandType) (m : gmap string string) (kv : list (string * string))
  (msgid key nonce msg : string) (now : Z) :
  kv ≡ₚ map_to_list m -> command_message cmd kv = Ok msg -> forallb sendable kv = true ->
  plain msgid = true -> plain key = true -> plain nonce = true -> 0 <= now ->
  forallb (fun p => plain_value p.2) (envelope msgid key now nonce) = true ->
  getFieldsAndValues (fetched (complete_message msg msgid key now) nonce)
  = Ok ({["c" := to_string (command_code cmd)]} ∪ m ∪ list_to_map (envelope msgid key now nonce)).
Proof.
  intros Hperm Hmsg Hkv Hid Hkey Hnonce Hnow Henv. rewrite command_message_spec in Hmsg.
  destruct (forallb (fun p => negb (reserved p.1)) kv); [|discriminate].
  assert (msg = join "|" (map field_text (sent_fields cmd kv))) as -> by congruence.
  rewrite fetched_joined by assumption. rewrite get_joined.
  - f_equal. unfold sent_fields. rewrite <- app_comm_cons, fmap_cons, fmap_app.
    assert (Ekv : prod_map id decode_value <$> (prod_map id encode_value <$> kv) = kv).
    { rewrite <- list_fmap_compose. transitivity (id <$> kv); [|apply list_fmap_id].
      apply list_fmap_ext. intros i [k v] Hi. cbn. f_equal. rewrite decode_encode_value. apply decode_value_id.
      rewrite forallb_forall in Hkv.
      apply list_elem_of_lookup_2, list_elem_of_In, Hkv, sendable_spec in Hi. tauto. }
    assert (Een : prod_map id decode_value <$> envelope msgid key now nonce = envelope msgid key now nonce).
    { transitivity (id <$> envelope msgid key now nonce); [|apply list_fmap_id].
      apply list_fmap_ext. intros i [k v] Hi. cbn. f_equal. apply decode_value_id.
      rewrite forallb_forall in Henv. apply list_elem_of_lookup_2, list_elem_of_In, Henv in Hi. cbn in Hi.
      unfold plain_value in Hi. rewrite negb_true_iff, !orb_false_iff in Hi. tauto. }
    rewrite Ekv, Een. cbn [prod_map list_to_map foldr fst snd id].
    assert (Ec : decode_value (to_string (command_code cmd)) = to_string (command_code cmd))
      by (apply decode_value_id; now destruct cmd).
    rewrite list_to_map_app. rewrite <- (assoc_L (∪)), <- insert_union_singleton_l. f_equal; [exact Ec|].
    f_equal. rewrite <- (list_to_map_to_list m). apply list_to_map_proper; [|exact Hperm].
    rewrite Hperm. apply NoDup_fst_map_to_list.
  - discriminate.
  - apply Forall_app; split; [now apply sent_delimiters|].
    apply plain_spec in Hid, Hkey, Hnonce. pose proof (plain_to_string now Hnow) as Ht; apply plain_spec in Ht.
    repeat constructor; cbn; tauto.
Qed.
End Messages.

Lemma message_roundtrip_witness :
  getFieldsAndValues (fetched (complete_message "c:4|txid:abc|h:a%3Ab" "qwerty" "f00d" 1700000000) "12345")
  = Ok ({["c" := "4"]} ∪ {["txid" := "abc"; "h" := "a:b"]} ∪ list_to_map (envelope "qwerty" "f00d" 1700000000 "12345")).
Proof.
  apply (message_roundtrip verificationResult {["txid" := "abc"; "h" := "a:b"]}
    [("txid", "abc"); ("h", "a:b")] "qwerty" "f00d" "12345"); reflexivity || discriminate.
Defined.
