(* ===== verification/Node.v ===== *)
(** * A node

    What every node program shares (src/BlockChainCommon/functions.cpp, blockChainNode.cpp,
    webSocketServer.cpp): the tables of known nodes, the clients connected over web sockets, the
    identifiers of the messages already seen, and the way an incoming message takes to the handler
    of its command. What a node sends is the trace [out] of its state. Randomness, the answers of
    the DHT and the clock are arguments; hashing, base 64 and signatures are the interface
    [Services]. Handlers run one at a time: the mutexes of the code make the steps modelled here
    atomic, and files that study an interleaving say so. *)

From Stdlib Require Import ZArith Lia List Bool Ascii String.
From stdpp Require Import base gmap strings list fin_maps.
From S2P Require Import Prelude.
From S2P Require Import Machine.
From S2P Require Import Cpp.
From S2P Require Import Json.
From S2P Require Import Wire.
From S2P Require Import JsonText.

Local Open Scope Z_scope.

(** What the node programs get from OpenDHT: the identity of the node ([dhtNode.getId()], the public
    key), hashes, base 64, signatures and their verification. Nothing is assumed about them here;
    theorems that rely on a law state it. *)
Class Services := {
  node_id : string;
  own_key : string;
  info_hash : string -> string;
  base64_encode : string -> string;
  base64_decode : string -> string;
  sign_blob : string -> string;
  import_key : string -> bool;
  check_signature : string -> string -> string -> bool
}.

(** [createX509Signature] and [verifyX509Signature]: signatures travel in base 64. *)
Definition createX509Signature `{Services} (message : string) : string := base64_encode (sign_blob message).
Definition verifyX509Signature `{Services} (message base64signature publicKey : string) : bool :=
  check_signature publicKey message (base64_decode base64signature).

(** ** State *)

Inductive event :=
| Gossip (channel : string) (cmd : CommandType) (kv : list (string * string))
| GossipText (channel msg : string)
| WsSend (hdl : Z) (msg : string)
| DhtPut (key value : string) (permanent : bool)
| Subscribe (channel : string)
| Unsubscribe (channel : string)
| WriteFile (name data : string).

(** [BlockChainNode]; the type is the [char] of the enumeration [NodeType]. *)
Record BlockChainNode := mkNode { n_publicKey : string; n_uri : string; n_type : Z }.

Definition masterNode : Z := 0.
Definition verifierNode : Z := 1.
Definition storageNode : Z := 2.

Record node := mkNodeState {
  masterNodes : gmap string BlockChainNode;
  verifierNodes : gmap string BlockChainNode;
  storageNodes : gmap string BlockChainNode;
  verifierKeys : list string;
  storageKeys : list string;
  processedMessages : gset string;
  running : bool;
  m_connections : gmap string Z;
  appStartupTime : Z;
  currentTimestamp : Z;
  out : list event
}.

Definition set_masterNodes (v : gmap string BlockChainNode) (s : node) : node :=
    mkNodeState v (verifierNodes s) (storageNodes s) (verifierKeys s) (storageKeys s) (processedMessages s)
    (running s) (m_connections s) (appStartupTime s) (currentTimestamp s) (out s).
Definition set_verifierNodes (v : gmap string BlockChainNode) (s : node) : node :=
    mkNodeState (masterNodes s) v (storageNodes s) (verifierKeys s) (storageKeys s) (processedMessages s)
    (running s) (m_connections s) (appStartupTime s) (currentTimestamp s) (out s).
Definition set_storageNodes (v : gmap string BlockChainNode) (s : node) : node :=
    mkNodeState (masterNodes s) (verifierNodes s) v (verifierKeys s) (storageKeys s) (processedMessages s)
    (running s) (m_connections s) (appStartupTime s) (currentTimestamp s) (out s).
Definition set_verifierKeys (v : list string) (s : node) : node :=
    mkNodeState (masterNodes s) (verifierNodes s) (storageNodes s) v (storageKeys s) (processedMessages s)
    (running s) (m_connections s) (appStartupTime s) (currentTimestamp s) (out s).
Definition set_storageKeys (v : list string) (s : node) : node :=
    mkNodeState (masterNodes s) (verifierNodes s) (storageNodes s) (verifierKeys s) v (processedMessages s)
    (running s) (m_connections s) (appStartupTime s) (currentTimestamp s) (out s).
Definition set_processedMessages (v : gset string) (s : node) : node :=
    mkNodeState (masterNodes s) (verifierNodes s) (storageNodes s) (verifierKeys s) (storageKeys s) v
    (running s) (m_connections s) (appStartupTime s) (currentTimestamp s) (out s).
Definition set_running (v : bool) (s : node) : node :=
    mkNodeState (masterNodes s) (verifierNodes s) (storageNodes s) (verifierKeys s) (storageKeys s)
    (processedMessages s) v (m_connections s) (appStartupTime s) (currentTimestamp s) (out s).
Definition set_m_connections (v : gmap string Z) (s : node) : node :=
    mkNodeState (masterNodes s) (verifierNodes s) (storageNodes s) (verifierKeys s) (storageKeys s)
    (processedMessages s) (running s) v (appStartupTime s) (currentTimestamp s) (out s).
Definition set_appStartupTime (v : Z) (s : node) : node :=
    mkNodeState (masterNodes s) (verifierNodes s) (storageNodes s) (verifierKeys s) (storageKeys s)
    (processedMessages s) (running s) (m_connections s) v (currentTimestamp s) (out s).
Definition set_currentTimestamp (v : Z) (s : node) : node :=
    mkNodeState (masterNodes s) (verifierNodes s) (storageNodes s) (verifierKeys s) (storageKeys s)
    (processedMessages s) (running s) (m_connections s) (appStartupTime s) v (out s).
Definition set_out (v : list event) (s : node) : node :=
    mkNodeState (masterNodes s) (verifierNodes s) (storageNodes s) (verifierKeys s) (storageKeys s)
    (processedMessages s) (running s) (m_connections s) (appStartupTime s) (currentTimestamp s) v.

Definition emit (e : event) : M node unit := modify (fun s => set_out (out s ++ [e])%list s).

(** ** Sending *)

Section Node.
Context `{BoostStrings} `{JsonText} `{Services}.

(** [gossip(channelId, cmd, kv)]: a reserved key is an exception and nothing is sent. *)
Definition gossip (channel : string) (cmd : CommandType) (kv : list (string * string)) : M node unit :=
  if existsb (fun p => reserved p.1) kv then throw runtime_error else emit (Gossip channel cmd kv).

Definition dhtPut (key value : string) (permanent : bool) : M node unit := emit (DhtPut key value permanent).

(** [WebSocketServer::send(key, msg)]: a server that is not running sends nothing; a key without a
    connection is an exception of [getDataFromKey]. *)
Definition ws_send (key msg : string) : M node unit :=
  s ← get;
  if running s then
    match m_connections s !! key with
    | Some hdl => emit (WsSend hdl msg)
    | None => throw invalid_argument
    end
  else mret tt.

Definition ws_send_json (key : string) (j : json) : M node unit := msg ← of_result (dump j); ws_send key msg.

(** ** Tables of nodes *)

(** [BlockChainNode::toJSONString] and [toBlockChainNode]. *)
Definition node_json (n : BlockChainNode) : json :=
  object [("k", JStr (n_publicKey n)); ("u", JStr (n_uri n)); ("t", JNum (n_type n))].

(** [map::insert]: an existing entry stays. *)
Definition insert_new {A} (k : string) (v : A) (m : gmap string A) : gmap string A :=
  match m !! k with Some _ => m | None => <[k := v]> m end.

Definition addMasterNode (key : string) (n : BlockChainNode) (s : node) : node :=
  set_masterNodes (insert_new key n (masterNodes s)) s.

Definition addVerifier (key : string) (n : BlockChainNode) (s : node) : node :=
  set_verifierKeys (verifierKeys s ++ [key])%list (set_verifierNodes (insert_new key n (verifierNodes s)) s).

Definition addStorageNode (key : string) (n : BlockChainNode) (s : node) : node :=
  set_storageKeys (storageKeys s ++ [key])%list (set_storageNodes (insert_new key n (storageNodes s)) s).

(** A table as JSON: the text of each node under its key. *)
Definition table_json (m : gmap string BlockChainNode) : result json :=
  foldl (fun r p => j ← r; t ← dump (node_json p.2); set_member j p.1 (JStr t)) (Ok JNull) (map_to_list m).

Definition buildSyncNodesInput (s : node) : result string :=
  mj ← table_json (masterNodes s);
  vj ← table_json (verifierNodes s);
  sj ← table_json (storageNodes s);
  m ← dump mj;
  v ← dump vj;
  t ← dump sj;
  dump (object [("m", JStr m); ("v", JStr v); ("s", JStr t)]).

Definition addNode (key uri : string) (type : Z) : M node unit :=
  let n := mkNode key uri type in
  modify (fun s =>
    if type =? masterNode then addMasterNode key n s
    else if type =? verifierNode then addVerifier key n s
    else if type =? storageNode then addStorageNode key n s
    else s);;
  if type =? masterNode then
    s ← get; d ← of_result (buildSyncNodesInput s); gossip key syncNodes [("d", d)]
  else mret tt.

(** [items()]: the members of an object, the elements of an array under their index, one value
    under the empty key, nothing for null. *)
Definition items (j : json) : list (string * json) :=
  match j with
  | JObj m => m
  | JArr l => imap (fun i x => (to_string (Z.of_nat i), x)) l
  | JNull => []
  | _ => [("", j)]
  end.

(** The conversion of a member of a mutable value to a string. *)
Definition member_string (j : json) (k : string) : result string :=
  p ← at_mutable j k; get_string p.2.

Definition read_node (v : json) : result BlockChainNode :=
  text ← get_string v;
  j ← parse text;
  t ← at_mutable j "t";
  nt ← get_int t.2;
  k ← member_string t.1 "k";
  u ← member_string t.1 "u";
  mret (mkNode k u (s8 nt)).

(** The loop over the items of one table. *)
Definition sync_table (add : string -> BlockChainNode -> node -> node) (j : json) : M node unit :=
  foldl (fun m p => m;; n ← of_result (read_node p.2); modify (add p.1 n)) (mret tt) (items j).

Definition run_syncNodes (data : string) : M node unit :=
  j ← of_result (parse data);
  m ← of_result (member_string j "m");
  v ← of_result (member_string j "v");
  t ← of_result (member_string j "s");
  mj ← of_result (parse m);
  vj ← of_result (parse v);
  sj ← of_result (parse t);
  sync_table addMasterNode mj;;
  sync_table addVerifier vj;;
  sync_table addStorageNode sj.

(** The number of entries of a table, and the keys drawn by index ([vector::operator[]] outside the
    vector is undefined, and so is the reference to a temporary [getStorageNodeKey] returns without a
    key; [storageNodes[key]] inserts a node without members where there is none). *)
Definition getNumberOfMasterNodes (s : node) : Z := Z.of_nat (size (masterNodes s)).
Definition getNumberOfStorageNodes (s : node) : Z := Z.of_nat (size (storageNodes s)).
Definition getNumberOfVerifiers (s : node) : Z := Z.of_nat (size (verifierNodes s)).

Definition getVerifierNodeKey (n : nat) (s : node) : result string :=
  match verifierKeys s !! n with Some k => Ok k | None => Throw undefined end.

Definition getStorageNodeKey (n : nat) (s : node) : result string :=
  match storageKeys s !! n with Some k => Ok k | None => Throw undefined end.

Definition getStorageNodeURL (key : string) : M node string :=
  s ← get;
  match storageNodes s !! key with
  | Some n => mret (n_uri n)
  | None => modify (set_storageNodes (<[key := mkNode "" "" masterNode]> (storageNodes s)));; mret ""
  end.

(** [generateRandomNumber(a, b)] draws from [a .. b - 1] with [b] a [uint32_t] the code converts to
    [int]; an empty interval is outside the contract of the distribution. *)
Definition random_in (a b draw : Z) : result nat :=
  if (a <=? i32 (u32 (b - 1))) && (a <=? draw) && (draw <=? i32 (u32 (b - 1))) then Ok (Z.to_nat draw) else Throw undefined.

(** ** Clients *)

Definition getKeyFromHdl (hdl : Z) (s : node) : string :=
  match list_find (fun p => p.2 = hdl) (map_to_list (m_connections s)) with
  | Some (_, (k, _)) => k
  | None => ""
  end.

Definition onClose (hdl : Z) : M node unit :=
  modify (fun s => set_m_connections (delete (getKeyFromHdl hdl s) (m_connections s)) s).

Definition addConnection (key : string) (hdl : Z) : M node unit :=
  modify (fun s => set_m_connections (insert_new key hdl (m_connections s)) s).

(** ** Incoming messages *)

(** What becomes of a message: it is dropped, or its handler runs on the fields. *)
Inductive incoming :=
| Dropped
| Dispatch (cmd : CommandType) (fields : gmap string string).

(** [map::at]. *)
Definition field (m : gmap string string) (k : string) : result string :=
  match m !! k with Some v => Ok v | None => Throw out_of_range end.

(** The check for repeated messages of the network, and the acknowledgement to a client. *)
Definition check_repeated (fields : gmap string string) : M node bool :=
  messageId ← of_result (field fields "msgid");
  s ← get;
  if decide (messageId ∈ processedMessages s) then mret true
  else modify (fun s => set_processedMessages ({[messageId]} ∪ processedMessages s) s);; mret false.

Definition acknowledge (key guid : string) (fields : gmap string string) : M node (gmap string string) :=
  tm ← of_result (field fields "tm");
  let refId := info_hash (key +:+ guid +:+ tm) in
  txid ← of_result (field fields "txid");
  let fields := <["txid" := refId]> (<["utxid" := txid]> fields) in
  ws_send_json key (object [("type", JStr "ack"); ("id", JStr refId); ("txid", JStr txid)]);;
  mret fields.

(** [processIncomingData] (the body of its thread); its exceptions are logged and end it. [guid] is
    the result of [getGUID(36)]. *)
Definition processIncomingData (data key guid : string) (timestamp : Z) (fromWebSocket : bool) : M node incoming :=
  theFields ← of_result (getFieldsAndValues data);
  own ← (if fromWebSocket then mret false
         else k ← of_result (field theFields "k"); mret (String.eqb k node_id));
  if own : bool then mret Dropped
  else
    tm ← of_result (match theFields !! "tm" with Some tm => stoll tm | None => Ok timestamp end);
    let theFields := add_field "tm" (to_string timestamp) theFields in
    s ← get;
    if tm <? appStartupTime s then mret Dropped
    else
      repeated ← (if fromWebSocket then mret false else check_repeated theFields);
      if repeated : bool then mret Dropped
      else
        theFields ← (if fromWebSocket then acknowledge key guid theFields else mret theFields);
        let theFields := add_field "ws" (if fromWebSocket then "1" else "0") theFields in
        c ← of_result (field theFields "c");
        let theFields := add_field "k" key theFields in
        match read_command c with
        | Some connectionRequest =>
            k ← of_result (field theFields "k");
            t ← of_result (field theFields "t");
            u ← of_result (field theFields "u");
            addNode k u (s8 (atoi t));;
            mret Dropped
        | Some cmd => mret (Dispatch cmd theFields)
        | None => mret Dropped
        end.

(** [dataHandler]: the packet [g<nonce>] of a message stored in the DHT. *)
Definition dataHandler (dht : string -> string) (msg guid : string) : M node incoming :=
  match msg with
  | String "g" nonce =>
      let data := dht nonce in
      if String.eqb data "" then mret Dropped else processIncomingData (fetched data nonce) "" guid 0 false
  | _ => mret Dropped
  end.

(** [WebSocketServer::onMessage]: the first command of a client registers its key. *)
Definition onMessage (hdl : Z) (data guid : string) (now : Z) : M node incoming :=
  theFields ← of_result (getFieldsAndValues data);
  if decide (read_command (default "" (theFields !! "c")) = Some connectionRequest) then
    k ← of_result (field theFields "k");
    addConnection k hdl;;
    mret Dropped
  else
    s ← get;
    let nodeKey := getKeyFromHdl hdl s in
    if String.eqb nodeKey "" then throw runtime_error
    else
      modify (set_currentTimestamp now);;
      processIncomingData data nodeKey guid now true.
End Node.

(** ** The tables of keys *)

(** Every node of a table can be drawn: its key is in the vector of keys, which is at least as long
    as the table. *)
Record tables_ok (s : node) : Prop := {
  verifier_keys : forall k, is_Some (verifierNodes s !! k) -> k ∈ verifierKeys s;
  storage_keys : forall k, is_Some (storageNodes s !! k) -> k ∈ storageKeys s
}.

Lemma table_size {A} (m : gmap string A) (l : list string) :
  (forall k, is_Some (m !! k) -> k ∈ l) -> (size m <= length l)%nat.
Proof.
  intros H. rewrite <- (length_map_to_list m), <- (length_fmap fst).
  apply submseteq_length, NoDup_submseteq; [apply NoDup_fst_map_to_list|].
  intros k ([k' v] & -> & Hk)%list_elem_of_fmap. apply H. apply elem_of_map_to_list in Hk. eauto.
Qed.

Lemma insert_new_keys (k : string) (n : BlockChainNode) (m : gmap string BlockChainNode) (l : list string) :
  (forall k', is_Some (m !! k') -> k' ∈ l) ->
  forall k', is_Some (insert_new k n m !! k') -> k' ∈ (l ++ [k])%list.
Proof.
  intros H k'. unfold insert_new. rewrite elem_of_app, list_elem_of_singleton.
  destruct (m !! k) eqn:E; [intros Hk; left; auto|].
  rewrite lookup_insert. case_decide; [subst; now right | intros Hk; left; auto].
Qed.

(** ** Steps and what they preserve *)

(** The updates the operations of a node are made of, and a property they all preserve. *)
Record stable (I : node -> Prop) : Prop := {
  stable_out : forall e s, I s -> I (set_out (out s ++ [e])%list s);
  stable_master : forall k n s, I s -> I (addMasterNode k n s);
  stable_verifier : forall k n s, I s -> I (addVerifier k n s);
  stable_storage : forall k n s, I s -> I (addStorageNode k n s);
  stable_processed : forall id s, I s -> I (set_processedMessages ({[id]} ∪ processedMessages s) s);
  stable_connections : forall m s, I s -> I (set_m_connections m s);
  stable_time : forall t s, I s -> I (set_currentTimestamp t s)
}.

Section Steps.
Context `{BoostStrings} `{JsonText} `{Services}.

(** What changes the state of a node: messages, commands and departures of clients, and the tables
    another node sends. *)
Inductive node_step (s : node) : node -> Prop :=
| step_message data key guid t ws : node_step s (processIncomingData data key guid t ws s).1
| step_packet dht msg guid : node_step s (dataHandler dht msg guid s).1
| step_client hdl data guid now : node_step s (onMessage hdl data guid now s).1
| step_close hdl : node_step s (onClose hdl s).1
| step_sync data : node_step s (run_syncNodes data s).1.

Context (I : node -> Prop) (HI : stable I).

Lemma emit_stable (e : event) : preserves I (emit e).
Proof. apply preserves_modify, HI. Qed.

Lemma gossip_stable (ch : string) (cmd : CommandType) (kv : list (string * string)) : preserves I (gossip ch cmd kv).
Proof. unfold gossip; preserve; apply emit_stable. Qed.

Lemma ws_send_json_stable (k : string) (j : json) : preserves I (ws_send_json k j).
Proof. unfold ws_send_json, ws_send; preserve; apply emit_stable. Qed.

Lemma addNode_stable (k u : string) (t : Z) : preserves I (addNode k u t).
Proof.
  unfold addNode; preserve; try apply gossip_stable. apply preserves_modify; intros s Hs.
  destruct (t =? masterNode), (t =? verifierNode), (t =? storageNode); (apply HI || idtac); exact Hs.
Qed.

Lemma sync_table_stable (add : string -> BlockChainNode -> node -> node) (j : json) :
  (forall k n s, I s -> I (add k n s)) -> preserves I (sync_table add j).
Proof.
  intros Ha. unfold sync_table. generalize (items j); intros l.
  induction l as [|p l IH] using rev_ind; [apply preserves_ret|]. rewrite foldl_app; cbn [foldl].
  preserve. apply preserves_modify; auto.
Qed.

Lemma syncNodes_stable (data : string) : preserves I (run_syncNodes data).
Proof. unfold run_syncNodes; preserve; apply sync_table_stable, HI. Qed.

Lemma processIncomingData_stable (data key guid : string) (timestamp : Z) (ws : bool) :
  preserves I (processIncomingData data key guid timestamp ws).
Proof.
  unfold processIncomingData, check_repeated, acknowledge; preserve; try apply addNode_stable;
    try apply ws_send_json_stable; apply preserves_modify, HI.
Qed.

Lemma dataHandler_stable (dht : string -> string) (msg guid : string) : preserves I (dataHandler dht msg guid).
Proof. unfold dataHandler; preserve; apply processIncomingData_stable. Qed.

Lemma onMessage_stable (hdl now : Z) (data guid : string) : preserves I (onMessage hdl data guid now).
Proof.
  unfold onMessage; preserve; try apply processIncomingData_stable; apply preserves_modify; intros s; apply HI.
Qed.

Lemma node_step_stable (s s' : node) : node_step s s' -> I s -> I s'.
Proof.
  intros Hstep; destruct Hstep; [apply processIncomingData_stable | apply dataHandler_stable |
    apply onMessage_stable | apply HI | apply syncNodes_stable].
Qed.

Lemma node_steps_stable (s s' : node) : rtc node_step s s' -> I s -> I s'.
Proof. intros Hsteps; induction Hsteps; eauto using node_step_stable. Qed.
End Steps.

(** ** The theorems *)

Lemma tables_stable : stable tables_ok.
Proof.
  split; try (intros; match goal with T : tables_ok _ |- _ => destruct T as [T1 T2] end; split; auto);
    now apply insert_new_keys.
Qed.

Lemma seen_stable (id : string) : stable (fun s => id ∈ processedMessages s).
Proof. split; cbn; intros; try assumption. now apply elem_of_union_r. Qed.

Section Tables.
Context `{BoostStrings} `{JsonText} `{Services}.

(** Whatever messages, clients and tables of other nodes a node processes, every verifier it
    knows has its key among those it draws from, so a draw of
    [generateRandomNumber(0, getNumberOfVerifiers())] never reads outside the vector of keys. *)
Theorem verifier_draw_defined (s s' : node) (draw : Z) :
  tables_ok s -> rtc node_step s s' ->
  0 <= draw < getNumberOfVerifiers s' -> getNumberOfVerifiers s' < 2 ^ 31 ->
  exists i k, random_in 0 (getNumberOfVerifiers s') draw = Ok i /\ getVerifierNodeKey i s' = Ok k.
Proof.
  intros Hs Hsteps Hd Hn.
  assert (G : tables_ok s') by exact (node_steps_stable tables_ok tables_stable s s' Hsteps Hs).
  unfold random_in, getVerifierNodeKey. pose proof (table_size _ _ (verifier_keys s' G)) as L.
  set (n := getNumberOfVerifiers s') in *.
  assert (E : i32 (u32 (n - 1)) = n - 1).
  { unfold i32, u32. rewrite (Z.mod_small (n - 1)) by lia. rewrite Z.mod_small by lia. lia. }
  rewrite E, (proj2 (Z.leb_le 0 _)), (proj2 (Z.leb_le 0 draw)), (proj2 (Z.leb_le draw _)) by lia. cbn [andb].
  subst n; unfold getNumberOfVerifiers in *.
  destruct (lookup_lt_is_Some_2 (verifierKeys s') (Z.to_nat draw)) as [k Hk]; [lia|].
  exists (Z.to_nat draw), k. now rewrite Hk.
Qed.

Lemma field_ok (m : gmap string string) (k v : string) : field m k = Ok v <-> m !! k = Some v.
Proof. unfold field; destruct (m !! k); split; congruence. Qed.

(** A message of the network whose identifier is known is not handled. *)
Lemma seen_not_dispatched (data key guid id : string) (timestamp : Z) (s s' : node) (m : gmap string string)
  (cmd : CommandType) (fields : gmap string string) :
  getFieldsAndValues data = Ok m -> m !! "msgid" = Some id -> id ∈ processedMessages s ->
  processIncomingData data key guid timestamp false s <> (s', Ok (Dispatch cmd fields)).
Proof.
  intros Hm Hid Hseen. unfold processIncomingData, mbind, M_bind, of_result. rewrite Hm.
  unfold result_bind, mret, M_ret, get. unfold field at 1. destruct (m !! "k"); cbn; [|easy].
  destruct (String.eqb _ node_id); cbn; [easy|].
  destruct (match m !! "tm" with Some tm => stoll tm | None => Ok timestamp end) as [tm|]; cbn; [|easy].
  destruct (tm <? appStartupTime s); [easy|].
  unfold check_repeated, mbind, M_bind, of_result, field, add_field, get, mret, M_ret.
  destruct (m !! "tm") eqn:Etm; rewrite ?lookup_insert_ne, Hid by discriminate; cbn; now rewrite decide_True.
Qed.

Lemma dispatched_seen (data key guid : string) (timestamp : Z) (s s' : node) (cmd : CommandType)
  (fields : gmap string string) :
  processIncomingData data key guid timestamp false s = (s', Ok (Dispatch cmd fields)) ->
  exists m id, getFieldsAndValues data = Ok m /\ m !! "msgid" = Some id /\ id ∈ processedMessages s'.
Proof.
  intros P; unfold processIncomingData in P. ok_bind P as m s1 Hm. ok_bind P as own s2 Hown.
  destruct own; [discriminate P|]. ok_bind P as tm s3 Htm. ok_bind P as u s4 Hu. destruct (tm <? _); [discriminate P|].
  ok_bind P as repeated s5 Hrep. destruct repeated; [discriminate P|].
  ok_bind P as m' s6 Hm'. ok_bind P as c s7 Hc.
  unfold check_repeated in Hrep. ok_bind Hrep as id s8 Hid. ok_bind Hrep as v s9 Hv.
  injection Hid as <- Hid. apply field_ok in Hid. injection Hv as <- <-.
  destruct (decide _); [discriminate Hrep|]. ok_bind Hrep as x s10 Hx. injection Hx as <- _. injection Hrep as <-.
  injection Hm' as <- <-. injection Hc as <- _. injection Hm as _ Hm.
  exists m, id. splits; [exact Hm | |].
  - revert Hid; unfold add_field. destruct (m !! "tm"); [easy|]. now rewrite lookup_insert_ne.
  - destruct (read_command c) as [[]|]; repeat apply bind_inv in P as (? & ? & _ & P);
      first [discriminate P | injection P as <- _ _]; cbn; set_solver.
Qed.

(** C17: A message of the network is handled at most once: after it reached a handler, and whatever
    the node does in between, the same message (with whatever arrival data) never reaches one again. *)
Theorem delivered_once (data key key' guid guid' : string) (t t' : Z) (s s1 s2 : node)
  (cmd : CommandType) (fields : gmap string string) :
  processIncomingData data key guid t false s = (s1, Ok (Dispatch cmd fields)) ->
  rtc node_step s1 s2 ->
  forall s3 cmd' fields', processIncomingData data key' guid' t' false s2 <> (s3, Ok (Dispatch cmd' fields')).
Proof.
  intros P Hsteps s3 cmd' fields'.
  destruct (dispatched_seen _ _ _ _ _ _ _ _ P) as (m & id & Hm & Hid & Hseen).
  apply (seen_not_dispatched data key' guid' id t' s2 s3 m cmd' fields' Hm Hid).
  exact (node_steps_stable _ (seen_stable id) s1 s2 Hsteps Hseen).
Qed.
End Tables.

(** A concrete node for the examples: its services hash, encode and sign in the clear. *)
Definition sample_services : Services :=
  {| node_id := "me"; own_key := "mykey"; info_hash s := s; base64_encode s := s; base64_decode s := s;
     sign_blob m := "sig" +:+ m; import_key _ := true;
     check_signature key m sig := String.eqb sig ("sig" +:+ m) |}.

Definition empty_node : node := mkNodeState ∅ ∅ ∅ [] [] ∅ false ∅ 1000 1000 [].

Lemma empty_tables : tables_ok empty_node.
Proof. split; intros k [n Hn]; discriminate Hn. Qed.

Lemma delivered_once_witness :
  let P data := processIncomingData (H1 := sample_services) data "" "" 0 false in
  let data := "c:4|txid:abc|h:xyz|msgid:q|k:peer|tm:2000|nonce:1" in
  let s1 := (P data empty_node).1 in
  (exists f, P data empty_node = (s1, Ok (Dispatch verificationResult f))) /\
  forall s3 cmd f, P data s1 <> (s3, Ok (Dispatch cmd f)).
Proof.
  intros P data s1.
  pose (f := match (P data empty_node).2 with Ok (Dispatch _ f) => f | _ => ∅ end).
  assert (E : P data empty_node = (s1, Ok (Dispatch verificationResult f))) by (vm_compute; reflexivity).
  split; [now exists f|].
  apply (delivered_once (H1 := sample_services) data "" "" "" "" 0 0 empty_node s1 s1 verificationResult f E), rtc_refl.
Defined.

Lemma verifier_draw_defined_witness :
  let s := (processIncomingData (H1 := sample_services) "c:1|t:1|u:ws%3A//h|msgid:q|k:peer|tm:2000" "" "" 0 false empty_node).1 in
  getNumberOfVerifiers s = 1 /\
  exists i k, random_in 0 (getNumberOfVerifiers s) 0 = Ok i /\ getVerifierNodeKey i s = Ok k.
Proof.
  intros s. split; [vm_compute; reflexivity|].
  apply (verifier_draw_defined (H1 := sample_services) empty_node); [exact empty_tables | | vm_compute; split; congruence | reflexivity].
  apply rtc_once, step_message.
Defined.

(** Registering again costs the others their place: [addNode] appends the key of a verifier each
    time it connects but counts it once, and the draw is bounded by the count. After a verifier
    connected twice, the one that connects next is known and never drawn. *)
Theorem verifier_starved `{BoostStrings} `{JsonText} `{Services} (a b u u' : string) (s : node) :
  a <> b -> verifierNodes s = ∅ -> verifierKeys s = [] ->
  let s' := ((addNode a u verifierNode;; addNode a u verifierNode;; addNode b u' verifierNode) s).1 in
  getNumberOfVerifiers s' = 2 /\ is_Some (verifierNodes s' !! b) /\
  forall draw i, random_in 0 (getNumberOfVerifiers s') draw = Ok i -> getVerifierNodeKey i s' = Ok a.
Proof.
  intros Hab Hn Hk s'.
  assert (E : verifierNodes s' = {[b := mkNode b u' verifierNode; a := mkNode a u verifierNode]}).
  { transitivity (insert_new b (mkNode b u' verifierNode) (insert_new a (mkNode a u verifierNode)
      (insert_new a (mkNode a u verifierNode) (verifierNodes s)))); [reflexivity|].
    rewrite Hn. unfold insert_new. rewrite lookup_empty, !lookup_insert_eq, lookup_insert_ne by congruence.
    reflexivity. }
  assert (K : verifierKeys s' = [a; a; b]) by (transitivity (((verifierKeys s ++ [a]) ++ [a]) ++ [b])%list; [reflexivity | now rewrite Hk]).
  assert (N : getNumberOfVerifiers s' = 2).
  { unfold getNumberOfVerifiers. rewrite E.
    now rewrite map_size_insert_None, map_size_singleton by now rewrite lookup_singleton_ne. }
  splits; [exact N | rewrite E, lookup_insert_eq; eauto |].
  intros draw i. rewrite N. unfold random_in. change (i32 (u32 (2 - 1))) with 1.
  destruct (Z.leb_spec 0 draw); [|easy]. destruct (Z.leb_spec draw 1); [|easy]. intros [= <-].
  unfold getVerifierNodeKey. rewrite K.
  assert (draw = 0 \/ draw = 1) as [-> | ->] by lia; reflexivity.
Qed.

Lemma verifier_starved_witness :
  let s' := ((addNode "a" "u" verifierNode;; addNode "a" "u" verifierNode;; addNode "b" "v" verifierNode) empty_node).1 in
  random_in 0 (getNumberOfVerifiers s') 1 = Ok 1%nat /\ getVerifierNodeKey 1 s' = Ok "a".
Proof.
  intros s'. assert (E : random_in 0 (getNumberOfVerifiers s') 1 = Ok 1%nat) by (vm_compute; reflexivity).
  split; [exact E|]. destruct (verifier_starved (H1 := sample_services) "a" "b" "u" "v" empty_node) as (_ & _ & K);
    [discriminate | reflexivity | reflexivity |]. exact (K 1 1%nat E).
Defined.
