(* ===== verification/Master.v ===== *)
(** * The master node

    The state and the operations of a master node (src/MasterNodeLib/MasterNodeLib.cpp,
    MasterNodeLib.h, BlockUtil.cpp, BlockUtil.h and src/MasterNode/main.cpp): the election of the
    block producers, the verification of transactions by the results of the verifiers, the closing
    of a block every second, and the handlers of the messages. One Definition per function, in the
    order of the code, on the state [master]; the globals of the file are its fields. The answers of
    the DHT, random draws, fresh identifiers and the clock are arguments. A transaction the code
    holds by reference is named by its key in [transactions], so what is written through the
    reference is seen by everyone who looks it up. *)

From Stdlib Require Import ZArith Lia List Bool Ascii String.
From stdpp Require Import base gmap strings list fin_maps.
From S2P Require Import Prelude.
From S2P Require Import Machine.
From S2P Require Import Cpp.
From S2P Require Import Json.
From S2P Require Import Transaction.
From S2P Require Import Wire.
From S2P Require Import Node.

Local Open Scope Z_scope.

(** ** State *)

(** [class Voter]. *)
Record Voter := mkVoter { v_signature : string; v_publicKey : string; v_number : Z; v_valid : bool }.

Definition voter_lt (a b : Voter) : bool := v_number a <? v_number b.

(** [class BlockUtil::Block]. *)
Record Block := mkBlock { b_number : Z; b_hash : string; b_previousHash : string; b_data : json; b_time : Z }.

Record master := mkMaster {
  base : node;
  transactions : gmap string Transaction;
  blocks : gmap Z Block;
  queueOut : list Transaction;
  randomNumbers : list Voter;
  blockProducers : list Voter;
  electedMasterNodes : gmap string (list string);
  nextVotingTimestampStr : string;
  blockStorageNode : string;
  stateChangeStorageNode : string;
  base64encodedKey : string;
  ignoreThisVotingRound : bool;
  subscribedTo21 : bool;
  inVotingPhase : bool;
  chosenNumber : Voter;
  lastRoundTimestamp : Z;
  lastCleanupTime : Z;
  nextBlockNumber : Z;
  previousHash : string
}.

Definition set_base (v : node) (s : master) : master :=
    mkMaster v (transactions s) (blocks s) (queueOut s) (randomNumbers s) (blockProducers s)
    (electedMasterNodes s) (nextVotingTimestampStr s) (blockStorageNode s) (stateChangeStorageNode s)
    (base64encodedKey s) (ignoreThisVotingRound s) (subscribedTo21 s) (inVotingPhase s) (chosenNumber s)
    (lastRoundTimestamp s) (lastCleanupTime s) (nextBlockNumber s) (previousHash s).
Definition set_transactions (v : gmap string Transaction) (s : master) : master :=
    mkMaster (base s) v (blocks s) (queueOut s) (randomNumbers s) (blockProducers s) (electedMasterNodes s)
    (nextVotingTimestampStr s) (blockStorageNode s) (stateChangeStorageNode s) (base64encodedKey s)
    (ignoreThisVotingRound s) (subscribedTo21 s) (inVotingPhase s) (chosenNumber s) (lastRoundTimestamp s)
    (lastCleanupTime s) (nextBlockNumber s) (previousHash s).
Definition set_blocks (v : gmap Z Block) (s : master) : master :=
    mkMaster (base s) (transactions s) v (queueOut s) (randomNumbers s) (blockProducers s)
    (electedMasterNodes s) (nextVotingTimestampStr s) (blockStorageNode s) (stateChangeStorageNode s)
    (base64encodedKey s) (ignoreThisVotingRound s) (subscribedTo21 s) (inVotingPhase s) (chosenNumber s)
    (lastRoundTimestamp s) (lastCleanupTime s) (nextBlockNumber s) (previousHash s).
Definition set_queueOut (v : list Transaction) (s : master) : master :=
    mkMaster (base s) (transactions s) (blocks s) v (randomNumbers s) (blockProducers s) (electedMasterNodes
    s) (nextVotingTimestampStr s) (blockStorageNode s) (stateChangeStorageNode s) (base64encodedKey s)
    (ignoreThisVotingRound s) (subscribedTo21 s) (inVotingPhase s) (chosenNumber s) (lastRoundTimestamp s)
    (lastCleanupTime s) (nextBlockNumber s) (previousHash s).
Definition set_randomNumbers (v : list Voter) (s : master) : master :=
    mkMaster (base s) (transactions s) (blocks s) (queueOut s) v (blockProducers s) (electedMasterNodes s)
    (nextVotingTimestampStr s) (blockStorageNode s) (stateChangeStorageNode s) (base64encodedKey s)
    (ignoreThisVotingRound s) (subscribedTo21 s) (inVotingPhase s) (chosenNumber s) (lastRoundTimestamp s)
    (lastCleanupTime s) (nextBlockNumber s) (previousHash s).
Definition set_blockProducers (v : list Voter) (s : master) : master :=
    mkMaster (base s) (transactions s) (blocks s) (queueOut s) (randomNumbers s) v (electedMasterNodes s)
    (nextVotingTimestampStr s) (blockStorageNode s) (stateChangeStorageNode s) (base64encodedKey s)
    (ignoreThisVotingRound s) (subscribedTo21 s) (inVotingPhase s) (chosenNumber s) (lastRoundTimestamp s)
    (lastCleanupTime s) (nextBlockNumber s) (previousHash s).
Definition set_electedMasterNodes (v : gmap string (list string)) (s : master) : master :=
    mkMaster (base s) (transactions s) (blocks s) (queueOut s) (randomNumbers s) (blockProducers s) v
    (nextVotingTimestampStr s) (blockStorageNode s) (stateChangeStorageNode s) (base64encodedKey s)
    (ignoreThisVotingRound s) (subscribedTo21 s) (inVotingPhase s) (chosenNumber s) (lastRoundTimestamp s)
    (lastCleanupTime s) (nextBlockNumber s) (previousHash s).
Definition set_nextVotingTimestampStr (v : string) (s : master) : master :=
    mkMaster (base s) (transactions s) (blocks s) (queueOut s) (randomNumbers s) (blockProducers s)
    (electedMasterNodes s) v (blockStorageNode s) (stateChangeStorageNode s) (base64encodedKey s)
    (ignoreThisVotingRound s) (subscribedTo21 s) (inVotingPhase s) (chosenNumber s) (lastRoundTimestamp s)
    (lastCleanupTime s) (nextBlockNumber s) (previousHash s).
Definition set_blockStorageNode (v : string) (s : master) : master :=
    mkMaster (base s) (transactions s) (blocks s) (queueOut s) (randomNumbers s) (blockProducers s)
    (electedMasterNodes s) (nextVotingTimestampStr s) v (stateChangeStorageNode s) (base64encodedKey s)
    (ignoreThisVotingRound s) (subscribedTo21 s) (inVotingPhase s) (chosenNumber s) (lastRoundTimestamp s)
    (lastCleanupTime s) (nextBlockNumber s) (previousHash s).
Definition set_stateChangeStorageNode (v : string) (s : master) : master :=
    mkMaster (base s) (transactions s) (blocks s) (queueOut s) (randomNumbers s) (blockProducers s)
    (electedMasterNodes s) (nextVotingTimestampStr s) (blockStorageNode s) v (base64encodedKey s)
    (ignoreThisVotingRound s) (subscribedTo21 s) (inVotingPhase s) (chosenNumber s) (lastRoundTimestamp s)
    (lastCleanupTime s) (nextBlockNumber s) (previousHash s).
Definition set_base64encodedKey (v : string) (s : master) : master :=
    mkMaster (base s) (transactions s) (blocks s) (queueOut s) (randomNumbers s) (blockProducers s)
    (electedMasterNodes s) (nextVotingTimestampStr s) (blockStorageNode s) (stateChangeStorageNode s) v
    (ignoreThisVotingRound s) (subscribedTo21 s) (inVotingPhase s) (chosenNumber s) (lastRoundTimestamp s)
    (lastCleanupTime s) (nextBlockNumber s) (previousHash s).
Definition set_ignoreThisVotingRound (v : bool) (s : master) : master :=
    mkMaster (base s) (transactions s) (blocks s) (queueOut s) (randomNumbers s) (blockProducers s)
    (electedMasterNodes s) (nextVotingTimestampStr s) (blockStorageNode s) (stateChangeStorageNode s)
    (base64encodedKey s) v (subscribedTo21 s) (inVotingPhase s) (chosenNumber s) (lastRoundTimestamp s)
    (lastCleanupTime s) (nextBlockNumber s) (previousHash s).
Definition set_subscribedTo21 (v : bool) (s : master) : master :=
    mkMaster (base s) (transactions s) (blocks s) (queueOut s) (randomNumbers s) (blockProducers s)
    (electedMasterNodes s) (nextVotingTimestampStr s) (blockStorageNode s) (stateChangeStorageNode s)
    (base64encodedKey s) (ignoreThisVotingRound s) v (inVotingPhase s) (chosenNumber s) (lastRoundTimestamp
    s) (lastCleanupTime s) (nextBlockNumber s) (previousHash s).
Definition set_inVotingPhase (v : bool) (s : master) : master :=
    mkMaster (base s) (transactions s) (blocks s) (queueOut s) (randomNumbers s) (blockProducers s)
    (electedMasterNodes s) (nextVotingTimestampStr s) (blockStorageNode s) (stateChangeStorageNode s)
    (base64encodedKey s) (ignoreThisVotingRound s) (subscribedTo21 s) v (chosenNumber s) (lastRoundTimestamp
    s) (lastCleanupTime s) (nextBlockNumber s) (previousHash s).
Definition set_chosenNumber (v : Voter) (s : master) : master :=
    mkMaster (base s) (transactions s) (blocks s) (queueOut s) (randomNumbers s) (blockProducers s)
    (electedMasterNodes s) (nextVotingTimestampStr s) (blockStorageNode s) (stateChangeStorageNode s)
    (base64encodedKey s) (ignoreThisVotingRound s) (subscribedTo21 s) (inVotingPhase s) v
    (lastRoundTimestamp s) (lastCleanupTime s) (nextBlockNumber s) (previousHash s).
Definition set_lastRoundTimestamp (v : Z) (s : master) : master :=
    mkMaster (base s) (transactions s) (blocks s) (queueOut s) (randomNumbers s) (blockProducers s)
    (electedMasterNodes s) (nextVotingTimestampStr s) (blockStorageNode s) (stateChangeStorageNode s)
    (base64encodedKey s) (ignoreThisVotingRound s) (subscribedTo21 s) (inVotingPhase s) (chosenNumber s) v
    (lastCleanupTime s) (nextBlockNumber s) (previousHash s).
Definition set_lastCleanupTime (v : Z) (s : master) : master :=
    mkMaster (base s) (transactions s) (blocks s) (queueOut s) (randomNumbers s) (blockProducers s)
    (electedMasterNodes s) (nextVotingTimestampStr s) (blockStorageNode s) (stateChangeStorageNode s)
    (base64encodedKey s) (ignoreThisVotingRound s) (subscribedTo21 s) (inVotingPhase s) (chosenNumber s)
    (lastRoundTimestamp s) v (nextBlockNumber s) (previousHash s).
Definition set_nextBlockNumber (v : Z) (s : master) : master :=
    mkMaster (base s) (transactions s) (blocks s) (queueOut s) (randomNumbers s) (blockProducers s)
    (electedMasterNodes s) (nextVotingTimestampStr s) (blockStorageNode s) (stateChangeStorageNode s)
    (base64encodedKey s) (ignoreThisVotingRound s) (subscribedTo21 s) (inVotingPhase s) (chosenNumber s)
    (lastRoundTimestamp s) (lastCleanupTime s) v (previousHash s).
Definition set_previousHash (v : string) (s : master) : master :=
    mkMaster (base s) (transactions s) (blocks s) (queueOut s) (randomNumbers s) (blockProducers s)
    (electedMasterNodes s) (nextVotingTimestampStr s) (blockStorageNode s) (stateChangeStorageNode s)
    (base64encodedKey s) (ignoreThisVotingRound s) (subscribedTo21 s) (inVotingPhase s) (chosenNumber s)
    (lastRoundTimestamp s) (lastCleanupTime s) (nextBlockNumber s) v.

Definition now (s : master) : Z := currentTimestamp (base s).

(** An operation of the node inside the master node. *)
Definition on_node {A} (m : M node A) : M master A :=
  fun s => let '(n, r) := m (base s) in (set_base n s, r).

(** An operation on the transaction under a key ([transactions.at] throws without it). *)
Definition on_transaction {A} (txId : string) (m : M Transaction A) : M master A :=
  fun s => match transactions s !! txId with
    | Some tx => let '(tx, r) := m tx in (set_transactions (<[txId := tx]> (transactions s)) s, r)
    | None => (s, Throw out_of_range)
    end.

Section Master.
Context `{BoostStrings} `{JsonText} `{Services} `{StdSort}.

(** ** Block producers *)

(** [time_t % size_t]: the seconds past the hour become unsigned. *)
Definition getSecondsPastHour (timestamp : Z) : Z := Z.rem timestamp 3600.

Definition producer_index (timestamp : Z) (s : master) : Z :=
  i32 (u64 (getSecondsPastHour timestamp) mod Z.of_nat (length (blockProducers s))).

Definition getBlockProducerFor (timestamp : Z) (s : master) : Z :=
  if Z.of_nat (length (blockProducers s)) <? 1 then -1 else producer_index timestamp s.

Definition getCurrentBlockProducer (s : master) : Z :=
  if Z.of_nat (length (blockProducers s)) <? 2 then -1 else producer_index (now s) s.

Definition isBlockProducer (s : master) : bool :=
  let currentBlockProducer := getCurrentBlockProducer s in
  if currentBlockProducer <? 0 then false
  else match blockProducers s !! Z.to_nat currentBlockProducer with
       | Some v => String.eqb (v_publicKey v) node_id
       | None => false
       end.

(** ** Voting *)

Definition openVotingStartMinute : Z := 55.

Definition inVotingTime (s : master) : bool :=
  openVotingStartMinute <=? Z.quot (getSecondsPastHour (now s)) 60.

Definition canParticipateInVoting (s : master) : bool := negb (ignoreThisVotingRound s).

Definition initializeNextVotingTimestamp (s : master) : master :=
  let secondsUntilNextHour := 3600 - getSecondsPastHour (now s) in
  set_nextVotingTimestampStr
    (to_string (now s + secondsUntilNextHour - (60 - openVotingStartMinute) * 60)) s.

Definition updateNextVotingTimestamp : M master unit :=
  s ← get;
  lastVotingTimestamp ← of_result (stoull (nextVotingTimestampStr s));
  modify (set_nextVotingTimestampStr (to_string (i64 (i64 lastVotingTimestamp + 3600)))).

(** The number of a ballot: the sum of the (signed) characters of the signature in [uint32_t]. *)
Fixpoint signature_number (number : Z) (signature : string) : Z :=
  match signature with
  | EmptyString => number
  | String c signature => signature_number (u32 (number + s8 (Z.of_nat (nat_of_ascii c)))) signature
  end.

(** The loop over the sorted ballots: valid ones are elected until there are 21. *)
Fixpoint elect (ballots elected : list Voter) (nodeInList : bool) : list Voter * bool :=
  match ballots with
  | [] => (elected, nodeInList)
  | v :: ballots =>
      let nodeInList := if v_valid v then nodeInList || String.eqb (v_publicKey v) node_id else nodeInList in
      let elected := if v_valid v then (elected ++ [v])%list else elected in
      if Z.of_nat (length elected) =? TOTAL_MASTER_NODES then (elected, nodeInList)
      else elect ballots elected nodeInList
  end.

(** The bookkeeping of who was elected when, written to a file. *)
Definition elected_json (m : gmap string (list string)) : json :=
  object ((fun p => (p.1, JArr (JStr <$> p.2))) <$> map_to_list m).

Definition open_voting : M master unit :=
  modify (set_inVotingPhase true);;
  s ← get;
  when (canParticipateInVoting s) (
    let signature := createX509Signature (nextVotingTimestampStr s) in
    let ballot := mkVoter signature node_id (signature_number 0 signature) true in
    modify (fun s => set_randomNumbers (randomNumbers s ++ [ballot])%list (set_chosenNumber ballot s));;
    on_node (gossip "masternodes" choseRandomNumber [("s", signature); ("key", base64_encode own_key)])).

Definition count_votes : M master bool :=
  s ← get;
  let '(elected, nodeInList) := elect (std_sort voter_lt (randomNumbers s)) (blockProducers s) false in
  modify (fun s => set_electedMasterNodes
    (<[nextVotingTimestampStr s := v_publicKey <$> elected]> (electedMasterNodes s))
    (set_randomNumbers [] (set_blockProducers elected s)));;
  s ← get;
  text ← of_result (dump (elected_json (electedMasterNodes s)));
  on_node (emit (WriteFile "masternodes.dat" text));;
  mret nodeInList.

Definition close_voting : M master unit :=
  modify (set_inVotingPhase false);;
  updateNextVotingTimestamp;;
  modify (set_blockProducers []);;
  s ← get;
  nodeInList ← (if decide (1 < length (randomNumbers s))%nat then count_votes else mret false);
  s ← get;
  (if nodeInList : bool then
     when (negb (subscribedTo21 s)) (on_node (emit (Subscribe "master21"));; modify (set_subscribedTo21 true))
   else
     when (subscribedTo21 s) (on_node (emit (Unsubscribe "master21"));; modify (set_subscribedTo21 false)));;
  modify (set_ignoreThisVotingRound false).

Definition enterAndExitVotingPhase : M master unit :=
  s ← get;
  if inVotingTime s then when (negb (inVotingPhase s)) open_voting
  else when (inVotingPhase s) close_voting.

(** [registerVote] enters its critical section twice; the check of the signature lies in between,
    and other ballots may be registered meanwhile. The first section returns whether to go on. *)
Definition known_voter (key : string) (l : list Voter) : bool := existsb (fun v => String.eqb (v_publicKey v) key) l.

Definition registerVote_begin (publicKey : string) : M master bool :=
  s ← get;
  if negb (canParticipateInVoting s) then mret false
  else mret (negb (known_voter (base64_decode publicKey) (randomNumbers s))).

(** The second section: [n] is the length of the signature, the variable declared inside the branch. *)
Definition registerVote_commit (signature key : string) : M master unit :=
  let number := signature_number 0 signature in
  s ← get;
  let n := String.length signature in
  if negb (Nat.eqb n (length (randomNumbers s))) && known_voter key (randomNumbers s) then mret tt
  else modify (fun s => set_randomNumbers (randomNumbers s ++ [mkVoter signature key number true])%list s).

Definition registerVote (signature publicKey : string) : M master unit :=
  go_on ← registerVote_begin publicKey;
  when go_on (
    let key := base64_decode publicKey in
    if negb (import_key key) then throw runtime_error
    else
      s ← get;
      when (verifyX509Signature (nextVotingTimestampStr s) signature key) (registerVote_commit signature key)).

(** ** Storage nodes *)

Definition getStateChangeStorageNode (dht : string -> string) : M master unit :=
  s ← get;
  when (String.eqb (stateChangeStorageNode s) "") (
    if getNumberOfStorageNodes (base s) <? 2 then mret tt
    else
      modify (set_stateChangeStorageNode (dht "sn_state_change_key"));;
      s ← get;
      when (String.eqb (stateChangeStorageNode s) "") (
        key ← of_result (getStorageNodeKey 1 (base s));
        modify (set_stateChangeStorageNode key);;
        on_node (dhtPut "sn_state_change_key" key false))).

Definition getBlockStorageNode (dht : string -> string) : M master unit :=
  s ← get;
  when (String.eqb (blockStorageNode s) "") (
    if getNumberOfStorageNodes (base s) <? 1 then mret tt
    else
      modify (set_blockStorageNode (dht "sn_block_close_key"));;
      s ← get;
      when (String.eqb (blockStorageNode s) "") (
        key ← of_result (getStorageNodeKey 0 (base s));
        modify (set_blockStorageNode key);;
        on_node (dhtPut "sn_block_close_key" key false))).

(** ** Transactions *)

(** [draw] is the number drawn for the verifier. *)
Definition sendToVerifier (dht : string -> string) (draw : Z) (txId : string) : M master unit :=
  s ← get;
  if getNumberOfVerifiers (base s) <? 1 then mret tt
  else
    i ← of_result (random_in 0 (getNumberOfVerifiers (base s)) draw);
    verifierKey ← of_result (getVerifierNodeKey i (base s));
    on_transaction txId (tx ← get; when (m_computeNode tx) (modify (with_computeNodeId verifierKey)));;
    getStateChangeStorageNode dht;;
    s ← get;
    if String.eqb (stateChangeStorageNode s) "" then mret tt
    else
      tx ← on_transaction txId get;
      on_node (gossip verifierKey codeDelivery
        [("i", m_input tx); ("co", m_code tx); ("txid", m_txId tx); ("s", stateChangeStorageNode s);
         ("tid", m_tenantId tx); ("com", if m_computeNode tx then "0" else "1")]).

Definition no_storage_warning : string :=
  "Warning: No storage nodes available to commit the state change update for this transaction. This could be because the storage nodes have disconnected from the network.".

(** The answer to the client of a verified transaction, and the order to its compute node. *)
Definition answer_client (dht : string -> string) (txId : string) : M master unit :=
  getStateChangeStorageNode dht;;
  s ← get;
  tx ← on_transaction txId get;
  let warning := if String.eqb (stateChangeStorageNode s) "" then [("w", JStr no_storage_warning)] else [] in
  on_node (ws_send_json (m_publicKey tx)
    (object ([("txid", JStr (m_txId tx)); ("data", JStr (m_output tx))] ++ warning)%list));;
  on_transaction txId (modify (with_sentToClient true));;
  when (negb (String.eqb (stateChangeStorageNode s) ""))
    (on_node (gossip (m_computeNodeId tx) canCommit
      [("txid", m_txId tx); ("sid", stateChangeStorageNode s); ("tid", "")])).

(** A verified transaction goes into the queue of the next block once. *)
Definition add_to_block (txId : string) : M master unit :=
  tx ← on_transaction txId get;
  when (negb (m_inBlock tx)) (
    modify (fun s => set_queueOut (queueOut s ++ [tx])%list s);;
    on_transaction txId (modify (with_inBlock true))).

Definition checkVerification (dht : string -> string) (txId : string) : M master unit :=
  tx ← on_transaction txId get;
  when (isVerified tx) (
    when (canSend tx) (answer_client dht txId);;
    add_to_block txId).

Definition verifyTransaction (dht : string -> string) (txId hash output : string) : M master unit :=
  modify (fun s => set_transactions (insert_new txId (partial_transaction txId hash (now s)) (transactions s)) s);;
  on_transaction txId (
    when (negb (String.eqb output "")) (modify (setOutput output));;
    modify (fun tx => (verifyHash hash tx).1));;
  checkVerification dht txId.

Definition processIncomingTransaction (dht : string -> string) (draw : Z) (data : string) : M master unit :=
  j ← of_result (parse data);
  txId ← of_result (member_string j "txid");
  s ← get;
  (match transactions s !! txId with
   | Some _ => on_transaction txId (fromJson j)
   | None =>
       let '(tx, r) := fromJson j new_transaction in
       _ ← of_result r;
       modify (fun s => set_transactions (insert_new txId tx (transactions s)) s)
   end);;
  sendToVerifier dht draw txId;;
  checkVerification dht txId.

Definition cleanupTransactionsMap (s : master) : master :=
  let oldTimestamp := now s - 60 in
  set_transactions (filter (fun p => ~ oldTimestamp > m_timestamp p.2) (transactions s)) s.

(** ** Blocks *)

Definition getNextBlockNumber (dht : string -> string) : M master Z :=
  s ← get;
  if nextBlockNumber s =? 0 then
    let bnstr := dht "genesisStamp" in
    if String.eqb bnstr "" then
      on_node (dhtPut "genesisStamp" (to_string (now s)) true);;
      modify (set_nextBlockNumber 1);;
      mret 0
    else
      stamp ← of_result (stoull bnstr);
      let n := u64 (now s - stamp) in
      modify (set_nextBlockNumber (u64 (n + 1)));;
      mret n
  else
    modify (set_nextBlockNumber (u64 (nextBlockNumber s + 1)));;
    mret (nextBlockNumber s).

Definition getPreviousHash (dht : string -> string) : string :=
  let hash := dht "hash" in
  if String.eqb hash "" then "00000000000000000000000000000000" else hash.

Definition calculateBlockHash (number : Z) (previousHash : string) (txns : list Transaction) (time : Z) : string :=
  let data := foldr (fun tx s => m_txId tx +:+ s) "" txns in
  info_hash (to_string number +:+ previousHash +:+ to_string time +:+ data).

Definition getBlock (dht : string -> string) (txns : list Transaction) : M master Block :=
  number ← getNextBlockNumber dht;
  let txns := with_blockId number <$> txns in
  let data := JArr (toJson <$> txns) in
  _ ← of_result (dump data);
  modify (fun s => if String.eqb (previousHash s) "" then set_previousHash (getPreviousHash dht) s else s);;
  s ← get;
  let currentBlockHash := calculateBlockHash number (previousHash s) txns (now s) in
  on_node (dhtPut "hash" currentBlockHash false);;
  modify (set_previousHash currentBlockHash);;
  mret (mkBlock number currentBlockHash (previousHash s) data (now s)).

Definition block_json (b : Block) : json :=
  object [("n", JNum (b_number b)); ("h", JStr (b_hash b)); ("p", JStr (b_previousHash b)); ("data", b_data b);
          ("tm", JNum (b_time b))].

Definition compareTransactions (lhs rhs : Transaction) : bool := m_timestamp lhs <? m_timestamp rhs.

(** The critical section of [timeToCloseBlock]: the due transactions in front of the sorted queue
    leave it. *)
Fixpoint split_due (time : Z) (queue : list Transaction) : list Transaction * list Transaction :=
  match queue with
  | [] => ([], [])
  | tx :: queue' =>
      if m_timestamp tx <=? time then
        let '(due, rest) := split_due time queue' in (tx :: due, rest)
      else ([], queue)
  end.

Definition take_due : M master (list Transaction) :=
  s ← get;
  let '(due, rest) := split_due (now s) (std_sort compareTransactions (queueOut s)) in
  modify (set_queueOut rest);;
  mret due.

Definition insert_block (b : Block) (s : master) : master :=
  set_blocks (match blocks s !! b_number b with Some _ => blocks s | None => <[b_number b := b]> (blocks s) end) s.

Definition timeToCloseBlock (dht : string -> string) : M master unit :=
  modify (fun s => if String.eqb (base64encodedKey s) "" then set_base64encodedKey (base64_encode own_key) s else s);;
  tempvect ← take_due;
  block ← getBlock dht tempvect;
  s ← get;
  if isBlockProducer s then
    text ← of_result (dump (block_json block));
    let sig := createX509Signature (b_hash block) in
    getBlockStorageNode dht;;
    s ← get;
    if String.eqb (blockStorageNode s) "" then mret tt
    else
      on_node (gossip (blockStorageNode s) closeBlock
        [("b", base64_encode text); ("si", sig); ("key", base64encodedKey s)]);;
      modify (insert_block block)
  else
    modify (fun s => if decide (200 < size (blocks s))%nat then set_blocks ∅ s else s);;
    modify (insert_block block).

(** ** Client requests *)

Definition code_message (utxid tenantId code inputs base64publicKey : string) : string :=
  "c:" +:+ to_string (u8 (command_code exeFunction)) +:+ "|txid:" +:+ utxid +:+ "|k:" +:+ base64publicKey
    +:+ "|tid:" +:+ tenantId +:+ "|h:" +:+ code +:+ "|i:" +:+ inputs.

(** [verify] is [verifyEd25519Signature] (file Accounts), [txId] the identifier [getGUID(32)] drew. *)
Definition processCodePacket (verify : string -> string -> string -> result bool) (dht : string -> string)
  (draw : Z) (txId utxid htxid tenantId code inputs base64signature base64publicKey : string) : M master bool :=
  valid ← of_result (verify (code_message utxid tenantId code inputs base64publicKey) base64publicKey base64signature);
  if negb valid then mret false
  else
    s ← get;
    if negb (subscribedTo21 s) then
      on_node (ws_send_json base64publicKey (object
        [("error", JStr "Sorry,You are hitting a Master Node that is not in m21; please hit the right one");
         ("txid", JStr htxid)]));;
      mret false
    else
      let transaction := with_input inputs (with_publicKey base64publicKey (with_signature base64signature
        (with_code code (with_tenantId tenantId (with_masterNodeId node_id (own_transaction txId (now s))))))) in
      modify (fun s => set_transactions (insert_new txId transaction (transactions s)) s);;
      tx ← on_transaction txId get;
      text ← of_result (dump (toJson tx));
      on_node (gossip "master21" txNotification [("utxid", htxid); ("tx", text)]);;
      sendToVerifier dht draw txId;;
      mret true.

(** ** The handlers of src/MasterNode/main.cpp *)

(** What a handler draws or asks outside the node. *)
Record outside := {
  o_verify : string -> string -> string -> result bool;
  o_dht : string -> string;
  o_draw : Z;
  o_guid : string
}.

Definition handle_exeFunction (o : outside) (fields : gmap string string) : M master unit :=
  let f := field_or_empty fields in
  processCodePacket (o_verify o) (o_dht o) (o_draw o) (o_guid o) (f "utxid") (f "txid") (f "tid") (f "h") (f "i")
    (f "s") (f "k");;
  mret tt.

Definition handle_verificationResult (o : outside) (fields : gmap string string) : M master unit :=
  txId ← of_result (field fields "txid");
  hash ← of_result (field fields "h");
  verifyTransaction (o_dht o) txId hash (field_or_empty fields "o").

Definition push_if_producer (tx : Transaction) : M master unit :=
  s ← get;
  when (isBlockProducer s) (modify (fun s => set_queueOut (queueOut s ++ [tx])%list s)).

Definition handle_exception (fields : gmap string string) : M master unit :=
  let txstr := field_or_empty fields "tx" in
  if String.eqb txstr "" then
    txId ← of_result (field fields "txid");
    exp ← of_result (field fields "e");
    s ← get;
    match transactions s !! txId with
    | None => mret tt
    | Some _ =>
        on_transaction txId (modify (fun tx => with_exception exp (with_code "" (setOutput "" tx))));;
        tx ← on_transaction txId get;
        when (m_computeNode tx)
          (on_node (ws_send_json (m_publicKey tx) (object [("txid", JStr txId); ("data", JStr exp)])));;
        txDump ← of_result (dump (toJson tx));
        push_if_producer tx;;
        modify (fun s => set_transactions (delete txId (transactions s)) s);;
        on_node (gossip "master21" exception [("tx", txDump)])
    end
  else
    j ← of_result (parse txstr);
    let '(tx, r) := fromJson j new_transaction in
    _ ← of_result r;
    push_if_producer tx.

Definition handle_choseRandomNumber (fields : gmap string string) : M master unit :=
  signature ← of_result (field fields "s");
  key ← of_result (field fields "key");
  registerVote signature key.

Definition handle_txNotification (o : outside) (fields : gmap string string) : M master unit :=
  _ ← of_result (field fields "utxid");
  tx ← of_result (field fields "tx");
  processIncomingTransaction (o_dht o) (o_draw o) tx.

Definition handle_syncNodes (fields : gmap string string) : M master unit :=
  data ← of_result (field fields "d");
  on_node (run_syncNodes data).

Definition handle_storageurl (o : outside) (fields : gmap string string) : M master unit :=
  _ ← of_result (field fields "tid");
  txid ← of_result (field fields "txid");
  publicKey ← of_result (field fields "k");
  s ← get;
  let n := getNumberOfStorageNodes (base s) in
  data ← (if n =? 0 then mret "n/a"
          else
            i ← of_result (random_in 1 n (o_draw o));
            key ← of_result (getStorageNodeKey i (base s));
            on_node (getStorageNodeURL key));
  on_node (ws_send_json publicKey (object [("txid", JStr txid); ("data", JStr data)])).

Definition handle_stateChangeResponse (fields : gmap string string) : M master unit :=
  txId ← of_result (field fields "txid");
  data ← of_result (field fields "data");
  id ← of_result (field fields "id");
  s ← get;
  match transactions s !! txId with
  | None => mret tt
  | Some tx =>
      on_node (ws_send_json (m_publicKey tx) (object [("txid", JStr txId); ("data", JStr data); ("id", JStr id)]))
  end.

(** The verdict on a block, as the handler writes it into the JSON value [j] after the text of [j]
    went into [data]: the three branches send the same fields. *)
Definition send_verdict (channel blocknumber data verdict : string) (j : json) : M node unit :=
  _ ← of_result (set_member j "s" (JStr verdict));
  gossip channel verifyBlock [("b", blocknumber); ("d", data)].

Definition handle_verifyBlock (o : outside) (fields : gmap string string) : M master unit :=
  text ← of_result (field fields "b");
  b ← of_result (parse (base64_decode text));
  timestamp ← of_result (field fields "tm");
  k ← of_result (member_string b "k");
  let producerPKey := base64_decode k in
  signature ← of_result (member_string b "si");
  blocknumber ← of_result (member_string b "n");
  bid ← of_result (stol blocknumber);
  s ← get;
  match blocks s !! u64 bid with
  | None => mret tt
  | Some block =>
      let publicKey := producerPKey +:+ String NUL "" in
      if negb (import_key publicKey) then throw runtime_error
      else
        getBlockStorageNode (o_dht o);;
        s ← get;
        if String.eqb (blockStorageNode s) "" then mret tt
        else
          let j := object [("k", JStr (base64_encode own_key)); ("si", JStr (createX509Signature (b_hash block)))] in
          tm ← of_result (stol timestamp);
          let producer := getBlockProducerFor tm s in
          if producer =? -1 then mret tt
          else
            text ← of_result (dump j);
            let data := base64_encode text in
            v ← of_result (match blockProducers s !! Z.to_nat producer with Some v => Ok v | None => Throw out_of_range end);
            (if negb (String.eqb (v_publicKey v) producerPKey) then
               on_node (send_verdict (blockStorageNode s) blocknumber data "false" j)
             else if verifyX509Signature (b_hash block) signature publicKey then
               on_node (send_verdict (blockStorageNode s) blocknumber data "true" j)
             else
               on_node (send_verdict (blockStorageNode s) blocknumber data "false" j));;
            modify (fun s => set_blocks (delete (u64 bid) (blocks s)) s)
  end.

(** [registerDataHandlers]: a command without a handler is ignored, and so is [codeDelivery]. *)
Definition handle (o : outside) (cmd : CommandType) (fields : gmap string string) : M master unit :=
  match cmd with
  | exeFunction => handle_exeFunction o fields
  | verificationResult => handle_verificationResult o fields
  | exception => handle_exception fields
  | choseRandomNumber => handle_choseRandomNumber fields
  | txNotification => handle_txNotification o fields
  | syncNodes => handle_syncNodes fields
  | storageurl => handle_storageurl o fields
  | stateChangeResponse => handle_stateChangeResponse fields
  | verifyBlock => handle_verifyBlock o fields
  | _ => mret tt
  end.

(** A message of the network, from the packet to its handler. *)
Definition on_message (o : outside) (data : string) : M master unit :=
  r ← on_node (processIncomingData data "" (o_guid o) 0 false);
  match r with Dispatch cmd fields => handle o cmd fields | Dropped => mret tt end.

(** ** The main loop *)

(** One turn of [runLoop] at the time [time]. *)
Definition loop_turn (dht : string -> string) (time : Z) : M master unit :=
  on_node (modify (set_currentTimestamp time));;
  enterAndExitVotingPhase;;
  s ← get;
  when (1 <=? time - lastRoundTimestamp s) (modify (set_lastRoundTimestamp time);; timeToCloseBlock dht);;
  s ← get;
  when (60 * 5 <? time - lastCleanupTime s)
    (modify (fun s => cleanupTransactionsMap (set_lastCleanupTime time s))).
End Master.
