(* ===== verification/Voting.v ===== *)
(** * The election of the block producers

    Theorems on the voting of the master nodes (file Master): whom a set of ballots elects and when
    two nodes agree on it, that the voting timestamp stays at minute 55, that the index of the
    current producer is always inside the list, and two ways in which the rules the comments state
    are not kept: a node alone in the network elects itself in its second round, and two ballots of
    one node can be registered when their signature checks overlap. *)

From Stdlib Require Import ZArith Lia List Bool Ascii String Sorting.Sorted Sorting.Permutation.
From stdpp Require Import base gmap strings list fin_maps.
From S2P Require Import Prelude.
From S2P Require Import Machine.
From S2P Require Import Cpp.
From S2P Require Import Json.
From S2P Require Import Transaction.
From S2P Require Import Wire.
From S2P Require Import Node.
From S2P Require Import Master.
From S2P Require Import JsonText.

Local Open Scope Z_scope.

Section Voting.
Context `{BoostStrings} `{JsonText} `{Services} `{StdSort}.

(** ** Counting ballots *)

(** The elected ones: the first 21 valid ballots. *)
Definition elected (ballots : list Voter) : list Voter := take 21 (filter (fun v => v_valid v = true) ballots).

Definition holds_seat (l : list Voter) : bool := existsb (fun v => String.eqb (v_publicKey v) node_id) l.

Lemma elect_spec (ballots acc : list Voter) (b : bool) : (length acc < 21)%nat ->
  elect ballots acc b = ((acc ++ take (21 - length acc) (filter (fun v => v_valid v = true) ballots))%list,
    b || holds_seat (take (21 - length acc) (filter (fun v => v_valid v = true) ballots))).
Proof.
  revert acc b; induction ballots as [|v l IH]; intros acc b Hacc; cbn [elect].
  - rewrite filter_nil, take_nil, app_nil_r, orb_false_r. reflexivity.
  - rewrite filter_cons. destruct (v_valid v) eqn:V.
    + rewrite decide_True by reflexivity. rewrite length_app. cbn [length].
      unfold TOTAL_MASTER_NODES. destruct (21 - length acc)%nat as [|k] eqn:E; [lia|]. cbn [take].
      destruct (Z.eqb_spec (Z.of_nat (length acc + 1)) 21) as [H21|H21].
      * replace k with 0%nat by lia. rewrite take_0. cbn [holds_seat existsb]. now rewrite orb_false_r.
      * rewrite IH by (rewrite length_app; cbn; lia). rewrite length_app; cbn [length].
        replace (21 - (length acc + 1))%nat with k by lia. rewrite <- app_assoc. cbn [app holds_seat existsb].
        f_equal. unfold holds_seat. now rewrite orb_assoc.
    + rewrite decide_False by congruence. unfold TOTAL_MASTER_NODES.
      destruct (Z.eqb_spec (Z.of_nat (length acc)) 21) as [H21|_]; [lia | now apply IH].
Qed.

Lemma elect_all (ballots : list Voter) : elect ballots [] false = (elected ballots, holds_seat (elected ballots)).
Proof. rewrite elect_spec by (cbn; lia). reflexivity. Qed.

Lemma voter_lt_weak : strict_weak voter_lt.
Proof. apply (strict_weak_key v_number). Qed.

(** Ballots with different numbers are counted in one order only. *)
Lemma sort_distinct (l m : list Voter) : l ≡ₚ m ->
  (forall a b, a ∈ l -> b ∈ l -> v_number a = v_number b -> a = b) ->
  std_sort voter_lt l = std_sort voter_lt m.
Proof.
  intros HP Hd. pose proof (sort_perm voter_lt l voter_lt_weak) as P1.
  pose proof (sort_perm voter_lt m voter_lt_weak) as P2.
  apply (sorted_unique voter_lt); [| | apply sort_sorted, voter_lt_weak..].
  - intros a b Ha Hb. unfold voter_lt. rewrite !Z.ltb_ge. intros. rewrite P1 in Ha, Hb. apply Hd; auto; lia.
  - now rewrite P1, HP, P2.
Qed.

(** The outcome of closing a vote that went through. *)
Definition winners (s : master) : list Voter :=
  if decide (1 < length (randomNumbers s))%nat then elected (std_sort voter_lt (randomNumbers s)) else [].

Lemma on_node_ok {A} (m : M node A) (s s' : master) (a : A) :
  on_node m s = (s', Ok a) -> s' = set_base (m (base s)).1 s.
Proof. unfold on_node. destruct (m (base s)); cbn. congruence. Qed.

Lemma close_voting_ok (s s' : master) : close_voting s = (s', Ok tt) ->
  blockProducers s' = winners s /\ subscribedTo21 s' = holds_seat (winners s) /\
  inVotingPhase s' = false /\ ignoreThisVotingRound s' = false /\
  randomNumbers s' = (if decide (1 < length (randomNumbers s))%nat then [] else randomNumbers s).
Proof.
  intros P; unfold close_voting in P. ok_bind P as u1 s1 H1'. injection H1' as <- _.
  ok_bind P as u2 s2 HU. unfold updateNextVotingTimestamp in HU.
  ok_bind HU as u3 s3 HG. injection HG as <- <-. ok_bind HU as t s4 HT. injection HT as <- HT. injection HU as <- _.
  ok_bind P as u4 s4 HP. injection HP as <- _. ok_bind P as s5 s5' HG. injection HG as <- <-.
  ok_bind P as seat s6 HC. ok_bind P as s7 s7' HG. injection HG as <- <-.
  assert (C : blockProducers s6 = winners s /\ seat = holds_seat (winners s) /\ inVotingPhase s6 = false /\
    randomNumbers s6 = (if decide (1 < length (randomNumbers s))%nat then [] else randomNumbers s)).
  { unfold winners. cbn [randomNumbers set_blockProducers set_nextVotingTimestampStr set_inVotingPhase] in HC.
    destruct (decide _); [|injection HC as <- <-; easy].
    unfold count_votes in HC. ok_bind HC as s7 s7' HG. injection HG as <- <-.
    cbn [randomNumbers blockProducers set_blockProducers set_nextVotingTimestampStr set_inVotingPhase] in HC.
    rewrite elect_all in HC. ok_bind HC as u5 s8 HM. injection HM as <- _.
    ok_bind HC as s9 s9' HG. injection HG as <- <-. ok_bind HC as text s10 HD. injection HD as <- _.
    ok_bind HC as u6 s11 HE. apply on_node_ok in HE as ->. injection HC as <- <-. easy. }
  destruct C as (C1 & -> & C3 & C4).
  ok_bind P as u7 s8 HS. injection P as <-.
  destruct (holds_seat (winners s)), (subscribedTo21 s6) eqn:E; cbn in HS;
    injection HS as <-; cbn; splits; assumption || reflexivity.
Qed.

(** What the nodes of the network share of a ballot (each keeps its own ballot under another key). *)
Definition ballot (v : Voter) : string * Z * bool := (v_signature v, v_number v, v_valid v).

Lemma elected_ballots (l m : list Voter) : ballot <$> l = ballot <$> m -> ballot <$> elected l = ballot <$> elected m.
Proof.
  unfold elected. intros E. rewrite !fmap_take. f_equal. revert m E.
  induction l as [|v l IH]; intros [|w m] E; try discriminate; [reflexivity|].
  cbn in E. assert (E0 : ballot v = ballot w) by congruence. injection E as _ _ E3 E.
  rewrite !filter_cons. rewrite E3. destruct (decide _); cbn; [|now apply IH].
  rewrite E0. f_equal. now apply IH.
Qed.

End Voting.

Lemma sort_ballots (sort1 sort2 : StdSort) (l m : list Voter) : ballot <$> l ≡ₚ ballot <$> m -> NoDup (v_number <$> l) ->
  ballot <$> std_sort (StdSort := sort1) voter_lt l = ballot <$> std_sort (StdSort := sort2) voter_lt m.
Proof.
  intros HP Hd. set (lt := fun a b : string * Z * bool => a.1.2 <? b.1.2).
  assert (S : forall (sort : StdSort) (k : list Voter), sorted_by lt (ballot <$> std_sort voter_lt k)).
  { intros sort k. pose proof (sort_sorted voter_lt k voter_lt_weak) as Hk. clear - Hk. induction Hk as [|v k' Hk IH Hv]; [constructor|]. cbn. constructor; [exact IH|].
    apply Forall_fmap. exact Hv. }
  apply (sorted_unique lt); [| | apply S..].
  - intros a b Ha Hb. unfold lt. rewrite !Z.ltb_ge. intros L1 L2.
    rewrite (sort_perm voter_lt l voter_lt_weak) in Ha, Hb.
    apply list_elem_of_fmap in Ha as (v & -> & Hv), Hb as (w & -> & Hw). cbn in L1, L2. f_equal.
    apply list_elem_of_lookup in Hv as [i Hi], Hw as [j Hj].
    assert (i = j) as ->; [|congruence].
    apply (NoDup_lookup _ i j (v_number v) Hd); rewrite list_lookup_fmap; [now rewrite Hi|].
    rewrite Hj; cbn; f_equal; lia.
  - now rewrite (sort_perm voter_lt l voter_lt_weak), (sort_perm voter_lt m voter_lt_weak).
Qed.
(** C3: Two master nodes that hold the same ballots, in whatever order they arrived and whatever
    [std::sort] does with them, elect the same producers in the same order, provided no two ballots
    have the same number. *)
Theorem election_agrees `{BoostStrings} `{JsonText} (N1 N2 : Services) (sort1 sort2 : StdSort)
  (s1 s2 s1' s2' : master) :
  ballot <$> randomNumbers s1 ≡ₚ ballot <$> randomNumbers s2 -> NoDup (v_number <$> randomNumbers s1) ->
  close_voting (H1 := N1) (H2 := sort1) s1 = (s1', Ok tt) ->
  close_voting (H1 := N2) (H2 := sort2) s2 = (s2', Ok tt) ->
  ballot <$> blockProducers s1' = ballot <$> blockProducers s2'.
Proof.
  intros HP Hd P1 P2.
  destruct (close_voting_ok s1 s1' P1) as (-> & _), (close_voting_ok s2 s2' P2) as (-> & _).
  assert (L : length (randomNumbers s1) = length (randomNumbers s2))
    by (rewrite <- (length_fmap ballot (randomNumbers s1)), HP; apply length_fmap).
  unfold winners. rewrite L. destruct (decide _); [|reflexivity].
  apply elected_ballots. now apply sort_ballots.
Qed.

(** A master node with the given ballots, inside the voting phase, for the examples. *)
Definition sample_master (ballots : list Voter) : master :=
  mkMaster empty_node ∅ ∅ [] ballots [] ∅ (to_string 3300) "" "" "" false false true
    (mkVoter "" "" 0 false) 0 0 0 "".

Lemma election_agrees_witness :
  let a := mkVoter "sigA" "keyA" 17 true in
  let b := mkVoter "sigB" "keyB" 11 true in
  let s1 := sample_master [a; b] in
  let s2 := sample_master [b; a] in
  let close s := close_voting (H1 := sample_services) s in
  ballot <$> blockProducers (close s1).1 = ballot <$> blockProducers (close s2).1.
Proof.
  intros a b s1 s2 close.
  apply (election_agrees sample_services sample_services std_sort_insertion std_sort_insertion s1 s2).
  - apply perm_swap.
  - apply NoDup_cons; split; [|apply NoDup_singleton]. now intros [E|E%elem_of_nil]%elem_of_cons.
  - vm_compute; reflexivity.
  - vm_compute; reflexivity.
Defined.

(** With equal numbers the order in which the ballots arrived decides, so nodes disagree. *)
Example ties_disagree :
  let a := mkVoter "ab" "keyA" 195 true in
  let b := mkVoter "ba" "keyB" 195 true in
  let close s := (close_voting (H1 := sample_services) s).1 in
  signature_number 0 "ab" = signature_number 0 "ba" /\
  v_signature <$> blockProducers (close (sample_master [a; b])) = ["ab"; "ba"] /\
  v_signature <$> blockProducers (close (sample_master [b; a])) = ["ba"; "ab"].
Proof. vm_compute; splits; reflexivity. Qed.

(** ** Rounds *)

Section Rounds.
Context `{BoostStrings} `{JsonText} `{Services} `{StdSort}.

Lemma open_voting_ok (s s' : master) : ignoreThisVotingRound s = false -> open_voting s = (s', Ok tt) ->
  exists v, v_publicKey v = node_id /\ v_valid v = true /\ v_signature v = createX509Signature (nextVotingTimestampStr s) /\
    randomNumbers s' = (randomNumbers s ++ [v])%list /\ ignoreThisVotingRound s' = false /\ inVotingPhase s' = true.
Proof.
  intros Hi P; unfold open_voting in P. ok_bind P as u1 s1 H1'. injection H1' as <- _.
  ok_bind P as s2 s2' HG. injection HG as <- <-. unfold when, canParticipateInVoting in P.
  cbn [ignoreThisVotingRound set_inVotingPhase] in P. rewrite Hi in P. cbn [negb] in P.
  ok_bind P as u3 s3 HM. injection HM as <- _. apply on_node_ok in P as ->.
  eexists; splits; try reflexivity; [reflexivity.. |]. exact Hi.
Qed.

Lemma valid_ballots (l : list Voter) : Forall (fun v => v_valid v = true) l -> filter (fun v => v_valid v = true) l = l.
Proof. intros Hv; induction Hv as [|v l E Hv IH]; [reflexivity | rewrite filter_cons_True by exact E; now f_equal]. Qed.

Lemma all_elected (l : list Voter) : Forall (fun v => v_valid v = true) l -> (length l <= 21)%nat ->
  elected (std_sort voter_lt l) ≡ₚ l.
Proof.
  intros Hv Hl. pose proof (sort_perm voter_lt l voter_lt_weak) as P. unfold elected.
  rewrite valid_ballots by (rewrite P; exact Hv).
  rewrite take_ge; [exact P | now rewrite P].
Qed.

(** A node alone in the network elects itself in its second round: its only ballot of the first
    round is not counted ("we don't want this node to vote itself in") but not removed either, so in
    the second round it holds two ballots, counts both, fills the list of producers with itself and
    joins the channel of the elected. *)
Theorem lone_node_elects_itself (s s1 s2 s3 s4 : master) :
  ignoreThisVotingRound s = false -> randomNumbers s = [] ->
  open_voting s = (s1, Ok tt) -> close_voting s1 = (s2, Ok tt) ->
  open_voting s2 = (s3, Ok tt) -> close_voting s3 = (s4, Ok tt) ->
  blockProducers s2 = [] /\ subscribedTo21 s2 = false /\
  v_publicKey <$> blockProducers s4 = [node_id; node_id] /\ subscribedTo21 s4 = true.
Proof.
  intros Hi Hr O1 C1 O2 C2.
  destruct (open_voting_ok s s1 Hi O1) as (v & Kv & Vv & _ & R1 & _).
  destruct (close_voting_ok s1 s2 C1) as (P2 & S2 & _ & I2 & R2).
  rewrite Hr in R1. unfold winners in P2, S2. rewrite R1 in P2, S2, R2.
  destruct (decide _) in P2, S2, R2; [cbn in *; lia|].
  destruct (open_voting_ok s2 s3 I2 O2) as (w & Kw & Vw & _ & R3 & _).
  destruct (close_voting_ok s3 s4 C2) as (P4 & S4 & _).
  rewrite R2 in R3. unfold winners in P4, S4. rewrite R3 in P4, S4.
  destruct (decide _) in P4, S4; [|cbn in *; lia]. cbn [app] in P4, S4.
  assert (E : elected (std_sort voter_lt [v; w]) ≡ₚ [v; w])
    by (apply all_elected; [repeat constructor; assumption | cbn; lia]).
  assert (K : v_publicKey <$> blockProducers s4 = [node_id; node_id]).
  { rewrite P4. symmetry in E; apply Permutation_length_2_inv in E as [-> | ->]; cbn; now rewrite Kv, Kw. }
  splits; [exact P2 | exact S2 | exact K |]. rewrite S4, <- P4.
  destruct (blockProducers s4) as [|x bs]; [discriminate|]. cbn in K |- *. injection K as -> _.
  now rewrite String.eqb_refl.
Qed.

(** The timestamp the ballots sign is always minute 55 of an hour: of the current one after
    [initializeNextVotingTimestamp], and [k] hours later after [k] updates, none of which throws. *)
Theorem voting_timestamp (s : master) (k : nat) :
  0 <= now s -> now s + 3600 * (Z.of_nat k + 1) < 2 ^ 62 ->
  let hour := now s / 3600 in
  exists s', Nat.iter k (fun m => m;; updateNextVotingTimestamp) (mret tt) (initializeNextVotingTimestamp s) = (s', Ok tt) /\
    nextVotingTimestampStr s' = to_string (3600 * (hour + Z.of_nat k) + 55 * 60).
Proof.
  intros Hn Hb hour. pose proof (Z.div_mod (now s) 3600 ltac:(lia)) as D. pose proof (Z.mod_pos_bound (now s) 3600 ltac:(lia)).
  fold hour in D. assert (0 <= hour) by (apply Z.div_pos; lia).
  induction k as [|k IH].
  - eexists; split; [reflexivity|]. unfold initializeNextVotingTimestamp, getSecondsPastHour, openVotingStartMinute; cbn.
    f_equal. rewrite Z.rem_mod_nonneg by lia. lia.
  - destruct IH as (s1 & E & T); [lia|]. rewrite Nat.iter_succ. erewrite bind_ok by exact E.
    unfold updateNextVotingTimestamp. erewrite bind_ok by reflexivity. rewrite T.
    erewrite bind_ok by (unfold of_result; now rewrite stoull_to_string by lia).
    eexists; split; [reflexivity|]. cbn. f_equal. unfold i64. rewrite (Z.mod_small (3600 * _ + _ + 2 ^ 63)) by lia.
    rewrite Z.mod_small by lia. lia.
Qed.

(** The producers take turns second by second: the index for a time is its second in the hour
    modulo the number of producers, always inside the list; -1 stands for an empty list. *)
Theorem producer_turns (t : Z) (s : master) :
  0 <= t -> Z.of_nat (length (blockProducers s)) < 2 ^ 31 ->
  (blockProducers s = [] /\ getBlockProducerFor t s = -1) \/
  (getBlockProducerFor t s = (t mod 3600) mod Z.of_nat (length (blockProducers s)) /\
   is_Some (blockProducers s !! Z.to_nat (getBlockProducerFor t s))).
Proof.
  intros Ht Hl. unfold getBlockProducerFor.
  destruct (Z.ltb_spec (Z.of_nat (length (blockProducers s))) 1) as [E0|E0].
  - left. split; [|reflexivity]. apply nil_length_inv. lia.
  - right. unfold producer_index, getSecondsPastHour. rewrite Z.rem_mod_nonneg by lia.
    pose proof (Z.mod_pos_bound t 3600 ltac:(lia)) as M.
    unfold u64. rewrite (Z.mod_small (t mod 3600)) by lia.
    pose proof (Z.mod_pos_bound (t mod 3600) (Z.of_nat (length (blockProducers s))) ltac:(lia)) as M2.
    unfold i32. rewrite Z.mod_small by lia.
    replace (_ + 2 ^ 31 - 2 ^ 31) with ((t mod 3600) mod Z.of_nat (length (blockProducers s))) by lia.
    split; [reflexivity|]. apply lookup_lt_is_Some_2. lia.
Qed.

(** The second copy of a ballot whose checks overlapped: it is dropped unless the signature is as
    long as the list of ballots. *)
Lemma vote_race (s : master) (signature key : string) :
  known_voter key (randomNumbers s) = false ->
  let v := mkVoter signature key (signature_number 0 signature) true in
  randomNumbers ((registerVote_commit signature key;; registerVote_commit signature key) s).1
  = if decide (String.length signature = S (length (randomNumbers s)))
    then (randomNumbers s ++ [v; v])%list else (randomNumbers s ++ [v])%list.
Proof.
  intros Hk v.
  assert (C1 : registerVote_commit signature key s = (set_randomNumbers (randomNumbers s ++ [v])%list s, Ok tt))
    by (unfold registerVote_commit; erewrite bind_ok by reflexivity; now rewrite Hk, andb_false_r).
  erewrite bind_ok by exact C1. unfold registerVote_commit. erewrite bind_ok by reflexivity.
  cbn [randomNumbers set_randomNumbers]. rewrite length_app. cbn [length].
  assert (K : known_voter key (randomNumbers s ++ [v]) = true)
    by (unfold known_voter; rewrite existsb_app; cbn; now rewrite String.eqb_refl, !orb_true_r).
  rewrite K, andb_true_r, Nat.add_1_r.
  destruct (decide _) as [->|Hne]; [rewrite Nat.eqb_refl; cbn; now rewrite <- app_assoc|].
  now rewrite (proj2 (Nat.eqb_neq _ _)).
Qed.
End Rounds.

Lemma lone_node_elects_itself_witness :
  let open s := open_voting (H1 := sample_services) s in
  let close s := close_voting (H1 := sample_services) s in
  let s1 := (open (sample_master [])).1 in
  let s2 := (close s1).1 in
  let s3 := (open s2).1 in
  let s4 := (close s3).1 in
  blockProducers s2 = [] /\ subscribedTo21 s2 = false /\
  v_publicKey <$> blockProducers s4 = ["me"; "me"] /\ subscribedTo21 s4 = true.
Proof.
  intros open close s1 s2 s3 s4.
  apply (lone_node_elects_itself (H1 := sample_services) (sample_master []) s1 s2 s3 s4); vm_compute; reflexivity.
Defined.

Lemma voting_timestamp_witness :
  let s := set_base (set_currentTimestamp 1700000000 empty_node) (sample_master []) in
  exists s', Nat.iter 2 (fun m => m;; updateNextVotingTimestamp) (mret tt) (initializeNextVotingTimestamp s) = (s', Ok tt) /\
    nextVotingTimestampStr s' = to_string 1700009700.
Proof. intros s. apply (voting_timestamp s 2); vm_compute; congruence. Defined.

Lemma producer_turns_witness :
  let s := set_blockProducers [mkVoter "a" "A" 1 true; mkVoter "b" "B" 2 true] (sample_master []) in
  (blockProducers s = [] /\ getBlockProducerFor 3601 s = -1) \/
  (getBlockProducerFor 3601 s = 1 /\ is_Some (blockProducers s !! Z.to_nat (getBlockProducerFor 3601 s))).
Proof. intros s. apply (producer_turns 3601 s); vm_compute; congruence. Defined.
