(* ===== verification/Blocks.v ===== *)
(** * Blocks

    Theorems on the blocks a master node closes and checks (file Master): the queue is split by time
    without losing a transaction, successive blocks are chained, and the three places where the
    code does less than it means: a closed block is dropped when no storage node is known, the
    verdict on a block never leaves the node, and an exception queues a transaction a second time. *)

From Stdlib Require Import ZArith Lia List Bool Ascii String Sorting.Sorted Sorting.Permutation.
From stdpp Require Import base gmap strings list fin_maps.
From S2P Require Import Prelude.
From S2P Require Import Machine.
From S2P Require Import Cpp.
From S2P Require Import Json.
From S2P Require Import Transaction.
From S2P Require Import Wire.
From S2P Require Import Node.
From S2P Require Import Master.
From S2P Require Import Voting.
From S2P Require Import JsonText.

Local Open Scope Z_scope.

Section Blocks.
Context `{BoostStrings} `{JsonText} `{Services} `{StdSort}.

Lemma compare_weak : strict_weak compareTransactions.
Proof. apply (strict_weak_key m_timestamp). Qed.

Lemma split_due_spec (t : Z) (q due rest : list Transaction) : split_due t q = (due, rest) ->
  q = (due ++ rest)%list /\ Forall (fun tx => m_timestamp tx <= t) due /\
  match rest with [] => True | tx :: _ => t < m_timestamp tx end.
Proof.
  revert due rest; induction q as [|tx q IH]; intros due rest; cbn [split_due]; [now intros [= <- <-]|].
  destruct (Z.leb_spec (m_timestamp tx) t).
  - destruct (split_due t q) as [d r]. intros [= <- <-]. destruct (IH d r eq_refl) as (-> & Hd & Hr).
    splits; [reflexivity | now constructor | exact Hr].
  - intros [= <- <-]. splits; [reflexivity | constructor | assumption].
Qed.

Lemma sorted_rest (t : Z) (l : list Transaction) : sorted_by compareTransactions l ->
  match l with [] => True | tx :: _ => t < m_timestamp tx end -> Forall (fun tx => t < m_timestamp tx) l.
Proof.
  intros Hs Hh. destruct Hs as [|tx l Hs Hl]; [constructor|]. constructor; [exact Hh|].
  eapply Forall_impl; [exact Hl|]. intros u. unfold compareTransactions. cbn. rewrite Z.ltb_ge. lia.
Qed.

Lemma sorted_app_r (a b : list Transaction) :
  sorted_by compareTransactions (a ++ b)%list -> sorted_by compareTransactions b.
Proof. induction a as [|x a IH]; [easy|]. intros Hs; inversion Hs; auto. Qed.

(** What [take_due] does with the queue. *)
Lemma take_due_spec (s s' : master) (due : list Transaction) :
  take_due s = (s', Ok due) ->
  (due ++ queueOut s')%list ≡ₚ queueOut s /\ sorted_by compareTransactions (due ++ queueOut s')%list /\
  Forall (fun tx => m_timestamp tx <= now s) due /\ Forall (fun tx => now s < m_timestamp tx) (queueOut s') /\
  transactions s' = transactions s /\ blocks s' = blocks s.
Proof.
  intros P. unfold take_due in P. ok_bind P as u s1 HG. injection HG as <- <-.
  destruct (split_due _ _) as [d r] eqn:E. ok_bind P as v s2 HM. injection HM as <- _. injection P as <- <-.
  apply split_due_spec in E as (E & Hd & Hr). cbn [queueOut set_queueOut transactions blocks].
  pose proof (sort_sorted compareTransactions (queueOut s) compare_weak) as Hs. rewrite E in Hs.
  splits; try reflexivity; [rewrite <- E; apply sort_perm, compare_weak | exact Hs | exact Hd |].
  apply sorted_rest; [|exact Hr]. now apply sorted_app_r in Hs.
Qed.

(** Closing a block takes exactly the due transactions out of the queue, oldest first: together
    with what stays they are a permutation of the queue, sorted by time; those taken are not newer
    than the clock, those that stay are. *)
Theorem take_due_splits (s s' : master) (due : list Transaction) :
  take_due s = (s', Ok due) ->
  (due ++ queueOut s')%list ≡ₚ queueOut s /\ sorted_by compareTransactions (due ++ queueOut s')%list /\
  Forall (fun tx => m_timestamp tx <= now s) due /\ Forall (fun tx => now s < m_timestamp tx) (queueOut s') /\
  transactions s' = transactions s /\ blocks s' = blocks s.
Proof. apply take_due_spec. Qed.

(** ** The chain *)

Lemma getNextBlockNumber_ok (dht : string -> string) (s s' : master) (n : Z) :
  getNextBlockNumber dht s = (s', Ok n) -> nextBlockNumber s' = u64 (n + 1) /\ previousHash s' = previousHash s /\
  (nextBlockNumber s <> 0 -> n = nextBlockNumber s) /\ now s' = now s.
Proof.
  intros P. unfold getNextBlockNumber in P. ok_bind P as u s1 HG. injection HG as <- <-.
  destruct (Z.eqb_spec (nextBlockNumber s) 0) as [E0|E0].
  - destruct (String.eqb _ "").
    + ok_bind P as v s2 HD. apply on_node_ok in HD as ->. ok_bind P as w s3 HM. injection HM as <- _.
      injection P as <- <-. cbn. splits; reflexivity || congruence.
    + ok_bind P as stamp s2 HD. injection HD as <- _. ok_bind P as w s3 HM. injection HM as <- _.
      injection P as <- <-. cbn. splits; reflexivity || congruence.
  - ok_bind P as v s2 HM. injection HM as <- _. injection P as <- <-. cbn. splits; reflexivity.
Qed.

Lemma getBlock_ok (dht : string -> string) (txns : list Transaction) (s s' : master) (b : Block) :
  getBlock dht txns s = (s', Ok b) ->
  nextBlockNumber s' = u64 (b_number b + 1) /\ previousHash s' = b_hash b /\
  (nextBlockNumber s <> 0 -> b_number b = nextBlockNumber s) /\
  b_previousHash b = (if String.eqb (previousHash s) "" then getPreviousHash dht else previousHash s) /\
  b_hash b = calculateBlockHash (b_number b) (b_previousHash b) txns (now s) /\ b_time b = now s.
Proof.
  intros P. unfold getBlock in P. ok_bind P as n s1 HN. apply getNextBlockNumber_ok in HN as (N1 & N2 & N3 & N4).
  ok_bind P as text s2 HD. injection HD as <- _. ok_bind P as u s3 HM. injection HM as <- _.
  ok_bind P as s4 s4' HG. injection HG as <- <-. ok_bind P as v s5 HE. apply on_node_ok in HE as ->.
  ok_bind P as w s6 HM. injection HM as <- _. injection P as <- <-. cbn [b_number b_hash b_previousHash b_time].
  assert (D : foldr (fun tx s => m_txId tx +:+ s) "" (with_blockId n <$> txns)
    = foldr (fun tx s => m_txId tx +:+ s) "" txns) by (induction txns as [|tx l IH]; cbn; [reflexivity | now rewrite IH]).
  rewrite <- N2. unfold calculateBlockHash. rewrite D.
  destruct (String.eqb (previousHash s1) ""); cbn; rewrite ?N1, <- ?N4; splits; reflexivity || exact N3.
Qed.

(** C31: Blocks are chained: after a block, the node closes the block with the next number whose
    previous hash is the hash of that block, whatever else happened in between, as long as the number
    and the hash the module keeps are those the first block left. *)
Theorem blocks_chained (dht dht' : string -> string) (txns txns' : list Transaction)
  (s s1 s2 s3 : master) (b b' : Block) :
  getBlock dht txns s = (s1, Ok b) -> 0 <= b_number b < 2 ^ 64 - 1 -> b_hash b <> "" ->
  nextBlockNumber s2 = nextBlockNumber s1 -> previousHash s2 = previousHash s1 ->
  getBlock dht' txns' s2 = (s3, Ok b') ->
  b_number b' = b_number b + 1 /\ b_previousHash b' = b_hash b /\
  b_hash b' = calculateBlockHash (b_number b + 1) (b_hash b) txns' (now s2).
Proof.
  intros P Hn Hh E1 E2 P'.
  apply getBlock_ok in P as (N & Q & _ & _ & _ & _), P' as (_ & _ & N' & Q' & R' & _).
  rewrite E1, N in N'. rewrite E2, Q in Q'. unfold u64 in N'. rewrite Z.mod_small in N' by lia.
  rewrite (proj2 (String.eqb_neq _ _) Hh) in Q'.
  assert (b_number b' = b_number b + 1) by (apply N'; lia).
  splits; [assumption | exact Q' | congruence].
Qed.

(** ** A closed block without a storage node *)

(** What making a block leaves alone, and that it only writes to the DHT. *)
Definition only_dht (s0 s : master) : Prop :=
  queueOut s = queueOut s0 /\ blocks s = blocks s0 /\ transactions s = transactions s0 /\
  blockProducers s = blockProducers s0 /\ blockStorageNode s = blockStorageNode s0 /\
  storageNodes (base s) = storageNodes (base s0) /\ currentTimestamp (base s) = currentTimestamp (base s0) /\
  exists l, out (base s) = (out (base s0) ++ l)%list /\
    Forall (fun e => match e with DhtPut _ _ _ => True | _ => False end) l.

Lemma only_dht_refl (s : master) : only_dht s s.
Proof. unfold only_dht; splits; try reflexivity. exists []. split; [now rewrite app_nil_r | constructor]. Qed.

Lemma only_dht_key (k : string) (s : master) : only_dht s (set_base64encodedKey k s).
Proof. unfold only_dht; splits; try reflexivity. exists []. split; [cbn; now rewrite app_nil_r | constructor]. Qed.

Lemma only_dht_put (s0 : master) (k v : string) (p : bool) : preserves (only_dht s0) (on_node (dhtPut k v p)).
Proof.
  intros s (E1 & E2 & E3 & E4 & E5 & E6 & E7 & l & E8 & El). unfold only_dht; cbn. splits; try assumption.
  exists (l ++ [DhtPut k v p])%list. cbn. rewrite E8, app_assoc. split; [reflexivity|].
  apply Forall_app; now repeat constructor.
Qed.

Lemma getBlock_only_dht (dht : string -> string) (txns : list Transaction) (s0 : master) :
  preserves (only_dht s0) (getBlock dht txns).
Proof.
  unfold getBlock, getNextBlockNumber. preserve; try apply only_dht_put; apply preserves_modify; intros s Hs; try exact Hs.
  now destruct (String.eqb _ _).
Qed.

(** C39: A block producer that knows no storage node closes its block into nothing: the due
    transactions leave the queue, the block is neither sent nor kept, and the known transactions keep
    their marks, so those marked as being in a block are never queued again. *)
Theorem lost_block (dht : string -> string) (s s' : master) :
  timeToCloseBlock dht s = (s', Ok tt) -> isBlockProducer s = true ->
  blockStorageNode s = "" -> storageNodes (base s) = ∅ ->
  Forall (fun tx => now s < m_timestamp tx) (queueOut s') /\ blocks s' = blocks s /\
  transactions s' = transactions s /\
  exists l, out (base s') = (out (base s) ++ l)%list /\
    Forall (fun e => match e with DhtPut _ _ _ => True | _ => False end) l.
Proof.
  intros P Hp Hb Hn. unfold timeToCloseBlock in P. ok_bind P as u s1 HM. injection HM as <- _.
  set (s1 := if String.eqb (base64encodedKey s) "" then _ else s) in *.
  assert (E : only_dht s s1)
    by (subst s1; destruct (String.eqb _ ""); [apply only_dht_key | apply only_dht_refl]).
  clearbody s1. ok_bind P as due s2 HT.
  pose proof (take_due_spec s1 s2 due HT) as (_ & _ & _ & Hrest & T2 & B2).
  assert (D : base s2 = base s1 /\ blockProducers s2 = blockProducers s1 /\ blockStorageNode s2 = blockStorageNode s1).
  { unfold take_due in HT. ok_bind HT as x y HG. injection HG as <- <-. destruct (split_due _ _).
    ok_bind HT as x y HG. injection HG as <- _. injection HT as <- _. easy. }
  destruct D as (D1 & D2 & D3). ok_bind P as b s3 HB.
  pose proof (getBlock_only_dht dht due s2 s2 (only_dht_refl s2)) as F. rewrite HB in F. cbn [fst] in F.
  destruct F as (F1 & F2 & F3 & F4 & F5 & F6 & F7 & l & F8 & Fl).
  destruct E as (_ & E2 & E3 & E4 & E5 & E6 & E7 & l0 & E8 & El).
  ok_bind P as s4 s4' HG. injection HG as <- <-.
  assert (Hp3 : isBlockProducer s3 = true).
  { revert Hp. unfold isBlockProducer, getCurrentBlockProducer, producer_index, now.
    now rewrite F4, F7, D1, D2, E4, E7. }
  rewrite Hp3 in P. ok_bind P as text s5 HD. injection HD as <- _.
  assert (G : getBlockStorageNode dht s3 = (s3, Ok tt)).
  { unfold getBlockStorageNode. erewrite bind_ok by reflexivity. rewrite F5, D3, E5, Hb. cbn [String.eqb when].
    unfold getNumberOfStorageNodes. now rewrite F6, D1, E6, Hn. }
  erewrite bind_ok in P by exact G. erewrite bind_ok in P by reflexivity.
  rewrite F5, D3, E5, Hb in P. injection P as <-.
  splits; [rewrite F1; unfold now in *; now rewrite E7 in Hrest | congruence.. |].
  exists (l0 ++ l)%list. rewrite F8, D1, E8, app_assoc. split; [reflexivity | now apply Forall_app].
Qed.
End Blocks.

(** The verdict on a block does not reach anyone: whatever the check of the producer's signature
    answers, the handler of [verifyBlock] sends the same messages and leaves the same state, because
    the text it sends is made before the verdict is written. *)
Theorem verdict_lost `{BoostStrings} `{JsonText} (N : Services) (answer : string -> string -> string -> bool)
  (o : outside) (fields : gmap string string) (s : master) :
  let N' := {| node_id := node_id; own_key := own_key; info_hash := info_hash; base64_encode := base64_encode;
               base64_decode := base64_decode; sign_blob := sign_blob; import_key := import_key;
               check_signature := answer |} in
  handle_verifyBlock (H1 := N) o fields s = handle_verifyBlock (H1 := N') o fields s.
Proof.
  intros N'. unfold handle_verifyBlock. change (@base64_decode N') with (@base64_decode N).
  do 8 (apply bind_ext; intros ? ?). destruct (blocks _ !! _) as [b|]; [|reflexivity].
  change (@import_key N') with (@import_key N). destruct (import_key _); [|reflexivity].
  cbn [negb]. do 2 (apply bind_ext; intros ? ?). destruct (String.eqb _ ""); [reflexivity|].
  apply bind_ext; intros ? ?. destruct (_ =? -1); [reflexivity|]. do 2 (apply bind_ext; intros ? ?).
  match goal with |- (?m ≫= ?f) ?s = (?m' ≫= ?f) ?s => assert (E : m s = m' s); [|unfold mbind, M_bind; now rewrite E] end.
  destruct (negb _); [reflexivity|]. now destruct (verifyX509Signature _ _ _), (verifyX509Signature _ _ _).
Qed.

(** ** Examples *)

Definition sample_tx (id : string) (t : Z) : Transaction := own_transaction id t.

(** A producer (the second of two) at second 1 with three queued transactions. *)
Definition sample_producer : master :=
  set_base (set_currentTimestamp 3601 empty_node)
    (set_blockProducers [mkVoter "a" "A" 1 true; mkVoter "b" "me" 2 true]
      (set_queueOut [sample_tx "t3" 5000; sample_tx "t1" 3500; sample_tx "t2" 3600] (sample_master []))).

Lemma take_due_splits_witness :
  let s' := (take_due sample_producer).1 in
  let due := [sample_tx "t1" 3500; sample_tx "t2" 3600] in
  (due ++ queueOut s')%list ≡ₚ queueOut sample_producer /\ sorted_by compareTransactions (due ++ queueOut s')%list /\
  Forall (fun tx => m_timestamp tx <= 3601) due /\ Forall (fun tx => 3601 < m_timestamp tx) (queueOut s') /\
  transactions s' = transactions sample_producer /\ blocks s' = blocks sample_producer.
Proof. intros s' due. apply (take_due_splits sample_producer s' due). vm_compute; reflexivity. Defined.

Lemma blocks_chained_witness :
  let block s txns := getBlock (H1 := sample_services) (fun _ => "") txns s in
  let txns := [sample_tx "t1" 3500] in
  let s1 := (block sample_producer txns).1 in
  exists b b', block sample_producer txns = (s1, Ok b) /\ block s1 [] = ((block s1 []).1, Ok b') /\
    b_number b' = b_number b + 1 /\ b_previousHash b' = b_hash b.
Proof.
  intros block txns s1.
  pose (b := match (block sample_producer txns).2 with Ok b => b | _ => mkBlock 0 "" "" JNull 0 end).
  pose (b' := match (block s1 []).2 with Ok b => b | _ => mkBlock 0 "" "" JNull 0 end).
  exists b, b'. split; [vm_compute; reflexivity|]. split; [vm_compute; reflexivity|].
  destruct (blocks_chained (H1 := sample_services) (fun _ => "") (fun _ => "") txns [] sample_producer s1 s1
    (block s1 []).1 b b') as (E1 & E2 & _); [vm_compute; reflexivity | vm_compute; split; congruence |
    vm_compute; discriminate | reflexivity | reflexivity | vm_compute; reflexivity |].
  split; [exact E1 | exact E2].
Defined.

Lemma lost_block_witness :
  let s' := (timeToCloseBlock (H1 := sample_services) (fun _ => "") sample_producer).1 in
  m_txId <$> queueOut s' = ["t3"] /\ blocks s' = ∅ /\
  Forall (fun tx => 3601 < m_timestamp tx) (queueOut s').
Proof.
  intros s'.
  destruct (lost_block (H1 := sample_services) (fun _ => "") sample_producer s') as (E1 & E2 & _);
    [vm_compute; reflexivity.. |].
  split; [vm_compute; reflexivity|]. split; [exact E2 | exact E1].
Defined.

(** A transaction that is already queued is queued again when its exception arrives. *)
Example exception_queues_twice :
  let tx := with_inBlock true (sample_tx "t1" 3500) in
  let s := set_transactions {["t1" := tx]} (set_queueOut [sample_tx "t1" 3500] sample_producer) in
  let s' := (handle_exception (H1 := sample_services) {["txid" := "t1"; "e" := "boom"]} s).1 in
  m_txId <$> queueOut s' = ["t1"; "t1"].
Proof. vm_compute; reflexivity. Qed.
