(* ===== verification/Verification.v ===== *)
(** * The verification of transactions

    Theorems on how a transaction reaches a block and its client (file Master): a transaction is
    queued for a block at most once and its client answered at most once while the node remembers it,
    over runs of every message, vote, block and cleanup, and fourteen matching results are enough; and
    the cases the code does not handle, a client that has left and messages that come after the
    cleanup. *)

From Stdlib Require Import ZArith Lia List Bool Ascii String.
From stdpp Require Import base gmap strings list fin_maps.
From S2P Require Import Prelude.
From S2P Require Import Machine.
From S2P Require Import Cpp.
From S2P Require Import Json.
From S2P Require Import Transaction.
From S2P Require Import Wire.
From S2P Require Import Node.
From S2P Require Import Master.
From S2P Require Import Voting.
From S2P Require Import Blocks.
From S2P Require Import JsonText.

Local Open Scope Z_scope.

Definition ids (l : list Transaction) : list string := m_txId <$> l.

(** ** What the handlers do to the transactions *)

(** A property of the state that the updates of the master node preserve, those of the transactions
    among them as long as a transaction keeps its identifier and its flags stay up. *)
Record tx_stable (I : master -> Prop) : Prop := {
  tx_base : forall n s, I s -> I (set_base n s);
  tx_insert : forall id tx s, m_txId tx = id -> I s -> I (set_transactions (insert_new id tx (transactions s)) s);
  tx_update : forall id tx tx' s, transactions s !! id = Some tx -> (m_txId tx = id -> m_txId tx' = id) ->
    (m_inBlock tx = true -> m_inBlock tx' = true) -> (m_sentToClient tx = true -> m_sentToClient tx' = true) ->
    I s -> I (set_transactions (<[id := tx']> (transactions s)) s);
  tx_push : forall id tx s, transactions s !! id = Some tx -> m_inBlock tx = false -> I s ->
    I (set_transactions (<[id := with_inBlock true tx]> (transactions s)) (set_queueOut (queueOut s ++ [tx])%list s));
  tx_other : forall s s', transactions s' = transactions s -> queueOut s' = queueOut s -> I s -> I s'
}.

(** A change of the transaction [id] that keeps what [tx_update] asks for. *)
Definition keeps {A} (id : string) (m : M Transaction A) : Prop := forall tx,
  (m_txId tx = id -> m_txId (m tx).1 = id) /\ (m_inBlock tx = true -> m_inBlock (m tx).1 = true) /\
  (m_sentToClient tx = true -> m_sentToClient (m tx).1 = true).

Lemma keeps_get (id : string) : keeps id get.
Proof. intros tx; cbn; auto. Qed.

Lemma keeps_ret {A} (id : string) (a : A) : keeps id (mret a).
Proof. intros tx; cbn; auto. Qed.

Lemma keeps_of_result {A} (id : string) (r : result A) : keeps id (of_result r).
Proof. intros tx; cbn; auto. Qed.

Lemma keeps_bind {A B} (id : string) (m : M Transaction A) (f : A -> M Transaction B) :
  keeps id m -> (forall a, keeps id (f a)) -> keeps id (m ≫= f).
Proof.
  intros Hm Hf tx. unfold mbind, M_bind. specialize (Hm tx). destruct (m tx) as [tx' [a|e]]; [|exact Hm].
  specialize (Hf a tx'). cbn in Hm. tauto.
Qed.

Lemma keeps_when (id : string) (b : bool) (m : M Transaction unit) : keeps id m -> keeps id (when b m).
Proof. destruct b; [easy | intros _; apply keeps_ret]. Qed.

(** An update that does not touch the identifier and the two flags, or raises a flag. *)
Lemma keeps_modify (id : string) (f : Transaction -> Transaction) :
  (forall tx, (m_txId tx = id -> m_txId (f tx) = id) /\ (m_inBlock tx = true -> m_inBlock (f tx) = true) /\
    (m_sentToClient tx = true -> m_sentToClient (f tx) = true)) -> keeps id (modify f).
Proof. intros E tx; apply E. Qed.

Ltac keep := repeat first
  [ apply keeps_get | apply keeps_ret | apply keeps_of_result | apply keeps_when
  | apply keeps_bind; [|intros ?]
  | apply keeps_modify; let tx := fresh in intros tx; destruct tx; cbn; tauto ].

Lemma keeps_verifyHash (id hash : string) : keeps id (modify (fun tx => (verifyHash hash tx).1)).
Proof.
  apply keeps_modify; intros tx; unfold verifyHash.
  destruct (String.eqb (m_lastValidHash tx) ""), (String.eqb hash (m_lastValidHash tx)); destruct tx; cbn; tauto.
Qed.

(** Reading a notification of the transaction [id] sets the identifier and keeps the flags. *)
Lemma fromJson_txId `{JsonText} (id : string) (j : json) (tx : Transaction) : member_string j "txid" = Ok id ->
  m_txId (fromJson j tx).1 = id /\ (m_inBlock tx = true -> m_inBlock (fromJson j tx).1 = true) /\
  (m_sentToClient tx = true -> m_sentToClient (fromJson j tx).1 = true).
Proof.
  intros Hj.
  assert (R : forall k set, (forall v tx, m_txId (set v tx) = m_txId tx /\ m_inBlock (set v tx) = m_inBlock tx /\
    m_sentToClient (set v tx) = m_sentToClient tx) -> keeps id (read_string j k set)).
  { intros k set E. unfold read_string. keep. apply keeps_modify; intros u. destruct (E a u) as (-> & -> & ->). tauto. }
  assert (T : read_string j "txid" with_txId tx = (with_txId id tx, Ok tt)).
  { unfold read_string. unfold mbind at 1, M_bind, of_result.
    destruct j as [| | | | |m]; try discriminate Hj. unfold member_string, at_mutable in Hj. unfold at_const.
    destruct (member "txid" m) as [v|]; [|discriminate Hj]. cbn in *. now rewrite Hj. }
  unfold fromJson. erewrite bind_ok by exact T.
  match goal with |- context [?m (with_txId id tx)] => assert (K : keeps id m) end.
  { repeat (apply keeps_bind; [first [apply R; intros v []; cbn; auto; fail | unfold read_int; keep]|intros ?]); keep. }
  destruct (K (with_txId id tx)) as (K1 & K2 & K3). splits; [now apply K1 | exact K2 | exact K3].
Qed.

Section Stable.
Context `{BoostStrings} `{JsonText} `{Services} `{StdSort}.
Context (I : master -> Prop) (HI : tx_stable I).

Lemma on_node_stable {A} (m : M node A) : preserves I (on_node m).
Proof. intros s Hs. unfold on_node. destruct (m (base s)). now apply (tx_base I HI). Qed.

Lemma modify_other (f : master -> master) :
  (forall s, transactions (f s) = transactions s /\ queueOut (f s) = queueOut s) -> preserves I (modify f).
Proof. intros E s Hs. destruct (E s). now apply (tx_other I HI s). Qed.

Lemma on_transaction_stable {A} (id : string) (m : M Transaction A) : keeps id m -> preserves I (on_transaction id m).
Proof.
  intros Hm s Hs. unfold on_transaction. destruct (transactions s !! id) as [tx|] eqn:E; [|exact Hs].
  destruct (Hm tx) as (K1 & K2 & K3). destruct (m tx) as [tx' r]. cbn in *. now apply (tx_update I HI id tx).
Qed.

Ltac other := apply modify_other; intros ?; try (destruct (String.eqb _ "")); split; reflexivity.
Ltac stable := preserve; try apply on_node_stable; try other;
  try (apply on_transaction_stable; keep).

Lemma getStateChangeStorageNode_stable (dht : string -> string) : preserves I (getStateChangeStorageNode dht).
Proof. unfold getStateChangeStorageNode; stable. Qed.

Lemma getBlockStorageNode_stable (dht : string -> string) : preserves I (getBlockStorageNode dht).
Proof. unfold getBlockStorageNode; stable. Qed.

Lemma sendToVerifier_stable (dht : string -> string) (draw : Z) (id : string) : preserves I (sendToVerifier dht draw id).
Proof.
  unfold sendToVerifier; stable; try apply getStateChangeStorageNode_stable.
Qed.

Lemma answer_client_stable (dht : string -> string) (id : string) : preserves I (answer_client dht id).
Proof. unfold answer_client; stable. apply getStateChangeStorageNode_stable. Qed.

(** Reading a transaction and queueing it. *)
Lemma add_to_block_stable (id : string) : preserves I (add_to_block id).
Proof.
  intros s Hs. unfold add_to_block, mbind, M_bind at 1. unfold on_transaction at 1.
  destruct (transactions s !! id) as [tx|] eqn:E; [|exact Hs]. cbn.
  rewrite insert_id by exact E. destruct (m_inBlock tx) eqn:B; cbn.
  - now apply (tx_other I HI s).
  - unfold on_transaction; cbn. rewrite E. cbn.
    apply (tx_other I HI _ _ eq_refl eq_refl (tx_push I HI id tx s E B Hs)).
Qed.

Lemma checkVerification_stable (dht : string -> string) (id : string) : preserves I (checkVerification dht id).
Proof.
  unfold checkVerification. preserve; try apply add_to_block_stable; try apply answer_client_stable.
  apply on_transaction_stable, keeps_get.
Qed.

Lemma verifyTransaction_stable (dht : string -> string) (id hash output : string) :
  preserves I (verifyTransaction dht id hash output).
Proof.
  unfold verifyTransaction. preserve; try apply checkVerification_stable.
  - apply preserves_modify; intros s Hs. now apply (tx_insert I HI).
  - apply on_transaction_stable. keep. apply keeps_verifyHash.
Qed.

Lemma processIncomingTransaction_stable (dht : string -> string) (draw : Z) (data : string) :
  preserves I (processIncomingTransaction dht draw data).
Proof.
  intros s Hs. unfold processIncomingTransaction. unfold mbind at 1, M_bind at 1, of_result at 1.
  destruct (parse data) as [j|]; [|exact Hs]. unfold mbind at 1, M_bind at 1, of_result at 1.
  destruct (member_string j "txid") as [id|] eqn:Hj; [|exact Hs]. revert s Hs.
  change (preserves I (s ← get; (match transactions s !! id with
     | Some _ => on_transaction id (fromJson j)
     | None => let '(tx, r) := fromJson j new_transaction in
         _ ← of_result r; modify (fun s => set_transactions (insert_new id tx (transactions s)) s)
     end);; sendToVerifier dht draw id;; checkVerification dht id)).
  apply preserves_bind; [apply preserves_get | intros u].
  apply preserves_bind; [|intros ?; preserve; (apply sendToVerifier_stable || apply checkVerification_stable)].
  destruct (transactions u !! id).
  - apply on_transaction_stable. intros tx. pose proof (fromJson_txId id j tx Hj). tauto.
  - destruct (fromJson j new_transaction) as [tx r] eqn:E; preserve.
    apply preserves_modify; intros s0 Hs0. apply (tx_insert I HI); [|exact Hs0].
    destruct (fromJson_txId id j new_transaction Hj) as [K _]. now rewrite E in K.
Qed.

Lemma processCodePacket_stable (verify : string -> string -> string -> result bool) (dht : string -> string) (draw : Z)
  (txId utxid htxid tenantId code inputs signature key : string) :
  preserves I (processCodePacket verify dht draw txId utxid htxid tenantId code inputs signature key).
Proof.
  unfold processCodePacket. stable; try apply sendToVerifier_stable.
  apply preserves_modify; intros s0 Hs0. now apply (tx_insert I HI).
Qed.

Lemma registerVote_stable (signature key : string) : preserves I (registerVote signature key).
Proof. unfold registerVote, registerVote_begin, registerVote_commit. stable. Qed.

(** The handlers but that of [exception]. *)
Lemma handle_stable (o : outside) (cmd : CommandType) (fields : gmap string string) :
  cmd <> exception -> preserves I (handle o cmd fields).
Proof.
  intros Hc. destruct cmd; cbn [handle]; try apply preserves_ret; try congruence.
  - unfold handle_choseRandomNumber; stable; apply registerVote_stable.
  - unfold handle_verificationResult; stable; apply verifyTransaction_stable.
  - unfold handle_txNotification; stable; apply processIncomingTransaction_stable.
  - unfold handle_verifyBlock; stable; apply getBlockStorageNode_stable.
  - unfold handle_storageurl; stable.
  - unfold handle_exeFunction; stable; apply processCodePacket_stable.
  - unfold handle_syncNodes; stable.
  - unfold handle_stateChangeResponse; stable.
Qed.

Lemma enterAndExitVotingPhase_stable : preserves I enterAndExitVotingPhase.
Proof.
  unfold enterAndExitVotingPhase, open_voting, close_voting, updateNextVotingTimestamp, count_votes. stable.
Qed.

Lemma getBlock_stable (dht : string -> string) (txns : list Transaction) : preserves I (getBlock dht txns).
Proof. unfold getBlock, getNextBlockNumber. stable. Qed.
End Stable.

(** ** Runs *)

Section Runs.
Context `{BoostStrings} `{JsonText} `{Services} `{StdSort}.

(** What happens to a node: a message arrives, and the main loop ([runLoop]) looks at the clock, votes,
    closes a block and removes old transactions, each when its time has come. *)
Inductive input :=
| Message (o : outside) (cmd : CommandType) (fields : gmap string string)
| Clock (t : Z)
| Vote
| Close (dht : string -> string) (t : Z)
| Cleanup (t : Z).

Definition due_now (s : master) : list Transaction :=
  (split_due (now s) (std_sort compareTransactions (queueOut s))).1.

(** The list collects the transactions of the blocks closed. *)
Definition advance (x : list Transaction * master) (i : input) : list Transaction * master :=
  let '(c, s) := x in
  match i with
  | Message o cmd fields => (c, (handle o cmd fields s).1)
  | Clock t => (c, set_base (set_currentTimestamp t (base s)) s)
  | Vote => (c, (enterAndExitVotingPhase s).1)
  | Close dht t => ((c ++ due_now s)%list, (timeToCloseBlock dht (set_lastRoundTimestamp t s)).1)
  | Cleanup t => (c, cleanupTransactionsMap (set_lastCleanupTime t s))
  end.

Definition run (x : list Transaction * master) (l : list input) : list Transaction * master := foldl advance x l.

(** A turn of the main loop is such a run; an exception ends it early. *)
Lemma turn_run (dht : string -> string) (t : Z) (c : list Transaction) (s : master) :
  exists l, (loop_turn dht t s).1 = (run (c, s) l).2.
Proof.
  unfold loop_turn, run. erewrite bind_ok by reflexivity. set (s1 := set_base (set_currentTimestamp t (base s)) s).
  destruct (enterAndExitVotingPhase s1) as [s2 [[]|e]] eqn:E2;
    [erewrite bind_ok by exact E2 | erewrite bind_throw by exact E2; exists [Clock t; Vote]; cbn; fold s1; now rewrite E2].
  erewrite bind_ok by reflexivity. destruct (1 <=? t - lastRoundTimestamp s2); cbn [when].
  - destruct (timeToCloseBlock dht (set_lastRoundTimestamp t s2)) as [s3 [[]|e]] eqn:E3.
    + erewrite bind_ok by (erewrite bind_ok by reflexivity; exact E3). erewrite bind_ok by reflexivity.
      destruct (60 * 5 <? t - lastCleanupTime s3); cbn [when].
      * exists [Clock t; Vote; Close dht t; Cleanup t]. cbn. fold s1. rewrite E2. cbn. now rewrite E3.
      * exists [Clock t; Vote; Close dht t]. cbn. fold s1. rewrite E2. cbn. now rewrite E3.
    + erewrite bind_throw by (erewrite bind_ok by reflexivity; exact E3). exists [Clock t; Vote; Close dht t].
      cbn. fold s1. rewrite E2. cbn. now rewrite E3.
  - erewrite bind_ok by reflexivity. erewrite bind_ok by reflexivity. destruct (60 * 5 <? t - lastCleanupTime s2); cbn [when].
    + exists [Clock t; Vote; Cleanup t]. cbn. fold s1. now rewrite E2.
    + exists [Clock t; Vote]. cbn. fold s1. now rewrite E2.
Qed.

(** The transaction an exception message is about. *)
Definition failure_of (fields : gmap string string) : option string :=
  let txstr := field_or_empty fields "tx" in
  if String.eqb txstr "" then fields !! "txid"
  else match parse txstr with Ok j => Some (m_txId (fromJson j new_transaction).1) | Throw _ => None end.

Definition fails (id : string) (i : input) : bool :=
  match i with Message _ exception fields => bool_decide (failure_of fields = Some id) | _ => false end.

(** How often exceptions report a transaction, and how often the node removes it from its table. *)
Definition failures (id : string) (l : list input) : nat := length (List.filter (fails id) l).

Definition knows (s : master) (id : string) : bool := bool_decide (is_Some (transactions s !! id)).
Definition forgets (id : string) (x : list Transaction * master) (i : input) : bool :=
  knows x.2 id && negb (knows (advance x i).2 id).

Fixpoint forgotten (id : string) (x : list Transaction * master) (l : list input) : nat :=
  match l with [] => 0 | i :: l => Nat.b2n (forgets id x i) + forgotten id (advance x i) l end.

(** A property of the queue and the blocks together. *)
Definition stable_run (I : list Transaction -> master -> Prop) : Prop :=
  (forall c, tx_stable (I c)) /\
  (forall c s, I c s -> I (c ++ due_now s)%list (take_due s).1).

Lemma take_due_run (s : master) :
  take_due s = (set_queueOut (split_due (now s) (std_sort compareTransactions (queueOut s))).2 s, Ok (due_now s)).
Proof.
  unfold take_due, due_now. erewrite bind_ok by reflexivity.
  destruct (split_due _ _) as [d r]. reflexivity.
Qed.

Lemma close_run (I : list Transaction -> master -> Prop) (dht : string -> string) (c : list Transaction) (s : master) :
  stable_run I -> I c s -> I (c ++ due_now s)%list (timeToCloseBlock dht s).1.
Proof.
  intros [HI Hd] Hs. unfold timeToCloseBlock. erewrite bind_ok by reflexivity.
  set (s1 := if String.eqb (base64encodedKey s) "" then _ else s).
  assert (E : I c s1 /\ due_now s1 = due_now s).
  { subst s1. destruct (String.eqb _ ""); [|easy]. split; [|reflexivity].
    now apply (tx_other _ (HI c) s). }
  destruct E as [E <-]. erewrite bind_ok by apply take_due_run.
  specialize (Hd c s1 E). rewrite take_due_run in Hd. cbn [fst] in Hd.
  set (I' := I (c ++ due_now s1)%list) in *. revert Hd. generalize (set_queueOut (split_due (now s1)
    (std_sort compareTransactions (queueOut s1))).2 s1) as s2. intros s2. revert s2.
  match goal with |- forall s2, _ -> I' (?m s2).1 => change (preserves I' m) end.
  pose proof (HI (c ++ due_now s1)%list) as HI'. fold I' in HI'. preserve;
    try (now apply getBlock_stable); try (now apply getBlockStorageNode_stable); try (now apply on_node_stable).
  all: apply modify_other; [assumption|]; intros u; try (destruct (decide _)); split; reflexivity.
Qed.

(** Inputs that remove no transaction. *)
Definition calm (i : input) : bool := match i with Message _ exception _ | Cleanup _ => false | _ => true end.

Lemma calm_run (I : list Transaction -> master -> Prop) (x : list Transaction * master) (i : input) :
  stable_run I -> calm i = true -> I x.1 x.2 -> I (advance x i).1 (advance x i).2.
Proof.
  intros HI Hi Hx. pose proof HI as [HS _]. destruct x as [c s], i as [o cmd fields|t| |dht t|t]; cbn in *; try discriminate.
  - apply handle_stable; [apply HS | | exact Hx]. intros ->. discriminate.
  - now apply (tx_base _ (HS c)).
  - now apply enterAndExitVotingPhase_stable.
  - apply (close_run I dht c (set_lastRoundTimestamp t s) HI). now apply (tx_other _ (HS c) s).
Qed.

(** Reading and changing a transaction that is there. *)
Lemma on_transaction_at {A} (id : string) (m : M Transaction A) (s : master) (tx : Transaction) :
  transactions s !! id = Some tx ->
  on_transaction id m s = (set_transactions (<[id := (m tx).1]> (transactions s)) s, (m tx).2).
Proof. intros E. unfold on_transaction. rewrite E. now destruct (m tx). Qed.

Lemma read_at (id : string) (s : master) (tx : Transaction) : transactions s !! id = Some tx ->
  exists s', on_transaction id get s = (s', Ok tx) /\ s' = set_transactions (transactions s) s.
Proof.
  intros E. rewrite (on_transaction_at id get s tx E). cbn. rewrite insert_id by exact E. eauto.
Qed.

(** What an exception does: it queues at most the transaction it is about, and of the table changes at
    most that transaction, which keeps its flags or goes. *)
Record exception_effect (fields : gmap string string) (s s' : master) : Prop := {
  effect_queue : queueOut s' = queueOut s \/ exists tx, queueOut s' = (queueOut s ++ [tx])%list /\
    ((forall id u, transactions s !! id = Some u -> m_txId u = id) -> failure_of fields = Some (m_txId tx));
  effect_table : forall id, transactions s' !! id = transactions s !! id \/
    failure_of fields = Some id /\ (transactions s' !! id = None \/
      exists tx tx', transactions s !! id = Some tx /\ transactions s' !! id = Some tx' /\
        m_txId tx' = m_txId tx /\ m_inBlock tx' = m_inBlock tx /\ m_sentToClient tx' = m_sentToClient tx)
}.

Lemma exception_nothing (fields : gmap string string) (s s' : master) :
  transactions s' = transactions s -> queueOut s' = queueOut s -> exception_effect fields s s'.
Proof. intros E1 E2. split; [now left | intros id; left; now rewrite E1]. Qed.

(** [queueOut] after [push_if_producer]. *)
Lemma push_run (tx : Transaction) (s : master) : exists q, push_if_producer tx s = (set_queueOut q s, Ok tt) /\
  (q = queueOut s \/ q = (queueOut s ++ [tx])%list).
Proof.
  unfold push_if_producer. erewrite bind_ok by reflexivity. destruct (isBlockProducer s); cbn [when].
  - eexists. split; [reflexivity | now right].
  - exists (queueOut s). split; [now destruct s | now left].
Qed.

Lemma exception_about (fields : gmap string string) (s : master) :
  exception_effect fields s (handle_exception fields s).1.
Proof.
  unfold handle_exception. destruct (String.eqb (field_or_empty fields "tx") "") eqn:Etx.
  - unfold field. destruct (fields !! "txid") as [id|] eqn:Eid; [|now apply exception_nothing]. erewrite bind_ok by reflexivity.
    destruct (fields !! "e") as [exp|]; [|now apply exception_nothing]. do 2 (erewrite bind_ok by reflexivity).
    destruct (transactions s !! id) as [tx|] eqn:E; [|now apply exception_nothing].
    assert (F : failure_of fields = Some id) by (unfold failure_of; now rewrite Etx).
    set (u := with_exception exp (with_code "" (setOutput "" tx))). set (s1 := set_transactions (<[id := u]> (transactions s)) s).
    erewrite bind_ok by (rewrite (on_transaction_at id _ s tx E); reflexivity). fold u s1.
    assert (E1 : transactions s1 !! id = Some u) by apply lookup_insert_eq.
    assert (T1 : forall s', transactions s' = transactions s1 -> queueOut s' = queueOut s -> exception_effect fields s s').
    { intros s' Et Eq. split; [now left|]. intros id'. rewrite Et. cbn. destruct (decide (id = id')) as [<-|N].
      - right. split; [exact F|]. right. exists tx, u. rewrite lookup_insert_eq. now repeat split.
      - left. now rewrite lookup_insert_ne. }
    destruct (read_at id s1 u E1) as (s2 & R2 & E2). erewrite bind_ok by exact R2.
    assert (Q2 : transactions s2 = transactions s1 /\ queueOut s2 = queueOut s) by (now rewrite E2). clear E2 R2.
    set (w := when (m_computeNode u) _). assert (W : transactions (w s2).1 = transactions s1 /\ queueOut (w s2).1 = queueOut s).
    { unfold w. destruct (m_computeNode u); cbn [when]; [|exact Q2]. unfold on_node. now destruct (ws_send_json _ _ (base s2)). }
    destruct (w s2) as [s3 [[]|e]] eqn:Ew; cbn [fst] in W; [erewrite bind_ok by exact Ew | erewrite bind_throw by exact Ew; now apply T1].
    destruct (dump (toJson u)) as [text|e]; [erewrite bind_ok by reflexivity | now apply T1].
    destruct (push_run u s3) as (q & Eq & Hq). erewrite bind_ok by exact Eq. erewrite bind_ok by reflexivity.
    unfold on_node. cbn. destruct W as [W1 W2]. split; cbn.
    + rewrite <- W2. destruct Hq as [->| ->]; [now left|]. right. exists u. split; [reflexivity|]. intros K. rewrite F. f_equal.
      symmetry. exact (K id tx E).
    + intros id'. rewrite W1. cbn. destruct (decide (id = id')) as [<-|N].
      * right. split; [exact F|]. left. apply lookup_delete_eq.
      * left. now rewrite lookup_delete_ne, lookup_insert_ne.
  - destruct (parse (field_or_empty fields "tx")) as [j|] eqn:Ej; [|now apply exception_nothing]. erewrite bind_ok by reflexivity.
    destruct (fromJson j new_transaction) as [tx r] eqn:Er. destruct r as [[]|]; [|now apply exception_nothing].
    erewrite bind_ok by reflexivity. destruct (push_run tx s) as (q & Eq & Hq). rewrite Eq. split; [|intros id; now left].
    cbn. destruct Hq as [->| ->]; [now left|]. right. exists tx. split; [reflexivity|]. intros _. unfold failure_of. rewrite Etx, Ej. now rewrite Er.
Qed.

(** ** Queued once *)

Definition occurrences (id : string) (l : list Transaction) : nat := count_occ String.string_dec (ids l) id.

Lemma occurrences_app (id : string) (l m : list Transaction) : occurrences id (l ++ m)%list = (occurrences id l + occurrences id m)%nat.
Proof. unfold occurrences, ids. rewrite fmap_app. apply count_occ_app. Qed.

Lemma occurrences_one (id : string) (tx : Transaction) : occurrences id [tx] = if decide (m_txId tx = id) then 1%nat else 0%nat.
Proof. unfold occurrences. cbn. destruct (String.string_dec _ _), (decide _); congruence. Qed.

Lemma occurrences_perm (id : string) (l m : list Transaction) : l ≡ₚ m -> occurrences id l = occurrences id m.
Proof.
  intros P. unfold occurrences. assert (P' : Permutation (ids l) (ids m)) by (unfold ids; now rewrite P).
  apply (Permutation_count_occ String.string_dec). exact P'.
Qed.

(** A transaction of the table that is marked as being in a block. *)
Definition marked (s : master) (id : string) : nat :=
  match transactions s !! id with Some tx => Nat.b2n (m_inBlock tx) | None => 0 end.

(** Transactions are listed under their identifiers, and each is in the queue and the closed blocks at most
    as often as it may be by the budget [b], once more if it is marked. *)
Record queue_ok (b : string -> nat) (c : list Transaction) (s : master) : Prop := {
  q_key : forall id tx, transactions s !! id = Some tx -> m_txId tx = id;
  q_count : forall id, (occurrences id (c ++ queueOut s) <= b id + marked s id)%nat
}.

Lemma marked_le (s : master) (id : string) : (marked s id <= 1)%nat.
Proof. unfold marked. destruct (transactions s !! id) as [tx|]; [destruct (m_inBlock tx)|]; cbn; lia. Qed.

Lemma queue_tx_stable (b : string -> nat) (c : list Transaction) : tx_stable (queue_ok b c).
Proof.
  split.
  - intros n s [K1 K2]; now split.
  - intros id tx s Hid [K1 K2]. unfold insert_new. split; cbn [transactions queueOut set_transactions].
    + intros id' tx'. destruct (transactions s !! id) eqn:E; [apply K1|].
      rewrite lookup_insert. case_decide; [now intros [= <-]; subst | apply K1].
    + intros id'. etransitivity; [apply K2|]. unfold marked. cbn [transactions set_transactions].
      destruct (transactions s !! id) eqn:E; [lia|]. rewrite lookup_insert. case_decide; [subst; rewrite E; lia | lia].
  - intros id tx tx' s E Hid Hb _ [K1 K2]. split; cbn [transactions queueOut set_transactions].
    + intros id' u. rewrite lookup_insert. case_decide; [intros [= <-]; subst; apply Hid; eauto | apply K1].
    + intros id'. etransitivity; [apply K2|]. unfold marked. cbn [transactions set_transactions]. rewrite lookup_insert.
      case_decide; [subst; rewrite E|lia]. destruct (m_inBlock tx); [rewrite Hb by reflexivity|]; cbn; lia.
  - intros id tx s E B [K1 K2]. split; cbn [transactions queueOut set_transactions set_queueOut].
    + intros id' u. rewrite lookup_insert. case_decide; [intros [= <-]; subst; cbn; auto | apply K1].
    + intros id'. rewrite app_assoc, occurrences_app, occurrences_one, (K1 id tx E). specialize (K2 id'). unfold marked in *.
      cbn [transactions set_transactions set_queueOut]. rewrite lookup_insert. case_decide; [|lia].
      subst. rewrite E, B in K2. cbn in *. lia.
  - intros s s' E1 E2 [K1 K2]. split; unfold marked in *; rewrite ?E1, ?E2; assumption.
Qed.

Lemma due_perm (s : master) : (due_now s ++ (split_due (now s) (std_sort compareTransactions (queueOut s))).2)%list ≡ₚ queueOut s.
Proof.
  unfold due_now. destruct (split_due _ _) as [d r] eqn:E. apply split_due_spec in E as (E & _). cbn.
  rewrite <- E. apply sort_perm, compare_weak.
Qed.

Lemma queue_run (b : string -> nat) : stable_run (queue_ok b).
Proof.
  split; [apply queue_tx_stable|]. intros c s [K1 K2]. rewrite take_due_run. cbn [fst].
  split; cbn [transactions queueOut set_queueOut]; [exact K1|]. intros id.
  rewrite <- app_assoc, (occurrences_perm id _ (c ++ queueOut s)%list) by now rewrite due_perm. apply K2.
Qed.

Lemma queue_mono (b b' : string -> nat) (c : list Transaction) (s : master) :
  (forall id, b id <= b' id)%nat -> queue_ok b c s -> queue_ok b' c s.
Proof. intros Hb [K1 K2]. split; [exact K1|]. intros id. specialize (K2 id). specialize (Hb id). lia. Qed.

(** Any input: the budget of a transaction grows when it is forgotten or fails. *)
Definition charge (x : list Transaction * master) (i : input) (b : string -> nat) : string -> nat :=
  fun id => (b id + Nat.b2n (forgets id x i) + Nat.b2n (fails id i))%nat.

Lemma cleanup_lookup (s : master) (id : string) :
  transactions (cleanupTransactionsMap s) !! id = transactions s !! id \/ transactions (cleanupTransactionsMap s) !! id = None.
Proof.
  unfold cleanupTransactionsMap. cbn. rewrite map_lookup_filter. destruct (transactions s !! id) as [tx|]; [|now left].
  cbn. case_guard; [now left | now right].
Qed.

(** A transaction that is no longer there was forgotten. *)
Lemma forgets_spec (id : string) (x : list Transaction * master) (i : input) (tx : Transaction) :
  transactions x.2 !! id = Some tx -> transactions (advance x i).2 !! id = None -> forgets id x i = true.
Proof. intros E1 E2. unfold forgets, knows. rewrite E1, E2. reflexivity. Qed.

(** The mark of a transaction stays, or the transaction is forgotten. *)
Lemma marked_charge (id : string) (x : list Transaction * master) (i : input) :
  transactions (advance x i).2 !! id = None \/ marked (advance x i).2 id = marked x.2 id ->
  (marked x.2 id <= Nat.b2n (forgets id x i) + marked (advance x i).2 id)%nat.
Proof.
  intros [E|E]; [|lia]. unfold marked. rewrite E. destruct (transactions x.2 !! id) as [tx|] eqn:Et; [|lia].
  rewrite (forgets_spec id x i tx Et E). destruct (m_inBlock tx); cbn; lia.
Qed.

Lemma cleanup_queue (b : string -> nat) (c : list Transaction) (s : master) (t : Z) : queue_ok b c s ->
  queue_ok (charge (c, s) (Cleanup t) b) c (cleanupTransactionsMap (set_lastCleanupTime t s)).
Proof.
  intros [K1 K2]. split.
  - intros id u Hu. destruct (cleanup_lookup (set_lastCleanupTime t s) id) as [E|E]; [|congruence]. apply K1. now rewrite E in Hu.
  - intros id. specialize (K2 id). pose proof (marked_charge id (c, s) (Cleanup t)) as M. unfold charge. cbn [advance fst snd] in M.
    change (queueOut (cleanupTransactionsMap (set_lastCleanupTime t s))) with (queueOut s).
    enough (marked s id <= Nat.b2n (forgets id (c, s) (Cleanup t)) + marked (cleanupTransactionsMap (set_lastCleanupTime t s)) id)%nat by lia.
    apply M. destruct (cleanup_lookup (set_lastCleanupTime t s) id) as [E|E]; [right; unfold marked; now rewrite E | now left].
Qed.

Lemma exception_queue (b : string -> nat) (c : list Transaction) (s : master) (o : outside) (fields : gmap string string) :
  queue_ok b c s -> queue_ok (charge (c, s) (Message o exception fields) b) c (handle_exception fields s).1.
Proof.
  intros [K1 K2]. destruct (exception_about fields s) as [Q T]. split.
  - intros id u Hu. destruct (T id) as [E|(_ & [E|(tx & tx' & E & E' & Ei & _)])]; [apply K1; congruence | congruence|].
    rewrite E' in Hu. injection Hu as <-. rewrite Ei. exact (K1 _ _ E).
  - intros id. specialize (K2 id). pose proof (marked_charge id (c, s) (Message o exception fields)) as M. cbn [advance handle fst snd] in M.
    assert (Hm : (marked s id <= Nat.b2n (forgets id (c, s) (Message o exception fields)) + marked (handle_exception fields s).1 id)%nat).
    { apply M. destruct (T id) as [E|(_ & [E|(tx & tx' & E & E' & _ & Eb & _)])]; [right; unfold marked; now rewrite E | now left|].
      right. unfold marked. now rewrite E, E', Eb. }
    unfold charge. destruct Q as [->|(tx & -> & Hf)]; [lia|]. rewrite app_assoc, occurrences_app, occurrences_one. cbn [fails].
    rewrite (Hf K1). case_decide as Ei; [subst; rewrite bool_decide_true by reflexivity; cbn [Nat.b2n]; lia | lia].
Qed.

Lemma queue_advance (b : string -> nat) (x : list Transaction * master) (i : input) :
  queue_ok b x.1 x.2 -> queue_ok (charge x i b) (advance x i).1 (advance x i).2.
Proof.
  intros Hx. destruct (calm i) eqn:Ci.
  - apply (queue_mono b); [intros id; unfold charge; lia|]. apply (calm_run (queue_ok b) x i (queue_run b) Ci Hx).
  - destruct x as [c s], i as [o cmd fields|t| |dht t|t]; try discriminate Ci; [|now apply cleanup_queue].
    destruct cmd; try discriminate Ci. now apply exception_queue.
Qed.

Lemma queue_runs (l : list input) (b : string -> nat) (x : list Transaction * master) : queue_ok b x.1 x.2 ->
  queue_ok (fun id => b id + forgotten id x l + failures id l)%nat (run x l).1 (run x l).2.
Proof.
  revert b x; induction l as [|i l IH]; intros b x Hx.
  - apply (queue_mono b); [intros id; lia | exact Hx].
  - eapply queue_mono; [|exact (IH _ _ (queue_advance b x i Hx))]. intros id. unfold charge, failures. cbn [forgotten List.filter].
    destruct (fails id i); cbn [Nat.b2n length]; lia.
Qed.

(** C2: A transaction goes into a block at most once, as long as the node remembers it: starting without
    transactions, after any inputs (messages of every command, votes, the clock, closing blocks and
    cleaning up, in any order), an identifier is in the closed blocks and the queue together at most
    once, plus once for each time the node removed the transaction from its table and once for each
    exception reported for it. *)
Theorem queued_once (l : list input) (s : master) (id : string) :
  transactions s = ∅ -> queueOut s = [] ->
  let x := run ([], s) l in
  (occurrences id (x.1 ++ queueOut x.2) <= 1 + forgotten id ([], s) l + failures id l)%nat.
Proof.
  intros Ht Hq x. assert (I : queue_ok (fun _ => 0%nat) [] s).
  { split; [intros id' tx E; rewrite Ht in E; now apply lookup_empty_Some in E|]. intros id'. rewrite Hq. cbn. lia. }
  pose proof (q_count _ _ _ (queue_runs l _ ([], s) I) id) as Q. fold x in Q. cbn beta in Q. pose proof (marked_le x.2 id). lia.
Qed.

(** ** Answered once *)

Definition answered (id : string) (s : master) : Prop :=
  exists tx, transactions s !! id = Some tx /\ m_sentToClient tx = true.

Lemma answered_stable (id : string) : tx_stable (answered id).
Proof.
  split.
  - intros n s Hs; exact Hs.
  - intros id' tx s _ (u & E & B). exists u. split; [|exact B]. cbn. unfold insert_new.
    destruct (transactions s !! id') eqn:E'; [exact E|]. rewrite lookup_insert_ne; [exact E | congruence].
  - intros id' tx tx' s E _ _ Hb (u & E' & B). unfold answered; cbn. rewrite lookup_insert. case_decide; [|eauto].
    subst. exists tx'. split; [reflexivity | apply Hb; congruence].
  - intros id' tx s E _ (u & E' & B). unfold answered; cbn. rewrite lookup_insert. case_decide; [|eauto].
    subst. eexists; split; [reflexivity|]. cbn. congruence.
  - intros s s' E _ Hs. unfold answered. now rewrite E.
Qed.

Lemma answered_run (id : string) : stable_run (fun _ => answered id).
Proof. split; [intros _; apply answered_stable|]. intros c s Hs. now rewrite take_due_run. Qed.

(** An answered transaction stays so until it is forgotten. *)
Lemma answered_advance (id : string) (x : list Transaction * master) (i : input) :
  answered id x.2 -> forgets id x i = false -> answered id (advance x i).2.
Proof.
  intros Hx Hf. destruct (calm i) eqn:Ci; [exact (calm_run (fun _ => answered id) x i (answered_run id) Ci Hx)|].
  assert (K : transactions (advance x i).2 !! id <> None).
  { intros E. destruct Hx as (tx & Et & _). rewrite (forgets_spec id x i tx Et E) in Hf. discriminate. }
  clear Hf. destruct x as [c s], Hx as (tx & Et & Es), i as [o cmd fields|t| |dht t|t]; try discriminate Ci; cbn [snd] in *.
  - destruct cmd; try discriminate Ci. destruct (effect_table _ _ _ (exception_about fields s) id) as [E|(_ & [E|(u & u' & E & E' & _ & _ & F)])].
    + exists tx. split; [change (transactions (handle_exception fields s).1 !! id = Some tx); now rewrite E | exact Es].
    + now destruct K.
    + exists u'. split; [exact E'|]. rewrite F. congruence.
  - destruct (cleanup_lookup (set_lastCleanupTime t s) id) as [E|E]; [|now destruct K]. exists tx. split; [|exact Es].
    change (transactions (cleanupTransactionsMap (set_lastCleanupTime t s)) !! id = Some tx). now rewrite E.
Qed.

Lemma answered_runs (id : string) (l : list input) (x : list Transaction * master) :
  answered id x.2 -> forgotten id x l = 0%nat -> answered id (run x l).2.
Proof.
  revert x; induction l as [|i l IH]; intros x Hx Hf; [exact Hx|]. cbn in Hf. apply IH; [|lia].
  apply answered_advance; [exact Hx|]. destruct (forgets id x i); [discriminate Hf | reflexivity].
Qed.

Lemma checkVerification_answered (dht : string -> string) (id : string) (s : master) :
  answered id s -> base (checkVerification dht id s).1 = base s.
Proof.
  intros (tx & E & B). unfold checkVerification. destruct (read_at id s tx E) as (s1 & R & ->).
  erewrite bind_ok by exact R. destruct (isVerified tx); [|reflexivity]. unfold when at 1.
  unfold canSend. rewrite B. cbn [negb andb]. erewrite bind_ok by reflexivity. unfold add_to_block.
  destruct (read_at id (set_transactions (transactions s) s) tx E) as (s2 & R2 & ->).
  erewrite bind_ok by exact R2. destruct (m_inBlock tx); [reflexivity|]. cbn [negb when].
  erewrite bind_ok by reflexivity. unfold on_transaction; cbn. now rewrite E.
Qed.

Lemma verifyTransaction_check (dht : string -> string) (id hash output : string) (s : master) : exists s1 tx,
  verifyTransaction dht id hash output s = checkVerification dht id s1 /\ transactions s1 !! id = Some tx /\
  base s1 = base s /\ (answered id s -> answered id s1).
Proof.
  pose proof (answered_stable id) as A. unfold verifyTransaction. erewrite bind_ok by reflexivity.
  set (s0 := set_transactions _ s).
  assert (E : exists u, transactions s0 !! id = Some u).
  { subst s0; cbn. unfold insert_new. destruct (transactions s !! id) as [u|] eqn:E; [now exists u|].
    eexists; apply lookup_insert_eq. }
  destruct E as [u E]. set (m := when _ _;; _).
  assert (R : exists u', m u = (u', Ok tt)) by (subst m; destruct (String.eqb output ""); eexists; reflexivity).
  destruct R as [u' R]. pose proof (on_transaction_at id m s0 u E) as T. rewrite R in T.
  erewrite bind_ok by exact T. eexists _, u'. split; [reflexivity|]. cbn. rewrite lookup_insert_eq.
  splits; [reflexivity.. |]. intros Hs.
  assert (K : keeps id m) by (subst m; keep; apply keeps_verifyHash).
  pose proof (on_transaction_stable _ A id m K s0) as P. rewrite T in P. apply P.
  now apply (tx_insert _ A).
Qed.

Definition is_ws (e : event) : bool := match e with WsSend _ _ => true | _ => false end.
Definition sends (s : master) : nat := length (List.filter is_ws (out (base s))).

Lemma sends_snoc (e : event) (n : node) (s : master) :
  sends (set_base (set_out (out (base s) ++ [e])%list n) s) = (sends s + if is_ws e then 1 else 0)%nat.
Proof. unfold sends; cbn. rewrite List.filter_app, length_app. cbn. now destruct (is_ws e). Qed.

(** A verification result that makes the node send something to a client marks the transaction. *)
Lemma answer_marks (dht : string -> string) (id : string) (s0 : master) :
  preserves (fun s => sends s = sends s0 \/ answered id s) (answer_client dht id).
Proof.
  set (I := fun s => _). assert (G : preserves I (getStateChangeStorageNode dht)).
  { unfold getStateChangeStorageNode. preserve; try (apply preserves_modify; intros s Hs; exact Hs).
    intros s [Hs|Hs]; [left | right; exact Hs]. cbn. unfold dhtPut, emit, modify; cbn.
    rewrite <- Hs. unfold sends; cbn. rewrite List.filter_app; cbn. now rewrite app_nil_r. }
  unfold answer_client. apply preserves_bind; [exact G | intros _].
  apply preserves_bind; [apply preserves_get | intros s1].
  intros s Hs. destruct (transactions s !! id) as [tx|] eqn:E; [|unfold mbind, M_bind, on_transaction; now rewrite E].
  destruct (read_at id s tx E) as (s2 & R & ->). erewrite bind_ok by exact R. cbv zeta.
  unfold mbind at 1, M_bind at 1. unfold on_node at 1, ws_send_json, ws_send.
  unfold mbind, M_bind, of_result. destruct (dump _) as [msg|]; [|exact Hs]. cbn.
  destruct (running (base s)); cbn; [destruct (m_connections (base s) !! m_publicKey tx) as [hdl|]; cbn; [|exact Hs]|].
  all: rewrite (on_transaction_at id _ _ tx) by exact E; cbn; right; unfold answered.
  all: destruct (negb _); cbn; eexists; (split; [apply lookup_insert_eq | reflexivity]).
Qed.

Lemma verify_marks (dht : string -> string) (id hash output : string) (s : master) :
  sends (verifyTransaction dht id hash output s).1 <> sends s -> answered id (verifyTransaction dht id hash output s).1.
Proof.
  destruct (verifyTransaction_check dht id hash output s) as (s1 & tx & -> & E & B & _).
  assert (S : sends s1 = sends s) by (unfold sends; now rewrite B). rewrite <- S.
  assert (P : preserves (fun s => sends s = sends s1 \/ answered id s) (checkVerification dht id)).
  { unfold checkVerification, add_to_block. apply preserves_bind.
    { intros s2 Hs. unfold on_transaction. destruct (transactions s2 !! id) as [u|] eqn:Eu; [|exact Hs]. cbn.
      now rewrite insert_id. }
    intros u. apply preserves_when. apply preserves_bind; [apply preserves_when, answer_marks | intros _].
    fold (add_to_block id). intros s2 [Hs|Hs]; [left | right; now apply add_to_block_stable, Hs; apply answered_stable].
    unfold add_to_block, mbind, M_bind, on_transaction. destruct (transactions s2 !! id) as [w|] eqn:Ew; [|exact Hs].
    cbn. destruct (m_inBlock w); cbn; [exact Hs|]. rewrite insert_id, Ew by exact Ew. exact Hs. }
  intros Hne. destruct (P s1 (or_introl eq_refl)) as [F|F]; [now destruct Hne | exact F].
Qed.

(** C15: A client is answered at most once while the node remembers its transaction: after a verification
    result made the node send something to a client, and after any further inputs (messages of every
    command, votes, the clock, closing blocks and cleaning up) during which the transaction is not
    removed from the table, a later result of it makes the node send nothing at all. Removing it, by
    the cleanup after a minute or by an exception, which the client also gets, ends the guarantee. *)
Theorem answered_once (dht dht' : string -> string) (id hash hash' output output' : string)
  (l : list input) (c : list Transaction) (s : master) :
  let s1 := (verifyTransaction dht id hash output s).1 in
  sends s1 <> sends s -> forgotten id (c, s1) l = 0%nat ->
  let s2 := (run (c, s1) l).2 in
  out (base (verifyTransaction dht' id hash' output' s2).1) = out (base s2).
Proof.
  intros s1 Hsend Hf s2. apply verify_marks in Hsend.
  pose proof (answered_runs id l (c, s1) Hsend Hf) as A. fold s2 in A.
  destruct (verifyTransaction_check dht' id hash' output' s2) as (s3 & tx & -> & _ & B & A3).
  now rewrite checkVerification_answered, B by auto.
Qed.

(** ** Results and the queue *)

(** The effect of one result on a transaction. *)
Definition note_result (hash output : string) (tx : Transaction) : Transaction :=
  (verifyHash hash (if String.eqb output "" then tx else setOutput output tx)).1.

Lemma verify_known (dht : string -> string) (id hash output : string) (s : master) (tx : Transaction) :
  transactions s !! id = Some tx ->
  verifyTransaction dht id hash output s =
  checkVerification dht id (set_transactions (<[id := note_result hash output tx]> (transactions s)) s).
Proof.
  intros E. unfold verifyTransaction. erewrite bind_ok by reflexivity. unfold insert_new at 1. rewrite E.
  erewrite bind_ok; [reflexivity|]. erewrite on_transaction_at by exact E. cbn [transactions set_transactions].
  unfold note_result. destruct (String.eqb output ""); reflexivity.
Qed.

Lemma checkVerification_known (dht : string -> string) (id : string) (s : master) (tx : Transaction) :
  transactions s !! id = Some tx -> canSend tx = false ->
  checkVerification dht id s =
  (if isVerified tx && negb (m_inBlock tx)
   then set_transactions (<[id := with_inBlock true tx]> (transactions s)) (set_queueOut (queueOut s ++ [tx])%list s)
   else set_transactions (transactions s) s, Ok tt).
Proof.
  intros E C. unfold checkVerification. destruct (read_at id s tx E) as (s1 & R & ->). erewrite bind_ok by exact R.
  rewrite C. destruct (isVerified tx); [|reflexivity]. unfold when at 1. erewrite bind_ok by reflexivity.
  unfold add_to_block. destruct (read_at id (set_transactions (transactions s) s) tx E) as (s2 & R2 & ->).
  erewrite bind_ok by exact R2. destruct (m_inBlock tx); [reflexivity|]. cbn [negb when andb].
  erewrite bind_ok by reflexivity. erewrite on_transaction_at by exact E. reflexivity.
Qed.

(** The results of a transaction, one after the other. *)
Definition note_results (results : list (string * string)) (tx : Transaction) : Transaction :=
  foldl (fun tx r => note_result r.1 r.2 tx) tx results.

Definition verify_results (dht : string -> string) (id : string) (results : list (string * string)) : M master unit :=
  foldl (fun m r => m;; verifyTransaction dht id r.1 r.2) (mret tt) results.

(** A flag of the block laid over the transaction. *)
Definition in_step (b : bool) (tx : Transaction) : Transaction := if b then with_inBlock true tx else tx.

Lemma note_in_step (hash output : string) (b : bool) (tx : Transaction) :
  note_result hash output (in_step b tx) = in_step b (note_result hash output tx).
Proof.
  destruct b; [|reflexivity]. unfold note_result, verifyHash, in_step. destruct (String.eqb output ""); cbn;
  destruct (String.eqb (m_lastValidHash tx) ""), (String.eqb hash (m_lastValidHash tx)); reflexivity.
Qed.

Lemma note_result_flags (hash output : string) (tx : Transaction) :
  m_txId (note_result hash output tx) = m_txId tx /\ m_computeNode (note_result hash output tx) = m_computeNode tx /\
  m_inBlock (note_result hash output tx) = m_inBlock tx.
Proof.
  unfold note_result, verifyHash. destruct (String.eqb output ""); cbn;
  destruct (String.eqb (m_lastValidHash tx) ""), (String.eqb hash (m_lastValidHash tx)); cbn; auto.
Qed.

(** After any results of a transaction of another node's client, it is queued exactly when it was
    verified after one of them. *)
Lemma verify_results_spec (dht : string -> string) (id : string) (results : list (string * string))
  (s : master) (tx : Transaction) :
  transactions s !! id = Some tx -> m_txId tx = id -> m_computeNode tx = false -> m_inBlock tx = false ->
  exists s' b, verify_results dht id results s = (s', Ok tt) /\
    transactions s' !! id = Some (in_step b (note_results results tx)) /\
    (b = true -> id ∈ ids (queueOut s')) /\ (b = false -> queueOut s' = queueOut s) /\
    (results <> [] -> isVerified (note_results results tx) = true -> b = true) /\
    (b = true -> exists k, (0 < k <= length results)%nat /\ isVerified (note_results (take k results) tx) = true).
Proof.
  intros E Hid Hc Hb. induction results as [|[h o] l IH] using rev_ind.
  - exists s, false. splits; easy || exact E.
  - destruct IH as (s1 & b & P & T & Q1 & Q2 & _ & Q4). unfold verify_results in *. rewrite foldl_app. cbn [foldl].
    erewrite bind_ok by exact P. cbn [fst snd]. rewrite (verify_known dht id h o s1 _ T), note_in_step.
    unfold note_results at 1 2 3. rewrite foldl_app. cbn [foldl fst snd]. fold (note_results l tx).
    set (u := note_result h o (note_results l tx)).
    assert (F : m_txId u = id /\ m_computeNode u = false /\ m_inBlock u = false).
    { subst u. destruct (note_result_flags h o (note_results l tx)) as (-> & -> & ->).
      clear - Hid Hc Hb. induction l as [|r l IH] using rev_ind; [easy|]. unfold note_results in *.
      rewrite foldl_app. cbn [foldl]. destruct (note_result_flags r.1 r.2 (foldl (fun tx r => note_result r.1 r.2 tx) tx l)) as (-> & -> & ->).
      exact IH. }
    destruct F as (F1 & F2 & F3).
    rewrite (checkVerification_known dht id _ (in_step b u)); [| apply lookup_insert_eq |
      unfold canSend; destruct b; cbn; rewrite F2; apply andb_false_r].
    assert (V : isVerified (in_step b u) = isVerified u) by now destruct b. rewrite V.
    assert (N : negb (m_inBlock (in_step b u)) = negb b) by (destruct b; cbn; now rewrite ?F3). rewrite N.
    destruct b; cbn [negb].
    + rewrite andb_false_r. eexists _, true. split; [reflexivity|].
      split; [cbn; apply lookup_insert_eq|]. split; [exact Q1|]. split; [discriminate|]. split; [reflexivity|].
      intros _. destruct (Q4 eq_refl) as (k & Hk & Vk). exists k. rewrite length_app. split; [lia|].
      now rewrite take_app_le by lia.
    + rewrite andb_true_r. destruct (isVerified u) eqn:Vu; (eexists _, _; split; [reflexivity|]).
      * split; [cbn; apply (lookup_insert_eq _ _ (in_step true u))|]. split; [|split; [discriminate | split; [reflexivity|]]].
        -- intros _. cbn. unfold ids. rewrite fmap_app, elem_of_app. right. cbn.
           apply list_elem_of_singleton. now symmetry.
        -- intros _. exists (length (l ++ [(h, o)])). rewrite firstn_all. split; [rewrite length_app; cbn; lia|].
           unfold note_results. rewrite foldl_app. exact Vu.
      * split; [cbn; apply (lookup_insert_eq _ _ (in_step false u))|].
        split; [discriminate | split; [intros _; cbn; now apply Q2 | split; [congruence | discriminate]]].
Qed.

Lemma with_lastValidHash_same (h : string) (tx : Transaction) :
  m_lastValidHash tx = h -> with_lastValidHash h tx = tx.
Proof. intros <-. now destruct tx. Qed.

Lemma note_results_equal (h : string) (l : list (string * string)) (tx : Transaction) :
  h <> "" -> Forall (fun r => r.1 = h) l -> m_lastValidHash tx = "" -> m_totalVerified tx = 0 ->
  Z.of_nat (length l) < 2 ^ 31 ->
  let tx' := note_results l tx in
  m_totalVerified tx' = Z.of_nat (length l) /\ m_lastValidHash tx' = (if decide (l = []) then "" else h) /\
  m_receivedFullTransaction tx' = m_receivedFullTransaction tx /\
  m_receivedOutput tx' = m_receivedOutput tx || existsb (fun r => negb (String.eqb r.2 "")) l.
Proof.
  intros Hh Hl E0 T0 Hlen. induction l as [|[k o] l IH] using rev_ind.
  - rewrite decide_True by reflexivity. cbn. now rewrite orb_false_r.
  - apply Forall_app in Hl as [Hl Hk]. apply Forall_inv in Hk. cbn in Hk; subst k.
    rewrite length_app in *. cbn [length] in *. destruct IH as (I1 & I2 & I3 & I4); [exact Hl | lia |].
    rewrite decide_False by now destruct l. rewrite existsb_app. cbn [existsb snd].
    unfold note_results in *. rewrite foldl_app. cbn [foldl fst snd]. set (u := foldl _ tx l) in *.
    unfold note_result. set (w := if String.eqb o "" then u else setOutput o u).
    assert (W : m_totalVerified w = m_totalVerified u /\ m_lastValidHash w = m_lastValidHash u /\
      m_receivedFullTransaction w = m_receivedFullTransaction u /\
      m_receivedOutput w = m_receivedOutput u || negb (String.eqb o ""))
      by (subst w; destruct (String.eqb o ""); cbn; rewrite ?orb_true_r, ?orb_false_r; auto).
    destruct W as (W1 & W2 & W3 & W4). rewrite orb_false_r.
    assert (V : (verifyHash h w).1 = incrementTotalVerified (with_lastValidHash h w)).
    { unfold verifyHash. rewrite W2, I2. destruct (decide (l = [])) as [|Hn]; [reflexivity|].
      destruct (String.eqb_spec h ""); [easy|]. rewrite String.eqb_refl. cbn [fst].
      assert (S : with_lastValidHash h w = w) by (apply with_lastValidHash_same; congruence).
      now rewrite S. }
    rewrite V. cbn. rewrite W1, W3, W4, I1, I3, I4, orb_assoc.
    splits; try reflexivity. unfold i32. rewrite Z.mod_small by lia. lia.
Qed.

(** C16: Fourteen matching results bring a transaction into the queue of the next block, and thirteen do
    not: for a transaction of another node's client, announced and not yet in a block, whose results
    all carry one hash and at least one of them the output. *)
Theorem majority_queues (dht : string -> string) (id h : string) (results : list (string * string))
  (s : master) (tx : Transaction) :
  transactions s !! id = Some tx -> m_txId tx = id -> m_computeNode tx = false -> m_inBlock tx = false ->
  m_receivedFullTransaction tx = true -> m_lastValidHash tx = "" -> m_totalVerified tx = 0 ->
  h <> "" -> Forall (fun r => r.1 = h) results -> existsb (fun r => negb (String.eqb r.2 "")) results = true ->
  Z.of_nat (length results) < 2 ^ 31 ->
  exists s', verify_results dht id results s = (s', Ok tt) /\
    if 14 <=? Z.of_nat (length results) then id ∈ ids (queueOut s') else queueOut s' = queueOut s.
Proof.
  intros E Hid Hc Hb Hf L0 T0 Hh Hall Hout Hlen.
  destruct (verify_results_spec dht id results s tx E Hid Hc Hb) as (s' & b & P & _ & Q1 & Q2 & Q3 & Q4).
  exists s'. split; [exact P|].
  assert (V : forall k, (k <= length results)%nat -> isVerified (note_results (take k results) tx) = true -> 14 <= Z.of_nat k).
  { intros k Hk Vk. assert (L : length (take k results) = k) by (rewrite length_take; lia).
    destruct (note_results_equal h (take k results) tx Hh) as (N1 & _); [now apply Forall_take | assumption.. | lia |].
    unfold isVerified in Vk. rewrite N1, majority_is_14, L in Vk. destruct (Z.leb_spec 14 (Z.of_nat k)); [lia | discriminate]. }
  destruct (note_results_equal h results tx Hh Hall L0 T0 Hlen) as (N1 & _ & N3 & N4).
  destruct (Z.leb_spec 14 (Z.of_nat (length results))) as [L|L].
  - apply Q1, Q3; [intros ->; cbn in L; lia|]. unfold isVerified. rewrite N1, N3, N4, majority_is_14, Hf, Hout, orb_true_r.
    now rewrite (proj2 (Z.leb_le _ _) L).
  - apply Q2. destruct b; [|reflexivity]. destruct (Q4 eq_refl) as (k & Hk & Vk). specialize (V k ltac:(lia) Vk); lia.
Qed.

(** A client that has left keeps its transaction out of the blocks: once the transaction is
    verified, answering fails with an exception before the transaction is queued, each time a
    result arrives. *)
Theorem disconnected_client_blocks (dht : string -> string) (id hash output : string) (s : master) (tx : Transaction) :
  transactions s !! id = Some tx -> isVerified (note_result hash output tx) = true ->
  m_computeNode tx = true -> m_sentToClient tx = false -> running (base s) = true ->
  m_connections (base s) !! m_publicKey tx = None ->
  exists s' e, verifyTransaction dht id hash output s = (s', Throw e) /\ queueOut s' = queueOut s.
Proof.
  intros E V C S R K. rewrite (verify_known dht id hash output s tx E).
  set (u := note_result hash output tx) in *. set (s1 := set_transactions _ s).
  assert (F : m_computeNode u = true /\ m_sentToClient u = false /\ m_publicKey u = m_publicKey tx).
  { subst u. clear - C S. unfold note_result, verifyHash. destruct (String.eqb output ""); cbn;
    destruct (String.eqb (m_lastValidHash tx) ""), (String.eqb hash (m_lastValidHash tx)); auto. }
  destruct F as (F1 & F2 & F3). assert (E1 : transactions s1 !! id = Some u) by apply lookup_insert_eq.
  unfold checkVerification. destruct (read_at id s1 u E1) as (s2 & R2 & ->). erewrite bind_ok by exact R2.
  rewrite V. unfold when at 1. unfold canSend. rewrite F1, F2. cbn [negb andb when].
  set (s2 := set_transactions (transactions s1) s1).
  assert (G : exists s3, (getStateChangeStorageNode dht s2 = (s3, Ok tt) \/ exists e, getStateChangeStorageNode dht s2 = (s3, Throw e)) /\
    queueOut s3 = queueOut s /\
    transactions s3 = transactions s1 /\ running (base s3) = true /\ m_connections (base s3) = m_connections (base s)).
  { unfold getStateChangeStorageNode. erewrite bind_ok by reflexivity.
    destruct (String.eqb (stateChangeStorageNode s2) ""); cbn [when]; [|exists s2; now split; [left|]].
    destruct (_ <? 2); [exists s2; now split; [left|]|]. do 2 (erewrite bind_ok by reflexivity).
    destruct (String.eqb _ ""); cbn [when]; [|eexists; split; [left; reflexivity | now cbn]].
    unfold getStorageNodeKey. destruct (_ !! 1%nat) as [key|].
    - do 2 (erewrite bind_ok by reflexivity). eexists; split; [left; reflexivity | now cbn].
    - eexists. split; [right; eexists; apply bind_throw; reflexivity | now cbn]. }
  destruct G as (s3 & [G|[e G]] & G1 & G2 & G3 & G4).
  2:{ exists s3, e. split; [|exact G1]. apply bind_throw. now apply bind_throw. }
  assert (A : exists s4 e, answer_client dht id s2 = (s4, Throw e) /\ queueOut s4 = queueOut s).
  { unfold answer_client. erewrite bind_ok by exact G. erewrite bind_ok by reflexivity.
    rewrite <- G2 in E1. destruct (read_at id s3 u E1) as (s4 & R4 & ->). erewrite bind_ok by exact R4. cbv zeta.
    assert (W : forall j, exists e, on_node (ws_send_json (m_publicKey u) j) s3 = (set_base (base s3) s3, Throw e)).
    { intros j. unfold on_node, ws_send_json, ws_send, mbind, M_bind, of_result.
      destruct (dump j) as [t|e]; [|now exists e]. cbn. rewrite G3, G4, F3, K. now eexists. }
    match goal with |- context [ws_send_json _ ?j] => destruct (W j) as [e We] end.
    exists (set_base (base s3) s3), e. split; [apply bind_throw; exact We | exact G1]. }
  destruct A as (s4 & e & A & A1). exists s4, e. split; [|exact A1]. now apply bind_throw.
Qed.
End Runs.

(** ** Examples *)

Definition quiet : outside := {| o_verify _ _ _ := Ok true; o_dht _ := ""; o_draw := 0; o_guid := "" |}.

#[local] Existing Instance sample_services.

Definition result_message (hash : string) : input :=
  Message quiet verificationResult {["txid" := "t1"; "h" := hash; "o" := "42"]}.

(** The text of a notification, as its producer wrote it. *)
Definition notification (tx : Transaction) : input :=
  Message quiet txNotification {["utxid" := "u"; "tx" := match dump (toJson tx) with Ok s => s | Throw _ => "" end]}.

Definition close (t : Z) : input := Close (fun _ => "") t.

(** Fifteen results, a block, a late notification with a late result, and another block. *)
Lemma queued_once_witness :
  let l := (notification (sample_tx "t1" 3500) :: replicate 15 (result_message "abc") ++ [close 3600] ++
    [notification (sample_tx "t1" 3500); result_message "abc"; Clock 3700; close 3700])%list in
  let s := set_queueOut [] sample_producer in
  let x := run ([], s) l in
  ids x.1 = ["t1"] /\ (occurrences "t1" (x.1 ++ queueOut x.2) <= 1)%nat.
Proof.
  intros l s x. split; [vm_compute; reflexivity|].
  etransitivity; [apply (queued_once l s "t1"); vm_compute; reflexivity|]. apply Nat.leb_le. vm_compute. reflexivity.
Defined.

(** The table is cleaned between the block and late copies of the messages: the transaction is queued
    again, since what [inBlock] marks is gone. *)
Lemma cleanup_queues_again :
  let messages := (notification (sample_tx "t1" 3500) :: replicate 15 (result_message "abc"))%list in
  let l := (messages ++ [close 3600; Clock 3700; Cleanup 3700] ++ messages)%list in
  let s := set_queueOut [] sample_producer in
  let x := run ([], s) l in
  forgotten "t1" ([], s) l = 1%nat /\ ids (x.1 ++ queueOut x.2) = ["t1"; "t1"].
Proof. vm_compute. split; reflexivity. Qed.

(** A master node with a transaction [t1] of its client, which is connected or has left, and [n]
    results. *)
Definition waiting (connected : bool) (n : nat) : master :=
  let s := set_base (set_running true (set_m_connections (if connected then {["client" := 7]} else ∅) empty_node))
    (set_transactions {["t1" := with_publicKey "client" (sample_tx "t1" 3500)]} sample_producer) in
  (run ([], s) (replicate n (result_message "abc"))).2.

Lemma answered_once_witness :
  let dht (_ : string) := "" in
  let s1 := (verifyTransaction dht "t1" "abc" "42" (waiting true 13)).1 in
  let s2 := (run ([], s1) [Clock 3550; Cleanup 3550; result_message "abc"]).2 in
  sends s1 = 1%nat /\ out (base (verifyTransaction dht "t1" "abc" "42" s2).1) = out (base s2).
Proof.
  intros dht s1 s2. split; [vm_compute; reflexivity|].
  apply (answered_once dht dht "t1" "abc" "abc" "42" "42" [Clock 3550; Cleanup 3550; result_message "abc"] [] (waiting true 13)).
  - intros E. vm_compute in E. discriminate.
  - vm_compute. reflexivity.
Defined.

Lemma majority_queues_witness :
  let tx := with_computeNode false (sample_tx "t1" 3500) in
  let s := set_transactions {["t1" := tx]} sample_producer in
  exists s', verify_results (fun _ => "") "t1" (replicate 14 ("abc", "42")) s = (s', Ok tt) /\
    "t1" ∈ ids (queueOut s').
Proof.
  intros tx s.
  apply (majority_queues (fun _ => "") "t1" "abc" (replicate 14 ("abc", "42")) s tx);
    try (vm_compute; reflexivity); [discriminate | repeat constructor].
Defined.

Lemma disconnected_client_blocks_witness :
  exists s' e, verifyTransaction (fun _ => "") "t1" "abc" "42" (waiting false 13) = (s', Throw e) /\
    queueOut s' = queueOut (waiting false 13).
Proof.
  pose (tx := match transactions (waiting false 13) !! "t1" with Some tx => tx | None => new_transaction end).
  apply (disconnected_client_blocks (fun _ => "") "t1" "abc" "42" (waiting false 13) tx);
    vm_compute; reflexivity.
Defined.
