(* ===== verification/Expression.v ===== *)
(** * Filter expressions

    The storage node's language of filters over documents (src/StorageNode/StorageNode.cpp,
    StorageNode.h): comparisons of a quoted field with a value, joined with [&] and [|] and grouped
    with parentheses. [getPostfixedExpressionOf] reads the text into postfix form with a stack of
    operators and the table [precedence]; [getExpressionTreeFrom] builds the tree. The text is the
    remaining input instead of an index into it; fuel counts the turns of the loop, each of which
    takes at least one character. *)

From Stdlib Require Import ZArith Lia List Bool Ascii String.
From stdpp Require Import base gmap strings list.
From S2P Require Import Prelude.
From S2P Require Import Cpp.

Local Open Scope string_scope.

Definition QUOTE : ascii := "034".

(** ** Postfix form *)

(** [precedence[a][b]]: true when [a] has higher precedence than [b]; missing entries are false. *)
Definition precedence (a b : string) : bool :=
  if decide (a ∈ ["="; "<"; ">"; "<="; ">="; "<>"]) then bool_decide (b ∈ ["&"; "|"])
  else String.eqb a "&" && String.eqb b "|".

(** The rest of a quoted string with its final quotation mark ([at] throws at the end of the text). *)
Fixpoint read_quoted (expr : string) : result (string * string) :=
  match expr with
  | EmptyString => Throw out_of_range
  | String c expr =>
      if Ascii.eqb c QUOTE then Ok (String c "", expr)
      else '(operand, rest) ← read_quoted expr; Ok (String c operand, rest)
  end.

(** The digits in front. *)
Fixpoint read_number (expr : string) : string * string :=
  match expr with
  | String c expr' =>
      if isdigit c then let '(operand, rest) := read_number expr' in (String c operand, rest) else ("", expr)
  | EmptyString => ("", "")
  end.

(** A right parenthesis: pop until the left one ([top] of an empty stack is undefined). *)
Fixpoint pop_to_paren (operators postfix : list string) : result (list string * list string) :=
  match operators with
  | [] => Throw undefined
  | top :: operators => if String.eqb top "(" then Ok (operators, postfix) else pop_to_paren operators (postfix ++ [top])%list
  end.

(** Pop the operators over which [op] has no precedence, up to a left parenthesis. *)
Fixpoint pop_stronger (op : string) (operators postfix : list string) : list string * list string :=
  match operators with
  | [] => ([], postfix)
  | top :: operators' =>
      if precedence op top || String.eqb top "(" then (operators, postfix)
      else pop_stronger op operators' (postfix ++ [top])%list
  end.

(** The operator that begins with [c], and the text behind it; [at] throws behind a final [<] or [>]. *)
Definition read_operator (c : ascii) (expr : string) : result (string * string) :=
  if Ascii.eqb c "<" then
    match expr with
    | EmptyString => Throw out_of_range
    | String d rest => if Ascii.eqb d "=" || Ascii.eqb d ">" then Ok (String c (String d ""), rest) else Ok (String c "", expr)
    end
  else if Ascii.eqb c ">" then
    match expr with
    | EmptyString => Throw out_of_range
    | String d rest => if Ascii.eqb d "=" then Ok (String c (String d ""), rest) else Ok (String c "", expr)
    end
  else if Ascii.eqb c "=" || Ascii.eqb c "&" || Ascii.eqb c "|" then Ok (String c "", expr)
  else Ok ("", expr).

(** One turn of the loop, from the character it reads. *)
Definition postfix_step (c : ascii) (expr : string) (postfix operators : list string) :
  result (string * list string * list string) :=
  if isspace c then Ok (expr, postfix, operators)
  else if Ascii.eqb c QUOTE then
    '(operand, rest) ← read_quoted expr; Ok (rest, (postfix ++ [String c operand])%list, operators)
  else if isdigit c then
    let '(operand, rest) := read_number expr in Ok (rest, (postfix ++ [String c operand])%list, operators)
  else if Ascii.eqb c "(" then Ok (expr, postfix, String c "" :: operators)
  else if Ascii.eqb c ")" then
    '(operators, postfix) ← pop_to_paren operators postfix; Ok (expr, postfix, operators)
  else
    '(op, rest) ← read_operator c expr;
    if String.eqb op "" then Ok (rest, postfix, operators)
    else let '(operators, postfix) := pop_stronger op operators postfix in Ok (rest, postfix, op :: operators).

Fixpoint postfix_loop (fuel : nat) (expr : string) (postfix operators : list string) : result (list string) :=
  match fuel, expr with
  | _, EmptyString => Ok (postfix ++ operators)%list
  | O, _ => Throw undefined
  | S fuel, String c expr =>
      '(expr, postfix, operators) ← postfix_step c expr postfix operators;
      postfix_loop fuel expr postfix operators
  end.

Definition getPostfixedExpressionOf (expr : string) : result (list string) :=
  postfix_loop (String.length expr) expr [] [].

(** ** Trees *)

(** [TreeNode]: both pointers are null or none is. *)
Inductive TreeNode :=
| Leaf (root : string)
| Branch (root : string) (l r : TreeNode).

(** [element.substr(1, n - 2)] on an element of [n] characters; for a single one [n - 2] wraps
    around and the rest, nothing, is taken. *)
Definition inner (element : string) : string :=
  match element with
  | EmptyString => ""
  | String _ s => String.substring 0 (String.length s - 1) s
  end.

Definition is_operand (element : string) : bool :=
  match element with String c _ => Ascii.eqb c QUOTE || isdigit c | EmptyString => false end.

Definition is_quoted (element : string) : bool :=
  match element with String c _ => Ascii.eqb c QUOTE | EmptyString => false end.

(** One element on the stack of trees and the map of fields. *)
Definition tree_step (element : string) (stack : list TreeNode) (fields : gmap string bool) :
  result (list TreeNode * gmap string bool) :=
  if String.eqb element "" then Throw out_of_range
  else if is_operand element then
    let root := inner element in
    Ok (Leaf root :: stack,
        if is_quoted element then match fields !! root with Some _ => fields | None => <[root := false]> fields end else fields)
  else
    match stack with
    | r :: l :: stack => Ok (Branch element l r :: stack, fields)
    | _ => Throw undefined
    end.

Fixpoint tree_loop (postfix : list string) (stack : list TreeNode) (fields : gmap string bool) :
  result (list TreeNode * gmap string bool) :=
  match postfix with
  | [] => Ok (stack, fields)
  | element :: postfix =>
      '(stack, fields) ← tree_step element stack fields;
      tree_loop postfix stack fields
  end.

Definition getExpressionTreeFrom (postfix : list string) : result (TreeNode * gmap string bool) :=
  '(stack, fields) ← tree_loop postfix [] ∅;
  match stack with root :: _ => Ok (root, fields) | [] => Throw undefined end.

(** [markExistingIndexes]: which of the fields have an index. *)
Definition markExistingIndexes (indexes : gmap string string) (fields : gmap string bool) : gmap string bool :=
  map_imap (fun k _ => Some (bool_decide (is_Some (indexes !! k)))) fields.

Definition parse_filter (expr : string) : result TreeNode :=
  postfix ← getPostfixedExpressionOf expr;
  '(root, _) ← getExpressionTreeFrom postfix;
  Ok root.

(** ** Reading takes characters *)

Lemma read_quoted_length (e o r : string) : read_quoted e = Ok (o, r) -> (String.length r < String.length e)%nat.
Proof.
  revert o r; induction e as [|c e IH]; intros o r; cbn [read_quoted]; [discriminate|].
  destruct (Ascii.eqb c QUOTE); [intros [= _ <-]; cbn; lia|].
  destruct (read_quoted e) as [[o' r']|]; [|discriminate]. intros [= _ <-]. specialize (IH _ _ eq_refl). cbn; lia.
Qed.

Lemma read_number_length (e : string) : (String.length (read_number e).2 <= String.length e)%nat.
Proof.
  induction e as [|c e IH]; [reflexivity|]. cbn [read_number].
  destruct (isdigit c); [|reflexivity]. destruct (read_number e). cbn in *; lia.
Qed.

Lemma read_operator_length (c : ascii) (e o r : string) : read_operator c e = Ok (o, r) -> (String.length r <= String.length e)%nat.
Proof.
  unfold read_operator. destruct (Ascii.eqb c "<").
  { destruct e as [|d e]; [discriminate|]. destruct (_ || _); intros [= _ <-]; cbn; lia. }
  destruct (Ascii.eqb c ">").
  { destruct e as [|d e]; [discriminate|]. destruct (Ascii.eqb d "="); intros [= _ <-]; cbn; lia. }
  destruct (_ || _); intros [= _ <-]; lia.
Qed.

Lemma postfix_step_length (c : ascii) (e e' : string) (p p' ops ops' : list string) :
  postfix_step c e p ops = Ok (e', p', ops') -> (String.length e' <= String.length e)%nat.
Proof.
  unfold postfix_step. destruct (isspace c); [now intros [= <- _ _]|]. destruct (Ascii.eqb c QUOTE).
  { destruct (read_quoted e) as [[o r]|] eqn:E; [|discriminate]. apply read_quoted_length in E. intros [= <- _ _]; lia. }
  destruct (isdigit c). { pose proof (read_number_length e). destruct (read_number e). now intros [= <- _ _]. }
  destruct (Ascii.eqb c "("); [now intros [= <- _ _]|].
  destruct (Ascii.eqb c ")"); [destruct (pop_to_paren ops p) as [[? ?]|]; [now intros [= <- _ _] | discriminate]|].
  destruct (read_operator c e) as [[o r]|] eqn:E; [|discriminate]. apply read_operator_length in E.
  cbn. destruct (String.eqb o ""); [now intros [= <- _ _]|]. destruct (pop_stronger o ops p). now intros [= <- _ _].
Qed.

(** Fuel for every character is enough. *)
Lemma postfix_fuel (n m : nat) (e : string) (p ops : list string) : (String.length e <= n)%nat -> (String.length e <= m)%nat ->
  postfix_loop n e p ops = postfix_loop m e p ops.
Proof.
  revert m e p ops. induction n as [|n IH]; intros [|m] [|c e] p ops Hn Hm; try reflexivity; cbn [String.length] in *; try lia.
  cbn [postfix_loop]. destruct (postfix_step c e p ops) as [[[e' p'] ops']|] eqn:E; [|reflexivity].
  apply postfix_step_length in E. apply IH; lia.
Qed.

(** The loop with the fuel it needs. *)
Definition run (e : string) (p ops : list string) : result (list string) := postfix_loop (String.length e) e p ops.

Lemma run_cons (c : ascii) (e : string) (p ops : list string) :
  run (String c e) p ops = '(e, p, ops) ← postfix_step c e p ops; run e p ops.
Proof.
  unfold run. cbn [String.length postfix_loop].
  destruct (postfix_step c e p ops) as [[[e' p'] ops']|] eqn:E; [|reflexivity].
  apply postfix_step_length in E. cbn. apply postfix_fuel; lia.
Qed.

(** ** The language *)

Inductive condition :=
| Compare (op field value : string)
| And (a b : condition)
| Or (a b : condition).

Definition comparisons : list string := ["="; "<"; ">"; "<="; ">="; "<>"].

Fixpoint writable (f : condition) : bool :=
  match f with
  | Compare op field value => bool_decide (op ∈ comparisons) && negb (mem QUOTE field) && negb (mem QUOTE value)
  | And a b | Or a b => writable a && writable b
  end.

Definition quoted (s : string) : string := String QUOTE (s +:+ String QUOTE "").

Fixpoint tree (f : condition) : TreeNode :=
  match f with
  | Compare op field value => Branch op (Leaf field) (Leaf value)
  | And a b => Branch "&" (tree a) (tree b)
  | Or a b => Branch "|" (tree a) (tree b)
  end.

(** The text of a filter, with parentheses where the levels (0 for [|], 1 for [&], 2 for the rest)
    need them and [pad] around every operator. *)
Fixpoint show (pad : string) (level : nat) (f : condition) : string :=
  let binary l op a b :=
    let s := a +:+ (pad +:+ (op +:+ (pad +:+ b))) in
    if (level <=? l)%nat then s else "(" +:+ (s +:+ ")") in
  match f with
  | Compare op field value => quoted field +:+ (pad +:+ (op +:+ (pad +:+ quoted value)))
  | And a b => binary 1%nat "&" (show pad 1 a) (show pad 2 b)
  | Or a b => binary 0%nat "|" (show pad 0 a) (show pad 1 b)
  end.

Fixpoint post (f : condition) : list string :=
  match f with
  | Compare op field value => [quoted field; quoted value; op]
  | And a b => post a ++ post b ++ ["&"]
  | Or a b => post a ++ post b ++ ["|"]
  end%list.

Definition op_level (op : string) : nat := if String.eqb op "|" then 0 else if String.eqb op "&" then 1 else 2.
Definition operator (op : string) : Prop := op ∈ "&" :: "|" :: comparisons.

(** An operator of this level pops nothing. *)
Definition ready (l : nat) (ops : list string) : Prop :=
  match ops with [] => True | top :: _ => top = "(" \/ (operator top /\ (op_level top < l)%nat) end.

Lemma precedence_level (a b : string) : operator a -> operator b -> precedence a b = (op_level b <? op_level a)%nat.
Proof.
  intros Ha Hb. unfold operator in Ha, Hb. repeat (apply elem_of_cons in Ha as [->|Ha]; [|]); [..|now apply elem_of_nil in Ha];
  (repeat (apply elem_of_cons in Hb as [->|Hb]; [reflexivity|])); now apply elem_of_nil in Hb.
Qed.

Lemma operator_not_paren (a : string) : operator a -> a <> "(".
Proof.
  intros H ->. unfold operator, comparisons in H.
  repeat (apply elem_of_cons in H as [H|H]; [discriminate|]). now apply elem_of_nil in H.
Qed.

Lemma pop_level (op : string) (s ops p : list string) :
  operator op -> Forall (fun o => operator o /\ (op_level op <= op_level o)%nat) s -> ready (op_level op) ops ->
  pop_stronger op (s ++ ops)%list p = (ops, (p ++ s)%list).
Proof.
  intros Ho Hs Hr; revert p; induction Hs as [|o s [Oo Lo] Hs IH]; intros p; cbn [app pop_stronger].
  - rewrite app_nil_r. destruct ops as [|top ops]; [reflexivity|]. cbn [pop_stronger].
    destruct Hr as [->|[Ht Lt]]; [now rewrite orb_true_r|]. rewrite precedence_level by assumption.
    now rewrite (proj2 (Nat.ltb_lt _ _) Lt).
  - rewrite precedence_level by assumption. rewrite (proj2 (Nat.ltb_ge _ _) Lo), (proj2 (String.eqb_neq _ _)) by now apply operator_not_paren.
    rewrite IH. cbn [orb]. now rewrite <- app_assoc.
Qed.

Lemma pop_paren (s ops p : list string) : Forall operator s -> pop_to_paren (s ++ "(" :: ops)%list p = Ok (ops, (p ++ s)%list).
Proof.
  intros Hs; revert p; induction Hs as [|o s Ho Hs IH]; intros p; cbn [app pop_to_paren]; [now rewrite app_nil_r|].
  rewrite (proj2 (String.eqb_neq _ _)) by now apply operator_not_paren. now rewrite IH, <- app_assoc.
Qed.

(** ** Reading what was shown *)

Section Show.
Context (pad : string) (Hpad : forall c, mem c pad = true -> isspace c = true).

Lemma run_spaces (s e : string) (p ops : list string) : (forall c, mem c s = true -> isspace c = true) ->
  run (s +:+ e) p ops = run e p ops.
Proof.
  induction s as [|c s IH]; intros Hs; [reflexivity|]. rewrite string_app_cons, run_cons. unfold postfix_step.
  rewrite (Hs c) by (cbn; now rewrite Ascii.eqb_refl). cbn. apply IH. intros d Hd. apply Hs. cbn. now rewrite Hd, orb_true_r.
Qed.

Lemma run_quoted (s e : string) (p ops : list string) : mem QUOTE s = false ->
  run (quoted s +:+ e) p ops = run e (p ++ [quoted s])%list ops.
Proof.
  intros Hs. unfold quoted. rewrite string_app_cons, run_cons. unfold postfix_step. cbn [isspace Ascii.eqb].
  assert (E : read_quoted ((s +:+ String QUOTE "") +:+ e) = Ok (s +:+ String QUOTE "", e)).
  { clear p ops. induction s as [|c s IH]; [reflexivity|]. cbn [mem] in Hs. apply orb_false_iff in Hs as [Hc Hs].
    rewrite !string_app_cons. cbn [read_quoted]. rewrite Ascii.eqb_sym, Hc, IH by exact Hs. reflexivity. }
  rewrite E. reflexivity.
Qed.

(** What may follow an operator: something, and nothing that continues it. *)
Definition ends_operator (e : string) : Prop :=
  match e with EmptyString => False | String c _ => c <> "="%char /\ c <> ">"%char end.

Lemma run_operator (op e : string) (p ops : list string) : operator op -> ends_operator e ->
  run (op +:+ e) p ops = let '(ops, p) := pop_stronger op ops p in run e p (op :: ops).
Proof.
  intros Ho He. destruct e as [|d e]; [destruct He|]. destruct He as [H1 H2].
  apply Ascii.eqb_neq in H1, H2. unfold operator, comparisons in Ho.
  repeat (apply elem_of_cons in Ho as [->|Ho]; [|]); [..|now apply elem_of_nil in Ho];
    rewrite !string_app_cons, string_app_nil_l, run_cons; unfold postfix_step, read_operator; rewrite ?H1, ?H2;
    cbn -[pop_stronger run]; now destruct (pop_stronger _ _ _).
Qed.

Lemma ends_pad (s e : string) : ends_operator (pad +:+ (quoted s +:+ e)).
Proof.
  destruct pad as [|c t]; [split; discriminate|]. rewrite string_app_cons.
  assert (isspace c = true) as Hc by (apply Hpad; cbn; now rewrite Ascii.eqb_refl).
  split; intros ->; discriminate.
Qed.

Lemma run_infix (op y e : string) (p ops : list string) : operator op -> ends_operator (pad +:+ (y +:+ e)) ->
  run ((pad +:+ (op +:+ (pad +:+ y))) +:+ e) p ops = let '(ops, p) := pop_stronger op ops p in run (y +:+ e) p (op :: ops).
Proof.
  intros Ho He. rewrite !string_app_assoc, (run_spaces pad) by exact Hpad. rewrite run_operator by assumption.
  destruct (pop_stronger op ops p). now apply run_spaces.
Qed.

(** What a piece of text does: it appends [q] to the postfix form, of which the operators [s] of
    level at least [l] still wait on the stack. *)
Definition reads (l : nat) (text : string) (q : list string) : Prop :=
  forall e p ops, ready l ops -> exists p' s, run (text +:+ e) p ops = run e p' (s ++ ops)%list /\
    (p' ++ s = p ++ q)%list /\ Forall (fun o => operator o /\ (l <= op_level o)%nat) s.

(** Whatever stands at the start of a filter does not continue an operator. *)
Definition starts (text : string) : Prop := forall e, ends_operator (pad +:+ (text +:+ e)).

Lemma reads_comparison (op field value : string) (l : nat) : (l <= 2)%nat -> writable (Compare op field value) = true ->
  reads l (show pad l (Compare op field value)) (post (Compare op field value)).
Proof.
  intros Hl Hw e p ops Hr. cbn [writable] in Hw. rewrite !andb_true_iff, !negb_true_iff, bool_decide_eq_true in Hw.
  destruct Hw as [[Ho Hf] Hv].
  assert (Op : operator op) by (right; now right).
  assert (L : op_level op = 2%nat).
  { unfold comparisons in Ho. repeat (apply elem_of_cons in Ho as [->|Ho]; [reflexivity|]). now apply elem_of_nil in Ho. }
  cbn [show]. rewrite string_app_assoc, run_quoted by exact Hf. rewrite run_infix by (exact Op || apply ends_pad).
  assert (R : ready (op_level op) ops).
  { destruct ops as [|top ops]; [exact I|]. destruct Hr as [->|[Ht Lt]]; [now left | right]. split; [exact Ht | lia]. }
  rewrite (pop_level op [] ops) by (assumption || constructor). rewrite app_nil_r, run_quoted by exact Hv.
  exists (p ++ [quoted field; quoted value])%list, [op]. split; [now rewrite <- app_assoc|].
  split; [cbn [post]; now rewrite <- app_assoc|]. constructor; [split; [exact Op | lia] | constructor].
Qed.

(** A binary operator of level [m] between a piece of that level and one of the next. *)
Lemma reads_binary (op x y : string) (q r : list string) (m : nat) : operator op -> op_level op = m ->
  reads m x q -> reads (S m) y r -> starts y ->
  reads m (x +:+ (pad +:+ (op +:+ (pad +:+ y)))) (q ++ r ++ [op])%list.
Proof.
  intros Ho Hm Hx Hy Sy e p ops Hr. rewrite string_app_assoc.
  destruct (Hx ((pad +:+ (op +:+ (pad +:+ y))) +:+ e) p ops Hr) as (p1 & s1 & -> & E1 & F1).
  rewrite run_infix by (assumption || apply Sy).
  rewrite (pop_level op s1 ops) by (subst m; assumption).
  destruct (Hy e (p1 ++ s1)%list (op :: ops)) as (p2 & s2 & -> & E2 & F2); [right; split; [exact Ho | lia]|].
  exists p2, (s2 ++ [op])%list. split; [now rewrite <- app_assoc|]. split.
  - now rewrite app_assoc, E2, E1, <- !app_assoc.
  - apply Forall_app; split; [|constructor; [split; [exact Ho | lia] | constructor]].
    eapply Forall_impl; [exact F2|]. intros o [Oo Lo]; split; [exact Oo | lia].
Qed.

Lemma reads_paren (l : nat) (x : string) (q : list string) : reads 0 x q -> reads l ("(" +:+ (x +:+ ")")) q.
Proof.
  intros Hx e p ops _. autorewrite with strings. rewrite run_cons. unfold postfix_step.
  change (isspace "(") with false. change (isdigit "(") with false. cbn -[run].
  destruct (Hx (String ")" e) p ("(" :: ops)) as (p1 & s1 & E & E1 & F1); [now left|]. rewrite E.
  rewrite run_cons. unfold postfix_step.
  change (isspace ")") with false. change (isdigit ")") with false. cbn -[run pop_to_paren].
  rewrite pop_paren by (eapply Forall_impl; [exact F1 | now intros o [Oo _]]). cbn -[run].
  exists (p1 ++ s1)%list, []. rewrite app_nil_r. split; [reflexivity | split; [exact E1 | constructor]].
Qed.

Lemma reads_weaken (l m : nat) (x : string) (q : list string) : (l <= m)%nat -> reads m x q -> reads l x q.
Proof.
  intros Hl Hx e p ops Hr. destruct (Hx e p ops) as (p1 & s1 & E & E1 & F1).
  - destruct ops as [|top ops]; [exact I|]. destruct Hr as [->|[Ht Lt]]; [now left | right; split; [exact Ht | lia]].
  - exists p1, s1. split; [exact E | split; [exact E1|]]. eapply Forall_impl; [exact F1|]. intros o [Oo Lo]; split; [exact Oo | lia].
Qed.

Lemma starts_show (f : condition) (l : nat) : starts (show pad l f).
Proof.
  assert (P : forall x e, ends_operator (pad +:+ ((String "(" "" +:+ x) +:+ e))).
  { intros x e. destruct pad as [|c t]; [split; discriminate|]. rewrite string_app_cons.
    assert (isspace c = true) as Hc by (apply Hpad; cbn; now rewrite Ascii.eqb_refl). split; intros ->; discriminate. }
  revert l; induction f as [op field value|a IHa b IHb|a IHa b IHb]; intros l e; cbn [show].
  - rewrite string_app_assoc. apply ends_pad.
  - destruct (l <=? 1)%nat; [rewrite string_app_assoc; apply IHa | apply P].
  - destruct (l <=? 0)%nat; [rewrite string_app_assoc; apply IHa | apply P].
Qed.

Lemma reads_show (f : condition) (l : nat) : (l <= 2)%nat -> writable f = true -> reads l (show pad l f) (post f).
Proof.
  revert l; induction f as [op field value|a IHa b IHb|a IHa b IHb]; intros l Hl Hw.
  - now apply reads_comparison.
  - cbn [writable] in Hw. apply andb_true_iff in Hw as [Wa Wb].
    assert (R : reads 1 (show pad 1 a +:+ (pad +:+ ("&" +:+ (pad +:+ show pad 2 b)))) (post a ++ post b ++ ["&"])%list).
    { apply reads_binary; [now left | reflexivity | apply IHa; [lia | exact Wa] | apply IHb; [lia | exact Wb] | apply starts_show]. }
    cbn [show post]. destruct (Nat.leb_spec l 1); [now apply (reads_weaken l 1) | apply reads_paren, (reads_weaken 0 1); [lia | exact R]].
  - cbn [writable] in Hw. apply andb_true_iff in Hw as [Wa Wb].
    assert (R : reads 0 (show pad 0 a +:+ (pad +:+ ("|" +:+ (pad +:+ show pad 1 b)))) (post a ++ post b ++ ["|"])%list).
    { apply reads_binary; [right; now left | reflexivity | apply IHa; [lia | exact Wa] | apply IHb; [lia | exact Wb] | apply starts_show]. }
    cbn [show post]. destruct (Nat.leb_spec l 0); [now replace l with 0%nat by lia | now apply reads_paren].
Qed.

Lemma postfix_show (f : condition) : writable f = true -> getPostfixedExpressionOf (show pad 0 f) = Ok (post f).
Proof.
  intros Hw. destruct (reads_show f 0 ltac:(lia) Hw "" [] [] I) as (p & s & E & P & _).
  rewrite string_app_nil_r, app_nil_r in *. unfold getPostfixedExpressionOf. fold (run (show pad 0 f) [] []).
  rewrite E. unfold run. cbn. now rewrite P.
Qed.
End Show.

(** ** From the postfix form to the tree *)

Fixpoint terms (f : condition) : list string :=
  match f with Compare _ field value => [field; value] | And a b | Or a b => terms a ++ terms b end%list.

Definition add_term (fields : gmap string bool) (k : string) : gmap string bool :=
  match fields !! k with Some _ => fields | None => <[k := false]> fields end.

Lemma inner_quoted (s : string) : inner (quoted s) = s.
Proof.
  unfold inner, quoted. induction s as [|c s IH]; [reflexivity|]. rewrite string_app_cons. cbn [String.length].
  rewrite Nat.sub_1_r in *. cbn [Nat.pred]. cbn -[String.substring] in *.
  destruct (String.length (s +:+ String QUOTE "")) as [|n] eqn:E; [now destruct s|]. cbn [Nat.pred] in *. cbn [String.substring].
  now rewrite IH.
Qed.

Lemma tree_quoted (s : string) (rest : list string) (st : list TreeNode) (fields : gmap string bool) :
  tree_loop (quoted s :: rest) st fields = tree_loop rest (Leaf s :: st) (add_term fields s).
Proof. cbn [tree_loop]. unfold tree_step. rewrite inner_quoted. reflexivity. Qed.

Lemma tree_operator (op : string) (rest : list string) (l r : TreeNode) (st : list TreeNode) (fields : gmap string bool) :
  operator op -> tree_loop (op :: rest) (r :: l :: st) fields = tree_loop rest (Branch op l r :: st) fields.
Proof.
  intros Ho. unfold operator, comparisons in Ho.
  repeat (apply elem_of_cons in Ho as [->|Ho]; [reflexivity|]). now apply elem_of_nil in Ho.
Qed.

Lemma tree_post (f : condition) (rest : list string) (st : list TreeNode) (fields : gmap string bool) : writable f = true ->
  tree_loop (post f ++ rest)%list st fields = tree_loop rest (tree f :: st) (foldl add_term fields (terms f)).
Proof.
  revert rest st fields; induction f as [op field value|a IHa b IHb|a IHa b IHb]; intros rest st fields Hw; cbn [writable] in Hw.
  - rewrite !andb_true_iff, bool_decide_eq_true in Hw. destruct Hw as [[Ho _] _].
    cbn [post app tree terms foldl]. rewrite !tree_quoted. apply tree_operator. right; now right.
  - apply andb_true_iff in Hw as [Wa Wb]. cbn [post tree terms]. rewrite foldl_app, <- !app_assoc, IHa, IHb by assumption.
    apply tree_operator. now left.
  - apply andb_true_iff in Hw as [Wa Wb]. cbn [post tree terms]. rewrite foldl_app, <- !app_assoc, IHa, IHb by assumption.
    apply tree_operator. right; now left.
Qed.

Lemma add_terms_lookup (l : list string) (k : string) (m : gmap string bool) : (forall k b, m !! k = Some b -> b = false) ->
  foldl add_term m l !! k = if decide (k ∈ l) then Some false else m !! k.
Proof.
  revert m; induction l as [|x l IH]; intros m Hm; [now rewrite decide_False by apply not_elem_of_nil|]. cbn [foldl].
  assert (L : forall k, add_term m x !! k = if decide (k = x) then Some false else m !! k).
  { intros k'. unfold add_term. destruct (m !! x) as [b|] eqn:E; destruct (decide (k' = x)) as [->|D].
    - now rewrite E, (Hm _ _ E).
    - reflexivity.
    - apply lookup_insert_eq.
    - now apply lookup_insert_ne, not_eq_sym. }
  rewrite IH, L; [|intros k' b; rewrite L; destruct (decide (k' = x)); [now intros [= <-] | apply Hm]].
  destruct (decide (k ∈ l)) as [Hl|Hl]; [rewrite decide_True; [reflexivity | apply elem_of_cons; now right]|].
  destruct (decide (k = x)) as [->|Hx].
  - rewrite decide_True; [reflexivity | apply elem_of_cons; now left].
  - rewrite decide_False; [reflexivity|]. now intros [E|E]%elem_of_cons.
Qed.

(** Reading the text of a filter. *)
Lemma read_show (pad : string) (f : condition) :
  (forall c, mem c pad = true -> isspace c = true) -> writable f = true ->
  exists fields, (postfix ← getPostfixedExpressionOf (show pad 0 f); getExpressionTreeFrom postfix) = Ok (tree f, fields) /\
    forall k, fields !! k = if decide (k ∈ terms f) then Some false else None.
Proof.
  intros Hpad Hw. rewrite (postfix_show pad Hpad f Hw). cbn. unfold getExpressionTreeFrom.
  rewrite <- (app_nil_r (post f)), (tree_post f [] [] ∅ Hw). eexists. split; [reflexivity|].
  intros k. rewrite add_terms_lookup; [now rewrite lookup_empty|]. intros k' b E. now apply lookup_empty_Some in E.
Qed.

(** C18: The text of a filter is read back as the tree of that filter: comparisons bind tighter than
    [&], [&] tighter than [|], both group to the left, parentheses group as written and spaces
    around the operators do not matter; and the map of fields holds every quoted term. *)
Theorem filter_roundtrip (pad : string) (f : condition) :
  (forall c, mem c pad = true -> isspace c = true) -> writable f = true ->
  exists fields, (postfix ← getPostfixedExpressionOf (show pad 0 f); getExpressionTreeFrom postfix) = Ok (tree f, fields) /\
    forall k, fields !! k = if decide (k ∈ terms f) then Some false else None.
Proof. apply read_show. Qed.

Lemma filter_roundtrip_witness :
  let f := And (Or (Compare "=" "a" "1") (Compare "<=" "b" "2")) (And (Compare "<>" "c" "3") (Compare ">" "d" "(4")) in
  exists fields, (postfix ← getPostfixedExpressionOf (show " " 0 f); getExpressionTreeFrom postfix) = Ok (tree f, fields).
Proof.
  intros f. destruct (filter_roundtrip " " f) as (fields & E & _); [|vm_compute; reflexivity|now exists fields].
  intros c Hc. cbn in Hc. rewrite orb_false_r in Hc. apply Ascii.eqb_eq in Hc as ->. reflexivity.
Defined.

(** A number loses its first and its last digit, as if it were quoted. *)
Example number_loses_digits :
  parse_filter (quoted "age" +:+ "=1234") = Ok (Branch "=" (Leaf "age") (Leaf "23")).
Proof. vm_compute. reflexivity. Qed.
