(* ===== verification/Query.v ===== *)
(** * Searching documents

    How the storage node answers a query (src/StorageNode/StorageNode.cpp): the binary searches over
    an array of documents sorted by a field, the selections built on them, the union and the
    intersection of results, the selections on an index, and [evaluateExpression] over the tree of a
    filter. [_json[i][operand]] on a mutable value extends the array and inserts members, so the
    array is a state; [memory] is the number of values an array can hold before [std::bad_alloc].
    IPFS is the interface [Ipfs]; the map of indexes is a state because [indexes["id"]] inserts. *)

From Stdlib Require Import ZArith Lia List Bool Ascii String Sorting.Sorted.
From stdpp Require Import base gmap strings list list_numbers.
From S2P Require Import Prelude.
From S2P Require Import Machine.
From S2P Require Import Cpp.
From S2P Require Import Json.
From S2P Require Import Expression.

Local Open Scope Z_scope.

Section Arrays.
Context (memory : Z).

(** [_json[i]], and [_json[i][operand]]. *)
Definition element_at (i : Z) : M json json :=
  j ← get;
  match j with
  | JArr _ | JNull =>
      let l := match j with JArr l => l | _ => [] end in
      if i <? Z.of_nat (length l) then mret (default JNull (l !! Z.to_nat i))
      else if i <? memory then
        modify (fun _ => JArr (l ++ replicate (Z.to_nat i + 1 - length l) JNull)%list);; mret JNull
      else throw bad_alloc
  | _ => throw type_error
  end.

Definition set_element (i : Z) (x : json) (j : json) : json :=
  match j with JArr l => JArr (<[Z.to_nat i := x]> l) | _ => j end.

Definition operand_at (i : Z) (operand : string) : M json json :=
  x ← element_at i;
  '(x', v) ← of_result (at_mutable x operand);
  modify (set_element i x');;
  mret v.

(** ** Binary search *)

(** The calls of [getSearchIndex] need at most 34 turns. *)
Fixpoint search (fuel : nat) (beginIndex endIndex : Z) (operand searchvalue : string) : M json (option (Z * Z * Z)) :=
  match fuel with
  | O => throw undefined
  | S fuel =>
      if beginIndex <=? endIndex then
        let middlevalue := beginIndex + (endIndex - beginIndex) / 2 in
        v ← operand_at middlevalue operand;
        if json_eq v (JStr searchvalue) then mret (Some (beginIndex, middlevalue, endIndex))
        else if json_lt (JStr searchvalue) v then search fuel beginIndex (u32 (middlevalue - 1)) operand searchvalue
        else search fuel (u32 (middlevalue + 1)) endIndex operand searchvalue
      else mret None
  end.

Definition getSearchIndex : Z -> Z -> string -> string -> M json (option (Z * Z * Z)) := search 64.

(** The loops that move to the first and the last of several hits. *)
Fixpoint lower_loop (fuel : nat) (hit : option (Z * Z * Z)) (lastfoundat : Z) (operand value : string) : M json Z :=
  match fuel, hit with
  | _, None => mret lastfoundat
  | O, _ => throw undefined
  | S fuel, Some (b, m, _) =>
      if i32 m =? 0 then mret (i32 m)
      else hit ← getSearchIndex b (u32 (m - 1)) operand value; lower_loop fuel hit (i32 m) operand value
  end.

Fixpoint upper_loop (fuel : nat) (hit : option (Z * Z * Z)) (lastfoundat : Z) (operand value : string) : M json Z :=
  match fuel, hit with
  | _, None => mret lastfoundat
  | O, _ => throw undefined
  | S fuel, Some (_, m, e) =>
      hit ← getSearchIndex (u32 (m + 1)) e operand value; upper_loop fuel hit (i32 m) operand value
  end.

(** The first search, over the whole array; both loops narrow the range of the hit. *)
Definition getlowerIndex (operand value : string) : M json Z :=
  j ← get;
  hit ← getSearchIndex 0 (u32 (jsize j - 1)) operand value;
  match hit with None => mret (-1) | Some (_, m, _) => lower_loop (S (Z.to_nat (jsize j))) hit (i32 m) operand value end.

Definition getUpperIndex (operand value : string) : M json Z :=
  j ← get;
  hit ← getSearchIndex 0 (u32 (jsize j - 1)) operand value;
  match hit with None => mret (-1) | Some (_, m, _) => upper_loop (S (Z.to_nat (jsize j))) hit (i32 m) operand value end.

(** ** Selections *)

(** [for (int i = from; i < to; i++) _filtered.push_back(_json[i])]. *)
Fixpoint collect (indices : list Z) : M json (list json) :=
  match indices with
  | [] => mret []
  | i :: indices => x ← element_at i; l ← collect indices; mret (x :: l)
  end.

Definition copy (from to : Z) : M json (list json) := collect (seqZ from (to - from)).

Definition not_equals (operand value : string) : M json json :=
  from ← getlowerIndex operand value;
  if from =? -1 then mret (JArr [])
  else
    to ← getUpperIndex operand value;
    a ← copy 0 from;
    j ← get;
    b ← copy (to + 1) (jsize j);
    mret (JArr (a ++ b)%list).

Definition lessthan (operand value : string) : M json json :=
  from ← getlowerIndex operand value;
  if from =? -1 then mret (JArr []) else a ← copy 0 from; mret (JArr a).

Definition lessthan_equals (operand value : string) : M json json :=
  from ← getUpperIndex operand value;
  if from =? -1 then mret (JArr []) else a ← copy 0 (from + 1); mret (JArr a).

Definition greaterthan_equals (operand value : string) : M json json :=
  from ← getUpperIndex operand value;
  if from =? -1 then mret (JArr []) else j ← get; a ← copy from (jsize j); mret (JArr a).

Definition greaterthan (operand value : string) : M json json :=
  from ← getUpperIndex operand value;
  j ← get;
  if (from =? -1) || (jsize j - 1 =? from) then mret (JArr []) else a ← copy from (jsize j); mret (JArr a).

Definition equals (operand value : string) : M json json :=
  from ← getlowerIndex operand value;
  if from =? -1 then mret (JArr [])
  else to ← getUpperIndex operand value; a ← copy from (to + 1); mret (JArr a).
End Arrays.

(** ** Union and intersection *)

(** The elements [j[0]], [j[1]], .. up to [j.size()]: a string has one and no [operator[]]. *)
Definition elements (j : json) : result (list json) :=
  match j with
  | JArr l => Ok l
  | JNull | JObj [] => Ok []
  | _ => Throw type_error
  end.

(** [std::set<json>]: the sorted list of its elements. *)
Fixpoint set_insert (x : json) (s : list json) : list json :=
  match s with
  | [] => [x]
  | y :: s' => if json_lt x y then x :: s else if json_lt y x then y :: set_insert x s' else s
  end.

Definition set_of (l : list json) : list json := foldl (fun s x => set_insert x s) [] l.

Definition union_ (a b : json) : result json :=
  l ← elements a; m ← elements b; Ok (JArr (set_of (l ++ m)%list)).

Definition intersection (a b : json) : result json :=
  l ← elements a; m ← elements b;
  Ok (JArr (List.filter (fun x => existsb (fun y => negb (json_lt x y || json_lt y x)) (set_of l)) m)).

(** ** Indexes *)

(** The DAG of IPFS: the named links of a node and its data; the code catches the exceptions of both
    calls and goes on without links and with empty data. *)
Class Ipfs := {
  object_links : string -> list (string * string);
  object_data : string -> string
}.

(** The links in a map that keeps the first of several of one name: unordered, and sorted. *)
Definition getUnorderedEdgeNamesOf `{Ipfs} (nodeHash : string) : gmap string string :=
  foldl (fun m p => match m !! p.1 with Some _ => m | None => <[p.1 := p.2]> m end) ∅ (object_links nodeHash).

Fixpoint insert_edge (k v : string) (m : list (string * string)) : list (string * string) :=
  match m with
  | [] => [(k, v)]
  | (k', v') :: m' =>
      match String.compare k k' with
      | Lt => (k, v) :: m
      | Eq => m
      | Gt => (k', v') :: insert_edge k v m'
      end
  end.

Definition getOrderedEdgeNamesOf `{Ipfs} (nodeHash : string) : list (string * string) :=
  foldl (fun m p => insert_edge p.1 p.2 m) [] (object_links nodeHash).

Definition edge (m : list (string * string)) (k : string) : option string :=
  snd <$> List.find (fun p => String.eqb p.1 k) m.

(** [lower_bound]: what is in front of it, and what begins with it. *)
Fixpoint lower_bound (m : list (string * string)) (k : string) : list (string * string) * list (string * string) :=
  match m with
  | [] => ([], [])
  | p :: m' => if String.ltb p.1 k then let '(a, b) := lower_bound m' k in (p :: a, b) else ([], m)
  end.

(** The equal element in front of [upper_bound], if there is one, and the rest. *)
Definition upper_bound (m : list (string * string)) (k : string) : list (string * string) :=
  match m with p :: m' => if String.eqb p.1 k then m' else m | [] => [] end.

(** The entries of an index a comparison selects; [None] where the code returns the empty string. *)
Definition select (op : string) (values : list (string * string)) (k : string) : option (list (string * string)) :=
  let '(before, from) := lower_bound values k in
  if String.eqb op "<>" then if decide (from = []) then None else Some (before ++ upper_bound from k)%list
  else if String.eqb op ">" then if decide (upper_bound from k = []) then None else Some (upper_bound from k)
  else if String.eqb op ">=" then if decide (from = []) then None else Some from
  else if String.eqb op "<=" then match from with [] => None | p :: _ => Some (before ++ [p])%list end
  else if decide (from = []) then None else Some before.

(** ** Evaluation *)

Section Evaluation.
Context `{JsonText} `{StdSort} `{Ipfs} (memory : Z).

Definition fetchDocument (hash : string) : result json := parse (object_data hash).

Fixpoint fetch_all (links : list (string * string)) : result (list json) :=
  match links with
  | [] => Ok []
  | p :: links => d ← fetchDocument p.2; l ← fetch_all links; Ok (d :: l)
  end.

(** The state is the map of indexes. *)
Definition edges := M (gmap string string).

(** [indexes[k]]. *)
Definition index_at (k : string) : edges string :=
  s ← get;
  match s !! k with Some h => mret h | None => modify (insert k "");; mret "" end.

Definition fetchDocumentsFromDefaultIndex : edges json :=
  h ← index_at "id";
  let values := getOrderedEdgeNamesOf (default "" (edge (getOrderedEdgeNamesOf h) "__")) in
  l ← of_result (fetch_all values);
  mret (JArr l).

(** [Custom_Compare]: [operator[]] on copies of the documents; a document that is neither an object
    nor null is an exception as soon as it is compared, which happens when there are two. *)
Definition operand_of (operand : string) (d : json) : json :=
  match at_mutable d operand with Ok (_, v) => v | Throw _ => JNull end.

Definition is_document (d : json) : bool := match d with JObj _ | JNull => true | _ => false end.

Definition sort_documents (operand : string) (l : list json) : result (list json) :=
  if (1 <? length l)%nat && negb (forallb is_document l) then Throw type_error
  else Ok (std_sort (fun a b => json_lt (operand_of operand a) (operand_of operand b)) l).

(** The argument [_docs] is null in every call. *)
Definition sortDocumentsByOperand (operand : string) : edges (list json) :=
  docs ← fetchDocumentsFromDefaultIndex;
  text ← of_result (dump docs);
  rs ← of_result (parse text);
  of_result (l ← elements rs; sort_documents operand l).

(** A comparison on documents without an index on the field. *)
Definition scan (op operand value : string) : M json json :=
  if String.eqb op "=" then equals memory operand value
  else if String.eqb op "<>" then not_equals memory operand value
  else if String.eqb op ">" then greaterthan memory operand value
  else if String.eqb op ">=" then greaterthan_equals memory operand value
  else if String.eqb op "<=" then lessthan_equals memory operand value
  else lessthan memory operand value.

Definition by_scan (op left_ : string) (right_ : json) : edges json :=
  l ← sortDocumentsByOperand left_;
  if (0 <? length l)%nat then
    value ← of_result (get_string right_);
    of_result (scan op left_ value (JArr l)).2
  else mret (JArr l).

(** A comparison on an index; only [=] looks below the collection node of the index [id]. *)
Definition by_index (op left_ right_ : string) : edges json :=
  h ← index_at left_;
  let values := getOrderedEdgeNamesOf h in
  if String.eqb op "=" then
    let values := if String.eqb left_ "id" then getOrderedEdgeNamesOf (default "" (edge values "__")) else values in
    match edge values right_ with
    | Some hash => d ← of_result (fetchDocument hash); mret (JArr [d])
    | None => mret (JStr "")
    end
  else
    match select op values right_ with
    | Some links => l ← of_result (fetch_all links); mret (JArr l)
    | None => mret (JStr "")
    end.

Definition compare_documents (op : string) (left_ right_ : json) : edges json :=
  field ← of_result (get_string left_);
  s ← get;
  match s !! field with
  | Some _ => value ← of_result (get_string right_); by_index op field value
  | None => by_scan op field right_
  end.

Fixpoint evaluateExpression (t : TreeNode) : edges json :=
  match t with
  | Leaf root => mret (JStr root)
  | Branch root l r =>
      left_ ← evaluateExpression l;
      right_ ← evaluateExpression r;
      if bool_decide (root ∈ comparisons) then compare_documents root left_ right_
      else if String.eqb root "|" then
        if jempty left_ || jempty right_ then mret (if jempty left_ then right_ else left_)
        else of_result (union_ left_ right_)
      else if String.eqb root "&" then
        if jempty left_ || jempty right_ then mret (JArr []) else of_result (intersection left_ right_)
      else mret (JArr [])
  end.

Definition MSG_TEMPLATE_NOT_FOUND : string := "No Entity found for the given Id".

(** [searchDocument]: the exceptions of the evaluation are caught, those of the parser are not. *)
Definition searchDocument (dht : string -> string) (tid entityId expression : string) : result json :=
  let hash := dht (".data_" +:+ (tid +:+ ("_" +:+ entityId))) in
  if String.eqb hash "" then Ok (JStr MSG_TEMPLATE_NOT_FOUND)
  else
    postfix ← getPostfixedExpressionOf expression;
    '(root, _) ← getExpressionTreeFrom postfix;
    match (evaluateExpression root (getUnorderedEdgeNamesOf hash)).2 with
    | Throw undefined => Throw undefined
    | Throw _ => Ok (JStr "")
    | Ok docs => Ok docs
    end.
End Evaluation.
