(* ===== verification/Search.v ===== *)
(** * Searches are right where the value occurs

    The binary search of file Query on a sorted array, by the positions of the elements smaller than,
    equal to and greater than the value; what the six selections return; and when the search grows
    the array until the memory ends. *)

From Stdlib Require Import ZArith Lia List Bool Ascii String Sorting.Sorted.
From stdpp Require Import base gmap strings list list_numbers sorting.
From S2P Require Import Prelude.
From S2P Require Import Machine.
From S2P Require Import Cpp.
From S2P Require Import Json.
From S2P Require Import Expression.
From S2P Require Import Query.

Local Open Scope Z_scope.

(** ** Termination *)

Section Memory.
Context (memory : Z) (Hmem : 0 <= memory < 2 ^ 31).

(** An array within the memory. *)
Definition fits (j : json) : Prop := exists l, j = JArr l /\ Z.of_nat (length l) <= memory.

Lemma operand_at_fits (i : Z) (operand : string) (j : json) : 0 <= i -> fits j ->
  let '(j', r) := operand_at memory i operand j in
  fits j' /\ match r with Ok _ => i < memory | Throw e => e = bad_alloc \/ e = type_error end.
Proof.
  intros Hi (l & -> & Hl). unfold operand_at, element_at.
  assert (P : forall x l', (length l' = length l \/ i < memory /\ length l' = S (Z.to_nat i)) -> i < memory ->
    let '(j', r) := ('(x', v) ← of_result (at_mutable x operand); modify (set_element i x');; mret v) (JArr l') in
    fits j' /\ match r with Ok _ => i < memory | Throw e => e = bad_alloc \/ e = type_error end).
  { intros x l' Hl' Him. unfold mbind, M_bind, of_result, at_mutable.
    assert (F : forall y, fits (JArr (<[Z.to_nat i := y]> l'))) by (intros y; exists (<[Z.to_nat i := y]> l'); rewrite length_insert; split; [reflexivity | lia]).
    destruct x as [| | | | |m]; cbn; try (split; [exists l'; split; [reflexivity | lia] | now right]).
    - split; [apply F | exact Him].
    - destruct (member operand m); cbn; (split; [apply F | exact Him]). }
  unfold mbind at 1, M_bind at 1. cbv beta. unfold mbind at 1, M_bind at 1, get.
  destruct (Z.ltb_spec i (Z.of_nat (length l))).
  - apply P; [now left | lia].
  - destruct (Z.ltb_spec i memory).
    + apply P; [right; split; [lia|]; rewrite length_app, length_replicate; lia | lia].
    + cbn. split; [now exists l | now left].
Qed.

(** An outcome of a search: a hit within the range, or one of the two exceptions. *)
Definition outcome (b e : Z) (r : result (option (Z * Z * Z))) : Prop :=
  match r with
  | Ok None => True
  | Ok (Some (b', m, e')) => b <= b' /\ b' <= m <= e' /\ e' <= e /\ m < memory
  | Throw ex => ex = bad_alloc \/ ex = type_error
  end.

Lemma outcome_weaken (b e b' e' : Z) (r : result (option (Z * Z * Z))) : b <= b' -> e' <= e ->
  outcome b' e' r -> outcome b e r.
Proof. destruct r as [[[[x m] y]|]|]; cbn; intuition lia. Qed.

(** One turn of the search. *)
Lemma search_unfold (fuel : nat) (b e : Z) (operand value : string) (j : json) :
  search memory (S fuel) b e operand value j =
  if b <=? e then
    let m := b + (e - b) / 2 in
    let '(j', r) := operand_at memory m operand j in
    match r with
    | Throw ex => (j', Throw ex)
    | Ok v =>
        if json_eq v (JStr value) then (j', Ok (Some (b, m, e)))
        else if json_lt (JStr value) v then search memory fuel b (u32 (m - 1)) operand value j'
        else search memory fuel (u32 (m + 1)) e operand value j'
    end
  else (j, Ok None).
Proof.
  cbn [search]. destruct (b <=? e); [|reflexivity]. cbv zeta. unfold mbind, M_bind.
  destruct (operand_at memory _ operand j) as [j' [v|]]; [|reflexivity].
  destruct (json_eq v (JStr value)); [reflexivity|]. now destruct (json_lt (JStr value) v).
Qed.

(** The index that wraps around is beyond the memory. *)
Lemma search_wrapped (fuel : nat) (operand value : string) (j : json) : fits j ->
  let '(j', r) := search memory (S fuel) 0 (u32 (0 - 1)) operand value j in
  fits j' /\ (exists ex, r = Throw ex /\ (ex = bad_alloc \/ ex = type_error)).
Proof.
  intros Hj. rewrite search_unfold. change (0 <=? u32 (0 - 1)) with true. cbv iota zeta.
  change (0 + (u32 (0 - 1) - 0) / 2) with (2 ^ 31 - 1).
  pose proof (operand_at_fits (2 ^ 31 - 1) operand j ltac:(lia) Hj) as P.
  destruct (operand_at memory (2 ^ 31 - 1) operand j) as [j' [v|ex]]; [lia|]. destruct P as [F E]. split; [exact F | now exists ex].
Qed.

Lemma search_outcome (k fuel : nat) (b e : Z) (operand value : string) (j : json) :
  0 <= b -> e < 2 ^ 32 -> e - b + 1 <= 2 ^ Z.of_nat k - 1 -> (k + 2 <= fuel)%nat -> fits j ->
  let '(j', r) := search memory fuel b e operand value j in fits j' /\ outcome b e r.
Proof.
  revert fuel b e j; induction k as [|k IH]; intros [|[|fuel]] b e j Hb He Hs Hf Hj; try lia; rewrite search_unfold.
  - rewrite (proj2 (Z.leb_gt b e)) by (cbn in Hs; lia). now split.
  - destruct (Z.leb_spec b e) as [L|L]; [|now split]. cbv zeta. rewrite Nat2Z.inj_succ, Z.pow_succ_r in Hs by lia.
    set (m := b + (e - b) / 2). assert (Hm : b <= m <= e /\ 2 * (m - b) <= e - b < 2 * (m - b) + 2)
      by (subst m; pose proof (Z.div_mod (e - b) 2); pose proof (Z.mod_pos_bound (e - b) 2); lia).
    pose proof (operand_at_fits m operand j ltac:(lia) Hj) as P.
    destruct (operand_at memory m operand j) as [j' [v|ex]]; destruct P as [F P]; [|now split].
    destruct (json_eq v (JStr value)); [split; [exact F | cbn; lia]|].
    destruct (json_lt (JStr value) v).
    + destruct (Z.eq_dec m 0) as [E|E].
      * rewrite E. assert (b = 0) as -> by lia. pose proof (search_wrapped fuel operand value j' F) as W.
        destruct (search memory (S fuel) 0 (u32 (0 - 1)) operand value j') as [j'' r].
        destruct W as (W & ex & -> & Wx). now split.
      * unfold u32. rewrite Z.mod_small by lia.
        specialize (IH (S fuel) b (m - 1) j' Hb ltac:(lia) ltac:(lia) ltac:(lia) F).
        destruct (search memory (S fuel) b (m - 1) operand value j') as [j'' r]. destruct IH as [G O].
        split; [exact G|]. eapply outcome_weaken; [| |exact O]; lia.
    + unfold u32. rewrite Z.mod_small by lia.
      specialize (IH (S fuel) (m + 1) e j' ltac:(lia) He ltac:(lia) ltac:(lia) F).
      destruct (search memory (S fuel) (m + 1) e operand value j') as [j'' r]. destruct IH as [G O].
      split; [exact G|]. eapply outcome_weaken; [| |exact O]; lia.
Qed.

Lemma getSearchIndex_outcome (b e : Z) (operand value : string) (j : json) :
  0 <= b -> e < 2 ^ 32 -> fits j ->
  let '(j', r) := getSearchIndex memory b e operand value j in fits j' /\ outcome b e r.
Proof. intros Hb He Hj. apply (search_outcome 33); try lia. exact Hj. Qed.

(** What an index function returns on an array of [n] values. *)
Definition index_outcome (n : Z) (r : result Z) : Prop :=
  match r with Ok i => -1 <= i < n | Throw ex => ex = bad_alloc \/ ex = type_error end.

Lemma i32_memory (m : Z) : 0 <= m < memory -> i32 m = m.
Proof. intros Hm. unfold i32. rewrite Z.mod_small; lia. Qed.

Lemma lower_loop_outcome (n : Z) (fuel : nat) (hit : option (Z * Z * Z)) (last : Z) (operand value : string) (j : json) :
  (match hit with Some (b, m, _) => 0 <= b <= m /\ m < n /\ m < memory /\ m < Z.of_nat fuel | None => True end) ->
  -1 <= last < n -> fits j ->
  let '(j', r) := lower_loop memory fuel hit last operand value j in fits j' /\ index_outcome n r.
Proof.
  revert hit last j; induction fuel as [|fuel IH]; intros [[[b m] e]|] last j Hh Hl Hj; cbn [lower_loop]; try (now split); [lia|].
  destruct Hh as (Hb & Hn & Hm & Hf). rewrite i32_memory by lia.
  destruct (Z.eqb_spec m 0) as [->|Hm0]; [split; [exact Hj | cbn; lia]|].
  unfold mbind, M_bind. replace (u32 (m - 1)) with (m - 1) by (unfold u32; rewrite Z.mod_small; lia).
  pose proof (getSearchIndex_outcome b (m - 1) operand value j ltac:(lia) ltac:(lia) Hj) as P.
  destruct (getSearchIndex memory b (m - 1) operand value j) as [j' [hit|ex]]; destruct P as [F P]; [|now split].
  apply IH; [|lia|exact F]. destruct hit as [[[b' m'] e']|]; [cbn in P; lia | exact I].
Qed.

Lemma upper_loop_outcome (n : Z) (fuel : nat) (hit : option (Z * Z * Z)) (last : Z) (operand value : string) (j : json) :
  (match hit with Some (b, m, e) => 0 <= m <= e /\ e < n /\ n <= 2 ^ 32 /\ m < memory /\ n - m <= Z.of_nat fuel | None => True end) ->
  -1 <= last < n -> fits j ->
  let '(j', r) := upper_loop memory fuel hit last operand value j in fits j' /\ index_outcome n r.
Proof.
  revert hit last j; induction fuel as [|fuel IH]; intros [[[b m] e]|] last j Hh Hl Hj; cbn [upper_loop]; try (now split); [lia|].
  destruct Hh as (Hb & Hn & Hn' & Hm & Hf). rewrite i32_memory by lia.
  unfold mbind, M_bind. replace (u32 (m + 1)) with (m + 1) by (unfold u32; rewrite Z.mod_small; lia).
  pose proof (getSearchIndex_outcome (m + 1) e operand value j ltac:(lia) ltac:(lia) Hj) as P.
  destruct (getSearchIndex memory (m + 1) e operand value j) as [j' [hit|ex]]; destruct P as [F P]; [|now split].
  apply IH; [|lia|exact F]. destruct hit as [[[b' m'] e']|]; [cbn in P; lia | exact I].
Qed.

Lemma getSearchIndex_wrapped (operand value : string) (j : json) : fits j ->
  let '(j', r) := getSearchIndex memory 0 (u32 (0 - 1)) operand value j in
  fits j' /\ (exists ex, r = Throw ex /\ (ex = bad_alloc \/ ex = type_error)).
Proof. apply search_wrapped. Qed.

#[local] Opaque getSearchIndex lower_loop upper_loop.

(** C33: Both index functions end on every array, sorted or not, whatever its elements: they return an
    index of the array or -1, or the memory ends, or an element has no members. Neither the
    recursion nor the loops run on, although the range wraps around below the first element. *)
Theorem search_terminates (l : list json) (operand value : string) : Z.of_nat (length l) <= memory ->
  index_outcome (Z.of_nat (length l)) (getlowerIndex memory operand value (JArr l)).2 /\
  index_outcome (Z.of_nat (length l)) (getUpperIndex memory operand value (JArr l)).2.
Proof.
  intros Hl. assert (F : fits (JArr l)) by now exists l. unfold getlowerIndex, getUpperIndex.
  unfold mbind, M_bind, get. cbn [jsize]. set (n := Z.of_nat (length l)) in *.
  assert (He : u32 (n - 1) < 2 ^ 32) by (unfold u32; apply Z.mod_pos_bound; lia).
  pose proof (getSearchIndex_outcome 0 (u32 (n - 1)) operand value (JArr l) ltac:(lia) He F) as P.
  destruct (getSearchIndex memory 0 (u32 (n - 1)) operand value (JArr l)) as [j [[[[b m] e]|]|ex]] eqn:E;
    destruct P as [G P]; cbn [fst snd]; [|cbn; lia|easy].
  cbn in P. assert (Hn : 0 < n).
  { destruct (Z.eq_dec n 0) as [Z0|]; [|lia]. exfalso. pose proof (getSearchIndex_wrapped operand value (JArr l) F) as W.
    rewrite Z0 in E. rewrite E in W. destruct W as (_ & ex & W & _). discriminate. }
  assert (U : u32 (n - 1) = n - 1) by (unfold u32; rewrite Z.mod_small; lia).
  pose proof (lower_loop_outcome n (S (Z.to_nat n)) (Some (b, m, e)) (i32 m) operand value j) as L.
  pose proof (upper_loop_outcome n (S (Z.to_nat n)) (Some (b, m, e)) (i32 m) operand value j) as R.
  rewrite i32_memory in * by lia.
  destruct (lower_loop _ _ _ _ _ _ j) as [j1 r1], (upper_loop _ _ _ _ _ _ j) as [j2 r2].
  destruct L as [_ L]; [lia | lia | exact G |]. destruct R as [_ R]; [lia | lia | exact G |]. now split.
Qed.
End Memory.

(** ** A sorted array *)

Lemma json_eq_refl (a : json) : json_eq a a = true.
Proof. now destruct (json_eq_spec a a). Qed.

Lemma json_lt_facts (a b : json) : json_lt a b = true -> json_eq a b = false /\ json_eq b a = false /\ json_lt b a = false.
Proof.
  intros L. assert (N : json_lt b a = false) by now apply (sw_asym _ (json_lt_key (fun x : json => x))).
  assert (D : a <> b) by (intros ->; congruence).
  destruct (json_eq_spec a b), (json_eq_spec b a); easy || congruence.
Qed.

(** A document with the member [operand]. *)
Definition has_member (operand : string) (d : json) : Prop :=
  exists m v, d = JObj m /\ member operand m = Some v.

Section Sorted.
Context (memory : Z) (Hmem : 0 <= memory < 2 ^ 31) (operand value : string) (la lb lc : list json).

Let l : list json := (la ++ lb ++ lc)%list.
Let n1 : Z := Z.of_nat (length la).
Let n2 : Z := n1 + Z.of_nat (length lb).
Let n : Z := n2 + Z.of_nat (length lc).
Let key : json -> json := operand_of operand.

Context (Hl : n <= memory) (Hdocs : Forall (has_member operand) l)
  (Ha : Forall (fun d => json_lt (key d) (JStr value) = true) la)
  (Hb : Forall (fun d => key d = JStr value) lb)
  (Hc : Forall (fun d => json_lt (JStr value) (key d) = true) lc).

Lemma length_l : Z.of_nat (length l) = n.
Proof. subst l n n2 n1. rewrite !length_app. lia. Qed.

Lemma operand_at_known (i : Z) : 0 <= i < n ->
  exists d, l !! Z.to_nat i = Some d /\ operand_at memory i operand (JArr l) = (JArr l, Ok (key d)) /\
    element_at memory i (JArr l) = (JArr l, Ok d).
Proof.
  intros Hi. pose proof length_l as E. destruct (lookup_lt_is_Some_2 l (Z.to_nat i)) as [d Hd]; [lia|]. exists d.
  assert (P : element_at memory i (JArr l) = (JArr l, Ok d)).
  { unfold element_at, mbind, M_bind, get. rewrite (proj2 (Z.ltb_lt _ _)) by lia. cbn. now rewrite Hd. }
  split; [exact Hd | split; [|exact P]].
  pose proof (proj1 (Forall_forall _ _) Hdocs d (list_elem_of_lookup_2 _ _ _ Hd)) as (m & v & -> & Hv).
  unfold operand_at, mbind, M_bind. rewrite P. unfold of_result, key, operand_of. cbn. rewrite Hv. cbn.
  now rewrite list_insert_id.
Qed.

(** Which third of the array an index lies in. *)
Lemma third (i : Z) (d : json) : 0 <= i -> l !! Z.to_nat i = Some d ->
  if i <? n1 then json_lt (key d) (JStr value) = true
  else if i <? n2 then key d = JStr value else json_lt (JStr value) (key d) = true.
Proof.
  intros Hi Hd. rewrite Forall_forall in Ha, Hb, Hc. subst l. apply lookup_app_Some in Hd as [Hd|[L Hd]].
  - pose proof (lookup_lt_Some _ _ _ Hd). rewrite (proj2 (Z.ltb_lt _ _)) by lia. eapply Ha, list_elem_of_lookup_2, Hd.
  - rewrite (proj2 (Z.ltb_ge i n1)) by lia. apply lookup_app_Some in Hd as [Hd|[L' Hd]].
    + pose proof (lookup_lt_Some _ _ _ Hd). rewrite (proj2 (Z.ltb_lt _ _)) by lia. eapply Hb, list_elem_of_lookup_2, Hd.
    + rewrite (proj2 (Z.ltb_ge i n2)) by lia. eapply Hc, list_elem_of_lookup_2, Hd.
Qed.

(** What a search of the range returns, by the range and the positions of the value. *)
Definition hit_in (b e : Z) (hit : option (Z * Z * Z)) : Prop :=
  match hit with
  | Some (b', m, e') => b <= b' <= Z.max b n1 /\ b' <= m <= e' /\ Z.min (e + 1) n2 <= e' + 1 <= e + 1 /\ n1 <= m < n2
  | None => Z.min (e + 1) n2 <= Z.max b n1
  end.

Lemma search_sorted (k fuel : nat) (b e : Z) :
  0 <= b -> e < n -> e - b + 1 <= 2 ^ Z.of_nat k - 1 -> (k < fuel)%nat -> 0 < n2 \/ 0 < b ->
  exists hit, search memory fuel b e operand value (JArr l) = (JArr l, Ok hit) /\ hit_in b e hit.
Proof.
  revert fuel b e; induction k as [|k IH]; intros [|fuel] b e Hb0 He Hs Hf Hw; try lia; rewrite search_unfold.
  - rewrite (proj2 (Z.leb_gt b e)) by (cbn in Hs; lia). exists None. split; [reflexivity | cbn in *; lia].
  - destruct (Z.leb_spec b e) as [L|L]; [|exists None; split; [reflexivity | cbn; lia]].
    cbv zeta. rewrite Nat2Z.inj_succ, Z.pow_succ_r in Hs by lia. set (m := b + (e - b) / 2).
    assert (Hm : b <= m <= e /\ 2 * (m - b) <= e - b < 2 * (m - b) + 2)
      by (subst m; pose proof (Z.div_mod (e - b) 2); pose proof (Z.mod_pos_bound (e - b) 2); lia).
    destruct (operand_at_known m) as (d & Hd & -> & _); [lia|]. pose proof (third m d ltac:(lia) Hd) as T.
    destruct (Z.ltb_spec m n1) as [M|M]; [|destruct (Z.ltb_spec m n2) as [M'|M']].
    + destruct (json_lt_facts _ _ T) as (-> & _ & ->). unfold u32. rewrite Z.mod_small by lia.
      destruct (IH fuel (m + 1) e) as (hit & E & H); [lia..|]. exists hit. split; [exact E|].
      destruct hit as [[[b' m'] e']|]; cbn in *; lia.
    + rewrite T, json_eq_refl. exists (Some (b, m, e)). split; [reflexivity | cbn; lia].
    + destruct (json_lt_facts _ _ T) as (_ & -> & _). rewrite T. unfold u32. rewrite Z.mod_small by lia.
      destruct (IH fuel b (m - 1)) as (hit & E & H); [lia..|]. exists hit. split; [exact E|].
      destruct hit as [[[b' m'] e']|]; cbn in *; lia.
Qed.

Lemma getSearchIndex_sorted (b e : Z) : 0 <= b -> e < n -> 0 < n2 \/ 0 < b ->
  exists hit, getSearchIndex memory b e operand value (JArr l) = (JArr l, Ok hit) /\ hit_in b e hit.
Proof. intros. apply (search_sorted 33); lia. Qed.

(** Everything is greater: the range wraps around below the first element. *)
Lemma search_above (k fuel : nat) (e : Z) : n2 = 0 -> 0 <= e < n -> e + 1 <= 2 ^ Z.of_nat k - 1 -> (k + 2 <= fuel)%nat ->
  search memory fuel 0 e operand value (JArr l) = (JArr l, Throw bad_alloc).
Proof.
  intros Hn2. revert fuel e; induction k as [|k IH]; intros [|fuel] e He Hs Hf; try (cbn in Hs; lia). rewrite search_unfold.
  rewrite (proj2 (Z.leb_le _ _)) by lia. cbv zeta. rewrite Nat2Z.inj_succ, Z.pow_succ_r in Hs by lia. set (m := 0 + (e - 0) / 2).
  assert (Hm : 0 <= m <= e /\ 2 * m <= e < 2 * m + 2)
    by (subst m; pose proof (Z.div_mod (e - 0) 2); pose proof (Z.mod_pos_bound (e - 0) 2); lia).
  destruct (operand_at_known m) as (d & Hd & -> & _); [lia|]. pose proof (third m d ltac:(lia) Hd) as T.
  rewrite (proj2 (Z.ltb_ge m n1)), (proj2 (Z.ltb_ge m n2)) in T by lia.
  destruct (json_lt_facts _ _ T) as (_ & -> & _). rewrite T. destruct (Z.eq_dec m 0) as [->|Hm0].
  - destruct fuel as [|fuel]; [lia|]. rewrite search_unfold. change (0 <=? u32 (0 - 1)) with true. cbv iota zeta.
    change (0 + (u32 (0 - 1) - 0) / 2) with (2 ^ 31 - 1). unfold operand_at, element_at, mbind, M_bind, get.
    rewrite length_l, (proj2 (Z.ltb_ge _ n)), (proj2 (Z.ltb_ge _ memory)) by lia. reflexivity.
  - unfold u32. rewrite Z.mod_small by lia. apply IH; lia.
Qed.

Lemma getSearchIndex_above : n2 = 0 -> 0 < n ->
  getSearchIndex memory 0 (n - 1) operand value (JArr l) = (JArr l, Throw bad_alloc).
Proof. intros H0 Hn. apply (search_above 33); lia. Qed.

#[local] Opaque getSearchIndex.

Lemma lower_loop_sorted (fuel : nat) (b m e last : Z) : 0 <= b <= n1 -> n1 <= m < n2 -> b <= m -> m < Z.of_nat fuel ->
  lower_loop memory fuel (Some (b, m, e)) last operand value (JArr l) = (JArr l, Ok n1).
Proof.
  revert b m e last; induction fuel as [|fuel IH]; intros b m e last Hb0 Hm Hbm Hf; [lia|]. cbn [lower_loop].
  assert (Hn : n2 <= n) by (subst n; lia). rewrite (i32_memory memory) by lia.
  destruct (Z.eqb_spec m 0) as [E|E]; [now replace n1 with m by lia|].
  unfold mbind, M_bind. replace (u32 (m - 1)) with (m - 1) by (unfold u32; rewrite Z.mod_small; lia).
  destruct (getSearchIndex_sorted b (m - 1)) as (hit & -> & H); [lia..|]. destruct hit as [[[b' m'] e']|]; cbn in H.
  - apply IH; lia.
  - destruct fuel; cbn; now replace n1 with m by lia.
Qed.

Lemma upper_loop_sorted (fuel : nat) (b m e last : Z) : 0 <= n1 <= m -> m < n2 -> m <= e < n -> n2 <= e + 1 -> n - m <= Z.of_nat fuel ->
  upper_loop memory fuel (Some (b, m, e)) last operand value (JArr l) = (JArr l, Ok (n2 - 1)).
Proof.
  revert b m e last; induction fuel as [|fuel IH]; intros b m e last Hm Hm2 He Hn2 Hf; [lia|]. cbn [upper_loop].
  rewrite (i32_memory memory) by lia.
  unfold mbind, M_bind. replace (u32 (m + 1)) with (m + 1) by (unfold u32; rewrite Z.mod_small; lia).
  destruct (getSearchIndex_sorted (m + 1) e) as (hit & -> & H); [lia..|]. destruct hit as [[[b' m'] e']|]; cbn in H.
  - apply IH; lia.
  - destruct fuel; cbn; now replace (n2 - 1) with m by lia.
Qed.

Lemma first_range : 0 < n -> u32 (jsize (JArr l) - 1) = n - 1.
Proof. intros Hn. cbn [jsize]. rewrite length_l. unfold u32. rewrite Z.mod_small; lia. Qed.

Lemma indexes_sorted : lb <> [] ->
  getlowerIndex memory operand value (JArr l) = (JArr l, Ok n1) /\
  getUpperIndex memory operand value (JArr l) = (JArr l, Ok (n2 - 1)).
Proof.
  intros Hne. assert (Hn : 0 <= n1 < n2 /\ n2 <= n) by (subst n n2 n1; destruct lb; [easy | cbn [length]; lia]).
  unfold getlowerIndex, getUpperIndex, mbind, M_bind, get. rewrite first_range by lia.
  destruct (getSearchIndex_sorted 0 (n - 1)) as (hit & -> & H); [lia..|].
  destruct hit as [[[b m] e]|]; cbn in H; [|lia]. cbn [jsize]. rewrite length_l.
  rewrite lower_loop_sorted, upper_loop_sorted by lia. easy.
Qed.

(** The value does not occur and something is smaller. *)
Lemma indexes_absent : lb = [] -> la <> [] ->
  getlowerIndex memory operand value (JArr l) = (JArr l, Ok (-1)) /\
  getUpperIndex memory operand value (JArr l) = (JArr l, Ok (-1)).
Proof.
  intros Hn1 Hne. assert (Hn : 0 < n1 /\ n2 = n1 /\ n2 <= n) by (subst n n2 n1; rewrite Hn1; destruct la; [easy | cbn [length]; lia]).
  unfold getlowerIndex, getUpperIndex, mbind, M_bind, get. rewrite first_range by lia.
  destruct (getSearchIndex_sorted 0 (n - 1)) as (hit & -> & H); [lia..|].
  destruct hit as [[[b m] e]|]; cbn in H; [lia|]. easy.
Qed.

Lemma indexes_above : la = [] -> lb = [] -> lc <> [] ->
  getlowerIndex memory operand value (JArr l) = (JArr l, Throw bad_alloc) /\
  getUpperIndex memory operand value (JArr l) = (JArr l, Throw bad_alloc).
Proof.
  intros Ea Eb Hne. assert (Hn : n2 = 0 /\ 0 < n) by (subst n n2 n1; rewrite Ea, Eb; destruct lc; [easy | cbn [length]; lia]).
  assert (S : getSearchIndex memory 0 (n - 1) operand value (JArr l) = (JArr l, Throw bad_alloc))
    by (apply getSearchIndex_above; lia).
  unfold getlowerIndex, getUpperIndex, mbind, M_bind, get. rewrite first_range by lia. now rewrite S.
Qed.

(** ** Selections *)

Lemma copy_range (from to : Z) : 0 <= from <= to -> to <= n ->
  copy memory from to (JArr l) = (JArr l, Ok (take (Z.to_nat (to - from)) (drop (Z.to_nat from) l))).
Proof.
  intros Hf Ht. unfold copy. remember (Z.to_nat (to - from)) as k eqn:Hk.
  replace (to - from) with (Z.of_nat k) by lia. assert (Hk' : from + Z.of_nat k <= n) by lia. clear Hk Ht.
  assert (H0 : 0 <= from) by lia. clear Hf. revert from H0 Hk'; induction k as [|k IH]; intros from H0 Hk'; [reflexivity|].
  rewrite Nat2Z.inj_succ, seqZ_cons by lia. cbn [collect]. unfold mbind, M_bind.
  destruct (operand_at_known from) as (d & Hd & _ & ->); [lia|].
  replace (Z.pred (Z.succ (Z.of_nat k))) with (Z.of_nat k) by lia. rewrite (IH (Z.succ from)) by lia. cbn.
  rewrite (drop_S _ _ _ Hd). cbn. do 3 f_equal. now rewrite Z2Nat.inj_succ by lia.
Qed.

Lemma take_l (k : Z) : k = n1 -> take (Z.to_nat k) l = la.
Proof. intros ->. subst n1 l. rewrite Nat2Z.id. apply take_app_length. Qed.

Lemma drop_l (k : Z) : k = n2 -> drop (Z.to_nat k) l = lc.
Proof.
  intros ->. subst n2 n1 l. rewrite app_assoc. replace (Z.to_nat _) with (length (la ++ lb)) by (rewrite length_app; lia).
  apply drop_app_length.
Qed.

Lemma range_all (k : Z) (a : list json) : k = Z.of_nat (length a) -> take (Z.to_nat k) a = a.
Proof. intros ->. apply take_ge. lia. Qed.

(** Where the value occurs. [tail] is the last of the equal elements and everything greater. *)
Lemma scan_present (x : json) (lb' : list json) : lb = (lb' ++ [x])%list ->
  scan memory "=" operand value (JArr l) = (JArr l, Ok (JArr lb)) /\
  scan memory "<>" operand value (JArr l) = (JArr l, Ok (JArr (la ++ lc)%list)) /\
  scan memory "<" operand value (JArr l) = (JArr l, Ok (JArr la)) /\
  scan memory "<=" operand value (JArr l) = (JArr l, Ok (JArr (la ++ lb)%list)) /\
  scan memory ">=" operand value (JArr l) = (JArr l, Ok (JArr (x :: lc))) /\
  scan memory ">" operand value (JArr l) = (JArr l, Ok (JArr (if decide (lc = []) then [] else x :: lc))).
Proof.
  intros Elb. assert (Hne : lb <> []) by (rewrite Elb; now destruct lb').
  assert (Hn : 0 <= n1 < n2 /\ n2 <= n) by (subst n n2 n1; destruct lb; [easy | cbn [length]; lia]).
  destruct (indexes_sorted Hne) as [L U].
  assert (T : drop (Z.to_nat (n2 - 1)) l = x :: lc).
  { subst l. rewrite Elb, !app_assoc. replace (Z.to_nat (n2 - 1)) with (length (la ++ lb')) by (subst n2 n1; rewrite Elb, !length_app; cbn [length]; lia).
    rewrite <- app_assoc. apply drop_app_length. }
  assert (J : jsize (JArr l) = n) by (cbn [jsize]; apply length_l).
  assert (Lc : Z.of_nat (length lc) = n - n2) by (subst n; lia).
  unfold scan; cbn [String.eqb Ascii.eqb Bool.eqb].
  unfold equals, not_equals, lessthan, lessthan_equals, greaterthan_equals, greaterthan, mbind, M_bind, get. rewrite L, U.
  rewrite (proj2 (Z.eqb_neq n1 (-1))), (proj2 (Z.eqb_neq (n2 - 1) (-1))) by lia. rewrite ?U, ?J.
  replace (n2 - 1 + 1) with n2 by lia. rewrite !copy_range by lia. cbn. rewrite !drop_0, !Z.sub_0_r, T, ?length_l.
  rewrite (take_l n1) by reflexivity. rewrite (drop_l n2), (range_all (n - n2)) by easy.
  assert (T2 : take (Z.to_nat n2) l = (la ++ lb)%list)
    by (subst l; rewrite app_assoc; replace (Z.to_nat n2) with (length (la ++ lb)) by (subst n2 n1; rewrite length_app; lia); apply take_app_length).
  assert (T3 : take (Z.to_nat (n2 - n1)) (drop (Z.to_nat n1) l) = lb).
  { subst l. replace (Z.to_nat n1) with (length la) by (subst n1; lia). rewrite drop_app_length.
    replace (Z.to_nat (n2 - n1)) with (length lb) by (subst n2; lia). apply take_app_length. }
  rewrite T2, T3. rewrite (range_all (n - (n2 - 1))) by (cbn [length]; lia). splits; try reflexivity.
  destruct (Z.eqb_spec (n - 1) (n2 - 1)) as [E|E].
  - rewrite decide_True by (apply length_zero_iff_nil; lia). reflexivity.
  - rewrite decide_False by (intros F; rewrite F in Lc; cbn [length] in Lc; lia).
    rewrite copy_range, T, range_all by (cbn [length]; lia). reflexivity.
Qed.

Lemma scan_absent (op : string) : lb = [] -> la <> [] -> op ∈ comparisons ->
  scan memory op operand value (JArr l) = (JArr l, Ok (JArr [])).
Proof.
  intros Hn1 Hne Hop. destruct (indexes_absent Hn1 Hne) as [L U].
  unfold comparisons in Hop. repeat (apply elem_of_cons in Hop as [->|Hop]; [|]); [..|now apply elem_of_nil in Hop];
  unfold scan; cbn [String.eqb Ascii.eqb Bool.eqb];
  unfold equals, not_equals, lessthan, lessthan_equals, greaterthan_equals, greaterthan, mbind, M_bind, get; now rewrite ?L, ?U.
Qed.

Lemma scan_above (op : string) : la = [] -> lb = [] -> lc <> [] -> op ∈ comparisons ->
  scan memory op operand value (JArr l) = (JArr l, Throw bad_alloc).
Proof.
  intros Ea Eb Hne Hop. destruct (indexes_above Ea Eb Hne) as [L U].
  unfold comparisons in Hop. repeat (apply elem_of_cons in Hop as [->|Hop]; [|]); [..|now apply elem_of_nil in Hop];
  unfold scan; cbn [String.eqb Ascii.eqb Bool.eqb];
  unfold equals, not_equals, lessthan, lessthan_equals, greaterthan_equals, greaterthan, mbind, M_bind, get; now rewrite ?L, ?U.
Qed.
End Sorted.

(** ** The selections as filters *)

Section Claims.
Context (memory : Z) (Hmem : 0 <= memory < 2 ^ 31) (operand value : string).

Definition below (d : json) : bool := json_lt (operand_of operand d) (JStr value).
Definition same (d : json) : bool := json_eq (operand_of operand d) (JStr value).
Definition above (d : json) : bool := json_lt (JStr value) (operand_of operand d).

Lemma trichotomy (d : json) :
  (below d = true /\ same d = false /\ above d = false) \/ (below d = false /\ same d = true /\ above d = false) \/
  (below d = false /\ same d = false /\ above d = true).
Proof.
  unfold below, same, above. destruct (json_lt (operand_of operand d) (JStr value)) eqn:L.
  - destruct (json_lt_facts _ _ L) as (E & _ & G). now left.
  - right. destruct (json_lt (JStr value) (operand_of operand d)) eqn:G.
    + destruct (json_lt_facts _ _ G) as (_ & E & _). now right.
    + left. rewrite (json_lt_total _ _ L G). split; [reflexivity | split; [apply json_eq_refl | reflexivity]].
Qed.

Definition by_operand (a b : json) : bool := json_lt (operand_of operand a) (operand_of operand b).

Lemma filter_none (p : json -> bool) (l : list json) : Forall (fun d => p d = false) l -> List.filter p l = [].
Proof. intros H; induction H as [|d l E _ IH]; [reflexivity|]. cbn. now rewrite E. Qed.

Lemma filter_all (p : json -> bool) (l : list json) : Forall (fun d => p d = true) l -> List.filter p l = l.
Proof. intros H; induction H as [|d l E _ IH]; [reflexivity|]. cbn. now rewrite E, IH. Qed.

Lemma sorted_thirds (l : list json) : sorted_by by_operand l ->
  l = (List.filter below l ++ List.filter same l ++ List.filter above l)%list.
Proof.
  pose proof (json_lt_key (operand_of operand)) as [asym trans]. pose proof (json_lt_key (fun x : json => x)) as [asym0 trans0].
  intros Hs; induction Hs as [|d l Hs IH Hd]; [reflexivity|]. cbn [List.filter].
  destruct (trichotomy d) as [(E1 & E2 & E3)|[(E1 & E2 & E3)|(E1 & E2 & E3)]]; rewrite E1, E2, E3; cbn [app].
  - now f_equal.
  - assert (N : Forall (fun y => below y = false) l).
    { eapply Forall_impl; [exact Hd|]. intros y Hy. unfold same in E2. destruct (json_eq_spec (operand_of operand d) (JStr value)) as [E|]; [|easy].
      unfold below, by_operand in *. now rewrite <- E. }
    rewrite (filter_none _ _ N) in *. cbn [app] in *. now f_equal.
  - assert (N : Forall (fun y => above y = true) l).
    { eapply Forall_impl; [exact Hd|]. intros y Hy. destruct (trichotomy y) as [(F1 & F2 & F3)|[(F1 & F2 & F3)|(F1 & F2 & F3)]]; [..|exact F3].
      - unfold below, above, by_operand in *. now rewrite (trans0 _ _ _ (asym0 _ _ E3) Hy) in F1 || now rewrite (trans0 _ _ _ Hy (asym0 _ _ F1)) in E3.
      - unfold same in F2. destruct (json_eq_spec (operand_of operand y) (JStr value)) as [E|]; [|easy].
        unfold above, by_operand in *. rewrite E in Hy. congruence. }
    rewrite (filter_none below), (filter_none same), (filter_all above); [reflexivity | exact N |..];
      eapply Forall_impl; try exact N; intros y Hy; destruct (trichotomy y) as [(F1 & F2 & F3)|[(F1 & F2 & F3)|(F1 & F2 & F3)]]; congruence.
Qed.

Lemma Forall_filter (p : json -> bool) (l : list json) : Forall (fun d => p d = true) (List.filter p l).
Proof. induction l as [|d l IH]; cbn; [constructor|]. destruct (p d) eqn:E; [now constructor | exact IH]. Qed.

Lemma same_key (l : list json) : Forall (fun d => operand_of operand d = JStr value) (List.filter same l).
Proof.
  eapply Forall_impl; [apply Forall_filter|]. intros d Hd. unfold same in Hd. now destruct (json_eq_spec (operand_of operand d) (JStr value)).
Qed.

Context (l : list json) (Hl : Z.of_nat (length l) <= memory) (Hdocs : Forall (has_member operand) l)
  (Hs : sorted_by by_operand l).

Lemma filter_length : Z.of_nat (length (List.filter below l)) + Z.of_nat (length (List.filter same l)) + Z.of_nat (length (List.filter above l)) <= memory.
Proof. rewrite (sorted_thirds l Hs), !length_app in Hl. lia. Qed.

Lemma filter_docs : Forall (has_member operand) (List.filter below l ++ List.filter same l ++ List.filter above l)%list.
Proof. now rewrite <- sorted_thirds. Qed.

(** A test that the three kinds of documents pass or fail as a whole. *)
Lemma filter_thirds (p : json -> bool) (x y z : bool) :
  (forall d, p d = if below d then x else if same d then y else z) ->
  List.filter p l = ((if x then List.filter below l else []) ++ (if y then List.filter same l else []) ++
    (if z then List.filter above l else []))%list.
Proof.
  intros Hp.
  assert (P : forall (q : json -> bool) (b : bool), (forall d, q d = true -> p d = b) ->
    List.filter p (List.filter q l) = if b then List.filter q l else []).
  { intros q b Hq. destruct b; [apply filter_all | apply filter_none]; (eapply Forall_impl; [apply Forall_filter|]); intros d Hd; cbn in Hd; now apply Hq. }
  rewrite (sorted_thirds l Hs) at 1. rewrite !List.filter_app. f_equal; [|f_equal]; apply P; intros d Hd; rewrite Hp;
    destruct (trichotomy d) as [(F1 & F2 & F3)|[(F1 & F2 & F3)|(F1 & F2 & F3)]]; rewrite ?F1, ?F2; congruence.
Qed.

Lemma same_last : existsb same l = true -> exists lb' x, List.filter same l = (lb' ++ [x])%list.
Proof.
  intros He. apply existsb_exists in He as (d & Hd & Ed).
  assert (N : List.filter same l <> []) by (intros F; apply (in_nil (a := d)); rewrite <- F; now apply filter_In).
  destruct (exists_last N) as (lb' & x & E). eauto.
Qed.

Lemma scan_filters (lb' : list json) (x : json) : List.filter same l = (lb' ++ [x])%list -> exists la lb lc,
  la = List.filter below l /\ lb = List.filter same l /\ lc = List.filter above l /\ l = (la ++ lb ++ lc)%list /\
  scan memory "=" operand value (JArr l) = (JArr l, Ok (JArr lb)) /\
  scan memory "<>" operand value (JArr l) = (JArr l, Ok (JArr (la ++ lc)%list)) /\
  scan memory "<" operand value (JArr l) = (JArr l, Ok (JArr la)) /\
  scan memory "<=" operand value (JArr l) = (JArr l, Ok (JArr (la ++ lb)%list)) /\
  scan memory ">=" operand value (JArr l) = (JArr l, Ok (JArr (x :: lc))) /\
  scan memory ">" operand value (JArr l) = (JArr l, Ok (JArr (if decide (lc = []) then [] else x :: lc))).
Proof.
  intros E. eexists _, _, _. do 3 (split; [reflexivity|]). split; [now apply sorted_thirds|].
  pose proof filter_length as N. pose proof filter_docs as D.
  pose proof (scan_present memory Hmem operand value (List.filter below l) (List.filter same l) (List.filter above l) ltac:(lia) D (Forall_filter below l) (same_key l) (Forall_filter above l) x lb' E) as P.
  now rewrite <- sorted_thirds in P.
Qed.

(** The four right selections. *)
Lemma right_selections : existsb same l = true ->
  scan memory "=" operand value (JArr l) = (JArr l, Ok (JArr (List.filter same l))) /\
  scan memory "<>" operand value (JArr l) = (JArr l, Ok (JArr (List.filter (fun d => negb (same d)) l))) /\
  scan memory "<" operand value (JArr l) = (JArr l, Ok (JArr (List.filter below l))) /\
  scan memory "<=" operand value (JArr l) = (JArr l, Ok (JArr (List.filter (fun d => negb (above d)) l))).
Proof.
  intros He. destruct (same_last He) as (lb' & x & E).
  destruct (scan_filters lb' x E) as (la & lb & lc & -> & -> & -> & _ & S1 & S2 & S3 & S4 & _).
  rewrite (filter_thirds (fun d => negb (same d)) true false true), (filter_thirds (fun d => negb (above d)) true true false), app_nil_r;
    [now splits | |]; intros d;
    destruct (trichotomy d) as [(F1 & F2 & F3)|[(F1 & F2 & F3)|(F1 & F2 & F3)]]; rewrite ?F1, ?F2, ?F3; reflexivity.
Qed.

(** C37: On documents sorted by a field in which the value occurs, [equals], [not_equals], [lessthan]
    and [lessthan_equals] select exactly the documents they are named after, in order, and leave the
    documents as they are. *)
Theorem selections_exact : existsb same l = true ->
  scan memory "=" operand value (JArr l) = (JArr l, Ok (JArr (List.filter same l))) /\
  scan memory "<>" operand value (JArr l) = (JArr l, Ok (JArr (List.filter (fun d => negb (same d)) l))) /\
  scan memory "<" operand value (JArr l) = (JArr l, Ok (JArr (List.filter below l))) /\
  scan memory "<=" operand value (JArr l) = (JArr l, Ok (JArr (List.filter (fun d => negb (above d)) l))).
Proof. apply right_selections. Qed.

(** The selections of greater documents start at the last document with the value: of the
    documents equal to the value, [greaterthan_equals] returns the last one only, and
    [greaterthan] returns it too, unless nothing is greater. *)
Theorem selections_greater (l1 : list json) (x : json) (l2 : list json) :
  l = (l1 ++ x :: l2)%list -> same x = true -> forallb above l2 = true ->
  scan memory ">=" operand value (JArr l) = (JArr l, Ok (JArr (x :: List.filter above l))) /\
  scan memory ">" operand value (JArr l) = (JArr l, Ok (JArr (if decide (l2 = []) then [] else x :: List.filter above l))).
Proof.
  intros El Ex E2.
  assert (F2 : List.filter above l2 = l2) by (apply filter_all, Forall_forall; intros d Hd; eapply forallb_forall in E2; [exact E2 | now apply list_elem_of_In]).
  assert (N2 : List.filter same l2 = []).
  { apply filter_none, Forall_forall. intros d Hd. apply list_elem_of_In in Hd. rewrite forallb_forall in E2. specialize (E2 _ Hd).
    destruct (trichotomy d) as [(F1 & F & F3)|[(F1 & F & F3)|(F1 & F & F3)]]; congruence. }
  assert (Fa : List.filter above l = l2).
  { assert (B : Forall (fun d => above d = false) l1).
    { apply Forall_forall. intros d Hd. rewrite El in Hs.
      pose proof (StronglySorted_app_1_elem_of _ _ _ _ x Hs Hd ltac:(apply elem_of_cons; now left)) as O.
      unfold above, by_operand, same in *. destruct (json_eq_spec (operand_of operand x) (JStr value)) as [E|]; [|easy].
      now rewrite <- E. }
    rewrite El, List.filter_app, (filter_none _ _ B). cbn [app List.filter].
    destruct (trichotomy x) as [(F1 & F & F3)|[(F1 & F & F3)|(F1 & F & F3)]]; rewrite ?F3; congruence. }
  destruct (scan_filters (List.filter same l1) x) as (la & lb & lc & -> & -> & -> & _ & _ & _ & _ & _ & S5 & S6).
  { rewrite El, List.filter_app. cbn [List.filter]. now rewrite Ex, N2. }
  split; [exact S5|]. now rewrite Fa in *.
Qed.

(** Where the value does not occur, every selection is wrong: all six, [not_equals] and the
    comparisons too, select nothing when some document is smaller than the value; when none is, the
    range of the search wraps around and the array is extended until the memory ends. *)
Theorem selections_absent (op : string) : existsb same l = false -> l <> [] -> op ∈ comparisons ->
  scan memory op operand value (JArr l) = (JArr l, if existsb below l then Ok (JArr []) else Throw bad_alloc).
Proof.
  intros He Hne Hop. pose proof filter_length as N. pose proof filter_docs as D.
  assert (E : List.filter same l = []).
  { apply filter_none, Forall_forall. intros d Hd. apply not_true_iff_false. intros F.
    apply not_true_iff_false in He. apply He, existsb_exists. exists d. split; [now apply list_elem_of_In | exact F]. }
  pose proof (scan_absent memory Hmem operand value (List.filter below l) (List.filter same l) (List.filter above l) ltac:(lia) D
    (Forall_filter below l) (same_key l) (Forall_filter above l) op E) as A.
  pose proof (scan_above memory Hmem operand value (List.filter below l) (List.filter same l) (List.filter above l) ltac:(lia) D
    (Forall_filter below l) (same_key l) (Forall_filter above l) op) as B.
  rewrite <- sorted_thirds in A, B by exact Hs. destruct (existsb below l) eqn:Eb.
  - apply A; [|exact Hop]. intros F. apply existsb_exists in Eb as (d & Hd & Ed). apply (in_nil (a := d)). rewrite <- F. now apply filter_In.
  - assert (E0 : List.filter below l = []).
    { apply filter_none, Forall_forall. intros d Hd. apply not_true_iff_false. intros F.
      apply not_true_iff_false in Eb. apply Eb, existsb_exists. exists d. split; [now apply list_elem_of_In | exact F]. }
    apply B; [exact E0 | exact E | | exact Hop]. intros F. apply Hne. rewrite (sorted_thirds l Hs). now rewrite E0, E, F.
Qed.
End Claims.

(** ** Examples *)

Definition sample_doc (id age : string) : json := object [("id", JStr id); ("age", JStr age)].

Definition sample_docs : list json := [sample_doc "a" "20"; sample_doc "b" "30"; sample_doc "c" "30"; sample_doc "d" "40"].

Lemma sample_members : Forall (has_member "age") sample_docs.
Proof. repeat constructor; eexists _, _; (split; [reflexivity | vm_compute; reflexivity]). Qed.

Lemma sample_sorted : sorted_by (by_operand "age") sample_docs.
Proof. repeat constructor; vm_compute; reflexivity. Qed.

Lemma selections_exact_witness :
  scan 1000 "=" "age" "30" (JArr sample_docs) = (JArr sample_docs, Ok (JArr [sample_doc "b" "30"; sample_doc "c" "30"])) /\
  scan 1000 "<=" "age" "30" (JArr sample_docs) = (JArr sample_docs, Ok (JArr (take 3 sample_docs))).
Proof.
  destruct (selections_exact 1000 ltac:(lia) "age" "30" sample_docs ltac:(vm_compute; congruence) sample_members sample_sorted
    ltac:(vm_compute; reflexivity)) as (S1 & _ & _ & S4). split; [exact S1 | exact S4].
Defined.

Lemma selections_greater_witness :
  scan 1000 ">=" "age" "30" (JArr sample_docs) = (JArr sample_docs, Ok (JArr [sample_doc "c" "30"; sample_doc "d" "40"])) /\
  scan 1000 ">" "age" "30" (JArr sample_docs) = (JArr sample_docs, Ok (JArr [sample_doc "c" "30"; sample_doc "d" "40"])).
Proof.
  apply (selections_greater 1000 ltac:(lia) "age" "30" sample_docs ltac:(vm_compute; congruence) sample_members sample_sorted
    [sample_doc "a" "20"; sample_doc "b" "30"] (sample_doc "c" "30") [sample_doc "d" "40"]); vm_compute; reflexivity.
Defined.

Lemma selections_absent_witness :
  scan 1000 "<" "age" "25" (JArr sample_docs) = (JArr sample_docs, Ok (JArr [])) /\
  scan 1000 ">" "age" "10" (JArr sample_docs) = (JArr sample_docs, Throw bad_alloc).
Proof.
  split; [apply (selections_absent 1000 ltac:(lia) "age" "25" sample_docs) | apply (selections_absent 1000 ltac:(lia) "age" "10" sample_docs)];
    try exact sample_members; try exact sample_sorted; try (vm_compute; congruence); (unfold comparisons; set_solver).
Defined.

Lemma search_terminates_witness :
  index_outcome 4 (getlowerIndex 1000 "name" "x" (JArr sample_docs)).2 /\
  index_outcome 4 (getUpperIndex 1000 "name" "x" (JArr sample_docs)).2.
Proof. apply (search_terminates 1000 ltac:(lia) sample_docs "name" "x"). vm_compute; congruence. Defined.
