(* ===== verification/Results.v ===== *)
(** * Answers to queries

    What the storage node answers (file Query): union and intersection are those of sets, and the
    text of a filter over fields without an index, made of the comparisons that are right, is
    answered with exactly the documents that satisfy it. *)

From Stdlib Require Import ZArith Lia List Bool Ascii String Sorting.Sorted.
From stdpp Require Import base gmap strings list list_numbers sorting.
From S2P Require Import Prelude.
From S2P Require Import Machine.
From S2P Require Import Cpp.
From S2P Require Import Json.
From S2P Require Import Expression.
From S2P Require Import Query.
From S2P Require Import Search.
From S2P Require Import JsonText.

Local Open Scope Z_scope.

(** ** Sets *)

Definition increasing (s : list json) : Prop := StronglySorted (fun a b => json_lt a b = true) s.

Lemma json_lt_trans (a b c : json) : json_lt a b = true -> json_lt b c = true -> json_lt a c = true.
Proof.
  pose proof (json_lt_key (fun x : json => x)) as [asym trans]. intros L M.
  destruct (json_lt a c) eqn:N; [reflexivity|]. rewrite (trans b c a (asym _ _ M) N) in L. discriminate.
Qed.

Lemma set_insert_elem (x y : json) (s : list json) : y ∈ set_insert x s <-> y = x \/ y ∈ s.
Proof.
  induction s as [|z s IH]; cbn [set_insert]; [now rewrite list_elem_of_singleton, elem_of_nil; intuition|].
  destruct (json_lt x z) eqn:L; [now rewrite !elem_of_cons|].
  destruct (json_lt z x) eqn:G; rewrite !elem_of_cons; [rewrite IH; intuition|].
  rewrite (json_lt_total _ _ L G). intuition.
Qed.

Lemma set_insert_increasing (x : json) (s : list json) : increasing s -> increasing (set_insert x s).
Proof.
  intros Hs; induction Hs as [|z s Hs IH Hz]; cbn [set_insert]; [repeat constructor|].
  destruct (json_lt x z) eqn:L.
  - constructor; [now constructor|]. constructor; [exact L|].
    eapply Forall_impl; [exact Hz|]. intros y Hy. now apply (json_lt_trans x z y).
  - destruct (json_lt z x) eqn:G; [|now constructor]. constructor; [exact IH|].
    apply Forall_forall. intros y Hy. apply set_insert_elem in Hy as [->|Hy]; [exact G|]. rewrite Forall_forall in Hz. now apply Hz.
Qed.

Lemma set_of_spec (l : list json) : increasing (set_of l) /\ forall y, y ∈ set_of l <-> y ∈ l.
Proof.
  unfold set_of. induction l as [|x l IH] using rev_ind.
  - split; [constructor | reflexivity].
  - rewrite foldl_app. cbn [foldl]. destruct IH as [S E]. split; [now apply set_insert_increasing|].
    intros y. rewrite set_insert_elem, E, elem_of_app, list_elem_of_singleton. intuition.
Qed.

Lemma increasing_nodup (s : list json) : increasing s -> NoDup s.
Proof.
  intros Hs; induction Hs as [|x s Hs IH Hx]; constructor; [|exact IH]. intros Hin.
  rewrite Forall_forall in Hx. specialize (Hx x Hin). destruct (json_lt_facts _ _ Hx) as (_ & _ & F). congruence.
Qed.

Lemma in_set (l : list json) (x : json) :
  existsb (fun y => negb (json_lt x y || json_lt y x)) (set_of l) = bool_decide (x ∈ l).
Proof.
  apply eq_true_iff_eq. rewrite existsb_exists, bool_decide_eq_true, <- (proj2 (set_of_spec l)), list_elem_of_In. split.
  - intros (y & Hy & N). apply negb_true_iff, orb_false_iff in N as [L G]. now rewrite (json_lt_total _ _ L G).
  - intros Hx. exists x. split; [exact Hx|]. destruct (json_lt x x) eqn:L; [|reflexivity].
    destruct (json_lt_facts _ _ L) as (_ & _ & F). congruence.
Qed.

Lemma intersection_filter (l m : list json) :
  intersection (JArr l) (JArr m) = Ok (JArr (List.filter (fun x => bool_decide (x ∈ l)) m)).
Proof. unfold intersection. cbn. do 2 f_equal. apply List.filter_ext. intros x. apply in_set. Qed.

(** [union_] and [intersection] are union and intersection: the union of two arrays holds the
    elements of both, once each and in increasing order; the intersection holds the elements of the
    second array that are in the first, in their order. *)
Theorem union_intersection (l m : list json) :
  (exists u, union_ (JArr l) (JArr m) = Ok (JArr u) /\ increasing u /\ NoDup u /\ forall x, x ∈ u <-> x ∈ l \/ x ∈ m) /\
  intersection (JArr l) (JArr m) = Ok (JArr (List.filter (fun x => bool_decide (x ∈ l)) m)).
Proof.
  split; [|apply intersection_filter]. destruct (set_of_spec (l ++ m)) as [S E]. exists (set_of (l ++ m)).
  split; [reflexivity | split; [exact S | split; [now apply increasing_nodup|]]]. intros x. now rewrite E, elem_of_app.
Qed.

(** ** Queries *)

Definition compares (op : string) (k : json) (v : string) : bool :=
  if String.eqb op "=" then json_eq k (JStr v)
  else if String.eqb op "<>" then negb (json_eq k (JStr v))
  else if String.eqb op "<" then json_lt k (JStr v)
  else negb (json_lt (JStr v) k).

(** The documents a filter means. *)
Fixpoint holds (c : condition) (d : json) : bool :=
  match c with
  | Compare op field value => compares op (operand_of field d) value
  | And a b => holds a d && holds b d
  | Or a b => holds a d || holds b d
  end.

(** Every comparison is one of the four right ones, on a field without an index that all documents
    have, with a value that occurs. *)
Fixpoint supported (indexes : gmap string string) (docs : list json) (c : condition) : Prop :=
  match c with
  | Compare op field value =>
      op ∈ ["="; "<>"; "<"; "<="] /\ indexes !! field = None /\ Forall (has_member field) docs /\
      existsb (same field value) docs = true
  | And a b | Or a b => supported indexes docs a /\ supported indexes docs b
  end.

Lemma comparison_supported (op : string) : op ∈ ["="; "<>"; "<"; "<="] -> op ∈ comparisons.
Proof. unfold comparisons. rewrite !elem_of_cons. tauto. Qed.

Section Queries.
Context `{JsonText} `{StdSort} `{Ipfs} (memory : Z) (Hmem : 0 <= memory < 2 ^ 31).
Context (indexes : gmap string string) (h text : string) (docs : list json)
  (Hid : indexes !! "id" = Some h)
  (Hfetch : fetch_all (getOrderedEdgeNamesOf (default "" (edge (getOrderedEdgeNamesOf h) "__"))) = Ok docs)
  (Hwf : forallb wf docs = true) (Htext : dump (JArr docs) = Ok text) (Hlen : Z.of_nat (length docs) <= memory).

Lemma scan_compare (field value op : string) (l : list json) : Z.of_nat (length l) <= memory ->
  Forall (has_member field) l -> sorted_by (by_operand field) l -> existsb (same field value) l = true ->
  op ∈ ["="; "<>"; "<"; "<="] ->
  (scan memory op field value (JArr l)).2 =
  Ok (JArr (List.filter (fun d => compares op (operand_of field d) value) l)).
Proof.
  intros Hl Hf Hs He Hop. destruct (right_selections memory Hmem field value l Hl Hf Hs He) as (S1 & S2 & S3 & S4).
  repeat (apply elem_of_cons in Hop as [->|Hop]; [now rewrite ?S1, ?S2, ?S3, ?S4|]). now apply elem_of_nil in Hop.
Qed.

Lemma sort_documents_ok (field : string) : Forall (has_member field) docs -> exists sorted,
  sortDocumentsByOperand field indexes = (indexes, Ok sorted) /\ sorted ≡ₚ docs /\ sorted_by (by_operand field) sorted.
Proof.
  intros Hf. set (lt := by_operand field).
  exists (std_sort lt docs). split; [|split; [apply sort_perm, (json_lt_key (operand_of field)) | apply sort_sorted, (json_lt_key (operand_of field))]].
  unfold sortDocumentsByOperand, fetchDocumentsFromDefaultIndex, index_at, mbind, M_bind, get, of_result. rewrite Hid. cbn. rewrite Hfetch. cbn.
  rewrite Htext, (parse_dump (JArr docs) text Hwf Htext). cbn. unfold sort_documents.
  assert (E : forallb is_document docs = true).
  { apply forallb_forall. intros d Hd. apply list_elem_of_In in Hd. rewrite Forall_forall in Hf. now destruct (Hf d Hd) as (m & v & -> & _). }
  now rewrite E, andb_false_r.
Qed.

(** One comparison. *)
Lemma compare_denotes (op field value : string) : supported indexes docs (Compare op field value) ->
  exists R, compare_documents memory op (JStr field) (JStr value) indexes = (indexes, Ok (JArr R)) /\
    forall d, d ∈ R <-> d ∈ docs /\ compares op (operand_of field d) value = true.
Proof.
  intros (Hop & Hn & Hf & He). destruct (sort_documents_ok field Hf) as (sorted & S & P & O).
  assert (Hf' : Forall (has_member field) sorted) by now rewrite P.
  assert (He' : existsb (same field value) sorted = true).
  { apply existsb_exists in He as (d & Hd & Ed). apply existsb_exists. exists d. split; [|exact Ed].
    apply list_elem_of_In. rewrite P. now apply list_elem_of_In. }
  assert (Hl : Z.of_nat (length sorted) <= memory) by now rewrite P.
  exists (List.filter (fun d => compares op (operand_of field d) value) sorted). split.
  - unfold compare_documents, by_scan, mbind, M_bind, of_result, get. cbn. rewrite Hn, S.
    destruct sorted as [|d sorted']; [discriminate|]. cbn [length Nat.ltb Nat.leb get_string]. now rewrite scan_compare.
  - intros d. rewrite list_elem_of_In, filter_In, <- list_elem_of_In, P. reflexivity.
Qed.

(** The value of a binary operator, from those of its operands. *)
Ltac evaluate Ea Eb := cbn [tree evaluateExpression]; unfold mbind, M_bind; rewrite Ea, Eb.

Lemma evaluate_denotes (c : condition) : supported indexes docs c ->
  exists R, evaluateExpression memory (tree c) indexes = (indexes, Ok (JArr R)) /\
    forall d, d ∈ R <-> d ∈ docs /\ holds c d = true.
Proof.
  induction c as [op field value|a IHa b IHb|a IHa b IHb]; intros Hc.
  - destruct (compare_denotes op field value Hc) as (R & E & HR). exists R. split; [|exact HR].
    cbn [tree evaluateExpression]. rewrite bool_decide_eq_true_2 by (apply comparison_supported, Hc). exact E.
  - destruct Hc as [Ha Hb]. destruct (IHa Ha) as (Ra & Ea & HRa), (IHb Hb) as (Rb & Eb & HRb).
    cbn [holds].
    destruct (jempty (JArr Ra) || jempty (JArr Rb)) eqn:N.
    + exists []. split; [evaluate Ea Eb; cbn -[jempty]; now rewrite N|]. intros d. split; [intros F; now apply elem_of_nil in F|].
      intros [Hd T]. apply andb_true_iff in T as [Ta Tb]. exfalso.
      assert (Da : d ∈ Ra) by now apply HRa. assert (Db : d ∈ Rb) by now apply HRb.
      destruct Ra; [now apply elem_of_nil in Da|]. destruct Rb; [now apply elem_of_nil in Db | discriminate].
    + eexists. split; [evaluate Ea Eb; cbn -[intersection jempty]; rewrite N; unfold of_result; now rewrite intersection_filter|].
      intros d. rewrite list_elem_of_In, filter_In, bool_decide_eq_true, <- list_elem_of_In, HRa, HRb, andb_true_iff. intuition.
  - destruct Hc as [Ha Hb]. destruct (IHa Ha) as (Ra & Ea & HRa), (IHb Hb) as (Rb & Eb & HRb).
    cbn [holds].
    destruct (jempty (JArr Ra) || jempty (JArr Rb)) eqn:N.
    + exists (if jempty (JArr Ra) then Rb else Ra). split; [evaluate Ea Eb; cbn -[jempty]; rewrite N; now destruct (jempty (JArr Ra))|].
      intros d. rewrite orb_true_iff. destruct Ra as [|x Ra]; cbn [jempty jsize length] in *; cbn.
      * rewrite HRb. assert (F : ~ (d ∈ docs /\ holds a d = true)) by (rewrite <- HRa; apply not_elem_of_nil). intuition.
      * destruct Rb as [|y Rb]; [|discriminate]. rewrite HRa.
        assert (F : ~ (d ∈ docs /\ holds b d = true)) by (rewrite <- HRb; apply not_elem_of_nil). intuition.
    + eexists. split; [evaluate Ea Eb; cbn -[union_ jempty]; rewrite N; reflexivity|].
      intros d. rewrite (proj2 (set_of_spec _)), elem_of_app, HRa, HRb, orb_true_iff. intuition.
Qed.
End Queries.

(** C19: The text of a supported filter is answered with exactly the documents it means: from the text,
    with any spaces around its operators, through the tree, the searches and the sets to the
    answer, for an entity whose documents are those of its default index. *)
Theorem query_answers `{JsonText} `{StdSort} `{Ipfs} (memory : Z) (dht : string -> string) (tid entity pad hash h text : string)
  (docs : list json) (c : condition) :
  0 <= memory < 2 ^ 31 -> Z.of_nat (length docs) <= memory ->
  dht (".data_" +:+ (tid +:+ ("_" +:+ entity))) = hash -> hash <> "" ->
  getUnorderedEdgeNamesOf hash !! "id" = Some h ->
  fetch_all (getOrderedEdgeNamesOf (default "" (edge (getOrderedEdgeNamesOf h) "__"))) = Ok docs ->
  forallb wf docs = true -> dump (JArr docs) = Ok text ->
  (forall a, mem a pad = true -> isspace a = true) -> writable c = true ->
  supported (getUnorderedEdgeNamesOf hash) docs c ->
  exists R, searchDocument memory dht tid entity (show pad 0 c) = Ok (JArr R) /\
    forall d, d ∈ R <-> d ∈ docs /\ holds c d = true.
Proof.
  intros Hmem Hlen Hh Hne Hid Hfetch Hwf Htext Hpad Hw Hc.
  destruct (read_show pad c Hpad Hw) as (fields & E & _).
  destruct (evaluate_denotes memory Hmem _ h text docs Hid Hfetch Hwf Htext Hlen c Hc) as (R & Ev & HR).
  exists R. split; [|exact HR]. unfold searchDocument. rewrite Hh, (proj2 (String.eqb_neq _ _) Hne).
  destruct (getPostfixedExpressionOf (show pad 0 c)) as [postfix|ex]; [|discriminate]. cbn in E |- *. rewrite E. cbn. now rewrite Ev.
Qed.

(** ** Example *)

Definition person (id age city : string) : json := object [("id", JStr id); ("age", JStr age); ("city", JStr city)].
Definition people : list json := [person "a" "20" "Oslo"; person "b" "30" "Rome"; person "c" "30" "Oslo"; person "d" "40" "Rome"].

Definition person_text (d : json) : string := match dump d with Ok s => s | Throw _ => "" end.

(** The tree of an entity: the index [id], its collection, and the documents. *)
Definition people_store : Ipfs :=
  {| object_links h :=
       if String.eqb h "root" then [("id", "B")] else if String.eqb h "B" then [("__", "C")]
       else if String.eqb h "C" then [("a", "da"); ("b", "db"); ("c", "dc"); ("d", "dd")] else [];
     object_data h :=
       person_text (if String.eqb h "da" then person "a" "20" "Oslo" else if String.eqb h "db" then person "b" "30" "Rome"
         else if String.eqb h "dc" then person "c" "30" "Oslo" else person "d" "40" "Rome") |}.

Lemma query_answers_witness :
  let c := Or (And (Compare "=" "age" "30") (Compare "<>" "city" "Rome")) (Compare "<" "age" "30") in
  let dht k := if String.eqb k ".data_t_people" then "root" else "" in
  exists R, searchDocument (H1 := people_store) 1000 dht "t" "people" (show " " 0 c) = Ok (JArr R) /\
    (person "a" "20" "Oslo" ∈ R <-> person "a" "20" "Oslo" ∈ people /\ holds c (person "a" "20" "Oslo") = true) /\
    (person "b" "30" "Rome" ∈ R <-> person "b" "30" "Rome" ∈ people /\ holds c (person "b" "30" "Rome") = true).
Proof.
  intros c dht.
  destruct (query_answers (H1 := people_store) 1000 dht "t" "people" " " "root" "B" (person_text (JArr people)) people c)
    as (R & E & HR).
  - lia.
  - vm_compute; congruence.
  - reflexivity.
  - discriminate.
  - vm_compute; reflexivity.
  - vm_compute; reflexivity.
  - vm_compute; reflexivity.
  - vm_compute; reflexivity.
  - intros a Ha. cbn in Ha. rewrite orb_false_r in Ha. apply Ascii.eqb_eq in Ha as ->. reflexivity.
  - vm_compute; reflexivity.
  - assert (F : forall f, forallb (fun d => match d with JObj m => match member f m with Some _ => true | None => false end | _ => false end) people = true ->
      Forall (has_member f) people).
    { intros f Hf. apply Forall_forall. intros d Hd. apply list_elem_of_In in Hd. rewrite forallb_forall in Hf. specialize (Hf d Hd).
      destruct d; try discriminate. destruct (member f m) as [v|] eqn:E; [|discriminate]. now exists m, v. }
    cbn [supported c]. repeat split; first [apply F; vm_compute; reflexivity | vm_compute; reflexivity | rewrite !elem_of_cons; tauto].
  - exists R. split; [exact E | split; apply HR].
Defined.
