(* ===== verification/Accounts.v ===== *)
(** * Client accounts

    The keys and signatures of clients (src/BlockChainCommon/functions.cpp): [generateAccount],
    [createEd25519Signature] and [verifyEd25519Signature], which carry the strings of the messages
    to the byte buffers of the Ed25519 library and back through base 64. The theorems join the two
    halves of the development: what a client signs with a generated account is accepted, and a
    request signed this way becomes a transaction. *)

From Stdlib Require Import ZArith Lia List Bool Ascii String.
From stdpp Require Import base gmap strings list fin_maps.
From S2P Require Import Prelude.
From S2P Require Import Machine.
From S2P Require Import Bytes.
From S2P Require Import Sha512.
From S2P Require Import Sha512Correct.
From S2P Require Import Edwards.
From S2P Require Import Ge.
From S2P Require Import GeCode.
From S2P Require Import Ed25519.
From S2P Require Import Ed25519Correct.
From S2P Require Import Cpp.
From S2P Require Import Json.
From S2P Require Import Transaction.
From S2P Require Import Wire.
From S2P Require Import Node.
From S2P Require Import Master.
From S2P Require Import Voting.
From S2P Require Import JsonText.

Local Open Scope Z_scope.

(** A [std::string] as the bytes of a buffer, and back. *)
Definition byte_of (c : ascii) : Z := Z.of_nat (nat_of_ascii c).

Fixpoint to_bytes (s : string) : list Z :=
  match s with EmptyString => [] | String c s => byte_of c :: to_bytes s end.

Fixpoint of_bytes (l : list Z) : string :=
  match l with [] => EmptyString | b :: l => String (ascii_of_nat (Z.to_nat b)) (of_bytes l) end.

(** What the functions of the library find in the variables they do not initialise. *)
Record stack := { hash1 : sha512_context; hash2 : sha512_context; point : ge_p3 }.

Section Accounts.
Context `{Services}.

(** A loop of the hash that does not end would be a [None] of the library. *)
Definition ended {A} (r : option A) : result A := match r with Some a => Ok a | None => Throw undefined end.

(** The seed is [None] when the system gives no random numbers. *)
Definition generateAccount (k : stack) (seed : option (list Z)) : result json :=
  match seed with
  | None => Throw runtime_error
  | Some seed =>
      '(publicKey, privateKey) ← ended (ed25519_create_keypair (hash1 k) seed);
      Ok (object [("PrivateKey", JStr (base64_encode (of_bytes privateKey)));
                  ("PublicKey", JStr (base64_encode (of_bytes publicKey)));
                  ("Seed", JStr (base64_encode (of_bytes seed)))])
  end.

(** Keys shorter than the buffers the library reads are read beyond their end. *)
Definition createEd25519Signature (k : stack) (message base64publicKey base64privateKey : string) : result string :=
  let publicKeyVec := to_bytes (base64_decode base64publicKey) in
  let privateKeyVec := to_bytes (base64_decode base64privateKey) in
  if (length publicKeyVec <? 32)%nat || (length privateKeyVec <? 64)%nat then Throw undefined
  else
    signature ← ended (ed25519_sign (hash1 k) (hash2 k) (to_bytes message) publicKeyVec privateKeyVec);
    Ok (base64_encode (of_bytes signature)).

(** So are a short signature, and a short key unless the top bits of the signature end the check. *)
Definition verifyEd25519Signature (k : stack) (message base64key base64signature : string) : result bool :=
  let decodedKeyVec := to_bytes (base64_decode base64key) in
  let decodedSignatureVec := to_bytes (base64_decode base64signature) in
  if (length decodedSignatureVec <? 64)%nat then Throw undefined
  else if (length decodedKeyVec <? 32)%nat && (Z.land (nth 63 decodedSignatureVec 0) 224 =? 0) then Throw undefined
  else
    valid ← ended (ed25519_verify (point k) (hash1 k) decodedSignatureVec (to_bytes message) decodedKeyVec);
    Ok (negb (valid =? 0)).

(** ** Bytes and strings *)

Lemma to_of_bytes (l : list Z) : bytes l -> to_bytes (of_bytes l) = l.
Proof.
  intros Hl; induction Hl as [|b l Hb Hl IH]; [reflexivity|]. cbn. rewrite IH. f_equal.
  unfold byte_of. unfold is_byte in Hb. rewrite nat_ascii_embedding; lia.
Qed.

Lemma to_bytes_bytes (s : string) : bytes (to_bytes s).
Proof.
  induction s as [|c s IH]; constructor; [|exact IH]. unfold is_byte, byte_of. pose proof (nat_ascii_bounded c). lia.
Qed.

Lemma to_bytes_length (s : string) : length (to_bytes s) = String.length s.
Proof. induction s as [|c s IH]; cbn; congruence. Qed.

(** The buffers of the calls. *)
Definition good_stack (k : stack) : Prop := uninitialised (hash1 k) /\ uninitialised (hash2 k).

(** A key pair as a client holds it. *)
Definition account_keys (public private : string) : Prop :=
  exists pk sk, public = base64_encode (of_bytes pk) /\ private = base64_encode (of_bytes sk) /\ key_pair pk sk.

Context (Hbase64 : forall s, base64_decode (base64_encode s) = s).

Lemma account_generated (k : stack) (seed : list Z) : good_stack k -> bytes seed ->
  exists public private, generateAccount k (Some seed) =
    Ok (object [("PrivateKey", JStr private); ("PublicKey", JStr public); ("Seed", JStr (base64_encode (of_bytes seed)))]) /\
    account_keys public private.
Proof.
  intros [H1 _] Hs. destruct (keypair_spec (hash1 k) seed H1 Hs) as (pk & sk & E & HB & HL & _ & HC & HP).
  exists (base64_encode (of_bytes pk)), (base64_encode (of_bytes sk)). unfold generateAccount. rewrite E.
  split; [reflexivity|]. exists pk, sk. split; [reflexivity | split; [reflexivity|]]. now repeat split.
Qed.

Lemma keys_sign (k k' : stack) (message public private : string) : good_stack k -> good_stack k' ->
  8 * (Z.of_nat (String.length message) + 64) < 2 ^ 64 -> account_keys public private ->
  exists signature, createEd25519Signature k message public private = Ok signature /\
    verifyEd25519Signature k' message public signature = Ok true.
Proof.
  intros [H1 H2] [H3 _] Hm (pk & sk & -> & -> & K).
  assert (Hh : hashable (to_bytes message)) by (split; [apply to_bytes_bytes | now rewrite to_bytes_length]).
  pose proof K as (HB & HL & HP).
  assert (P : bytes pk /\ length pk = 32%nat) by (rewrite HP; apply encode_bytes).
  destruct (sign_then_verify (hash1 k) (hash2 k) (hash1 k') (point k') (to_bytes message) pk sk H1 H2 H3 Hh K)
    as (s & E & B & L & V).
  exists (base64_encode (of_bytes s)). unfold createEd25519Signature, verifyEd25519Signature.
  rewrite !Hbase64, !to_of_bytes by (tauto || assumption).
  rewrite (proj2 P), HL, L, E. cbn -[ed25519_verify]. split; [reflexivity|]. now rewrite V.
Qed.

(** C20: What a client signs with a generated account is accepted: for every seed, the account has a
    public and a private key, every message can be signed with them, and the signature verifies. *)
Theorem account_signs (k k' k'' : stack) (seed : list Z) (message : string) :
  good_stack k -> good_stack k' -> good_stack k'' -> bytes seed ->
  8 * (Z.of_nat (String.length message) + 64) < 2 ^ 64 ->
  exists j public private signature, generateAccount k (Some seed) = Ok j /\
    member_string j "PublicKey" = Ok public /\ member_string j "PrivateKey" = Ok private /\
    createEd25519Signature k' message public private = Ok signature /\
    verifyEd25519Signature k'' message public signature = Ok true.
Proof.
  intros H1 H2 H3 Hs Hm. destruct (account_generated k seed H1 Hs) as (public & private & E & K).
  destruct (keys_sign k' k'' message public private H2 H3 Hm K) as (signature & S & V).
  eexists _, public, private, signature. split; [exact E | now split].
Qed.
End Accounts.

(** ** Requests *)

Section Requests.
Context `{JsonText} `{Services}.

(** What becomes of a request is the transaction under its identifier. *)
Record requested (txId key code inputs signature : string) (time : Z) (tx : Transaction) : Prop := {
  r_id : m_txId tx = txId;
  r_key : m_publicKey tx = key;
  r_code : m_code tx = code;
  r_input : m_input tx = inputs;
  r_signature : m_signature tx = signature;
  r_time : m_timestamp tx = time;
  r_compute : m_computeNode tx = true;
  r_full : m_receivedFullTransaction tx = true
}.

Definition holds_request (txId key code inputs signature : string) (time : Z) (s : master) : Prop :=
  exists tx, transactions s !! txId = Some tx /\ requested txId key code inputs signature time tx.

Lemma request_on_node {A} (m : M node A) (txId key code inputs signature : string) (time : Z) :
  preserves (holds_request txId key code inputs signature time) (on_node m).
Proof. intros s Hs. unfold on_node. now destruct (m (base s)). Qed.

Lemma request_on_transaction {A} (m : M Transaction A) (txId key code inputs signature : string) (time : Z) :
  preserves (requested txId key code inputs signature time) m ->
  preserves (holds_request txId key code inputs signature time) (on_transaction txId m).
Proof.
  intros Hm s (tx & E & R). unfold on_transaction. rewrite E. specialize (Hm tx R). destruct (m tx) as [tx' r].
  exists tx'. split; [apply lookup_insert_eq | exact Hm].
Qed.

Lemma request_state_change (dht : string -> string) (txId key code inputs signature : string) (time : Z) :
  preserves (holds_request txId key code inputs signature time) (getStateChangeStorageNode dht).
Proof. unfold getStateChangeStorageNode. preserve; try apply request_on_node; apply preserves_modify; intros s Hs; exact Hs. Qed.

Lemma request_verifier (dht : string -> string) (draw : Z) (txId key code inputs signature : string) (time : Z) :
  preserves (holds_request txId key code inputs signature time) (sendToVerifier dht draw txId).
Proof.
  unfold sendToVerifier. preserve; try apply request_on_node; try apply request_state_change; apply request_on_transaction.
  - preserve. apply preserves_modify. intros tx [R1 R2 R3 R4 R5 R6 R7 R8]. now split.
  - preserve.
Qed.

(** C21: A request becomes a transaction exactly when its signature verifies: signed with the keys of an
    account over the text [processCodePacket] builds from its fields, it is stored under its new
    identifier with the client's code, inputs and key, whatever happens after that; with any other
    outcome of the check nothing changes at all. *)
Theorem request_needs_signature (dht : string -> string) (draw : Z) (k k' : stack) (public private : string)
  (txId utxid htxid tid code inputs : string) (s : master) :
  (forall t, base64_decode (base64_encode t) = t) -> good_stack k -> good_stack k' -> account_keys public private ->
  let message := code_message utxid tid code inputs public in
  8 * (Z.of_nat (String.length message) + 64) < 2 ^ 64 -> subscribedTo21 s = true -> transactions s !! txId = None ->
  let request signature := processCodePacket (verifyEd25519Signature k') dht draw txId utxid htxid tid code inputs signature public s in
  exists signature, createEd25519Signature k message public private = Ok signature /\
    holds_request txId public code inputs signature (now s) (request signature).1 /\
    forall forged, verifyEd25519Signature k' message public forged <> Ok true -> (request forged).1 = s.
Proof.
  intros B64 H1 H2 K message Hm Hsub Hnew request.
  destruct (keys_sign B64 k k' message public private H1 H2 Hm K) as (signature & S & V).
  exists signature. split; [exact S|]. unfold request, processCodePacket. split.
  - fold message. erewrite bind_ok by (unfold of_result; now rewrite V). cbn [negb].
    erewrite bind_ok by reflexivity. rewrite Hsub. cbn [negb].
    erewrite bind_ok by reflexivity. match goal with |- holds_request ?a ?b ?c ?d ?e ?f (?m ?st).1 =>
      assert (P : preserves (holds_request a b c d e f) m); [|apply P] end.
    + preserve; try apply request_on_node; try apply request_verifier. apply request_on_transaction. preserve.
    + eexists. split; [cbn; unfold insert_new; rewrite Hnew; apply lookup_insert_eq | now split].
  - intros forged Hf. fold message. unfold mbind, M_bind, of_result.
    destruct (verifyEd25519Signature k' message public forged) as [[|]|]; [easy | reflexivity | reflexivity].
Qed.
End Requests.

(** ** Examples *)

Definition zero_stack : stack := {| hash1 := zero_context; hash2 := zero_context; point := ge_p3_0 |}.

Lemma zero_good : good_stack zero_stack.
Proof. split; exact zero_uninitialised. Qed.

Lemma account_signs_witness :
  exists j public private signature, generateAccount (H := sample_services) zero_stack (Some (repeat 7 32)) = Ok j /\
    member_string j "PublicKey" = Ok public /\ member_string j "PrivateKey" = Ok private /\
    createEd25519Signature (H := sample_services) zero_stack "c:19|txid:1" public private = Ok signature /\
    verifyEd25519Signature (H := sample_services) zero_stack "c:19|txid:1" public signature = Ok true.
Proof.
  apply (account_signs (H := sample_services) (fun s => eq_refl) zero_stack zero_stack zero_stack (repeat 7 32) "c:19|txid:1");
    try exact zero_good; [apply bytesb_spec; reflexivity | vm_compute; reflexivity].
Defined.

Lemma request_needs_signature_witness :
  let s := set_subscribedTo21 true (sample_master []) in
  let public := of_bytes (encode pzero) in
  exists signature, createEd25519Signature (H := sample_services) zero_stack
      (code_message "1" "t" "f" "x" public) public (of_bytes zero_secret) = Ok signature /\
    holds_request "id" public "f" "x" signature (now s) (processCodePacket (H1 := sample_services)
      (verifyEd25519Signature (H := sample_services) zero_stack) (fun _ => "") 0 "id" "1" "r" "t" "f" "x" signature public s).1.
Proof.
  intros s public.
  destruct (request_needs_signature (H0 := sample_services) (fun _ => "") 0 zero_stack zero_stack public (of_bytes zero_secret)
    "id" "1" "r" "t" "f" "x" s) as (signature & S & R & _).
  - reflexivity.
  - exact zero_good.
  - exact zero_good.
  - exists (encode pzero), zero_secret. split; [reflexivity | split; [reflexivity | exact zero_key_pair]].
  - vm_compute; reflexivity.
  - reflexivity.
  - reflexivity.
  - exists signature. split; [exact S | exact R].
Defined.
