(* ===== verification/Queue.v ===== *)
(** * State changes

    The queues of state changes of the storage node (src/StorageNode/StorageNode.cpp, Command.cpp,
    Command.h): [onStateChange] sorts the commands of a message into queues by tenant and kind, and
    one thread per queue ([processStateUpdates]) copies the oldest command under the lock, executes
    it without the lock, and pops the queue under the lock again. The critical sections are the
    steps of the model. [std::priority_queue] is the interface [PriorityQueue]. *)

From Stdlib Require Import ZArith Lia List Bool Ascii String.
From stdpp Require Import base gmap strings list fin_maps relations.
From S2P Require Import Prelude.
From S2P Require Import Cpp.
From S2P Require Import Wire.
From S2P Require Import Node.

Local Open Scope Z_scope.

Record CommandInfo := mkCommand { fields : gmap string string; timestamp : Z; command : list string }.

(** [OrderByTimeStamp], a strict order on the timestamps alone. *)
Definition OrderByTimeStamp (a b : CommandInfo) : bool := timestamp b <? timestamp a.

(** A priority queue keeps its elements; the top is one that no other is ordered before, and which
    one of several is not documented. *)
Class PriorityQueue (A : Type) (before : A -> A -> bool) := {
  pq_push : A -> list A -> list A;
  pq_top : list A -> option A;
  pq_pop : list A -> list A;
  push_perm : forall c q, pq_push c q ≡ₚ c :: q;
  top_none : forall q, pq_top q = None <-> q = [];
  top_pop : forall c q, pq_top q = Some c -> q ≡ₚ c :: pq_pop q;
  top_first : forall c q, pq_top q = Some c -> Forall (fun d => before c d = false) q
}.
Arguments pq_push {A before _}.
Arguments pq_top {A before _}.
Arguments pq_pop {A before _}.
Arguments push_perm {A before _}.
Arguments top_none {A before _}.
Arguments top_pop {A before _}.
Arguments top_first {A before _}.

(** The thread of a queue: it waits, or executes a copy of the top. *)
Inductive worker := Waiting | Executing (c : CommandInfo).

(** The map of queues with their threads, and the commands executed so far. *)
Record storage := mkStorage {
  stateChangeQueueMap : gmap string (list CommandInfo * worker);
  executed : list CommandInfo
}.

Section Queue.
Context `{BoostStrings} `{PriorityQueue CommandInfo OrderByTimeStamp}.

(** The queue of a command: by the entity it names for the documents, else by its number. *)
Definition queue_key (tid : string) (command : list string) : result string :=
  match command with
  | [] => Throw undefined
  | commandIndex :: rest =>
      if bool_decide (commandIndex ∈ ["2"; "5"; "8"]) then
        match rest with x :: _ => Ok (tid +:+ x) | [] => Throw out_of_range end
      else Ok (tid +:+ commandIndex)
  end.

(** The critical section of [onStateChange]: a new queue gets a thread. *)
Definition push_command (key : string) (c : CommandInfo) (s : storage) : storage :=
  let '(q, w) := default ([], Waiting) (stateChangeQueueMap s !! key) in
  mkStorage (<[key := (pq_push c q, w)]> (stateChangeQueueMap s)) (executed s).

(** The commands of a message, up to the first that names no entity; the exception is logged. *)
Fixpoint push_all (tid : string) (theFields : gmap string string) (tm : Z) (commands : list string) (s : storage) : storage :=
  match commands with
  | [] => s
  | val :: commands =>
      let command := split " " val in
      match queue_key tid command with
      | Throw _ => s
      | Ok key => push_all tid theFields tm commands (push_command key (mkCommand theFields tm command) s)
      end
  end.

(** Missing fields are exceptions of the handler; a time that is no number is logged. *)
Definition onStateChange (theFields : gmap string string) (s : storage) : result storage :=
  tid ← field theFields "tid";
  cmds ← field theFields "cmds";
  _ ← field theFields "txid"; _ ← field theFields "ws"; _ ← field theFields "k";
  let theFields := delete "cmds" theFields in
  match (tm ← field theFields "tm"; stoll tm) with
  | Throw _ => Ok s
  | Ok tm => Ok (push_all tid theFields tm (split "," cmds) s)
  end.

(** The critical sections of [processStateUpdates]: copy the top, and pop after the execution; an
    empty queue goes with its thread once it has been idle. *)
Definition take_top (key : string) (s : storage) : option storage :=
  match stateChangeQueueMap s !! key with
  | Some (q, Waiting) =>
      match pq_top q with
      | Some c => Some (mkStorage (<[key := (q, Executing c)]> (stateChangeQueueMap s)) (executed s))
      | None => None
      end
  | _ => None
  end.

Definition finish (key : string) (s : storage) : option storage :=
  match stateChangeQueueMap s !! key with
  | Some (q, Executing c) =>
      Some (mkStorage (<[key := (pq_pop q, Waiting)]> (stateChangeQueueMap s)) (executed s ++ [c])%list)
  | _ => None
  end.

Definition flush (key : string) (s : storage) : option storage :=
  match stateChangeQueueMap s !! key with
  | Some ([], Waiting) => Some (mkStorage (delete key (stateChangeQueueMap s)) (executed s))
  | _ => None
  end.

(** The steps, with the commands pushed so far. [calm] is a run in which no command arrives at a queue
    whose thread is executing. *)
Definition executing (key : string) (s : storage) : bool :=
  match stateChangeQueueMap s !! key with Some (_, Executing _) => true | _ => false end.

Inductive queue_step (calm : bool) : list CommandInfo * storage -> list CommandInfo * storage -> Prop :=
| step_push l s key c : (calm = true -> executing key s = false) ->
    queue_step calm (l, s) ((l ++ [c])%list, push_command key c s)
| step_take l s s' key : take_top key s = Some s' -> queue_step calm (l, s) (l, s')
| step_finish l s s' key : finish key s = Some s' -> queue_step calm (l, s) (l, s')
| step_flush l s s' key : flush key s = Some s' -> queue_step calm (l, s) (l, s').

(** ** Calm runs *)

(** The commands in the queues. *)
Definition queued (s : storage) : list CommandInfo :=
  concat (map (fun p => p.2.1) (map_to_list (stateChangeQueueMap s))).

Lemma queued_insert (key : string) (q : list CommandInfo) (w : worker) (m : gmap string (list CommandInfo * worker)) e :
  queued (mkStorage (<[key := (q, w)]> m) e) ≡ₚ (q ++ queued (mkStorage (delete key m) e))%list.
Proof.
  unfold queued. cbn [stateChangeQueueMap]. rewrite <- insert_delete_eq.
  rewrite (map_to_list_insert (delete key m)) by apply lookup_delete_eq. reflexivity.
Qed.

Lemma queued_split (key : string) (q : list CommandInfo) (w : worker) (s : storage) :
  stateChangeQueueMap s !! key = Some (q, w) ->
  queued s ≡ₚ (q ++ queued (mkStorage (delete key (stateChangeQueueMap s)) (executed s)))%list.
Proof. intros E. rewrite <- (queued_insert key q w). rewrite insert_id by exact E. now destruct s. Qed.

(** What is executing is still on top, and nothing was executed that is still queued. *)
Record calm_ok (l : list CommandInfo) (s : storage) : Prop := {
  calm_top : forall key q c, stateChangeQueueMap s !! key = Some (q, Executing c) -> pq_top q = Some c;
  calm_perm : (executed s ++ queued s)%list ≡ₚ l
}.

Lemma calm_step (x y : list CommandInfo * storage) : queue_step true x y -> calm_ok x.1 x.2 -> calm_ok y.1 y.2.
Proof.
  intros Hstep [T P]. destruct Hstep as [l s key c Hc|l s s' key E|l s s' key E|l s s' key E]; cbn [fst snd] in *.
  - specialize (Hc eq_refl). unfold executing in Hc. unfold push_command.
    assert (D : default ([], Waiting) (stateChangeQueueMap s !! key) = (default [] (fst <$> stateChangeQueueMap s !! key), Waiting)).
    { destruct (stateChangeQueueMap s !! key) as [[q [|d]]|]; easy. }
    rewrite D. split.
    + intros key' q' c'. cbn. rewrite lookup_insert. destruct (decide (key = key')); [congruence | apply T].
    + cbn [executed]. rewrite queued_insert, push_perm, <- P. cbn [app]. rewrite <- Permutation_middle, <- Permutation_cons_append.
      apply Permutation_cons, Permutation_app_head; [reflexivity|].
      destruct (stateChangeQueueMap s !! key) as [[q [|d]]|] eqn:K; [|discriminate|].
      * symmetry. exact (queued_split key q Waiting s K).
      * rewrite delete_id by exact K. now destruct s.
  - unfold take_top in E. destruct (stateChangeQueueMap s !! key) as [[q [|d]]|] eqn:K; try discriminate.
    destruct (pq_top q) as [c|] eqn:Q; [|discriminate]. injection E as <-. split.
    + intros key' q' c'. cbn. rewrite lookup_insert. destruct (decide (key = key')); [congruence | apply T].
    + cbn [executed]. now rewrite queued_insert, <- (queued_split key q Waiting s K).
  - unfold finish in E. destruct (stateChangeQueueMap s !! key) as [[q [|c]]|] eqn:K; try discriminate. injection E as <-. split.
    + intros key' q' c'. cbn. rewrite lookup_insert. destruct (decide (key = key')); [congruence | apply T].
    + cbn [executed]. rewrite queued_insert, <- P, (queued_split key q _ s K).
      rewrite (top_pop c q) at 2 by (eapply T; exact K). cbn [app]. now rewrite <- app_assoc.
  - unfold flush in E. destruct (stateChangeQueueMap s !! key) as [[[|x q] [|c]]|] eqn:K; try discriminate. injection E as <-. split.
    + intros key' q' c'. cbn. rewrite lookup_delete. destruct (decide (key = key')); [discriminate | apply T].
    + cbn [executed]. now rewrite <- P, (queued_split key [] Waiting s K).
Qed.

(** C22: In a run in which no command arrives at a queue whose thread is executing, the commands executed
    and those still queued are the commands that arrived, each as often as it arrived: none is lost
    and none is executed twice. *)
Theorem commands_once (l : list CommandInfo) (s : storage) :
  rtc (queue_step true) ([], mkStorage ∅ []) (l, s) -> (executed s ++ queued s)%list ≡ₚ l.
Proof.
  intros R. enough (O : calm_ok (l, s).1 (l, s).2) by exact (calm_perm _ _ O).
  refine (rtc_ind_r (R := queue_step true) (fun y => calm_ok y.1 y.2) _ _ _ _ R);
    [split; [now intros key q c; cbn; rewrite lookup_empty | reflexivity] | intros y z _ S; exact (calm_step y z S)].
Qed.

(** ** An overtaken command *)

(** A command older than all of a queue comes out on top. *)
Lemma push_oldest (c d : CommandInfo) (q : list CommandInfo) :
  pq_top q = Some c -> timestamp d < timestamp c -> pq_top (pq_push d q) = Some d.
Proof.
  intros T L. destruct (pq_top (pq_push d q)) as [t|] eqn:E.
  2: { apply top_none in E. pose proof (push_perm d q) as P. rewrite E in P. now apply Permutation_nil in P. }
  pose proof (transitivity (symmetry (push_perm d q)) (top_pop _ _ E)) as P.
  pose proof (top_first _ _ E) as Ft. pose proof (top_first _ _ T) as Fc. rewrite Forall_forall in Ft, Fc.
  assert (Hd : OrderByTimeStamp t d = false) by (apply Ft; rewrite (push_perm d q); apply elem_of_cons; now left).
  assert (Ht : t ∈ d :: q) by (rewrite P; apply elem_of_cons; now left).
  apply elem_of_cons in Ht as [->|Ht]; [reflexivity|]. exfalso. specialize (Fc _ Ht).
  unfold OrderByTimeStamp in *. apply Z.ltb_ge in Hd, Fc. lia.
Qed.

(** The only oldest command is the top of every rearrangement. *)
Lemma top_same (c : CommandInfo) (q' q : list CommandInfo) :
  q' ≡ₚ q -> pq_top q = Some c -> (forall x, x ∈ q -> timestamp x = timestamp c -> x = c) -> pq_top q' = Some c.
Proof.
  intros P T U. assert (C : c ∈ q) by (rewrite (top_pop _ _ T); apply elem_of_cons; now left).
  destruct (pq_top q') as [x|] eqn:E.
  2: { apply top_none in E. subst q'. apply Permutation_nil in P. subst q. now apply elem_of_nil in C. }
  assert (X : x ∈ q) by (rewrite <- P, (top_pop _ _ E); apply elem_of_cons; now left).
  pose proof (top_first _ _ T) as A. pose proof (top_first _ _ E) as B. rewrite Forall_forall in A, B.
  specialize (A x X). rewrite <- P in C. specialize (B c C). unfold OrderByTimeStamp in *. apply Z.ltb_ge in A, B.
  f_equal. apply U; [exact X | lia].
Qed.

(** C24: When a command with an older timestamp arrives while a thread executes the top of its queue,
    the thread then removes the newcomer, which is never executed, and leaves the command it has
    executed in the queue, the next to be executed if no other is as old. *)
Theorem command_lost (s : storage) (key : string) (q : list CommandInfo) (c d : CommandInfo) :
  stateChangeQueueMap s !! key = Some (q, Executing c) -> pq_top q = Some c -> timestamp d < timestamp c ->
  exists s' q', finish key (push_command key d s) = Some s' /\ executed s' = (executed s ++ [c])%list /\
    stateChangeQueueMap s' = <[key := (q', Waiting)]> (stateChangeQueueMap s) /\ q' ≡ₚ q /\
    ((forall x, x ∈ q -> timestamp x = timestamp c -> x = c) ->
     take_top key s' = Some (mkStorage (<[key := (q', Executing c)]> (stateChangeQueueMap s)) (executed s'))).
Proof.
  intros K T L. unfold finish, push_command. rewrite K. cbn. rewrite lookup_insert_eq.
  pose proof (transitivity (symmetry (push_perm d q)) (top_pop _ _ (push_oldest _ _ _ T L))) as P. apply Permutation_cons_inv in P. symmetry in P.
  do 2 eexists. split; [reflexivity|]. split; [reflexivity|]. cbn. split; [apply insert_insert_eq|]. split; [exact P|].
  intros U. unfold take_top. cbn. rewrite lookup_insert_eq, (top_same c _ q P T U). f_equal. f_equal. now rewrite !insert_insert_eq.
Qed.

End Queue.

(** ** An implementation of the interface: a list searched for its oldest element *)

Section Oldest.
Context {A : Type} (time : A -> Z).

(** The oldest element of a list, the first of several, and the others. *)
Fixpoint oldest (c : A) (q : list A) : A * list A :=
  match q with
  | [] => (c, [])
  | d :: q => let '(m, r) := oldest d q in if time m <? time c then (m, c :: r) else (c, m :: r)
  end.

Lemma oldest_spec (q : list A) (c : A) :
  c :: q ≡ₚ (oldest c q).1 :: (oldest c q).2 /\ Forall (fun d => (time d <? time (oldest c q).1) = false) (c :: q).
Proof.
  revert c. induction q as [|d q IH]; intros c.
  { split; [reflexivity|]. constructor; [apply Z.ltb_irrefl | constructor]. }
  cbn [oldest]. destruct (IH d) as [P F]. destruct (oldest d q) as [m r]. cbn [fst snd] in *.
  destruct (time m <? time c) eqn:L; cbn [fst snd]; (split; [rewrite P; first [reflexivity | apply Permutation_swap]|]).
  - constructor; [apply Z.ltb_ge; apply Z.ltb_lt in L; lia | exact F].
  - constructor; [apply Z.ltb_irrefl|]. eapply Forall_impl; [exact F|]. cbn. intros x Hx. apply Z.ltb_ge in L, Hx. apply Z.ltb_ge. lia.
Qed.

Definition list_queue : PriorityQueue A (fun a b => time b <? time a).
Proof.
  refine {| pq_push := cons;
    pq_top q := match q with [] => None | c :: q => Some (oldest c q).1 end;
    pq_pop q := match q with [] => [] | c :: q => (oldest c q).2 end |}.
  - reflexivity.
  - now intros [|c q].
  - intros c [|d q] E; [discriminate|]. injection E as <-. apply oldest_spec.
  - intros c [|d q] E; [discriminate|]. injection E as <-. apply oldest_spec.
Defined.
End Oldest.

Definition command_queue : PriorityQueue CommandInfo OrderByTimeStamp := list_queue timestamp.

(** ** Witnesses *)

Definition at_time (tm : Z) : CommandInfo := mkCommand ∅ tm ["1"; "x"].

Lemma commands_once_witness :
  exists s, rtc (queue_step (H0 := command_queue) true) ([], mkStorage ∅ []) ([at_time 2; at_time 1], s) /\
    executed s = [at_time 1] /\ (executed s ++ queued s)%list ≡ₚ [at_time 2; at_time 1].
Proof.
  eassert (R : rtc (queue_step (H0 := command_queue) true) ([], mkStorage ∅ []) ([at_time 2; at_time 1], _)).
  { eapply rtc_l; [apply step_push with (key := "k") (c := at_time 2); reflexivity|].
    eapply rtc_l; [apply step_push with (key := "k") (c := at_time 1); reflexivity|].
    eapply rtc_l; [apply step_take with (key := "k"); reflexivity|].
    eapply rtc_l; [apply step_finish with (key := "k"); reflexivity|]. apply rtc_refl. }
  eexists. split; [exact R|]. split; [reflexivity|]. exact (commands_once (H0 := command_queue) _ _ R).
Defined.

Lemma command_lost_witness :
  let s := mkStorage {[ "k" := ([at_time 2], Executing (at_time 2)) ]} [] in
  exists s' q', finish (H0 := command_queue) "k" (push_command (H0 := command_queue) "k" (at_time 1) s) = Some s' /\
    executed s' = [at_time 2] /\ stateChangeQueueMap s' !! "k" = Some (q', Waiting) /\ q' = [at_time 2].
Proof.
  destruct (command_lost (H0 := command_queue) (mkStorage {[ "k" := ([at_time 2], Executing (at_time 2)) ]} []) "k" [at_time 2] (at_time 2) (at_time 1))
    as (s' & q' & E & X & M & P & _); [reflexivity | reflexivity | reflexivity |].
  exists s', q'. split; [exact E|]. split; [exact X|]. split; [rewrite M; reflexivity|]. now apply Permutation_singleton_r in P.
Defined.
