(* ===== verification/Store.v ===== *)
(** * Writing documents

    What the storage node writes (src/StorageNode/StorageNode.cpp): functions, templates and documents,
    as objects of IPFS linked into trees, with the hashes of the roots in the DHT; and the blocks it
    commits. An object of IPFS is named by the hash of its contents, so writing is a function from
    contents to hashes ([Merkle]); the state of the node is its part of the network, the values it has
    put in the DHT, and the queue of blocks. Fresh identifiers ([getGUID(36)]) are arguments. *)

From Stdlib Require Import ZArith Lia List Bool Ascii String.
From stdpp Require Import base gmap strings list.
From S2P Require Import Prelude.
From S2P Require Import Machine.
From S2P Require Import Cpp.
From S2P Require Import Json.
From S2P Require Import Wire.
From S2P Require Import Node.
From S2P Require Import Query.
From S2P Require Import Queue.

Local Open Scope Z_scope.

(** ** The services a storage node writes to *)

Definition names `{Ipfs} (h : string) : list string := map fst (object_links h).

(** The calls of src/shared/ipfs/client.h that make objects; [None] is the exception of the client.
    [ObjectPut] stores data with links, the two patches clone an object with one link more or
    less; what they do to links of the same name is not documented. *)
Class Merkle := {
  #[global] merkle_ipfs :: Ipfs;
  object_put : string -> list (string * string) -> option string;
  patch_add_link : string -> string -> string -> option string;
  patch_rm_link : string -> string -> option string;
  put_object : forall d ls h, object_put d ls = Some h -> h <> "" /\ object_data h = d /\ object_links h ≡ₚ ls;
  add_link : forall h n t h', patch_add_link h n t = Some h' -> h' <> "" /\ object_data h' = object_data h /\
    (n ∉ names h -> object_links h' ≡ₚ (n, t) :: object_links h);
  rm_link : forall h n h', patch_rm_link h n = Some h' -> h' <> "" /\ object_data h' = object_data h /\
    (NoDup (names h) -> object_links h' ≡ₚ List.filter (fun p => negb (String.eqb p.1 n)) (object_links h))
}.

(** A key of the DHT collects the values put under it; in which order a reader gets them is not
    documented. *)
Class Dht := {
  dht_values : list string -> list string;
  dht_values_perm : forall l, dht_values l ≡ₚ l
}.

(** The order in which a [std::unordered_map] is iterated. *)
Class UnorderedMap := {
  iterate : gmap string string -> list (string * string);
  iterate_perm : forall m, iterate m ≡ₚ map_to_list m
}.

(** ** State *)

(** [OrderByBlockNumber], and the pairs of the queue [blocksToCommit]. *)
Definition OrderByBlockNumber (a b : Z * string) : bool := b.1 <? a.1.

Record storage_node := mkStorageNode {
  net : node;
  values : gmap string (list string);
  blocksToCommit : list (Z * string)
}.

Definition set_net (n : node) (s : storage_node) : storage_node := mkStorageNode n (values s) (blocksToCommit s).
Definition set_values (v : gmap string (list string)) (s : storage_node) : storage_node :=
  mkStorageNode (net s) v (blocksToCommit s).
Definition set_blocksToCommit (q : list (Z * string)) (s : storage_node) : storage_node :=
  mkStorageNode (net s) (values s) q.

(** An operation of the node inside the storage node. *)
Definition on_net {A} (m : M node A) : M storage_node A :=
  fun s => let '(n, r) := m (net s) in (set_net n s, r).

(** [try m catch (std::exception) h]: undefined behaviour is not caught. *)
Definition catch {S A} (m : M S A) (h : M S A) : M S A :=
  fun s => match m s with
    | (s', Throw undefined) => (s', Throw undefined)
    | (s', Throw _) => h s'
    | r => r
    end.

Definition MSG_FUNCTION_NOT_FOUND : string := "No function found for the given Id".
Definition MSG_DOCUMENT_ROOT_NOT_FOUND : string := "No Entity found for the given document to operate".
Definition MSG_DOCUMENT_NOT_FOUND : string := "No document found for the given id".
Definition MSG_DOCUMENT_UPDATE : string := "Documents are updated successfully".
Definition MSG_DOCUMENT_DELETE : string := "Documents are deleted successfully".
Definition MSG_INVALID_OBJECT_ID : string := "Invalid Object Id".
Definition MSG_INVALID_DOCUMENT_STRUCTURE : string :=
  "Issue while parsing document body. Please ensure to pass the document in proper json format".

Section Store.
Context `{BoostStrings} `{JsonText} `{Services} `{StdSort} `{Merkle} `{Dht} `{UnorderedMap}.

(** ** The DHT *)

Definition dht_value (s : storage_node) (key : string) : string :=
  default "" (last (dht_values (default [] (values s !! key)))).

Definition dhtGet (key : string) : M storage_node string := gets (fun s => dht_value s key).

Definition dhtPut (key value : string) : M storage_node unit :=
  on_net (Node.dhtPut key value true);;
  modify (fun s => set_values (<[key := (default [] (values s !! key) ++ [value])%list]> (values s)) s).

(** ** IPFS *)

Definition ipfs (r : option string) : M storage_node string :=
  match r with Some h => mret h | None => throw runtime_error end.

Definition addObject (data : string) : string := default "" (object_put data []).

Definition addObjectAndLink (data child link : string) : M storage_node string :=
  ipfs (object_put data [(link, child)]).

Definition fetchObject (hash : string) : string := object_data hash.

(** ** Keys of the DHT *)

Definition root_key (tree : string) : string := "." +:+ tree.
Definition tree_key (tree tid : string) : string := tree +:+ ("_" +:+ tid).
Definition object_key (tree tid objectId : string) : string := tree +:+ ("_" +:+ (tid +:+ ("_" +:+ objectId))).
Definition entity_key (tid entityId : string) : string := ".data_" +:+ (tid +:+ ("_" +:+ entityId)).
Definition document_key (tid entityId documentId : string) : string :=
  "data_" +:+ (tid +:+ ("_" +:+ (entityId +:+ ("_" +:+ documentId)))).

(** ** Answers *)

(** [send]: to a client over its web socket, else to a node. *)
Definition answer (cmd : CommandType) (txid objectId val : string) : json :=
  object ((match cmd with exception => [("error", JStr val)] | _ => [("data", JStr val)] end ++
           (if String.eqb objectId "" then [] else [("id", JStr objectId)]) ++ [("txid", JStr txid)])%list).

Definition send (source channelId : string) (cmd : CommandType) (txid objectId val : string) : M storage_node unit :=
  if String.eqb source "1" then on_net (ws_send_json channelId (answer cmd txid objectId val))
  else on_net (gossip channelId cmd [("txid", txid); ("id", objectId); ("data", val)]).

Definition fetchTemplate (source channelId txid tid templateId : string) : M storage_node unit :=
  val ← dhtGet (object_key "template" tid templateId);
  send source channelId Wire.fetchTemplate txid templateId
    (if String.eqb val "" then MSG_TEMPLATE_NOT_FOUND else fetchObject val).

Definition fetchFunction (source channelId txid tid functionId hash : string) : M storage_node unit :=
  if negb (String.eqb hash "") then send source channelId Wire.fetchFunction txid functionId (fetchObject hash)
  else
    val ← dhtGet (object_key "function" tid functionId);
    send source channelId Wire.fetchFunction txid functionId
      (if String.eqb val "" then MSG_FUNCTION_NOT_FOUND else fetchObject val).

Definition findDocument (memory : Z) (source channelId txid tid entityId expression : string) : M storage_node unit :=
  s ← get;
  docs ← of_result (searchDocument memory (dht_value s) tid entityId expression);
  text ← of_result (dump docs);
  send source channelId Wire.fetchDocument txid entityId (match docs with JStr t => t | _ => text end).

(** ** Documents *)

Definition update_members (old : json) (new : list (string * json)) : result json :=
  foldl (fun r kv => j ← r; set_member j kv.1 kv.2) (Ok old) new.

Definition updateValues (oldObject newObject : string) : result string :=
  oldObj ← parse oldObject;
  newObj ← parse newObject;
  new ← members newObj;
  j ← update_members oldObj new;
  dump j.

(** The link to the document in a node below an index: the old one goes, the new one comes. *)
Definition relink (op documentId documentHash cNode : string) : M storage_node string :=
  cNode ← (if bool_decide (op ∈ ["update"; "delete"]) then ipfs (patch_rm_link cNode documentId) else mret cNode);
  if String.eqb op "delete" then mret cNode else ipfs (patch_add_link cNode documentId documentHash).

(** One index of an entity: the document goes below the node of its value, and the nodes above get new
    hashes, up to the root of the entity, which is returned. *)
Definition update_index (op tid entityId documentId documentHash entityRoot index bNode value : string) :
    M storage_node string :=
  let b_c := getUnorderedEdgeNamesOf bNode in
  newBNode ←
    match (match b_c !! "__" with Some c => Some ("__", c) | None => pair value <$> b_c !! value end) with
    | Some (indexValue, cNode) =>
        cNode ← relink op documentId documentHash cNode;
        newBNode ← ipfs (patch_rm_link bNode indexValue);
        ipfs (patch_add_link newBNode indexValue cNode)
    | None =>
        cNode ← relink op documentId documentHash (addObject entityRoot);
        ipfs (patch_add_link bNode value cNode)
    end;
  entityRoot ← ipfs (patch_rm_link entityRoot index);
  entityRoot ← ipfs (patch_add_link entityRoot index newBNode);
  dhtPut (entity_key tid entityId) entityRoot;;
  mret entityRoot.

Fixpoint update_indexes (op tid entityId documentId documentHash entityRoot : string) (input : json)
    (indexes : list (string * string)) : M storage_node string :=
  match indexes with
  | [] => mret entityRoot
  | (index, bNode) :: indexes =>
      entityRoot ←
        match (match input with JObj m => member index m | _ => None end) with
        | Some target =>
            value ← of_result (get_string target);
            update_index op tid entityId documentId documentHash entityRoot index bNode value
        | None => mret entityRoot
        end;
      update_indexes op tid entityId documentId documentHash entityRoot input indexes
  end.

(** The text of a new document, with its identifier; an exception leaves the text as it was. *)
Definition identify (documentId documentJson : string) : result string :=
  j ← parse documentJson;
  j ← set_member j "id" (JStr documentId);
  dump j.

(** [op] is empty for a new document, whose identifier is [guid]. *)
Definition createOrDeleteDocument (source channelId txid tid entityId documentId documentJson op guid : string) :
    M storage_node unit :=
  entityRoot ← dhtGet (entity_key tid entityId);
  if String.eqb entityRoot "" then send source channelId exception txid documentId MSG_TEMPLATE_NOT_FOUND
  else
    let documentId := if String.eqb op "" then guid else documentId in
    documentJson ←
      (if String.eqb op "" then
         catch (of_result (identify documentId documentJson))
           (send source channelId exception txid "" MSG_INVALID_DOCUMENT_STRUCTURE;; mret documentJson)
       else mret documentJson);
    documentHash ←
      (if String.eqb op "delete" then dhtPut (document_key tid entityId documentId) "";; mret ""
       else
         dhtPut (document_key tid entityId documentId) (addObject documentJson);;
         when (String.eqb op "") (send source channelId stateChange txid documentId (addObject documentJson));;
         mret (addObject documentJson));
    let a_b := getUnorderedEdgeNamesOf entityRoot in
    input ← of_result (parse documentJson);
    update_indexes op tid entityId documentId documentHash entityRoot input (iterate a_b);;
    mret tt.

(** The loop over the documents found. *)
Fixpoint change_documents (source channelId txid tid entityId documentJson op : string) (docs : list json) :
    M storage_node unit :=
  match docs with
  | [] => mret tt
  | doc :: docs =>
      '(doc, id) ← of_result (at_mutable doc "id");
      docId ← of_result (get_string id);
      text ← of_result (dump doc);
      text ← (if String.eqb op "update" then of_result (updateValues text documentJson) else mret text);
      createOrDeleteDocument source channelId txid tid entityId docId text op "";;
      change_documents source channelId txid tid entityId documentJson op docs
  end.

Definition updateOrDeleteDocument (memory : Z) (source channelId txid tid entityId expression documentJson op : string) :
    M storage_node unit :=
  entityRoot ← dhtGet (entity_key tid entityId);
  if String.eqb entityRoot "" then send source channelId exception txid "" MSG_DOCUMENT_ROOT_NOT_FOUND
  else
    s ← get;
    docs ← of_result (searchDocument memory (dht_value s) tid entityId expression);
    if jempty docs then send source channelId exception txid "" MSG_DOCUMENT_NOT_FOUND
    else
      l ← of_result (elements docs);
      change_documents source channelId txid tid entityId documentJson op l;;
      send source channelId stateChange txid ""
        (if String.eqb op "update" then MSG_DOCUMENT_UPDATE else MSG_DOCUMENT_DELETE).

(** ** Functions and templates *)

Definition linkToRoot (tree objectId objectHash txid : string) : M storage_node unit :=
  when (negb (String.eqb txid "")) (dhtPut ("tx_" +:+ objectHash) txid);;
  rootHash ← dhtGet (root_key tree);
  rootHash ←
    (if String.eqb rootHash "" then addObjectAndLink tree objectHash objectId
     else ipfs (patch_add_link rootHash objectId objectHash));
  dhtPut (root_key tree) rootHash.

Definition unLinkToRoot (tree txid rootHash objectId : string) : M storage_node unit :=
  newRootHash ← ipfs (patch_rm_link rootHash objectId);
  dhtPut ("tx_" +:+ rootHash) txid;;
  dhtPut (root_key tree) newRootHash.

(** The empty tree of a new entity. *)
Definition create_entity (tid entityId : string) : M storage_node unit :=
  let dataRootHash := addObject (entity_key tid entityId) in
  let hashB := addObject "id" in
  let hashC := addObject "collection" in
  b_c ← ipfs (patch_add_link hashB "__" hashC);
  newDataRootHash ← ipfs (patch_add_link dataRootHash "id" b_c);
  dhtPut (entity_key tid entityId) newDataRootHash.

Definition addChildNode (source channelId txid tid tree object guid : string) : M storage_node unit :=
  let objectHash := addObject object in
  dhtPut (object_key tree tid guid) objectHash;;
  send source channelId stateChange txid guid objectHash;;
  linkToRoot (tree_key tree tid) guid objectHash txid;;
  when (String.eqb tree "template") (create_entity tid guid).

Definition updateChildNode (source tree channelId txid tid objectId object : string) : M storage_node unit :=
  rootHash ← dhtGet (root_key (tree_key tree tid));
  if String.eqb rootHash "" then send source channelId exception txid objectId MSG_INVALID_OBJECT_ID
  else
    existingObjectHash ← of_result (field (getUnorderedEdgeNamesOf rootHash) objectId);
    if String.eqb existingObjectHash "" then send source channelId exception txid objectId MSG_INVALID_OBJECT_ID
    else
      updatedObject ← of_result (updateValues (fetchObject existingObjectHash) object);
      let objectHash := addObject updatedObject in
      dhtPut (object_key tree tid objectId) objectHash;;
      send source channelId stateChange txid objectId objectHash;;
      linkToRoot (tree_key tree tid) objectId objectHash txid.

Definition deleteObject (source tree channelId txid tid objectId : string) : M storage_node unit :=
  dhtPut (object_key tree tid objectId) "";;
  send source channelId stateChange txid objectId "deleted successfully";;
  rootHash ← dhtGet (root_key (tree_key tree tid));
  unLinkToRoot (tree_key tree tid) txid rootHash objectId;;
  when (String.eqb tree "template") (dhtPut (entity_key tid objectId) "").

(** ** Commands *)

(** [command[i]]: no check of the index. *)
Definition argument (command : list string) (i : nat) : M storage_node string :=
  match command !! i with Some a => mret a | None => throw undefined end.

Definition base64_argument (command : list string) (i : nat) : M storage_node string :=
  a ← argument command i; mret (base64_decode a).

Definition run_command (memory : Z) (command : list string) (source channelId txid tid guid : string) : M storage_node unit :=
  number ← argument command 0;
  cmd ← of_result (stol number);
  match s8 cmd with
  | 1 => o ← base64_argument command 1; addChildNode source channelId txid tid "template" o guid
  | 2 => e ← argument command 1; d ← base64_argument command 2;
         createOrDeleteDocument source channelId txid tid e "" d "" guid
  | 3 => catch (o ← base64_argument command 1; addChildNode source channelId txid tid "function" o guid) (mret tt)
  | 4 => i ← argument command 1; o ← base64_argument command 2;
         updateChildNode source "template" channelId txid tid i o
  | 5 => e ← argument command 1; x ← argument command 2; d ← base64_argument command 3;
         updateOrDeleteDocument memory source channelId txid tid e x d "update"
  | 6 => i ← argument command 1; o ← base64_argument command 2;
         updateChildNode source "function" channelId txid tid i o
  | 7 => i ← argument command 1; deleteObject source "template" channelId txid tid i
  | 8 => e ← argument command 1; x ← argument command 2;
         updateOrDeleteDocument memory source channelId txid tid e x "" "delete"
  | 9 => i ← argument command 1; deleteObject source "function" channelId txid tid i
  | _ => mret tt
  end.

Definition executeStateChangeCommand (memory : Z) (command : list string) (source channelId txid tid guid : string) :
    M storage_node unit :=
  catch (run_command memory command source channelId txid tid guid) (mret tt).

(** ** Blocks *)

Definition addToTxTree (transaction : json) : M storage_node unit :=
  text ← of_result (dump transaction);
  let txHash := addObject text in
  txid ← of_result (member_of transaction "txid");
  tid ← of_result (member_of transaction "tid");
  dhtPut ("tx_" +:+ txid) txHash;;
  txRootHash ← dhtGet (".tx_" +:+ tid);
  let txRootHash := if String.eqb txRootHash "" then addObject (".tx_" +:+ tid) else txRootHash in
  newTxRootHash ← ipfs (patch_add_link txRootHash txid txHash);
  dhtPut ("tx_" +:+ newTxRootHash) txid;;
  dhtPut (".tx_" +:+ tid) newTxRootHash.

Fixpoint add_all (transactions : list json) : M storage_node unit :=
  match transactions with [] => mret tt | t :: l => addToTxTree t;; add_all l end.

Definition addTransactions (input : string) : M storage_node unit :=
  block ← of_result (parse input);
  '(block, data) ← of_result (at_mutable block "data");
  transactions ← of_result (elements data);
  add_all transactions;;
  '(block, number) ← of_result (at_mutable block "n");
  n ← of_result (get_int number);
  let blockId := to_string n in
  text ← of_result (dump block);
  let objectHash := addObject text in
  dhtPut ("block_" +:+ blockId) objectHash;;
  linkToRoot "block" blockId objectHash "";;
  '(_, v) ← of_result (at_mutable block "v");
  first ← of_result (at_index v 0);
  j ← of_result (set_member first "n" (JStr blockId));
  text ← of_result (dump j);
  on_net (gossip "master21" verifyBlock [("b", base64_encode text)]).

(** The handler of [closeBlock]; the exceptions are caught. *)
Definition handle_closeBlock `{PriorityQueue (Z * string) OrderByBlockNumber} (theFields : gmap string string) : M storage_node unit :=
  catch (
    b ← of_result (field theFields "b");
    block ← of_result (parse (base64_decode b));
    '(block, number) ← of_result (at_mutable block "n");
    n ← of_result (get_int number);
    k ← of_result (field theFields "key");
    si ← of_result (field theFields "si");
    block ← of_result (set_member block "v" (JArr [object [("k", JStr k); ("si", JStr si)]]));
    text ← of_result (dump block);
    modify (fun s => set_blocksToCommit (pq_push (i32 n, text) (blocksToCommit s)) s)) (mret tt).

(** A turn of [processBlocks]; an exception ends its thread, so nothing follows in the monad. *)
Definition processBlocks_turn `{PriorityQueue (Z * string) OrderByBlockNumber} : M storage_node unit :=
  s ← get;
  match pq_top (blocksToCommit s) with
  | None => mret tt
  | Some block =>
      addTransactions block.2;;
      modify (fun s => set_blocksToCommit (pq_pop (blocksToCommit s)) s)
  end.

(** The handler of [verifyBlock]: another storage node's proof joins the block. *)
Definition push_back (j x : json) : result json :=
  match j with
  | JArr l => Ok (JArr (l ++ [x])%list)
  | JNull => Ok (JArr [x])
  | _ => Throw type_error
  end.

Definition handle_verifyBlock (theFields : gmap string string) : M storage_node unit :=
  d ← of_result (field theFields "d");
  block ← of_result (parse (base64_decode d));
  blockId ← of_result (field theFields "b");
  hash ← dhtGet ("block_" +:+ blockId);
  object_json ← of_result (parse (fetchObject hash));
  '(object_json, v) ← of_result (at_mutable object_json "v");
  v ← of_result (push_back v block);
  object_json ← of_result (set_member object_json "v" v);
  text ← of_result (dump object_json);
  let objectHash := addObject text in
  dhtPut ("block_" +:+ blockId) objectHash;;
  linkToRoot "block" blockId objectHash "".

End Store.
