(* ===== verification/Documents.v ===== *)
(** * Entities

    What the writes of the storage node mean (file Store): the objects of an entity, from the root in
    the DHT over the index [id] and its collection to the documents, represent a map from identifiers
    to documents; creating, updating and deleting a document is insertion and deletion in that map,
    and what the queries of file Query read are its documents. What a command reads is whatever the DHT
    answers, what it leaves is described by the values put last; that a reader gets those is not
    assumed. Then the cases the code does not handle, a reader who gets an older value among them. *)

From Stdlib Require Import ZArith Lia List Bool Ascii String.
From stdpp Require Import base gmap strings list fin_maps.
From S2P Require Import Prelude.
From S2P Require Import Cpp.
From S2P Require Import Json.
From S2P Require Import Wire.
From S2P Require Import Node.
From S2P Require Import Expression.
From S2P Require Import Query.
From S2P Require Import Queue.
From S2P Require Import Store.
From S2P Require Import JsonText.

Local Open Scope Z_scope.

(** ** Links *)

Lemma unordered_links (l : list (string * string)) (m : gmap string string) (k v : string) : NoDup (map fst l) ->
  (forall n, n ∈ map fst l -> m !! n = None) ->
  foldl (fun m p => match m !! p.1 with Some _ => m | None => <[p.1 := p.2]> m end) m l !! k = Some v <->
  m !! k = Some v \/ (k, v) ∈ l.
Proof.
  revert m. induction l as [|[n t] l IH]; intros m Hd Hm; cbn [foldl].
  { rewrite elem_of_nil. tauto. }
  inversion Hd as [|? ? Hn Hd']; subst. cbn [fst snd] in *. rewrite (Hm n) by (apply elem_of_cons; now left).
  rewrite IH; [| exact Hd' |].
  - rewrite elem_of_cons, lookup_insert_Some. split.
    + intros [[[-> ->]|[_ E]]|E]; [right; now left | now left | right; now right].
    + intros [E|[[= -> ->]|E]]; [|left; now left | now right].
      left. right. split; [|exact E]. intros ->. rewrite Hm in E; [discriminate | apply elem_of_cons; now left].
  - intros n' Hn'. rewrite lookup_insert_ne; [apply Hm, elem_of_cons; now right|]. now intros ->.
Qed.

Lemma insert_edge_perm (k v : string) (m : list (string * string)) : k ∉ map fst m -> insert_edge k v m ≡ₚ (k, v) :: m.
Proof.
  induction m as [|[k' v'] m IH]; intros Hk; [reflexivity|]. cbn [insert_edge map fst] in *. apply not_elem_of_cons in Hk as [N Hk].
  destruct (String.compare k k') eqn:C.
  - apply String.compare_eq_iff in C. congruence.
  - reflexivity.
  - rewrite IH by exact Hk. apply Permutation_swap.
Qed.

Lemma ordered_links (l m : list (string * string)) : NoDup (map fst l) -> (forall n, n ∈ map fst l -> n ∉ map fst m) ->
  foldl (fun m p => insert_edge p.1 p.2 m) m l ≡ₚ (m ++ l)%list.
Proof.
  revert m. induction l as [|[n t] l IH]; intros m Hd Hm; cbn [foldl]; [now rewrite app_nil_r|].
  inversion Hd as [|? ? Hn Hd']; subst. cbn [fst snd] in *.
  pose proof (insert_edge_perm n t m ltac:(apply Hm, elem_of_cons; now left)) as P.
  rewrite IH; [rewrite P; cbn; now rewrite Permutation_middle | exact Hd' |].
  intros n' Hn'. rewrite P. cbn. apply not_elem_of_cons. split; [now intros ->|]. apply Hm, elem_of_cons. now right.
Qed.

(** An edge by its name, when names are distinct. *)
Lemma edge_spec (m : list (string * string)) (k v : string) : NoDup (map fst m) -> edge m k = Some v <-> (k, v) ∈ m.
Proof.
  unfold edge. induction m as [|[k' v'] m IH]; intros Hd; cbn [List.find].
  { rewrite elem_of_nil. easy. }
  inversion Hd as [|? ? Hn Hd']; subst. cbn [fst] in *. rewrite elem_of_cons. destruct (String.eqb_spec k' k) as [->|N].
  - cbn. split; [intros [= ->]; now left|]. intros [[= ->]|E]; [reflexivity|]. exfalso. apply Hn. apply list_elem_of_fmap. now exists (k, v).
  - rewrite IH by exact Hd'. split; [now right|]. intros [[= -> _]|E]; [congruence | exact E].
Qed.

Section Links.
Context `{Ipfs}.

Lemma unordered_spec (h k v : string) : NoDup (names h) -> getUnorderedEdgeNamesOf h !! k = Some v <-> (k, v) ∈ object_links h.
Proof.
  intros Hd. unfold getUnorderedEdgeNamesOf. rewrite unordered_links by (exact Hd || (intros; apply lookup_empty)).
  rewrite lookup_empty. split; [now intros [|] | now right].
Qed.

Lemma ordered_perm (h : string) : NoDup (names h) -> getOrderedEdgeNamesOf h ≡ₚ object_links h.
Proof. intros Hd. unfold getOrderedEdgeNamesOf. apply (ordered_links _ []); [exact Hd | intros; apply not_elem_of_nil]. Qed.

Lemma ordered_spec (h k v : string) : NoDup (names h) -> edge (getOrderedEdgeNamesOf h) k = Some v <-> (k, v) ∈ object_links h.
Proof.
  intros Hd. pose proof (ordered_perm h Hd) as P. rewrite edge_spec; [now rewrite P|]. unfold names in Hd. now rewrite P.
Qed.

(** A node with one link. *)
Lemma single_link (h n t : string) : object_links h = [(n, t)] ->
  getUnorderedEdgeNamesOf h = {[n := t]} /\ getOrderedEdgeNamesOf h = [(n, t)].
Proof. intros E. unfold getUnorderedEdgeNamesOf, getOrderedEdgeNamesOf. rewrite E. cbn. now rewrite lookup_empty. Qed.
End Links.

(** Unfolds the operations of the monad. *)
Ltac run := cbv [mbind M_bind mret M_ret ipfs of_result throw modify get gets when catch]; cbn.

(** The trees of objects. *)
Definition object_tree (tree : string) : Prop := tree = "template" \/ tree = "function".

Ltac tree_cases := repeat match goal with H : object_tree _ |- _ => destruct H as [->| ->] end.

(** ** The server answers *)

(** A reachable IPFS server: what it has stored can be patched. *)
Class Online `{Merkle} := {
  stored : string -> Prop;
  online_put : forall d ls, exists h, object_put d ls = Some h /\ stored h;
  online_add : forall h n t, stored h -> n ∉ names h -> exists h', patch_add_link h n t = Some h' /\ stored h';
  online_rm : forall h n, stored h -> n ∈ names h -> exists h', patch_rm_link h n = Some h' /\ stored h'
}.

(** The state after [dhtPut]. *)
Definition put_value (key value : string) (s : storage_node) : storage_node :=
  set_values (<[key := (default [] (values s !! key) ++ [value])%list]> (values s))
    (set_net (set_out (out (net s) ++ [DhtPut key value true])%list (net s)) s).

Section Entity.
Context `{BoostStrings} `{JsonText} `{Services} `{StdSort} `{Merkle} `{Dht} `{UnorderedMap} `{!Online}.

(** ** What was put and what is read *)

(** The value put last under a key. A reader need not get it: the order in which the DHT lists the
    values of a key is not documented. *)
Definition last_put (s : storage_node) (key : string) : string := default "" (last (default [] (values s !! key))).

(** Readers get, of every key, the value put last. *)
Definition settled (s : storage_node) : Prop := forall key, dht_value s key = last_put s key.

(** Nothing was put under a key. *)
Definition kept (s s' : storage_node) (key : string) : Prop := values s' !! key = values s !! key.

Lemma kept_value (s s' : storage_node) (key : string) : kept s s' key -> dht_value s' key = dht_value s key.
Proof. unfold kept, dht_value. now intros ->. Qed.

Lemma kept_put (s s' : storage_node) (key : string) : kept s s' key -> last_put s' key = last_put s key.
Proof. unfold kept, last_put. now intros ->. Qed.

Lemma kept_trans (s1 s2 s3 : storage_node) (key : string) : kept s1 s2 key -> kept s2 s3 key -> kept s1 s3 key.
Proof. unfold kept. congruence. Qed.

Lemma dhtPut_run (key value : string) (s : storage_node) : dhtPut key value s = (put_value key value s, Ok tt).
Proof. reflexivity. Qed.

Lemma put_kept (key value k : string) (s : storage_node) : key <> k -> kept s (put_value key value s) k.
Proof. intros N. unfold kept, put_value. cbn [values set_values]. now rewrite lookup_insert_ne. Qed.

Lemma put_last (key value : string) (s : storage_node) : last_put (put_value key value s) key = value.
Proof. unfold last_put, put_value. cbn [values set_values]. rewrite lookup_insert_eq. cbn [from_option id]. unfold id. now rewrite last_snoc. Qed.

Lemma put_other (key value k : string) (s : storage_node) : key <> k ->
  dht_value (put_value key value s) k = dht_value s k /\ last_put (put_value key value s) k = last_put s k.
Proof. intros N. pose proof (put_kept key value k s N) as K. split; [exact (kept_value _ _ _ K) | exact (kept_put _ _ _ K)]. Qed.

Lemma value_net (n : node) (s : storage_node) (k : string) : dht_value (set_net n s) k = dht_value s k.
Proof. reflexivity. Qed.

Lemma last_net (n : node) (s : storage_node) (k : string) : last_put (set_net n s) k = last_put s k.
Proof. reflexivity. Qed.

Lemma addObject_stored (data : string) : stored (addObject data) /\ addObject data <> "" /\
  object_data (addObject data) = data /\ object_links (addObject data) = [].
Proof.
  unfold addObject. destruct (online_put data []) as (h & E & Sh). rewrite E. cbn.
  destruct (put_object _ _ _ E) as (N & D & L). now apply Permutation_nil_r in L.
Qed.

(** ** Representation *)

(** The links of a collection name the documents of a map, whose members [id] are their names. *)
Record collection (c : string) (docs : gmap string json) : Prop := {
  collection_names : NoDup (names c);
  collection_docs : forall k d, docs !! k = Some d <-> exists h, (k, h) ∈ object_links c /\ parse (object_data h) = Ok d;
  collection_complete : forall k h, (k, h) ∈ object_links c -> k ∈ dom docs
}.

Record entity (root b c : string) (docs : gmap string json) : Prop := {
  entity_root : root <> "";
  entity_stored : stored root /\ stored b /\ stored c;
  entity_index : object_links root = [("id", b)];
  entity_b : object_links b = [("__", c)];
  entity_c : collection c docs
}.

(** The tree below a root stands for a map of documents. *)
Definition describes (root : string) (docs : gmap string json) : Prop := exists b c, entity root b c docs.

(** What a reader finds in an entity, and what was written last. *)
Definition represents (s : storage_node) (tid entityId : string) (docs : gmap string json) : Prop :=
  describes (dht_value s (entity_key tid entityId)) docs.
Definition written (s : storage_node) (tid entityId : string) (docs : gmap string json) : Prop :=
  describes (last_put s (entity_key tid entityId)) docs.

(** A document of the map: it is a value, with its identifier. *)
Definition document (k : string) (d : json) : Prop :=
  wf d = true /\ member_of d "id" = Ok k /\ exists text, dump d = Ok text.

(** What an operation does to the map. *)
Definition changed (op k : string) (d : json) (docs : gmap string json) : gmap string json :=
  if String.eqb op "delete" then delete k docs else <[k := d]> docs.

(** Adding or replacing a link. *)
Definition link_ready (op k c : string) : Prop := if String.eqb op "" then k ∉ names c else k ∈ names c.

Lemma rm_single (h n t : string) : stored h -> object_links h = [(n, t)] ->
  exists h', patch_rm_link h n = Some h' /\ stored h' /\ object_links h' = [].
Proof.
  intros Sh L. destruct (online_rm h n Sh) as (h' & E & Sh'); [unfold names; rewrite L; apply elem_of_cons; now left|].
  exists h'. split; [exact E|]. split; [exact Sh'|]. destruct (rm_link _ _ _ E) as (_ & _ & P).
  specialize (P ltac:(unfold names; rewrite L; apply NoDup_singleton)). rewrite L in P. cbn in P.
  rewrite String.eqb_refl in P. now apply Permutation_nil_r in P.
Qed.

Lemma add_single (h n t : string) : stored h -> object_links h = [] ->
  exists h', patch_add_link h n t = Some h' /\ stored h' /\ h' <> "" /\ object_links h' = [(n, t)].
Proof.
  intros Sh L. assert (Hn : n ∉ names h) by (unfold names; rewrite L; apply not_elem_of_nil).
  destruct (online_add h n t Sh Hn) as (h' & E & Sh'). exists h'. destruct (add_link _ _ _ _ E) as (N & _ & P).
  specialize (P Hn). rewrite L in P. apply Permutation_singleton_r in P. auto.
Qed.

(** The link of a node replaced: removed and added again. *)
Lemma replace_single (h n t t' : string) : stored h -> object_links h = [(n, t)] ->
  exists h1 h2, patch_rm_link h n = Some h1 /\ patch_add_link h1 n t' = Some h2 /\ stored h2 /\ h2 <> "" /\
    object_links h2 = [(n, t')].
Proof.
  intros Sh L. destruct (rm_single h n t Sh L) as (h1 & E1 & S1 & L1).
  destruct (add_single h1 n t' S1 L1) as (h2 & E2 & S2 & N2 & L2). exists h1, h2. auto.
Qed.

(** ** The operations *)

Definition operation (op : string) : Prop := op = "" \/ op = "update" \/ op = "delete".

(** The other links of a node. *)
Definition others (k : string) (l : list (string * string)) : list (string * string) :=
  List.filter (fun p => negb (String.eqb p.1 k)) l.

Lemma others_spec (k : string) (l : list (string * string)) (p : string * string) : p ∈ others k l <-> p ∈ l /\ p.1 <> k.
Proof.
  unfold others. rewrite list_elem_of_In, filter_In, <- list_elem_of_In.
  destruct (String.eqb_spec p.1 k); cbn; intuition congruence.
Qed.

Lemma others_fresh (k : string) (l : list (string * string)) : k ∉ map fst l -> others k l = l.
Proof.
  intros Hk. unfold others. induction l as [|[n t] l IH]; [reflexivity|]. cbn in *. apply not_elem_of_cons in Hk as [N Hk].
  rewrite (proj2 (String.eqb_neq n k)) by congruence. cbn. now rewrite IH.
Qed.

Lemma others_names (k : string) (l : list (string * string)) : NoDup (map fst l) -> NoDup (map fst (others k l)) /\ k ∉ map fst (others k l).
Proof.
  intros Hd. split.
  - induction l as [|[n t] l IH]; [constructor|]. inversion Hd as [|? ? Hn Hd']; subst. cbn.
    destruct (String.eqb n k); cbn; [auto|]. constructor; [|auto]. intros F. apply Hn.
    apply list_elem_of_fmap in F as ([n' t'] & -> & F). apply others_spec in F as [F _]. apply list_elem_of_fmap. now exists (n', t').
  - intros F. apply list_elem_of_fmap in F as (p & -> & F). now apply others_spec in F as [_ F].
Qed.

(** The links of the collection after an operation. *)
Definition relinked (op k hash : string) (l : list (string * string)) : list (string * string) :=
  ((if String.eqb op "delete" then [] else [(k, hash)]) ++ others k l)%list.

Lemma relink_run (op k hash c : string) (s : storage_node) : operation op -> stored c -> NoDup (names c) -> link_ready op k c ->
  exists c', relink op k hash c s = (s, Ok c') /\ stored c' /\ object_links c' ≡ₚ relinked op k hash (object_links c).
Proof.
  intros Hop Sc Hd Hr.
  assert (Hrm : k ∈ names c -> exists c1, patch_rm_link c k = Some c1 /\ stored c1 /\ object_links c1 ≡ₚ others k (object_links c)).
  { intros Hk. destruct (online_rm c k Sc Hk) as (c1 & E & S1). exists c1. split; [exact E|]. split; [exact S1|]. now apply (rm_link _ _ _ E). }
  destruct Hop as [->|[->| ->]]; cbn in Hr; unfold relink, relinked; cbn [String.eqb].
  - destruct (online_add c k hash Sc Hr) as (c' & E & S'). exists c'.
    change (bool_decide ("" ∈ ["update"; "delete"])) with false. run. rewrite E. split; [reflexivity|]. split; [exact S'|].
    rewrite others_fresh by exact Hr. now apply (add_link _ _ _ _ E).
  - destruct (Hrm Hr) as (c1 & E1 & S1 & P1). change (bool_decide ("update" ∈ ["update"; "delete"])) with true.
    assert (N1 : k ∉ names c1) by (unfold names; rewrite P1; now apply others_names).
    destruct (online_add c1 k hash S1 N1) as (c' & E & S'). exists c'.
    run. rewrite E1. run. rewrite E. split; [reflexivity|]. split; [exact S'|].
    destruct (add_link _ _ _ _ E) as (_ & _ & P). now rewrite (P N1), P1.
  - destruct (Hrm Hr) as (c1 & E1 & S1 & P1). exists c1. change (bool_decide ("delete" ∈ ["update"; "delete"])) with true.
    run. rewrite E1. auto.
Qed.

Lemma update_index_run (op tid e k hash value root b c : string) (docs : gmap string json) (s : storage_node) :
  operation op -> entity root b c docs -> link_ready op k c ->
  exists root' b' c', update_index op tid e k hash root "id" b value s = (put_value (entity_key tid e) root' s, Ok root') /\
    root' <> "" /\ stored root' /\ stored b' /\ stored c' /\
    object_links root' = [("id", b')] /\ object_links b' = [("__", c')] /\
    object_links c' ≡ₚ relinked op k hash (object_links c).
Proof.
  intros Hop E Hr. destruct (entity_stored _ _ _ _ E) as (Sr & Sb & Sc).
  destruct (relink_run op k hash c s Hop Sc (collection_names _ _ (entity_c _ _ _ _ E)) Hr) as (c' & Ec & Sc' & Pc).
  destruct (replace_single b "__" c c' Sb (entity_b _ _ _ _ E)) as (b1 & b' & Eb1 & Eb & Sb' & _ & Lb).
  destruct (replace_single root "id" b b' Sr (entity_index _ _ _ _ E)) as (r1 & r' & Er1 & Er & Sr' & Nr & Lr).
  exists r', b', c'. repeat split; try assumption.
  unfold update_index. rewrite (proj1 (single_link b "__" c (entity_b _ _ _ _ E))), lookup_singleton_eq.
  run. rewrite Ec, Eb1. run. rewrite Eb. run. rewrite Er1. run. now rewrite Er.
Qed.

Lemma collection_dom (c k : string) (docs : gmap string json) : collection c docs -> k ∈ names c <-> is_Some (docs !! k).
Proof.
  intros C. unfold names. rewrite list_elem_of_fmap. split.
  - intros ([k' h] & -> & Hin). apply elem_of_dom. exact (collection_complete _ _ C _ _ Hin).
  - intros [d Hd]. apply (collection_docs _ _ C) in Hd as (h & Hin & _). now exists (k, h).
Qed.

Lemma collection_changed (op k hash c c' : string) (d : json) (docs : gmap string json) :
  collection c docs -> (op <> "delete" -> parse (object_data hash) = Ok d) ->
  object_links c' ≡ₚ relinked op k hash (object_links c) -> collection c' (changed op k d docs).
Proof.
  intros C Hh P. destruct (others_names k _ (collection_names _ _ C)) as [On Ok'].
  unfold changed, relinked in *. destruct (String.eqb_spec op "delete") as [->|Hop].
  - cbn [app] in P. constructor.
    + unfold names. now rewrite P.
    + intros k' d'. setoid_rewrite P. setoid_rewrite others_spec. cbn.
      rewrite lookup_delete_Some, (collection_docs _ _ C). split.
      * intros (N & h & Hin & Hp). exists h. split; [split; [exact Hin | congruence] | exact Hp].
      * intros (h & [Hin N] & Hp). split; [congruence | eauto].
    + intros k' h Hin. rewrite P, others_spec in Hin. cbn in Hin. rewrite dom_delete, elem_of_difference, elem_of_singleton.
      split; [apply (collection_complete _ _ C _ _ (proj1 Hin)) | tauto].
  - specialize (Hh Hop). cbn [app] in P. constructor.
    + unfold names. rewrite P. cbn. now constructor.
    + intros k' d'. setoid_rewrite P. setoid_rewrite elem_of_cons. setoid_rewrite others_spec. cbn.
      rewrite lookup_insert_Some, (collection_docs _ _ C). split.
      * intros [[<- <-]|(N & h & Hin & Hp)]; [exists hash; auto | exists h; split; [right; split; [exact Hin | congruence] | exact Hp]].
      * intros (h & [[= -> ->]|[Hin N]] & Hp); [left; split; congruence | right; split; [congruence | eauto]].
    + intros k' h Hin. rewrite P, elem_of_cons, others_spec in Hin. rewrite dom_insert, elem_of_union, elem_of_singleton.
      destruct Hin as [[= -> ->]|[Hin _]]; [now left | right; exact (collection_complete _ _ C _ _ Hin)].
Qed.

Lemma iterate_single (n t : string) : iterate {[n := t]} = [(n, t)].
Proof. pose proof (iterate_perm {[n := t]}) as P. rewrite map_to_list_singleton in P. now apply Permutation_singleton_r in P. Qed.

Definition present (op k : string) (docs : gmap string json) : Prop :=
  if String.eqb op "" then docs !! k = None else is_Some (docs !! k).

Lemma present_link (op k c : string) (docs : gmap string json) : collection c docs -> present op k docs -> link_ready op k c.
Proof.
  unfold present, link_ready. intros C. pose proof (collection_dom c k docs C) as D. destruct (String.eqb op ""); [|tauto].
  intros Hn F. apply D in F as [d Hd]. congruence.
Qed.

(** The loop over the indexes of an entity, of which there is one. *)
Lemma update_indexes_run (op tid e k hash v root : string) (input d : json) (docs : gmap string json) (s : storage_node) :
  operation op -> describes root docs -> present op k docs -> member_of input "id" = Ok v ->
  (op <> "delete" -> parse (object_data hash) = Ok d) ->
  exists s' root', update_indexes op tid e k hash root input (iterate (getUnorderedEdgeNamesOf root)) s = (s', Ok root') /\
    written s' tid e (changed op k d docs) /\ (forall key, key <> entity_key tid e -> kept s s' key).
Proof.
  intros Hop (b & c & E) Hp Hi Hh.
  destruct (update_index_run op tid e k hash v root b c docs s Hop E (present_link _ _ _ _ (entity_c _ _ _ _ E) Hp))
    as (root' & b' & c' & R & N & Sr & Sb & Sc & Lr & Lb & Lc).
  exists (put_value (entity_key tid e) root' s), root'. split; [|split].
  - rewrite (proj1 (single_link root "id" b (entity_index _ _ _ _ E))), iterate_single. cbn [update_indexes].
    unfold member_of, at_mutable in Hi. destruct input; try discriminate. destruct (member "id" m) as [v0|]; [|discriminate].
    cbn in Hi. run. rewrite Hi. now rewrite R.
  - unfold written. rewrite put_last. exists b', c'. constructor; auto. apply (collection_changed op k hash c c' d docs); auto. apply E.
  - intros key Hk. apply put_kept. congruence.
Qed.

(** ** Answers *)

#[local] Arguments edge : simpl never.
#[local] Arguments searchDocument : simpl never.
#[local] Arguments createOrDeleteDocument : simpl never.
#[local] Arguments dhtPut : simpl never.
#[local] Arguments put_value : simpl never.
#[local] Arguments send : simpl never.
#[local] Arguments update_indexes : simpl never.

(** A command that another node relays is answered over the network. *)
Definition sent (channel : string) (cmd : CommandType) (txid id val : string) (s : storage_node) : storage_node :=
  set_net (set_out (out (net s) ++ [Gossip channel cmd [("txid", txid); ("id", id); ("data", val)]])%list (net s)) s.

Lemma send_sent (source channel txid id val : string) (cmd : CommandType) (s : storage_node) : source <> "1" ->
  send source channel cmd txid id val s = (sent channel cmd txid id val s, Ok tt).
Proof. intros N. unfold send. now rewrite (proj2 (String.eqb_neq source "1")) by exact N. Qed.

Lemma send_run (source channel txid id val : string) (cmd : CommandType) (s : storage_node) : source <> "1" ->
  exists n, send source channel cmd txid id val s = (set_net n s, Ok tt).
Proof. intros N. eexists. now apply send_sent. Qed.

Lemma entity_key_document (tid e tid' e' k : string) : entity_key tid e <> document_key tid' e' k.
Proof. discriminate. Qed.

Lemma represents_frame (s s' : storage_node) (tid e : string) (docs : gmap string json) :
  kept s s' (entity_key tid e) -> represents s tid e docs -> represents s' tid e docs.
Proof. intros K. unfold represents. now rewrite (kept_value _ _ _ K). Qed.

(** A reader who gets the root put last finds the documents written. *)
Lemma written_settled (s : storage_node) (tid e : string) (docs : gmap string json) :
  settled s -> written s tid e docs -> represents s tid e docs.
Proof. intros St. unfold represents. now rewrite St. Qed.

Lemma represents_root (s : storage_node) (tid e : string) (docs : gmap string json) :
  represents s tid e docs -> dht_value s (entity_key tid e) <> "".
Proof. intros (b & c & R). apply R. Qed.

(** What a command on an entity leaves alone: every key but those of the entity and its documents. *)
Definition frame (tid e : string) (s s' : storage_node) : Prop := forall key,
  key <> entity_key tid e -> (forall k, key <> document_key tid e k) -> kept s s' key.

Lemma frame_trans (tid e : string) (s s1 s2 : storage_node) : frame tid e s s1 -> frame tid e s1 s2 -> frame tid e s s2.
Proof. intros F1 F2 key N D. exact (kept_trans _ _ _ _ (F1 key N D) (F2 key N D)). Qed.

Lemma frame_document (tid e k v : string) (s : storage_node) : frame tid e s (put_value (document_key tid e k) v s).
Proof. intros key _ D. apply put_kept. intros <-. now apply (D k). Qed.

Lemma frame_entity (tid e : string) (s s' : storage_node) :
  (forall key, key <> entity_key tid e -> kept s s' key) -> frame tid e s s'.
Proof. intros F key N _. now apply F. Qed.

(** An update or deletion of one document. *)
Lemma change_run (op tid e k text v source channel txid : string) (d : json) (docs : gmap string json) (s : storage_node) :
  op = "update" \/ op = "delete" -> represents s tid e docs -> is_Some (docs !! k) -> parse text = Ok d -> member_of d "id" = Ok v ->
  exists s', createOrDeleteDocument source channel txid tid e k text op "" s = (s', Ok tt) /\
    written s' tid e (changed op k d docs) /\ frame tid e s s'.
Proof.
  intros Hop R Hk Hp Hv. unfold createOrDeleteDocument. pose proof (represents_root _ _ _ _ R) as N.
  assert (Hop' : operation op) by (unfold operation; tauto).
  assert (Hp' : present op k docs) by (destruct Hop as [->| ->]; exact Hk).
  assert (He : String.eqb op "" = false) by now destruct Hop as [->| ->].
  set (hash := if String.eqb op "delete" then "" else addObject text).
  set (s1 := put_value (document_key tid e k) hash s).
  destruct (update_indexes_run op tid e k hash v _ d d docs s1 Hop' R Hp' Hv) as (s' & root' & E & R' & F).
  { intros Nd. unfold hash. rewrite (proj2 (String.eqb_neq op "delete") Nd). now rewrite (proj1 (proj2 (proj2 (addObject_stored text)))). }
  exists s'. split; [|split; [exact R' | exact (frame_trans _ _ _ _ _ (frame_document tid e k hash s) (frame_entity _ _ _ _ F))]].
  unfold dhtGet. run. rewrite (proj2 (String.eqb_neq _ _) N), He. run.
  unfold s1, hash in E. destruct (String.eqb op "delete"); run; rewrite dhtPut_run; run; rewrite Hp; run; now rewrite E.
Qed.

(** A new document: the text is read, gets its identifier, and is written. *)
Lemma create_run (tid e guid text written_text source channel txid : string) (d : json) (docs : gmap string json) (s : storage_node) :
  source <> "1" -> represents s tid e docs -> docs !! guid = None ->
  identify guid text = Ok written_text -> parse written_text = Ok d -> member_of d "id" = Ok guid ->
  exists s', createOrDeleteDocument source channel txid tid e "" text "" guid s = (s', Ok tt) /\
    written s' tid e (<[guid := d]> docs) /\ frame tid e s s'.
Proof.
  intros Hsrc R Hk Hi Hp Hv. unfold createOrDeleteDocument. pose proof (represents_root _ _ _ _ R) as N.
  set (s1 := put_value (document_key tid e guid) (addObject written_text) s).
  destruct (send_run source channel txid guid (addObject written_text) stateChange s1 Hsrc) as (n & Es).
  destruct (update_indexes_run "" tid e guid (addObject written_text) guid _ d d docs (set_net n s1) (or_introl eq_refl) R Hk Hv) as (s' & root' & E & R' & F).
  { intros _. now rewrite (proj1 (proj2 (proj2 (addObject_stored written_text)))). }
  exists s'. split; [|split; [exact R' | exact (frame_trans _ _ _ _ _ (frame_document tid e guid (addObject written_text) s) (frame_entity _ _ _ _ F))]].
  unfold dhtGet. run. rewrite (proj2 (String.eqb_neq _ _) N), Hi. run. rewrite dhtPut_run. fold s1. run. rewrite Es. run.
  rewrite Hp. run. now rewrite E.
Qed.

(** ** Reading *)

Definition documents (docs : gmap string json) : Prop := forall k d, docs !! k = Some d -> document k d.

(** The filter that names a document. *)
Definition by_id (k : string) : string := show "" 0 (Compare "=" "id" k).

#[local] Arguments by_id : simpl never.

Lemma collection_edge (c k : string) (docs : gmap string json) : collection c docs ->
  match edge (getOrderedEdgeNamesOf c) k with
  | Some hash => exists d, docs !! k = Some d /\ fetchDocument hash = Ok d
  | None => docs !! k = None
  end.
Proof.
  intros C. pose proof (collection_names _ _ C) as Hd. destruct (edge (getOrderedEdgeNamesOf c) k) as [hash|] eqn:E.
  - apply ordered_spec in E; [|exact Hd]. pose proof (collection_complete _ _ C _ _ E) as D. apply elem_of_dom in D as [d D].
    exists d. split; [exact D|]. apply (collection_docs _ _ C) in D as (h & Hin & Hp).
    replace hash with h; [exact Hp|]. apply ordered_spec in E, Hin; congruence.
  - destruct (docs !! k) as [d|] eqn:D; [|reflexivity]. apply (collection_docs _ _ C) in D as (h & Hin & _).
    apply ordered_spec in Hin; congruence.
Qed.

Lemma search_by_id (memory : Z) (dht : string -> string) (tid e k : string) (docs : gmap string json) :
  describes (dht (entity_key tid e)) docs -> mem QUOTE k = false ->
  searchDocument memory dht tid e (by_id k) =
  Ok (match docs !! k with Some d => JArr [d] | None => JStr "" end).
Proof.
  intros (b & c & E) Hq.
  destruct (read_show "" (Compare "=" "id" k)) as (fields & P & _).
  { intros a Ha. discriminate. }
  { cbn [writable]. rewrite Hq. reflexivity. }
  unfold searchDocument. change (".data_" +:+ (tid +:+ ("_" +:+ e))) with (entity_key tid e).
  rewrite (proj2 (String.eqb_neq _ _) (entity_root _ _ _ _ E)). fold (by_id k) in P.
  destruct (getPostfixedExpressionOf (by_id k)) as [postfix|ex]; [|discriminate]. cbn in P |- *. rewrite P. cbn.
  rewrite (proj1 (single_link _ "id" b (entity_index _ _ _ _ E))).
  change (bool_decide ("=" ∈ comparisons)) with true. unfold compare_documents, by_index, index_at. run.
  rewrite !lookup_singleton_eq. cbn. rewrite (proj2 (single_link b "__" c (entity_b _ _ _ _ E))). cbn.
  change (default "" (edge [("__", c)] "__")) with c.
  pose proof (collection_edge c k docs (entity_c _ _ _ _ E)) as Hk. destruct (edge (getOrderedEdgeNamesOf c) k) as [hash|].
  - destruct Hk as (d & -> & ->). reflexivity.
  - now rewrite Hk.
Qed.

(** ** Updates *)

(** [updateValues] on objects: the members of the new one over those of the old. *)
Definition merge (old new : list (string * json)) : list (string * json) :=
  foldl (fun o kv => insert_member kv.1 kv.2 o) old new.

Lemma update_members_merge (old new : list (string * json)) : update_members (JObj old) new = Ok (JObj (merge old new)).
Proof. unfold update_members, merge. revert old. induction new as [|[k v] new IH]; intros old; [reflexivity|]. cbn. apply IH. Qed.

Lemma merge_wf (old new : list (string * json)) : wf (JObj old) = true -> forallb (fun kv => wf kv.2) new = true ->
  wf (JObj (merge old new)) = true.
Proof.
  unfold merge. revert old. induction new as [|[k v] new IH]; intros old Ho Hn; [exact Ho|].
  cbn in Hn. apply andb_prop in Hn as [Hv Hn]. cbn. apply IH; [now apply wf_insert | exact Hn].
Qed.

(** A member that the new object does not have stays. *)
Lemma merge_other (k : string) (old new : list (string * json)) : member k new = None -> member k (merge old new) = member k old.
Proof.
  unfold merge. revert old. induction new as [|[k' v] new IH]; intros old Hk; [reflexivity|]. cbn in Hk |- *.
  destruct (String.eqb k k') eqn:E; [discriminate|]. rewrite IH by exact Hk. rewrite member_insert. now rewrite E.
Qed.

(** A document is an object with its identifier. *)
Lemma document_object (k : string) (d : json) : document k d -> exists m, d = JObj m /\ member "id" m = Some (JStr k).
Proof.
  intros (_ & Hi & _). unfold member_of, at_mutable in Hi. destruct d; try discriminate. exists m. split; [reflexivity|].
  destruct (member "id" m) as [v|]; [|discriminate]. cbn in Hi. destruct v; try discriminate. injection Hi as ->. reflexivity.
Qed.

Lemma object_document (k : string) (m : list (string * json)) (text : string) :
  wf (JObj m) = true -> member "id" m = Some (JStr k) -> dump (JObj m) = Ok text -> document k (JObj m) /\ parse text = Ok (JObj m).
Proof.
  intros Hw Hi Ht. split; [split; [exact Hw|]; split; [|now exists text]|now apply parse_dump].
  unfold member_of, at_mutable. now rewrite Hi.
Qed.

(** What a command does to the documents of an entity. *)
Inductive updates (e guid : string) (docs : gmap string json) : list string -> gmap string json -> Prop :=
| adds text m written :
    parse (base64_decode text) = Ok (JObj m) -> wf (JObj m) = true -> docs !! guid = None ->
    dump (JObj (insert_member "id" (JStr guid) m)) = Ok written ->
    updates e guid docs ["2"; e; text] (<[guid := JObj (insert_member "id" (JStr guid) m)]> docs)
| changes k text old new written :
    docs !! k = Some (JObj old) -> mem QUOTE k = false -> parse (base64_decode text) = Ok (JObj new) -> wf (JObj new) = true ->
    member "id" new = None -> dump (JObj (merge old new)) = Ok written ->
    updates e guid docs ["5"; e; by_id k; text] (<[k := JObj (merge old new)]> docs)
| deletes k d :
    docs !! k = Some d -> mem QUOTE k = false -> updates e guid docs ["8"; e; by_id k] (delete k docs).

#[local] Arguments change_documents : simpl never.

(** The loop over one document. *)
Lemma change_one (op tid e k text written source channel txid : string) (d : json) (s s' : storage_node) :
  document k d -> (t ← dump d; if String.eqb op "update" then updateValues t text else Ok t) = Ok written ->
  createOrDeleteDocument source channel txid tid e k written op "" s = (s', Ok tt) ->
  change_documents source channel txid tid e text op [d] s = (s', Ok tt).
Proof.
  intros Hd Hw E. destruct (document_object _ _ Hd) as (m & -> & Hi). unfold change_documents. cbn [at_mutable]. rewrite Hi.
  run. destruct (dump (JObj m)) as [t|]; [|discriminate]. cbn in Hw.
  destruct (String.eqb op "update"); run; [rewrite Hw | injection Hw as ->]; now rewrite E.
Qed.

(** The command of a found document, before the last answer. *)
Lemma change_found (memory : Z) (op tid e k text written_text source channel txid : string) (d d' : json) (docs : gmap string json) (s : storage_node) :
  op = "update" \/ op = "delete" -> source <> "1" -> represents s tid e docs -> documents docs -> docs !! k = Some d -> mem QUOTE k = false ->
  (t ← dump d; if String.eqb op "update" then updateValues t text else Ok t) = Ok written_text -> parse written_text = Ok d' -> member_of d' "id" = Ok k ->
  exists s', updateOrDeleteDocument memory source channel txid tid e (by_id k) text op s = (s', Ok tt) /\
    written s' tid e (changed op k d' docs) /\ frame tid e s s'.
Proof.
  intros Hop Hsrc R Hdocs Hk Hq Hw Hp Hv. pose proof (represents_root _ _ _ _ R) as N.
  destruct (change_run op tid e k written_text k source channel txid d' docs s Hop R (mk_is_Some _ _ Hk) Hp Hv) as (s1 & E1 & R1 & F1).
  destruct (send_run source channel txid "" (if String.eqb op "update" then MSG_DOCUMENT_UPDATE else MSG_DOCUMENT_DELETE) stateChange s1 Hsrc) as (n & E2).
  exists (set_net n s1). split; [|split; [exact R1 | exact F1]].
  unfold updateOrDeleteDocument, dhtGet. run. rewrite (proj2 (String.eqb_neq _ _) N). run.
  rewrite (search_by_id memory (dht_value s) tid e k docs R Hq), Hk. change (jempty (JArr [d])) with false. run.
  rewrite (change_one op tid e k text written_text source channel txid d s s1 (Hdocs k d Hk) Hw E1). exact E2.
Qed.

(** ** Commands *)

#[local] Arguments updateOrDeleteDocument : simpl never.

Lemma execute_ok (memory : Z) (command : list string) (source channel txid tid guid : string) (s s' : storage_node) :
  run_command memory command source channel txid tid guid s = (s', Ok tt) ->
  executeStateChangeCommand memory command source channel txid tid guid s = (s', Ok tt).
Proof. unfold executeStateChangeCommand, catch. now intros ->. Qed.

Lemma documents_insert (k : string) (d : json) (docs : gmap string json) :
  documents docs -> document k d -> documents (<[k := d]> docs).
Proof. intros Hd Hk k' d'. rewrite lookup_insert_Some. intros [[<- <-]|[_ E]]; [exact Hk | exact (Hd _ _ E)]. Qed.

(** A command on documents, and what it leaves alone. *)
Lemma entity_step (memory : Z) (source channel txid tid e guid : string) (command : list string)
  (docs docs' : gmap string json) (s : storage_node) :
  represents s tid e docs -> documents docs -> updates e guid docs command docs' -> source <> "1" ->
  exists s', executeStateChangeCommand memory command source channel txid tid guid s = (s', Ok tt) /\
    written s' tid e docs' /\ documents docs' /\ frame tid e s s'.
Proof.
  intros R Hd Hu Hsrc. destruct Hu as [text m out_text Hp Hw Hk Ht|k text old new out_text Hk Hq Hp Hw Hi Ht|k d Hk Hq].
  - assert (Hi : member "id" (insert_member "id" (JStr guid) m) = Some (JStr guid)) by now rewrite member_insert.
    destruct (object_document guid _ out_text (wf_insert "id" (JStr guid) m eq_refl Hw) Hi Ht) as [Dg Pg].
    assert (Hii : identify guid (base64_decode text) = Ok out_text) by (unfold identify; rewrite Hp; exact Ht).
    destruct (create_run tid e guid (base64_decode text) out_text source channel txid _ docs s Hsrc R Hk Hii Pg (proj1 (proj2 Dg))) as (s' & E & R' & F).
    exists s'. split; [apply execute_ok; exact E | split; [exact R' | split; [now apply documents_insert | exact F]]].
  - destruct (document_object _ _ (Hd k _ Hk)) as (m & [= <-] & Ho).
    cbn in Hw. apply andb_prop in Hw as [Hs Hw'].
    assert (Hm : member "id" (merge old new) = Some (JStr k)) by now rewrite merge_other.
    destruct (object_document k _ out_text (merge_wf old new (proj1 (Hd k _ Hk)) Hw') Hm Ht) as [Dk Pk].
    destruct (Hd k _ Hk) as (Wo & _ & t & To).
    destruct (change_found memory "update" tid e k (base64_decode text) out_text source channel txid _ (JObj (merge old new)) docs s
      (or_introl eq_refl) Hsrc R Hd Hk Hq) as (s' & E & R' & F); [|exact Pk | apply Dk|].
    { rewrite To. cbn. unfold updateValues. rewrite (parse_dump _ _ Wo To). cbn. rewrite Hp. cbn. rewrite update_members_merge. exact Ht. }
    exists s'. split; [apply execute_ok; exact E | split; [exact R' | split; [now apply documents_insert | exact F]]].
  - destruct (Hd k d Hk) as (W & I & t & T).
    destruct (change_found memory "delete" tid e k "" t source channel txid d d docs s (or_intror eq_refl) Hsrc R Hd Hk Hq)
      as (s' & E & R' & F); [now rewrite T | now apply parse_dump | exact I |].
    exists s'. split; [apply execute_ok; exact E | split; [exact R' | split; [|exact F]]]. intros k' d'. rewrite lookup_delete_Some. intros [_ E']. exact (Hd _ _ E').
Qed.

(** C9: The commands on documents implement a map. When the IPFS server answers and another node relays
    the command, adding a document inserts it under its new identifier, updating (by the filter that
    names the identifier) lays the new members over those of the document, deleting (by that filter)
    removes it; every other document stays, every document keeps its identifier in its member [id],
    and only keys of this entity and its documents are written. What is written is a root that stands
    for the new map, put last under the entity's key: whoever gets that root from the DHT finds exactly
    the documents of the new map. That the DHT answers with the value put last is not assumed. *)
Theorem entity_refines (memory : Z) (source channel txid tid e guid : string) (command : list string)
  (docs docs' : gmap string json) (s : storage_node) :
  represents s tid e docs -> documents docs -> updates e guid docs command docs' -> source <> "1" ->
  exists s', executeStateChangeCommand memory command source channel txid tid guid s = (s', Ok tt) /\
    written s' tid e docs' /\ documents docs' /\ frame tid e s s' /\
    forall sight, sight (entity_key tid e) = last_put s' (entity_key tid e) ->
      forall k, mem QUOTE k = false -> searchDocument memory sight tid e (by_id k) =
        Ok (match docs' !! k with Some d => JArr [d] | None => JStr "" end).
Proof.
  intros R Hd Hu Hsrc. destruct (entity_step memory source channel txid tid e guid command docs docs' s R Hd Hu Hsrc)
    as (s' & E & R' & D & F). exists s'. repeat (split; [assumption|]).
  intros sight Hs k Hk. apply search_by_id; [now rewrite Hs | exact Hk].
Qed.

(** ** The documents of an entity *)

Lemma fetch_links (docs : gmap string json) (l : list (string * string)) :
  (forall k h, (k, h) ∈ l -> exists d, docs !! k = Some d /\ fetchDocument h = Ok d) ->
  fetch_all l = Ok (map (fun p => default JNull (docs !! p.1)) l).
Proof.
  induction l as [|[k h] l IH]; intros Hl; [reflexivity|]. cbn.
  destruct (Hl k h) as (d & -> & ->); [apply elem_of_cons; now left|]. cbn. rewrite IH; [reflexivity|].
  intros k' h' Hin. apply Hl, elem_of_cons. now right.
Qed.

Lemma links_documents (docs : gmap string json) (l : list (string * string)) : NoDup (map fst l) ->
  (forall k, k ∈ map fst l <-> is_Some (docs !! k)) ->
  map (fun p => default JNull (docs !! p.1)) l ≡ₚ (map_to_list docs).*2.
Proof.
  intros Hd Hl. transitivity (map snd (map (fun p => (p.1, default JNull (docs !! p.1))) l)); [now rewrite map_map|].
  apply (Permutation_map snd). apply NoDup_Permutation.
  - apply (NoDup_fmap_1 fst). change (NoDup (map fst (map (fun p => (p.1, default JNull (docs !! p.1))) l))). now rewrite map_map.
  - apply NoDup_map_to_list.
  - intros [k d]. rewrite elem_of_map_to_list, list_elem_of_fmap. split.
    + intros ([k' h] & [= -> ->] & Hin). cbn. destruct (proj1 (Hl k')) as [d Hd']; [apply list_elem_of_fmap; now exists (k', h)|].
      now rewrite Hd'.
    + intros E. destruct (proj1 (list_elem_of_fmap _ _ _) (proj2 (Hl k) (mk_is_Some _ _ E))) as (p & -> & Hin). exists p. split; [|exact Hin]. now rewrite E.
Qed.

(** C13: Queries read what the commands wrote: the default index of an entity lists the documents of its
    map, each once, and the filter that names an identifier answers its document, or the empty text
    when there is none. *)
Theorem documents_read (memory : Z) (s : storage_node) (tid e : string) (docs : gmap string json) :
  represents s tid e docs ->
  (exists l, (fetchDocumentsFromDefaultIndex (getUnorderedEdgeNamesOf (dht_value s (entity_key tid e)))).2 = Ok (JArr l) /\
     l ≡ₚ (map_to_list docs).*2) /\
  forall k, mem QUOTE k = false -> searchDocument memory (dht_value s) tid e (by_id k) =
    Ok (match docs !! k with Some d => JArr [d] | None => JStr "" end).
Proof.
  intros R. split; [|intros k; now apply search_by_id]. destruct R as (b & c & E). pose proof (entity_c _ _ _ _ E) as C.
  pose proof (ordered_perm c (collection_names _ _ C)) as P.
  exists (map (fun p => default JNull (docs !! p.1)) (getOrderedEdgeNamesOf c)). split.
  - unfold fetchDocumentsFromDefaultIndex, index_at. run. rewrite (proj1 (single_link _ "id" b (entity_index _ _ _ _ E))).
    rewrite lookup_singleton_eq. cbn. rewrite (proj2 (single_link b "__" c (entity_b _ _ _ _ E))).
    change (default "" (edge [("__", c)] "__")) with c. rewrite (fetch_links docs); [reflexivity|].
    intros k h Hin. pose proof Hin as Hin'. rewrite P in Hin'. pose proof (collection_edge c k docs C) as K.
    rewrite (proj2 (ordered_spec c k h (collection_names _ _ C)) Hin') in K. exact K.
  - apply links_documents; [|intros k]; rewrite P; [exact (collection_names _ _ C) | exact (collection_dom c k docs C)].
Qed.

(** ** A new entity *)

Lemma collection_empty (c : string) : object_links c = [] -> collection c ∅.
Proof.
  intros L. constructor; unfold names; rewrite L; [constructor | | intros k h F; now apply elem_of_nil in F].
  intros k d. rewrite lookup_empty. split; [discriminate|]. intros (h & F & _). now apply elem_of_nil in F.
Qed.

Lemma create_entity_run (tid e : string) (s : storage_node) :
  exists root, create_entity tid e s = (put_value (entity_key tid e) root s, Ok tt) /\ describes root ∅.
Proof.
  destruct (addObject_stored (entity_key tid e)) as (Sa & _ & _ & La). destruct (addObject_stored "id") as (Sb & _ & _ & Lb).
  destruct (addObject_stored "collection") as (Sc & _ & _ & Lc).
  destruct (add_single _ "__" (addObject "collection") Sb Lb) as (b & Eb & Sb' & _ & Lb').
  destruct (add_single _ "id" b Sa La) as (root & Er & Sr & Nr & Lr). exists root. split.
  - unfold create_entity. run. rewrite Eb. run. now rewrite Er.
  - exists b, (addObject "collection"). constructor; auto. now apply collection_empty.
Qed.

(** A tree that takes one link more: it does not exist yet, or it does and has no link of that name. *)
Definition root_takes (root objectId : string) : Prop := root = "" \/ (stored root /\ objectId ∉ names root).
Definition takes (s : storage_node) (tree objectId : string) : Prop := root_takes (dht_value s (root_key tree)) objectId.

(** The links of a tree: none while it does not exist. *)
Definition root_links (root : string) : list (string * string) := if String.eqb root "" then [] else object_links root.
Definition tree_links (s : storage_node) (tree : string) : list (string * string) := root_links (dht_value s (root_key tree)).

Lemma linkToRoot_full (tree objectId objectHash txid : string) (s : storage_node) : takes s tree objectId ->
  exists root s', linkToRoot tree objectId objectHash txid s = (s', Ok tt) /\ root <> "" /\ stored root /\
    object_links root ≡ₚ (objectId, objectHash) :: tree_links s tree /\ last_put s' (root_key tree) = root /\
    forall k, k <> root_key tree -> k <> "tx_" +:+ objectHash -> kept s s' k.
Proof.
  intros T. set (s1 := if String.eqb txid "" then s else put_value ("tx_" +:+ objectHash) txid s).
  assert (E1 : when (negb (String.eqb txid "")) (dhtPut ("tx_" +:+ objectHash) txid) s = (s1, Ok tt))
    by (unfold s1; destruct (String.eqb txid ""); reflexivity).
  assert (V1 : forall k, k <> "tx_" +:+ objectHash -> kept s s1 k).
  { intros k N. unfold s1. destruct (String.eqb txid ""); [reflexivity|]. apply put_kept. congruence. }
  assert (Vr : dht_value s1 (root_key tree) = dht_value s (root_key tree)) by (apply kept_value, V1; discriminate).
  unfold takes, root_takes, tree_links, root_links in *. set (old := dht_value s (root_key tree)) in *.
  assert (exists root, (if String.eqb old "" then addObjectAndLink tree objectHash objectId else ipfs (patch_add_link old objectId objectHash)) s1
      = (s1, Ok root) /\ root <> "" /\ stored root /\
      object_links root ≡ₚ (objectId, objectHash) :: (if String.eqb old "" then [] else object_links old)) as (root & Er & N & S & L).
  { destruct (String.eqb_spec old "") as [E|E].
    - destruct (online_put tree [(objectId, objectHash)]) as (root & P & S). destruct (put_object _ _ _ P) as (N & _ & L).
      exists root. unfold addObjectAndLink. rewrite P. now repeat split.
    - destruct T as [T|[S Hn]]; [congruence|]. destruct (online_add old objectId objectHash S Hn) as (root & P & S').
      destruct (add_link _ _ _ _ P) as (N & _ & L). exists root. rewrite P. repeat split; auto. }
  exists root, (put_value (root_key tree) root s1). split; [|split; [exact N | split; [exact S | split; [exact L | split]]]].
  - unfold linkToRoot, dhtGet. cbv [mbind M_bind gets]. rewrite E1, Vr. fold old. rewrite Er. reflexivity.
  - apply put_last.
  - intros k Nk Nt. exact (kept_trans _ _ _ _ (V1 k Nt) (put_kept _ _ _ _ (not_eq_sym Nk))).
Qed.

(** A tree has got the given links, and the key of an object a value; of the other keys, only that of the
    entity of a template is written. *)
Record tree_change (tree tid id value : string) (links : list (string * string)) (s s' : storage_node) : Prop := {
  change_root : last_put s' (root_key (tree_key tree tid)) <> "" /\ stored (last_put s' (root_key (tree_key tree tid)));
  change_links : object_links (last_put s' (root_key (tree_key tree tid))) ≡ₚ links;
  change_object : last_put s' (object_key tree tid id) = value;
  change_frame : forall key, key <> root_key (tree_key tree tid) -> key <> object_key tree tid id ->
    (forall x, key <> "tx_" +:+ x) -> (tree = "template" -> key <> entity_key tid id) -> kept s s' key
}.

(** The object of a tree, announced: its key is written and a message sent. *)
Lemma announced (tree tid id value : string) (n : node) (s : storage_node) : object_tree tree ->
  let s1 := set_net n (put_value (object_key tree tid id) value s) in
  dht_value s1 (root_key (tree_key tree tid)) = dht_value s (root_key (tree_key tree tid)) /\
  last_put s1 (object_key tree tid id) = value /\
  forall key, key <> object_key tree tid id -> kept s s1 key.
Proof.
  intros Ht s1. unfold s1. rewrite value_net, last_net, put_last.
  split; [apply put_other; tree_cases; discriminate | split; [reflexivity|]].
  intros key N. apply (put_kept (object_key tree tid id) value key s). congruence.
Qed.

Lemma child_linked (source channel txid tid tree object guid : string) (s : storage_node) :
  object_tree tree -> source <> "1" -> takes s (tree_key tree tid) guid ->
  exists s', addChildNode source channel txid tid tree object guid s =
      when (String.eqb tree "template") (create_entity tid guid) s' /\
    tree_change tree tid guid (addObject object) ((guid, addObject object) :: tree_links s (tree_key tree tid)) s s'.
Proof.
  intros Ht Hsrc T. set (s1 := put_value (object_key tree tid guid) (addObject object) s).
  destruct (send_run source channel txid guid (addObject object) stateChange s1 Hsrc) as (n & E2).
  destruct (announced tree tid guid (addObject object) n s Ht) as (Vr & Vo & F1). fold s1 in Vr, Vo, F1.
  assert (T2 : takes (set_net n s1) (tree_key tree tid) guid) by (unfold takes; rewrite Vr; exact T).
  destruct (linkToRoot_full _ guid (addObject object) txid _ T2) as (root & s3 & E3 & N & S & L & V & F).
  exists s3. split; [|constructor].
  - unfold addChildNode. cbv [mbind M_bind]. rewrite dhtPut_run. fold s1. rewrite E2, E3. reflexivity.
  - rewrite V. now split.
  - rewrite V, L. unfold tree_links. now rewrite Vr.
  - rewrite (kept_put _ _ _ (F (object_key tree tid guid) ltac:(tree_cases; discriminate) ltac:(tree_cases; discriminate))). exact Vo.
  - intros key Nr No Nx _. exact (kept_trans _ _ _ _ (F1 key No) (F key Nr (Nx _))).
Qed.

Lemma child_unlinked (source channel txid tid tree id : string) (s : storage_node) :
  let root := dht_value s (root_key (tree_key tree tid)) in
  object_tree tree -> source <> "1" -> stored root -> NoDup (names root) -> id ∈ names root ->
  exists s', deleteObject source tree channel txid tid id s =
      when (String.eqb tree "template") (dhtPut (entity_key tid id) "") s' /\
    tree_change tree tid id "" (List.filter (fun p => negb (String.eqb p.1 id)) (object_links root)) s s'.
Proof.
  intros root Ht Hsrc St Hd Hin. set (s1 := put_value (object_key tree tid id) "" s).
  destruct (send_run source channel txid id "deleted successfully" stateChange s1 Hsrc) as (n & E2).
  destruct (announced tree tid id "" n s Ht) as (Vr & Vo & F1). fold s1 in Vr, Vo, F1.
  destruct (online_rm root id St Hin) as (new & R & Sn). destruct (rm_link _ _ _ R) as (N & _ & L). specialize (L Hd).
  set (s2 := put_value ("tx_" +:+ root) txid (set_net n s1)).
  exists (put_value (root_key (tree_key tree tid)) new s2). split; [|constructor].
  - unfold deleteObject, unLinkToRoot, dhtGet. cbv [mbind M_bind gets]. rewrite dhtPut_run. fold s1. rewrite E2.
    cbv [mbind M_bind gets]. rewrite Vr. fold root. rewrite R. reflexivity.
  - rewrite put_last. now split.
  - rewrite put_last. exact L.
  - unfold s2. rewrite !(fun k v k' s N => proj2 (put_other k v k' s N)) by (tree_cases; discriminate). exact Vo.
  - intros key Nr No Nx _. refine (kept_trans _ _ _ _ (F1 key No) (kept_trans _ s2 _ _ _ _)); apply put_kept; [|congruence].
    intros K. now apply (Nx root).
Qed.

(** The entity of a template is written last. *)
Lemma change_entity (tid id value x : string) (links : list (string * string)) (s s1 : storage_node) : tree_change "template" tid id value links s s1 ->
  tree_change "template" tid id value links s (put_value (entity_key tid id) x s1).
Proof.
  intros [R L O F].
  assert (K : forall k, entity_key tid id <> k -> last_put (put_value (entity_key tid id) x s1) k = last_put s1 k)
    by (intros k N; now apply put_other).
  constructor; rewrite ?K by discriminate; [exact R | exact L | exact O |].
  intros key Nr No Nx Ne. refine (kept_trans _ _ _ _ (F key Nr No Nx Ne) (put_kept _ _ _ _ _)). intros E. now apply (Ne eq_refl).
Qed.

(** Adding a template: its object is linked, and its entity starts. *)
Lemma template_step (memory : Z) (source channel txid tid guid text : string) (s : storage_node) :
  source <> "1" -> takes s (tree_key "template" tid) guid ->
  exists s', executeStateChangeCommand memory ["1"; text] source channel txid tid guid s = (s', Ok tt) /\
    written s' tid guid ∅ /\
    tree_change "template" tid guid (addObject (base64_decode text))
      ((guid, addObject (base64_decode text)) :: tree_links s (tree_key "template" tid)) s s'.
Proof.
  intros Hsrc T.
  destruct (child_linked source channel txid tid "template" (base64_decode text) guid s (or_introl eq_refl) Hsrc T) as (s1 & E & C).
  destruct (create_entity_run tid guid s1) as (data & E4 & R).
  exists (put_value (entity_key tid guid) data s1). split; [|split; [unfold written; now rewrite put_last | now apply change_entity]].
  apply execute_ok. change (addChildNode source channel txid tid "template" (base64_decode text) guid s = (put_value (entity_key tid guid) data s1, Ok tt)).
  rewrite E. exact E4.
Qed.

(** C25: Adding a template starts an entity. When the IPFS server answers, another node relays the command
    and the tree of the tenant has no link of the new identifier, the key of the template gets the hash
    of its text, the new root of the tenant's tree links that hash, and the key of the entity gets a
    root that stands for the empty map. Each is the value put last under its key; that a reader gets
    it is not assumed. *)
Theorem entity_created (memory : Z) (source channel txid tid guid text : string) (s : storage_node) :
  source <> "1" -> takes s (tree_key "template" tid) guid ->
  exists s', executeStateChangeCommand memory ["1"; text] source channel txid tid guid s = (s', Ok tt) /\
    written s' tid guid ∅ /\
    object_data (last_put s' (object_key "template" tid guid)) = base64_decode text /\
    object_links (last_put s' (root_key (tree_key "template" tid))) ≡ₚ
      (guid, last_put s' (object_key "template" tid guid)) :: tree_links s (tree_key "template" tid).
Proof.
  intros Hsrc T. destruct (template_step memory source channel txid tid guid text s Hsrc T) as (s' & E & R & [_ L O _]).
  exists s'. rewrite O. split; [exact E | split; [exact R | split; [apply addObject_stored | exact L]]].
Qed.

(** ** What goes wrong *)

Lemma catch_throw {S A} (m h : M S A) (s s' : S) (ex : exn) : m s = (s', Throw ex) -> ex <> undefined -> catch m h s = h s'.
Proof. unfold catch. intros -> N. now destruct ex. Qed.

Lemma execute_throw (memory : Z) (command : list string) (source channel txid tid guid : string) (s s' : storage_node) (ex : exn) :
  run_command memory command source channel txid tid guid s = (s', Throw ex) -> ex <> undefined ->
  executeStateChangeCommand memory command source channel txid tid guid s = (s', Ok tt).
Proof. intros E N. unfold executeStateChangeCommand. now rewrite (catch_throw _ _ _ _ _ E N). Qed.

(** C30: A document that is not JSON is refused and accepted at once: the sender gets the error and then
    the identifier and the hash of a new document. The hash of the text is put under the key of the
    document, which is the only key written: the document is in no index, and the entity is what it
    was. *)
Theorem invalid_document_accepted (memory : Z) (source channel txid tid e guid text : string) (ex : exn)
  (docs : gmap string json) (s : storage_node) :
  source <> "1" -> represents s tid e docs -> parse (base64_decode text) = Throw ex -> ex <> undefined ->
  let hash := addObject (base64_decode text) in
  exists s', executeStateChangeCommand memory ["2"; e; text] source channel txid tid guid s = (s', Ok tt) /\
    out (net s') = (out (net s) ++
      [Gossip channel exception [("txid", txid); ("id", ""); ("data", MSG_INVALID_DOCUMENT_STRUCTURE)];
       DhtPut (document_key tid e guid) hash true;
       Gossip channel stateChange [("txid", txid); ("id", guid); ("data", hash)]])%list /\
    represents s' tid e docs /\ last_put s' (document_key tid e guid) = hash /\
    object_data hash = base64_decode text /\ forall key, key <> document_key tid e guid -> kept s s' key.
Proof.
  intros Hsrc R Hp Hx hash. set (text' := base64_decode text) in *. pose proof (represents_root _ _ _ _ R) as N.
  assert (E : exists s', createOrDeleteDocument source channel txid tid e "" text' "" guid s = (s', Throw ex) /\
    out (net s') = (out (net s) ++
      [Gossip channel exception [("txid", txid); ("id", ""); ("data", MSG_INVALID_DOCUMENT_STRUCTURE)];
       DhtPut (document_key tid e guid) hash true;
       Gossip channel stateChange [("txid", txid); ("id", guid); ("data", hash)]])%list /\
    last_put s' (document_key tid e guid) = hash /\ forall key, key <> document_key tid e guid -> kept s s' key).
  { assert (Hi : identify guid text' = Throw ex) by (unfold identify; now rewrite Hp).
    unfold createOrDeleteDocument, dhtGet. cbv [mbind M_bind gets]. rewrite (proj2 (String.eqb_neq _ _) N). cbn [String.eqb].
    rewrite (catch_throw (of_result (identify guid text')) _ s s ex) by (unfold of_result; now rewrite ?Hi).
    rewrite send_sent by exact Hsrc. cbv [mret M_ret]. rewrite dhtPut_run. cbv [when]. rewrite send_sent by exact Hsrc.
    cbv [of_result]. rewrite Hp. eexists. split; [reflexivity|]. split; [unfold put_value, sent; cbn; now rewrite <- !app_assoc|].
    split; [exact (put_last (document_key tid e guid) hash s)|].
    intros key Nk. exact (put_kept (document_key tid e guid) hash key s (not_eq_sym Nk)). }
  destruct E as (s' & E & O & V & K). exists s'. split; [now apply (execute_throw _ _ _ _ _ _ _ _ _ ex)|]. split; [exact O|].
  split; [apply (represents_frame s); [now apply K | exact R]|]. split; [exact V | split; [apply addObject_stored | exact K]].
Qed.

(** Updating or deleting a document that is not there is not answered: [searchDocument] returns the
    empty text, which is not [empty()] as JSON, so the loop over the documents found throws, and the
    message the code has for this case is never sent. *)
Theorem missing_document_unanswered (memory : Z) (source channel txid tid e guid k text : string) (docs : gmap string json) (s : storage_node) :
  represents s tid e docs -> docs !! k = None -> mem QUOTE k = false ->
  executeStateChangeCommand memory ["5"; e; by_id k; text] source channel txid tid guid s = (s, Ok tt) /\
  executeStateChangeCommand memory ["8"; e; by_id k] source channel txid tid guid s = (s, Ok tt).
Proof.
  intros R Hk Hq. pose proof (represents_root _ _ _ _ R) as N.
  assert (U : forall op t, updateOrDeleteDocument memory source channel txid tid e (by_id k) t op s = (s, Throw type_error)).
  { intros op t. unfold updateOrDeleteDocument, dhtGet. run. rewrite (proj2 (String.eqb_neq _ _) N). run.
    rewrite (search_by_id memory (dht_value s) tid e k docs R Hq), Hk. reflexivity. }
  split; apply (execute_throw _ _ _ _ _ _ _ _ _ type_error); try discriminate; apply U.
Qed.

(** A client that has left cannot be answered. *)
Lemma send_gone (channel txid id val : string) (cmd : CommandType) (s : storage_node) :
  running (net s) = true -> m_connections (net s) !! channel = None -> (exists t, dump (answer cmd txid id val) = Ok t) ->
  send "1" channel cmd txid id val s = (s, Throw invalid_argument).
Proof.
  intros Hr Hc [t Ht]. unfold send. change (String.eqb "1" "1") with true. cbv match. unfold on_net, ws_send_json, ws_send. run. rewrite Ht, Hr, Hc. now destruct s.
Qed.

(** When the client that adds a document has left, the document is stored but not indexed: the
    answer throws between the two, and the entity is what it was. *)
Theorem disconnected_document_unindexed (memory : Z) (channel txid tid e guid text written : string)
  (docs : gmap string json) (s : storage_node) :
  running (net s) = true -> m_connections (net s) !! channel = None ->
  (exists t, dump (answer stateChange txid guid (addObject written)) = Ok t) ->
  represents s tid e docs -> identify guid (base64_decode text) = Ok written ->
  exists s', executeStateChangeCommand memory ["2"; e; text] "1" channel txid tid guid s = (s', Ok tt) /\
    out (net s') = (out (net s) ++ [DhtPut (document_key tid e guid) (addObject written) true])%list /\
    last_put s' (document_key tid e guid) = addObject written /\ represents s' tid e docs.
Proof.
  intros Hr Hc Hdump R Hi. pose proof (represents_root _ _ _ _ R) as N.
  set (s' := put_value (document_key tid e guid) (addObject written) s). exists s'. split; [|split; [reflexivity|]; split].
  - apply (execute_throw _ _ _ _ _ _ _ _ _ invalid_argument); [|discriminate].
    change (createOrDeleteDocument "1" channel txid tid e "" (base64_decode text) "" guid s = (s', Throw invalid_argument)).
    unfold createOrDeleteDocument, dhtGet. cbv [mbind M_bind gets]. rewrite (proj2 (String.eqb_neq _ _) N). cbn [String.eqb].
    unfold catch at 1. cbv [of_result]. rewrite Hi, dhtPut_run. fold s'. cbv [when].
    now rewrite (send_gone channel txid guid (addObject written) stateChange s').
  - apply put_last.
  - apply (represents_frame s); [now apply put_kept | exact R].
Qed.
End Entity.

(** ** A server whose hashes are the objects themselves *)

Fixpoint ones (n : nat) : string := match n with O => "" | S n => String "1" (ones n) end.

(** A string behind its length, and a list of such strings. *)
Definition packed (s : string) : string := ones (String.length s) +:+ String "0" s.
Fixpoint pack (l : list string) : string := match l with [] => "" | s :: l => packed s +:+ pack l end.

Fixpoint count_ones (s : string) : nat * string :=
  match s with
  | String "1" s => let '(n, r) := count_ones s in (S n, r)
  | String _ s => (O, s)
  | "" => (O, "")
  end.

Fixpoint cut (n : nat) (s : string) : string * string :=
  match n, s with
  | S n, String c s => let '(a, b) := cut n s in (String c a, b)
  | _, _ => ("", s)
  end.

Fixpoint unpack (fuel : nat) (s : string) : list string :=
  match fuel, s with
  | S fuel, String _ _ => let '(n, r) := count_ones s in let '(a, b) := cut n r in a :: unpack fuel b
  | _, _ => []
  end.

Lemma count_packed (n : nat) (s : string) : count_ones (ones n +:+ String "0" s) = (n, s).
Proof.
  induction n as [|n IH]; [reflexivity|]. cbn [ones].
  change (String "1" (ones n) +:+ String "0" s) with (String "1" (ones n +:+ String "0" s)). cbn [count_ones]. now rewrite IH.
Qed.

Lemma cut_app (a b : string) : cut (String.length a) (a +:+ b) = (a, b).
Proof.
  induction a as [|c a IH]; [reflexivity|]. change (String c a +:+ b) with (String c (a +:+ b)). cbn [cut String.length]. now rewrite IH.
Qed.

Lemma unpack_pack (l : list string) (fuel : nat) : (length l <= fuel)%nat -> unpack fuel (pack l) = l.
Proof.
  revert fuel. induction l as [|s l IH]; intros [|fuel] Hf; cbn [length] in Hf; try lia; [reflexivity..|].
  assert (P : pack (s :: l) = ones (String.length s) +:+ String "0" (s +:+ pack l)).
  { cbn [pack]. unfold packed. now rewrite string_app_assoc. }
  assert (N : exists c r, pack (s :: l) = String c r) by (rewrite P; destruct (String.length s); cbn; eauto).
  destruct N as (c & r & N). cbn [unpack]. rewrite N, <- N, P, count_packed, cut_app. f_equal. apply IH. lia.
Qed.

Lemma pack_length (l : list string) : (length l <= String.length (pack l))%nat.
Proof.
  induction l as [|s l IH]; [reflexivity|]. cbn [length pack]. unfold packed.
  rewrite !string_length_app. cbn. lia.
Qed.

Definition flat (l : list (string * string)) : list string := concat (map (fun p => [p.1; p.2]) l).
Fixpoint pairs (l : list string) : list (string * string) :=
  match l with a :: b :: l => (a, b) :: pairs l | _ => [] end.

Lemma pairs_flat (l : list (string * string)) : pairs (flat l) = l.
Proof.
  induction l as [|[a b] l IH]; [reflexivity|]. change (flat ((a, b) :: l)) with (a :: b :: flat l). cbn [pairs]. now rewrite IH.
Qed.

Definition as_object (d : string) (l : list (string * string)) : string := pack (d :: flat l).

Definition packed_ipfs : Ipfs :=
  {| object_links h := pairs (tl (unpack (String.length h) h));
     object_data h := hd "" (unpack (String.length h) h) |}.

Lemma as_object_spec (d : string) (l : list (string * string)) :
  as_object d l <> "" /\ object_data (Ipfs := packed_ipfs) (as_object d l) = d /\ object_links (Ipfs := packed_ipfs) (as_object d l) = l.
Proof.
  split; [unfold as_object; cbn; unfold packed; now destruct (String.length d)|].
  assert (U : unpack (String.length (as_object d l)) (as_object d l) = d :: flat l) by apply unpack_pack, pack_length.
  unfold packed_ipfs. cbn [object_data object_links]. rewrite U. cbn [hd tl]. now rewrite pairs_flat.
Qed.

Lemma eq_perm {A} (l m : list A) : l = m -> l ≡ₚ m.
Proof. now intros ->. Qed.

Definition packed_server : Merkle.
Proof.
  refine {| merkle_ipfs := packed_ipfs;
    object_put d l := Some (as_object d l);
    patch_add_link h n t := Some (as_object (object_data (Ipfs := packed_ipfs) h) ((n, t) :: object_links (Ipfs := packed_ipfs) h));
    patch_rm_link h n := Some (as_object (object_data (Ipfs := packed_ipfs) h)
      (List.filter (fun p => negb (String.eqb p.1 n)) (object_links (Ipfs := packed_ipfs) h))) |}.
  - intros d l h [= <-]. destruct (as_object_spec d l) as (N & D & L). exact (conj N (conj D (eq_perm _ _ L))).
  - intros h n t h' [= <-].
    destruct (as_object_spec (object_data (Ipfs := packed_ipfs) h) ((n, t) :: object_links (Ipfs := packed_ipfs) h)) as (N & D & L).
    exact (conj N (conj D (fun _ => eq_perm _ _ L))).
  - intros h n h' [= <-].
    destruct (as_object_spec (object_data (Ipfs := packed_ipfs) h)
      (List.filter (fun p => negb (String.eqb p.1 n)) (object_links (Ipfs := packed_ipfs) h))) as (N & D & L).
    exact (conj N (conj D (fun _ => eq_perm _ _ L))).
Defined.

#[refine] Definition packed_online : Online (H := packed_server) := {| stored _ := True |}.
Proof. all: intros; eexists; split; [reflexivity | exact I]. Defined.

Definition put_order : Dht := {| dht_values l := l; dht_values_perm l := reflexivity l |}.
Definition key_order : UnorderedMap := {| iterate := map_to_list; iterate_perm m := reflexivity (map_to_list m) |}.

(** ** Witnesses *)

Section Witnesses.
#[local] Existing Instance packed_server.
#[local] Existing Instance packed_online.
#[local] Existing Instance put_order.
#[local] Existing Instance key_order.
#[local] Existing Instance sample_services.

Definition empty_storage : storage_node := mkStorageNode empty_node ∅ [].
Definition sample_entity : storage_node := (create_entity "t" "e" empty_storage).1.

Lemma put_settled (s : storage_node) : settled s.
Proof. now intros key. Qed.

Lemma sample_represents : represents sample_entity "t" "e" ∅.
Proof.
  apply written_settled; [apply put_settled|]. unfold written.
  destruct (create_entity_run "t" "e" empty_storage) as (root & E & R). unfold sample_entity. rewrite E. cbn [fst]. now rewrite put_last.
Qed.

Definition sample_text (name : string) : string :=
  match dump (object [("name", JStr name)]) with Ok t => t | Throw _ => "" end.

Lemma entity_created_witness :
  let s := executeStateChangeCommand 10 ["1"; "person"] "2" "channel" "tx" "t" "e" empty_storage in
  s.2 = Ok tt /\ written s.1 "t" "e" ∅.
Proof.
  destruct (entity_created 10 "2" "channel" "tx" "t" "e" "person" empty_storage) as (s' & E & R & _);
    [discriminate | now left |]. intros s. unfold s. rewrite E. now split.
Defined.

Definition ann : json := object [("id", JStr "g"); ("name", JStr "Ann")].

Lemma entity_refines_witness :
  let s := executeStateChangeCommand 10 ["2"; "e"; sample_text "Ann"] "2" "channel" "tx" "t" "g" sample_entity in
  s.2 = Ok tt /\ written s.1 "t" "e" {[ "g" := ann ]} /\
  searchDocument 10 (dht_value s.1) "t" "e" (by_id "g") = Ok (JArr [ann]).
Proof.
  destruct (entity_refines 10 "2" "channel" "tx" "t" "e" "g" ["2"; "e"; sample_text "Ann"] ∅
    {[ "g" := ann ]} sample_entity sample_represents) as (s' & E & R & _ & _ & Q).
  - intros k d. now rewrite lookup_empty.
  - refine (adds "e" "g" ∅ (sample_text "Ann") [("name", JStr "Ann")]
      (match dump ann with Ok t => t | Throw _ => "" end) _ _ _ _); vm_compute; reflexivity.
  - discriminate.
  - intros s. unfold s. rewrite E. split; [reflexivity | split; [exact R|]].
    exact (Q (dht_value s') (put_settled s' _) "g" eq_refl).
Defined.

Lemma documents_read_witness :
  searchDocument 10 (dht_value sample_entity) "t" "e" (by_id "g") = Ok (JStr "").
Proof. exact (proj2 (documents_read 10 sample_entity "t" "e" ∅ sample_represents) "g" eq_refl). Defined.

Lemma invalid_document_accepted_witness :
  let s := executeStateChangeCommand 10 ["2"; "e"; "oops"] "2" "channel" "tx" "t" "g" sample_entity in
  s.2 = Ok tt /\ represents s.1 "t" "e" ∅ /\ last_put s.1 (document_key "t" "e" "g") = addObject "oops".
Proof.
  destruct (invalid_document_accepted 10 "2" "channel" "tx" "t" "e" "g" "oops" parse_error ∅ sample_entity)
    as (s' & E & _ & R & V & _); [discriminate | exact sample_represents | vm_compute; reflexivity | discriminate |].
  intros s. unfold s. rewrite E. now split.
Defined.

Lemma missing_document_unanswered_witness :
  executeStateChangeCommand 10 ["8"; "e"; by_id "g"] "2" "channel" "tx" "t" "x" sample_entity = (sample_entity, Ok tt).
Proof. exact (proj2 (missing_document_unanswered 10 "2" "channel" "tx" "t" "e" "x" "g" "" ∅ sample_entity sample_represents eq_refl eq_refl)). Defined.

(** The server runs and has no client. *)
Definition left_entity : storage_node := set_net (set_running true (net sample_entity)) sample_entity.

Lemma disconnected_document_unindexed_witness :
  let s := executeStateChangeCommand 10 ["2"; "e"; sample_text "Ann"] "1" "channel" "tx" "t" "g" left_entity in
  s.2 = Ok tt /\ represents s.1 "t" "e" ∅.
Proof.
  destruct (disconnected_document_unindexed 10 "channel" "tx" "t" "e" "g" (sample_text "Ann")
    (match dump (object [("id", JStr "g"); ("name", JStr "Ann")]) with Ok t => t | Throw _ => "" end) ∅ left_entity)
    as (s' & E & _ & _ & R); [reflexivity | reflexivity | eexists; vm_compute; reflexivity | exact (represents_frame sample_entity left_entity "t" "e" ∅ eq_refl sample_represents) | vm_compute; reflexivity |].
  intros s. unfold s. rewrite E. now split.
Defined.
End Witnesses.

(** ** A reader who gets an older value *)

(** The DHT lists the values of a key in any order; here the oldest comes last. *)
Definition oldest_last : Dht := {| dht_values l := rev l; dht_values_perm l := symmetry (Permutation_rev l) |}.

Section Stale.
#[local] Existing Instance packed_server.
#[local] Existing Instance packed_online.
#[local] Existing Instance oldest_last.
#[local] Existing Instance key_order.
#[local] Existing Instance sample_services.

Definition add_document (guid : string) (s : storage_node) : storage_node :=
  (executeStateChangeCommand 10 ["2"; "e"; sample_text "Ann"] "2" "channel" "tx" "t" guid s).1.

(** A document is added and acknowledged, and so is another; the second command reads the root from before
    the first, so the root put last has only the second document. *)
Lemma stale_root_loses :
  let s := add_document "h" (add_document "g" sample_entity) in
  List.filter (fun e => match e with Gossip _ stateChange _ => true | _ => false end) (out (net s)) =
    map (fun k => Gossip "channel" stateChange [("txid", "tx"); ("id", k);
      ("data", addObject match dump (object [("id", JStr k); ("name", JStr "Ann")]) with Ok t => t | Throw _ => "" end)]) ["g"; "h"] /\
  searchDocument 10 (last_put s) "t" "e" (by_id "g") = Ok (JStr "") /\
  searchDocument 10 (last_put s) "t" "e" (by_id "h") = Ok (JArr [object [("id", JStr "h"); ("name", JStr "Ann")]]).
Proof. vm_compute. repeat split. Qed.
End Stale.
