(* ===== verification/Commits.v ===== *)
(** * Committed blocks

    What becomes of a block (files Master and Store): the message with which a master node hands a
    closed block to a storage node is queued, and the block processor stores the block and its
    transactions in IPFS, links them into the trees of blocks and of tenants, names them in the DHT
    and sends the master nodes the proof to verify. A tree grows from the root a reader gets, so the
    theorem is about runs in which that is the root put last. *)

From Stdlib Require Import ZArith Lia List Bool Ascii String.
From stdpp Require Import base gmap strings list fin_maps.
From S2P Require Import Prelude.
From S2P Require Import Machine.
From S2P Require Import Cpp.
From S2P Require Import Json.
From S2P Require Import Transaction.
From S2P Require Import Wire.
From S2P Require Import Node.
From S2P Require Import Master.
From S2P Require Import Query.
From S2P Require Import Queue.
From S2P Require Import Store.
From S2P Require Import Documents.
From S2P Require Import JsonText.

Local Open Scope Z_scope.

Section Commits.
Context `{BoostStrings} `{JsonText} `{Services} `{StdSort} `{Merkle} `{Dht} `{UnorderedMap} `{!Online}.

(** The tree of the transactions of a tenant, and its root as it was put last. *)
Definition tx_tree (tid : string) : string := tree_key "tx" tid.
Definition tx_root (s : storage_node) (tid : string) : string := last_put s (root_key (tx_tree tid)).

(** A transaction is in the tree of its tenant, with its text. *)
Definition committed (s : storage_node) (tid txid text : string) : Prop :=
  exists h, (txid, h) ∈ object_links (tx_root s tid) /\ object_data h = text.

(** What a later transaction leaves alone: the links of the trees that exist, and the other keys. *)
Definition later (s s' : storage_node) : Prop :=
  (forall tid p, tx_root s tid <> "" -> p ∈ object_links (tx_root s tid) -> tx_root s' tid <> "" /\ p ∈ object_links (tx_root s' tid)) /\
  (forall k, (forall x, k <> "tx_" +:+ x) -> (forall x, k <> root_key (tx_tree x)) -> kept s s' k).

Lemma later_refl (s : storage_node) : later s s.
Proof. now split. Qed.

Lemma later_trans (s1 s2 s3 : storage_node) : later s1 s2 -> later s2 s3 -> later s1 s3.
Proof.
  intros [A B] [C D]. split.
  - intros tid p N Hin. destruct (A tid p N Hin) as [N' Hin']. exact (C tid p N' Hin').
  - intros k Hk Hr. exact (kept_trans _ _ _ _ (B k Hk Hr) (D k Hk Hr)).
Qed.

Lemma committed_later (s s' : storage_node) (tid txid text : string) :
  later s s' -> tx_root s tid <> "" -> committed s tid txid text -> committed s' tid txid text.
Proof. intros [L _] N (h & Hin & D). exists h. split; [apply (L tid _ N Hin) | exact D]. Qed.

Definition entry_text (t : Transaction) (text : string) : Prop := dump (toJson t) = Ok text.

Lemma toJson_members (t : Transaction) :
  member_of (toJson t) "txid" = Ok (m_txId t) /\ member_of (toJson t) "tid" = Ok (m_tenantId t).
Proof. split; reflexivity. Qed.

Lemma tx_key_root (x tid : string) : "tx_" +:+ x <> root_key (tx_tree tid).
Proof. discriminate. Qed.

Lemma tx_root_inj (tid tid' : string) : root_key (tx_tree tid) = root_key (tx_tree tid') -> tid = tid'.
Proof. intros E. injection E as E. exact E. Qed.

#[local] Arguments dhtPut : simpl never.
#[local] Arguments put_value : simpl never.

(** One transaction, when readers get what was put last: it is linked into the tree of its tenant, made if it
    does not exist. *)
Lemma addToTxTree_run (t : Transaction) (text : string) (s : storage_node) : settled s ->
  entry_text t text -> root_takes (tx_root s (m_tenantId t)) (m_txId t) ->
  exists s', addToTxTree (toJson t) s = (s', Ok tt) /\ later s s' /\ tx_root s' (m_tenantId t) <> "" /\
    committed s' (m_tenantId t) (m_txId t) text /\
    forall tid txid, root_takes (tx_root s tid) txid -> (tid, txid) <> (m_tenantId t, m_txId t) -> root_takes (tx_root s' tid) txid.
Proof.
  intros Se Ht T. set (tid := m_tenantId t) in *. set (txid := m_txId t) in *. destruct (toJson_members t) as [Mx Mt]. fold tid txid in Mx, Mt.
  destruct (addObject_stored text) as (_ & _ & Dt & _). set (s1 := put_value ("tx_" +:+ txid) (addObject text) s).
  set (old := if String.eqb (tx_root s tid) "" then addObject (".tx_" +:+ tid) else tx_root s tid).
  assert (Ho : stored old /\ (txid ∉ names old) /\ (tx_root s tid = "" -> object_links old = []) /\ (tx_root s tid <> "" -> old = tx_root s tid)).
  { unfold old, root_takes in *. destruct (String.eqb_spec (tx_root s tid) "") as [E|E].
    - destruct (addObject_stored (".tx_" +:+ tid)) as (So & _ & _ & Lo). split; [exact So|]. split; [unfold names; rewrite Lo; apply not_elem_of_nil|]. now split.
    - destruct T as [T|[So Hn]]; [congruence|]. now repeat split. }
  destruct Ho as (So & Hn & Lo & Eo). destruct (online_add old txid (addObject text) So Hn) as (root & P & Sr).
  destruct (add_link _ _ _ _ P) as (N & _ & L). specialize (L Hn). set (s2 := put_value ("tx_" +:+ root) txid s1).
  set (s' := put_value (root_key (tx_tree tid)) root s2).
  assert (K2 : forall k, (forall x, k <> "tx_" +:+ x) -> kept s s2 k).
  { intros k Hk. refine (kept_trans _ s1 _ _ _ _); apply put_kept; intros E; exact (Hk _ (eq_sym E)). }
  assert (R : forall tid', tx_root s' tid' = if decide (tid = tid') then root else tx_root s tid').
  { intros tid'. unfold tx_root. destruct (decide (tid = tid')) as [->|Nt]; [apply put_last|].
    unfold s'. rewrite (proj2 (put_other (root_key (tx_tree tid)) root (root_key (tx_tree tid')) s2 (fun E => Nt (tx_root_inj _ _ E)))).
    apply kept_put, K2. intros x E. now apply (tx_key_root x tid'). }
  exists s'. split; [|split; [|split; [|split]]].
  - unfold addToTxTree, of_result, dhtGet. cbv [mbind M_bind gets]. unfold entry_text in Ht. rewrite Ht, Mx, Mt, dhtPut_run. fold s1.
    assert (E1 : dht_value s1 (".tx_" +:+ tid) = tx_root s tid)
      by (unfold s1; rewrite (proj1 (put_other ("tx_" +:+ txid) (addObject text) (".tx_" +:+ tid) s (fun E => tx_key_root txid tid E))); apply Se).
    rewrite E1. fold old. rewrite P. reflexivity.
  - split.
    + intros tid' p Nr Hin. rewrite R. destruct (decide (tid = tid')) as [<-|Nt]; [|now split]. split; [exact N|].
      rewrite L, (Eo Nr). apply elem_of_cons. now right.
    + intros k Hk Hr. exact (kept_trans _ _ _ _ (K2 k Hk) (put_kept _ _ _ _ (not_eq_sym (Hr tid)))).
  - rewrite R, decide_True by reflexivity. exact N.
  - exists (addObject text). rewrite R, decide_True by reflexivity. split; [rewrite L; apply elem_of_cons; now left | exact Dt].
  - intros tid' txid' T' Np. unfold root_takes in *. rewrite R.
    destruct (decide (tid = tid')) as [<-|Nt]; [|exact T']. right. split; [exact Sr|]. unfold names. rewrite L. cbn.
    apply not_elem_of_cons. split; [congruence|]. destruct (String.eqb_spec (tx_root s tid) "") as [E|E].
    + rewrite (Lo E). apply not_elem_of_nil.
    + rewrite (Eo E). destruct T' as [T'|[_ T']]; [congruence | exact T'].
Qed.

(** Before each transaction, a reader gets of every key the value put last: a condition on the run, which
    OpenDHT does not promise. *)
Definition block_settles (s : storage_node) (l : list (Transaction * string)) : Prop :=
  forall done rest s1, l = (done ++ rest)%list -> add_all (map (fun p => toJson p.1) done) s = (s1, Ok tt) -> settled s1.

Lemma block_settles_cons (s s1 : storage_node) (p : Transaction * string) (l : list (Transaction * string)) :
  block_settles s (p :: l) -> addToTxTree (toJson p.1) s = (s1, Ok tt) -> settled s /\ block_settles s1 l.
Proof.
  intros Hb E. split; [now apply (Hb [] (p :: l))|]. intros done rest s2 -> E2. apply (Hb (p :: done) rest); [reflexivity|].
  cbn [map add_all fst]. cbv [mbind M_bind]. now rewrite E.
Qed.

Lemma add_all_run (l : list (Transaction * string)) (s : storage_node) : block_settles s l ->
  Forall (fun p => entry_text p.1 p.2) l -> NoDup (map (fun p => (m_tenantId p.1, m_txId p.1)) l) ->
  Forall (fun p => root_takes (tx_root s (m_tenantId p.1)) (m_txId p.1)) l ->
  exists s', add_all (map (fun p => toJson p.1) l) s = (s', Ok tt) /\ later s s' /\
    Forall (fun p => tx_root s' (m_tenantId p.1) <> "" /\ committed s' (m_tenantId p.1) (m_txId p.1) p.2) l.
Proof.
  revert s. induction l as [|[t text] l IH]; intros s Hb Ht Hd T.
  { exists s. split; [reflexivity|]. split; [apply later_refl | constructor]. }
  inversion Ht as [|? ? Ht1 Ht2]; subst. inversion Hd as [|? ? Hd1 Hd2]; subst. inversion T as [|? ? T1 T2]; subst. cbn [fst snd] in *.
  destruct (addToTxTree_run t text s (Hb [] _ s eq_refl eq_refl) Ht1 T1) as (s1 & E1 & L1 & N1 & C1 & K1).
  destruct (IH s1 (proj2 (block_settles_cons _ _ (t, text) _ Hb E1)) Ht2 Hd2) as (s2 & E2 & L2 & F2).
  { apply Forall_forall. intros p Hp. rewrite Forall_forall in T2. apply K1; [now apply T2|]. intros E. apply Hd1.
    rewrite <- E. apply list_elem_of_fmap. now exists p. }
  exists s2. split; [|split; [exact (later_trans _ _ _ L1 L2)|]].
  - cbn [map add_all fst]. cbv [mbind M_bind]. now rewrite E1.
  - constructor; [|exact F2]. destruct C1 as (h & Hin & D). destruct (proj1 L2 _ _ N1 Hin) as [N2 Hin2].
    split; [exact N2 | now exists h].
Qed.

(** Writing leaves the queue of blocks alone. *)
Definition queue_is (q : list (Z * string)) (s : storage_node) : Prop := blocksToCommit s = q.

Lemma queue_net {A} (q : list (Z * string)) (m : M node A) : preserves (queue_is q) (on_net m).
Proof. intros s Hq. unfold on_net. destruct (m (net s)). exact Hq. Qed.

Lemma queue_put (q : list (Z * string)) (k v : string) : preserves (queue_is q) (dhtPut k v).
Proof. now intros s Hq. Qed.

Lemma queue_ipfs (q : list (Z * string)) (r : option string) : preserves (queue_is q) (ipfs r).
Proof. intros s Hq. now destruct r. Qed.

Create HintDb queue.
#[local] Hint Resolve queue_net queue_put queue_ipfs : queue.

Ltac keeps_queue :=
  repeat first [apply preserves_bind; [|intros] | solve [eauto with queue preserves]
    | match goal with |- preserves _ (match ?x with _ => _ end) => destruct x end].

Lemma queue_transactions (q : list (Z * string)) (l : list json) : preserves (queue_is q) (add_all l).
Proof. induction l; cbn; [apply preserves_ret|]. apply preserves_bind; [unfold addToTxTree, dhtGet; keeps_queue | intros; assumption]. Qed.

#[local] Hint Resolve queue_transactions : queue.

Lemma queue_block (q : list (Z * string)) (text : string) : preserves (queue_is q) (addTransactions text).
Proof. unfold addTransactions, linkToRoot, addObjectAndLink, dhtGet. keeps_queue. Qed.

(** ** From the producer to the trees *)

(** The block with the signature of its producer, as the storage node keeps it, and the proof it sends. *)
Definition signed_block (b : Block) (k si : string) : json :=
  object [("n", JNum (b_number b)); ("h", JStr (b_hash b)); ("p", JStr (b_previousHash b)); ("data", b_data b);
          ("tm", JNum (b_time b)); ("v", JArr [object [("k", JStr k); ("si", JStr si)]])].

Definition block_proof (b : Block) (k si : string) : json :=
  object [("k", JStr k); ("si", JStr si); ("n", JStr (to_string (b_number b)))].

Lemma block_wf (b : Block) (k si : string) (l : list Transaction) : b_data b = JArr (map toJson l) ->
  wf (block_json b) = true /\ wf (signed_block b k si) = true.
Proof.
  intros E. assert (W : wf (b_data b) = true).
  { rewrite E. cbn. apply forallb_forall. intros j Hj. apply in_map_iff in Hj as (t & <- & _). apply wf_toJson. }
  split; apply wf_object; cbn [forallb snd]; rewrite W; reflexivity.
Qed.

(** A queue of one block. *)
Lemma single_queue `{PriorityQueue (Z * string) OrderByBlockNumber} (x : Z * string) :
  pq_top (pq_push x []) = Some x /\ pq_pop (pq_push x []) = [].
Proof.
  pose proof (push_perm x []) as P. apply Permutation_singleton_r in P. rewrite P.
  destruct (pq_top [x]) as [y|] eqn:E; [|now apply top_none in E].
  pose proof (top_pop _ _ E) as Q. symmetry in Q. apply Permutation_singleton_r in Q. injection Q as -> Q. now rewrite Q.
Qed.

(** The message of a closed block is queued with the producer's key and signature. *)
Lemma closeBlock_run `{PriorityQueue (Z * string) OrderByBlockNumber} (b : Block) (k si text written : string)
  (theFields : gmap string string) (l : list Transaction) (s : storage_node) :
  b_data b = JArr (map toJson l) -> theFields !! "b" = Some (base64_encode text) -> theFields !! "key" = Some k ->
  theFields !! "si" = Some si -> base64_decode (base64_encode text) = text -> dump (block_json b) = Ok text ->
  dump (signed_block b k si) = Ok written ->
  handle_closeBlock theFields s = (set_blocksToCommit (pq_push (i32 (b_number b), written) (blocksToCommit s)) s, Ok tt).
Proof.
  intros Hd Fb Fk Fs B64 Ht Hw. destruct (block_wf b k si l Hd) as [W _]. pose proof (parse_dump _ _ W Ht) as P.
  unfold handle_closeBlock, catch, field. cbv [mbind M_bind result_bind of_result mret M_ret modify].
  rewrite Fb, B64, P, Fk, Fs. change (at_mutable (block_json b) "n") with (Ok (block_json b, JNum (b_number b))). cbn [get_int].
  change (set_member (block_json b) "v" (JArr [object [("k", JStr k); ("si", JStr si)]])) with (Ok (signed_block b k si)).
  cbv match beta. now rewrite Hw.
Qed.

(** The objects a committed block leaves, at the values put last. *)
Definition block_stored (s : storage_node) (b : Block) (written : string) : Prop :=
  let id := to_string (b_number b) in let hash := last_put s ("block_" +:+ id) in
  object_data hash = written /\ (id, hash) ∈ object_links (last_put s (root_key "block")).

Lemma addTransactions_run (b : Block) (k si written proof_text : string) (l : list (Transaction * string)) (s : storage_node) :
  b_data b = JArr (map (fun p => toJson p.1) l) -> dump (signed_block b k si) = Ok written ->
  dump (block_proof b k si) = Ok proof_text -> block_settles s l ->
  Forall (fun p => entry_text p.1 p.2) l -> NoDup (map (fun p => (m_tenantId p.1, m_txId p.1)) l) ->
  Forall (fun p => takes s (tx_tree (m_tenantId p.1)) (m_txId p.1)) l -> takes s "block" (to_string (b_number b)) ->
  exists s' events, addTransactions written s = (s', Ok tt) /\ block_stored s' b written /\
    Forall (fun p => committed s' (m_tenantId p.1) (m_txId p.1) p.2) l /\
    out (net s') = (events ++ [Gossip "master21" verifyBlock [("b", base64_encode proof_text)]])%list.
Proof.
  intros Hd Hw Hp Hb Ht Hn T Tb. assert (W : wf (signed_block b k si) = true).
  { apply (block_wf b k si (map fst l)). now rewrite Hd, map_map. }
  pose proof (parse_dump _ _ W Hw) as P. set (id := to_string (b_number b)) in *.
  assert (T' : Forall (fun p => root_takes (tx_root s (m_tenantId p.1)) (m_txId p.1)) l).
  { eapply Forall_impl; [exact T|]. intros p. unfold takes, tx_root. now rewrite (Hb [] l s eq_refl eq_refl). }
  destruct (add_all_run l s Hb Ht Hn T') as (s1 & E1 & [_ L1] & F1).
  set (hash := addObject written). set (s2 := put_value ("block_" +:+ id) hash s1).
  assert (K2 : forall key, "block_" +:+ id <> key -> kept s1 s2 key) by (intros key N; now apply put_kept).
  assert (T2 : takes s2 "block" id).
  { unfold takes in *. rewrite (kept_value _ _ _ (K2 (root_key "block") ltac:(discriminate))).
    rewrite (kept_value _ _ _ (L1 (root_key "block") ltac:(discriminate) ltac:(discriminate))). exact Tb. }
  destruct (linkToRoot_full "block" id hash "" s2 T2) as (root & s3 & E3 & N3 & S3 & Lr & V3 & L3).
  assert (Hin : (id, hash) ∈ object_links root) by (rewrite Lr; apply elem_of_cons; now left).
  set (e := Gossip "master21" verifyBlock [("b", base64_encode proof_text)]).
  exists (set_net (set_out (out (net s3) ++ [e])%list (net s3)) s3), (out (net s3)). split; [|split; [|split; [|reflexivity]]].
  - unfold addTransactions, of_result. cbv [mbind M_bind]. rewrite P.
    change (at_mutable (signed_block b k si) "data") with (Ok (signed_block b k si, b_data b)). cbv match beta. rewrite Hd. cbv [elements].
    rewrite E1. change (at_mutable (signed_block b k si) "n") with (Ok (signed_block b k si, JNum (b_number b))). cbv match beta.
    cbv [get_int]. fold id. rewrite Hw, dhtPut_run. fold hash s2. rewrite E3.
    change (at_mutable (signed_block b k si) "v") with (Ok (signed_block b k si, JArr [object [("k", JStr k); ("si", JStr si)]])).
    cbv match beta. change (at_index (JArr [object [("k", JStr k); ("si", JStr si)]]) 0) with (Ok (object [("k", JStr k); ("si", JStr si)])).
    cbv match beta. change (set_member (object [("k", JStr k); ("si", JStr si)]) "n" (JStr id)) with (Ok (block_proof b k si)).
    cbv match beta. rewrite Hp. reflexivity.
  - unfold block_stored. fold id. rewrite !last_net, V3, (kept_put _ _ _ (L3 ("block_" +:+ id) ltac:(discriminate) ltac:(discriminate))).
    unfold s2. rewrite put_last. split; [apply addObject_stored | exact Hin].
  - eapply Forall_impl; [exact F1|]. intros p (_ & h & Hh & D). exists h. split; [|exact D].
    unfold tx_root in *. rewrite last_net, (kept_put _ _ _ (L3 (root_key (tx_tree (m_tenantId p.1))) ltac:(discriminate) ltac:(discriminate))).
    now rewrite (kept_put _ _ _ (K2 (root_key (tx_tree (m_tenantId p.1))) ltac:(discriminate))).
Qed.

(** C11: A closed block arrives. The message a block producer sends for its block reaches a storage node whose
    queue is empty, whose IPFS server answers and whose trees have no link yet of the block's number
    or of the identifiers of its transactions, which differ per tenant. Then the next turn of the
    block processor puts the block under its number and links it into the tree of blocks, links every
    transaction with its text into the tree of its tenant, leaves the queue empty, and last sends the
    master nodes the producer's key and signature to verify. The trees are those whose roots were put
    last. The transactions of a tenant are linked one after the other, so the code needs of the DHT,
    and the theorem of the run ([block_settles]), that before and after each transaction a reader gets
    the values put last; OpenDHT does not promise that. *)
Theorem block_committed `{PriorityQueue (Z * string) OrderByBlockNumber} (b : Block) (k si text written proof_text : string)
  (theFields : gmap string string) (l : list (Transaction * string)) (s : storage_node) :
  theFields !! "b" = Some (base64_encode text) -> theFields !! "key" = Some k -> theFields !! "si" = Some si ->
  base64_decode (base64_encode text) = text -> dump (block_json b) = Ok text ->
  b_data b = JArr (map (fun p => toJson p.1) l) -> dump (signed_block b k si) = Ok written ->
  dump (block_proof b k si) = Ok proof_text -> (forall s1, handle_closeBlock theFields s = (s1, Ok tt) -> block_settles s1 l) ->
  Forall (fun p => entry_text p.1 p.2) l -> NoDup (map (fun p => (m_tenantId p.1, m_txId p.1)) l) ->
  Forall (fun p => takes s (tx_tree (m_tenantId p.1)) (m_txId p.1)) l -> takes s "block" (to_string (b_number b)) ->
  blocksToCommit s = [] ->
  exists s' events, (handle_closeBlock theFields;; processBlocks_turn) s = (s', Ok tt) /\ blocksToCommit s' = [] /\
    block_stored s' b written /\ Forall (fun p => committed s' (m_tenantId p.1) (m_txId p.1) p.2) l /\
    out (net s') = (events ++ [Gossip "master21" verifyBlock [("b", base64_encode proof_text)]])%list.
Proof.
  intros Fb Fk Fs B64 Ht Hd Hw Hp Hb He Hn T Tb Q.
  pose proof (closeBlock_run b k si text written theFields (map fst l) s) as C. rewrite map_map in C. specialize (C Hd Fb Fk Fs B64 Ht Hw).
  destruct (single_queue (i32 (b_number b), written)) as [Top Pop].
  set (s1 := set_blocksToCommit (pq_push (i32 (b_number b), written) (blocksToCommit s)) s) in *.
  destruct (addTransactions_run b k si written proof_text l s1 Hd Hw Hp (Hb s1 C) He Hn T Tb) as (s2 & events & E & B & F & O).
  assert (Qs : blocksToCommit s2 = blocksToCommit s1) by (pose proof (queue_block (blocksToCommit s1) written s1 eq_refl) as K; now rewrite E in K).
  exists (set_blocksToCommit [] s2), events. split; [|exact (conj eq_refl (conj B (conj F O)))].
  cbv [mbind M_bind]. rewrite C. unfold processBlocks_turn. cbv [mbind M_bind get]. unfold s1 at 1. cbn [blocksToCommit set_blocksToCommit].
  rewrite Q, Top. cbn [snd]. rewrite E. cbv [modify]. rewrite Qs. unfold s1. cbn [blocksToCommit set_blocksToCommit]. now rewrite Q, Pop.
Qed.
End Commits.

(** ** Witness *)

Section Witness.
#[local] Existing Instance packed_server.
#[local] Existing Instance packed_online.
#[local] Existing Instance put_order.
#[local] Existing Instance key_order.
#[local] Existing Instance sample_services.

Definition block_queue : PriorityQueue (Z * string) OrderByBlockNumber := list_queue fst.

Definition sample_transaction (id : string) : Transaction := with_tenantId "t" (own_transaction id 7).

Definition text_of (j : json) : string := match dump j with Ok t => t | Throw _ => "" end.

(** Two transactions of one tenant. *)
Definition sample_block : Block :=
  mkBlock 3 "hash" "previous" (JArr [toJson (sample_transaction "tx"); toJson (sample_transaction "ty")]) 10.

Definition block_message : gmap string string :=
  <["b" := text_of (block_json sample_block)]> (<["key" := "producer"]> {[ "si" := "signature" ]}).

Definition sample_entries : list (Transaction * string) :=
  map (fun id => (sample_transaction id, text_of (toJson (sample_transaction id)))) ["tx"; "ty"].

Lemma block_committed_witness :
  exists s', (handle_closeBlock (H6 := block_queue) block_message;; processBlocks_turn (H6 := block_queue)) empty_storage = (s', Ok tt) /\
    blocksToCommit s' = [] /\ committed s' "t" "tx" (text_of (toJson (sample_transaction "tx"))) /\
    committed s' "t" "ty" (text_of (toJson (sample_transaction "ty"))).
Proof.
  destruct (block_committed (H7 := block_queue) sample_block "producer" "signature" (text_of (block_json sample_block))
    (text_of (signed_block sample_block "producer" "signature")) (text_of (block_proof sample_block "producer" "signature"))
    block_message sample_entries empty_storage) as (s' & events & E & Q & _ & F & _); try reflexivity.
  - intros s1 _ done rest s2 _ _. apply put_settled.
  - repeat constructor.
  - apply (bool_decide_unpack _). vm_compute. exact I.
  - repeat constructor.
  - now left.
  - exists s'. split; [exact E|]. split; [exact Q|]. inversion F as [|? ? F1 F']. inversion F' as [|? ? F2 _]. now split.
Defined.
End Witness.
