(* ===== verification/Compute.v ===== *)
(** * The compute node

    A node that runs the functions of transactions (src/ComputeNode, src/ComputeNodeLib): it takes a
    request of a master node, fetches the function from a storage node, gives it its inputs, runs it in
    a JavaScript engine and publishes the result; a node chosen to compute also keeps the commands that
    change documents, until the master node lets it send them. The engine (V8) is the interface
    [Engine]: a script that runs is a tree of its calls to the two functions the node gives it. *)

From Stdlib Require Import ZArith Lia List Bool Ascii String.
From stdpp Require Import base gmap strings list.
From S2P Require Import Prelude.
From S2P Require Import Cpp.
From S2P Require Import Json.
From S2P Require Import Wire.
From S2P Require Import Node.
From S2P Require Import JsonText.

Local Open Scope Z_scope.

(** ** The engine *)

(** A running script: it ends with a value or an error, or calls [fetchDocument] or [encode]. *)
Inductive script (A : Type) :=
| Done (a : A)
| Failed (error : string)
| FetchDocument (input : string) (k : string -> script A)
| Encode (input : string) (k : string -> script A).
Arguments Done {A}.
Arguments Failed {A}.
Arguments FetchDocument {A}.
Arguments Encode {A}.

(** Compiling and running the text of a script with its tenant, then calling a function of the context
    this leaves: none if the name is not that of a function, else its result as a string and the
    variable [stateChangeCmds]. *)
Class Engine := {
  context : Type;
  run_script : string -> string -> script context;
  call_function : context -> string -> script (option (string * string))
}.

(** The first element of an unordered map. *)
Class Begin (A : Type) := {
  begin_of : gmap string A -> option A;
  begin_none : forall m, begin_of m = None <-> m = ∅;
  begin_some : forall m a, begin_of m = Some a -> exists k, m !! k = Some a
}.

(** ** State *)

Record RequestData := mkRequest {
  r_reqId : string; r_txId : string; r_timestamp : string; r_input : string; r_tenantId : string;
  r_hash : string; r_channelId : string; r_nodeType : string; r_storageNode : string
}.

Record TransactionResult := mkResult {
  t_txId : string; t_timestamp : string; t_result : string; t_deterministicCode : string; t_stateChangeCmds : string
}.

Record compute := mkCompute {
  net : node;
  rds : gmap string RequestData;
  trs : gmap string TransactionResult;
  dds : gmap string string;
  uuids : list string
}.

Definition set_net (n : node) (s : compute) : compute := mkCompute n (rds s) (trs s) (dds s) (uuids s).
Definition set_rds (v : gmap string RequestData) (s : compute) : compute := mkCompute (net s) v (trs s) (dds s) (uuids s).
Definition set_trs (v : gmap string TransactionResult) (s : compute) : compute := mkCompute (net s) (rds s) v (dds s) (uuids s).
Definition set_dds (v : gmap string string) (s : compute) : compute := mkCompute (net s) (rds s) (trs s) v (uuids s).
Definition set_uuids (v : list string) (s : compute) : compute := mkCompute (net s) (rds s) (trs s) (dds s) v.

Definition on_net {A} (m : M node A) : M compute A := fun s => let '(n, r) := m (net s) in (set_net n s, r).

(** ** Scripts as text *)

(** [c_str]: the engine reads up to the first null. *)
Fixpoint c_str (s : string) : string :=
  match s with
  | String c s => if Ascii.eqb c NUL then "" else String c (c_str s)
  | "" => ""
  end.

(** The index of the first brace after a parenthesis; the code returns nothing when there is none. *)
Fixpoint logic_start (found : bool) (i : nat) (script : string) : option nat :=
  match script with
  | "" => None
  | String c script =>
      if Ascii.eqb c ")" then logic_start true (S i) script
      else if Ascii.eqb c "{" && found then Some i
      else logic_start found (S i) script
  end.

Definition functionLogicStartIndex (script : string) : result nat :=
  match logic_start false 0 script with Some i => Ok i | None => Throw undefined end.

(** [boost::trim_right]. *)
Fixpoint trim_right (s : string) : string :=
  match s with
  | "" => ""
  | String c s => match trim_right s with "" => if isspace c then "" else String c "" | t => String c t end
  end.

(** The part of a string in front of a character. *)
Fixpoint before (c : ascii) (s : string) : string :=
  match s with
  | "" => ""
  | String d s => if Ascii.eqb d c then "" else String d (before c s)
  end.

(** The name stands behind [function ] and in front of the first parenthesis. *)
Definition getProcessFunName (script : string) : result string :=
  if (String.length script <? 9)%nat then Throw out_of_range
  else Ok (trim_right (before "(" (substring 9 (String.length script - 9) script))).

Definition functionEmptyResponse : string := "N/A".

Section Compute.
Context `{BoostStrings} `{JsonText} `{Services} `{Engine} `{Begin RequestData}.

(** One statement for each member of the inputs. *)
Fixpoint declarations (m : list (string * json)) : result string :=
  match m with
  | [] => Ok ""
  | (key, v) :: m =>
      text ← dump v; rest ← declarations m;
      Ok (" var " +:+ (key +:+ (" = " +:+ (text +:+ (";" +:+ rest)))))
  end.

(** [code.insert(index + 1, statement)]. *)
Definition insert_at (i : nat) (statement code : string) : string :=
  substring 0 i code +:+ (statement +:+ substring i (String.length code - i) code).

(** An input that is not JSON is an error with a message, like those of the engine. *)
Definition parseScript (script input : string) : result (string + string) :=
  match parse input with
  | Throw undefined => Throw undefined
  | Throw _ => Ok (inr "Invalid input")
  | Ok js =>
      m ← members js;
      statement ← declarations m;
      i ← functionLogicStartIndex script;
      Ok (inl (insert_at (S i) statement script))
  end.

(** ** Running *)

Definition gossip (channel : string) (cmd : CommandType) (kv : list (string * string)) : M compute unit :=
  on_net (Node.gossip channel cmd kv).

(** A fresh identifier ([generateUUID]). *)
Definition generateUUID : M compute string :=
  s ← get;
  match uuids s with
  | u :: l => modify (set_uuids l);; mret u
  | [] => throw undefined
  end.

(** The call from the script: the request goes to the storage node of the first request the node has,
    and the script waits for the answer [reply], which another handler
    puts in the table under the fresh identifier and which leaves the table again. *)
Definition fetchDocument (reply : string -> string -> string) (input : string) : M compute string :=
  txid ← generateUUID;
  s ← get;
  match begin_of (rds s) with
  | None => throw undefined
  | Some rq =>
      on_net (emit (GossipText (r_storageNode rq) ("txid:" +:+ (txid +:+ ("|" +:+ input)))));;
      modify (fun s => set_dds (delete txid (dds s)) s);;
      mret (c_str (reply txid input))
  end.

Fixpoint execute {A} (reply : string -> string -> string) (t : script A) : M compute (A + string) :=
  match t with
  | Done a => mret (inl a)
  | Failed e => mret (inr e)
  | FetchDocument input k => answer ← fetchDocument reply (c_str input); execute reply (k answer)
  | Encode input k => execute reply (k (base64_encode (c_str input)))
  end.

Definition bind_sum {A B} (m : M compute (A + string)) (f : A -> M compute (B + string)) : M compute (B + string) :=
  r ← m; match r with inl a => f a | inr e => mret (inr e) end.

(** What the node makes of the value of a function; without a function it is [false]. *)
Definition script_json (r : option (string * string)) : json :=
  match r with
  | None => JBool false
  | Some (finalresult, stateChangeCmd) =>
      object [("result", JStr (if String.eqb finalresult "" || String.eqb finalresult "undefined"
                               then functionEmptyResponse else finalresult));
              ("statechangecmds", JStr stateChangeCmd)]
  end.

(** [cmdBuilderScript] is the text of the file CommandBuilder.txt. *)
Definition executeScript (reply : string -> string -> string) (cmdBuilderScript fundef input tenantid : string) :
    M compute (json + string) :=
  bind_sum (if String.eqb input "" then mret (inl fundef) else of_result (parseScript fundef (base64_decode input))) (fun code =>
  let code := code +:+ cmdBuilderScript in
  bind_sum (execute reply (run_script (c_str code) (c_str tenantid))) (fun ctx =>
  name ← of_result (getProcessFunName code);
  bind_sum (execute reply (call_function ctx (c_str name))) (fun r =>
  mret (inl (script_json r))))).

(** ** Handlers *)

Definition processRequest (theFields : gmap string string) : M compute unit :=
  let f := field_or_empty theFields in
  reqId ← generateUUID;
  modify (fun s => set_rds (insert_new reqId
    (mkRequest reqId (f "txid") (f "tm") (f "i") (f "tid") (f "co") (f "k") (f "com") (f "s")) (rds s)) s);;
  gossip (f "s") fetchFunction [("txid", reqId); ("h", f "co"); ("tid", f "tid")].

Definition hashCode (data : string) : string := info_hash data.

(** What follows the execution: the result is published, and the commands are kept by a node that
    computes; [NodeType] is 0 for those and 1 for verifiers. *)
Definition publish (rq : RequestData) (reqId : string) (j : json) : M compute unit :=
  result ← of_result (member_of j "result");
  type ← of_result (stol (r_nodeType rq));
  (if type =? 0 then
     cmds ← of_result (member_of j "statechangecmds");
     modify (fun s => set_trs (insert_new (r_txId rq) (mkResult (r_txId rq) (r_timestamp rq) "" "" cmds) (trs s)) s);;
     gossip "master21" verificationResult [("txid", r_txId rq); ("o", result); ("h", hashCode result)]
   else when (type =? 1)
     (gossip "master21" verificationResult [("txid", r_txId rq); ("h", hashCode result)]));;
  modify (fun s => set_rds (delete reqId (rds s)) s).

(** Execution and publication, with the exceptions of both; [what] gives the messages of the exceptions
    of the standard library. *)
Definition run_request (reply : string -> string -> string) (what : exn -> string) (cmdBuilderScript code reqId : string)
    (rq : RequestData) : M compute unit :=
  let failure (e : string) := gossip (r_channelId rq) exception [("txid", r_txId rq); ("e", e)] in
  fun s =>
    match (r ← executeScript reply cmdBuilderScript code (r_input rq) (r_tenantId rq);
           match r with inl j => publish rq reqId j;; mret None | inr e => mret (Some e) end) s with
    | (s', Ok None) => (s', Ok tt)
    | (s', Ok (Some e)) => failure e s'
    | (s', Throw undefined) => (s', Throw undefined)
    | (s', Throw ex) => failure (what ex) s'
    end.

Definition executeJsCode (reply : string -> string -> string) (what : exn -> string) (cmdBuilderScript : string)
    (theFields : gmap string string) : M compute unit :=
  let reqId := field_or_empty theFields "txid" in
  j ← of_result (parse (field_or_empty theFields "data"));
  code ← of_result (member_of j "code");
  s ← get;
  match rds s !! reqId with
  | None => mret tt
  | Some rq => run_request reply what cmdBuilderScript code reqId rq
  end.

Definition processStateChangeCmds (theFields : gmap string string) : M compute unit :=
  let transactionId := field_or_empty theFields "txid" in
  s ← get;
  match trs s !! transactionId with
  | None => mret tt
  | Some r =>
      when (negb (String.eqb (t_stateChangeCmds r) ""))
        (on_net (emit (GossipText (field_or_empty theFields "sid")
          ("txid:" +:+ (transactionId +:+ ("|" +:+ t_stateChangeCmds r))))))
  end.

Definition updateDocumentMap (theFields : gmap string string) : M compute unit :=
  modify (fun s => set_dds (<[field_or_empty theFields "txid" := field_or_empty theFields "data"]> (dds s)) s).

(** The handler of [stateChange]: the answer of a storage node goes on to the master nodes. *)
Definition handle_stateChange (theFields : gmap string string) : M compute unit :=
  let f := field_or_empty theFields in
  gossip "master21" stateChangeResponse [("id", f "id"); ("txid", f "txid"); ("data", f "data")].

Definition sendConnectionRequest (ip : string) (port : Z) : M compute unit :=
  gossip "masternodes" connectionRequest
    [("t", to_string verifierNode); ("u", "ws://" +:+ (trim_right (skip_spaces ip) +:+ (":" +:+ to_string port)))].

End Compute.

(** ** The value of a function *)

Section Value.
Context `{BoostStrings} `{JsonText} `{Services} `{Engine} `{Begin RequestData}.
Context (answers : string -> string) (cmdBuilderScript : string).

(** What a script comes to when a document request has the same answer on every node, and the requests
    it makes on the way. *)
Fixpoint outcome {A} (t : script A) : A + string :=
  match t with
  | Done a => inl a
  | Failed e => inr e
  | FetchDocument input k => outcome (k (c_str (answers (c_str input))))
  | Encode input k => outcome (k (base64_encode (c_str input)))
  end.

Fixpoint asked {A} (t : script A) : list string :=
  match t with
  | FetchDocument input k => c_str input :: asked (k (c_str (answers (c_str input))))
  | Encode input k => asked (k (base64_encode (c_str input)))
  | _ => []
  end.

(** The function of a transaction on its inputs: its value and commands, no function, or an error. *)
Definition evaluate (fundef input tenantid : string) : result ((option (string * string) + string) * list string) :=
  code ← (if String.eqb input "" then Ok (inl fundef) else parseScript fundef (base64_decode input));
  match code with
  | inr e => Ok (inr e, [])
  | inl code =>
      let code := code +:+ cmdBuilderScript in
      let global := run_script (c_str code) (c_str tenantid) in
      match outcome global with
      | inr e => Ok (inr e, asked global)
      | inl ctx =>
          name ← getProcessFunName code;
          let call := call_function ctx (c_str name) in
          Ok (outcome call, (asked global ++ asked call)%list)
      end
  end.

(** The requests for documents as the node sends them. *)
Definition requests (storageNode : string) (ids inputs : list string) : list event :=
  zip_with (fun u i => GossipText storageNode ("txid:" +:+ (u +:+ ("|" +:+ i)))) ids inputs.

(** The state after them. *)
Definition after_requests (rq : RequestData) (inputs : list string) (s : compute) : compute :=
  mkCompute (set_out (out (net s) ++ requests (r_storageNode rq) (uuids s) inputs)%list (net s)) (rds s) (trs s)
    (foldl (fun d u => delete u d) (dds s) (take (length inputs) (uuids s))) (drop (length inputs) (uuids s)).

Context (reply : string -> string -> string) (Hreply : forall txid input, reply txid input = answers input).

Lemma set_out_same (n : node) : set_out (out n) n = n.
Proof. now destruct n. Qed.

Lemma after_nothing (rq : RequestData) (s : compute) : after_requests rq [] s = s.
Proof.
  unfold after_requests, requests. replace (zip_with _ (uuids s) []) with ([] : list event) by now destruct (uuids s).
  rewrite app_nil_r, set_out_same. now destruct s.
Qed.

Lemma execute_outcome {A} (t : script A) (first : RequestData) (s : compute) :
  begin_of (rds s) = Some first -> (length (asked t) <= length (uuids s))%nat ->
  execute reply t s = (after_requests first (asked t) s, Ok (outcome t)).
Proof.
  intros Hb. revert s Hb. induction t as [a|e|input k IH|input k IH]; intros s Hb Hl; cbn [asked outcome execute] in *.
  - now rewrite after_nothing.
  - now rewrite after_nothing.
  - destruct (uuids s) as [|u l] eqn:U; [cbn in Hl; lia|]. unfold fetchDocument, generateUUID.
    cbv [mbind M_bind get modify mret M_ret]. rewrite U. cbn [rds set_uuids]. rewrite Hb.
    cbn. rewrite Hreply. set (s' := set_dds _ _). rewrite (IH _ s'); [|exact Hb | cbn in Hl |- *; lia].
    f_equal. unfold after_requests, s'. cbn. rewrite U. cbn. f_equal. unfold requests. cbn. now rewrite <- app_assoc.
  - now apply IH.
Qed.

Lemma requests_app (storageNode : string) (ids a b : list string) :
  requests storageNode ids (a ++ b)%list = (requests storageNode ids a ++ requests storageNode (drop (length a) ids) b)%list.
Proof.
  unfold requests. revert ids. induction a as [|x a IH]; intros ids; [now destruct ids|].
  destruct ids as [|u ids]; [now destruct b|]. cbn. now rewrite IH.
Qed.

Lemma take_sum {A} (n m : nat) (l : list A) : take (n + m) l = (take n l ++ take m (drop n l))%list.
Proof. revert l. induction n as [|n IH]; intros [|x l]; cbn; [reflexivity.. | now destruct m | now rewrite IH]. Qed.

Lemma after_app (rq : RequestData) (a b : list string) (s : compute) :
  after_requests rq b (after_requests rq a s) = after_requests rq (a ++ b)%list s.
Proof.
  unfold after_requests. cbn. rewrite length_app, requests_app, take_sum, foldl_app, drop_drop. f_equal.
  now rewrite <- app_assoc.
Qed.

(** A node runs a function to its value. *)
Lemma executeScript_evaluate (fundef input tenantid : string) (r : option (string * string) + string) (inputs : list string)
  (first : RequestData) (s : compute) :
  evaluate fundef input tenantid = Ok (r, inputs) -> begin_of (rds s) = Some first -> (length inputs <= length (uuids s))%nat ->
  executeScript reply cmdBuilderScript fundef input tenantid s =
  (after_requests first inputs s, Ok (match r with inl v => inl (script_json v) | inr e => inr e end)).
Proof.
  unfold evaluate, executeScript, bind_sum. intros E Hb Hl.
  assert (Hc : (if String.eqb input "" then mret (inl fundef) else of_result (parseScript fundef (base64_decode input))) s =
    (s, if String.eqb input "" then Ok (inl fundef) else parseScript fundef (base64_decode input))) by now destruct (String.eqb input "").
  unfold mbind at 1, M_bind at 1. rewrite Hc. destruct (if String.eqb input "" then _ else _) as [[code|e]|ex]; [| |discriminate].
  2: { cbn in E. injection E as <- <-. now rewrite after_nothing. }
  cbn in E. set (code' := code +:+ cmdBuilderScript) in *. set (global := run_script (c_str code') (c_str tenantid)) in *.
  assert (Lg : (length (asked global) <= length inputs)%nat).
  { destruct (outcome global); [|now injection E as _ <-]. destruct (getProcessFunName code'); [|discriminate].
    injection E as _ <-. rewrite length_app. lia. }
  unfold mbind at 1, M_bind at 1. rewrite (execute_outcome global first s Hb) by lia.
  destruct (outcome global) as [ctx|e]; [|injection E as <- <-; reflexivity].
  unfold mbind at 1, M_bind at 1. unfold of_result. destruct (getProcessFunName code') as [name|ex]; [|discriminate].
  cbn in E. injection E as <- <-. set (call := call_function ctx (c_str name)) in *.
  unfold mbind at 1, M_bind at 1. rewrite (execute_outcome call first) by (exact Hb || (cbn; rewrite length_drop; rewrite length_app in Hl; lia)).
  rewrite after_app. now destruct (outcome call).
Qed.

(** ** Results *)

Lemma begin_known (reqId : string) (rq : RequestData) (m : gmap string RequestData) : m !! reqId = Some rq ->
  exists first, begin_of m = Some first.
Proof.
  intros E. destruct (begin_of m) as [first|] eqn:B; [now exists first|]. apply begin_none in B. subst m. now rewrite lookup_empty in E.
Qed.

(** What a node publishes for the value of a function: verifiers its hash, a computing node the value too. *)
Definition published (value : string) : string :=
  if String.eqb value "" || String.eqb value "undefined" then functionEmptyResponse else value.

Definition result_message (type : Z) (rq : RequestData) (value : string) : event :=
  Gossip "master21" verificationResult
    (("txid", r_txId rq) :: (if type =? 0 then [("o", published value)] else []) ++ [("h", info_hash (published value))])%list.

(** C14: A request runs to its result: when the function has a value, a node with the request publishes
    one result, after the requests for documents, and forgets the request; the hash in it depends on
    the value alone, so nodes that get the same function, inputs and documents publish the same hash,
    whatever else they hold; a computing node adds the value and keeps the commands. *)
Theorem request_published (what : exn -> string) (rq : RequestData) (reqId code value cmds : string) (inputs : list string)
  (type : Z) (s : compute) :
  evaluate code (r_input rq) (r_tenantId rq) = Ok (inl (Some (value, cmds)), inputs) ->
  rds s !! reqId = Some rq -> (length inputs <= length (uuids s))%nat ->
  stol (r_nodeType rq) = Ok type -> type = 0 \/ type = 1 ->
  exists first s', begin_of (rds s) = Some first /\
    run_request reply what cmdBuilderScript code reqId rq s = (s', Ok tt) /\
    out (net s') = (out (net s) ++ requests (r_storageNode first) (uuids s) inputs ++ [result_message type rq value])%list /\
    rds s' = delete reqId (rds s) /\
    trs s' = (if type =? 0 then insert_new (r_txId rq) (mkResult (r_txId rq) (r_timestamp rq) "" "" cmds) (trs s) else trs s).
Proof.
  intros E Hr Hl Ht Hty. destruct (begin_known _ _ _ Hr) as [first B].
  pose proof (executeScript_evaluate _ _ _ _ _ first s E B Hl) as X.
  assert (Mr : member_of (script_json (Some (value, cmds))) "result" = Ok (published value)) by reflexivity.
  assert (Mc : member_of (script_json (Some (value, cmds))) "statechangecmds" = Ok cmds) by reflexivity.
  exists first. unfold run_request, result_message. cbv [mbind M_bind]. rewrite X. unfold publish, of_result. cbv [mbind M_bind].
  rewrite Mr, Ht, Mc. destruct Hty as [-> | ->]; cbn; (eexists; split; [exact B|]; split; [reflexivity|]); cbn;
    rewrite <- app_assoc; now repeat split.
Qed.

(** C29: A request that fails is reported and kept: when the script fails, or what it names is no function,
    the master node that sent the request gets the error, no result is published, and the request stays
    in the table, whose first entry is where the documents of every later request are looked for. *)
Theorem failed_request_kept (what : exn -> string) (rq : RequestData) (reqId code : string)
  (failure : option (string * string) + string) (inputs : list string) (s : compute) :
  evaluate code (r_input rq) (r_tenantId rq) = Ok (failure, inputs) -> failure = inl None \/ (exists e, failure = inr e) ->
  rds s !! reqId = Some rq -> (length inputs <= length (uuids s))%nat ->
  exists first s', begin_of (rds s) = Some first /\
    run_request reply what cmdBuilderScript code reqId rq s = (s', Ok tt) /\
    out (net s') = (out (net s) ++ requests (r_storageNode first) (uuids s) inputs ++
      [Gossip (r_channelId rq) exception [("txid", r_txId rq); ("e", match failure with inr e => e | _ => what type_error end)]])%list /\
    rds s' = rds s /\ begin_of (rds s') = Some first.
Proof.
  intros E Hf Hr Hl. destruct (begin_known _ _ _ Hr) as [first B].
  pose proof (executeScript_evaluate _ _ _ _ _ first s E B Hl) as X. exists first.
  unfold run_request. cbv [mbind M_bind]. rewrite X.
  destruct Hf as [->|[e ->]]; cbn; (eexists; split; [exact B|]; split; [reflexivity|]); cbn; rewrite <- app_assoc; now repeat split.
Qed.
End Value.

(** ** The text of a function *)

Lemma substring_front (a b : string) : substring 0 (String.length a) (a +:+ b) = a.
Proof.
  induction a as [|c a IH]; [now destruct b|]. change (String c a +:+ b) with (String c (a +:+ b)). cbn [String.length substring]. now rewrite IH.
Qed.

Lemma substring_back (a b : string) : substring (String.length a) (String.length b) (a +:+ b) = b.
Proof.
  induction a as [|c a IH].
  - pose proof (substring_front b "") as E. now rewrite string_app_nil_r in E.
  - change (String c a +:+ b) with (String c (a +:+ b)). cbn [String.length substring]. exact IH.
Qed.

Lemma insert_at_app (a b st : string) : insert_at (String.length a) st (a +:+ b) = a +:+ (st +:+ b).
Proof.
  unfold insert_at. rewrite substring_front, string_length_app.
  replace (String.length a + String.length b - String.length a)%nat with (String.length b) by lia. now rewrite substring_back.
Qed.

Lemma before_app (c : ascii) (a b : string) : mem c a = false -> before c (a +:+ String c b) = a.
Proof.
  induction a as [|d a IH]; intros Ha.
  - change ("" +:+ String c b) with (String c b). cbn [before]. now rewrite Ascii.eqb_refl.
  - change (String d a +:+ String c b) with (String d (a +:+ String c b)). cbn [mem before] in *. apply orb_false_elim in Ha as [H1 H2].
    rewrite Ascii.eqb_sym in H1. rewrite H1. now rewrite IH.
Qed.

(** Before the first parenthesis closes, braces do not count; after it, everything else does not. *)
Lemma logic_start_skip (found : bool) (p rest : string) (i : nat) :
  (found = false -> mem ")" p = false) -> (found = true -> mem "{" p = false) ->
  logic_start found i (p +:+ rest) = logic_start found (i + String.length p) rest.
Proof.
  revert i. induction p as [|c p IH]; intros i Hf Ht; [cbn [String.length]; now rewrite Nat.add_0_r|].
  change (String c p +:+ rest) with (String c (p +:+ rest)). cbn [logic_start String.length].
  assert (Hf' : found = false -> Ascii.eqb c ")" = false /\ mem ")" p = false).
  { intros F. specialize (Hf F). cbn [mem] in Hf. apply orb_false_elim in Hf. now rewrite Ascii.eqb_sym in Hf. }
  assert (Ht' : found = true -> Ascii.eqb c "{" = false /\ mem "{" p = false).
  { intros F. specialize (Ht F). cbn [mem] in Ht. apply orb_false_elim in Ht. now rewrite Ascii.eqb_sym in Ht. }
  rewrite <- Nat.add_succ_comm. destruct found.
  - destruct (Ht' eq_refl) as [C M]. rewrite C. cbn [andb]. destruct (Ascii.eqb c ")"); now apply IH.
  - destruct (Hf' eq_refl) as [C M]. rewrite C, andb_false_r. now apply IH.
Qed.

(** The parts of the text of a function. *)
Definition function_text (name params gap body : string) : string :=
  "function " +:+ (name +:+ ("(" +:+ (params +:+ (")" +:+ (gap +:+ ("{" +:+ body)))))).

Lemma function_name (name params gap body : string) : mem "(" name = false ->
  getProcessFunName (function_text name params gap body) = Ok (trim_right name).
Proof.
  intros Hn. unfold getProcessFunName, function_text. set (rest := name +:+ _).
  assert (L : String.length ("function " +:+ rest) = (9 + String.length rest)%nat) by apply string_length_app.
  rewrite L. cbn [Nat.ltb Nat.leb Nat.add]. do 2 f_equal. change 9%nat with (String.length "function ") at 1.
  replace (S (S (S (S (S (S (S (S (S (String.length rest))))))))) - 9)%nat with (String.length rest) by lia.
  rewrite substring_back. unfold rest. now apply before_app.
Qed.

(** C28: The inputs of a function become variables at the start of its body: the declarations are inserted
    behind the brace that opens the body and nothing else changes, so the node still calls the
    function by its name. *)
Theorem inputs_injected `{JsonText} (name params gap body input declared : string) (m : list (string * json)) :
  mem "(" name = false -> mem ")" name = false -> mem ")" params = false -> mem "{" gap = false ->
  parse input = Ok (JObj m) -> declarations m = Ok declared ->
  parseScript (function_text name params gap body) input = Ok (inl (function_text name params gap (declared +:+ body))) /\
  getProcessFunName (function_text name params gap (declared +:+ body)) = getProcessFunName (function_text name params gap body).
Proof.
  intros Hn1 Hn2 Hp Hg Hi Hd. split; [|now rewrite !function_name].
  set (head := "function " +:+ (name +:+ ("(" +:+ params))). set (front := head +:+ (")" +:+ gap)).
  assert (T : forall b, function_text name params gap b = front +:+ String "{" b).
  { intros b. unfold front, head, function_text. now rewrite !string_app_assoc. }
  assert (Hh : mem ")" head = false) by (unfold head; now rewrite !mem_app, Hn2, Hp).
  assert (S : functionLogicStartIndex (function_text name params gap body) = Ok (String.length front)).
  { rewrite T. unfold functionLogicStartIndex, front. rewrite string_app_assoc, logic_start_skip by easy.
    change ((")" +:+ gap) +:+ String "{" body) with (String ")" (gap +:+ String "{" body)). cbn [logic_start].
    change (Ascii.eqb ")" ")") with true. cbv match. rewrite logic_start_skip by easy. cbn [logic_start].
    change (Ascii.eqb "{" ")") with false. change (Ascii.eqb "{" "{" && true) with true. cbv match. f_equal.
    rewrite !string_length_app. cbn. lia. }
  unfold parseScript. rewrite Hi. cbn [members mbind result_bind]. unfold mbind, result_bind. rewrite Hd, S. do 2 f_equal.
  rewrite !T. replace (String.length front + 1)%nat with (String.length (front +:+ "{")) by (rewrite string_length_app; reflexivity).
  change (String "{" body) with ("{" +:+ body). rewrite <- string_app_assoc.
  replace (Datatypes.S (String.length front)) with (String.length (front +:+ "{")) by (rewrite string_length_app; cbn; lia).
  rewrite insert_at_app. rewrite string_app_assoc. reflexivity.
Qed.

(** ** Witnesses *)

Section Witnesses.
#[local] Existing Instance sample_services.

(** An engine for two functions: one reads a document, the other fails. *)
#[local] Instance sample_engine : Engine :=
  {| context := unit;
     run_script _ _ := Done tt;
     call_function _ name :=
       if String.eqb name "f" then FetchDocument "c:12|id:x" (fun d => Done (Some (d, "c:6"))) else Failed "no" |}.

#[local, refine] Instance head_of {A} : Begin A := {| begin_of m := snd <$> head (map_to_list m) |}.
Proof.
  - intros m. destruct (map_to_list m) as [|p l] eqn:E; cbn; split; intros H; try easy.
    + now apply map_to_list_empty_iff.
    + subst. now rewrite map_to_list_empty in E.
  - intros m a E. destruct (map_to_list m) as [|[k v] l] eqn:L; [discriminate|]. injection E as <-. exists k.
    apply elem_of_map_to_list. rewrite L. apply elem_of_cons. now left.
Defined.

Definition sample_request (code : string) : RequestData := mkRequest "r" "tx" "1" "" "t" code "master" "1" "storage".
Definition sample_compute : compute := mkCompute empty_node {[ "r" := sample_request "h" ]} ∅ ∅ ["u"].

Lemma request_published_witness :
  let s := run_request (fun _ _ => "42") (fun _ => "") "" "function f(){}" "r" (sample_request "h") sample_compute in
  out (net s.1) = [GossipText "storage" "txid:u|c:12|id:x"; Gossip "master21" verificationResult [("txid", "tx"); ("h", "42")]] /\
  rds s.1 = ∅.
Proof.
  destruct (request_published (fun _ => "42") "" (fun _ _ => "42") (fun _ _ => eq_refl) (fun _ => "") (sample_request "h") "r" "function f(){}"
    "42" "c:6" ["c:12|id:x"] 1 sample_compute) as (first & s' & B & E & O & R & _);
    [vm_compute; reflexivity | reflexivity | cbn; lia | reflexivity | now right |].
  intros s. unfold s. rewrite E. cbn [fst]. vm_compute in B. injection B as <-. split; [rewrite O; reflexivity|].
  rewrite R. reflexivity.
Defined.

Lemma failed_request_kept_witness :
  let s := run_request (fun _ _ => "42") (fun _ => "") "" "function g(){}" "r" (sample_request "h") sample_compute in
  out (net s.1) = [Gossip "master" exception [("txid", "tx"); ("e", "no")]] /\ rds s.1 = rds sample_compute.
Proof.
  destruct (failed_request_kept (fun _ => "42") "" (fun _ _ => "42") (fun _ _ => eq_refl) (fun _ => "") (sample_request "h") "r" "function g(){}"
    (inr "no") [] sample_compute) as (first & s' & B & E & O & R & _);
    [vm_compute; reflexivity | right; now eexists | reflexivity | cbn; lia |].
  intros s. unfold s. rewrite E. cbn [fst]. split; [rewrite O; reflexivity | exact R].
Defined.

Lemma inputs_injected_witness :
  parseScript (function_text "f" "" " " " return a; }") (match dump (object [("a", JNum 1)]) with Ok t => t | Throw _ => "" end) =
    Ok (inl (function_text "f" "" " "
      ((match declarations [("a", JNum 1)] with Ok t => t | Throw _ => "" end) +:+ " return a; }"))).
Proof.
  apply (inputs_injected "f" "" " " " return a; }" _ _ [("a", JNum 1)]); vm_compute; reflexivity.
Defined.
End Witnesses.
