(* ===== verification/Packets.v ===== *)
(** * Packets

    What the nodes have for large data: compression into text without null bytes (compressString and
    decompressString of BlockChainCommon/functions.cpp, with zlib behind the interface [Zlib]), splitting
    into numbered fragments (fragmentPacket) and putting fragments together again (IncomingMessage.cpp,
    whose header is not in the repository: its counters are taken without a width). *)

From Stdlib Require Import ZArith Lia List Bool Ascii String.
From stdpp Require Import base gmap strings list.
From S2P Require Import Prelude.
From S2P Require Import Machine.
From S2P Require Import Cpp.
From S2P Require Import Json.
From S2P Require Import Wire.
From S2P Require Import Node.

Local Open Scope Z_scope.

(** ** Compression *)

(** zlib_compressor(9) and zlib_decompressor. *)
Class Zlib := {
  deflate : string -> string;
  inflate : string -> result string;
  inflate_deflate : forall s, inflate (deflate s) = Ok s
}.

(** The loop of compressString from [position]: the positions of the nulls behind [headers], and the
    string without them. *)
Fixpoint strip_nulls (position : Z) (headers s : string) : string * string :=
  match s with
  | EmptyString => (headers, "")
  | String c s =>
      if Ascii.eqb c NUL then
        let headers := if String.eqb headers "" then headers else headers +:+ "," in
        strip_nulls (i32 (position + 1)) (headers +:+ to_string position) s
      else
        let '(headers, s) := strip_nulls (i32 (position + 1)) headers s in (headers, String c s)
  end.

Definition compressString `{Zlib} (data : string) : string :=
  let data := removeNullTerminators data in
  let '(headers, strOfStream) := strip_nulls 0 "" (deflate data) in
  headers +:+ ("_" +:+ strOfStream).

(** [s.insert(s.begin() + i, '\0')]: undefined outside the string. *)
Fixpoint insert_null (i : nat) (s : string) : result string :=
  match i, s with
  | O, _ => Ok (String NUL s)
  | S i, String c s => s ← insert_null i s; Ok (String c s)
  | S _, EmptyString => Throw undefined
  end.

Definition restore_null (compressedString part : string) : result string :=
  i ← stol part;
  if i <? 0 then Throw undefined else insert_null (Z.to_nat i) compressedString.

(** [std::stoi] is [stol]: both read 32 bits. *)
Definition decompressString `{BoostStrings} `{Zlib} (data : string) : result string :=
  match split "_" data with
  | headers :: part :: parts =>
      let compressedString := foldl (fun s part => s +:+ ("_" +:+ part)) part parts in
      compressedString ← foldl (fun r part => s ← r; restore_null s part) (Ok compressedString) (split "," headers);
      inflate compressedString
  | _ => Throw undefined
  end.

(** ** Fragments *)

Definition packetSize : nat := 50.

(** A number in two digits, or more when it has more. *)
Definition two_digits (n : Z) : string :=
  let s := to_string n in if (String.length s =? 1)%nat then "0" +:+ s else s.

(** The fragment [currentPacket] of [packet]. *)
Definition fragment (nonce lastPacketIndex : Z) (packet : string) (currentPacket : nat) : string :=
  to_string nonce +:+ (two_digits (Z.of_nat currentPacket) +:+ (two_digits lastPacketIndex +:+
    (":" +:+ substring (currentPacket * packetSize) packetSize packet))).

(** [fragmentPacket]: a packet of more than one fragment goes into the DHT under its nonce instead. *)
Definition fragmentPacket (nonce : Z) (packet : string) : M node (list string) :=
  let numPackets := (String.length packet / packetSize + (if String.length packet mod packetSize =? 0 then 0 else 1))%nat in
  if (1 <? numPackets)%nat then dhtPut (to_string nonce) packet false;; mret []
  else mret (map (fragment nonce (Z.of_nat numPackets - 1) packet) (seq 0 numPackets)).

(** ** Messages that arrive in fragments *)

Definition DEFAULT_WAIT_TIME : Z := 1000.

(** The times in milliseconds. *)
Record IncomingMessage := mkIncoming {
  messages : list string; lastPacketIndex : Z; howManyReceived : Z; numberOfMaydays : Z; timeToWait : Z;
  arrivalTime : Z; lastPacketTime : Z; originator : string
}.

(** [IncomingMessage(lastPacketIndex, originator)]; [t] is what the uninitialised time holds. *)
Definition incoming (last : nat) (from : string) (now t : Z) : IncomingMessage :=
  mkIncoming (repeat "" (S last)) (Z.of_nat last) 0 0 DEFAULT_WAIT_TIME now t from.

(** [IncomingMessage(fragments)]: the last index of no fragments is that of [size_t]. *)
Definition incoming_of (fragments : list string) (now t : Z) (from : string) : IncomingMessage :=
  let n := Z.of_nat (length fragments) in mkIncoming fragments (u64 (n - 1)) n 0 DEFAULT_WAIT_TIME now t from.

(** What follows the first colon, or all of a string without one. *)
Fixpoint after_colon (s : string) : option string :=
  match s with EmptyString => None | String c s => if Ascii.eqb c ":" then Some s else after_colon s end.
Definition payload (s : string) : string := default s (after_colon s).

Definition add (now : Z) (index : nat) (fragment : string) (m : IncomingMessage) : IncomingMessage * string :=
  match messages m !! index with
  | None => (m, "")
  | Some old =>
      if negb (String.eqb old "") then (m, "")
      else
        let messages := <[index := fragment]> (messages m) in
        let howManyReceived := howManyReceived m + 1 in
        (mkIncoming messages (lastPacketIndex m) howManyReceived 0 DEFAULT_WAIT_TIME (arrivalTime m) now (originator m),
         if lastPacketIndex m <? howManyReceived then foldr (fun s rest => payload s +:+ rest) "" messages else "")
  end.

Definition isMissing (m : IncomingMessage) : bool := howManyReceived m <=? lastPacketIndex m.

Definition getSecondsElapsed (m : IncomingMessage) (now : Z) : Z := Z.quot (now - arrivalTime m) 1000.

Definition canSendMayday (now : Z) (m : IncomingMessage) : IncomingMessage * bool :=
  if timeToWait m <=? now - lastPacketTime m then
    let n := numberOfMaydays m + 1 in
    (mkIncoming (messages m) (lastPacketIndex m) (howManyReceived m) n (timeToWait m + DEFAULT_WAIT_TIME * n)
       (arrivalTime m) (lastPacketTime m) (originator m), true)
  else (m, false).

(** The loop of getMaydayPacket from [index]. *)
Fixpoint mayday_loop (packet : string) (index : Z) (l : list string) : string :=
  match l with
  | [] => packet
  | s :: l =>
      let packet :=
        if String.eqb s "" then (if String.eqb packet "" then packet else packet +:+ ",") +:+ to_string index else packet in
      mayday_loop packet (index + 1) l
  end.

Definition getMaydayPacket (m : IncomingMessage) : string := mayday_loop "" 0 (messages m).
Definition getSegmentAt (index : nat) (m : IncomingMessage) : string := default "" (messages m !! index).
Definition getOriginator (m : IncomingMessage) : string := originator m.

(** ** Lists of numbers as text *)

(** Appending to a list of numbers as both loops do. *)
Definition append_number (s : string) (n : Z) : string := (if String.eqb s "" then s else s +:+ ",") +:+ to_string n.

Definition numbers (l : list Z) : string := join "," (map to_string l).

Lemma to_string_nonempty (n : Z) : 0 <= n -> to_string n <> "".
Proof. intros H E. pose proof (parse_to_string n H) as P. rewrite E in P. discriminate. Qed.

Lemma numbers_nonempty (n : Z) (l : list Z) : 0 <= n -> numbers (n :: l) <> "".
Proof.
  intros H E. unfold numbers in E. cbn [map] in E. rewrite join_cons in E. apply (to_string_nonempty n H). now destruct (to_string n).
Qed.

Lemma append_numbers (l : list Z) (n : Z) : Forall (Z.le 0) l -> append_number (numbers l) n = numbers (l ++ [n]).
Proof.
  intros F. destruct l as [|m l]; [reflexivity|]. inversion_clear F as [|? ? Hm Fl]. unfold append_number.
  rewrite (proj2 (String.eqb_neq _ _)) by now apply numbers_nonempty.
  unfold numbers. rewrite map_app, join_app by discriminate. cbn [map join]. now autorewrite with strings.
Qed.

Lemma numbers_clean (c : ascii) (l : list Z) : isdigit c = false -> c <> ","%char -> Forall (Z.le 0) l -> mem c (numbers l) = false.
Proof.
  intros Hc Hn. unfold numbers. induction 1 as [|n l Hl F IH]; [reflexivity|]. cbn [map]. rewrite join_cons, mem_app, mem_to_string by assumption.
  destruct l as [|k l]; [reflexivity|]. cbn [map tail mem] in *. rewrite IH. now apply Ascii.eqb_neq in Hn as ->.
Qed.

(** ** Compression is undone *)

(** The positions of the nulls of a string that starts at [position]. *)
Fixpoint null_positions (position : Z) (s : string) : list Z :=
  match s with
  | EmptyString => []
  | String c s => (if Ascii.eqb c NUL then [position] else []) ++ null_positions (position + 1) s
  end%list.

Lemma null_positions_range (position : Z) (s : string) :
  Forall (fun i => position <= i < position + Z.of_nat (String.length s)) (null_positions position s).
Proof.
  revert position; induction s as [|c s IH]; intros q; cbn [null_positions String.length]; [constructor|].
  apply List.Forall_app. split; [destruct (Ascii.eqb c NUL); [constructor; [lia | constructor] | constructor]|].
  eapply Forall_impl; [exact (IH (q + 1))|]. cbn. intros i Hi. lia.
Qed.

Lemma null_positions_none (position : Z) (s : string) : null_positions position s = [] <-> mem NUL s = false.
Proof.
  revert position; induction s as [|c s IH]; intros q; cbn [null_positions mem]; [easy|].
  rewrite (Ascii.eqb_sym NUL c). destruct (Ascii.eqb c NUL); [easy|]. apply IH.
Qed.

Lemma strip_nulls_spec (s : string) (position : Z) (l : list Z) : 0 <= position -> Forall (Z.le 0) l ->
  position + Z.of_nat (String.length s) < 2 ^ 31 ->
  strip_nulls position (numbers l) s = (numbers (l ++ null_positions position s), removeNullTerminators s).
Proof.
  revert position l; induction s as [|c s IH]; intros q l Hq Fl Hs; cbn [strip_nulls null_positions removeNullTerminators].
  - now rewrite app_nil_r.
  - cbn [String.length] in Hs. rewrite i32_small by lia. destruct (Ascii.eqb c NUL).
    + cbv zeta. fold (append_number (numbers l) q). rewrite append_numbers by exact Fl.
      rewrite IH by (lia || (apply List.Forall_app; split; [exact Fl | repeat constructor; exact Hq])). now rewrite <- app_assoc.
    + now rewrite IH by (lia || exact Fl).
Qed.

Lemma removed_nulls (s : string) : mem NUL (removeNullTerminators s) = false.
Proof.
  induction s as [|c s IH]; [reflexivity|]. cbn [removeNullTerminators]. destruct (Ascii.eqb c NUL) eqn:E; [exact IH|].
  cbn [mem]. now rewrite Ascii.eqb_sym, E.
Qed.

Lemma insert_null_app (a s : string) : insert_null (String.length a) (a +:+ s) = Ok (a +:+ String NUL s).
Proof.
  induction a as [|c a IH]; [reflexivity|]. change (String c a +:+ s) with (String c (a +:+ s)).
  change (String c a +:+ String NUL s) with (String c (a +:+ String NUL s)). cbn [String.length insert_null]. now rewrite IH.
Qed.

Lemma stol_to_string (n : Z) : 0 <= n < 2 ^ 31 -> stol (to_string n) = Ok n.
Proof. intros H. unfold stol. rewrite parse_to_string by lia. now rewrite (proj2 (Z.leb_le _ _)), (proj2 (Z.ltb_lt _ _)) by lia. Qed.

Lemma restore_nulls (s a : string) : Z.of_nat (String.length a) + Z.of_nat (String.length s) < 2 ^ 31 ->
  foldl (fun r part => s ← r; restore_null s part) (Ok (a +:+ removeNullTerminators s))
    (map to_string (null_positions (Z.of_nat (String.length a)) s)) = Ok (a +:+ s).
Proof.
  revert a; induction s as [|c s IH]; intros a Hs; [reflexivity|]. cbn [null_positions removeNullTerminators String.length] in *.
  assert (L : String.length (a +:+ String c "") = S (String.length a)) by (rewrite string_length_app; cbn; lia).
  specialize (IH (a +:+ String c "") ltac:(rewrite L; lia)). rewrite L, Nat2Z.inj_succ in IH. autorewrite with strings in IH.
  destruct (Ascii.eqb_spec c NUL) as [->|N]; cbn [app map foldl]; [|exact IH].
  assert (E : restore_null (a +:+ removeNullTerminators s) (to_string (Z.of_nat (String.length a))) = Ok (a +:+ String NUL (removeNullTerminators s))).
  { unfold restore_null. rewrite stol_to_string by lia. unfold mbind, result_bind. rewrite (proj2 (Z.ltb_ge _ _)), Nat2Z.id by lia. apply insert_null_app. }
  cbn [mbind result_bind]. rewrite E. exact IH.
Qed.

Lemma foldl_join (c : ascii) (part : string) (parts : list string) :
  foldl (fun s p => s +:+ String c p) part parts = join c (part :: parts).
Proof.
  revert part; induction parts as [|p parts IH]; intros part; [reflexivity|]. cbn [foldl]. rewrite IH, !(join_cons c). 
  unfold tail. now rewrite join_cons; autorewrite with strings.
Qed.

Section Compression.
Context `{BoostStrings} `{Zlib}.

Lemma split_first (c : ascii) (a s : string) : mem c a = false -> split c (a +:+ String c s) = a :: split c s.
Proof.
  intros Ha. rewrite <- (split_join c (a :: split c s)); [|discriminate | constructor; [exact Ha | apply split_pieces]].
  rewrite join_cons. pose proof (join_split c s) as J. destruct (split c s) as [|p ps] eqn:E; [now apply split_nonempty in E|].
  unfold tail. now rewrite J.
Qed.

Lemma split_numbers (l : list Z) : Forall (Z.le 0) l -> split "," (numbers l) = if decide (l = []) then [""] else map to_string l.
Proof.
  intros F. destruct (decide (l = [])) as [->|N].
  - apply (split_join "," [""]); [discriminate | repeat constructor].
  - apply split_join; [now destruct l|]. apply List.Forall_map. eapply Forall_impl; [exact F|]. cbn. intros n Hn. now apply mem_to_string.
Qed.

(** C27: Decompressing what was compressed gives the data without its null bytes, whatever bytes zlib
    writes, if these contain a null; without one the list of positions is empty and decompressString
    throws. *)
Theorem compression_roundtrip (data : string) (stream := deflate (removeNullTerminators data)) :
  Z.of_nat (String.length stream) < 2 ^ 31 ->
  mem NUL (compressString data) = false /\
  decompressString (compressString data) =
    if mem NUL stream then Ok (removeNullTerminators data) else Throw invalid_argument.
Proof.
  intros Hl. assert (C : compressString data = numbers (null_positions 0 stream) +:+ String "_" (removeNullTerminators stream)).
  { pose proof (strip_nulls_spec stream 0 [] ltac:(lia) ltac:(constructor) ltac:(lia)) as S.
    change (numbers []) with "" in S. unfold compressString. fold stream. now rewrite S. }
  assert (F : Forall (Z.le 0) (null_positions 0 stream)).
  { eapply Forall_impl; [exact (null_positions_range 0 stream)|]. cbn. lia. }
  rewrite C. split.
  - rewrite mem_app, numbers_clean by (easy || exact F). cbn [mem orb]. apply removed_nulls.
  - unfold decompressString. rewrite split_first by now apply numbers_clean.
    pose proof (join_split "_" (removeNullTerminators stream)) as J.
    destruct (split "_" (removeNullTerminators stream)) as [|p ps] eqn:E; [now apply split_nonempty in E|].
    change (fun s part => s +:+ ("_" +:+ part)) with (fun s part => s +:+ String "_" part). rewrite foldl_join, J.
    rewrite split_numbers by exact F. pose proof (null_positions_none 0 stream) as Hn.
    destruct (decide _) as [En|Nn].
    + apply Hn in En. now rewrite En.
    + destruct (mem NUL stream) eqn:M; [|now destruct Nn; apply Hn].
      pose proof (restore_nulls stream "" ltac:(cbn [String.length]; lia)) as R. cbn [String.length] in R. change (Z.of_nat 0) with 0 in R.
      rewrite !string_app_nil_l in R. rewrite R. apply inflate_deflate.
Qed.
End Compression.

(** ** Fragments come together in any order *)

Lemma filter_one_more {A} (P Q : A -> bool) (i : A) (s : list A) : NoDup s -> i ∈ s -> P i = false -> Q i = true ->
  (forall j, j <> i -> Q j = P j) -> length (List.filter Q s) = S (length (List.filter P s)).
Proof.
  intros Nd Hi Pi Qi E. induction Nd as [|x s Hx Nd IH]; [now apply not_elem_of_nil in Hi|]. cbn [List.filter].
  apply elem_of_cons in Hi as [<-|Hi].
  - rewrite Qi, Pi. cbn [length]. do 2 f_equal. apply List.filter_ext_in. intros j Hj. apply E. intros ->. now apply Hx, list_elem_of_In.
  - rewrite E by now intros ->. destruct (P x); cbn [length]; now rewrite IH.
Qed.

Lemma filter_full {A} (P : A -> bool) (s : list A) : (length s <= length (List.filter P s))%nat <-> forallb P s = true.
Proof.
  induction s as [|x s IH]; cbn [List.filter forallb length]; [split; [reflexivity | lia]|].
  pose proof (List.filter_length_le P s). destruct (P x); cbn [length andb]; [rewrite <- IH; lia | split; [lia | discriminate]].
Qed.

Section Reassembly.
Context (last : nat) (from : string) (t0 t : Z) (f : nat -> string) (Hf : forall i, f i <> "").

Definition slots : list nat := seq 0 (S last).
Definition arrived (l : list nat) (j : nat) : bool := bool_decide (j ∈ l).

(** Fragments with their times of arrival. *)
Definition adds (l : list (Z * nat)) : IncomingMessage :=
  foldl (fun m p => (add p.1 p.2 (f p.2) m).1) (incoming last from t0 t) l.

(** What a message holds once the fragments [l] have arrived. *)
Definition holding (l : list nat) (m : IncomingMessage) : Prop :=
  messages m = map (fun j => if arrived l j then f j else "") slots /\ lastPacketIndex m = Z.of_nat last /\
  howManyReceived m = Z.of_nat (length (List.filter (arrived l) slots)).

(** What the arrival of [i] behind [l] returns. *)
Definition completed (l : list nat) (i : nat) : bool :=
  bool_decide (i ∈ slots) && negb (arrived l i) && forallb (arrived (i :: l)) slots.

Lemma slot_lookup (g : nat -> string) (i : nat) : map g slots !! i = if decide (i ∈ slots) then Some (g i) else None.
Proof.
  unfold slots. rewrite list_lookup_fmap. destruct (decide _) as [H|H]; rewrite elem_of_seq in H.
  - now rewrite lookup_seq_lt by lia.
  - now rewrite lookup_seq_ge by lia.
Qed.

Lemma slots_nodup : NoDup slots.
Proof. apply NoDup_seq. Qed.

Lemma slot_insert (g g' : nat -> string) (i : nat) : i ∈ slots -> (forall j, j <> i -> g' j = g j) ->
  <[i := g' i]> (map g slots) = map g' slots.
Proof.
  intros Hi E. apply list_eq. intros j. destruct (decide (i = j)) as [<-|N].
  - rewrite list_lookup_insert_eq, slot_lookup, decide_True by (exact Hi || (rewrite length_map; apply elem_of_seq in Hi; unfold slots; rewrite length_seq; lia)). reflexivity.
  - rewrite list_lookup_insert_ne, !slot_lookup by exact N. destruct (decide (j ∈ slots)); [now rewrite E by congruence | reflexivity].
Qed.

Lemma add_holding (now : Z) (i : nat) (l : list nat) (m : IncomingMessage) : holding l m ->
  holding (i :: l) (add now i (f i) m).1 /\
  (add now i (f i) m).2 = if completed l i then foldr (fun j rest => payload (f j) +:+ rest) "" slots else "".
Proof.
  intros (M & L & R). unfold add, completed. rewrite M, slot_lookup.
  assert (Other : forall j, j <> i -> arrived (i :: l) j = arrived l j).
  { intros j N. unfold arrived. apply bool_decide_ext. rewrite elem_of_cons. tauto. }
  assert (Self : arrived (i :: l) i = true) by (apply bool_decide_eq_true; apply elem_of_cons; now left).
  assert (Same : arrived l i = true \/ i ∉ slots -> forall j, j ∈ slots -> arrived (i :: l) j = arrived l j).
  { intros [A|N] j Hj; (destruct (decide (j = i)) as [->|Nj]; [|now apply Other]); [now rewrite Self|now destruct N]. }
  assert (Keep : arrived l i = true \/ i ∉ slots -> holding (i :: l) m).
  { intros C. split; [|split; [exact L|]].
    - rewrite M. apply map_ext_in. intros j Hj%list_elem_of_In. now rewrite Same.
    - rewrite R. do 2 f_equal. apply List.filter_ext_in. intros j Hj%list_elem_of_In. now rewrite Same. }
  destruct (decide (i ∈ slots)) as [Hi|Hi].
  - rewrite bool_decide_eq_true_2 by exact Hi. destruct (arrived l i) eqn:A; cbn [negb andb].
    + rewrite (proj2 (String.eqb_neq _ _) (Hf i)). cbn [negb fst snd]. split; [apply Keep; now left | reflexivity].
    + change (String.eqb "" "") with true. cbn [negb fst snd messages lastPacketIndex howManyReceived].
      assert (I : <[i := f i]> (map (fun j => if arrived l j then f j else "") slots) = map (fun j => if arrived (i :: l) j then f j else "") slots).
      { rewrite <- (slot_insert _ (fun j => if arrived (i :: l) j then f j else "") i Hi) by (intros j N; now rewrite Other). now rewrite Self. }
      assert (Count : length (List.filter (arrived (i :: l)) slots) = S (length (List.filter (arrived l) slots))).
      { apply (filter_one_more _ _ i); auto using slots_nodup. }
      split; [split; [exact I|]; split; [exact L | rewrite R, Count; cbn [howManyReceived]; lia]|].
      rewrite L, R, I. pose proof (filter_full (arrived (i :: l)) slots) as Full. rewrite Count in Full.
      assert (Ls : length slots = S last) by apply length_seq. rewrite Ls in Full.
      destruct (Z.ltb_spec (Z.of_nat last) (Z.of_nat (length (List.filter (arrived l) slots)) + 1)) as [Lt|Ge].
      * rewrite (proj1 Full) by lia. assert (All := proj1 Full ltac:(lia)). rewrite forallb_forall in All.
        clear - All. induction slots as [|j s IH]; [reflexivity|]. cbn [map foldr]. rewrite (All j) by now left.
        rewrite IH; [reflexivity|]. intros k Hk. apply All. now right.
      * destruct (forallb _ _); [|reflexivity]. assert (Hfull := proj2 Full eq_refl). lia.
  - rewrite bool_decide_eq_false_2 by exact Hi. cbn [andb fst snd]. split; [apply Keep; now right | reflexivity].
Qed.

Lemma incoming_holding : holding [] (incoming last from t0 t).
Proof.
  assert (E : forall j, arrived [] j = false) by (intros j; apply bool_decide_eq_false; apply not_elem_of_nil).
  split; [|split; [reflexivity|]]; cbn [messages howManyReceived incoming].
  - unfold slots. rewrite (map_ext _ (fun _ => "")) by (intros j; now rewrite E). rewrite map_const_repeat, length_seq. reflexivity.
  - rewrite (List.filter_ext _ (fun _ => false)) by exact E. now induction slots.
Qed.

Lemma adds_holding (l : list (Z * nat)) : holding (rev l.*2) (adds l).
Proof.
  unfold adds. induction l as [|p l IH] using rev_ind; [exact incoming_holding|].
  rewrite foldl_app, fmap_app, rev_app_distr. exact (proj1 (add_holding p.1 p.2 _ _ IH)).
Qed.

Lemma arrived_rev (l : list nat) (j : nat) : arrived (rev l) j = arrived l j.
Proof. apply bool_decide_ext. rewrite !list_elem_of_In. symmetry. apply in_rev. Qed.

Lemma completed_rev (l : list nat) (i : nat) : completed (rev l) i = completed l i.
Proof.
  unfold completed. rewrite arrived_rev. f_equal. apply eq_true_iff_eq. rewrite !forallb_forall.
  split; intros A j Hj; specialize (A j Hj); unfold arrived in *; apply bool_decide_eq_true; apply bool_decide_eq_true in A;
    revert A; rewrite !elem_of_cons, !list_elem_of_In, <- in_rev; auto.
Qed.

Lemma mayday_spec (a : list nat) (n start : nat) (l : list Z) : Forall (Z.le 0) l ->
  mayday_loop (numbers l) (Z.of_nat start) (map (fun j => if arrived a j then f j else "") (seq start n)) =
  numbers (l ++ map Z.of_nat (List.filter (fun j => negb (arrived a j)) (seq start n))).
Proof.
  revert start l; induction n as [|n IH]; intros start l F; cbn [seq map List.filter mayday_loop]; [now rewrite app_nil_r|].
  replace (Z.of_nat start + 1) with (Z.of_nat (S start)) by lia. destruct (arrived a start); cbn [negb].
  - rewrite (proj2 (String.eqb_neq _ _) (Hf start)). now apply IH.
  - change (String.eqb "" "") with true. cbv match. fold (append_number (numbers l) (Z.of_nat start)). rewrite append_numbers by exact F.
    rewrite IH by (apply List.Forall_app; split; [exact F | repeat constructor; lia]). cbn [map]. now rewrite <- app_assoc.
Qed.

(** The fragment that completes a message returns the payloads in the order of the indexes, every other
    one returns nothing. *)
Lemma reassembly (l : list (Z * nat)) (now : Z) (i : nat) :
  (add now i (f i) (adds l)).2 = (if completed l.*2 i then foldr (fun j rest => payload (f j) +:+ rest) "" slots else "") /\
  isMissing (adds l) = negb (forallb (arrived l.*2) slots) /\
  getMaydayPacket (adds l) = numbers (map Z.of_nat (List.filter (fun j => negb (arrived l.*2 j)) slots)).
Proof.
  pose proof (adds_holding l) as H. split; [|split].
  - rewrite (proj2 (add_holding now i _ _ H)). now rewrite completed_rev.
  - destruct H as (_ & L & R). unfold isMissing. rewrite L, R. rewrite (List.filter_ext _ _ (arrived_rev l.*2)).
    pose proof (filter_full (arrived l.*2) slots) as Full. rewrite (length_seq (S last) 0 : length slots = S last) in Full.
    destruct (forallb _ slots); cbn [negb]; [apply Z.leb_gt | apply Z.leb_le].
    + pose proof (proj2 Full eq_refl). lia.
    + destruct (Z.leb_spec (Z.of_nat (length (List.filter (arrived l.*2) slots))) (Z.of_nat last)) as [G|G]; [exact G|].
      assert (false = true) by (apply Full; lia). discriminate.
  - destruct H as (M & _). unfold getMaydayPacket. rewrite M. pose proof (mayday_spec (rev l.*2) (S last) 0 [] ltac:(constructor)) as E.
    change (numbers []) with "" in E. change (Z.of_nat 0) with 0 in E. fold slots in E. rewrite E. cbn [app].
    now rewrite (List.filter_ext _ (fun j => negb (arrived l.*2 j))) by (intros j; now rewrite arrived_rev).
Qed.
End Reassembly.


(** ** The fragments of a packet *)

Lemma substring_add (s : string) (a j k : nat) : substring a j s +:+ substring (a + j) k s = substring a (j + k) s.
Proof.
  revert a j k; induction s as [|c s IH]; intros a j k.
  - destruct a, j, k; reflexivity.
  - destruct a as [|a]; cbn [substring Nat.add]; [|apply IH]. destruct j as [|j]; cbn [substring Nat.add]; [reflexivity|].
    change (String c (substring 0 j s) +:+ substring j k s) with (String c (substring 0 j s +:+ substring j k s)). f_equal. exact (IH O j k).
Qed.

Lemma substring_all (s : string) (n : nat) : (String.length s <= n)%nat -> substring 0 n s = s.
Proof. revert n; induction s as [|c s IH]; intros [|n] H; cbn in *; [reflexivity | reflexivity | lia | f_equal; apply IH; lia]. Qed.

Lemma substring_pieces (packet : string) (k n start : nat) :
  foldr (fun j rest => substring (j * k) k packet +:+ rest) "" (seq start n) = substring (start * k) (n * k) packet.
Proof.
  revert start; induction n as [|n IH]; intros start; cbn [seq foldr].
  - cbn [Nat.mul]. generalize (start * k)%nat. clear.
    induction packet as [|c s IH]; intros [|a]; cbn [substring]; auto.
  - rewrite IH. replace (S start * k)%nat with (start * k + k)%nat by lia. now rewrite substring_add.
Qed.

Lemma payload_behind (a b : string) : mem ":" a = false -> payload (a +:+ (":" +:+ b)) = b.
Proof.
  intros Ha. unfold payload. assert (E : after_colon (a +:+ (":" +:+ b)) = Some b); [|now rewrite E].
  induction a as [|c a IH]; [reflexivity|]. change (String c a +:+ (":" +:+ b)) with (String c (a +:+ (":" +:+ b))).
  cbn [mem after_colon] in *. apply orb_false_elim in Ha as [H1 H2]. rewrite Ascii.eqb_sym in H1. rewrite H1. now apply IH.
Qed.

Lemma two_digits_clean (n : Z) : 0 <= n -> mem ":" (two_digits n) = false.
Proof. intros H. unfold two_digits. pose proof (mem_to_string ":" n eq_refl H) as M. destruct (_ =? 1)%nat; [|exact M]. now rewrite mem_app, M. Qed.

Lemma fragment_payload (nonce lastPacketIndex : Z) (packet : string) (j : nat) : 0 <= nonce -> 0 <= lastPacketIndex ->
  payload (fragment nonce lastPacketIndex packet j) = substring (j * packetSize) packetSize packet.
Proof.
  intros Hn Hl. unfold fragment. rewrite <- !string_app_assoc, (string_app_assoc _ ":"). apply payload_behind.
  rewrite !mem_app, mem_to_string, !two_digits_clean by (easy || lia). reflexivity.
Qed.

Lemma fragment_nonempty (nonce lastPacketIndex : Z) (packet : string) (j : nat) : 0 <= nonce -> fragment nonce lastPacketIndex packet j <> "".
Proof. intros H E. apply (to_string_nonempty nonce H). unfold fragment in E. now destruct (to_string nonce). Qed.

(** C26: The fragments of a packet put it together again: they may arrive in any order, any number of
    times, among fragments with indexes beyond the last; the one that completes the packet returns it,
    every other one returns nothing; until then isMissing holds and getMaydayPacket lists exactly the
    missing indexes. *)
Theorem fragments_reassembled (last : nat) (from packet : string) (nonce now t0 t : Z) (l : list (Z * nat)) (i : nat)
  (f := fragment nonce (Z.of_nat last) packet) (m := adds last from t0 t f l) :
  0 <= nonce -> (String.length packet <= S last * packetSize)%nat ->
  (add now i (f i) m).2 = (if completed last l.*2 i then packet else "") /\
  isMissing m = negb (forallb (arrived l.*2) (slots last)) /\
  getMaydayPacket m = numbers (map Z.of_nat (List.filter (fun j => negb (arrived l.*2 j)) (slots last))).
Proof.
  intros Hn Hl. destruct (reassembly last from t0 t f (fun j => fragment_nonempty _ _ _ j Hn) l now i) as (A & M & P).
  split; [|now split]. unfold m. rewrite A. destruct (completed last l.*2 i); [|reflexivity].
  transitivity (foldr (fun j rest => substring (j * packetSize) packetSize packet +:+ rest) "" (slots last)).
  - clear A M P. induction (slots last) as [|j s IH]; [reflexivity|]. cbn [foldr]. rewrite IH. unfold f. now rewrite fragment_payload by lia.
  - unfold slots. rewrite substring_pieces. now apply substring_all.
Qed.

(** fragmentPacket itself makes at most one fragment; a longer packet goes into the DHT as it is. *)
Lemma fragmentPacket_spec (nonce : Z) (packet : string) (s : node) :
  fragmentPacket nonce packet s =
    if (packetSize <? String.length packet)%nat then ((dhtPut (to_string nonce) packet false s).1, Ok [])
    else (s, Ok (if (String.length packet =? 0)%nat then [] else [fragment nonce 0 packet 0])).
Proof.
  unfold fragmentPacket. set (n := String.length packet).
  pose proof (Nat.div_mod_eq n packetSize) as D. pose proof (Nat.mod_upper_bound n packetSize ltac:(discriminate)) as M.
  set (q := (n / packetSize)%nat) in *. set (r := (n mod packetSize)%nat) in *. change packetSize with 50%nat in D, M |- *.
  destruct (Nat.ltb_spec 50 n), (Nat.eqb_spec r 0), (Nat.eqb_spec n 0); try lia.
  - rewrite (proj2 (Nat.ltb_lt 1 _)) by lia. reflexivity.
  - rewrite (proj2 (Nat.ltb_lt 1 _)) by lia. reflexivity.
  - now replace q with 0%nat by lia.
  - now replace q with 1%nat by lia.
  - now replace q with 0%nat by lia.
Qed.

(** ** Witnesses *)

Section Witnesses.
(** A compressor that writes a null in front. *)
#[local, refine] Instance null_zlib : Zlib :=
  {| deflate s := String NUL s; inflate s := match s with String _ s => Ok s | "" => Throw runtime_error end |}.
Proof. reflexivity. Defined.

Lemma compression_roundtrip_witness : decompressString (compressString "a_b,c") = Ok "a_b,c".
Proof. destruct (@compression_roundtrip boost_strings null_zlib "a_b,c") as [_ R]; [reflexivity | exact R]. Defined.

(** Two fragments of a packet of 60 characters, the second one first. *)
Lemma fragments_reassembled_witness :
  let packet := "123456789012345678901234567890123456789012345678901234567890" in
  let f := fragment 7 1 packet in let m := adds 1 "n" 0 0 f [(1, 1%nat); (2, 5%nat); (3, 1%nat)] in
  (add 4 0 (f O) m).2 = packet /\ isMissing m = true /\ getMaydayPacket m = "0".
Proof.
  intros packet f m.
  destruct (fragments_reassembled 1 "n" packet 7 4 0 0 [(1, 1%nat); (2, 5%nat); (3, 1%nat)] 0) as (A & M & P); [lia | vm_compute; lia |].
  split; [|split].
  - etransitivity; [exact A | vm_compute; reflexivity].
  - etransitivity; [exact M | vm_compute; reflexivity].
  - etransitivity; [exact P | vm_compute; reflexivity].
Defined.
End Witnesses.
