(* ===== verification/Changes.v ===== *)
(** * Changes on their way

    The commands a function makes, from the text the script CommandBuilder.txt builds in a compute node to
    the queues of a storage node: [processStateChangeCmds] of Compute, the message format of Wire,
    [processIncomingData] of Node and [onStateChange] of Queue put together. *)

From Stdlib Require Import ZArith Lia List Bool Ascii String.
From stdpp Require Import base gmap strings list fin_maps.
From S2P Require Import Prelude.
From S2P Require Import Cpp.
From S2P Require Import Json.
From S2P Require Import Wire.
From S2P Require Import Node.
From S2P Require Import Queue.
From S2P Require Import Compute.
From S2P Require Import JsonText.

Local Open Scope Z_scope.

(** ** The text of the commands *)

(** A change of a document or template: what a POST adds, or what a PUT or DELETE does, as a command. *)
Inductive change := Post (command : string) | Change (command : string).

Definition command_of (c : change) : string := match c with Post command => command | Change command => command end.
Definition is_post (c : change) : bool := match c with Post _ => true | Change _ => false end.

(** [execute]: what becomes of the variable [stateChangeCmds]. *)
Definition post_change (tenantid stateChangeCmds command : string) : string :=
  (if String.eqb stateChangeCmds "" then "c:6|tid:" +:+ (tenantid +:+ "|cmds:") else ",cmds:") +:+ command.

Definition put_change (tenantid stateChangeCmds command : string) : string :=
  if String.eqb stateChangeCmds "" then "c:6|tid:" +:+ (tenantid +:+ ("|cmds:" +:+ command))
  else stateChangeCmds +:+ (",cmds:" +:+ command).

Definition execute_change (tenantid stateChangeCmds : string) (c : change) : string :=
  match c with
  | Post command => post_change tenantid stateChangeCmds command
  | Change command => put_change tenantid stateChangeCmds command
  end.

Definition execute_changes (tenantid : string) (l : list change) : string := foldl (execute_change tenantid) "" l.

(** ** Fields with colons in their values *)

(** A part of a message: a key, and the pieces between its colons. *)
Definition part_text (p : string * (string * list string)) : string := join ":" (p.1 :: p.2.1 :: p.2.2).
Definition part_field `{BoostStrings} (p : string * (string * list string)) : string * string := (p.1, decode_value p.2.1).
Definition colon_free (p : string * (string * list string)) : Prop := Forall (fun s => mem ":" s = false) (p.1 :: p.2.1 :: p.2.2).

Section Parts.
Context `{BoostStrings}.

Lemma read_part (m : gmap string string) (p : string * (string * list string)) : colon_free p ->
  read_field m (part_text p) = Ok (m ∪ {[p.1 := (part_field p).2]}).
Proof.
  intros F. unfold read_field, part_text. rewrite split_join by (discriminate || exact F). now rewrite add_field_union.
Qed.

Lemma read_parts (l : list (string * (string * list string))) (m : gmap string string) : Forall colon_free l ->
  foldl (fun r pair => r ≫= fun m => read_field m pair) (Ok m) (map part_text l) = Ok (m ∪ list_to_map (map part_field l)).
Proof.
  intros F. revert m; induction F as [|p l Hp F IH]; intros m; cbn [map foldl]; [cbn; now rewrite (right_id_L ∅ (∪))|].
  change (Ok m ≫= fun m0 => read_field m0 (part_text p)) with (read_field m (part_text p)). rewrite read_part by exact Hp.
  rewrite IH, <- (assoc_L (∪)). do 2 f_equal. cbn. symmetry. apply insert_union_singleton_l.
Qed.

Lemma get_parts (l : list (string * (string * list string))) : l <> [] -> Forall colon_free l ->
  Forall (fun p => mem "|" (part_text p) = false) l ->
  getFieldsAndValues (join "|" (map part_text l)) = Ok (list_to_map (map part_field l)).
Proof.
  intros Hl Fc Fb. unfold getFieldsAndValues. rewrite split_join; [|now destruct l | now apply List.Forall_map].
  rewrite read_parts by exact Fc. now rewrite (left_id_L ∅ (∪)).
Qed.

(** Text without the delimiters of messages, escapes and nulls. *)
Definition clean (s : string) : bool := negb (mem "|" s || mem ":" s || mem NUL s || mem "%" s).

Lemma clean_spec (s : string) : clean s = true <-> mem "|" s = false /\ mem ":" s = false /\ mem NUL s = false /\ mem "%" s = false.
Proof. unfold clean. rewrite negb_true_iff, !orb_false_iff. tauto. Qed.

Lemma decode_clean (s : string) : mem "%" s = false -> decode_value s = s.
Proof.
  intros Hm. unfold decode_value.
  assert (E : forall c x y t, mem "%" t = false -> replace_all (String "%" (String x (String y ""))) (String c "") t = t).
  { intros c x y t. induction t as [|d t IH]; cbn [mem]; [intros _; apply replace_empty|]. intros [H1 H2]%orb_false_elim.
    rewrite dec_not_percent by (intros ->; discriminate). now rewrite IH. }
  change "%3A" with (String "%" (String "3" (String "A" ""))). rewrite (E ":"%char _ _ s Hm). exact (E _ _ _ s Hm).
Qed.
End Parts.

(** ** What the builder leaves *)

Definition later (l : list change) : string := foldl (fun s c => s +:+ (",cmds:" +:+ command_of c)) "" l.

Lemma later_app (s : string) (l : list change) : foldl (fun s c => s +:+ (",cmds:" +:+ command_of c)) s l = s +:+ later l.
Proof.
  unfold later. revert s; induction l as [|c l IH]; intros s; cbn [foldl]; [now rewrite string_app_nil_r|].
  rewrite IH, (IH (_ +:+ _)). now autorewrite with strings.
Qed.

(** The pieces between the colons of a command and those behind it. *)
Fixpoint pieces (command : string) (l : list change) : string * list string :=
  match l with
  | [] => (command, [])
  | c :: l => let p := pieces (command_of c) l in (command +:+ ",cmds", p.1 :: p.2)
  end.

Lemma later_cons (c : change) (l : list change) : later (c :: l) = ",cmds:" +:+ (command_of c +:+ later l).
Proof. unfold later at 1. cbn [foldl]. rewrite later_app. now autorewrite with strings. Qed.

Lemma pieces_text (key command : string) (l : list change) :
  part_text (key, pieces command l) = key +:+ (":" +:+ (command +:+ later l)).
Proof.
  unfold part_text. cbn [fst snd]. rewrite join_cons. unfold tail. change (String ":" (join ":" ?x)) with (":" +:+ join ":" x). do 2 f_equal.
  revert command; induction l as [|c l IH]; intros command; cbn [pieces fst snd]; [cbn [join]; now rewrite string_app_nil_r|].
  rewrite join_cons. unfold tail. rewrite IH, later_cons. now autorewrite with strings.
Qed.

Lemma execute_first (tenantid : string) (c : change) :
  execute_change tenantid "" c = "c:6|tid:" +:+ (tenantid +:+ ("|cmds:" +:+ command_of c)).
Proof. destruct c; cbn [execute_change command_of]; unfold post_change, put_change; [|reflexivity]. change (String.eqb "" "") with true. cbv match. now autorewrite with strings. Qed.

(** A POST behind the first command replaces everything before it. *)
Lemma execute_rest (tenantid : string) (l : list change) (s : string) : s <> "" ->
  if existsb is_post l
  then exists command after, Post command ∈ l /\ incl after l /\
    foldl (execute_change tenantid) s l = ",cmds:" +:+ (command +:+ later after)
  else foldl (execute_change tenantid) s l = s +:+ later l.
Proof.
  revert s; induction l as [|c l IH]; intros s Hs; cbn [existsb foldl]; [now rewrite string_app_nil_r|].
  apply String.eqb_neq in Hs. destruct c as [p|p]; cbn [is_post orb execute_change]; unfold post_change, put_change; rewrite Hs.
  - specialize (IH (",cmds:" +:+ p) ltac:(discriminate)). destruct (existsb is_post l).
    + destruct IH as (q & after & Hq & Ha & E). exists q, after. split; [now right|]. split; [|exact E]. intros d Hd. right. now apply Ha.
    + exists p, l. split; [now left|]. split; [intros d Hd; now right|]. rewrite IH. now autorewrite with strings.
  - specialize (IH (s +:+ (",cmds:" +:+ p))). destruct (existsb is_post l).
    + destruct IH as (q & after & Hq & Ha & E); [now destruct s|]. exists q, after. split; [now right|]. split; [|exact E]. intros d Hd. right. now apply Ha.
    + rewrite IH by now destruct s. rewrite later_cons. now autorewrite with strings.
Qed.

(** ** The message *)

(** Commands that nothing on the way takes apart or changes: no separators of messages or of commands, no
    escapes, no nulls. CommandBuilder.txt does write such characters: the "or" of a filter as [|], and the
    values of a filter as they are. *)
Definition clean_command (c : change) : bool := clean (command_of c) && negb (mem "," (command_of c)).

Lemma clean_command_spec (c : change) : clean_command c = true <->
  (mem "|" (command_of c) = false /\ mem ":" (command_of c) = false /\ mem NUL (command_of c) = false /\ mem "%" (command_of c) = false) /\
  mem "," (command_of c) = false.
Proof. unfold clean_command. now rewrite andb_true_iff, clean_spec, negb_true_iff. Qed.

Lemma later_mem (a : ascii) (l : list change) : mem a ",cmds:" = false -> Forall (fun c => mem a (command_of c) = false) l -> mem a (later l) = false.
Proof.
  intros Ha. induction 1 as [|c l Hc F IH]; [reflexivity|]. rewrite later_cons, !mem_app. now rewrite Ha, Hc, IH.
Qed.

Lemma pieces_colon (command : string) (l : list change) : mem ":" command = false -> Forall (fun c => mem ":" (command_of c) = false) l ->
  Forall (fun s => mem ":" s = false) ((pieces command l).1 :: (pieces command l).2).
Proof.
  revert command; induction l as [|c l IH]; intros command Hc F; cbn [pieces fst snd]; [repeat constructor; exact Hc|].
  inversion_clear F as [|? ? H1 H2]. constructor; [now rewrite mem_app, Hc | now apply IH].
Qed.

Lemma pieces_first (command : string) (l : list change) : (pieces command l).1 = if decide (l = []) then command else command +:+ ",cmds".
Proof. now destruct l. Qed.

(** The parts that the sender's node and the receiver add. *)
Definition plain_part (p : string * string) : string * (string * list string) := (p.1, (p.2, [])).
Definition envelope_parts (msgid key : string) (now : Z) (nonce : string) := map plain_part (envelope msgid key now nonce).

Ltac good_parts := repeat (apply List.Forall_cons; [assumption|]); apply List.Forall_nil.

(** What holds of a part made of clean pieces. *)
Definition good_part (p : string * (string * list string)) : Prop :=
  colon_free p /\ mem "|" (part_text p) = false /\ mem NUL (part_text p) = false.

Section Message.
Context `{BoostStrings}.

Lemma plain_text (p : string * string) : part_text (plain_part p) = field_text p.
Proof. reflexivity. Qed.

Lemma message_parts (l : list (string * (string * list string))) (msgid key nonce : string) (now : Z) :
  l <> [] -> Forall good_part l ->
  clean msgid = true -> clean key = true -> clean nonce = true -> 0 <= now ->
  getFieldsAndValues (fetched (complete_message (join "|" (map part_text l)) msgid key now) nonce) =
  Ok (list_to_map (map part_field l) ∪ list_to_map (envelope msgid key now nonce)).
Proof.
  intros Hl Fg Hi Hk Hn Ht. assert (Fc : Forall colon_free l) by (eapply Forall_impl; [exact Fg | now intros p []]).
  assert (Fb : Forall (fun p => mem "|" (part_text p) = false /\ mem NUL (part_text p) = false) l) by (eapply Forall_impl; [exact Fg | now intros p []]).
  clear Fg. apply clean_spec in Hi as (I1 & I2 & I3 & I4), Hk as (K1 & K2 & K3 & K4), Hn as (N1 & N2 & N3 & N4).
  assert (T : forall c, isdigit c = false -> mem c (to_string now) = false) by (intros c Hc; now apply mem_to_string).
  assert (E : fetched (complete_message (join "|" (map part_text l)) msgid key now) nonce =
    join "|" (map part_text (l ++ envelope_parts msgid key now nonce))).
  { unfold complete_message. rewrite removeNull_id.
    - rewrite map_app, join_app by now destruct l. unfold envelope_parts. rewrite map_map. cbn [envelope map join].
      rewrite !plain_text. unfold fetched, field_text; cbn [fst snd]. now autorewrite with strings.
    - rewrite !mem_app, I3, K3, T by reflexivity. cbn [mem orb]. rewrite !orb_false_r. clear - Fb Hl.
      induction Fb as [|p l [_ Hp] F IH]; [easy|]. cbn [map]. rewrite join_cons, mem_app, Hp. destruct l as [|q l]; [reflexivity|].
      unfold tail. cbn [mem orb map]. cbn [map] in IH. now rewrite IH. }
  rewrite E, get_parts.
  - rewrite map_app, list_to_map_app. do 3 f_equal. unfold envelope_parts. rewrite map_map. cbn [envelope map]. unfold part_field, plain_part.
    cbn [fst snd]. now rewrite !decode_clean by (assumption || now apply T).
  - now destruct l.
  - apply Forall_app. split; [exact Fc|]. unfold envelope_parts, colon_free, plain_part. cbn [envelope map].
    repeat constructor; cbn [fst snd]; (assumption || now apply T).
  - apply Forall_app. split; [eapply Forall_impl; [exact Fb | now intros p []]|]. unfold envelope_parts. cbn [envelope map].
    repeat constructor; rewrite plain_text; unfold field_text; cbn [fst snd]; rewrite !mem_app; cbn [mem]; rewrite ?I1, ?K1, ?N1, ?T by reflexivity; reflexivity.
Qed.
End Message.

Lemma lookup_add_field (k v i : string) (m : gmap string string) : i <> k -> add_field k v m !! i = m !! i.
Proof. intros N. unfold add_field. destruct (m !! k); [reflexivity|]. now rewrite lookup_insert_ne by congruence. Qed.

Lemma add_field_known (k v w : string) (m : gmap string string) : m !! k = Some w -> add_field k v m = m.
Proof. unfold add_field. now intros ->. Qed.

Section Receive.
Context `{BoostStrings} `{JsonText} `{Services}.

(** The node after a message is remembered. *)
Definition remembered (msgid : string) (s : node) : node := set_processedMessages ({[msgid]} ∪ processedMessages s) s.

(** A new message of the network reaches the handlers, if it names a command. *)
Lemma incoming_run (data msgid key guid : string) (now : Z) (m : gmap string string) (s : node) :
  getFieldsAndValues data = Ok m -> m !! "k" = Some key -> key <> node_id -> m !! "tm" = Some (to_string now) ->
  m !! "msgid" = Some msgid -> msgid ∉ processedMessages s -> appStartupTime s <= now -> 0 <= now < 2 ^ 63 ->
  (m !! "c" = None -> processIncomingData data "" guid 0 false s = (remembered msgid s, Throw out_of_range)) /\
  (m !! "c" = Some "6" -> processIncomingData data "" guid 0 false s = (remembered msgid s, Ok (Dispatch stateChange (add_field "ws" "0" m)))).
Proof.
  intros E Ek Nk Et Em Hm Hs Ht. unfold processIncomingData, check_repeated, of_result, field. cbv [mbind M_bind mret M_ret get].
  rewrite E, Ek. rewrite (proj2 (String.eqb_neq _ _) Nk), Et, stoll_to_string by exact Ht. rewrite (add_field_known "tm" _ _ _ Et).
  rewrite (proj2 (Z.ltb_ge _ _)) by exact Hs. rewrite Em. destruct (decide _) as [F|_]; [contradiction|]. cbv [modify].
  rewrite lookup_add_field by discriminate. split; intros Ec; rewrite Ec; [reflexivity|].
  rewrite (add_field_known "k" "" key) by (rewrite lookup_add_field by discriminate; exact Ek). reflexivity.
Qed.

(** ** Delivery *)

Context `{Engine} `{Begin RequestData} `{PriorityQueue CommandInfo OrderByTimeStamp}.

Definition change_text (tx tenantid : string) (l : list change) : string := "txid:" +:+ (tx +:+ ("|" +:+ execute_changes tenantid l)).

(** The parts of the message of a function's changes. *)
Definition ordered_parts (tx tenantid : string) (first : change) (rest : list change) :=
  [plain_part ("txid", tx); plain_part ("c", "6"); plain_part ("tid", tenantid); ("cmds", pieces (command_of first) rest)].
Definition broken_parts (tx command : string) (rest : list change) := [plain_part ("txid", tx); (",cmds", pieces command rest)].

Lemma ordered_text (tx tenantid : string) (first : change) (rest : list change) : existsb is_post rest = false ->
  change_text tx tenantid (first :: rest) = join "|" (map part_text (ordered_parts tx tenantid first rest)).
Proof.
  intros P. unfold change_text, execute_changes, ordered_parts. cbn [foldl map]. rewrite execute_first.
  pose proof (execute_rest tenantid rest ("c:6|tid:" +:+ (tenantid +:+ ("|cmds:" +:+ command_of first))) ltac:(discriminate)) as R.
  rewrite P in R. rewrite R. rewrite pieces_text. cbn [join]. unfold part_text, plain_part. cbn [fst snd join]. now autorewrite with strings.
Qed.

Lemma broken_text (tx tenantid : string) (first : change) (rest : list change) : existsb is_post rest = true ->
  exists command after, Post command ∈ rest /\ incl after rest /\
    change_text tx tenantid (first :: rest) = join "|" (map part_text (broken_parts tx command after)).
Proof.
  intros P. unfold change_text, execute_changes, broken_parts. cbn [foldl map]. rewrite execute_first.
  pose proof (execute_rest tenantid rest ("c:6|tid:" +:+ (tenantid +:+ ("|cmds:" +:+ command_of first))) ltac:(discriminate)) as R.
  rewrite P in R. destruct R as (command & after & Hc & Ha & R). exists command, after. split; [exact Hc|]. split; [exact Ha|].
  rewrite R, pieces_text. cbn [join]. unfold part_text, plain_part. cbn [fst snd join]. now autorewrite with strings.
Qed.

Lemma good_plain (k v : string) : clean k = true -> clean v = true -> good_part (plain_part (k, v)).
Proof.
  intros (K1 & K2 & K3 & _)%clean_spec (V1 & V2 & V3 & _)%clean_spec. split; [repeat constructor; assumption|].
  rewrite plain_text. unfold field_text; cbn [fst snd]. rewrite !mem_app, K1, K3, V1, V3. now split.
Qed.

Lemma good_pieces (k command : string) (l : list change) : clean k = true -> clean command = true ->
  Forall (fun c => clean_command c = true) l -> good_part (k, pieces command l).
Proof.
  intros (K1 & K2 & K3 & _)%clean_spec (V1 & V2 & V3 & _)%clean_spec F. split; [|split].
  - constructor; [exact K2|]. apply pieces_colon; [exact V2|]. eapply Forall_impl; [exact F|]. intros c Hc%clean_command_spec. tauto.
  - rewrite pieces_text, !mem_app, K1, V1, later_mem; [reflexivity | reflexivity |]. eapply Forall_impl; [exact F|]. intros c Hc%clean_command_spec. tauto.
  - rewrite pieces_text, !mem_app, K3, V3, later_mem; [reflexivity | reflexivity |]. eapply Forall_impl; [exact F|]. intros c Hc%clean_command_spec. tauto.
Qed.

Lemma decoded_parts (tx tenantid : string) (first : change) (rest : list change) : clean tx = true -> clean tenantid = true ->
  clean_command first = true ->
  map part_field (ordered_parts tx tenantid first rest) =
    [("txid", tx); ("c", "6"); ("tid", tenantid); ("cmds", (pieces (command_of first) rest).1)].
Proof.
  intros (_ & _ & _ & Hx)%clean_spec (_ & _ & _ & Ht)%clean_spec ((_ & _ & _ & Hc) & _)%clean_command_spec.
  unfold ordered_parts, part_field, plain_part. cbn [map fst snd]. rewrite !decode_clean; try assumption; [reflexivity | | reflexivity].
  rewrite pieces_first. destruct (decide _); [exact Hc|]. now rewrite mem_app, Hc.
Qed.

Lemma execute_nonempty (tenantid : string) (first : change) (rest : list change) : execute_changes tenantid (first :: rest) <> "".
Proof.
  unfold execute_changes. cbn [foldl]. rewrite execute_first.
  pose proof (execute_rest tenantid rest ("c:6|tid:" +:+ (tenantid +:+ ("|cmds:" +:+ command_of first))) ltac:(discriminate)) as R.
  destruct (existsb is_post rest); [destruct R as (? & ? & _ & _ & R)|]; rewrite R; discriminate.
Qed.

Lemma changes_sent (theFields : gmap string string) (r : TransactionResult) (tenantid : string) (first : change) (rest : list change) (s : compute) :
  trs s !! field_or_empty theFields "txid" = Some r -> t_stateChangeCmds r = execute_changes tenantid (first :: rest) ->
  out (net (processStateChangeCmds theFields s).1) =
    (out (net s) ++ [GossipText (field_or_empty theFields "sid") (change_text (field_or_empty theFields "txid") tenantid (first :: rest))])%list.
Proof.
  intros Hr Hc. unfold processStateChangeCmds. cbv [mbind M_bind get]. rewrite Hr, Hc.
  rewrite (proj2 (String.eqb_neq _ _)) by apply execute_nonempty. reflexivity.
Qed.

(** The handler of a storage node on a message of changes. *)
Lemma changes_queued (tx tenantid v msgid key nonce : string) (now : Z) (q : storage) : 0 <= now < 2 ^ 63 ->
  let F := add_field "ws" "0" (list_to_map [("txid", tx); ("c", "6"); ("tid", tenantid); ("cmds", v)] ∪ list_to_map (envelope msgid key now nonce)) in
  onStateChange F q = Ok (push_all tenantid (delete "cmds" F) now (split "," v) q).
Proof.
  intros Ht F. unfold onStateChange, field. unfold mbind, result_bind.
  assert (L : delete "cmds" F !! "tm" = Some (to_string now)) by (rewrite lookup_delete_ne by discriminate; reflexivity).
  change (F !! "tid") with (Some tenantid). change (F !! "cmds") with (Some v). change (F !! "txid") with (Some tx).
  change (F !! "ws") with (Some "0"). change (F !! "k") with (Some key). rewrite L. cbv match. now rewrite stoll_to_string.
Qed.

(** C12: A transaction may commit, and its changes travel from the compute node that kept them to a storage
    node, which has not seen the message. The identifiers are free of separators, escapes and nulls,
    and so are the commands: a command with one of [|], [:], [%], a comma or a null is left out here
    (a filter with an "or" has the first, and is lost: [or_lost]). Of one change, exactly its command
    is queued. Of several, only the first is queued when the others are updates and deletions,
    together with a command of the name of the field; when a creation is among the others the message
    names no command and nothing is queued. *)
Theorem changes_delivered (theFields : gmap string string) (r : TransactionResult) (tx sid tenantid msgid key nonce : string)
  (now : Z) (first : change) (rest : list change) (c : compute) (s : node) (q : storage) :
  field_or_empty theFields "txid" = tx -> field_or_empty theFields "sid" = sid -> trs c !! tx = Some r ->
  t_stateChangeCmds r = execute_changes tenantid (first :: rest) ->
  forallb clean [tx; tenantid; msgid; key; nonce] = true -> Forall (fun d => clean_command d = true) (first :: rest) ->
  key <> node_id -> msgid ∉ processedMessages s -> appStartupTime s <= now -> 0 <= now < 2 ^ 63 ->
  let text := change_text tx tenantid (first :: rest) in
  let received := processIncomingData (fetched (complete_message text msgid key now) nonce) "" "" 0 false s in
  out (net (processStateChangeCmds theFields c).1) = (out (net c) ++ [GossipText sid text])%list /\
  if existsb is_post rest then received = (remembered msgid s, Throw out_of_range)
  else exists F, received = (remembered msgid s, Ok (Dispatch stateChange F)) /\
    onStateChange F q = Ok (push_all tenantid (delete "cmds" F) now
      (command_of first :: if decide (rest = []) then [] else ["cmds"]) q).
Proof.
  intros <- <- Hr Hc Hk Hcs Nk Hm Hs Ht text received. split; [exact (changes_sent _ _ _ _ _ _ Hr Hc)|].
  cbn [forallb] in Hk. rewrite !andb_true_iff in Hk. destruct Hk as (Cx & Ct & Ci & Ck & Cn & _).
  inversion_clear Hcs as [|? ? Cf Cr]. pose proof (proj1 (andb_prop _ _ Cf)) as Cf1.
  unfold received, text. clear received text. destruct (existsb is_post rest) eqn:P.
  - destruct (broken_text (field_or_empty theFields "txid") tenantid first rest P) as (command & after & Hin & Hafter & E). rewrite E.
    rewrite List.Forall_forall in Cr. pose proof (proj1 (andb_prop _ _ (Cr _ (proj1 (list_elem_of_In _ _) Hin)))) as Cc. cbn [command_of] in Cc.
    assert (Ca : Forall (fun d => clean_command d = true) after) by (apply List.Forall_forall; auto).
    pose proof (good_plain "txid" _ eq_refl Cx) as G1. pose proof (good_pieces ",cmds" command after eq_refl Cc Ca) as G2.
    eapply incoming_run; [apply message_parts; [discriminate | good_parts | assumption.. | lia] | ..].
    all: try eassumption; reflexivity.
  - rewrite (ordered_text _ _ _ _ P).
    pose proof (good_plain "txid" _ eq_refl Cx) as G1. pose proof (good_plain "c" "6" eq_refl eq_refl) as G2.
    pose proof (good_plain "tid" _ eq_refl Ct) as G3. pose proof (good_pieces "cmds" (command_of first) rest eq_refl Cf1 Cr) as G4.
    eexists. split.
    + eapply incoming_run; [apply message_parts; [discriminate | good_parts | assumption.. | lia] | ..].
      all: try eassumption; rewrite decoded_parts by assumption; reflexivity.
    + rewrite decoded_parts by assumption. rewrite changes_queued by exact Ht. do 2 f_equal. rewrite pieces_first.
      apply clean_command_spec in Cf as (_ & Cf). destruct (decide (rest = [])) as [->|N].
      * apply (split_join "," [_]); [discriminate | repeat constructor; exact Cf].
      * apply split_pair; [exact Cf | reflexivity].
Qed.
End Receive.

(** ** Witness *)

Section Witness.
#[local] Existing Instance sample_services.
#[local] Existing Instance command_queue.

(** A function deletes [x] and [y]: the deletion of [y] is lost. *)
Definition two_deletions : list change := [Change "8 T x"; Change "8 T y"].

Definition kept_changes : compute :=
  mkCompute empty_node ∅ {[ "tx" := mkResult "tx" "1" "" "" (execute_changes "t" two_deletions) ]} ∅ [].

Lemma changes_delivered_witness :
  let text := "txid:tx|c:6|tid:t|cmds:8 T x,cmds:8 T y" in
  out (net (processStateChangeCmds {[ "txid" := "tx"; "sid" := "s" ]} kept_changes).1) = [GossipText "s" text] /\
  exists F q, processIncomingData (fetched (complete_message text "m" "you" 2000) "n") "" "" 0 false empty_node =
    (remembered "m" empty_node, Ok (Dispatch stateChange F)) /\
    onStateChange F (mkStorage ∅ []) = Ok q /\
    (fun p => map command p.1) <$> stateChangeQueueMap q = {[ "tT" := [["8"; "T"; "x"]]; "tcmds" := [["cmds"]] ]}.
Proof.
  destruct (changes_delivered {[ "txid" := "tx"; "sid" := "s" ]} (mkResult "tx" "1" "" "" (execute_changes "t" two_deletions))
    "tx" "s" "t" "m" "you" "n" 2000 (Change "8 T x") [Change "8 T y"] kept_changes empty_node (mkStorage ∅ [])) as (A & F & B & C).
  all: try reflexivity.
  - repeat constructor.
  - discriminate.
  - apply not_elem_of_empty.
  - vm_compute. discriminate.
  - lia.
  - split; [exact A|]. exists F. eexists. split; [exact B|]. split; [exact C|]. vm_compute. reflexivity.
Defined.

(** A function deletes the documents of which one or the other condition holds. The builder writes the "or"
    as the separator of fields, so the storage node reads a field without a colon, throws, and queues
    nothing. *)
Definition either : string :=
  let quoted s := String "034"%char (s +:+ String "034"%char "") in
  quoted "a" +:+ "=" +:+ quoted "1" +:+ "|" +:+ quoted "b" +:+ "=" +:+ quoted "2".

Lemma or_lost :
  let text := "txid:tx|" +:+ execute_changes "t" [Change ("8 T " +:+ either)] in
  clean_command (Change ("8 T " +:+ either)) = false /\
  (processIncomingData (fetched (complete_message text "m" "you" 2000) "n") "" "" 0 false empty_node).2 = Throw out_of_range.
Proof. vm_compute. split; reflexivity. Qed.
End Witness.
