(* ===== verification/Tenants.v ===== *)
(** * The objects and documents of every tenant

    The storage node as a whole against an abstract store: the templates and functions of the
    tenants, and a map from their entities to documents. Sequences of commands, from any tenants,
    refine updates of that store, because the keys a command writes belong to its entity or its
    tree. That needs the names of the tenants to hold no underscore, which nothing checks: the keys
    of two tenants coincide otherwise; and that after each command the DHT answers with the values put
    last, which is a condition on the run. Updates of templates and functions are not among the commands:
    they link an object under a name its root already has, and IPFS does not document the order of
    the links that gives. *)

From Stdlib Require Import ZArith Lia List Bool Ascii String.
From stdpp Require Import base gmap strings list fin_maps.
From S2P Require Import Prelude.
From S2P Require Import Cpp.
From S2P Require Import Json.
From S2P Require Import JsonText.
From S2P Require Import Wire.
From S2P Require Import Node.
From S2P Require Import Expression.
From S2P Require Import Query.
From S2P Require Import Queue.
From S2P Require Import Store.
From S2P Require Import Documents.

(** The keys of different entities differ. *)
Lemma entity_key_inj (tid tid' e e' : string) : mem "_" tid = false -> mem "_" tid' = false ->
  entity_key tid e = entity_key tid' e' -> tid = tid' /\ e = e'.
Proof.
  intros H H' E. unfold entity_key in E. cbn in E. injection E as E.
  destruct (piece_inj "_" tid tid' [e] [e'] H H' E) as [-> K]. cbn in K. now injection K as ->.
Qed.

Lemma string_app_cancel (a b c : string) : a +:+ b = a +:+ c -> b = c.
Proof. induction a as [|x a IH]; [easy|]. cbn. intros E. apply IH. now injection E. Qed.

(** So do the keys of trees and of objects. *)
Lemma tree_key_inj (tree tree' tid tid' : string) : object_tree tree -> object_tree tree' ->
  root_key (tree_key tree tid) = root_key (tree_key tree' tid') -> tree = tree' /\ tid = tid'.
Proof. intros H H'. unfold root_key, tree_key. tree_cases; cbn; intros E; try discriminate; injection E as E; cbn in E; now subst. Qed.

Lemma object_key_inj (tree tree' tid tid' id id' : string) : object_tree tree -> object_tree tree' ->
  mem "_" tid = false -> mem "_" tid' = false -> object_key tree tid id = object_key tree' tid' id' ->
  tree = tree' /\ tid = tid' /\ id = id'.
Proof.
  intros H H' U U'. unfold object_key. tree_cases; cbn; intros E; try discriminate; injection E as E;
    destruct (piece_inj "_" tid tid' [id] [id'] U U' E) as [-> K]; cbn in K; now injection K as ->.
Qed.

(** What the tenants have: the texts of templates and functions, and the documents of entities. *)
Record store := mkStore {
  objects : gmap (string * string * string) string;
  entities : gmap (string * string) (gmap string json)
}.

(** A change of the state as a message asks for it: who sent it and for which client, the
    transaction, the tenant, the identifier drawn for a new object, and the command. *)
Record request := mkRequest {
  source : string; channel : string; txid : string; tenant : string; guid : string; command : list string
}.

Section Tenants.
Context `{BoostStrings} `{JsonText} `{Services} `{StdSort} `{Merkle} `{Dht} `{UnorderedMap} `{!Online}.
Context (memory : Z).

(** What a request does to the store. *)
Inductive store_step (A : store) (r : request) : store -> Prop :=
| document_command (e : string) (docs docs' : gmap string json) :
    entities A !! (tenant r, e) = Some docs -> updates e (guid r) docs (command r) docs' ->
    store_step A r (mkStore (objects A) (<[(tenant r, e) := docs']> (entities A)))
| new_template (text : string) :
    command r = ["1"; text] -> mem "_" (tenant r) = false -> objects A !! ("template", tenant r, guid r) = None ->
    store_step A r (mkStore (<[("template", tenant r, guid r) := base64_decode text]> (objects A))
                            (<[(tenant r, guid r) := ∅]> (entities A)))
| new_function (text : string) :
    command r = ["3"; text] -> mem "_" (tenant r) = false -> objects A !! ("function", tenant r, guid r) = None ->
    store_step A r (mkStore (<[("function", tenant r, guid r) := base64_decode text]> (objects A)) (entities A))
| delete_template (id text : string) :
    command r = ["7"; id] -> objects A !! ("template", tenant r, id) = Some text ->
    store_step A r (mkStore (delete ("template", tenant r, id) (objects A)) (delete (tenant r, id) (entities A)))
| delete_function (id text : string) :
    command r = ["9"; id] -> objects A !! ("function", tenant r, id) = Some text ->
    store_step A r (mkStore (delete ("function", tenant r, id) (objects A)) (entities A)).

Inductive store_run : store -> list request -> store -> Prop :=
| run_nil A : store_run A [] A
| run_cons A A1 A2 r rs : store_step A r A1 -> store_run A1 rs A2 -> store_run A (r :: rs) A2.

(** The storage node executes the requests in order. *)
Definition execute (r : request) : M storage_node unit :=
  executeStateChangeCommand memory (command r) (source r) (channel r) (txid r) (tenant r) (guid r).

Fixpoint execute_all (rs : list request) : M storage_node unit :=
  match rs with [] => mret tt | r :: rs => execute r;; execute_all rs end.

(** ** Trees *)

(** A tree links the objects of the store, and their keys name them. *)
Record tree_holds (s : storage_node) (A : store) (tree tid : string) : Prop := {
  tree_stored : dht_value s (root_key (tree_key tree tid)) = "" \/ stored (dht_value s (root_key (tree_key tree tid)));
  tree_names : NoDup (map fst (tree_links s (tree_key tree tid)));
  tree_objects : forall id h, (id, h) ∈ tree_links s (tree_key tree tid) <->
    exists text, objects A !! (tree, tid, id) = Some text /\ h = addObject text;
  tree_keys : forall id text, objects A !! (tree, tid, id) = Some text -> dht_value s (object_key tree tid id) = addObject text
}.

Lemma tree_frame (s s' : storage_node) (A A' : store) (tree tid : string) :
  dht_value s' (root_key (tree_key tree tid)) = dht_value s (root_key (tree_key tree tid)) ->
  (forall id, dht_value s' (object_key tree tid id) = dht_value s (object_key tree tid id)) ->
  (forall id, objects A' !! (tree, tid, id) = objects A !! (tree, tid, id)) ->
  tree_holds s A tree tid -> tree_holds s' A' tree tid.
Proof.
  intros Er Eo Ea [St Nm Ob Ke]. assert (L : tree_links s' (tree_key tree tid) = tree_links s (tree_key tree tid))
    by (unfold tree_links; now rewrite Er).
  constructor; rewrite ?L, ?Er; auto.
  - intros id h. now rewrite Ob, Ea.
  - intros id text. rewrite Ea, Eo. apply Ke.
Qed.

Lemma link_fst (l : list (string * string)) (id : string) : id ∈ map fst l <-> exists h, (id, h) ∈ l.
Proof.
  rewrite list_elem_of_fmap. split; [intros ((k & h) & -> & Hin); now exists h | intros (h & Hin); now exists (id, h)].
Qed.

Lemma tree_takes (s : storage_node) (A : store) (tree tid id : string) :
  tree_holds s A tree tid -> objects A !! (tree, tid, id) = None -> takes s (tree_key tree tid) id.
Proof.
  intros [[E|St] Nm Ob Ke] N; [now left|]. unfold takes.
  destruct (String.eqb_spec (dht_value s (root_key (tree_key tree tid))) "") as [E|E]; [now left|]. right. split; [exact St|].
  unfold names. intros (h & Hin)%link_fst. unfold tree_links in Ob. unfold root_links in Ob. rewrite (proj2 (String.eqb_neq _ _) E) in Ob.
  apply Ob in Hin as (text & T & _). congruence.
Qed.

(** Links without one name. *)
Lemma elem_of_list_filter_names (l : list (string * string)) (id k h : string) :
  (k, h) ∈ List.filter (fun p => negb (String.eqb p.1 id)) l <-> k <> id /\ (k, h) ∈ l.
Proof.
  rewrite !list_elem_of_In, filter_In. cbn. rewrite negb_true_iff, String.eqb_neq. tauto.
Qed.

Lemma nodup_filter_names (l : list (string * string)) (id : string) : NoDup (map fst l) ->
  NoDup (map fst (List.filter (fun p => negb (String.eqb p.1 id)) l)).
Proof.
  induction l as [|[k h] l IH]; [now cbn|]. cbn [map fst List.filter]. intros Hd. inversion Hd as [|? ? Hn Hd']; subst.
  destruct (String.eqb k id); cbn [negb map fst]; [now apply IH|]. constructor; [|now apply IH].
  intros (h' & Hin)%link_fst. apply Hn, link_fst. exists h'. now apply elem_of_list_filter_names in Hin.
Qed.

(** The links after a change are those of the new root. *)
Lemma changed_links (tree tid id value : string) (links : list (string * string)) (s s' : storage_node) :
  settled s' -> tree_change tree tid id value links s s' -> tree_links s' (tree_key tree tid) ≡ₚ links.
Proof. intros St [[N _] L _ _]. unfold tree_links, root_links. rewrite !St, (proj2 (String.eqb_neq _ _) N). exact L. Qed.

(** The keys of the other objects of the tree stay. *)
Lemma changed_object (tree tid id id' value : string) (links : list (string * string)) (s s' : storage_node) :
  object_tree tree -> id' <> id -> tree_change tree tid id value links s s' ->
  dht_value s' (object_key tree tid id') = dht_value s (object_key tree tid id').
Proof.
  intros Ht N C. apply kept_value, (change_frame _ _ _ _ _ _ _ C); [tree_cases; discriminate | | tree_cases; discriminate..].
  unfold object_key. intros E. apply N. tree_cases; cbn in E; injection E as E; do 3 apply string_app_cancel in E; exact E.
Qed.

(** An object more in a tree. *)
Lemma tree_added (s s' : storage_node) (A A' : store) (tree tid id text : string) :
  settled s' -> object_tree tree -> objects A !! (tree, tid, id) = None -> objects A' = <[(tree, tid, id) := text]> (objects A) ->
  tree_change tree tid id (addObject text) ((id, addObject text) :: tree_links s (tree_key tree tid)) s s' ->
  tree_holds s A tree tid -> tree_holds s' A' tree tid.
Proof.
  intros Se Ht N EA C [St Nm Ob Ke]. pose proof (changed_links _ _ _ _ _ _ _ Se C) as L.
  constructor; rewrite ?EA.
  - right. rewrite Se. apply (change_root _ _ _ _ _ _ _ C).
  - rewrite (Permutation_map fst L). cbn. constructor; [|exact Nm].
    intros (h & Hin)%link_fst. apply Ob in Hin as (t & T & _). congruence.
  - intros k h. rewrite L, elem_of_cons. setoid_rewrite lookup_insert_Some. rewrite Ob. split.
    + intros [[= -> ->]|(t & T & ->)]; [exists text; auto|]. exists t. split; [right; split; [congruence | exact T] | reflexivity].
    + intros (t & [[[= <-] <-]|[_ T]] & ->); [now left | right; now exists t].
  - intros k t. rewrite lookup_insert_Some. intros [[[= <-] <-]|[Nk T]]; [rewrite Se; apply (change_object _ _ _ _ _ _ _ C)|].
    assert (Ni : k <> id) by congruence. rewrite (changed_object _ _ _ _ _ _ _ _ Ht Ni C). now apply Ke.
Qed.

(** An object less. *)
Lemma tree_removed (s s' : storage_node) (A A' : store) (tree tid id : string) :
  settled s' -> object_tree tree -> objects A' = delete (tree, tid, id) (objects A) ->
  tree_change tree tid id "" (List.filter (fun p => negb (String.eqb p.1 id)) (tree_links s (tree_key tree tid))) s s' ->
  tree_holds s A tree tid -> tree_holds s' A' tree tid.
Proof.
  intros Se Ht EA C [St Nm Ob Ke]. pose proof (changed_links _ _ _ _ _ _ _ Se C) as L.
  constructor; rewrite ?EA.
  - right. rewrite Se. apply (change_root _ _ _ _ _ _ _ C).
  - rewrite (Permutation_map fst L). now apply nodup_filter_names.
  - intros k h. rewrite L, elem_of_list_filter_names, Ob. setoid_rewrite lookup_delete_Some. split.
    + intros [N (t & T & ->)]. exists t. split; [split; [congruence | exact T] | reflexivity].
    + intros (t & [N T] & ->). split; [congruence | now exists t].
  - intros k t. rewrite lookup_delete_Some. intros [Nk T].
    assert (Ni : k <> id) by congruence. rewrite (changed_object _ _ _ _ _ _ _ _ Ht Ni C). now apply Ke.
Qed.

(** ** The whole state *)

(** The state holds the store. *)
Record holds (s : storage_node) (A : store) : Prop := {
  holds_entity : forall tid e docs, entities A !! (tid, e) = Some docs ->
    mem "_" tid = false /\ represents s tid e docs /\ documents docs;
  holds_tenant : forall tree tid id text, objects A !! (tree, tid, id) = Some text -> object_tree tree /\ mem "_" tid = false;
  holds_tree : forall tree tid, object_tree tree -> mem "_" tid = false -> tree_holds s A tree tid
}.

(** A change of one tree leaves the others. *)
Lemma other_tree (s s' : storage_node) (A A' : store) (tree tid id value tree' tid' : string) (links : list (string * string)) :
  object_tree tree -> object_tree tree' -> mem "_" tid = false -> mem "_" tid' = false -> (tree', tid') <> (tree, tid) ->
  tree_change tree tid id value links s s' ->
  (forall i, objects A' !! (tree', tid', i) = objects A !! (tree', tid', i)) ->
  tree_holds s A tree' tid' -> tree_holds s' A' tree' tid'.
Proof.
  intros Ht Ht' U U' N C EA. apply tree_frame; [| |exact EA].
  - apply kept_value, (change_frame _ _ _ _ _ _ _ C); [|tree_cases; discriminate..].
    intros K. apply N. now destruct (tree_key_inj _ _ _ _ Ht' Ht K) as [-> ->].
  - intros i. apply kept_value, (change_frame _ _ _ _ _ _ _ C); [tree_cases; discriminate | | tree_cases; discriminate..].
    intros K. apply N. now destruct (object_key_inj _ _ _ _ _ _ Ht' Ht U' U K) as (-> & -> & _).
Qed.

(** Keys of trees and objects stay when an entity is written. *)
Lemma tree_untouched (s s' : storage_node) (A A' : store) (tree tid : string) :
  object_tree tree -> objects A' = objects A ->
  (forall key, (forall t e, key <> entity_key t e) -> (forall t e k, key <> document_key t e k) -> kept s s' key) ->
  tree_holds s A tree tid -> tree_holds s' A' tree tid.
Proof.
  intros Ht EA F. apply tree_frame; [| |now rewrite EA]; [|intros id]; apply kept_value, F; intros; tree_cases; discriminate.
Qed.

Lemma tree_change_entity (s s' : storage_node) (tree tid id value tid' e : string) (links : list (string * string)) :
  object_tree tree -> tree_change tree tid id value links s s' ->
  (tree = "template" -> entity_key tid' e <> entity_key tid id) -> kept s s' (entity_key tid' e).
Proof. intros Ht C N. apply (change_frame _ _ _ _ _ _ _ C); [tree_cases; discriminate.. | exact N]. Qed.

(** The entities after a change: each is as it was, or was written. *)
Lemma entities_frame (s s' : storage_node) (m m' : gmap (string * string) (gmap string json)) : settled s' ->
  (forall tid e docs, m' !! (tid, e) = Some docs -> m !! (tid, e) = Some docs /\ kept s s' (entity_key tid e) \/
     mem "_" tid = false /\ written s' tid e docs /\ documents docs) ->
  (forall tid e docs, m !! (tid, e) = Some docs -> mem "_" tid = false /\ represents s tid e docs /\ documents docs) ->
  forall tid e docs, m' !! (tid, e) = Some docs -> mem "_" tid = false /\ represents s' tid e docs /\ documents docs.
Proof.
  intros Se F Ho tid e docs E. destruct (F _ _ _ E) as [[E' K]|(U & W & D)].
  - destruct (Ho _ _ _ E') as (U & R & D). split; [exact U | split; [|exact D]]. now apply (represents_frame s).
  - split; [exact U | split; [now apply written_settled | exact D]].
Qed.

(** The trees after an object was added or removed. *)
Lemma trees_added (s s' : storage_node) (A A' : store) (tree tid id text : string) :
  settled s' -> holds s A -> object_tree tree -> mem "_" tid = false -> objects A !! (tree, tid, id) = None ->
  objects A' = <[(tree, tid, id) := text]> (objects A) ->
  tree_change tree tid id (addObject text) ((id, addObject text) :: tree_links s (tree_key tree tid)) s s' ->
  forall tree' tid', object_tree tree' -> mem "_" tid' = false -> tree_holds s' A' tree' tid'.
Proof.
  intros Se Ho Ht U N EA C tree' tid' Ht' U'. pose proof (holds_tree _ _ Ho tree' tid' Ht' U') as T.
  destruct (decide ((tree', tid') = (tree, tid))) as [[= -> ->]|Nt]; [now apply (tree_added s s' A A' tree tid id text)|].
  apply (other_tree s s' A A' tree tid id _ tree' tid' _ Ht Ht' U U' Nt C); [|exact T].
  intros i. rewrite EA. apply lookup_insert_ne. congruence.
Qed.

Lemma trees_removed (s s' : storage_node) (A A' : store) (tree tid id : string) :
  settled s' -> holds s A -> object_tree tree -> mem "_" tid = false -> objects A' = delete (tree, tid, id) (objects A) ->
  tree_change tree tid id "" (List.filter (fun p => negb (String.eqb p.1 id)) (tree_links s (tree_key tree tid))) s s' ->
  forall tree' tid', object_tree tree' -> mem "_" tid' = false -> tree_holds s' A' tree' tid'.
Proof.
  intros Se Ho Ht U EA C tree' tid' Ht' U'. pose proof (holds_tree _ _ Ho tree' tid' Ht' U') as T.
  destruct (decide ((tree', tid') = (tree, tid))) as [[= -> ->]|Nt]; [now apply (tree_removed s s' A A' tree tid id)|].
  apply (other_tree s s' A A' tree tid id _ tree' tid' _ Ht Ht' U U' Nt C); [|exact T].
  intros i. rewrite EA. apply lookup_delete_ne. congruence.
Qed.

(** An object of the store is linked, so its tree exists. *)
Lemma object_linked (s : storage_node) (A : store) (tree tid id text : string) :
  holds s A -> objects A !! (tree, tid, id) = Some text ->
  let root := dht_value s (root_key (tree_key tree tid)) in
  stored root /\ NoDup (names root) /\ id ∈ names root /\ tree_links s (tree_key tree tid) = object_links root.
Proof.
  intros Ho E root. destruct (holds_tenant _ _ Ho _ _ _ _ E) as [Ht U]. destruct (holds_tree _ _ Ho tree tid Ht U) as [St Nm Ob _].
  assert (Hin : (id, addObject text) ∈ tree_links s (tree_key tree tid)) by (apply Ob; now exists text).
  assert (L : tree_links s (tree_key tree tid) = object_links root).
  { unfold tree_links, root_links in *. fold root in Hin |- *. destruct (String.eqb root ""); [now apply elem_of_nil in Hin | reflexivity]. }
  rewrite L in *. unfold names. split; [|split; [exact Nm | split; [apply link_fst; eauto | reflexivity]]].
  destruct St as [E0|St]; [|exact St]. unfold tree_links, root_links in L. rewrite E0 in L. cbn in L. fold root in E0.
  rewrite <- L in Hin. now apply elem_of_nil in Hin.
Qed.

Ltac split_holds := constructor; cbn [objects entities].

(** What a request leads to: it is executed, and once readers get what it put, the state holds the new
    store. *)
Definition leads_to (s : storage_node) (r : request) (A' : store) : Prop :=
  exists s', execute r s = (s', Ok tt) /\ (settled s' -> holds s' A').

Lemma document_holds (s : storage_node) (A : store) (r : request) (e : string) (docs docs' : gmap string json) :
  holds s A -> source r <> "1" -> entities A !! (tenant r, e) = Some docs -> updates e (guid r) docs (command r) docs' ->
  leads_to s r (mkStore (objects A) (<[(tenant r, e) := docs']> (entities A))).
Proof.
  intros Ho Hs E Hu. destruct (holds_entity _ _ Ho _ _ _ E) as (U & R & D).
  destruct (entity_step memory (source r) (channel r) (txid r) (tenant r) e (guid r) (command r) docs docs' s R D Hu Hs)
    as (s' & Ex & R' & D' & F).
  exists s'. split; [exact Ex|]. intros Se. split_holds.
  - apply (entities_frame s s' (entities A)); [exact Se | | exact (holds_entity _ _ Ho)].
    intros tid2 e2 d2. rewrite lookup_insert_Some. intros [[[= <- <-] <-]|[N E2]]; [now right|]. left. split; [exact E2|].
    destruct (holds_entity _ _ Ho _ _ _ E2) as (U2 & _). apply F; [|discriminate].
    intros K. apply N. now destruct (entity_key_inj _ _ _ _ U2 U K) as [-> ->].
  - exact (holds_tenant _ _ Ho).
  - intros tree tid Ht Ut. apply (tree_untouched s s' A); [exact Ht | reflexivity | | now apply (holds_tree _ _ Ho)].
    intros key N1 N2. apply F; auto.
Qed.

Lemma tenants_insert (A : store) (tree tid id text : string) :
  (forall tree tid id text, objects A !! (tree, tid, id) = Some text -> object_tree tree /\ mem "_" tid = false) ->
  object_tree tree -> mem "_" tid = false ->
  forall tree' tid' id' text', <[(tree, tid, id) := text]> (objects A) !! (tree', tid', id') = Some text' ->
    object_tree tree' /\ mem "_" tid' = false.
Proof.
  intros Ho Ht U tree' tid' id' text'. rewrite lookup_insert_Some. intros [[[= <- <- <-] _]|[_ E]]; [now split | exact (Ho _ _ _ _ E)].
Qed.

(** The entities of others stay when the template of one is added or deleted. *)
Lemma other_entity (s s' : storage_node) (tid id value tid2 e2 : string) (links : list (string * string)) :
  tree_change "template" tid id value links s s' -> mem "_" tid = false -> mem "_" tid2 = false ->
  (tid, id) <> (tid2, e2) -> kept s s' (entity_key tid2 e2).
Proof.
  intros C U U2 N. apply (tree_change_entity s s' _ _ _ _ tid2 e2 _ (or_introl eq_refl) C).
  intros _ K. apply N. now destruct (entity_key_inj _ _ _ _ U2 U K) as [-> ->].
Qed.

Lemma new_template_holds (s : storage_node) (A : store) (r : request) (text : string) :
  holds s A -> source r <> "1" -> command r = ["1"; text] -> mem "_" (tenant r) = false ->
  objects A !! ("template", tenant r, guid r) = None ->
  leads_to s r (mkStore (<[("template", tenant r, guid r) := base64_decode text]> (objects A))
                        (<[(tenant r, guid r) := ∅]> (entities A))).
Proof.
  intros Ho Hs Hc U N. assert (Ht : object_tree "template") by now left.
  destruct (template_step memory (source r) (channel r) (txid r) (tenant r) (guid r) text s Hs
    (tree_takes s A _ _ _ (holds_tree _ _ Ho _ _ Ht U) N)) as (s' & Ex & R & C).
  exists s'. split; [unfold execute; now rewrite Hc|]. intros Se. split_holds.
  - apply (entities_frame s s' (entities A)); [exact Se | | exact (holds_entity _ _ Ho)].
    intros tid2 e2 d2. rewrite lookup_insert_Some. intros [[[= <- <-] <-]|[Ne E2]].
    + right. split; [exact U | split; [exact R|]]. intros k d. now rewrite lookup_empty.
    + left. split; [exact E2|]. destruct (holds_entity _ _ Ho _ _ _ E2) as (U2 & _). exact (other_entity _ _ _ _ _ _ _ _ C U U2 Ne).
  - apply tenants_insert; [exact (holds_tenant _ _ Ho) | exact Ht | exact U].
  - refine (trees_added s s' A _ "template" (tenant r) (guid r) (base64_decode text) Se Ho Ht U N _ C); reflexivity.
Qed.

(** A function is not the key of an entity. *)
Lemma function_entity (s s' : storage_node) (tid id value : string) (links : list (string * string)) :
  tree_change "function" tid id value links s s' -> forall tid2 e2, kept s s' (entity_key tid2 e2).
Proof. intros C tid2 e2. apply (tree_change_entity s s' _ _ _ _ tid2 e2 _ (or_intror eq_refl) C). discriminate. Qed.

Lemma new_function_holds (s : storage_node) (A : store) (r : request) (text : string) :
  holds s A -> source r <> "1" -> command r = ["3"; text] -> mem "_" (tenant r) = false ->
  objects A !! ("function", tenant r, guid r) = None ->
  leads_to s r (mkStore (<[("function", tenant r, guid r) := base64_decode text]> (objects A)) (entities A)).
Proof.
  intros Ho Hs Hc U N. assert (Ht : object_tree "function") by now right.
  destruct (child_linked (source r) (channel r) (txid r) (tenant r) "function" (base64_decode text) (guid r) s Ht Hs
    (tree_takes s A _ _ _ (holds_tree _ _ Ho _ _ Ht U) N)) as (s' & Ex & C).
  exists s'. split; [|intros Se; split_holds].
  - unfold execute. rewrite Hc. apply execute_ok.
    change (catch (addChildNode (source r) (channel r) (txid r) (tenant r) "function" (base64_decode text) (guid r)) (mret tt) s = (s', Ok tt)).
    unfold catch. now rewrite Ex.
  - apply (entities_frame s s' (entities A)); [exact Se | | exact (holds_entity _ _ Ho)].
    intros tid2 e2 d2 E2. left. split; [exact E2 | exact (function_entity _ _ _ _ _ _ C tid2 e2)].
  - apply tenants_insert; [exact (holds_tenant _ _ Ho) | exact Ht | exact U].
  - refine (trees_added s s' A _ "function" (tenant r) (guid r) (base64_decode text) Se Ho Ht U N _ C); reflexivity.
Qed.

Lemma unlinked (s : storage_node) (A : store) (r : request) (tree id text : string) :
  holds s A -> source r <> "1" -> objects A !! (tree, tenant r, id) = Some text ->
  exists s', deleteObject (source r) tree (channel r) (txid r) (tenant r) id s =
      when (String.eqb tree "template") (dhtPut (entity_key (tenant r) id) "") s' /\
    tree_change tree (tenant r) id "" (List.filter (fun p => negb (String.eqb p.1 id)) (tree_links s (tree_key tree (tenant r)))) s s'.
Proof.
  intros Ho Hs E. destruct (holds_tenant _ _ Ho _ _ _ _ E) as [Ht U].
  destruct (object_linked s A tree (tenant r) id text Ho E) as (St & Nd & Hin & L). rewrite L.
  exact (child_unlinked (source r) (channel r) (txid r) (tenant r) tree id s Ht Hs St Nd Hin).
Qed.

Lemma tenants_delete (A : store) (k : string * string * string) :
  (forall tree tid id text, objects A !! (tree, tid, id) = Some text -> object_tree tree /\ mem "_" tid = false) ->
  forall tree tid id text, delete k (objects A) !! (tree, tid, id) = Some text -> object_tree tree /\ mem "_" tid = false.
Proof. intros Ho tree tid id text. rewrite lookup_delete_Some. intros [_ E]. exact (Ho _ _ _ _ E). Qed.

Lemma delete_template_holds (s : storage_node) (A : store) (r : request) (id text : string) :
  holds s A -> source r <> "1" -> command r = ["7"; id] -> objects A !! ("template", tenant r, id) = Some text ->
  leads_to s r (mkStore (delete ("template", tenant r, id) (objects A)) (delete (tenant r, id) (entities A))).
Proof.
  intros Ho Hs Hc E. destruct (holds_tenant _ _ Ho _ _ _ _ E) as [Ht U].
  destruct (unlinked s A r "template" id text Ho Hs E) as (s1 & Ex & C1).
  pose proof (change_entity _ _ _ "" _ _ _ C1) as C.
  exists (put_value (entity_key (tenant r) id) "" s1). split; [|intros Se; split_holds].
  - unfold execute. rewrite Hc. apply execute_ok.
    change (deleteObject (source r) "template" (channel r) (txid r) (tenant r) id s = (put_value (entity_key (tenant r) id) "" s1, Ok tt)).
    now rewrite Ex.
  - apply (entities_frame s _ (entities A)); [exact Se | | exact (holds_entity _ _ Ho)].
    intros tid2 e2 d2. rewrite lookup_delete_Some. intros [Ne E2]. left. split; [exact E2|].
    destruct (holds_entity _ _ Ho _ _ _ E2) as (U2 & _). exact (other_entity _ _ _ _ _ _ _ _ C U U2 Ne).
  - apply tenants_delete. exact (holds_tenant _ _ Ho).
  - refine (trees_removed s _ A _ "template" (tenant r) id Se Ho Ht U _ C); reflexivity.
Qed.

Lemma delete_function_holds (s : storage_node) (A : store) (r : request) (id text : string) :
  holds s A -> source r <> "1" -> command r = ["9"; id] -> objects A !! ("function", tenant r, id) = Some text ->
  leads_to s r (mkStore (delete ("function", tenant r, id) (objects A)) (entities A)).
Proof.
  intros Ho Hs Hc E. destruct (holds_tenant _ _ Ho _ _ _ _ E) as [Ht U].
  destruct (unlinked s A r "function" id text Ho Hs E) as (s' & Ex & C).
  exists s'. split; [|intros Se; split_holds].
  - unfold execute. rewrite Hc. apply execute_ok.
    change (deleteObject (source r) "function" (channel r) (txid r) (tenant r) id s = (s', Ok tt)). now rewrite Ex.
  - apply (entities_frame s s' (entities A)); [exact Se | | exact (holds_entity _ _ Ho)].
    intros tid2 e2 d2 E2. left. split; [exact E2 | exact (function_entity _ _ _ _ _ _ C tid2 e2)].
  - apply tenants_delete. exact (holds_tenant _ _ Ho).
  - refine (trees_removed s s' A _ "function" (tenant r) id Se Ho Ht U _ C); reflexivity.
Qed.

Lemma step_holds (s : storage_node) (A A' : store) (r : request) :
  holds s A -> source r <> "1" -> store_step A r A' -> leads_to s r A'.
Proof.
  intros Ho Hs []; eauto using document_holds, new_template_holds, new_function_holds, delete_template_holds, delete_function_holds.
Qed.

(** After each of the requests, a reader gets of every key the value put last: a condition on the run, which
    OpenDHT does not promise. *)
Definition settles (s : storage_node) (rs : list request) : Prop :=
  forall done rest s1, rs = (done ++ rest)%list -> done <> [] -> execute_all done s = (s1, Ok tt) -> settled s1.

Lemma settles_cons (s s1 : storage_node) (r : request) (rs : list request) :
  settles s (r :: rs) -> execute r s = (s1, Ok tt) -> settled s1 /\ settles s1 rs.
Proof.
  intros Hr E. split.
  - apply (Hr [r] rs); [reflexivity | discriminate |]. cbn [execute_all]. now rewrite (bind_ok _ _ _ _ _ E).
  - intros done rest s2 -> _ E2. apply (Hr (r :: done) rest); [reflexivity | discriminate |].
    cbn [execute_all]. now rewrite (bind_ok _ _ _ _ _ E).
Qed.

Lemma run_holds (rs : list request) (s : storage_node) (A A' : store) :
  holds s A -> Forall (fun r => source r <> "1") rs -> store_run A rs A' -> settles s rs ->
  exists s', execute_all rs s = (s', Ok tt) /\ holds s' A'.
Proof.
  intros Ho Hs Hr. revert s Ho Hs. induction Hr as [A|A A1 A2 r rs St Hr IH]; intros s Ho Hs Hse; [now exists s|].
  apply Forall_cons in Hs as [Hr1 Hs]. destruct (step_holds s A A1 r Ho Hr1 St) as (s1 & E1 & Ho1).
  destruct (settles_cons s s1 r rs Hse E1) as [Se1 Hse1].
  destruct (IH s1 (Ho1 Se1) Hs Hse1) as (s2 & E2 & Ho2). exists s2. split; [|exact Ho2].
  cbn [execute_all]. now rewrite (bind_ok _ _ _ _ _ E1).
Qed.

(** C10: The storage node implements a store of objects and documents, for tenants without an underscore
    in their names, as long as the DHT answers with the values put last. A sequence of commands that
    add and delete templates (and start and end their entities), add and delete functions, add
    documents, and update and delete documents by the filter that names one, each relayed by another
    node to a node whose IPFS server answers, is executed without an exception and updates the
    abstract store step by step, if after each command a reader gets of every key the value put last
    ([settles]); OpenDHT does not promise that, and without it an acknowledged document can be lost
    ([stale_root_loses]). Afterwards the key of every template and function names its text, and a
    filter of an identifier finds in every entity exactly the document the store has. *)
Theorem store_refines (rs : list request) (s : storage_node) (A A' : store)
    (Ho : holds s A) (Hs : Forall (fun r => source r <> "1") rs) (Hr : store_run A rs A') (Hse : settles s rs) :
  exists s', execute_all rs s = (s', Ok tt) /\ holds s' A' /\
    (forall tree tid id text, objects A' !! (tree, tid, id) = Some text ->
      fetchObject (dht_value s' (object_key tree tid id)) = text) /\
    forall tid e docs k, entities A' !! (tid, e) = Some docs -> mem QUOTE k = false ->
      searchDocument memory (dht_value s') tid e (by_id k) =
      Ok (match docs !! k with Some d => JArr [d] | None => JStr "" end).
Proof.
  destruct (run_holds rs s A A' Ho Hs Hr Hse) as (s' & E & Ho'). exists s'. split; [exact E | split; [exact Ho' | split]].
  - intros tree tid id text El. destruct (holds_tenant _ _ Ho' _ _ _ _ El) as [Ht U].
    rewrite (tree_keys _ _ _ _ (holds_tree _ _ Ho' tree tid Ht U) id text El). apply addObject_stored.
  - intros tid e docs k El Hk. apply search_by_id; [|exact Hk]. apply (holds_entity _ _ Ho' _ _ _ El).
Qed.

(** Without that proviso two tenants share an entity: the keys of entity [b_c] of tenant [a] and of
    entity [c] of tenant [a_b] are the same. *)
Lemma tenants_collide (s : storage_node) (docs : gmap string json) (a b c : string) :
  represents s (a +:+ String "_" b) c docs <-> represents s a (b +:+ String "_" c) docs.
Proof.
  assert (K : entity_key (a +:+ String "_" b) c = entity_key a (b +:+ String "_" c))
    by (unfold entity_key; now autorewrite with strings).
  unfold represents. now rewrite K.
Qed.
End Tenants.

(** ** Two tenants *)

Section Witnesses.
#[local] Existing Instance packed_server.
#[local] Existing Instance packed_online.
#[local] Existing Instance put_order.
#[local] Existing Instance key_order.
#[local] Existing Instance sample_services.

Lemma empty_holds : holds empty_storage (mkStore ∅ ∅).
Proof.
  constructor; cbn [objects entities]; [intros tid e docs; now rewrite lookup_empty | intros tree tid id text; now rewrite lookup_empty|].
  intros tree tid _ _. constructor; cbn [objects]; [now left | constructor | |].
  - intros id h. split; [intros Hin; now apply elem_of_nil in Hin|]. intros (text & E & _). now rewrite lookup_empty in E.
  - intros id text. now rewrite lookup_empty.
Qed.

Definition new_ann : json := object [("name", JStr "Ann")].
Definition ann_text : string := Eval vm_compute in match dump new_ann with Ok t => t | Throw _ => "" end.

(** Two tenants start an entity of the same name, the first adds a document to it, and the second
    adds a function and deletes its template. *)
Definition requests : list request :=
  [mkRequest "2" "c" "tx1" "t" "e" ["1"; "person"]; mkRequest "3" "c" "tx2" "u" "e" ["1"; "person"];
   mkRequest "2" "c" "tx3" "t" "g" ["2"; "e"; ann_text]; mkRequest "3" "c" "tx4" "u" "f" ["3"; "code"];
   mkRequest "3" "c" "tx5" "u" "h" ["7"; "e"]].

Definition opened : store := mkStore (<[("template", "t", "e") := "person"]> ∅) (<[("t", "e") := ∅]> ∅).

Definition started : store :=
  mkStore (<[("template", "u", "e") := "person"]> (objects opened)) (<[("u", "e") := ∅]> (entities opened)).

Definition written : store :=
  mkStore (objects started) (<[("t", "e") := <["g" := object [("id", JStr "g"); ("name", JStr "Ann")]]> ∅]> (entities started)).

Definition filled : store := mkStore (<[("function", "u", "f") := "code"]> (objects written)) (entities written).

Definition final_store : store :=
  mkStore (delete ("template", "u", "e") (objects filled)) (delete ("u", "e") (entities filled)).

Lemma store_refines_witness : exists s', execute_all 10 requests empty_storage = (s', Ok tt) /\
  fetchObject (dht_value s' (object_key "function" "u" "f")) = "code" /\
  searchDocument 10 (dht_value s') "t" "e" (by_id "g") = Ok (JArr [object [("id", JStr "g"); ("name", JStr "Ann")]]).
Proof.
  destruct (store_refines 10 requests empty_storage (mkStore ∅ ∅) final_store empty_holds)
    as (s' & E & _ & O & Q).
  - repeat constructor; discriminate.
  - apply (run_cons _ opened); [|apply (run_cons _ started); [|apply (run_cons _ written); [|
      apply (run_cons _ filled); [|apply (run_cons _ final_store); [|apply run_nil]]]]].
    + exact (new_template (mkStore ∅ ∅) (mkRequest "2" "c" "tx1" "t" "e" ["1"; "person"]) "person" eq_refl eq_refl eq_refl).
    + exact (new_template opened (mkRequest "3" "c" "tx2" "u" "e" ["1"; "person"]) "person" eq_refl eq_refl eq_refl).
    + refine (document_command started (mkRequest "2" "c" "tx3" "t" "g" ["2"; "e"; ann_text]) "e" ∅ _ eq_refl _).
      eapply (adds "e" "g" ∅ ann_text [("name", JStr "Ann")]); vm_compute; reflexivity.
    + exact (new_function written (mkRequest "3" "c" "tx4" "u" "f" ["3"; "code"]) "code" eq_refl eq_refl eq_refl).
    + exact (delete_template filled (mkRequest "3" "c" "tx5" "u" "h" ["7"; "e"]) "e" "person" eq_refl eq_refl).
  - intros done rest s1 _ _ _. apply put_settled.
  - exists s'. split; [exact E | split]; [apply O; reflexivity|].
    rewrite (Q "t" "e" {[ "g" := object [("id", JStr "g"); ("name", JStr "Ann")] ]} "g" eq_refl eq_refl). reflexivity.
Defined.
End Witnesses.
