(* ===== verification/Helpers.v ===== *)
(** * Classes nothing uses

    [Util] of src/MasterNodeLib/Util.cpp, which reads maps from text, and [Block] of
    src/StorageNode/Block.cpp, an earlier form of the blocks the storage node commits. They are part
    of the programs, but no other code calls them. *)

From Stdlib Require Import ZArith Lia List Bool Ascii String.
From stdpp Require Import base gmap strings list.
From S2P Require Import Prelude.
From S2P Require Import Machine.
From S2P Require Import Cpp.
From S2P Require Import Lexer.

Open Scope string_scope.

Module Util.

(** [std::getline] with a delimiter until the stream fails: a piece behind the last delimiter
    counts only when it is not empty. *)
Fixpoint tokens (delimiter : ascii) (token s : string) : list string :=
  match s with
  | EmptyString => if String.eqb token "" then [] else [token]
  | String c s' =>
      if Ascii.eqb c delimiter then token :: tokens delimiter "" s'
      else tokens delimiter (token ++ String c "") s'
  end.

Definition split (s : string) (delimiter : ascii) : list string := tokens delimiter "" s.

(** The loop of [stringToMap]: [data[1]] has no check, and [insert] keeps the first of equal keys. *)
Fixpoint insert_all (list : list string) (inputMap : gmap string string) : result (gmap string string) :=
  match list with
  | [] => Ok inputMap
  | entry :: list' =>
      match split entry ":" with
      | k :: v :: _ =>
          insert_all list' (match inputMap !! k with Some _ => inputMap | None => <[k := v]> inputMap end)
      | _ => Throw undefined
      end
  end.

Definition stringToMap (s : string) (delimiter : ascii) : result (gmap string string) :=
  insert_all (split s delimiter) ∅.

Lemma tokens_piece (c : ascii) (token p s : string) : mem c p = false ->
  tokens c token (p ++ String c s) = (token ++ p) :: tokens c "" s.
Proof.
  revert token; induction p as [|x p IH]; intros token H.
  - rewrite string_app_nil_l, string_app_nil_r. cbn. now rewrite Ascii.eqb_refl.
  - cbn [mem] in H. apply orb_false_iff in H as [N H]. rewrite string_app_cons. cbn [tokens].
    rewrite Ascii.eqb_sym, N, IH by exact H. now autorewrite with strings.
Qed.

Lemma tokens_last (c : ascii) (token p : string) : mem c p = false -> token ++ p <> "" ->
  tokens c token p = [token ++ p].
Proof.
  revert token; induction p as [|x p IH]; intros token H N.
  - rewrite string_app_nil_r in *. cbn. now rewrite (proj2 (String.eqb_neq _ _) N).
  - cbn [mem] in H. apply orb_false_iff in H as [Nx H]. cbn [tokens]. rewrite Ascii.eqb_sym, Nx.
    rewrite IH; [now autorewrite with strings | exact H |]. autorewrite with strings. now destruct token.
Qed.

(** An entry of the text. *)
Lemma split_entry (k v : string) : mem ":" k = false -> mem ":" v = false -> v <> "" ->
  split (k ++ String ":" v) ":" = [k; v].
Proof. intros Hk Hv N. unfold split. rewrite tokens_piece by exact Hk. now rewrite tokens_last. Qed.

(** A text of one entry is read as the map of that entry. *)
Lemma map_of_entry (k v : string) (delimiter : ascii) : delimiter <> ":"%char ->
  mem ":" k = false -> mem ":" v = false -> v <> "" -> mem delimiter k = false -> mem delimiter v = false ->
  stringToMap (k ++ String ":" v) delimiter = Ok {[ k := v ]}.
Proof.
  intros Nd Hk Hv N Dk Dv. unfold stringToMap, split at 1. rewrite tokens_last.
  - cbn [insert_all]. change ("" ++ k ++ String ":" v) with (k ++ String ":" v).
    rewrite split_entry by assumption. now rewrite lookup_empty.
  - rewrite mem_app. cbn [mem]. rewrite Dk, Dv, (proj2 (Ascii.eqb_neq _ _) Nd). reflexivity.
  - destruct k; discriminate.
Qed.
End Util.

Module Block.

Record Block := mkBlock { number : string; hash : string; jsonString : string; totalVerified : Z }.

(** The constructors. [number] is a string, and assigning an [int] to a string makes it the one
    character with that code. *)
Definition assign_number (number : Z) : string := String (chr (number mod 256)) "".
Definition new_block (number : Z) (hash : string) : Block := mkBlock (assign_number number) hash "" 1.
Definition new_block_data (number : Z) (hash data : string) : Block := mkBlock (assign_number number) hash data 1.

Definition setString (data : string) (b : Block) : Block := mkBlock (number b) (hash b) data (totalVerified b).

(** The counter is an [int] that does not overflow in what the code does. *)
Definition incrementTotalVerified (b : Block) : Block :=
  mkBlock (number b) (hash b) (jsonString b) (totalVerified b + 1).

Definition verifyHash (h : string) (b : Block) : bool * Block :=
  if String.eqb (hash b) h then (true, incrementTotalVerified b) else (false, b).

(** The constructor keeps eight bits of the number. *)
Lemma number_truncated (n : Z) (hash : string) : new_block (n + 256) hash = new_block n hash.
Proof. unfold new_block, assign_number. now rewrite <- (Z.mod_add n 1 256) by easy. Qed.

Lemma verifyHash_counts (h : string) (b : Block) :
  totalVerified (verifyHash h b).2 = (totalVerified b + Z.b2z (verifyHash h b).1)%Z /\
  (verifyHash h b).1 = String.eqb (hash b) h.
Proof. unfold verifyHash. destruct (String.eqb (hash b) h); cbn; split; lia || reflexivity. Qed.
End Block.
